(* ===== verification/_CoqProject ===== *)
-Q . S2P
Prelude.v
P4Runtime.v
OvsP4rt.v
EncodeUtils.v
P4InfoUtils.v
Es2kNames.v
DpdkNames.v
Logging.v
Es2kEncoders.v
DpdkEncoders.v
Client.v
Pipelines.v
Session.v
ClientImpl.v
Switch.v
Server.v
TxAccVsi.v
Es2kFdb.v
Es2kTunnel.v
Es2kIpMacMap.v
Es2kPorts.v
Dpdk.v
Conformance.v
Es2kApi.v
DpdkApi.v
Target.v
V1Utils.v
V1Encoders.v
V1.v
V1Equiv.v
V1Fdb.v
V2.v
Journal.v
JournalOutput.v
JournalApi.v
Spy.v
Threads.v
Rpc.v
Arbitration.v
NetProps.v
OwnRequests.v
Elections.v
NetSessions.v
LastCall.v
Outranked.v
SameId.v
NetExamples.v
CText.v
GnmiCtl.v
GnmiParse.v
GnmiPath.v
GnmiCommands.v
GnmiProps.v
SgnmiCli.v
Signals.v
GnmiStart.v
SgnmiStart.v
SignalProps.v
SignalClients.v
PerfSession.v
PerfTest.v
PerfProps.v
Daemon.v
DaemonKernel.v
DaemonProps.v
