(* ===== verification/Prelude.v ===== *)
(** * Verification of the ovs-p4rt sidecar, the clients and the start of
      infrap4d (networking-recipe)

    ovs-p4rt is the library through which Open vSwitch programs a P4 pipeline.
    Open vSwitch calls one of seven C functions when a MAC address is learned
    or forgotten, a tunnel, a VLAN, a source port or an IP address is
    configured; the library connects to the P4Runtime server of the switch,
    encodes table entries for the Linux Networking P4 program (there is one
    for the ES2K and one for the DPDK target) and sends reads and updates. The
    repository has three implementations, of which a build chooses one
    ([core/CMakeLists.txt]): the original one, [core/v1], by default;
    [core/v2], over [client/], with BUILD_CLIENT; [core/v3] with OVSP4RT_V3.
    The development models [core/v3] over [client/], [session/],
    [core/common/], [logging/] and [journal/], from the C API down to the stub
    of the server, proves it correct, and relates the other two to it. Paths
    below are relative to [src/ovs-p4rt/sidecar/].

    ** Files

    - [Prelude]: machine integers as [Z] with explicit conversions ([w8] ...
      [w32], [s32], [htons]), byte lists, the notations of C's bit operators.
    - [P4Runtime]: the protobuf messages as records, with the setters the code
      calls; [te_key] is the match key of an entry. The generated classes are
      not in the repository: only data and accessors appear.
    - [OvsP4rt]: [include/ovsp4rt/ovs-p4rt.h]. Unions are their storage.
    - [EncodeUtils], [P4InfoUtils]: [core/common/].
    - [Es2kNames], [DpdkNames]: [core/{es2k,dpdk}/p4_name_mapping.h].
    - [Logging]: [logging/].
    - [Es2kEncoders], [DpdkEncoders]: [core/v3/{es2k,dpdk}_encoders.cc]. An
      encoder takes the entry the C++ one takes a pointer to and returns it.
    - [Client]: [client/ovsp4rt_client_interface.h]. A function that calls the
      client is a [prog], a finite tree of calls; [run] executes it on any
      instance of the class [ClientInterface]. Such trees are finite, so every
      operation returns: no fuel appears in the model of the sidecar.
    - [Session]: [session/] and the flags of [client/]; over the class
      [P4RuntimeStub], the generated stub on an arbitrary server state.
    - [ClientImpl]: [Client] and [TestClient]. Dereferencing a null session,
      undefined in C++, raises [cl_fault].
    - [TxAccVsi], [Es2kFdb], [Es2kTunnel], [Es2kIpMacMap], [Es2kPorts],
      [Dpdk]: the operations of [core/v3/], one definition per function.
    - [Es2kApi], [DpdkApi], [JournalApi]: [core/api/].
    - [Journal], [JournalOutput]: the JSON of [journal/] and [JournalClient],
      with the lines it prints and the exceptions that end it, over the classes
      [JsonLibrary] (nlohmann::json) and [Protobuf] (the JSON form of a message).
    - [Spy]: [spies/], the test double that prints its arguments.
    - [Target], [V1Utils], [V1Encoders], [V1]: [core/v1/ovsp4rt.cc], compiled for either
      [target]. It has no client: a function is a computation [V1] on the
      server and the lines printed. [Platform] is what C++ leaves open (the
      sign of [char], reads past a string, undefined [printf] conversions).
    - [V1Equiv], [V1Fdb]: version 1 against version 3.
    - [V2]: [core/v2/], with its refinement of version 3.
    - [Threads]: several API calls at once. A pool is a list of running
      programs, each with its client, and one server; a step is one call of the
      client by one thread, in any order. Any server will do, and what happens
      inside one call, a few RPCs, is not interleaved; the files that follow
      take it apart, in front of a server that arbitrates.
    - [Rpc]: the client and the API functions once more, as programs of single
      RPCs, with the destructor that closes a session's stream;
      [rpc_client_agrees] shows that they are those of [ClientImpl].
    - [Arbitration]: the environment of these programs, which is not in the
      repository: a server with the arbitration the P4Runtime specification
      describes (for one device and one role; a controller is not promoted
      when the primary goes), and [net], a pool of API calls in front of it. A
      step is one RPC of one call, or the server looking at a message or
      noticing that a stream has closed. RPCs block, but do not get lost.
    - [NetProps]: what holds of every such pool: [net_terminates],
      [net_writes_in_order].
    - [OwnRequests]: an API function connects once and writes under the
      election id of its session ([keeps_session], for every API function).
    - [Elections]: invariants of pools of API calls: [pool_inv], that every
      stream belongs to one call and that each call and its stream are in a
      given relation; and [net_inv], its instance for calls with distinct
      election ids: at which RPC a call is, and what its stream holds.
    - [NetSessions], [LastCall]: its consequences for all calls, and for the
      one with the highest id. [Outranked]: for a call below the highest id.
    - [SameId]: the instance of [pool_inv] for calls with any election ids, and
      what becomes of the second call with one id.
    - [NetExamples]: when ids are distinct, theorems in those terms, and runs.
    - [Pipelines], [Conformance]: the P4Info files of [tests/es2k] and
      [tests/dpdk], and the validation a server makes of an entry.
    - [Switch], [Server]: the abstract specifications, described next.

    The gNMI clients of infrap4d, [src/clients/], are a part of their own:

    - [CText]: what they use of the standard libraries on text: C strings in
      memory, [strtol] and its relatives, backtracking regular expressions.
    - [GnmiCtl]: the commands of [gnmi-ctl/]: the parser that cuts up the argument in memory, the paths in arrays of 128
      characters, the requests, the commands over the class [GnmiStub]. A
      computation ([G]) can overflow an array or leave an exception uncaught.
      Its three loops have the length of their input, plus one, as fuel:
      [gnmi_ctl_terminates] shows it is never used up.
    - [GnmiParse], [GnmiPath], [GnmiCommands], [GnmiProps]: the theorems on its
      parser, its paths, its commands and on the whole of it. The specification
      is [GnmiCommands.Main_text], on texts and lists of pairs.
    - [SgnmiCli]: the commands of [sgnmi_cli/], over the class [RE2].
    - [Signals]: what can interrupt them: the main program, the handler of
      SIGINT, the thread that cancels, the pipe between them and the server's
      answers, as a system whose steps are taken in the order of a list of
      events. Programs are trees of calls with a node for the loop that reads a
      subscription (no fuel: a loop is unfolded by a step).
    - [GnmiStart], [SgnmiStart]: the two [Main]s as such programs, from their
      first line to the exit status.
    - [SignalProps], [SignalClients]: the invariant of the system, by phases of
      the main program and points of the thread, for any client with the
      structure both have; and the theorems on the two.

    The other two programs around the server:

    - [PerfSession], [PerfTest]: [src/clients/p4rt_perf_test/]: its own copy of
      sessions and encoders, the command line, the shares of the threads, and
      the threads as a pool of programs ([perf_main] runs it under a list of
      events). A program is a finite tree of calls, at most seven deep.
    - [PerfProps]: its theorems.
    - [Daemon]: [src/infrap4d/], as programs of system calls, with a node for
      the loops that retry (no fuel: a loop is unfolded by a step).
    - [DaemonKernel]: the processes, descriptors and pipes of POSIX the daemon
      runs on; a list of [choice]s is a schedule, with interruptions, failures
      and kills.
    - [DaemonProps]: its theorems.

    ** Specifications

    [Switch.SwitchClient] is what an operation relies on in its client: the
    tables of the switch are a finite map from match keys to entries; INSERT
    fails on a key that is there, DELETE on one that is not, Read of a key
    succeeds exactly when it is there (the code takes it so). Which entries
    the pipeline accepts ([sc_accepts]) is left open. Operations are verified
    against this interface, by a weakest-precondition calculus on programs;
    [operation_result] is the specification of an operation that is an ordered
    sequence of updates, [undone] of one whose deletion restores the tables.

    [Server.P4RuntimeServer] states the laws of a P4Runtime server at the level
    of the stub: arbitration, and reads and updates of a primary client. One
    law is of the deployment, that no other controller outranks the sidecar;
    the code relies on it because it does not look at the arbitration status.
    [Server] proves that [Client] over [Session] over such a server is a
    [SwitchClient], so that the theorems on operations hold of the C API, and
    gives a concrete server with the laws, [RefServer], on which the witnesses
    run with the pipeline of [Pipelines].

    ** Theorems

    - Operations refine their specifications: [DoConfigTunnelEntry_refines],
      [DoConfigFdbEntry_refines], [DoConfigVlanEntry_refines],
      [DoConfigRxTunnelSrcEntry_refines], [DoConfigTunnelSrcPortEntry_refines],
      [DoConfigSrcPortEntry_spec], [DoConfigIpMacMapEntry_spec],
      [GetTxAccVsiPort_spec], [dpdk_fdb_refines], [dpdk_tunnel_refines].
    - Deleting undoes inserting: [tunnel_insert_delete],
      [fdb_tunnel_insert_delete], [src_port_insert_delete],
      [ip_mac_insert_delete], [api_tunnel_roundtrip] from the C API to the
      server, [es2k_encoders_symmetric] for all encoders.
    - Requests fit the pipelines: [es2k_requests_conform],
      [dpdk_requests_conform], [es2k_requests_not_conforming].
    - Values: [encap_action_values], [remote_ip_param], [ip_mac_map_params],
      [src_port_match], [vni_encodings], [address_encodings], [decode_port],
      [name_resolution], [table_id_sent], [dpdk_vlan_port].
    - Sessions and clients: [Create_ok_iff], [connect_session],
      [election_id_order], [SendReadRequest_merges], [status_conversions],
      [pipeline_error_ignored], [api_no_null_session] and
      [dpdk_api_no_null_session] for any server at all,
      [JournalClient_transparent], [journal_api_transparent].
    - Versions: [v1_encoders_agree], [v1_api_agrees], [v1_fdb_agrees],
      [v1_src_port_agrees] and [v2_refines] relate [core/v1] and [core/v2] to
      [core/v3]; [v1_port_decoding] is where version 1 differs.
    - The journal: [journal_inputs_faithful], [journal_output],
      [tunnel_info_outside_params].
    - Threads: [threads_session_invariant], [threads_terminate],
      [threads_progress], and a run, [threads_partial_tunnel].
    - Threads, RPC by RPC, in front of a server that arbitrates:
      [net_no_thread_stuck] (with distinct threads or seconds every call gets
      its session and returns), [net_last_call_alone] and [net_last_tunnel]
      (the call with the highest election id works as if it were alone),
      [net_writes_in_order] (calls do not take turns in writing),
      [net_terminates]; and what the election id, the second plus the thread,
      does not achieve: a call with a higher id takes the switch over from one
      that is at work ([outranked_writes_nothing]), which leaves a part of a
      tunnel behind ([net_tunnel_cut_off]), and a thread that calls again
      within a second is refused ([net_same_id]); [net_same_second] are runs.
    - gnmi-ctl: [gnmi_ctl_refines] (the code on memory against its
      specification), [gnmi_set_spec] (from the command line to the requests),
      [client_parse_key_value_refines], [items_roundtrip],
      [gnmi_path_roundtrip], [gnmi_set_number], [gnmi_get_bounds] (when an array
      overflows), [gnmi_del_ignores_node], [gnmi_ctl_terminates];
      [path_readers_agree] compares its paths with those of sgnmi_cli.
    - Both gNMI clients, over all schedules: without an interrupt they do what
      the commands of [GnmiCtl] and [SgnmiCli] do ([gnmi_ctl_uninterrupted],
      [sgnmi_uninterrupted]); SIGINT ends a call of sgnmi_cli that blocks
      ([sgnmi_interrupt_ends]) and no call of gnmi-ctl
      ([gnmi_ctl_ignores_interrupts]: its thread cancels the wrong context);
      both end with thread and pipe closed ([gnmi_ctl_cleans_up],
      [sgnmi_cleans_up]).
    - p4rt_perf_test: [perf_add_delete] and [perf_shares_whole], from the
      command line to the tables of the server, [perf_partition],
      [perf_terminates], [perf_ignores_write_errors], [perf_Create_agrees]
      (its sessions are those of the sidecar without a role),
      [perf_lost_entries].
    - infrap4d: [daemon_parent_ends], [daemon_parent_exits] and
      [daemon_environment] over all schedules of parent and child, interrupted
      and killed at will, in which no system call fails, by an invariant of the
      reachable states; [daemon_fork_fails], [daemon_pipe_fails],
      [daemon_notify_fails] and [daemon_open_fails] are runs in which one does,
      and end otherwise; [transfer_in_full],
      [close_standard_fds], [daemonize_complete_once] over any answers of the
      kernel.
    - Behaviour a reader would not expect, proved as it is:
      [fdb_vlan_rx_leak] (the receive-side entry of a VLAN MAC is never
      deleted), [fdb_known_mac_noop] (a MAC that moved is not updated),
      [tunnel_partial_insert] (no rollback), [term_decap_vlan_push]
      (termination and decapsulation disagree in four VLAN modes),
      [unsupported_tunnel_type_no_effect], [vlan_keys_collide],
      [ValidIpAddr_spec], and the dependence of the destination entry on the
      source address in [DoConfigIpMacMapEntry_spec].

    ** Not modelled

    Tests are test code. krnlmon and the server that infrap4d starts are other
    projects; [clients/p4rt-ctl] is a Python program. gflags, [InitGoogle] and
    stratum's credentials manager, which the clients call first, are parameters,
    and the pipe of the signals is taken never to be full. gRPC, the generated
    protobuf code, RE2, the JSON library, the file
    system and the clock are parameters ([P4RuntimeStub], [GnmiStub],
    [Protobuf], [RE2], [JsonLibrary], [Env]). [Journal::saveEntry] does nothing
    in the source. *)

From Stdlib Require Export ZArith Lia.
From stdpp Require Export base list numbers strings option.

#[global] Open Scope Z_scope.

(** Division and remainder by literals are in the fragment [lia] decides. *)
Ltac Zify.zify_post_hook ::= Z.to_euclidean_division_equations.

(** ** Notations of the development

    The bit operators of C, used in the definitions where the source uses
    them ([>>] is stdpp's [≫]). *)
Declare Scope c_scope.
Delimit Scope c_scope with c.
Infix ".&" := Z.land (at level 45, left associativity) : c_scope.
Infix ".|" := Z.lor (at level 46, left associativity) : c_scope.
Infix "<<." := Z.shiftl (at level 44, left associativity) : c_scope.
Infix ">>." := Z.shiftr (at level 44, left associativity) : c_scope.
#[global] Open Scope c_scope.

(** ** Machine integers

    A C integer is a [Z]; each conversion that can change the value is
    written out with one of these functions. *)
Definition w8 (z : Z) : Z := z mod 256.
Definition w16 (z : Z) : Z := z mod 65536.
Definition w32 (z : Z) : Z := z mod 4294967296.
Definition w64 (z : Z) : Z := z mod 18446744073709551616.

(** Conversion to a signed type of the same width (two's complement). *)
Definition s8 (z : Z) : Z := (z + 128) mod 256 - 128.
Definition s32 (z : Z) : Z := (z + 2147483648) mod 4294967296 - 2147483648.

(** A byte string: the [std::string] value of a protobuf [bytes] field. *)
Abbreviation bytes := (list Z).

Definition is_byte (b : Z) : Prop := 0 <= b < 256.

#[export] Instance is_byte_dec b : Decision (is_byte b).
Proof. unfold is_byte. apply _. Defined.

(** The number a P4Runtime byte string denotes: big-endian, any length. *)
Fixpoint be_acc (acc : Z) (bs : bytes) : Z :=
  match bs with
  | [] => acc
  | b :: bs => be_acc (acc * 256 + b) bs
  end.

Definition be_val (bs : bytes) : Z := be_acc 0 bs.

(** The number the bytes of an object in memory denote on the (little-endian)
    host. *)
Fixpoint le_val (bs : bytes) : Z :=
  match bs with
  | [] => 0
  | b :: bs => b + 256 * le_val bs
  end.

(** ** Tactics *)

(** Turn C bit operations with literal masks and shifts into arithmetic. *)
Ltac bits_to_arith :=
  repeat match goal with
  | |- context [Z.land ?x 255] =>
      replace (Z.land x 255) with (x mod 256) by (symmetry; apply (Z.land_ones x 8); done)
  | |- context [Z.land ?x 15] =>
      replace (Z.land x 15) with (x mod 16) by (symmetry; apply (Z.land_ones x 4); done)
  | |- context [Z.shiftr ?x 8] =>
      replace (Z.shiftr x 8) with (x / 256) by (symmetry; apply (Z.shiftr_div_pow2 x 8); done)
  | |- context [Z.shiftr ?x 16] =>
      replace (Z.shiftr x 16) with (x / 65536) by (symmetry; apply (Z.shiftr_div_pow2 x 16); done)
  | |- context [Z.shiftr ?x 24] =>
      replace (Z.shiftr x 24) with (x / 16777216) by (symmetry; apply (Z.shiftr_div_pow2 x 24); done)
  | |- context [Z.shiftl ?x 8] =>
      replace (Z.shiftl x 8) with (x * 256) by (symmetry; apply (Z.shiftl_mul_pow2 x 8); done)
  end.

(** Close a goal about machine integers. *)
Ltac machine_int :=
  unfold w8, w16, w32, w64, s8, s32, is_byte in *; bits_to_arith; lia.

(** Case analysis on every boolean test of the goal. *)
Ltac case_tests :=
  repeat match goal with
  | |- context [if ?b then _ else _] =>
      lazymatch type of b with bool => destruct b eqn:? end
  end.

(** Decide a closed proposition by computation. *)
Ltac by_computation := apply (bool_decide_unpack _); vm_compute; exact I.

Create HintDb mint.

(** ** Machine integers: lemmas *)

Lemma w8_range z : is_byte (w8 z).
Proof. machine_int. Qed.

Lemma w8_id b : is_byte b -> w8 b = b.
Proof. machine_int. Qed.

Lemma w8_land_255 z : w8 (z .& 255) = w8 z.
Proof. machine_int. Qed.

Lemma w16_range z : 0 <= w16 z < 65536.
Proof. machine_int. Qed.

Lemma w32_range z : 0 <= w32 z < 4294967296.
Proof. machine_int. Qed.

Lemma w32_id z : 0 <= z < 4294967296 -> w32 z = z.
Proof. machine_int. Qed.

(** An id goes through [int] on its way from the P4Info message to the request
    without loss. *)
Lemma w32_s32 z : 0 <= z < 4294967296 -> w32 (s32 z) = z.
Proof. machine_int. Qed.

Lemma w32_s32_mod z : w32 (s32 z) = w32 z.
Proof. machine_int. Qed.

#[export] Hint Resolve w8_range w16_range w32_range : mint.


(** ** Byte strings: lemmas *)

Lemma be_acc_app acc bs1 bs2 : be_acc acc (bs1 ++ bs2) = be_acc (be_acc acc bs1) bs2.
Proof. revert acc; induction bs1; intros; simpl; auto. Qed.

Lemma be_acc_val acc bs :
  be_acc acc bs = acc * 256 ^ Z.of_nat (length bs) + be_val bs.
Proof.
  unfold be_val. revert acc. induction bs as [|b bs IH]; intros acc.
  { simpl. lia. }
  cbn [be_acc length]. rewrite IH, (IH (0 * 256 + b)).
  rewrite Nat2Z.inj_succ, Z.pow_succ_r by lia. ring.
Qed.

Lemma be_val_app bs1 bs2 :
  be_val (bs1 ++ bs2) = be_val bs1 * 256 ^ Z.of_nat (length bs2) + be_val bs2.
Proof. unfold be_val at 1. by rewrite be_acc_app, be_acc_val. Qed.

Lemma be_val_bound bs :
  Forall is_byte bs -> 0 <= be_val bs < 256 ^ Z.of_nat (length bs).
Proof.
  intros H. induction H as [|b bs Hb _ IH]; [done|].
  change (b :: bs) with ([b] ++ bs). rewrite be_val_app, length_app.
  change (be_val [b]) with b. unfold is_byte in Hb.
  rewrite Nat2Z.inj_add, Z.pow_add_r by lia. simpl (Z.of_nat (length [b])). nia.
Qed.

(** A big-endian string is determined by its length and its value. *)
Lemma be_val_inj bs1 bs2 :
  length bs1 = length bs2 -> Forall is_byte bs1 -> Forall is_byte bs2 ->
  be_val bs1 = be_val bs2 -> bs1 = bs2.
Proof.
  revert bs2. induction bs1 as [|b1 bs1 IH]; intros [|b2 bs2] Hlen H1 H2 Heq;
    simplify_eq/=; [done|].
  inversion H1 as [|? ? Hb1 Hr1]; inversion H2 as [|? ? Hb2 Hr2]; subst.
  change (b1 :: bs1) with ([b1] ++ bs1) in Heq.
  change (b2 :: bs2) with ([b2] ++ bs2) in Heq.
  rewrite !be_val_app in Heq. change (be_val [b1]) with b1 in Heq.
  change (be_val [b2]) with b2 in Heq.
  pose proof (be_val_bound _ Hr1). pose proof (be_val_bound _ Hr2).
  rewrite Hlen in *. unfold is_byte in *.
  assert (b1 = b2) as -> by nia. f_equal. apply IH; auto. lia.
Qed.

Lemma le_val_inj bs1 bs2 :
  length bs1 = length bs2 -> Forall is_byte bs1 -> Forall is_byte bs2 ->
  le_val bs1 = le_val bs2 -> bs1 = bs2.
Proof.
  revert bs2. induction bs1 as [|b1 bs1 IH]; intros [|b2 bs2] Hlen H1 H2 Heq;
    simplify_eq/=; [done|].
  inversion H1 as [|? ? Hb1 Hr1]; inversion H2 as [|? ? Hb2 Hr2]; subst.
  unfold is_byte in Hb1, Hb2. f_equal; [lia|]. apply IH; [done..|]. lia.
Qed.

Lemma le_val_bound bs :
  Forall is_byte bs -> 0 <= le_val bs < 256 ^ Z.of_nat (length bs).
Proof.
  intros H. induction H as [|b bs Hb _ IH]; [done|].
  cbn [le_val length]. unfold is_byte in Hb.
  rewrite Nat2Z.inj_succ, Z.pow_succ_r by lia. lia.
Qed.

(** ** Lists of which one element advances *)

Section StepIn.
Context {A : Type} (R : A -> A -> Prop).

Inductive step_in : list A -> list A -> Prop :=
| step_here q p l : R q p -> step_in (q :: l) (p :: l)
| step_there p l l' : step_in l' l -> step_in (p :: l') (p :: l).

Lemma step_in_wf : well_founded R -> well_founded step_in.
Proof.
  intros HR l. induction l as [|p l IH].
  { constructor. intros l' Hl. inversion Hl. }
  revert l IH. induction (HR p) as [p _ IHp]. intros l IHl.
  induction IHl as [l Hl IHl']. constructor. intros l' Hl'.
  inversion Hl' as [q ? ? Hn|? ? q' Hn]; subst.
  - apply IHp; [done|]. by constructor.
  - by apply IHl'.
Qed.

Lemma step_in_insert l i p q : l !! i = Some p -> R q p -> step_in (<[i := q]> l) l.
Proof.
  revert i. induction l as [|p' l IH]; intros [|i] Hi Hn; simplify_eq/=.
  - by constructor.
  - constructor. by apply IH.
Qed.
End StepIn.
