(* ===== verification/P4Runtime.v ===== *)
(** * P4Runtime messages

    The protobuf messages the sidecar builds and reads ([p4/v1/p4runtime.proto],
    [p4/config/v1/p4info.proto]), as the records and sums of their fields.
    Their C++ classes are generated code outside the repository: only the data
    and the accessors the sidecar calls appear here ([set_x], [add_x],
    [mutable_x]), with the conversions their signatures impose ([uint32] and
    [uint64] fields wrap). Fields the sidecar neither sets nor reads are left
    out. *)

From stdpp Require Import gmap.
From S2P Require Import Prelude.

(** ** p4.config.v1.P4Info *)

Record Preamble := MkPreamble { pre_id : Z; pre_name : string }.

Inductive MatchType := MT_UNSPECIFIED | MT_EXACT | MT_LPM | MT_TERNARY | MT_RANGE | MT_OPTIONAL.

Record MatchField := MkMatchField {
  mf_id : Z;
  mf_name : string;
  mf_bitwidth : Z;
  mf_match_type : MatchType;
}.

Record ActionParam := MkActionParam {
  ap_id : Z;
  ap_name : string;
  ap_bitwidth : Z;
}.

Record TableInfo := MkTableInfo {
  tbl_preamble : Preamble;
  tbl_match_fields : list MatchField;
  tbl_action_refs : list Z;
}.

Record ActionInfo := MkActionInfo {
  act_preamble : Preamble;
  act_params : list ActionParam;
}.

Record P4Info := MkP4Info {
  p4_tables : list TableInfo;
  p4_actions : list ActionInfo;
}.

Definition default_P4Info : P4Info := MkP4Info [] [].

(** ** p4.v1.TableEntry *)

Inductive FieldMatchType :=
| FM_NOT_SET
| FM_EXACT (value : bytes)
| FM_TERNARY (value mask : bytes).

Record FieldMatch := MkFieldMatch { fm_field_id : Z; fm_type : FieldMatchType }.

Record Param := MkParam { p_param_id : Z; p_value : bytes }.

Record Action := MkAction { a_action_id : Z; a_params : list Param }.

Record TableEntry := MkTableEntry {
  te_table_id : Z;
  te_match : list FieldMatch;
  te_action : option Action;
  te_priority : Z;
}.

Definition default_Action : Action := MkAction 0 [].
Definition default_TableEntry : TableEntry := MkTableEntry 0 [] None 0.

(** [table_entry->set_table_id(id)]: an [int] argument for a [uint32] field. *)
Definition set_table_id (id : Z) (te : TableEntry) : TableEntry :=
  MkTableEntry (w32 id) (te_match te) (te_action te) (te_priority te).

Definition set_priority (p : Z) (te : TableEntry) : TableEntry :=
  MkTableEntry (te_table_id te) (te_match te) (te_action te) (s32 p).

(** [auto match = table_entry->add_match(); match->set_field_id(id);
    match->mutable_exact()->set_value(value)]. *)
Definition add_match_exact (id : Z) (value : bytes) (te : TableEntry) : TableEntry :=
  MkTableEntry (te_table_id te)
    (te_match te ++ [MkFieldMatch (w32 id) (FM_EXACT value)])
    (te_action te) (te_priority te).

(** The same with [mutable_ternary()->set_value(value)] and [set_mask(mask)]. *)
Definition add_match_ternary (id : Z) (value mask : bytes) (te : TableEntry) : TableEntry :=
  MkTableEntry (te_table_id te)
    (te_match te ++ [MkFieldMatch (w32 id) (FM_TERNARY value mask)])
    (te_action te) (te_priority te).

(** [auto action = table_entry->mutable_action()->mutable_action()], followed
    by the updates [f] made through the returned pointer. *)
Definition mutable_action (f : Action -> Action) (te : TableEntry) : TableEntry :=
  MkTableEntry (te_table_id te) (te_match te)
    (Some (f (default default_Action (te_action te)))) (te_priority te).

Definition set_action_id (id : Z) (a : Action) : Action :=
  MkAction (w32 id) (a_params a).

(** [auto param = action->add_params(); param->set_param_id(id);
    param->set_value(value)]. *)
Definition add_param (id : Z) (value : bytes) (a : Action) : Action :=
  MkAction (a_action_id a) (a_params a ++ [MkParam (w32 id) value]).

(** [table_entry.action().action()] on a constant message: the default action
    when the field is not set. *)
Definition te_action_or_default (te : TableEntry) : Action :=
  default default_Action (te_action te).

(** ** Requests and responses *)

(** The [oneof entity]: the sidecar only uses table entries. *)
Inductive Entity :=
| ENTITY_TABLE_ENTRY (te : TableEntry)
| ENTITY_OTHER.

(** [entity.table_entry()]: the default entry for another alternative. *)
Definition entity_table_entry (e : Entity) : TableEntry :=
  match e with ENTITY_TABLE_ENTRY te => te | ENTITY_OTHER => default_TableEntry end.

Inductive UpdateType := UPDATE_UNSPECIFIED | UPDATE_INSERT | UPDATE_MODIFY | UPDATE_DELETE.

Record Update := MkUpdate { u_type : UpdateType; u_entity : Entity }.

Record Uint128 := MkUint128 { u128_high : Z; u128_low : Z }.

Record WriteRequest := MkWriteRequest {
  wr_device_id : Z;
  wr_election_id : option Uint128;
  wr_updates : list Update;
}.

Record ReadRequest := MkReadRequest {
  rr_device_id : Z;
  rr_entities : list Entity;
}.

Record ReadResponse := MkReadResponse { rsp_entities : list Entity }.

Definition default_WriteRequest : WriteRequest := MkWriteRequest 0 None [].
Definition default_ReadRequest : ReadRequest := MkReadRequest 0 [].
Definition default_ReadResponse : ReadResponse := MkReadResponse [].

(** ** Pointers into a request

    [add_updates()] and [add_entities()] return pointers into the request; the
    callee hands back the address of the table entry inside it and the caller
    fills the request through that pointer. The pointer is the index of the
    element that holds the entry. *)
Abbreviation entry_ptr := nat.

Definition wr_deref (req : WriteRequest) (p : entry_ptr) : TableEntry :=
  match wr_updates req !! p with
  | Some u => entity_table_entry (u_entity u)
  | None => default_TableEntry
  end.

Definition wr_store (req : WriteRequest) (p : entry_ptr) (te : TableEntry) : WriteRequest :=
  MkWriteRequest (wr_device_id req) (wr_election_id req)
    (alter (fun u => MkUpdate (u_type u) (ENTITY_TABLE_ENTRY te)) p (wr_updates req)).

Definition rr_deref (req : ReadRequest) (p : entry_ptr) : TableEntry :=
  match rr_entities req !! p with
  | Some e => entity_table_entry e
  | None => default_TableEntry
  end.

Definition rr_store (req : ReadRequest) (p : entry_ptr) (te : TableEntry) : ReadRequest :=
  MkReadRequest (rr_device_id req)
    (alter (fun _ => ENTITY_TABLE_ENTRY te) p (rr_entities req)).

(** [response.MergeFrom(partial)]: repeated fields are concatenated. *)
Definition MergeFrom (r partial : ReadResponse) : ReadResponse :=
  MkReadResponse (rsp_entities r ++ rsp_entities partial).

(** ** Status values

    [absl::Status] and [absl::StatusOr<T>]: either OK (with a value), or a
    non-OK code with its message. *)
Record error := MkError { err_code : Z; err_message : string }.

Inductive Status := OkStatus | ErrStatus (e : error).

Inductive StatusOr (A : Type) :=
| StatusValue (a : A)
| StatusError (e : error).
Arguments StatusValue {_} _.
Arguments StatusError {_} _.

Definition ok (s : Status) : bool :=
  match s with OkStatus => true | ErrStatus _ => false end.

Definition status_of {A} (s : StatusOr A) : Status :=
  match s with StatusValue _ => OkStatus | StatusError e => ErrStatus e end.

Definition is_ok {A} (s : StatusOr A) : bool := ok (status_of s).

(** The status codes of [absl/status/status.h] the sidecar names. *)
Definition kUnknown : Z := 2.
Definition kUnimplemented : Z := 12.
Definition kInternal : Z := 13.
Definition kUnavailable : Z := 14.

Definition InternalError (m : string) : error := MkError kInternal m.
Definition UnavailableError (m : string) : error := MkError kUnavailable m.
Definition UnimplementedError (m : string) : error := MkError kUnimplemented m.
Definition UnknownError (m : string) : error := MkError kUnknown m.

#[export] Instance FieldMatchType_eq_dec : EqDecision FieldMatchType.
Proof. solve_decision. Defined.
#[export] Instance FieldMatch_eq_dec : EqDecision FieldMatch.
Proof. solve_decision. Defined.
#[export] Instance Param_eq_dec : EqDecision Param.
Proof. solve_decision. Defined.
#[export] Instance Action_eq_dec : EqDecision Action.
Proof. solve_decision. Defined.
#[export] Instance TableEntry_eq_dec : EqDecision TableEntry.
Proof. solve_decision. Defined.
#[export] Instance Entity_eq_dec : EqDecision Entity.
Proof. solve_decision. Defined.

(** ** Match keys

    What identifies an entry of a table: the table, the match fields (in any
    order) and the priority (P4Runtime specification, section 9.1). *)
Definition key : Type := Z * gmap Z FieldMatchType * Z.

Definition match_map (ms : list FieldMatch) : gmap Z FieldMatchType :=
  list_to_map ((fun m => (fm_field_id m, fm_type m)) <$> ms).

Definition te_key (te : TableEntry) : key :=
  (te_table_id te, match_map (te_match te), te_priority te).

Lemma match_map_cons m ms :
  match_map (m :: ms) = <[fm_field_id m := fm_type m]> (match_map ms).
Proof. done. Qed.

(** Equal keys match the same values on every field. *)
Lemma te_key_match te te' f :
  te_key te = te_key te' -> match_map (te_match te) !! f = match_map (te_match te') !! f.
Proof. unfold te_key. by intros [= _ -> _]. Qed.

Lemma te_key_mutable_action f te : te_key (mutable_action f te) = te_key te.
Proof. done. Qed.

#[export] Hint Resolve te_key_mutable_action : core.

(** Storing through the pointer and reading it back. *)
Lemma wr_deref_store req p te :
  (p < length (wr_updates req))%nat -> wr_deref (wr_store req p te) p = te.
Proof.
  intros Hp. unfold wr_deref, wr_store; simpl.
  destruct (lookup_lt_is_Some_2 _ _ Hp) as [u Hu].
  by rewrite list_lookup_alter, decide_True, Hu.
Qed.

(** ** Insertion and deletion of the same entry *)

(** What the request to delete an entry has to have in common with the request
    that inserted it: its match key. Deletions carry no action. *)
Definition symmetric (enc : bool -> TableEntry) : Prop :=
  te_key (enc true) = te_key (enc false) /\ te_action (enc false) = None.

(** The parameter values of the action of an entry, in order. *)
Definition te_param_values (te : TableEntry) : list bytes :=
  p_value <$> a_params (te_action_or_default te).

Definition match_value (m : FieldMatchType) : bytes :=
  match m with FM_NOT_SET => [] | FM_EXACT v => v | FM_TERNARY v _ => v end.

(** The values matched on, in order. *)
Definition te_match_values (te : TableEntry) : list bytes :=
  (fun m => match_value (fm_type m)) <$> te_match te.
