(* ===== verification/OvsP4rt.v ===== *)
(** * The data types of the public interface ([include/ovsp4rt/ovs-p4rt.h])

    One record per C struct, with machine-width predicates ([wf_...]) for its
    integer fields. The two unions of the header are modelled by their
    storage, so that writing one member is seen by reading the other. *)

From S2P Require Import Prelude.

Definition VSI_ID_OFFSET : Z := 16.
Definition MAX_P4_BRIDGE_ID : Z := 255.
Definition P4_VXLAN_SOURCE_PORT_OFFSET : Z := 2048.

Inductive p4_vlan_mode :=
| P4_PORT_VLAN_ACCESS
| P4_PORT_VLAN_TRUNK
| P4_PORT_VLAN_NATIVE_TAGGED
| P4_PORT_VLAN_NATIVE_UNTAGGED
| P4_PORT_VLAN_DOT1Q_TUNNEL
| P4_PORT_VLAN_UNSUPPORTED.

#[export] Instance p4_vlan_mode_eq_dec : EqDecision p4_vlan_mode.
Proof. solve_decision. Defined.

Inductive ovs_tunnel_type :=
| OVS_TUNNEL_UNKNOWN
| OVS_TUNNEL_VXLAN
| OVS_TUNNEL_GENEVE.

#[export] Instance ovs_tunnel_type_eq_dec : EqDecision ovs_tunnel_type.
Proof. solve_decision. Defined.

(** The value of the enumerator, for comparison with [uint8_t tunnel_type]. *)
Definition tunnel_type_value (t : ovs_tunnel_type) : Z :=
  match t with
  | OVS_TUNNEL_UNKNOWN => 0
  | OVS_TUNNEL_VXLAN => 1
  | OVS_TUNNEL_GENEVE => 2
  end.

(** [<sys/socket.h>] (Linux). *)
Definition AF_INET : Z := 2.
Definition AF_INET6 : Z := 10.

(** [union { struct in_addr v4addr; struct in6_addr v6addr; } ip] is its
    sixteen bytes of storage; both members start at offset 0. *)
Record p4_ipaddr := MkIpAddr {
  family : Z;      (* uint8_t *)
  prefix_len : Z;  (* uint8_t *)
  ip : bytes;      (* the 16 bytes of the union *)
}.

(** [ip.v6addr.__in6_u.__u6_addr8[i]]. *)
Definition u6_addr8 (a : p4_ipaddr) (i : nat) : Z := ip a !!! i.

(** [ip.v6addr.__in6_u.__u6_addr32[i]]: the host is little-endian. *)
Definition u6_addr32 (a : p4_ipaddr) (i : nat) : Z :=
  le_val [u6_addr8 a (4 * i); u6_addr8 a (4 * i + 1);
          u6_addr8 a (4 * i + 2); u6_addr8 a (4 * i + 3)].

(** [ip.v4addr.s_addr] occupies the first four bytes of the union. *)
Definition s_addr (a : p4_ipaddr) : Z := u6_addr32 a 0.

Record port_vlan_info := MkPortVlanInfo {
  port_vlan_mode : p4_vlan_mode;
  port_vlan : Z;  (* int *)
}.

Record tunnel_info := MkTunnelInfo {
  ifindex : Z;          (* uint32_t *)
  tnl_port_id : Z;      (* uint32_t *)
  tnl_src_port : Z;     (* uint32_t *)
  local_ip : p4_ipaddr;
  remote_ip : p4_ipaddr;
  dst_port : Z;         (* uint16_t, network byte order *)
  vni : Z;              (* uint32_t *)
  tnl_vlan_info : port_vlan_info;
  tnl_bridge_id : Z;    (* uint8_t *)
  tunnel_type : Z;      (* uint8_t *)
}.

Record src_port_info := MkSrcPortInfo {
  sp_bridge_id : Z;  (* uint8_t *)
  sp_vlan_id : Z;    (* uint16_t *)
  sp_src_port : Z;   (* uint32_t *)
}.

Record vlan_info := MkVlanInfo { vlan_id : Z (* uint32_t *) }.

(** [union { struct tunnel_info tnl_info; struct vlan_info vln_info; }]: the
    storage is that of its larger member. [vlan_info] is a single [uint32_t]
    at offset 0, where [tunnel_info] has [ifindex]. *)
Record mac_learning_info := MkMacLearningInfo {
  is_tunnel : bool;
  is_vlan : bool;
  mac_addr : bytes;     (* uint8_t[6] *)
  bridge_id : Z;        (* uint8_t *)
  src_port : Z;         (* uint32_t *)
  rx_src_port : Z;      (* uint32_t *)
  vlan_mode_info : port_vlan_info;
  tnl_info : tunnel_info;
}.

Definition vln_info (l : mac_learning_info) : vlan_info :=
  MkVlanInfo (ifindex (tnl_info l)).

Record ip_mac_map_info := MkIpMacMapInfo {
  src_mac_addr : bytes;  (* uint8_t[6] *)
  dst_mac_addr : bytes;  (* uint8_t[6] *)
  src_ip_addr : p4_ipaddr;
  dst_ip_addr : p4_ipaddr;
}.

(** ** Assignments to fields *)

Definition set_family (f : Z) (a : p4_ipaddr) : p4_ipaddr :=
  MkIpAddr f (prefix_len a) (ip a).

Definition set_ip_families (fl fr : Z) (t : tunnel_info) : tunnel_info :=
  MkTunnelInfo (ifindex t) (tnl_port_id t) (tnl_src_port t)
    (set_family fl (local_ip t)) (set_family fr (remote_ip t)) (dst_port t)
    (vni t) (tnl_vlan_info t) (tnl_bridge_id t) (tunnel_type t).

Definition set_is_tunnel (b : bool) (l : mac_learning_info) : mac_learning_info :=
  MkMacLearningInfo b (is_vlan l) (mac_addr l) (bridge_id l) (src_port l)
    (rx_src_port l) (vlan_mode_info l) (tnl_info l).

Definition set_src_port (p : Z) (l : mac_learning_info) : mac_learning_info :=
  MkMacLearningInfo (is_tunnel l) (is_vlan l) (mac_addr l) (bridge_id l) p
    (rx_src_port l) (vlan_mode_info l) (tnl_info l).

Definition set_tnl_info (t : tunnel_info) (l : mac_learning_info) : mac_learning_info :=
  MkMacLearningInfo (is_tunnel l) (is_vlan l) (mac_addr l) (bridge_id l) (src_port l)
    (rx_src_port l) (vlan_mode_info l) t.

Definition set_sp_src_port (p : Z) (s : src_port_info) : src_port_info :=
  MkSrcPortInfo (sp_bridge_id s) (sp_vlan_id s) p.

(** ** Machine widths *)

Definition wf_mac (m : bytes) : Prop := length m = 6%nat /\ Forall is_byte m.

Definition wf_ipaddr (a : p4_ipaddr) : Prop :=
  is_byte (family a) /\ is_byte (prefix_len a) /\
  length (ip a) = 16%nat /\ Forall is_byte (ip a).

Definition wf_port_vlan_info (v : port_vlan_info) : Prop :=
  - 2147483648 <= port_vlan v < 2147483648.

Definition wf_tunnel_info (t : tunnel_info) : Prop :=
  0 <= ifindex t < 4294967296 /\ 0 <= tnl_port_id t < 4294967296 /\
  0 <= tnl_src_port t < 4294967296 /\ wf_ipaddr (local_ip t) /\
  wf_ipaddr (remote_ip t) /\ 0 <= dst_port t < 65536 /\
  0 <= vni t < 4294967296 /\ wf_port_vlan_info (tnl_vlan_info t) /\
  is_byte (tnl_bridge_id t) /\ is_byte (tunnel_type t).

Definition wf_mac_learning_info (l : mac_learning_info) : Prop :=
  wf_mac (mac_addr l) /\ is_byte (bridge_id l) /\ 0 <= src_port l < 4294967296 /\
  0 <= rx_src_port l < 4294967296 /\ wf_port_vlan_info (vlan_mode_info l) /\
  wf_tunnel_info (tnl_info l).

Definition wf_ip_mac_map_info (i : ip_mac_map_info) : Prop :=
  wf_mac (src_mac_addr i) /\ wf_mac (dst_mac_addr i) /\
  wf_ipaddr (src_ip_addr i) /\ wf_ipaddr (dst_ip_addr i).

#[export] Instance wf_mac_dec m : Decision (wf_mac m).
Proof. unfold wf_mac. apply _. Defined.
#[export] Instance wf_ipaddr_dec a : Decision (wf_ipaddr a).
Proof. unfold wf_ipaddr. apply _. Defined.
#[export] Instance wf_tunnel_info_dec t : Decision (wf_tunnel_info t).
Proof. unfold wf_tunnel_info, wf_port_vlan_info. apply _. Defined.
#[export] Instance wf_mac_learning_info_dec l : Decision (wf_mac_learning_info l).
Proof. unfold wf_mac_learning_info, wf_port_vlan_info. apply _. Defined.
#[export] Instance wf_ip_mac_map_info_dec i : Decision (wf_ip_mac_map_info i).
Proof. unfold wf_ip_mac_map_info. apply _. Defined.

(** ** Lemmas *)

Lemma wf_mac_inv m :
  wf_mac m -> exists a b c d e f,
  m = [a; b; c; d; e; f] /\ is_byte a /\ is_byte b /\ is_byte c /\ is_byte d /\
  is_byte e /\ is_byte f.
Proof.
  intros [Hlen Hb]. do 7 (destruct m as [|? m]; try done).
  decompose_Forall_hyps. do 6 eexists. eauto 10.
Qed.

Lemma u6_addr8_byte a i :
  wf_ipaddr a -> (i < 16)%nat -> is_byte (u6_addr8 a i).
Proof.
  intros (_ & _ & Hlen & Hb) Hi. unfold u6_addr8.
  destruct (lookup_lt_is_Some_2 (ip a) i) as [x Hx]; [lia|].
  rewrite (list_lookup_total_correct _ _ _ Hx).
  by eapply Forall_lookup_1 in Hb.
Qed.

(** Writing [tnl_info.local_ip.family] does not reach the bytes [vln_info]
    occupies. *)
Lemma vln_info_set_ip_families fl fr l :
  vln_info (set_tnl_info (set_ip_families fl fr (tnl_info l)) l) = vln_info l.
Proof. done. Qed.
