(* ===== verification/EncodeUtils.v ===== *)
(** * Encoding of values ([core/common/ovsp4rt_encode_utils.{h,cc}])

    The functions that turn the integers and addresses of the API structs into
    the byte strings of P4Runtime match fields and action parameters. *)

From S2P Require Import Prelude OvsP4rt.

(** [for (arg < arg_count) { uint8_t byte = va_arg(args, int); push_back }].
    Reading past the supplied arguments is undefined in C; every call passes
    exactly [arg_count] of them. *)
Fixpoint EncodeByteValue (arg_count : nat) (args : list Z) : bytes :=
  match arg_count with
  | O => []
  | S n =>
      match args with
      | arg :: args => w8 arg :: EncodeByteValue n args
      | [] => []
      end
  end.

Definition CanonicalizeIp (ipv4addr : Z) : bytes :=
  EncodeByteValue 4 [ipv4addr .& 255; (ipv4addr >>. 8) .& 255;
                     (ipv4addr >>. 16) .& 255; (ipv4addr >>. 24) .& 255].

Definition CanonicalizeIpv6 (ipv6addr : p4_ipaddr) : bytes :=
  EncodeByteValue 16
    [u6_addr8 ipv6addr 0; u6_addr8 ipv6addr 1; u6_addr8 ipv6addr 2; u6_addr8 ipv6addr 3;
     u6_addr8 ipv6addr 4; u6_addr8 ipv6addr 5; u6_addr8 ipv6addr 6; u6_addr8 ipv6addr 7;
     u6_addr8 ipv6addr 8; u6_addr8 ipv6addr 9; u6_addr8 ipv6addr 10; u6_addr8 ipv6addr 11;
     u6_addr8 ipv6addr 12; u6_addr8 ipv6addr 13; u6_addr8 ipv6addr 14; u6_addr8 ipv6addr 15].

Definition CanonicalizeMac (mac : bytes) : bytes :=
  EncodeByteValue 6
    [(mac !!! 0%nat) .& 255; (mac !!! 1%nat) .& 255; (mac !!! 2%nat) .& 255;
     (mac !!! 3%nat) .& 255; (mac !!! 4%nat) .& 255; (mac !!! 5%nat) .& 255].

(** Encodes [tunnel_info.vni] as a [tunnel_id] action parameter (bit<20>). *)
Definition EncodeTunnelId (vni : Z) : bytes :=
  EncodeByteValue 3 [(vni >>. 16) .& 15; (vni >>. 8) .& 255; vni .& 255].

(** Encodes [tunnel_info.vni] as a [vni] or [mod_blob_ptr] value (bit<24>). *)
Definition EncodeVniValue (vni : Z) : bytes :=
  EncodeByteValue 3 [(vni >>. 16) .& 255; (vni >>. 8) .& 255; vni .& 255].

(** [htons] of [<arpa/inet.h>] on the little-endian host. *)
Definition htons (x : Z) : Z := (x mod 256) * 256 + (x / 256) mod 256.

(** ** Lemmas *)

Lemma EncodeByteValue_length n args :
  (n <= length args)%nat -> length (EncodeByteValue n args) = n.
Proof.
  revert args; induction n as [|n IH]; intros [|a args]; simpl; intros; try lia.
  rewrite IH; lia.
Qed.

Lemma EncodeByteValue_bytes n args : Forall is_byte (EncodeByteValue n args).
Proof.
  revert args; induction n as [|n IH]; intros [|a args]; simpl; constructor;
    auto with mint.
Qed.

#[export] Hint Resolve EncodeByteValue_bytes : mint.

(** Big-endian values of the fixed-size encodings. *)
Lemma EncodeByteValue_1 x : be_val (EncodeByteValue 1 [x]) = x mod 256.
Proof. cbn. machine_int. Qed.

Lemma EncodeByteValue_16 x :
  be_val (EncodeByteValue 2 [(x >>. 8) .& 255; x .& 255]) = x mod 65536.
Proof. cbn. machine_int. Qed.

Lemma EncodeVniValue_val v : be_val (EncodeVniValue v) = v mod 16777216.
Proof. cbn. machine_int. Qed.

Lemma EncodeTunnelId_val v : be_val (EncodeTunnelId v) = v mod 1048576.
Proof. cbn. machine_int. Qed.

Lemma CanonicalizeIp_val a : be_val (CanonicalizeIp a) =
  a mod 256 * 16777216 + (a / 256) mod 256 * 65536 + (a / 65536) mod 256 * 256
  + (a / 16777216) mod 256.
Proof. cbn. machine_int. Qed.

(** The comment "low-to-high byte order": on the little-endian host the bytes
    of [s_addr] come out in the order they have in memory. *)
Lemma CanonicalizeIp_le_val b0 b1 b2 b3 :
  is_byte b0 -> is_byte b1 -> is_byte b2 -> is_byte b3 ->
  CanonicalizeIp (le_val [b0; b1; b2; b3]) = [b0; b1; b2; b3].
Proof.
  intros. unfold CanonicalizeIp; cbn [EncodeByteValue le_val].
  repeat f_equal; machine_int.
Qed.

Lemma CanonicalizeMac_id m : wf_mac m -> CanonicalizeMac m = m.
Proof.
  intros (a & b & c & d & e & f & -> & ?)%wf_mac_inv. destruct_and?.
  unfold CanonicalizeMac; cbn. rewrite !w8_land_255, !w8_id by done. done.
Qed.

Lemma ip16_inv a : wf_ipaddr a ->
  ip a = [u6_addr8 a 0; u6_addr8 a 1; u6_addr8 a 2; u6_addr8 a 3;
          u6_addr8 a 4; u6_addr8 a 5; u6_addr8 a 6; u6_addr8 a 7;
          u6_addr8 a 8; u6_addr8 a 9; u6_addr8 a 10; u6_addr8 a 11;
          u6_addr8 a 12; u6_addr8 a 13; u6_addr8 a 14; u6_addr8 a 15].
Proof.
  intros (_ & _ & Hlen & _). unfold u6_addr8. destruct (ip a) as [|? l]; [done|].
  do 16 (destruct l as [|? l]; try done).
Qed.

Lemma CanonicalizeIpv6_id a : wf_ipaddr a -> CanonicalizeIpv6 a = ip a.
Proof.
  intros Ha. rewrite (ip16_inv a Ha) at 1. unfold CanonicalizeIpv6.
  cbn [EncodeByteValue]. rewrite !w8_id by (apply u6_addr8_byte; [done|lia]). done.
Qed.

Lemma CanonicalizeIp_u32 a i :
  wf_ipaddr a -> (i < 4)%nat ->
  CanonicalizeIp (u6_addr32 a i) =
  [u6_addr8 a (4 * i); u6_addr8 a (4 * i + 1);
   u6_addr8 a (4 * i + 2); u6_addr8 a (4 * i + 3)].
Proof.
  intros Ha Hi. unfold u6_addr32.
  apply CanonicalizeIp_le_val; apply u6_addr8_byte; auto; lia.
Qed.

Lemma CanonicalizeIp_v4 a :
  wf_ipaddr a -> CanonicalizeIp (s_addr a) = take 4 (ip a).
Proof.
  intros Ha. unfold s_addr. rewrite CanonicalizeIp_u32 by (auto || lia).
  by rewrite (ip16_inv a Ha).
Qed.

Lemma htons_involutive x : 0 <= x < 65536 -> htons (htons x) = x.
Proof. unfold htons. lia. Qed.

Lemma htons_range x : 0 <= htons x < 65536.
Proof. unfold htons. lia. Qed.

(** ** Properties *)

(** vni_encodings: the two encodings of a VNI denote its low 24 and its low
    20 bits; the [tunnel_id] an action carries therefore names the same tunnel
    as the 24-bit key of the table it points to exactly when the upper four
    bits of the VNI are zero. *)
Theorem vni_encodings v :
  be_val (EncodeVniValue v) = v mod 2 ^ 24 /\
  be_val (EncodeTunnelId v) = v mod 2 ^ 20 /\
  (be_val (EncodeTunnelId v) = be_val (EncodeVniValue v) <-> v mod 2 ^ 24 < 2 ^ 20).
Proof.
  rewrite EncodeVniValue_val, EncodeTunnelId_val.
  change (2 ^ 24) with 16777216. change (2 ^ 20) with 1048576. lia.
Qed.

(** address_encodings: addresses reach the request byte for byte in network
    order: an IPv4 address as the four bytes of its storage, an IPv6 address as
    its sixteen bytes, whether encoded in one piece or as four 32-bit words,
    and a MAC address as its six bytes. *)
Theorem address_encodings a m :
  wf_ipaddr a -> wf_mac m ->
  CanonicalizeIp (s_addr a) = take 4 (ip a) /\
  CanonicalizeIpv6 a = ip a /\
  concat (map (fun i => CanonicalizeIp (u6_addr32 a i)) (seq 0 4)) = ip a /\
  CanonicalizeMac m = m.
Proof.
  intros Ha Hm. rewrite CanonicalizeIp_v4, CanonicalizeIpv6_id, CanonicalizeMac_id by done.
  repeat split. cbn [seq map]. rewrite !CanonicalizeIp_u32 by (done || lia).
  symmetry. by rewrite (ip16_inv a Ha) at 1.
Qed.

Lemma address_encodings_witness :
  CanonicalizeIp
    (s_addr (MkIpAddr AF_INET6 64 [32; 1; 13; 184; 0; 0; 0; 0; 0; 0; 0; 0; 0; 0; 0; 1])) =
    [32; 1; 13; 184] /\
  CanonicalizeMac [0; 27; 33; 170; 187; 204] = [0; 27; 33; 170; 187; 204].
Proof.
  edestruct (address_encodings
    (MkIpAddr AF_INET6 64 [32; 1; 13; 184; 0; 0; 0; 0; 0; 0; 0; 0; 0; 0; 0; 1])
    [0; 27; 33; 170; 187; 204]) as (H1 & H2 & H3 & H4);
    [| |exact (conj H1 H4)].
  - by_computation.
  - by_computation.
Defined.
