(* ===== verification/P4InfoUtils.v ===== *)
(** * Name resolution in the P4Info message ([core/common/ovsp4rt_p4info_utils.cc])

    Linear searches that map the names of tables, match fields, actions and
    parameters to the ids of the pipeline, [-1] when there is none. *)

From S2P Require Import Prelude P4Runtime.

(** The value of the [for] loops: [None] to go on, [Some id] for [return id]. *)
Fixpoint find_match_field (mf_name' : string) (mfs : list MatchField) : option Z :=
  match mfs with
  | [] => None
  | mf :: mfs =>
      if decide (mf_name mf = mf_name') then Some (s32 (mf_id mf))
      else find_match_field mf_name' mfs
  end.

Fixpoint find_param (param_name : string) (ps : list ActionParam) : option Z :=
  match ps with
  | [] => None
  | p :: ps =>
      if decide (ap_name p = param_name) then Some (s32 (ap_id p))
      else find_param param_name ps
  end.

Fixpoint GetActionId_loop (acts : list ActionInfo) (a_name : string) : Z :=
  match acts with
  | [] => -1
  | action :: acts =>
      let pre := act_preamble action in
      if decide (pre_name pre = a_name) then s32 (pre_id pre)
      else GetActionId_loop acts a_name
  end.

Definition GetActionId (p4info : P4Info) (a_name : string) : Z :=
  GetActionId_loop (p4_actions p4info) a_name.

Fixpoint GetMatchFieldId_loop (tables : list TableInfo) (t_name mf_name : string) : Z :=
  match tables with
  | [] => -1
  | table :: tables =>
      let pre := tbl_preamble table in
      if decide (pre_name pre <> t_name) then GetMatchFieldId_loop tables t_name mf_name
      else match find_match_field mf_name (tbl_match_fields table) with
           | Some id => id
           | None => GetMatchFieldId_loop tables t_name mf_name
           end
  end.

Definition GetMatchFieldId (p4info : P4Info) (t_name mf_name : string) : Z :=
  GetMatchFieldId_loop (p4_tables p4info) t_name mf_name.

Fixpoint GetParamId_loop (acts : list ActionInfo) (a_name param_name : string) : Z :=
  match acts with
  | [] => -1
  | action :: acts =>
      let pre := act_preamble action in
      if decide (pre_name pre <> a_name) then GetParamId_loop acts a_name param_name
      else match find_param param_name (act_params action) with
           | Some id => id
           | None => GetParamId_loop acts a_name param_name
           end
  end.

Definition GetParamId (p4info : P4Info) (a_name param_name : string) : Z :=
  GetParamId_loop (p4_actions p4info) a_name param_name.

Fixpoint GetTableId_loop (tables : list TableInfo) (t_name : string) : Z :=
  match tables with
  | [] => -1
  | table :: tables =>
      let pre := tbl_preamble table in
      if decide (pre_name pre = t_name) then s32 (pre_id pre)
      else GetTableId_loop tables t_name
  end.

Definition GetTableId (p4info : P4Info) (t_name : string) : Z :=
  GetTableId_loop (p4_tables p4info) t_name.

(** ** Which ids a pipeline declares *)

(** The tables (actions) of that name, in the order of the message. *)
Definition tables_named (p4info : P4Info) (n : string) : list TableInfo :=
  filter (fun t => pre_name (tbl_preamble t) = n) (p4_tables p4info).

Definition actions_named (p4info : P4Info) (n : string) : list ActionInfo :=
  filter (fun a => pre_name (act_preamble a) = n) (p4_actions p4info).

(** Ids are [uint32]; the P4Runtime specification makes them non-zero. *)
Definition wf_id (z : Z) : Prop := 0 < z < 4294967295.

Definition wf_P4Info (p4info : P4Info) : Prop :=
  Forall (fun t => wf_id (pre_id (tbl_preamble t)) /\
                   Forall (fun mf => wf_id (mf_id mf)) (tbl_match_fields t))
    (p4_tables p4info) /\
  Forall (fun a => wf_id (pre_id (act_preamble a)) /\
                   Forall (fun p => wf_id (ap_id p)) (act_params a))
    (p4_actions p4info).

#[export] Instance wf_P4Info_dec p : Decision (wf_P4Info p).
Proof. unfold wf_P4Info, wf_id. apply _. Defined.

(** ** Lemmas *)

Lemma find_match_field_filter n mfs :
  find_match_field n mfs =
  (fun mf => s32 (mf_id mf)) <$> head (filter (fun mf => mf_name mf = n) mfs).
Proof.
  induction mfs as [|mf mfs IH]; [done|]. cbn [find_match_field]. rewrite filter_cons, IH.
  by case_decide; simplify_option_eq.
Qed.

Lemma find_param_filter n ps :
  find_param n ps =
  (fun p => s32 (ap_id p)) <$> head (filter (fun p => ap_name p = n) ps).
Proof.
  induction ps as [|p ps IH]; [done|]. cbn [find_param]. rewrite filter_cons, IH.
  by case_decide; simplify_option_eq.
Qed.

(** The searches return the first declaration of the name, [-1] if none. *)
Lemma GetTableId_first p4info n :
  GetTableId p4info n =
  from_option (fun t => s32 (pre_id (tbl_preamble t))) (-1) (head (tables_named p4info n)).
Proof.
  unfold GetTableId, tables_named.
  induction (p4_tables p4info) as [|t ts IH]; [done|]. cbn [GetTableId_loop]. rewrite filter_cons, IH.
  by case_decide; simplify_option_eq.
Qed.

Lemma GetActionId_first p4info n :
  GetActionId p4info n =
  from_option (fun a => s32 (pre_id (act_preamble a))) (-1) (head (actions_named p4info n)).
Proof.
  unfold GetActionId, actions_named.
  induction (p4_actions p4info) as [|t ts IH]; [done|]. cbn [GetActionId_loop]. rewrite filter_cons, IH.
  by case_decide; simplify_option_eq.
Qed.

(** The member searches scan the members of every table (action) of that name,
    in order. *)
Lemma GetMatchFieldId_first p4info t n :
  GetMatchFieldId p4info t n =
  from_option (fun mf => s32 (mf_id mf)) (-1)
    (head (filter (fun mf => mf_name mf = n)
             (tables_named p4info t ≫= tbl_match_fields))).
Proof.
  unfold GetMatchFieldId, tables_named.
  induction (p4_tables p4info) as [|tb ts IH]; [done|]. cbn [GetMatchFieldId_loop]. rewrite filter_cons.
  case_decide as Hne; case_decide; try done. cbn [mbind list_bind].
  rewrite list.filter_app, find_match_field_filter, IH.
  by destruct (filter _ (tbl_match_fields tb)).
Qed.

Lemma GetParamId_first p4info a n :
  GetParamId p4info a n =
  from_option (fun p => s32 (ap_id p)) (-1)
    (head (filter (fun p => ap_name p = n)
             (actions_named p4info a ≫= act_params))).
Proof.
  unfold GetParamId, actions_named.
  induction (p4_actions p4info) as [|ac acs IH]; [done|]. cbn [GetParamId_loop]. rewrite filter_cons.
  case_decide as Hne; case_decide; try done. cbn [mbind list_bind].
  rewrite list.filter_app, find_param_filter, IH.
  by destruct (filter _ (act_params ac)).
Qed.

(** Ids of declared objects are non-zero, and so is the one sent for a name
    that is not declared. *)
Lemma wf_tables_named p4info n :
  wf_P4Info p4info -> Forall (fun t => wf_id (pre_id (tbl_preamble t))) (tables_named p4info n).
Proof.
  intros [Ht _]. unfold tables_named. apply list.Forall_forall. intros t [_ Hin]%list_elem_of_filter.
  rewrite list.Forall_forall in Ht. by destruct (Ht t Hin).
Qed.

Lemma GetTableId_nonzero p4info n : wf_P4Info p4info -> w32 (GetTableId p4info n) <> 0.
Proof.
  intros Hwf. rewrite GetTableId_first. pose proof (wf_tables_named p4info n Hwf) as Hall.
  destruct (tables_named p4info n) as [|t ts]; simpl; [done|].
  inversion Hall as [|? ? Hid]; subst. unfold wf_id in Hid. rewrite w32_s32 by lia. lia.
Qed.

(** ** Properties *)

(** name_resolution: each lookup returns the id of the first declaration of
    the name in the P4Info (of the named table or action for match fields and
    parameters), converted to a signed [int], and [-1] when there is none. *)
Theorem name_resolution p4info t n :
  GetTableId p4info n =
    from_option (fun t => s32 (pre_id (tbl_preamble t))) (-1) (head (tables_named p4info n)) /\
  GetActionId p4info n =
    from_option (fun a => s32 (pre_id (act_preamble a))) (-1) (head (actions_named p4info n)) /\
  GetMatchFieldId p4info t n =
    from_option (fun mf => s32 (mf_id mf)) (-1)
      (head (filter (fun mf => mf_name mf = n) (tables_named p4info t ≫= tbl_match_fields))) /\
  GetParamId p4info t n =
    from_option (fun p => s32 (ap_id p)) (-1)
      (head (filter (fun p => ap_name p = n) (actions_named p4info t ≫= act_params))).
Proof.
  auto using GetTableId_first, GetActionId_first, GetMatchFieldId_first, GetParamId_first.
Qed.

(** table_id_sent: the table id that reaches a request is the declared
    32-bit id, untouched by its passage through [int], when the name is
    declared, and 4294967295 when it is not. *)
Theorem table_id_sent p4info n te :
  wf_P4Info p4info ->
  te_table_id (set_table_id (GetTableId p4info n) te) =
  from_option (fun t => pre_id (tbl_preamble t)) 4294967295 (head (tables_named p4info n)).
Proof.
  intros Hwf. unfold set_table_id; simpl. rewrite GetTableId_first.
  pose proof (wf_tables_named p4info n Hwf) as Hall.
  destruct (tables_named p4info n) as [|t ts]; simpl; [done|].
  inversion Hall as [|? ? Hid]; subst. unfold wf_id in Hid. by rewrite w32_s32 by lia.
Qed.

Lemma table_id_sent_witness :
  te_table_id
    (set_table_id
       (GetTableId
          (MkP4Info [MkTableInfo (MkPreamble 4200000000 "t") [] []] []) "t")
       default_TableEntry) = 4200000000.
Proof.
  apply (table_id_sent (MkP4Info [MkTableInfo (MkPreamble 4200000000 "t") [] []] []) "t").
  split; repeat constructor; unfold wf_id; simpl; lia.
Defined.
