(* ===== verification/Es2kNames.v ===== *)
(** * P4 names of the ES2K pipeline ([ovs-p4rt/sidecar/core/es2k/p4_name_mapping.h])

    The fully qualified names of the tables, match fields, actions and action
    parameters of the Linux Networking P4 program for ES2K, one definition per
    macro of the header. *)

From S2P Require Import Prelude.

Definition ES2K_VPORT_ID_OFFSET : Z := 16.
Definition VXLAN_ENCAP_MOD_TABLE : string :=
  "linux_networking_control.vxlan_encap_mod_table".
Definition VXLAN_ENCAP_MOD_TABLE_KEY_VENDORMETA_MOD_DATA_PTR : string :=
  "vmeta.common.mod_blob_ptr".
Definition ACTION_VXLAN_ENCAP : string := "linux_networking_control.vxlan_encap".
Definition ACTION_VXLAN_ENCAP_PARAM_SRC_ADDR : string := "src_addr".
Definition ACTION_VXLAN_ENCAP_PARAM_DST_ADDR : string := "dst_addr".
Definition ACTION_VXLAN_ENCAP_PARAM_DST_PORT : string := "dst_port".
Definition ACTION_VXLAN_ENCAP_PARAM_SRC_PORT : string := "src_port".
Definition ACTION_VXLAN_ENCAP_PARAM_VNI : string := "vni".
Definition TUNNEL_TYPE_VXLAN : Z := 2.
Definition VXLAN_ENCAP_VLAN_POP_MOD_TABLE : string :=
  "linux_networking_control.vxlan_encap_vlan_pop_mod_table".
Definition VXLAN_ENCAP_VLAN_POP_MOD_TABLE_KEY_VENDORMETA_MOD_DATA_PTR : string :=
  "vmeta.common.mod_blob_ptr".
Definition ACTION_VXLAN_ENCAP_VLAN_POP : string :=
  "linux_networking_control.vxlan_encap_vlan_pop".
Definition ACTION_VXLAN_ENCAP_VLAN_POP_PARAM_SRC_ADDR : string := "src_addr".
Definition ACTION_VXLAN_ENCAP_VLAN_POP_PARAM_DST_ADDR : string := "dst_addr".
Definition ACTION_VXLAN_ENCAP_VLAN_POP_PARAM_DST_PORT : string := "dst_port".
Definition ACTION_VXLAN_ENCAP_VLAN_POP_PARAM_SRC_PORT : string := "src_port".
Definition ACTION_VXLAN_ENCAP_VLAN_POP_PARAM_VNI : string := "vni".
Definition VXLAN_ENCAP_V6_MOD_TABLE : string :=
  "linux_networking_control.vxlan_encap_v6_mod_table".
Definition VXLAN_ENCAP_V6_MOD_TABLE_KEY_VENDORMETA_MOD_DATA_PTR : string :=
  "vmeta.common.mod_blob_ptr".
Definition ACTION_VXLAN_ENCAP_V6 : string := "linux_networking_control.vxlan_encap_v6".
Definition ACTION_VXLAN_ENCAP_V6_PARAM_SRC_ADDR : string := "src_addr".
Definition ACTION_VXLAN_ENCAP_V6_PARAM_DST_ADDR : string := "dst_addr".
Definition ACTION_VXLAN_ENCAP_V6_PARAM_DS : string := "ds".
Definition ACTION_VXLAN_ENCAP_V6_PARAM_ECN : string := "ecn".
Definition ACTION_VXLAN_ENCAP_V6_PARAM_FLOW_LABEL : string := "flow_label".
Definition ACTION_VXLAN_ENCAP_V6_PARAM_HOP_LIMIT : string := "hop_limit".
Definition ACTION_VXLAN_ENCAP_V6_PARAM_SRC_PORT : string := "src_port".
Definition ACTION_VXLAN_ENCAP_V6_PARAM_DST_PORT : string := "dst_port".
Definition ACTION_VXLAN_ENCAP_V6_PARAM_VNI : string := "vni".
Definition VXLAN_ENCAP_V6_VLAN_POP_MOD_TABLE : string :=
  "linux_networking_control.vxlan_encap_v6_vlan_pop_mod_table".
Definition VXLAN_ENCAP_V6_VLAN_POP_MOD_TABLE_KEY_VENDORMETA_MOD_DATA_PTR : string :=
  "vmeta.common.mod_blob_ptr".
Definition ACTION_VXLAN_ENCAP_V6_VLAN_POP : string :=
  "linux_networking_control.vxlan_encap_v6_vlan_pop".
Definition ACTION_VXLAN_ENCAP_V6_VLAN_POP_PARAM_SRC_ADDR : string := "src_addr".
Definition ACTION_VXLAN_ENCAP_V6_VLAN_POP_PARAM_DST_ADDR : string := "dst_addr".
Definition ACTION_VXLAN_ENCAP_V6_VLAN_POP_PARAM_DS : string := "ds".
Definition ACTION_VXLAN_ENCAP_V6_VLAN_POP_PARAM_ECN : string := "ecn".
Definition ACTION_VXLAN_ENCAP_V6_VLAN_POP_PARAM_FLOW_LABEL : string := "flow_label".
Definition ACTION_VXLAN_ENCAP_V6_VLAN_POP_PARAM_HOP_LIMIT : string := "hop_limit".
Definition ACTION_VXLAN_ENCAP_V6_VLAN_POP_PARAM_SRC_PORT : string := "src_port".
Definition ACTION_VXLAN_ENCAP_V6_VLAN_POP_PARAM_DST_PORT : string := "dst_port".
Definition ACTION_VXLAN_ENCAP_V6_VLAN_POP_PARAM_VNI : string := "vni".
Definition GENEVE_ENCAP_MOD_TABLE : string :=
  "linux_networking_control.geneve_encap_mod_table".
Definition GENEVE_ENCAP_MOD_TABLE_KEY_VENDORMETA_MOD_DATA_PTR : string :=
  "vmeta.common.mod_blob_ptr".
Definition ACTION_GENEVE_ENCAP : string := "linux_networking_control.geneve_encap".
Definition ACTION_GENEVE_ENCAP_PARAM_SRC_ADDR : string := "src_addr".
Definition ACTION_GENEVE_ENCAP_PARAM_DST_ADDR : string := "dst_addr".
Definition ACTION_GENEVE_ENCAP_PARAM_DST_PORT : string := "dst_port".
Definition ACTION_GENEVE_ENCAP_PARAM_SRC_PORT : string := "src_port".
Definition ACTION_GENEVE_ENCAP_PARAM_VNI : string := "vni".
Definition GENEVE_ENCAP_VLAN_POP_MOD_TABLE : string :=
  "linux_networking_control.geneve_encap_vlan_pop_mod_table".
Definition GENEVE_ENCAP_VLAN_POP_MOD_TABLE_KEY_VENDORMETA_MOD_DATA_PTR : string :=
  "vmeta.common.mod_blob_ptr".
Definition ACTION_GENEVE_ENCAP_VLAN_POP : string :=
  "linux_networking_control.geneve_encap_vlan_pop".
Definition ACTION_GENEVE_ENCAP_VLAN_POP_PARAM_SRC_ADDR : string := "src_addr".
Definition ACTION_GENEVE_ENCAP_VLAN_POP_PARAM_DST_ADDR : string := "dst_addr".
Definition ACTION_GENEVE_ENCAP_VLAN_POP_PARAM_DST_PORT : string := "dst_port".
Definition ACTION_GENEVE_ENCAP_VLAN_POP_PARAM_SRC_PORT : string := "src_port".
Definition ACTION_GENEVE_ENCAP_VLAN_POP_PARAM_VNI : string := "vni".
Definition GENEVE_ENCAP_V6_MOD_TABLE : string :=
  "linux_networking_control.geneve_encap_v6_mod_table".
Definition GENEVE_ENCAP_V6_MOD_TABLE_KEY_VENDORMETA_MOD_DATA_PTR : string :=
  "vmeta.common.mod_blob_ptr".
Definition ACTION_GENEVE_ENCAP_V6 : string := "linux_networking_control.geneve_encap_v6".
Definition ACTION_GENEVE_ENCAP_V6_PARAM_SRC_ADDR : string := "src_addr".
Definition ACTION_GENEVE_ENCAP_V6_PARAM_DST_ADDR : string := "dst_addr".
Definition ACTION_GENEVE_ENCAP_V6_PARAM_DS : string := "ds".
Definition ACTION_GENEVE_ENCAP_V6_PARAM_ECN : string := "ecn".
Definition ACTION_GENEVE_ENCAP_V6_PARAM_FLOW_LABEL : string := "flow_label".
Definition ACTION_GENEVE_ENCAP_V6_PARAM_HOP_LIMIT : string := "hop_limit".
Definition ACTION_GENEVE_ENCAP_V6_PARAM_SRC_PORT : string := "src_port".
Definition ACTION_GENEVE_ENCAP_V6_PARAM_DST_PORT : string := "dst_port".
Definition ACTION_GENEVE_ENCAP_V6_PARAM_VNI : string := "vni".
Definition GENEVE_ENCAP_V6_VLAN_POP_MOD_TABLE : string :=
  "linux_networking_control.geneve_encap_v6_vlan_pop_mod_table".
Definition GENEVE_ENCAP_V6_VLAN_POP_MOD_TABLE_KEY_VENDORMETA_MOD_DATA_PTR : string :=
  "vmeta.common.mod_blob_ptr".
Definition ACTION_GENEVE_ENCAP_V6_VLAN_POP : string :=
  "linux_networking_control.geneve_encap_v6_vlan_pop".
Definition ACTION_GENEVE_ENCAP_V6_VLAN_POP_PARAM_SRC_ADDR : string := "src_addr".
Definition ACTION_GENEVE_ENCAP_V6_VLAN_POP_PARAM_DST_ADDR : string := "dst_addr".
Definition ACTION_GENEVE_ENCAP_V6_VLAN_POP_PARAM_DS : string := "ds".
Definition ACTION_GENEVE_ENCAP_V6_VLAN_POP_PARAM_ECN : string := "ecn".
Definition ACTION_GENEVE_ENCAP_V6_VLAN_POP_PARAM_FLOW_LABEL : string := "flow_label".
Definition ACTION_GENEVE_ENCAP_V6_VLAN_POP_PARAM_HOP_LIMIT : string := "hop_limit".
Definition ACTION_GENEVE_ENCAP_V6_VLAN_POP_PARAM_SRC_PORT : string := "src_port".
Definition ACTION_GENEVE_ENCAP_V6_VLAN_POP_PARAM_DST_PORT : string := "dst_port".
Definition ACTION_GENEVE_ENCAP_V6_VLAN_POP_PARAM_VNI : string := "vni".
Definition IPV4_TUNNEL_TERM_TABLE : string :=
  "linux_networking_control.ipv4_tunnel_term_table".
Definition IPV4_TUNNEL_TERM_TABLE_KEY_BRIDGE_ID : string := "user_meta.pmeta.bridge_id".
Definition IPV4_TUNNEL_TERM_TABLE_KEY_IPV4_SRC : string := "ipv4_src".
Definition IPV4_TUNNEL_TERM_TABLE_KEY_IPV4_DST : string := "ipv4_dst".
Definition IPV4_TUNNEL_TERM_TABLE_KEY_VNI : string := "vni".
Definition ACTION_SET_VXLAN_DECAP_OUTER_HDR : string :=
  "linux_networking_control.set_vxlan_decap_outer_hdr".
Definition ACTION_SET_VXLAN_DECAP_OUTER_HDR_AND_PUSH_VLAN : string :=
  "linux_networking_control.set_vxlan_decap_outer_and_push_vlan".
Definition ACTION_SET_GENEVE_DECAP_OUTER_HDR : string :=
  "linux_networking_control.set_geneve_decap_outer_hdr".
Definition ACTION_SET_GENEVE_DECAP_OUTER_HDR_AND_PUSH_VLAN : string :=
  "linux_networking_control.set_geneve_decap_outer_and_push_vlan".
Definition IPV6_TUNNEL_TERM_TABLE : string :=
  "linux_networking_control.ipv6_tunnel_term_table".
Definition IPV6_TUNNEL_TERM_TABLE_KEY_BRIDGE_ID : string := "user_meta.pmeta.bridge_id".
Definition IPV6_TUNNEL_TERM_TABLE_KEY_IPV6_SRC : string := "ipv6_src".
Definition IPV6_TUNNEL_TERM_TABLE_KEY_VNI : string := "vni".
Definition VXLAN_DECAP_MOD_TABLE : string :=
  "linux_networking_control.vxlan_decap_mod_table".
Definition VXLAN_DECAP_MOD_TABLE_KEY_MOD_BLOB_PTR : string := "vmeta.common.mod_blob_ptr".
Definition ACTION_VXLAN_DECAP_OUTER_HDR : string :=
  "linux_networking_control.vxlan_decap_outer_hdr".
Definition VXLAN_DECAP_AND_VLAN_PUSH_MOD_TABLE : string :=
  "linux_networking_control.vxlan_decap_and_push_vlan_mod_table".
Definition VXLAN_DECAP_AND_VLAN_PUSH_MOD_TABLE_KEY_MOD_BLOB_PTR : string :=
  "vmeta.common.mod_blob_ptr".
Definition ACTION_VXLAN_DECAP_AND_PUSH_VLAN : string :=
  "linux_networking_control.vxlan_decap_and_push_vlan".
Definition ACTION_VXLAN_DECAP_AND_PUSH_VLAN_PARAM_PCP : string := "pcp".
Definition ACTION_VXLAN_DECAP_AND_PUSH_VLAN_PARAM_DEI : string := "dei".
Definition ACTION_VXLAN_DECAP_AND_PUSH_VLAN_PARAM_VLAN_ID : string := "vlan_id".
Definition GENEVE_DECAP_MOD_TABLE : string :=
  "linux_networking_control.geneve_decap_mod_table".
Definition GENEVE_DECAP_MOD_TABLE_KEY_MOD_BLOB_PTR : string :=
  "vmeta.common.mod_blob_ptr".
Definition ACTION_GENEVE_DECAP_OUTER_HDR : string :=
  "linux_networking_control.geneve_decap_outer_hdr".
Definition GENEVE_DECAP_AND_VLAN_PUSH_MOD_TABLE : string :=
  "linux_networking_control.geneve_decap_and_push_vlan_mod_table".
Definition GENEVE_DECAP_AND_VLAN_PUSH_MOD_TABLE_KEY_MOD_BLOB_PTR : string :=
  "vmeta.common.mod_blob_ptr".
Definition ACTION_GENEVE_DECAP_AND_PUSH_VLAN : string :=
  "linux_networking_control.geneve_decap_and_push_vlan".
Definition ACTION_GENEVE_DECAP_AND_PUSH_VLAN_PARAM_PCP : string := "pcp".
Definition ACTION_GENEVE_DECAP_AND_PUSH_VLAN_PARAM_DEI : string := "dei".
Definition ACTION_GENEVE_DECAP_AND_PUSH_VLAN_PARAM_VLAN_ID : string := "vlan_id".
Definition L2_FWD_RX_TABLE : string := "linux_networking_control.l2_fwd_rx_table".
Definition L2_FWD_RX_TABLE_KEY_DST_MAC : string := "dst_mac".
Definition L2_FWD_RX_TABLE_KEY_BRIDGE_ID : string := "user_meta.pmeta.bridge_id".
Definition L2_FWD_RX_TABLE_KEY_SMAC_LEARNED : string := "user_meta.pmeta.smac_learned".
Definition L2_FWD_SMAC_TABLE_KEY_BRIDGE_ID : string := "user_meta.pmeta.bridge_id".
Definition L2_FWD_RX_TABLE_ACTION_L2_FWD : string := "linux_networking_control.l2_fwd".
Definition ACTION_L2_FWD_PARAM_PORT : string := "port".
Definition L2_FWD_RX_WITH_TUNNEL_TABLE : string :=
  "linux_networking_control.l2_fwd_rx_with_tunnel_table".
Definition L2_FWD_RX_WITH_TUNNEL_TABLE_KEY_DST_MAC : string := "dst_mac".
Definition L2_FWD_RX_WITH_TUNNEL_TABLE_ACTION_L2_FWD : string :=
  "linux_networking_control.l2_fwd".
Definition L2_FWD_RX_IPV6_WITH_TUNNEL_TABLE : string :=
  "linux_networking_control.l2_fwd_rx_ipv6_with_tunnel_table".
Definition L2_FWD_RX_IPV6_WITH_TUNNEL_TABLE_KEY_DST_MAC : string := "dst_mac".
Definition L2_FWD_RX_IPV6_WITH_TUNNEL_TABLE_ACTION_L2_FWD : string :=
  "linux_networking_control.l2_fwd".
Definition L2_FWD_TX_TABLE : string := "linux_networking_control.l2_fwd_tx_table".
Definition L2_FWD_TX_TABLE_KEY_DST_MAC : string := "dst_mac".
Definition L2_FWD_TX_TABLE_KEY_BRIDGE_ID : string := "user_meta.pmeta.bridge_id".
Definition L2_FWD_TX_TABLE_KEY_SMAC_LEARNED : string := "user_meta.pmeta.smac_learned".
Definition L2_FWD_TX_TABLE_ACTION_L2_FWD : string := "linux_networking_control.l2_fwd".
Definition L2_FWD_TX_TABLE_ACTION_SET_VXLAN_UNDERLAY_V4 : string :=
  "linux_networking_control.set_vxlan_underlay_v4".
Definition L2_FWD_TX_TABLE_ACTION_SET_GENEVE_UNDERLAY_V4 : string :=
  "linux_networking_control.set_geneve_underlay_v4".
Definition L2_FWD_TX_TABLE_ACTION_SET_VXLAN_UNDERLAY_V6 : string :=
  "linux_networking_control.set_vxlan_underlay_v6".
Definition L2_FWD_TX_TABLE_ACTION_SET_GENEVE_UNDERLAY_V6 : string :=
  "linux_networking_control.set_geneve_underlay_v6".
Definition L2_FWD_TX_TABLE_ACTION_POP_VLAN_SET_VXLAN_UNDERLAY_V4 : string :=
  "linux_networking_control.pop_vlan_set_vxlan_underlay_v4".
Definition L2_FWD_TX_TABLE_ACTION_POP_VLAN_SET_GENEVE_UNDERLAY_V4 : string :=
  "linux_networking_control.pop_vlan_set_geneve_underlay_v4".
Definition L2_FWD_TX_TABLE_ACTION_POP_VLAN_SET_VXLAN_UNDERLAY_V6 : string :=
  "linux_networking_control.pop_vlan_set_vxlan_underlay_v6".
Definition L2_FWD_TX_TABLE_ACTION_POP_VLAN_SET_GENEVE_UNDERLAY_V6 : string :=
  "linux_networking_control.pop_vlan_set_geneve_underlay_v6".
Definition ACTION_PARAM_TUNNEL_ID : string := "tunnel_id".
Definition L2_FWD_TX_TABLE_ACTION_ADD_VLAN_AND_FWD : string :=
  "linux_networking_control.add_vlan_and_fwd".
Definition ACTION_ADD_VLAN_AND_FWD_PARAM_VLAN_PTR : string := "vlan_ptr".
Definition ACTION_ADD_VLAN_AND_FWD_PARAM_PORT_ID : string := "port_id".
Definition L2_FWD_TX_TABLE_ACTION_REMOVE_VLAN_AND_FWD : string :=
  "linux_networking_control.remove_vlan_and_fwd".
Definition ACTION_REMOVE_VLAN_AND_FWD_PARAM_VLAN_PTR : string := "vlan_ptr".
Definition ACTION_REMOVE_VLAN_AND_FWD_PARAM_PORT_ID : string := "port_id".
Definition L2_FWD_TX_IPV6_TABLE : string :=
  "linux_networking_control.l2_fwd_tx_ipv6_table".
Definition L2_FWD_TX_IPV6_TABLE_KEY_DST_MAC : string := "dst_mac".
Definition L2_FWD_TX_IPV6_TABLE_KEY_TUN_FLAG : string := "user_meta.pmeta.tun_flag1_d0".
Definition L2_FWD_TX_IPV6_TABLE_ACTION_L2_FWD : string :=
  "linux_networking_control.l2_fwd".
Definition L2_FWD_TX_IPV6_TABLE_ACTION_SET_TUNNEL_UNDERLAY_V6_OVERLAY_V6 : string :=
  "linux_networking_control.set_tunnel_underlay_v6_overlay_v6".
Definition ACTION_SET_TUNNEL_UNDERLAY_V6_OVERLAY_V6_PARAM_TUNNEL_ID : string :=
  "tunnel_id".
Definition ACTION_SET_TUNNEL_UNDERLAY_V6_OVERLAY_V6_PARAM_IPV6_1 : string := "ipv6_1".
Definition ACTION_SET_TUNNEL_UNDERLAY_V6_OVERLAY_V6_PARAM_IPV6_2 : string := "ipv6_2".
Definition ACTION_SET_TUNNEL_UNDERLAY_V6_OVERLAY_V6_PARAM_IPV6_3 : string := "ipv6_3".
Definition ACTION_SET_TUNNEL_UNDERLAY_V6_OVERLAY_V6_PARAM_IPV6_4 : string := "ipv6_4".
Definition SEM_BYPASS_TABLE : string := "linux_networking_control.sem_bypass".
Definition SEM_BYPASS_TABLE_KEY_DST_MAC : string := "dst_mac".
Definition SEM_BYPASS_TABLE_ACTION_SET_DEST : string :=
  "linux_networking_control.set_dest".
Definition ACTION_SET_DEST_PARAM_PORT_ID : string := "port_id".
Definition SOURCE_PORT_TO_BRIDGE_MAP_TABLE : string :=
  "linux_networking_control.source_port_to_bridge_map".
Definition SOURCE_PORT_TO_BRIDGE_MAP_TABLE_KEY_SRC_PORT : string :=
  "user_meta.cmeta.source_port".
Definition SOURCE_PORT_TO_BRIDGE_MAP_TABLE_KEY_VID : string :=
  "hdrs.vlan_ext[vmeta.common.depth].hdr.vid".
Definition SOURCE_PORT_TO_BRIDGE_MAP_TABLE_ACTION_SET_BRIDGE_ID : string :=
  "linux_networking_control.set_bridge_id".
Definition ACTION_SET_BRIDGE_ID_PARAM_BRIDGE_ID : string := "bridge_id".
Definition RX_IPV4_TUNNEL_SOURCE_PORT_TABLE : string :=
  "linux_networking_control.rx_ipv4_tunnel_source_port".
Definition RX_IPV4_TUNNEL_SOURCE_PORT_TABLE_KEY_IPV4_SRC : string := "ipv4_src".
Definition RX_IPV4_TUNNEL_SOURCE_PORT_TABLE_KEY_VNI : string := "vni".
Definition RX_IPV4_TUNNEL_SOURCE_PORT_TABLE_ACTION_SET_SRC_PORT : string :=
  "linux_networking_control.set_source_port".
Definition ACTION_SET_SRC_PORT : string := "source_port".
Definition RX_IPV6_TUNNEL_SOURCE_PORT_TABLE : string :=
  "linux_networking_control.rx_ipv6_tunnel_source_port".
Definition RX_IPV6_TUNNEL_SOURCE_PORT_TABLE_KEY_IPV6_SRC : string := "ipv6_src".
Definition RX_IPV6_TUNNEL_SOURCE_PORT_TABLE_KEY_VNI : string := "vni".
Definition RX_IPV6_TUNNEL_SOURCE_PORT_TABLE_ACTION_SET_SRC_PORT : string :=
  "linux_networking_control.set_source_port".
Definition L2_TO_TUNNEL_V4_TABLE : string := "linux_networking_control.l2_to_tunnel_v4".
Definition L2_TO_TUNNEL_V4_KEY_DA : string := "hdrs.mac[vmeta.common.depth].da".
Definition L2_TO_TUNNEL_V4_ACTION_SET_TUNNEL_V4 : string :=
  "linux_networking_control.set_tunnel_v4".
Definition ACTION_SET_TUNNEL_V4_PARAM_DST_ADDR : string := "dst_addr".
Definition ACTION_SET_TUNNEL_V4_PARAM_ID1 : string := "id1".
Definition L2_TO_TUNNEL_V6_TABLE : string := "linux_networking_control.l2_to_tunnel_v6".
Definition L2_TO_TUNNEL_V6_KEY_DA : string := "hdrs.mac[vmeta.common.depth].da".
Definition L2_TO_TUNNEL_V6_ACTION_SET_TUNNEL_V6 : string :=
  "linux_networking_control.set_tunnel_v6".
Definition ACTION_SET_TUNNEL_V6_PARAM_IPV6_1 : string := "ipv6_1".
Definition ACTION_SET_TUNNEL_V6_PARAM_IPV6_2 : string := "ipv6_2".
Definition ACTION_SET_TUNNEL_V6_PARAM_IPV6_3 : string := "ipv6_3".
Definition ACTION_SET_TUNNEL_V6_PARAM_IPV6_4 : string := "ipv6_4".
Definition VLAN_PUSH_MOD_TABLE : string := "linux_networking_control.vlan_push_mod_table".
Definition VLAN_PUSH_MOD_KEY_MOD_BLOB_PTR : string := "vmeta.common.mod_blob_ptr".
Definition VLAN_PUSH_MOD_ACTION_VLAN_PUSH : string :=
  "linux_networking_control.vlan_push".
Definition ACTION_VLAN_PUSH_PARAM_PCP : string := "pcp".
Definition ACTION_VLAN_PUSH_PARAM_DEI : string := "dei".
Definition ACTION_VLAN_PUSH_PARAM_VLAN_ID : string := "vlan_id".
Definition VLAN_POP_MOD_TABLE : string := "linux_networking_control.vlan_pop_mod_table".
Definition VLAN_POP_MOD_KEY_MOD_BLOB_PTR : string := "vmeta.common.mod_blob_ptr".
Definition VLAN_POP_MOD_ACTION_VLAN_POP : string := "linux_networking_control.vlan_pop".
Definition TX_ACC_VSI_TABLE : string := "linux_networking_control.tx_acc_vsi".
Definition TX_ACC_VSI_TABLE_KEY_VSI : string := "vmeta.common.vsi".
Definition TX_ACC_VSI_TABLE_KEY_ZERO_PADDING : string := "zero_padding".
Definition TX_ACC_VSI_TABLE_ACTION_L2_FWD_AND_BYPASS_BRIDGE : string :=
  "linux_networking_control.l2_fwd_and_bypass_bridge".
Definition ACTION_L2_FWD_AND_BYPASS_BRIDGE_PARAM_PORT : string := "port".
Definition VSI_TO_VSI_LOOPBACK_TABLE : string :=
  "linux_networking_control.vsi_to_vsi_loopback".
Definition VSI_TO_VSI_LOOPBACK_KEY_VSI : string := "vmeta.common.vsi".
Definition VSI_TO_VSI_LOOPBACK_KEY_ZERO_PADDING : string := "zero_padding".
Definition VSI_TO_VSI_LOOPBACK_ACTION_FWD_TO_VSI : string :=
  "linux_networking_control.fwd_to_vsi".
Definition ACTION_L2_FWD_PORT : string := "port".
Definition L2_FWD_SMAC_TABLE : string := "linux_networking_control.l2_fwd_smac_table".
Definition L2_FWD_SMAC_TABLE_KEY_SA : string := "hdrs.mac[vmeta.common.depth].sa".
Definition L2_FWD_SMAC_TABLE_ACTION_SMAC_LEARN : string :=
  "linux_networking_control.set_smac_learn".
Definition L2_FWD_SMAC_TABLE_ACTION_NO_ACTION : string := "NoAction".
Definition SRC_IP_MAC_MAP_TABLE : string :=
  "linux_networking_control.vm_src_ip4_mac_map_table".
Definition SRC_IP_MAC_MAP_TABLE_KEY_SRC_IP : string := "ipv4_src".
Definition SRC_IP_MAC_MAP_TABLE_ACTION_SMAC_MAP : string :=
  "linux_networking_control.vm_src_ip4_mac_map_action".
Definition ACTION_SET_SRC_MAC_HIGH : string := "smac_high".
Definition ACTION_SET_SRC_MAC_MID : string := "smac_mid".
Definition ACTION_SET_SRC_MAC_LOW : string := "smac_low".
Definition DST_IP_MAC_MAP_TABLE : string :=
  "linux_networking_control.vm_dst_ip4_mac_map_table".
Definition DST_IP_MAC_MAP_TABLE_KEY_DST_IP : string := "ipv4_dst".
Definition DST_IP_MAC_MAP_TABLE_ACTION_DMAC_MAP : string :=
  "linux_networking_control.vm_dst_ip4_mac_map_action".
Definition ACTION_SET_DST_MAC_HIGH : string := "dmac_high".
Definition ACTION_SET_DST_MAC_MID : string := "dmac_mid".
Definition ACTION_SET_DST_MAC_LOW : string := "dmac_low".
