(* ===== verification/DpdkNames.v ===== *)
(** * P4 names of the DPDK pipeline ([ovs-p4rt/sidecar/core/dpdk/p4_name_mapping.h])

    The names of the Linux Networking P4 program for DPDK, one definition per
    macro of the header. *)

From S2P Require Import Prelude.

Definition VXLAN_ENCAP_MOD_TABLE : string :=
  "linux_networking_control.vxlan_encap_mod_table".
Definition VXLAN_ENCAP_MOD_TABLE_KEY_VENDORMETA_MOD_DATA_PTR : string :=
  "vendormeta_mod_data_ptr".
Definition ACTION_VXLAN_ENCAP : string := "linux_networking_control.vxlan_encap".
Definition ACTION_VXLAN_ENCAP_PARAM_SRC_ADDR : string := "src_addr".
Definition ACTION_VXLAN_ENCAP_PARAM_DST_ADDR : string := "dst_addr".
Definition ACTION_VXLAN_ENCAP_PARAM_DST_PORT : string := "dst_port".
Definition ACTION_VXLAN_ENCAP_PARAM_VNI : string := "vni".
Definition TUNNEL_TYPE_VXLAN : Z := 2.
Definition IPV4_TUNNEL_TERM_TABLE : string :=
  "linux_networking_control.ipv4_tunnel_term_table".
Definition IPV4_TUNNEL_TERM_TABLE_KEY_TUNNEL_TYPE : string := "tunnel_type".
Definition IPV4_TUNNEL_TERM_TABLE_KEY_IPV4_SRC : string := "ipv4_src".
Definition IPV4_TUNNEL_TERM_TABLE_KEY_IPV4_DST : string := "ipv4_dst".
Definition ACTION_DECAP_OUTER_IPV4 : string :=
  "linux_networking_control.decap_outer_ipv4".
Definition ACTION_DECAP_OUTER_IPV4_PARAM_TUNNEL_ID : string := "tunnel_id".
Definition L2_FWD_RX_TABLE : string := "linux_networking_control.l2_fwd_rx_table".
Definition L2_FWD_RX_TABLE_KEY_DST_MAC : string := "dst_mac".
Definition L2_FWD_RX_TABLE_ACTION_L2_FWD : string := "linux_networking_control.l2_fwd".
Definition ACTION_L2_FWD_PARAM_PORT : string := "port".
Definition L2_FWD_RX_WITH_TUNNEL_TABLE : string :=
  "linux_networking_control.l2_fwd_rx_with_tunnel_table".
Definition L2_FWD_RX_WITH_TUNNEL_TABLE_KEY_DST_MAC : string := "dst_mac".
Definition L2_FWD_RX_WITH_TUNNEL_TABLE_ACTION_L2_FWD : string :=
  "linux_networking_control.l2_fwd".
Definition L2_FWD_TX_TABLE : string := "linux_networking_control.l2_fwd_tx_table".
Definition L2_FWD_TX_TABLE_KEY_DST_MAC : string := "dst_mac".
Definition L2_FWD_TX_TABLE_ACTION_L2_FWD : string := "linux_networking_control.l2_fwd".
Definition L2_FWD_TX_TABLE_ACTION_SET_TUNNEL : string :=
  "linux_networking_control.set_tunnel".
Definition ACTION_SET_TUNNEL_PARAM_TUNNEL_ID : string := "tunnel_id".
Definition ACTION_SET_TUNNEL_PARAM_DST_ADDR : string := "dst_addr".
