(* ===== verification/Logging.v ===== *)
(** * Diagnostics ([logging/])

    [DiagDetail] carries the table a request is about from the encoder back to
    the function that sends it, which logs it when the request fails. The text
    of a message is modelled as it is printed; printing is an effect of the
    client programs ([Client.v]). *)

From S2P Require Import Prelude.

Inductive LogTableId :=
| LOG_UNKNOWN_TABLE
| LOG_L2_FWD_RX_TABLE
| LOG_L2_FWD_TX_TABLE
| LOG_L2_TO_TUNNEL_V4_TABLE
| LOG_L2_TO_TUNNEL_V6_TABLE
| LOG_L2_FWD_SMAC_TABLE
| LOG_L2_FWD_RX_WITH_TUNNEL_TABLE
| LOG_DST_IP_MAC_MAP_TABLE
| LOG_SRC_IP_MAC_MAP_TABLE.

Record DiagDetail := MkDiagDetail { diag_table_id : LogTableId }.

(** [DiagDetail detail;] *)
Definition default_DiagDetail : DiagDetail := MkDiagDetail LOG_UNKNOWN_TABLE.

Definition getLogTableName (d : DiagDetail) : string :=
  match diag_table_id d with
  | LOG_UNKNOWN_TABLE => "UNKNOWN"
  | LOG_L2_FWD_RX_TABLE => "log_l2_fwd_rx_table"
  | LOG_L2_FWD_RX_WITH_TUNNEL_TABLE => "l2_fwd_rx_with_tunnel_table"
  | LOG_L2_FWD_TX_TABLE => "l2_fwd_tx_table"
  | LOG_L2_TO_TUNNEL_V6_TABLE => "l2_to_tunnel_v6_table"
  | LOG_L2_TO_TUNNEL_V4_TABLE => "l2_to_tunnel_v4_table"
  | LOG_L2_FWD_SMAC_TABLE => "l2_fwd_smac_table"
  | LOG_DST_IP_MAC_MAP_TABLE => "dst_ip_mac_map_table"
  | LOG_SRC_IP_MAC_MAP_TABLE => "src_ip_mac_map_table"
  end.

Inductive LogLevel :=
| OVSP4RT_LEVEL_DEBUG
| OVSP4RT_LEVEL_INFO
| OVSP4RT_LEVEL_WARN
| OVSP4RT_LEVEL_ERROR.

Definition get_level_name (level : LogLevel) : string :=
  match level with
  | OVSP4RT_LEVEL_ERROR => "ERROR"
  | OVSP4RT_LEVEL_WARN => "WARN"
  | OVSP4RT_LEVEL_INFO => "INFO"
  | OVSP4RT_LEVEL_DEBUG => "DEBUG"
  end.

(** [printf]'s [%-5s]: pad with blanks on the right to five characters. *)
Definition pad5 (s : string) : string :=
  match String.length s with
  | 0%nat => s +:+ "     " | 1%nat => s +:+ "    " | 2%nat => s +:+ "   "
  | 3%nat => s +:+ "  " | 4%nat => s +:+ " " | _ => s
  end.

(** The line [ovsp4rt_log_message] prints for an already formatted text. *)
Definition ovsp4rt_log_message (level : LogLevel) (text : string) : string :=
  "OVSP4RT " +:+ pad5 (get_level_name level) +:+ " - " +:+ text.

(** [printf]'s [%x] of a byte. *)
Definition hex_digit (d : Z) : string :=
  match d with
  | 0 => "0" | 1 => "1" | 2 => "2" | 3 => "3" | 4 => "4" | 5 => "5" | 6 => "6" | 7 => "7"
  | 8 => "8" | 9 => "9" | 10 => "a" | 11 => "b" | 12 => "c" | 13 => "d" | 14 => "e"
  | _ => "f"
  end.

Definition format_x (b : Z) : string :=
  if b <? 16 then hex_digit b else hex_digit (b / 16) +:+ hex_digit (b mod 16).

(** [snprintf(buf, sizeof(buf), ...)] keeps at most [size - 1] characters. *)
Definition snprintf (size : nat) (s : string) : string := String.substring 0 (size - 1) s.

Definition FormatMacAddr (mac_addr : bytes) : string :=
  snprintf 32
    (format_x (mac_addr !!! 0%nat) +:+ ":" +:+ format_x (mac_addr !!! 1%nat) +:+ ":" +:+
     format_x (mac_addr !!! 2%nat) +:+ ":" +:+ format_x (mac_addr !!! 3%nat) +:+ ":" +:+
     format_x (mac_addr !!! 4%nat) +:+ ":" +:+ format_x (mac_addr !!! 5%nat)).

Definition MessagePrefix (inserting : bool) : string :=
  if inserting then "Error adding entry to" else "Error deleting entry from".

Definition LogFailure (inserting : bool) (table : string) : string :=
  ovsp4rt_log_message OVSP4RT_LEVEL_DEBUG (MessagePrefix inserting +:+ " " +:+ table).

Definition LogFailureWithMacAddr (inserting : bool) (table : string) (mac_addr : bytes)
  : string :=
  ovsp4rt_log_message OVSP4RT_LEVEL_DEBUG
    (MessagePrefix inserting +:+ " " +:+ table +:+ " for " +:+ FormatMacAddr mac_addr).
