(* ===== verification/Es2kEncoders.v ===== *)
(** * Encoders of the ES2K pipeline ([core/v3/es2k_encoders.cc])

    One function per C++ encoder. The [TableEntry*] argument is passed and
    returned; [DiagDetail&] is returned next to it where the C++ function has
    it; the functions that print return the lines they print. *)

From S2P Require Import Prelude P4Runtime OvsP4rt EncodeUtils P4InfoUtils Logging.
From S2P Require Import Es2kNames.

Definition tunnel_v6_param_name : list string :=
  [ACTION_SET_TUNNEL_V6_PARAM_IPV6_1; ACTION_SET_TUNNEL_V6_PARAM_IPV6_2;
   ACTION_SET_TUNNEL_V6_PARAM_IPV6_3; ACTION_SET_TUNNEL_V6_PARAM_IPV6_4].

Definition EncodeFdbSmacTableEntry (table_entry : TableEntry)
  (learn_info : mac_learning_info) (p4info : P4Info) (insert_entry : bool)
  (detail : DiagDetail) : TableEntry * DiagDetail :=
  let detail := MkDiagDetail LOG_L2_FWD_SMAC_TABLE in
  let table_entry := set_table_id (GetTableId p4info L2_FWD_SMAC_TABLE) table_entry in
  let table_entry :=
    add_match_exact (GetMatchFieldId p4info L2_FWD_SMAC_TABLE L2_FWD_SMAC_TABLE_KEY_SA)
      (CanonicalizeMac (mac_addr learn_info)) table_entry in
  let table_entry :=
    add_match_exact
      (GetMatchFieldId p4info L2_FWD_SMAC_TABLE L2_FWD_SMAC_TABLE_KEY_BRIDGE_ID)
      (EncodeByteValue 1 [bridge_id learn_info]) table_entry in
  let table_entry :=
    if insert_entry then
      mutable_action (fun action =>
        set_action_id (GetActionId p4info L2_FWD_SMAC_TABLE_ACTION_NO_ACTION) action)
        table_entry
    else table_entry in
  (table_entry, detail).

Definition EncodeL2FwdTxTablePrologue (table_entry : TableEntry)
  (learn_info : mac_learning_info) (p4info : P4Info) : TableEntry :=
  let table_entry := set_table_id (GetTableId p4info L2_FWD_TX_TABLE) table_entry in
  let table_entry :=
    add_match_exact (GetMatchFieldId p4info L2_FWD_TX_TABLE L2_FWD_TX_TABLE_KEY_DST_MAC)
      (CanonicalizeMac (mac_addr learn_info)) table_entry in
  add_match_exact (GetMatchFieldId p4info L2_FWD_TX_TABLE L2_FWD_TX_TABLE_KEY_BRIDGE_ID)
    (EncodeByteValue 1 [bridge_id learn_info]) table_entry.

Definition EncodeFdbTxVlanTableEntry (table_entry : TableEntry)
  (learn_info : mac_learning_info) (p4info : P4Info) (insert_entry : bool)
  (detail : DiagDetail) : TableEntry * DiagDetail :=
  let detail := MkDiagDetail LOG_L2_FWD_TX_TABLE in
  let table_entry := EncodeL2FwdTxTablePrologue table_entry learn_info p4info in
  let table_entry :=
    if insert_entry then
      mutable_action (fun action =>
        if decide (port_vlan_mode (vlan_mode_info learn_info) = P4_PORT_VLAN_NATIVE_UNTAGGED)
        then
          let action :=
            set_action_id (GetActionId p4info L2_FWD_TX_TABLE_ACTION_REMOVE_VLAN_AND_FWD)
              action in
          let action :=
            let port_id := src_port learn_info in
            add_param
              (GetParamId p4info L2_FWD_TX_TABLE_ACTION_REMOVE_VLAN_AND_FWD
                 ACTION_REMOVE_VLAN_AND_FWD_PARAM_PORT_ID)
              (EncodeByteValue 1 [port_id]) action in
          add_param
            (GetParamId p4info L2_FWD_TX_TABLE_ACTION_REMOVE_VLAN_AND_FWD
               ACTION_REMOVE_VLAN_AND_FWD_PARAM_VLAN_PTR)
            (EncodeByteValue 1 [port_vlan (vlan_mode_info learn_info)]) action
        else
          let action := set_action_id (GetActionId p4info L2_FWD_TX_TABLE_ACTION_L2_FWD) action in
          let port_id := src_port learn_info in
          add_param (GetParamId p4info L2_FWD_TX_TABLE_ACTION_L2_FWD ACTION_L2_FWD_PARAM_PORT)
            (EncodeByteValue 1 [port_id]) action) table_entry
    else table_entry in
  (table_entry, detail).

Definition EncodeFdbRxVlanTableEntry (table_entry : TableEntry)
  (learn_info : mac_learning_info) (p4info : P4Info) (insert_entry : bool)
  (detail : DiagDetail) : TableEntry * DiagDetail :=
  let detail := MkDiagDetail LOG_L2_FWD_RX_TABLE in
  let table_entry := set_table_id (GetTableId p4info L2_FWD_RX_TABLE) table_entry in
  let table_entry :=
    add_match_exact (GetMatchFieldId p4info L2_FWD_RX_TABLE L2_FWD_RX_TABLE_KEY_DST_MAC)
      (CanonicalizeMac (mac_addr learn_info)) table_entry in
  let table_entry :=
    add_match_exact (GetMatchFieldId p4info L2_FWD_RX_TABLE L2_FWD_RX_TABLE_KEY_BRIDGE_ID)
      (EncodeByteValue 1 [bridge_id learn_info]) table_entry in
  let table_entry :=
    if insert_entry then
      mutable_action (fun action =>
        let action := set_action_id (GetActionId p4info L2_FWD_RX_TABLE_ACTION_L2_FWD) action in
        let port_id := rx_src_port learn_info in
        add_param (GetParamId p4info L2_FWD_RX_TABLE_ACTION_L2_FWD ACTION_L2_FWD_PARAM_PORT)
          (EncodeByteValue 1 [port_id]) action) table_entry
    else table_entry in
  (table_entry, detail).

Definition EncodeFdbTableEntryforV4VxlanTunnel (table_entry : TableEntry)
  (learn_info : mac_learning_info) (p4info : P4Info) (insert_entry : bool)
  (detail : DiagDetail) : TableEntry * DiagDetail :=
  let detail := MkDiagDetail LOG_L2_FWD_TX_TABLE in
  let table_entry := EncodeL2FwdTxTablePrologue table_entry learn_info p4info in
  let table_entry :=
    if insert_entry then
      mutable_action (fun action =>
        if (family (local_ip (tnl_info learn_info)) =? AF_INET) &&
           (family (remote_ip (tnl_info learn_info)) =? AF_INET) then
          if decide (port_vlan_mode (vlan_mode_info learn_info) = P4_PORT_VLAN_NATIVE_UNTAGGED)
          then
              let action :=
                set_action_id (GetActionId p4info L2_FWD_TX_TABLE_ACTION_POP_VLAN_SET_VXLAN_UNDERLAY_V4)
                  action in
              add_param
                (GetParamId p4info L2_FWD_TX_TABLE_ACTION_POP_VLAN_SET_VXLAN_UNDERLAY_V4
                   ACTION_PARAM_TUNNEL_ID)
                (EncodeTunnelId (vni (tnl_info learn_info))) action
          else
              let action :=
                set_action_id (GetActionId p4info L2_FWD_TX_TABLE_ACTION_SET_VXLAN_UNDERLAY_V4)
                  action in
              add_param
                (GetParamId p4info L2_FWD_TX_TABLE_ACTION_SET_VXLAN_UNDERLAY_V4
                   ACTION_PARAM_TUNNEL_ID)
                (EncodeTunnelId (vni (tnl_info learn_info))) action
        else if (family (local_ip (tnl_info learn_info)) =? AF_INET6) &&
                (family (remote_ip (tnl_info learn_info)) =? AF_INET6) then
          if decide (port_vlan_mode (vlan_mode_info learn_info) = P4_PORT_VLAN_NATIVE_UNTAGGED)
          then
              let action :=
                set_action_id (GetActionId p4info L2_FWD_TX_TABLE_ACTION_POP_VLAN_SET_VXLAN_UNDERLAY_V6)
                  action in
              add_param
                (GetParamId p4info L2_FWD_TX_TABLE_ACTION_POP_VLAN_SET_VXLAN_UNDERLAY_V6
                   ACTION_PARAM_TUNNEL_ID)
                (EncodeTunnelId (vni (tnl_info learn_info))) action
          else
              let action :=
                set_action_id (GetActionId p4info L2_FWD_TX_TABLE_ACTION_SET_VXLAN_UNDERLAY_V6)
                  action in
              add_param
                (GetParamId p4info L2_FWD_TX_TABLE_ACTION_SET_VXLAN_UNDERLAY_V6
                   ACTION_PARAM_TUNNEL_ID)
                (EncodeTunnelId (vni (tnl_info learn_info))) action
        else action) table_entry
    else table_entry in
  (table_entry, detail).

Definition EncodeFdbTableEntryforV4GeneveTunnel (table_entry : TableEntry)
  (learn_info : mac_learning_info) (p4info : P4Info) (insert_entry : bool)
  (detail : DiagDetail) : TableEntry * DiagDetail :=
  let detail := MkDiagDetail LOG_L2_FWD_TX_TABLE in
  let table_entry := EncodeL2FwdTxTablePrologue table_entry learn_info p4info in
  let table_entry :=
    if insert_entry then
      mutable_action (fun action =>
        if (family (local_ip (tnl_info learn_info)) =? AF_INET) &&
           (family (remote_ip (tnl_info learn_info)) =? AF_INET) then
          if decide (port_vlan_mode (vlan_mode_info learn_info) = P4_PORT_VLAN_NATIVE_UNTAGGED)
          then
              let action :=
                set_action_id (GetActionId p4info L2_FWD_TX_TABLE_ACTION_POP_VLAN_SET_GENEVE_UNDERLAY_V4)
                  action in
              add_param
                (GetParamId p4info L2_FWD_TX_TABLE_ACTION_POP_VLAN_SET_GENEVE_UNDERLAY_V4
                   ACTION_PARAM_TUNNEL_ID)
                (EncodeTunnelId (vni (tnl_info learn_info))) action
          else
              let action :=
                set_action_id (GetActionId p4info L2_FWD_TX_TABLE_ACTION_SET_GENEVE_UNDERLAY_V4)
                  action in
              add_param
                (GetParamId p4info L2_FWD_TX_TABLE_ACTION_SET_GENEVE_UNDERLAY_V4
                   ACTION_PARAM_TUNNEL_ID)
                (EncodeTunnelId (vni (tnl_info learn_info))) action
        else if (family (local_ip (tnl_info learn_info)) =? AF_INET6) &&
                (family (remote_ip (tnl_info learn_info)) =? AF_INET6) then
          if decide (port_vlan_mode (vlan_mode_info learn_info) = P4_PORT_VLAN_NATIVE_UNTAGGED)
          then
              let action :=
                set_action_id (GetActionId p4info L2_FWD_TX_TABLE_ACTION_POP_VLAN_SET_GENEVE_UNDERLAY_V6)
                  action in
              add_param
                (GetParamId p4info L2_FWD_TX_TABLE_ACTION_POP_VLAN_SET_GENEVE_UNDERLAY_V6
                   ACTION_PARAM_TUNNEL_ID)
                (EncodeTunnelId (vni (tnl_info learn_info))) action
          else
              let action :=
                set_action_id (GetActionId p4info L2_FWD_TX_TABLE_ACTION_SET_GENEVE_UNDERLAY_V6)
                  action in
              add_param
                (GetParamId p4info L2_FWD_TX_TABLE_ACTION_SET_GENEVE_UNDERLAY_V6
                   ACTION_PARAM_TUNNEL_ID)
                (EncodeTunnelId (vni (tnl_info learn_info))) action
        else action) table_entry
    else table_entry in
  (table_entry, detail).

Definition EncodeL2ToTunnelV4 (table_entry : TableEntry)
  (learn_info : mac_learning_info) (p4info : P4Info) (insert_entry : bool)
  (detail : DiagDetail) : TableEntry * DiagDetail :=
  let detail := MkDiagDetail LOG_L2_TO_TUNNEL_V4_TABLE in
  let table_entry := set_table_id (GetTableId p4info L2_TO_TUNNEL_V4_TABLE) table_entry in
  let table_entry :=
    add_match_exact (GetMatchFieldId p4info L2_TO_TUNNEL_V4_TABLE L2_TO_TUNNEL_V4_KEY_DA)
      (CanonicalizeMac (mac_addr learn_info)) table_entry in
  let table_entry :=
    if insert_entry then
      mutable_action (fun action =>
        let action :=
          set_action_id (GetActionId p4info L2_TO_TUNNEL_V4_ACTION_SET_TUNNEL_V4) action in
        add_param
          (GetParamId p4info L2_TO_TUNNEL_V4_ACTION_SET_TUNNEL_V4
             ACTION_SET_TUNNEL_V4_PARAM_DST_ADDR)
          (CanonicalizeIp (s_addr (remote_ip (tnl_info learn_info)))) action) table_entry
    else table_entry in
  (table_entry, detail).

(** The body of the [for (i = 0; i < 4; i++)] loop. *)
Definition EncodeL2ToTunnelV6_param (learn_info : mac_learning_info) (p4info : P4Info)
  (action : Action) (i : nat) : Action :=
  add_param
    (GetParamId p4info L2_TO_TUNNEL_V6_ACTION_SET_TUNNEL_V6 (tunnel_v6_param_name !!! i))
    (CanonicalizeIp (u6_addr32 (remote_ip (tnl_info learn_info)) i)) action.

Definition EncodeL2ToTunnelV6 (table_entry : TableEntry)
  (learn_info : mac_learning_info) (p4info : P4Info) (insert_entry : bool)
  (detail : DiagDetail) : TableEntry * DiagDetail :=
  let detail := MkDiagDetail LOG_L2_TO_TUNNEL_V6_TABLE in
  let table_entry := set_table_id (GetTableId p4info L2_TO_TUNNEL_V6_TABLE) table_entry in
  let table_entry :=
    add_match_exact (GetMatchFieldId p4info L2_TO_TUNNEL_V6_TABLE L2_TO_TUNNEL_V6_KEY_DA)
      (CanonicalizeMac (mac_addr learn_info)) table_entry in
  let table_entry :=
    if insert_entry then
      mutable_action (fun action =>
        let action :=
          set_action_id (GetActionId p4info L2_TO_TUNNEL_V6_ACTION_SET_TUNNEL_V6) action in
        fold_left (EncodeL2ToTunnelV6_param learn_info p4info) (seq 0 4) action) table_entry
    else table_entry in
  (table_entry, detail).

Definition EncodeVxlanEncapTableEntry (table_entry : TableEntry) (info : tunnel_info)
  (p4info : P4Info) (insert_entry : bool) : TableEntry :=
  let table_entry := set_table_id (GetTableId p4info VXLAN_ENCAP_MOD_TABLE) table_entry in
  let table_entry :=
    add_match_exact
      (GetMatchFieldId p4info VXLAN_ENCAP_MOD_TABLE
         VXLAN_ENCAP_MOD_TABLE_KEY_VENDORMETA_MOD_DATA_PTR)
      (EncodeVniValue (vni info)) table_entry in
  if insert_entry then
    mutable_action (fun action =>
      let action := set_action_id (GetActionId p4info ACTION_VXLAN_ENCAP) action in
      let action :=
        add_param (GetParamId p4info ACTION_VXLAN_ENCAP ACTION_VXLAN_ENCAP_PARAM_SRC_ADDR)
          (CanonicalizeIp (s_addr (local_ip info))) action in
      let action :=
        add_param (GetParamId p4info ACTION_VXLAN_ENCAP ACTION_VXLAN_ENCAP_PARAM_DST_ADDR)
          (CanonicalizeIp (s_addr (remote_ip info))) action in
      let action :=
        let src_port := w16 (htons (dst_port info) * 2) in
        add_param (GetParamId p4info ACTION_VXLAN_ENCAP ACTION_VXLAN_ENCAP_PARAM_SRC_PORT)
          (EncodeByteValue 2 [(src_port >>. 8) .& 255; src_port .& 255]) action in
      let action :=
        let dst_port := htons (dst_port info) in
        add_param (GetParamId p4info ACTION_VXLAN_ENCAP ACTION_VXLAN_ENCAP_PARAM_DST_PORT)
          (EncodeByteValue 2 [(dst_port >>. 8) .& 255; dst_port .& 255]) action in
      add_param (GetParamId p4info ACTION_VXLAN_ENCAP ACTION_VXLAN_ENCAP_PARAM_VNI)
        (EncodeVniValue (vni info)) action) table_entry
  else table_entry.

Definition EncodeGeneveEncapTableEntry (table_entry : TableEntry) (info : tunnel_info)
  (p4info : P4Info) (insert_entry : bool) : TableEntry :=
  let table_entry := set_table_id (GetTableId p4info GENEVE_ENCAP_MOD_TABLE) table_entry in
  let table_entry :=
    add_match_exact
      (GetMatchFieldId p4info GENEVE_ENCAP_MOD_TABLE
         GENEVE_ENCAP_MOD_TABLE_KEY_VENDORMETA_MOD_DATA_PTR)
      (EncodeVniValue (vni info)) table_entry in
  if insert_entry then
    mutable_action (fun action =>
      let action := set_action_id (GetActionId p4info ACTION_GENEVE_ENCAP) action in
      let action :=
        add_param (GetParamId p4info ACTION_GENEVE_ENCAP ACTION_GENEVE_ENCAP_PARAM_SRC_ADDR)
          (CanonicalizeIp (s_addr (local_ip info))) action in
      let action :=
        add_param (GetParamId p4info ACTION_GENEVE_ENCAP ACTION_GENEVE_ENCAP_PARAM_DST_ADDR)
          (CanonicalizeIp (s_addr (remote_ip info))) action in
      let action :=
        let src_port := w16 (htons (dst_port info) * 2) in
        add_param (GetParamId p4info ACTION_GENEVE_ENCAP ACTION_GENEVE_ENCAP_PARAM_SRC_PORT)
          (EncodeByteValue 2 [(src_port >>. 8) .& 255; src_port .& 255]) action in
      let action :=
        let dst_port := htons (dst_port info) in
        add_param (GetParamId p4info ACTION_GENEVE_ENCAP ACTION_GENEVE_ENCAP_PARAM_DST_PORT)
          (EncodeByteValue 2 [(dst_port >>. 8) .& 255; dst_port .& 255]) action in
      add_param (GetParamId p4info ACTION_GENEVE_ENCAP ACTION_GENEVE_ENCAP_PARAM_VNI)
        (EncodeVniValue (vni info)) action) table_entry
  else table_entry.

Definition EncodeV6VxlanEncapTableEntry (table_entry : TableEntry) (info : tunnel_info)
  (p4info : P4Info) (insert_entry : bool) : TableEntry :=
  let table_entry := set_table_id (GetTableId p4info VXLAN_ENCAP_V6_MOD_TABLE) table_entry in
  let table_entry :=
    add_match_exact
      (GetMatchFieldId p4info VXLAN_ENCAP_V6_MOD_TABLE
         VXLAN_ENCAP_V6_MOD_TABLE_KEY_VENDORMETA_MOD_DATA_PTR)
      (EncodeVniValue (vni info)) table_entry in
  if insert_entry then
    mutable_action (fun action =>
      let action := set_action_id (GetActionId p4info ACTION_VXLAN_ENCAP_V6) action in
      let action :=
        add_param (GetParamId p4info ACTION_VXLAN_ENCAP_V6 ACTION_VXLAN_ENCAP_V6_PARAM_SRC_ADDR)
          (CanonicalizeIpv6 (local_ip info)) action in
      let action :=
        add_param (GetParamId p4info ACTION_VXLAN_ENCAP_V6 ACTION_VXLAN_ENCAP_V6_PARAM_DST_ADDR)
          (CanonicalizeIpv6 (remote_ip info)) action in
      let action :=
        let src_port := w16 (htons (dst_port info) * 2) in
        add_param (GetParamId p4info ACTION_VXLAN_ENCAP_V6 ACTION_VXLAN_ENCAP_V6_PARAM_SRC_PORT)
          (EncodeByteValue 2 [(src_port >>. 8) .& 255; src_port .& 255]) action in
      let action :=
        let dst_port := htons (dst_port info) in
        add_param (GetParamId p4info ACTION_VXLAN_ENCAP_V6 ACTION_VXLAN_ENCAP_V6_PARAM_DST_PORT)
          (EncodeByteValue 2 [(dst_port >>. 8) .& 255; dst_port .& 255]) action in
      add_param (GetParamId p4info ACTION_VXLAN_ENCAP_V6 ACTION_VXLAN_ENCAP_V6_PARAM_VNI)
        (EncodeVniValue (vni info)) action) table_entry
  else table_entry.

Definition EncodeV6GeneveEncapTableEntry (table_entry : TableEntry) (info : tunnel_info)
  (p4info : P4Info) (insert_entry : bool) : TableEntry :=
  let table_entry := set_table_id (GetTableId p4info GENEVE_ENCAP_V6_MOD_TABLE) table_entry in
  let table_entry :=
    add_match_exact
      (GetMatchFieldId p4info GENEVE_ENCAP_V6_MOD_TABLE
         GENEVE_ENCAP_V6_MOD_TABLE_KEY_VENDORMETA_MOD_DATA_PTR)
      (EncodeVniValue (vni info)) table_entry in
  if insert_entry then
    mutable_action (fun action =>
      let action := set_action_id (GetActionId p4info ACTION_GENEVE_ENCAP_V6) action in
      let action :=
        add_param (GetParamId p4info ACTION_GENEVE_ENCAP_V6 ACTION_GENEVE_ENCAP_V6_PARAM_SRC_ADDR)
          (CanonicalizeIpv6 (local_ip info)) action in
      let action :=
        add_param (GetParamId p4info ACTION_GENEVE_ENCAP_V6 ACTION_GENEVE_ENCAP_V6_PARAM_DST_ADDR)
          (CanonicalizeIpv6 (remote_ip info)) action in
      let action :=
        let src_port := w16 (htons (dst_port info) * 2) in
        add_param (GetParamId p4info ACTION_GENEVE_ENCAP_V6 ACTION_GENEVE_ENCAP_V6_PARAM_SRC_PORT)
          (EncodeByteValue 2 [(src_port >>. 8) .& 255; src_port .& 255]) action in
      let action :=
        let dst_port := htons (dst_port info) in
        add_param (GetParamId p4info ACTION_GENEVE_ENCAP_V6 ACTION_GENEVE_ENCAP_V6_PARAM_DST_PORT)
          (EncodeByteValue 2 [(dst_port >>. 8) .& 255; dst_port .& 255]) action in
      add_param (GetParamId p4info ACTION_GENEVE_ENCAP_V6 ACTION_GENEVE_ENCAP_V6_PARAM_VNI)
        (EncodeVniValue (vni info)) action) table_entry
  else table_entry.

Definition EncodeVxlanEncapAndVlanPopTableEntry (table_entry : TableEntry) (info : tunnel_info)
  (p4info : P4Info) (insert_entry : bool) : TableEntry :=
  let table_entry := set_table_id (GetTableId p4info VXLAN_ENCAP_VLAN_POP_MOD_TABLE) table_entry in
  let table_entry :=
    add_match_exact
      (GetMatchFieldId p4info VXLAN_ENCAP_VLAN_POP_MOD_TABLE
         VXLAN_ENCAP_VLAN_POP_MOD_TABLE_KEY_VENDORMETA_MOD_DATA_PTR)
      (EncodeVniValue (vni info)) table_entry in
  if insert_entry then
    mutable_action (fun action =>
      let action := set_action_id (GetActionId p4info ACTION_VXLAN_ENCAP_VLAN_POP) action in
      let action :=
        add_param (GetParamId p4info ACTION_VXLAN_ENCAP_VLAN_POP ACTION_VXLAN_ENCAP_VLAN_POP_PARAM_SRC_ADDR)
          (CanonicalizeIp (s_addr (local_ip info))) action in
      let action :=
        add_param (GetParamId p4info ACTION_VXLAN_ENCAP_VLAN_POP ACTION_VXLAN_ENCAP_VLAN_POP_PARAM_DST_ADDR)
          (CanonicalizeIp (s_addr (remote_ip info))) action in
      let action :=
        let src_port := w16 (htons (dst_port info) * 2) in
        add_param (GetParamId p4info ACTION_VXLAN_ENCAP_VLAN_POP ACTION_VXLAN_ENCAP_VLAN_POP_PARAM_SRC_PORT)
          (EncodeByteValue 2 [(src_port >>. 8) .& 255; src_port .& 255]) action in
      let action :=
        let dst_port := htons (dst_port info) in
        add_param (GetParamId p4info ACTION_VXLAN_ENCAP_VLAN_POP ACTION_VXLAN_ENCAP_VLAN_POP_PARAM_DST_PORT)
          (EncodeByteValue 2 [(dst_port >>. 8) .& 255; dst_port .& 255]) action in
      add_param (GetParamId p4info ACTION_VXLAN_ENCAP_VLAN_POP ACTION_VXLAN_ENCAP_VLAN_POP_PARAM_VNI)
        (EncodeVniValue (vni info)) action) table_entry
  else table_entry.

Definition EncodeGeneveEncapAndVlanPopTableEntry (table_entry : TableEntry) (info : tunnel_info)
  (p4info : P4Info) (insert_entry : bool) : TableEntry :=
  let table_entry := set_table_id (GetTableId p4info GENEVE_ENCAP_VLAN_POP_MOD_TABLE) table_entry in
  let table_entry :=
    add_match_exact
      (GetMatchFieldId p4info GENEVE_ENCAP_VLAN_POP_MOD_TABLE
         GENEVE_ENCAP_VLAN_POP_MOD_TABLE_KEY_VENDORMETA_MOD_DATA_PTR)
      (EncodeVniValue (vni info)) table_entry in
  if insert_entry then
    mutable_action (fun action =>
      let action := set_action_id (GetActionId p4info ACTION_GENEVE_ENCAP_VLAN_POP) action in
      let action :=
        add_param (GetParamId p4info ACTION_GENEVE_ENCAP_VLAN_POP ACTION_GENEVE_ENCAP_VLAN_POP_PARAM_SRC_ADDR)
          (CanonicalizeIp (s_addr (local_ip info))) action in
      let action :=
        add_param (GetParamId p4info ACTION_GENEVE_ENCAP_VLAN_POP ACTION_GENEVE_ENCAP_VLAN_POP_PARAM_DST_ADDR)
          (CanonicalizeIp (s_addr (remote_ip info))) action in
      let action :=
        let src_port := w16 (htons (dst_port info) * 2) in
        add_param (GetParamId p4info ACTION_GENEVE_ENCAP_VLAN_POP ACTION_GENEVE_ENCAP_VLAN_POP_PARAM_SRC_PORT)
          (EncodeByteValue 2 [(src_port >>. 8) .& 255; src_port .& 255]) action in
      let action :=
        let dst_port := htons (dst_port info) in
        add_param (GetParamId p4info ACTION_GENEVE_ENCAP_VLAN_POP ACTION_GENEVE_ENCAP_VLAN_POP_PARAM_DST_PORT)
          (EncodeByteValue 2 [(dst_port >>. 8) .& 255; dst_port .& 255]) action in
      add_param (GetParamId p4info ACTION_GENEVE_ENCAP_VLAN_POP ACTION_GENEVE_ENCAP_VLAN_POP_PARAM_VNI)
        (EncodeVniValue (vni info)) action) table_entry
  else table_entry.

Definition EncodeV6VxlanEncapAndVlanPopTableEntry (table_entry : TableEntry) (info : tunnel_info)
  (p4info : P4Info) (insert_entry : bool) : TableEntry :=
  let table_entry := set_table_id (GetTableId p4info VXLAN_ENCAP_V6_VLAN_POP_MOD_TABLE) table_entry in
  let table_entry :=
    add_match_exact
      (GetMatchFieldId p4info VXLAN_ENCAP_V6_VLAN_POP_MOD_TABLE
         VXLAN_ENCAP_V6_VLAN_POP_MOD_TABLE_KEY_VENDORMETA_MOD_DATA_PTR)
      (EncodeVniValue (vni info)) table_entry in
  if insert_entry then
    mutable_action (fun action =>
      let action := set_action_id (GetActionId p4info ACTION_VXLAN_ENCAP_V6_VLAN_POP) action in
      let action :=
        add_param (GetParamId p4info ACTION_VXLAN_ENCAP_V6_VLAN_POP ACTION_VXLAN_ENCAP_V6_VLAN_POP_PARAM_SRC_ADDR)
          (CanonicalizeIpv6 (local_ip info)) action in
      let action :=
        add_param (GetParamId p4info ACTION_VXLAN_ENCAP_V6_VLAN_POP ACTION_VXLAN_ENCAP_V6_VLAN_POP_PARAM_DST_ADDR)
          (CanonicalizeIpv6 (remote_ip info)) action in
      let action :=
        let src_port := w16 (htons (dst_port info) * 2) in
        add_param (GetParamId p4info ACTION_VXLAN_ENCAP_V6_VLAN_POP ACTION_VXLAN_ENCAP_V6_VLAN_POP_PARAM_SRC_PORT)
          (EncodeByteValue 2 [(src_port >>. 8) .& 255; src_port .& 255]) action in
      let action :=
        let dst_port := htons (dst_port info) in
        add_param (GetParamId p4info ACTION_VXLAN_ENCAP_V6_VLAN_POP ACTION_VXLAN_ENCAP_V6_VLAN_POP_PARAM_DST_PORT)
          (EncodeByteValue 2 [(dst_port >>. 8) .& 255; dst_port .& 255]) action in
      add_param (GetParamId p4info ACTION_VXLAN_ENCAP_V6_VLAN_POP ACTION_VXLAN_ENCAP_V6_VLAN_POP_PARAM_VNI)
        (EncodeVniValue (vni info)) action) table_entry
  else table_entry.

Definition EncodeV6GeneveEncapAndVlanPopTableEntry (table_entry : TableEntry) (info : tunnel_info)
  (p4info : P4Info) (insert_entry : bool) : TableEntry :=
  let table_entry := set_table_id (GetTableId p4info GENEVE_ENCAP_V6_VLAN_POP_MOD_TABLE) table_entry in
  let table_entry :=
    add_match_exact
      (GetMatchFieldId p4info GENEVE_ENCAP_V6_VLAN_POP_MOD_TABLE
         GENEVE_ENCAP_V6_VLAN_POP_MOD_TABLE_KEY_VENDORMETA_MOD_DATA_PTR)
      (EncodeVniValue (vni info)) table_entry in
  if insert_entry then
    mutable_action (fun action =>
      let action := set_action_id (GetActionId p4info ACTION_GENEVE_ENCAP_V6_VLAN_POP) action in
      let action :=
        add_param (GetParamId p4info ACTION_GENEVE_ENCAP_V6_VLAN_POP ACTION_GENEVE_ENCAP_V6_VLAN_POP_PARAM_SRC_ADDR)
          (CanonicalizeIpv6 (local_ip info)) action in
      let action :=
        add_param (GetParamId p4info ACTION_GENEVE_ENCAP_V6_VLAN_POP ACTION_GENEVE_ENCAP_V6_VLAN_POP_PARAM_DST_ADDR)
          (CanonicalizeIpv6 (remote_ip info)) action in
      let action :=
        let src_port := w16 (htons (dst_port info) * 2) in
        add_param (GetParamId p4info ACTION_GENEVE_ENCAP_V6_VLAN_POP ACTION_GENEVE_ENCAP_V6_VLAN_POP_PARAM_SRC_PORT)
          (EncodeByteValue 2 [(src_port >>. 8) .& 255; src_port .& 255]) action in
      let action :=
        let dst_port := htons (dst_port info) in
        add_param (GetParamId p4info ACTION_GENEVE_ENCAP_V6_VLAN_POP ACTION_GENEVE_ENCAP_V6_VLAN_POP_PARAM_DST_PORT)
          (EncodeByteValue 2 [(dst_port >>. 8) .& 255; dst_port .& 255]) action in
      add_param (GetParamId p4info ACTION_GENEVE_ENCAP_V6_VLAN_POP ACTION_GENEVE_ENCAP_V6_VLAN_POP_PARAM_VNI)
        (EncodeVniValue (vni info)) action) table_entry
  else table_entry.

Definition EncodeRxTunnelTableEntry (table_entry : TableEntry) (info : tunnel_info)
  (p4info : P4Info) (insert_entry : bool) : TableEntry :=
  let table_entry := set_table_id (GetTableId p4info RX_IPV4_TUNNEL_SOURCE_PORT_TABLE) table_entry in
  let table_entry :=
    add_match_exact
      (GetMatchFieldId p4info RX_IPV4_TUNNEL_SOURCE_PORT_TABLE RX_IPV4_TUNNEL_SOURCE_PORT_TABLE_KEY_VNI)
      (EncodeVniValue (vni info)) table_entry in
  let table_entry :=
    add_match_exact
      (GetMatchFieldId p4info RX_IPV4_TUNNEL_SOURCE_PORT_TABLE RX_IPV4_TUNNEL_SOURCE_PORT_TABLE_KEY_IPV4_SRC)
      (CanonicalizeIp (s_addr (remote_ip info))) table_entry in
  if insert_entry then
    mutable_action (fun action =>
      let action :=
        set_action_id (GetActionId p4info RX_IPV4_TUNNEL_SOURCE_PORT_TABLE_ACTION_SET_SRC_PORT) action in
      add_param
        (GetParamId p4info RX_IPV4_TUNNEL_SOURCE_PORT_TABLE_ACTION_SET_SRC_PORT ACTION_SET_SRC_PORT)
        (EncodeByteValue 2 [(tnl_src_port info >>. 8) .& 255; tnl_src_port info .& 255])
        action) table_entry
  else table_entry.

Definition EncodeV6RxTunnelTableEntry (table_entry : TableEntry) (info : tunnel_info)
  (p4info : P4Info) (insert_entry : bool) : TableEntry :=
  let table_entry := set_table_id (GetTableId p4info RX_IPV6_TUNNEL_SOURCE_PORT_TABLE) table_entry in
  let table_entry :=
    add_match_exact
      (GetMatchFieldId p4info RX_IPV6_TUNNEL_SOURCE_PORT_TABLE RX_IPV6_TUNNEL_SOURCE_PORT_TABLE_KEY_VNI)
      (EncodeVniValue (vni info)) table_entry in
  let table_entry :=
    add_match_exact
      (GetMatchFieldId p4info RX_IPV6_TUNNEL_SOURCE_PORT_TABLE RX_IPV6_TUNNEL_SOURCE_PORT_TABLE_KEY_IPV6_SRC)
      (CanonicalizeIpv6 (remote_ip info)) table_entry in
  if insert_entry then
    mutable_action (fun action =>
      let action :=
        set_action_id (GetActionId p4info RX_IPV6_TUNNEL_SOURCE_PORT_TABLE_ACTION_SET_SRC_PORT) action in
      add_param
        (GetParamId p4info RX_IPV6_TUNNEL_SOURCE_PORT_TABLE_ACTION_SET_SRC_PORT ACTION_SET_SRC_PORT)
        (EncodeByteValue 2 [(tnl_src_port info >>. 8) .& 255; tnl_src_port info .& 255])
        action) table_entry
  else table_entry.

(** [auto action = ...->mutable_action()] creates the action before the tunnel
    type is tested: an unsupported type leaves it empty and prints a line. *)
Definition EncodeTunnelTermTableEntry (table_entry : TableEntry) (info : tunnel_info)
  (p4info : P4Info) (insert_entry : bool) : TableEntry * list string :=
  let table_entry :=
    add_match_exact
      (GetMatchFieldId p4info IPV4_TUNNEL_TERM_TABLE IPV4_TUNNEL_TERM_TABLE_KEY_IPV4_SRC)
      (CanonicalizeIp (s_addr (remote_ip info))) table_entry in
  let table_entry := set_table_id (GetTableId p4info IPV4_TUNNEL_TERM_TABLE) table_entry in
  let table_entry :=
    add_match_exact
      (GetMatchFieldId p4info IPV4_TUNNEL_TERM_TABLE IPV4_TUNNEL_TERM_TABLE_KEY_BRIDGE_ID)
      (EncodeByteValue 1 [tnl_bridge_id info]) table_entry in
  let table_entry :=
    add_match_exact
      (GetMatchFieldId p4info IPV4_TUNNEL_TERM_TABLE IPV4_TUNNEL_TERM_TABLE_KEY_VNI)
      (EncodeVniValue (vni info)) table_entry in
  if insert_entry then
    let action := default default_Action (te_action table_entry) in
    let '(action, out) :=
      if decide (port_vlan_mode (tnl_vlan_info info) = P4_PORT_VLAN_NATIVE_UNTAGGED) then
         if tunnel_type info =? tunnel_type_value OVS_TUNNEL_VXLAN then
           (let action := set_action_id (GetActionId p4info ACTION_SET_VXLAN_DECAP_OUTER_HDR_AND_PUSH_VLAN) action in
            add_param (GetParamId p4info ACTION_SET_VXLAN_DECAP_OUTER_HDR_AND_PUSH_VLAN ACTION_PARAM_TUNNEL_ID)
              (EncodeTunnelId (vni info)) action, [])
         else if tunnel_type info =? tunnel_type_value OVS_TUNNEL_GENEVE then
           (let action := set_action_id (GetActionId p4info ACTION_SET_GENEVE_DECAP_OUTER_HDR_AND_PUSH_VLAN) action in
            add_param (GetParamId p4info ACTION_SET_GENEVE_DECAP_OUTER_HDR_AND_PUSH_VLAN ACTION_PARAM_TUNNEL_ID)
              (EncodeTunnelId (vni info)) action, [])
         else (action, ["Unsupported tunnel type"])
      else
         if tunnel_type info =? tunnel_type_value OVS_TUNNEL_VXLAN then
           (let action := set_action_id (GetActionId p4info ACTION_SET_VXLAN_DECAP_OUTER_HDR) action in
            add_param (GetParamId p4info ACTION_SET_VXLAN_DECAP_OUTER_HDR ACTION_PARAM_TUNNEL_ID)
              (EncodeTunnelId (vni info)) action, [])
         else if tunnel_type info =? tunnel_type_value OVS_TUNNEL_GENEVE then
           (let action := set_action_id (GetActionId p4info ACTION_SET_GENEVE_DECAP_OUTER_HDR) action in
            add_param (GetParamId p4info ACTION_SET_GENEVE_DECAP_OUTER_HDR ACTION_PARAM_TUNNEL_ID)
              (EncodeTunnelId (vni info)) action, [])
         else (action, ["Unsupported tunnel type"]) in
    (mutable_action (fun _ => action) table_entry, out)
  else (table_entry, []).

Definition EncodeV6TunnelTermTableEntry (table_entry : TableEntry) (info : tunnel_info)
  (p4info : P4Info) (insert_entry : bool) : TableEntry * list string :=
  let table_entry := set_table_id (GetTableId p4info IPV6_TUNNEL_TERM_TABLE) table_entry in
  let table_entry :=
    add_match_exact
      (GetMatchFieldId p4info IPV6_TUNNEL_TERM_TABLE IPV6_TUNNEL_TERM_TABLE_KEY_BRIDGE_ID)
      (EncodeByteValue 1 [tnl_bridge_id info]) table_entry in
  let table_entry :=
    add_match_exact
      (GetMatchFieldId p4info IPV6_TUNNEL_TERM_TABLE IPV6_TUNNEL_TERM_TABLE_KEY_IPV6_SRC)
      (CanonicalizeIpv6 (remote_ip info)) table_entry in
  let table_entry :=
    add_match_exact
      (GetMatchFieldId p4info IPV6_TUNNEL_TERM_TABLE IPV6_TUNNEL_TERM_TABLE_KEY_VNI)
      (EncodeVniValue (vni info)) table_entry in
  if insert_entry then
    let action := default default_Action (te_action table_entry) in
    let '(action, out) :=
      if decide (port_vlan_mode (tnl_vlan_info info) = P4_PORT_VLAN_NATIVE_UNTAGGED) then
         if tunnel_type info =? tunnel_type_value OVS_TUNNEL_VXLAN then
           (let action := set_action_id (GetActionId p4info ACTION_SET_VXLAN_DECAP_OUTER_HDR_AND_PUSH_VLAN) action in
            add_param (GetParamId p4info ACTION_SET_VXLAN_DECAP_OUTER_HDR_AND_PUSH_VLAN ACTION_PARAM_TUNNEL_ID)
              (EncodeTunnelId (vni info)) action, [])
         else if tunnel_type info =? tunnel_type_value OVS_TUNNEL_GENEVE then
           (let action := set_action_id (GetActionId p4info ACTION_SET_GENEVE_DECAP_OUTER_HDR_AND_PUSH_VLAN) action in
            add_param (GetParamId p4info ACTION_SET_GENEVE_DECAP_OUTER_HDR_AND_PUSH_VLAN ACTION_PARAM_TUNNEL_ID)
              (EncodeTunnelId (vni info)) action, [])
         else (action, ["Unsupported tunnel type"])
      else
         if tunnel_type info =? tunnel_type_value OVS_TUNNEL_VXLAN then
           (let action := set_action_id (GetActionId p4info ACTION_SET_VXLAN_DECAP_OUTER_HDR) action in
            add_param (GetParamId p4info ACTION_SET_VXLAN_DECAP_OUTER_HDR ACTION_PARAM_TUNNEL_ID)
              (EncodeTunnelId (vni info)) action, [])
         else if tunnel_type info =? tunnel_type_value OVS_TUNNEL_GENEVE then
           (let action := set_action_id (GetActionId p4info ACTION_SET_GENEVE_DECAP_OUTER_HDR) action in
            add_param (GetParamId p4info ACTION_SET_GENEVE_DECAP_OUTER_HDR ACTION_PARAM_TUNNEL_ID)
              (EncodeTunnelId (vni info)) action, [])
         else (action, ["Unsupported tunnel type"]) in
    (mutable_action (fun _ => action) table_entry, out)
  else (table_entry, []).

Definition EncodeVxlanDecapModAndVlanPushTableEntry (table_entry : TableEntry)
  (info : tunnel_info) (p4info : P4Info) (insert_entry : bool) : TableEntry :=
  let table_entry :=
    set_table_id (GetTableId p4info VXLAN_DECAP_AND_VLAN_PUSH_MOD_TABLE) table_entry in
  let table_entry :=
    add_match_exact
      (GetMatchFieldId p4info VXLAN_DECAP_AND_VLAN_PUSH_MOD_TABLE
         VXLAN_DECAP_AND_VLAN_PUSH_MOD_TABLE_KEY_MOD_BLOB_PTR)
      (EncodeVniValue (vni info)) table_entry in
  if insert_entry then
    mutable_action (fun action =>
      let action := set_action_id (GetActionId p4info ACTION_VXLAN_DECAP_AND_PUSH_VLAN) action in
      let action :=
        add_param (GetParamId p4info ACTION_VXLAN_DECAP_AND_PUSH_VLAN ACTION_VXLAN_DECAP_AND_PUSH_VLAN_PARAM_PCP)
          (EncodeByteValue 1 [1]) action in
      let action :=
        add_param (GetParamId p4info ACTION_VXLAN_DECAP_AND_PUSH_VLAN ACTION_VXLAN_DECAP_AND_PUSH_VLAN_PARAM_DEI)
          (EncodeByteValue 1 [0]) action in
      add_param (GetParamId p4info ACTION_VXLAN_DECAP_AND_PUSH_VLAN ACTION_VXLAN_DECAP_AND_PUSH_VLAN_PARAM_VLAN_ID)
        (EncodeByteValue 1 [port_vlan (tnl_vlan_info info)]) action) table_entry
  else table_entry.

Definition EncodeGeneveDecapModAndVlanPushTableEntry (table_entry : TableEntry)
  (info : tunnel_info) (p4info : P4Info) (insert_entry : bool) : TableEntry :=
  let table_entry :=
    set_table_id (GetTableId p4info GENEVE_DECAP_AND_VLAN_PUSH_MOD_TABLE) table_entry in
  let table_entry :=
    add_match_exact
      (GetMatchFieldId p4info GENEVE_DECAP_AND_VLAN_PUSH_MOD_TABLE
         GENEVE_DECAP_AND_VLAN_PUSH_MOD_TABLE_KEY_MOD_BLOB_PTR)
      (EncodeVniValue (vni info)) table_entry in
  if insert_entry then
    mutable_action (fun action =>
      let action := set_action_id (GetActionId p4info ACTION_GENEVE_DECAP_AND_PUSH_VLAN) action in
      let action :=
        add_param (GetParamId p4info ACTION_GENEVE_DECAP_AND_PUSH_VLAN ACTION_GENEVE_DECAP_AND_PUSH_VLAN_PARAM_PCP)
          (EncodeByteValue 1 [1]) action in
      let action :=
        add_param (GetParamId p4info ACTION_GENEVE_DECAP_AND_PUSH_VLAN ACTION_GENEVE_DECAP_AND_PUSH_VLAN_PARAM_DEI)
          (EncodeByteValue 1 [0]) action in
      add_param (GetParamId p4info ACTION_GENEVE_DECAP_AND_PUSH_VLAN ACTION_GENEVE_DECAP_AND_PUSH_VLAN_PARAM_VLAN_ID)
        (EncodeByteValue 1 [port_vlan (tnl_vlan_info info)]) action) table_entry
  else table_entry.

Definition EncodeVlanPushTableEntry (table_entry : TableEntry) (vlan_id : Z)
  (p4info : P4Info) (insert_entry : bool) : TableEntry :=
  let table_entry := set_table_id (GetTableId p4info VLAN_PUSH_MOD_TABLE) table_entry in
  let table_entry :=
    add_match_exact
      (GetMatchFieldId p4info VLAN_PUSH_MOD_TABLE VLAN_PUSH_MOD_KEY_MOD_BLOB_PTR)
      (EncodeByteValue 1 [vlan_id]) table_entry in
  if insert_entry then
    mutable_action (fun action =>
      let action := set_action_id (GetActionId p4info VLAN_PUSH_MOD_ACTION_VLAN_PUSH) action in
      let action :=
        add_param
          (GetParamId p4info VLAN_PUSH_MOD_ACTION_VLAN_PUSH ACTION_VLAN_PUSH_PARAM_PCP)
          (EncodeByteValue 1 [1]) action in
      let action :=
        add_param
          (GetParamId p4info VLAN_PUSH_MOD_ACTION_VLAN_PUSH ACTION_VLAN_PUSH_PARAM_DEI)
          (EncodeByteValue 1 [0]) action in
      add_param
        (GetParamId p4info VLAN_PUSH_MOD_ACTION_VLAN_PUSH ACTION_VLAN_PUSH_PARAM_VLAN_ID)
        (EncodeByteValue 1 [vlan_id]) action) table_entry
  else table_entry.

Definition EncodeVlanPopTableEntry (table_entry : TableEntry) (vlan_id : Z)
  (p4info : P4Info) (insert_entry : bool) : TableEntry :=
  let table_entry := set_table_id (GetTableId p4info VLAN_POP_MOD_TABLE) table_entry in
  let table_entry :=
    add_match_exact
      (GetMatchFieldId p4info VLAN_POP_MOD_TABLE VLAN_POP_MOD_KEY_MOD_BLOB_PTR)
      (EncodeByteValue 1 [vlan_id]) table_entry in
  if insert_entry then
    mutable_action (fun action =>
      set_action_id (GetActionId p4info VLAN_POP_MOD_ACTION_VLAN_POP) action) table_entry
  else table_entry.

Definition EncodeSrcPortTableEntry (table_entry : TableEntry) (sp : src_port_info)
  (p4info : P4Info) (insert_entry : bool) : TableEntry :=
  let table_entry :=
    set_table_id (GetTableId p4info SOURCE_PORT_TO_BRIDGE_MAP_TABLE) table_entry in
  let table_entry := set_priority 1 table_entry in
  let table_entry :=
    add_match_ternary
      (GetMatchFieldId p4info SOURCE_PORT_TO_BRIDGE_MAP_TABLE
         SOURCE_PORT_TO_BRIDGE_MAP_TABLE_KEY_SRC_PORT)
      (EncodeByteValue 2 [(sp_src_port sp >>. 8) .& 255; sp_src_port sp .& 255])
      (EncodeByteValue 2 [255; 255]) table_entry in
  let table_entry :=
    add_match_ternary
      (GetMatchFieldId p4info SOURCE_PORT_TO_BRIDGE_MAP_TABLE
         SOURCE_PORT_TO_BRIDGE_MAP_TABLE_KEY_VID)
      (EncodeByteValue 2 [(sp_vlan_id sp >>. 8) .& 15; sp_vlan_id sp .& 255])
      (EncodeByteValue 2 [15; 255]) table_entry in
  if insert_entry then
    mutable_action (fun action =>
      let action :=
        set_action_id
          (GetActionId p4info SOURCE_PORT_TO_BRIDGE_MAP_TABLE_ACTION_SET_BRIDGE_ID) action in
      add_param
        (GetParamId p4info SOURCE_PORT_TO_BRIDGE_MAP_TABLE_ACTION_SET_BRIDGE_ID
           ACTION_SET_BRIDGE_ID_PARAM_BRIDGE_ID)
        (EncodeByteValue 1 [sp_bridge_id sp]) action) table_entry
  else table_entry.

Definition EncodeSrcIpMacMapTableEntry (table_entry : TableEntry)
  (ip_info : ip_mac_map_info) (p4info : P4Info) (insert_entry : bool)
  (detail : DiagDetail) : TableEntry * DiagDetail :=
  let detail := MkDiagDetail LOG_SRC_IP_MAC_MAP_TABLE in
  let table_entry := set_table_id (GetTableId p4info SRC_IP_MAC_MAP_TABLE) table_entry in
  let table_entry :=
    add_match_exact
      (GetMatchFieldId p4info SRC_IP_MAC_MAP_TABLE SRC_IP_MAC_MAP_TABLE_KEY_SRC_IP)
      (CanonicalizeIp (s_addr (src_ip_addr ip_info))) table_entry in
  let table_entry :=
    if insert_entry then
      mutable_action (fun action =>
        let action :=
          set_action_id (GetActionId p4info SRC_IP_MAC_MAP_TABLE_ACTION_SMAC_MAP) action in
        let action :=
          add_param (GetParamId p4info SRC_IP_MAC_MAP_TABLE_ACTION_SMAC_MAP ACTION_SET_SRC_MAC_HIGH)
          (EncodeByteValue 2 [(src_mac_addr ip_info !!! 0%nat) .& 255;
                              (src_mac_addr ip_info !!! 1%nat) .& 255]) action in
        let action :=
          add_param (GetParamId p4info SRC_IP_MAC_MAP_TABLE_ACTION_SMAC_MAP ACTION_SET_SRC_MAC_MID)
          (EncodeByteValue 2 [(src_mac_addr ip_info !!! 2%nat) .& 255;
                              (src_mac_addr ip_info !!! 3%nat) .& 255]) action in
        add_param (GetParamId p4info SRC_IP_MAC_MAP_TABLE_ACTION_SMAC_MAP ACTION_SET_SRC_MAC_LOW)
          (EncodeByteValue 2 [(src_mac_addr ip_info !!! 4%nat) .& 255;
                              (src_mac_addr ip_info !!! 5%nat) .& 255]) action) table_entry
    else table_entry in
  (table_entry, detail).

Definition EncodeDstIpMacMapTableEntry (table_entry : TableEntry)
  (ip_info : ip_mac_map_info) (p4info : P4Info) (insert_entry : bool)
  (detail : DiagDetail) : TableEntry * DiagDetail :=
  let detail := MkDiagDetail LOG_DST_IP_MAC_MAP_TABLE in
  let table_entry := set_table_id (GetTableId p4info DST_IP_MAC_MAP_TABLE) table_entry in
  let table_entry :=
    add_match_exact
      (GetMatchFieldId p4info DST_IP_MAC_MAP_TABLE DST_IP_MAC_MAP_TABLE_KEY_DST_IP)
      (CanonicalizeIp (s_addr (dst_ip_addr ip_info))) table_entry in
  let table_entry :=
    if insert_entry then
      mutable_action (fun action =>
        let action :=
          set_action_id (GetActionId p4info DST_IP_MAC_MAP_TABLE_ACTION_DMAC_MAP) action in
        let action :=
          add_param (GetParamId p4info DST_IP_MAC_MAP_TABLE_ACTION_DMAC_MAP ACTION_SET_DST_MAC_HIGH)
          (EncodeByteValue 2 [(dst_mac_addr ip_info !!! 0%nat) .& 255;
                              (dst_mac_addr ip_info !!! 1%nat) .& 255]) action in
        let action :=
          add_param (GetParamId p4info DST_IP_MAC_MAP_TABLE_ACTION_DMAC_MAP ACTION_SET_DST_MAC_MID)
          (EncodeByteValue 2 [(dst_mac_addr ip_info !!! 2%nat) .& 255;
                              (dst_mac_addr ip_info !!! 3%nat) .& 255]) action in
        add_param (GetParamId p4info DST_IP_MAC_MAP_TABLE_ACTION_DMAC_MAP ACTION_SET_DST_MAC_LOW)
          (EncodeByteValue 2 [(dst_mac_addr ip_info !!! 4%nat) .& 255;
                              (dst_mac_addr ip_info !!! 5%nat) .& 255]) action) table_entry
    else table_entry in
  (table_entry, detail).

Definition EncodeTxAccVsiTableEntry (table_entry : TableEntry) (sp : Z)
  (p4info : P4Info) : TableEntry :=
  let table_entry := set_table_id (GetTableId p4info TX_ACC_VSI_TABLE) table_entry in
  add_match_exact (GetMatchFieldId p4info TX_ACC_VSI_TABLE TX_ACC_VSI_TABLE_KEY_VSI)
    (EncodeByteValue 1 [w32 (sp - ES2K_VPORT_ID_OFFSET)]) table_entry.

Definition EncodeVxlanDecapModTableEntry (table_entry : TableEntry) (info : tunnel_info)
  (p4info : P4Info) (insert_entry : bool) : TableEntry :=
  let table_entry := set_table_id (GetTableId p4info VXLAN_DECAP_MOD_TABLE) table_entry in
  let table_entry :=
    add_match_exact
      (GetMatchFieldId p4info VXLAN_DECAP_MOD_TABLE VXLAN_DECAP_MOD_TABLE_KEY_MOD_BLOB_PTR)
      (EncodeVniValue (vni info)) table_entry in
  if insert_entry then
    mutable_action (fun action =>
      set_action_id (GetActionId p4info ACTION_VXLAN_DECAP_OUTER_HDR) action) table_entry
  else table_entry.

Definition EncodeGeneveDecapModTableEntry (table_entry : TableEntry) (info : tunnel_info)
  (p4info : P4Info) (insert_entry : bool) : TableEntry :=
  let table_entry := set_table_id (GetTableId p4info GENEVE_DECAP_MOD_TABLE) table_entry in
  let table_entry :=
    add_match_exact
      (GetMatchFieldId p4info GENEVE_DECAP_MOD_TABLE GENEVE_DECAP_MOD_TABLE_KEY_MOD_BLOB_PTR)
      (EncodeVniValue (vni info)) table_entry in
  if insert_entry then
    mutable_action (fun action =>
      set_action_id (GetActionId p4info ACTION_GENEVE_DECAP_OUTER_HDR) action) table_entry
  else table_entry.

(** ** Groups of encoders *)

(** Every encoder that has an insert and a delete form. *)
Definition es2k_encoders (l : mac_learning_info) (t : tunnel_info) (vlan : Z)
  (sp : src_port_info) (im : ip_mac_map_info) (p : P4Info) : list (bool -> TableEntry) :=
  let D := default_TableEntry in
  let dd := default_DiagDetail in
  [(fun b => (EncodeFdbSmacTableEntry D l p b dd).1);
   (fun b => (EncodeFdbTxVlanTableEntry D l p b dd).1);
   (fun b => (EncodeFdbRxVlanTableEntry D l p b dd).1);
   (fun b => (EncodeFdbTableEntryforV4VxlanTunnel D l p b dd).1);
   (fun b => (EncodeFdbTableEntryforV4GeneveTunnel D l p b dd).1);
   (fun b => (EncodeL2ToTunnelV4 D l p b dd).1);
   (fun b => (EncodeL2ToTunnelV6 D l p b dd).1);
   EncodeVxlanEncapTableEntry D t p; EncodeGeneveEncapTableEntry D t p;
   EncodeV6VxlanEncapTableEntry D t p; EncodeV6GeneveEncapTableEntry D t p;
   EncodeVxlanEncapAndVlanPopTableEntry D t p; EncodeGeneveEncapAndVlanPopTableEntry D t p;
   EncodeV6VxlanEncapAndVlanPopTableEntry D t p;
   EncodeV6GeneveEncapAndVlanPopTableEntry D t p;
   EncodeRxTunnelTableEntry D t p; EncodeV6RxTunnelTableEntry D t p;
   (fun b => (EncodeTunnelTermTableEntry D t p b).1);
   (fun b => (EncodeV6TunnelTermTableEntry D t p b).1);
   EncodeVxlanDecapModTableEntry D t p; EncodeGeneveDecapModTableEntry D t p;
   EncodeVxlanDecapModAndVlanPushTableEntry D t p;
   EncodeGeneveDecapModAndVlanPushTableEntry D t p;
   EncodeVlanPushTableEntry D vlan p; EncodeVlanPopTableEntry D vlan p;
   EncodeSrcPortTableEntry D sp p;
   (fun b => (EncodeSrcIpMacMapTableEntry D im p b dd).1);
   (fun b => (EncodeDstIpMacMapTableEntry D im p b dd).1)].

Definition v4_encap_encoders
  : list (TableEntry -> tunnel_info -> P4Info -> bool -> TableEntry) :=
  [EncodeVxlanEncapTableEntry; EncodeGeneveEncapTableEntry;
   EncodeVxlanEncapAndVlanPopTableEntry; EncodeGeneveEncapAndVlanPopTableEntry].

Definition v6_encap_encoders
  : list (TableEntry -> tunnel_info -> P4Info -> bool -> TableEntry) :=
  [EncodeV6VxlanEncapTableEntry; EncodeV6GeneveEncapTableEntry;
   EncodeV6VxlanEncapAndVlanPopTableEntry; EncodeV6GeneveEncapAndVlanPopTableEntry].

(** ** Lemmas *)

(** The terminator of [EncodeTunnelTermTableEntry] that chooses an action. *)
Lemma symmetric_term_v4 t p :
  symmetric (fun b => (EncodeTunnelTermTableEntry default_TableEntry t p b).1).
Proof. split; [|done]. unfold EncodeTunnelTermTableEntry. by repeat case_match; simplify_eq/=. Qed.

Lemma symmetric_term_v6 t p :
  symmetric (fun b => (EncodeV6TunnelTermTableEntry default_TableEntry t p b).1).
Proof. split; [|done]. unfold EncodeV6TunnelTermTableEntry. by repeat case_match; simplify_eq/=. Qed.

#[export] Hint Resolve symmetric_term_v4 symmetric_term_v6 : core.

(** The two bytes of a port. *)
Lemma port_bytes x : 0 <= x < 65536 ->
  be_val (EncodeByteValue 2 [(x >>. 8) .& 255; x .& 255]) = x.
Proof. intros. rewrite EncodeByteValue_16. lia. Qed.

(** ** Properties *)

(** C23 es2k_encoders_symmetric: for every ES2K encoder and every input, the
    entry built to delete has the match key of the entry built to insert, and
    has no action: a delete request removes what the insert request of the
    same arguments added. *)
Theorem es2k_encoders_symmetric l t vlan sp im p :
  Forall symmetric (es2k_encoders l t vlan sp im p).
Proof. repeat apply Forall_cons; auto using Forall_nil; done. Qed.

(** C24 encap_action_values: the encapsulation actions (VXLAN and Geneve, with
    and without VLAN pop) carry, for IPv4 and IPv6 alike, the local and the
    remote address in network order, a source port that is twice the
    destination port modulo 2^16, the destination port in host order, and the
    low 24 bits of the VNI, which is also the key of the entry. *)
Theorem encap_action_values t p :
  wf_tunnel_info t ->
  let ports_vni :=
    [w16 (2 * htons (dst_port t)); htons (dst_port t); vni t mod 2 ^ 24] in
  Forall (fun E => exists vs,
      te_param_values (E default_TableEntry t p true) =
        take 4 (ip (local_ip t)) :: take 4 (ip (remote_ip t)) :: vs /\
      map be_val vs = ports_vni /\
      te_match_values (E default_TableEntry t p true) = [EncodeVniValue (vni t)])
    v4_encap_encoders /\
  Forall (fun E => exists vs,
      te_param_values (E default_TableEntry t p true) =
        ip (local_ip t) :: ip (remote_ip t) :: vs /\
      map be_val vs = ports_vni /\
      te_match_values (E default_TableEntry t p true) = [EncodeVniValue (vni t)])
    v6_encap_encoders.
Proof.
  intros (_ & _ & _ & Hl & Hr & _) ports_vni.
  assert (Hvals : map be_val
    [EncodeByteValue 2 [(w16 (htons (dst_port t) * 2) >>. 8) .& 255;
                        w16 (htons (dst_port t) * 2) .& 255];
     EncodeByteValue 2 [(htons (dst_port t) >>. 8) .& 255; htons (dst_port t) .& 255];
     EncodeVniValue (vni t)] = ports_vni).
  { cbn [map]. rewrite !port_bytes, EncodeVniValue_val by (apply w16_range || apply htons_range).
    unfold ports_vni. by rewrite (Z.mul_comm 2). }
  rewrite <- !CanonicalizeIp_v4, <- (CanonicalizeIpv6_id (local_ip t)),
    <- (CanonicalizeIpv6_id (remote_ip t)) by done.
  split; repeat apply Forall_cons; try apply Forall_nil; eexists; (split; [reflexivity|]);
    (split; [exact Hvals|reflexivity]).
Qed.

Definition sample_tunnel : tunnel_info :=
  MkTunnelInfo 1 2 3
    (MkIpAddr AF_INET 24 ([10; 0; 0; 1] ++ replicate 12 0))
    (MkIpAddr AF_INET 24 ([10; 0; 0; 2] ++ replicate 12 0))
    (htons 4789) 1000 (MkPortVlanInfo P4_PORT_VLAN_NATIVE_UNTAGGED 5) 7 1.

Lemma wf_sample_tunnel : wf_tunnel_info sample_tunnel.
Proof. by_computation. Qed.

Lemma encap_action_values_witness :
  exists vs,
    te_param_values
      (EncodeVxlanEncapTableEntry default_TableEntry sample_tunnel default_P4Info true) =
      [10; 0; 0; 1] :: [10; 0; 0; 2] :: vs /\ map be_val vs = [9578; 4789; 1000].
Proof.
  destruct (encap_action_values sample_tunnel default_P4Info wf_sample_tunnel) as [H _].
  inversion H as [|? ? (vs & Hv & Hb & _) _]; subst. exists vs. exact (conj Hv Hb).
Defined.

(** remote_ip_param: the L2-to-tunnel entries carry the remote address of
    the tunnel: the single IPv4 parameter its four bytes, the four IPv6
    parameters, in order, its sixteen bytes; both are looked up by the MAC
    address alone. *)
Theorem remote_ip_param l p dd :
  wf_mac (mac_addr l) -> wf_ipaddr (remote_ip (tnl_info l)) ->
  concat (te_param_values (EncodeL2ToTunnelV4 default_TableEntry l p true dd).1) =
    take 4 (ip (remote_ip (tnl_info l))) /\
  concat (te_param_values (EncodeL2ToTunnelV6 default_TableEntry l p true dd).1) =
    ip (remote_ip (tnl_info l)) /\
  te_match_values (EncodeL2ToTunnelV4 default_TableEntry l p true dd).1 = [mac_addr l] /\
  te_match_values (EncodeL2ToTunnelV6 default_TableEntry l p true dd).1 = [mac_addr l].
Proof.
  intros Hm Ha. rewrite <- (CanonicalizeMac_id (mac_addr l) Hm) at 1 2.
  split; [|split; [|done]].
  - rewrite <- CanonicalizeIp_v4 by done. reflexivity.
  - transitivity (concat (map (fun i => CanonicalizeIp (u6_addr32 (remote_ip (tnl_info l)) i))
                            (seq 0 4))); [reflexivity|].
    cbn [seq map]. rewrite !CanonicalizeIp_u32 by (done || lia).
    symmetry. by rewrite (ip16_inv _ Ha) at 1.
Qed.

Definition sample_learn : mac_learning_info :=
  MkMacLearningInfo true false [0; 27; 33; 170; 187; 204] 3 20 30
    (MkPortVlanInfo P4_PORT_VLAN_NATIVE_TAGGED 5) sample_tunnel.

Lemma wf_sample_mac : wf_mac (mac_addr sample_learn).
Proof. by_computation. Qed.

Lemma remote_ip_param_witness :
  concat (te_param_values
    (EncodeL2ToTunnelV4 default_TableEntry sample_learn default_P4Info true
       default_DiagDetail).1) = [10; 0; 0; 2].
Proof.
  apply (remote_ip_param sample_learn default_P4Info default_DiagDetail wf_sample_mac).
  apply wf_sample_tunnel.
Defined.

(** ip_mac_map_params: the three 16-bit parameters of the IP-to-MAC map
    actions, high to low, are the six bytes of the MAC address, and the entry
    is looked up by the four bytes of the IPv4 address. *)
Theorem ip_mac_map_params im p dd :
  wf_ip_mac_map_info im ->
  concat (te_param_values (EncodeSrcIpMacMapTableEntry default_TableEntry im p true dd).1) =
    src_mac_addr im /\
  concat (te_param_values (EncodeDstIpMacMapTableEntry default_TableEntry im p true dd).1) =
    dst_mac_addr im /\
  te_match_values (EncodeSrcIpMacMapTableEntry default_TableEntry im p true dd).1 =
    [take 4 (ip (src_ip_addr im))] /\
  te_match_values (EncodeDstIpMacMapTableEntry default_TableEntry im p true dd).1 =
    [take 4 (ip (dst_ip_addr im))].
Proof.
  intros (Hs & Hd & Hsi & Hdi). rewrite <- !CanonicalizeIp_v4 by done.
  split; [|split; [|done]].
  - transitivity (CanonicalizeMac (src_mac_addr im)); [reflexivity|]. by apply CanonicalizeMac_id.
  - transitivity (CanonicalizeMac (dst_mac_addr im)); [reflexivity|]. by apply CanonicalizeMac_id.
Qed.

Definition sample_ip_mac : ip_mac_map_info :=
  MkIpMacMapInfo [2; 0; 0; 0; 0; 1] [2; 0; 0; 0; 0; 255]
    (MkIpAddr AF_INET 24 ([10; 0; 0; 1] ++ replicate 12 0))
    (MkIpAddr AF_INET 24 ([10; 0; 0; 2] ++ replicate 12 0)).

Lemma wf_sample_ip_mac : wf_ip_mac_map_info sample_ip_mac.
Proof. by_computation. Qed.

Lemma ip_mac_map_params_witness :
  concat (te_param_values
    (EncodeDstIpMacMapTableEntry default_TableEntry sample_ip_mac default_P4Info true
       default_DiagDetail).1) = [2; 0; 0; 0; 0; 255].
Proof. apply (ip_mac_map_params sample_ip_mac default_P4Info _ wf_sample_ip_mac). Defined.

(** src_port_match: a source-port entry matches the low 16 bits of the port
    and the low 12 bits of the VLAN id in full: the masks are all ones over the
    two widths, and its priority is 1. *)
Theorem src_port_match sp p b :
  exists v1 v2,
  te_match (EncodeSrcPortTableEntry default_TableEntry sp p b) =
    [MkFieldMatch
       (w32 (GetMatchFieldId p SOURCE_PORT_TO_BRIDGE_MAP_TABLE
               SOURCE_PORT_TO_BRIDGE_MAP_TABLE_KEY_SRC_PORT)) (FM_TERNARY v1 [255; 255]);
     MkFieldMatch
       (w32 (GetMatchFieldId p SOURCE_PORT_TO_BRIDGE_MAP_TABLE
               SOURCE_PORT_TO_BRIDGE_MAP_TABLE_KEY_VID)) (FM_TERNARY v2 [15; 255])] /\
  be_val v1 = sp_src_port sp mod 2 ^ 16 /\ be_val v2 = sp_vlan_id sp mod 2 ^ 12 /\
  te_priority (EncodeSrcPortTableEntry default_TableEntry sp p b) = 1.
Proof.
  eexists _, _. split; [destruct b; reflexivity|].
  rewrite EncodeByteValue_16. split; [done|]. split; [|by destruct b].
  cbn. change (2 ^ 12) with 4096. machine_int.
Qed.
