(* ===== verification/DpdkEncoders.v ===== *)
(** * Encoders of the DPDK pipeline ([core/v3/dpdk_encoders.cc]) *)

From S2P Require Import Prelude P4Runtime OvsP4rt EncodeUtils P4InfoUtils Logging.
From S2P Require Import DpdkNames.

Definition EncodeL2FwdTxTablePrologue (table_entry : TableEntry)
  (learn_info : mac_learning_info) (p4info : P4Info) : TableEntry :=
  let table_entry := set_table_id (GetTableId p4info L2_FWD_TX_TABLE) table_entry in
  add_match_exact (GetMatchFieldId p4info L2_FWD_TX_TABLE L2_FWD_TX_TABLE_KEY_DST_MAC)
    (CanonicalizeMac (mac_addr learn_info)) table_entry.

Definition EncodeFdbTxVlanTableEntry (table_entry : TableEntry)
  (learn_info : mac_learning_info) (p4info : P4Info) (insert_entry : bool)
  (detail : DiagDetail) : TableEntry * DiagDetail :=
  let detail := MkDiagDetail LOG_L2_FWD_TX_TABLE in
  let table_entry := EncodeL2FwdTxTablePrologue table_entry learn_info p4info in
  let table_entry :=
    if insert_entry then
      mutable_action (fun action =>
        let action := set_action_id (GetActionId p4info L2_FWD_TX_TABLE_ACTION_L2_FWD) action in
        let port_id := w32 (vlan_id (vln_info learn_info) - 1) in
        add_param (GetParamId p4info L2_FWD_TX_TABLE_ACTION_L2_FWD ACTION_L2_FWD_PARAM_PORT)
          (EncodeByteValue 1 [port_id]) action) table_entry
    else table_entry in
  (table_entry, detail).

Definition EncodeFdbRxVlanTableEntry (table_entry : TableEntry)
  (learn_info : mac_learning_info) (p4info : P4Info) (insert_entry : bool)
  (detail : DiagDetail) : TableEntry * DiagDetail :=
  let detail := MkDiagDetail LOG_L2_FWD_RX_WITH_TUNNEL_TABLE in
  let table_entry :=
    set_table_id (GetTableId p4info L2_FWD_RX_WITH_TUNNEL_TABLE) table_entry in
  let table_entry :=
    add_match_exact
      (GetMatchFieldId p4info L2_FWD_RX_WITH_TUNNEL_TABLE L2_FWD_TX_TABLE_KEY_DST_MAC)
      (CanonicalizeMac (mac_addr learn_info)) table_entry in
  let table_entry :=
    if insert_entry then
      mutable_action (fun action =>
        let action := set_action_id (GetActionId p4info L2_FWD_TX_TABLE_ACTION_L2_FWD) action in
        let port_id := w32 (vlan_id (vln_info learn_info) - 1) in
        add_param (GetParamId p4info L2_FWD_RX_TABLE_ACTION_L2_FWD ACTION_L2_FWD_PARAM_PORT)
          (EncodeByteValue 1 [port_id]) action) table_entry
    else table_entry in
  (table_entry, detail).

Definition EncodeFdbTableEntryforV4VxlanTunnel (table_entry : TableEntry)
  (learn_info : mac_learning_info) (p4info : P4Info) (insert_entry : bool)
  (detail : DiagDetail) : TableEntry * DiagDetail :=
  let detail := MkDiagDetail LOG_L2_FWD_TX_TABLE in
  let table_entry := EncodeL2FwdTxTablePrologue table_entry learn_info p4info in
  let table_entry :=
    if insert_entry then
      mutable_action (fun action =>
        let action :=
          set_action_id (GetActionId p4info L2_FWD_TX_TABLE_ACTION_SET_TUNNEL) action in
        let action :=
          add_param
            (GetParamId p4info L2_FWD_TX_TABLE_ACTION_SET_TUNNEL
               ACTION_SET_TUNNEL_PARAM_TUNNEL_ID)
            (EncodeByteValue 1 [vni (tnl_info learn_info)]) action in
        add_param
          (GetParamId p4info L2_FWD_TX_TABLE_ACTION_SET_TUNNEL
             ACTION_SET_TUNNEL_PARAM_DST_ADDR)
          (CanonicalizeIp (s_addr (remote_ip (tnl_info learn_info)))) action) table_entry
    else table_entry in
  (table_entry, detail).

Definition EncodeVxlanEncapTableEntry (table_entry : TableEntry) (info : tunnel_info)
  (p4info : P4Info) (insert_entry : bool) : TableEntry :=
  let table_entry := set_table_id (GetTableId p4info VXLAN_ENCAP_MOD_TABLE) table_entry in
  let table_entry :=
    add_match_exact
      (GetMatchFieldId p4info VXLAN_ENCAP_MOD_TABLE
         VXLAN_ENCAP_MOD_TABLE_KEY_VENDORMETA_MOD_DATA_PTR)
      (EncodeVniValue (vni info)) table_entry in
  if insert_entry then
    mutable_action (fun action =>
      let action := set_action_id (GetActionId p4info ACTION_VXLAN_ENCAP) action in
      let action :=
        add_param (GetParamId p4info ACTION_VXLAN_ENCAP ACTION_VXLAN_ENCAP_PARAM_SRC_ADDR)
          (CanonicalizeIp (s_addr (local_ip info))) action in
      let action :=
        add_param (GetParamId p4info ACTION_VXLAN_ENCAP ACTION_VXLAN_ENCAP_PARAM_DST_ADDR)
          (CanonicalizeIp (s_addr (remote_ip info))) action in
      let action :=
        let dst_port := htons (dst_port info) in
        add_param (GetParamId p4info ACTION_VXLAN_ENCAP ACTION_VXLAN_ENCAP_PARAM_DST_PORT)
          (EncodeByteValue 2 [(dst_port >>. 8) .& 255; dst_port .& 255]) action in
      add_param (GetParamId p4info ACTION_VXLAN_ENCAP ACTION_VXLAN_ENCAP_PARAM_VNI)
        (EncodeVniValue (vni info)) action) table_entry
  else table_entry.

Definition EncodeTunnelTermTableEntry (table_entry : TableEntry) (info : tunnel_info)
  (p4info : P4Info) (insert_entry : bool) : TableEntry :=
  let table_entry :=
    add_match_exact
      (GetMatchFieldId p4info IPV4_TUNNEL_TERM_TABLE IPV4_TUNNEL_TERM_TABLE_KEY_IPV4_SRC)
      (CanonicalizeIp (s_addr (remote_ip info))) table_entry in
  let table_entry := set_table_id (GetTableId p4info IPV4_TUNNEL_TERM_TABLE) table_entry in
  let table_entry :=
    add_match_exact
      (GetMatchFieldId p4info IPV4_TUNNEL_TERM_TABLE IPV4_TUNNEL_TERM_TABLE_KEY_TUNNEL_TYPE)
      (EncodeByteValue 1 [TUNNEL_TYPE_VXLAN]) table_entry in
  let table_entry :=
    add_match_exact
      (GetMatchFieldId p4info IPV4_TUNNEL_TERM_TABLE IPV4_TUNNEL_TERM_TABLE_KEY_IPV4_DST)
      (CanonicalizeIp (s_addr (local_ip info))) table_entry in
  if insert_entry then
    mutable_action (fun action =>
      let action := set_action_id (GetActionId p4info ACTION_DECAP_OUTER_IPV4) action in
      add_param
        (GetParamId p4info ACTION_DECAP_OUTER_IPV4 ACTION_DECAP_OUTER_IPV4_PARAM_TUNNEL_ID)
        (EncodeByteValue 1 [vni info]) action) table_entry
  else table_entry.
