(* ===== verification/Client.v ===== *)
(** * Client programs ([client/ovsp4rt_client_interface.h])

    The code above the session level talks to the P4Runtime server through the
    virtual methods of [ClientInterface], and to the user through lines on
    standard output. A function that does so is a [prog]: a finite tree of
    method calls. [ClientInterface] is a class: any implementation [W] of the
    methods runs every program. *)

From S2P Require Import Prelude P4Runtime Logging.

(** ** Programs *)

Inductive call :=
| connect (grpc_addr : string)
| getPipelineConfig
| initReadRequest (request : ReadRequest)
| sendReadRequest (request : ReadRequest)
| initInsertRequest (request : WriteRequest)
| initModifyRequest (request : WriteRequest)
| initDeleteRequest (request : WriteRequest)
| initWriteRequest (request : WriteRequest) (insert_entry : bool)
| sendWriteRequest (request : WriteRequest)
| cout (line : string).

(** What a call returns; an [init] method returns the request it filled and the
    pointer to the table entry in it, [getPipelineConfig] its status and the
    P4Info it stored in its out-parameter. *)
Definition call_ret (c : call) : Type :=
  match c with
  | connect _ => Status
  | getPipelineConfig => Status * P4Info
  | initReadRequest _ => ReadRequest * entry_ptr
  | sendReadRequest _ => StatusOr ReadResponse
  | initInsertRequest _ | initModifyRequest _ | initDeleteRequest _
  | initWriteRequest _ _ => WriteRequest * entry_ptr
  | sendWriteRequest _ => Status
  | cout _ => unit
  end.

Inductive prog (A : Type) : Type :=
| Ret (a : A)
| Vis (c : call) (k : call_ret c -> prog A).
Arguments Ret {_} _.
Arguments Vis {_} _ _.

#[export] Instance prog_ret : MRet prog := @Ret.

#[export] Instance prog_bind : MBind prog :=
  fun A B f => fix bind p :=
    match p with
    | Ret a => f a
    | Vis c k => Vis c (fun r => bind (k r))
    end.

Definition do_call (c : call) : prog (call_ret c) := Vis c Ret.

(** The lines a function prints, in order. *)
Fixpoint print_lines (lines : list string) : prog unit :=
  match lines with
  | [] => mret ()
  | l :: lines => do_call (cout l);; print_lines lines
  end.

(** The report the FDB functions make of a failed request:
    [if (!status.ok()) LogFailureWithMacAddr(...)]. *)
Definition log_if_failed_mac (status : Status) (insert_entry : bool) (detail : DiagDetail)
  (mac : bytes) : prog unit :=
  if negb (ok status) then
    do_call (cout (LogFailureWithMacAddr insert_entry (getLogTableName detail) mac))
  else mret ().

(** ** Implementations of the interface *)

Class ClientInterface (W : Type) := {
  m_connect : string -> W -> Status * W;
  m_getPipelineConfig : W -> (Status * P4Info) * W;
  m_initReadRequest : ReadRequest -> W -> (ReadRequest * entry_ptr) * W;
  m_sendReadRequest : ReadRequest -> W -> StatusOr ReadResponse * W;
  m_initInsertRequest : WriteRequest -> W -> (WriteRequest * entry_ptr) * W;
  m_initModifyRequest : WriteRequest -> W -> (WriteRequest * entry_ptr) * W;
  m_initDeleteRequest : WriteRequest -> W -> (WriteRequest * entry_ptr) * W;
  m_initWriteRequest : WriteRequest -> bool -> W -> (WriteRequest * entry_ptr) * W;
  m_sendWriteRequest : WriteRequest -> W -> Status * W;
  m_cout : string -> W -> unit * W;
}.

Definition handle {W} `{ClientInterface W} (c : call) : W -> call_ret c * W :=
  match c with
  | connect a => m_connect a
  | getPipelineConfig => m_getPipelineConfig
  | initReadRequest r => m_initReadRequest r
  | sendReadRequest r => m_sendReadRequest r
  | initInsertRequest r => m_initInsertRequest r
  | initModifyRequest r => m_initModifyRequest r
  | initDeleteRequest r => m_initDeleteRequest r
  | initWriteRequest r b => m_initWriteRequest r b
  | sendWriteRequest r => m_sendWriteRequest r
  | cout s => m_cout s
  end.

Fixpoint run {W} `{ClientInterface W} {A} (p : prog A) (w : W) : A * W :=
  match p with
  | Ret a => (a, w)
  | Vis c k => let '(r, w) := handle c w in run (k r) w
  end.

(** ** Observation: the calls a program makes and what they return *)

Record event := MkEvent { ev_call : call; ev_ret : call_ret ev_call }.

(** A client that behaves like [W] and records every call. *)
Definition record {W} `{ClientInterface W} (c : call) (w : W * list event)
  : call_ret c * (W * list event) :=
  let '(r, w') := handle c w.1 in (r, (w', w.2 ++ [MkEvent c r])).

#[export] Instance recording {W} `{ClientInterface W} : ClientInterface (W * list event) | 10 := {|
  m_connect a := record (connect a);
  m_getPipelineConfig := record getPipelineConfig;
  m_initReadRequest r := record (initReadRequest r);
  m_sendReadRequest r := record (sendReadRequest r);
  m_initInsertRequest r := record (initInsertRequest r);
  m_initModifyRequest r := record (initModifyRequest r);
  m_initDeleteRequest r := record (initDeleteRequest r);
  m_initWriteRequest r b := record (initWriteRequest r b);
  m_sendWriteRequest r := record (sendWriteRequest r);
  m_cout s := record (cout s);
|}.

Definition trace {W} `{ClientInterface W} {A} (p : prog A) (w : W) : list event :=
  (run p (w, [])).2.2.

(** ** Equivalence of programs: no client can tell them apart *)

#[export] Instance prog_equiv {A} : Equiv (prog A) :=
  fun p q => forall W (CI : ClientInterface W) (w : W), run p w = run q w.

(** ** Simulation between two clients *)

Section Simulation.
Context {W1 W2 : Type} `{ClientInterface W1} `{ClientInterface W2}.
Variable R : W1 -> W2 -> Prop.

(** Every call returns the same to both and keeps their states related. *)
Definition simulates : Prop :=
  forall c w1 w2, R w1 w2 ->
    (handle c w1).1 = (handle c w2).1 /\ R (handle c w1).2 (handle c w2).2.

Lemma run_simulates {A} (p : prog A) w1 w2 :
  simulates -> R w1 w2 ->
  (run p w1).1 = (run p w2).1 /\ R (run p w1).2 (run p w2).2.
Proof.
  intros Hsim. revert w1 w2. induction p as [a|c k IH]; intros w1 w2 HR; simpl; [done|].
  destruct (Hsim c w1 w2 HR) as [Hr HR'].
  destruct (handle c w1) as [r1 w1'], (handle c w2) as [r2 w2']; simpl in *; subst.
  by apply IH.
Qed.
End Simulation.

(** ** Laws *)

Lemma run_bind {W} `{ClientInterface W} {A B} (p : prog A) (f : A -> prog B) w :
  run (p ≫= f) w = let '(a, w') := run p w in run (f a) w'.
Proof.
  revert w. induction p as [a|c k IH]; intros w; [done|].
  simpl. destruct (handle c w) as [r w']. apply IH.
Qed.

Lemma run_call {W} `{ClientInterface W} {A} c (f : call_ret c -> prog A) w :
  run (do_call c ≫= f) w = let '(r, w') := handle c w in run (f r) w'.
Proof. done. Qed.

#[export] Instance prog_equivalence {A} : Equivalence (≡@{prog A}).
Proof.
  split.
  - intros p W CI w. done.
  - intros p q Hpq W CI w. by rewrite (Hpq W CI w).
  - intros p q r Hpq Hqr W CI w. by rewrite (Hpq W CI w), (Hqr W CI w).
Qed.

#[export] Instance bind_proper {A B} :
  Proper (pointwise_relation A (≡) ==> (≡) ==> (≡)) (mbind (M := prog) (A := A) (B := B)).
Proof.
  intros f g Hfg p q Hpq W CI w. rewrite !run_bind, (Hpq W CI w).
  destruct (run q w) as [a w']. apply Hfg.
Qed.

#[export] Instance run_proper {W} `{ClientInterface W} {A} :
  Proper ((≡) ==> (=) ==> (=)) (run (W := W) (A := A)).
Proof. intros p q Hpq w ? <-. apply Hpq. Qed.

#[export] Instance trace_proper {W} `{ClientInterface W} {A} :
  Proper ((≡) ==> (=) ==> (=)) (trace (W := W) (A := A)).
Proof. intros p q Hpq w ? <-. unfold trace. by rewrite (Hpq _ _ (w, [])). Qed.

Lemma bind_ret_l {A B} (a : A) (f : A -> prog B) : mret a ≫= f ≡ f a.
Proof. intros W CI w. done. Qed.

Lemma bind_ret_r {A} (p : prog A) : p ≫= mret ≡ p.
Proof. intros W CI w. rewrite run_bind. by destruct (run p w). Qed.

Lemma bind_assoc {A B C} (p : prog A) (f : A -> prog B) (g : B -> prog C) :
  (p ≫= f) ≫= g ≡ p ≫= (fun a => f a ≫= g).
Proof.
  intros W CI w. rewrite !run_bind. destruct (run p w) as [a w'].
  by rewrite run_bind.
Qed.

(** Recording a client does not change what it does. *)
Lemma recording_simulates {W} `{ClientInterface W} :
  simulates (W1 := W * list event) (W2 := W) (fun wr w => wr.1 = w).
Proof.
  intros c [w1 evs] w2 <-. cut (handle c (w1, evs) = record c (w1, evs)).
  { intros ->. unfold record; simpl. by destruct (handle c w1). }
  by destruct c.
Qed.

Lemma handle_recording {W} `{ClientInterface W} c (w : W) evs :
  handle c (w, evs) = ((handle c w).1, ((handle c w).2, evs ++ [MkEvent c (handle c w).1])).
Proof.
  transitivity (record c (w, evs)); [by destruct c|].
  unfold record; simpl. by destruct (handle c w).
Qed.

Lemma run_recording {W} `{ClientInterface W} {A} (p : prog A) (w : W) evs :
  run p (w, evs) = ((run p w).1, ((run p w).2, evs ++ trace p w)).
Proof.
  unfold trace. revert w evs. induction p as [a|c k IH]; intros w evs; simpl.
  { by rewrite app_nil_r. }
  rewrite !handle_recording. destruct (handle c w) as [r w']; simpl.
  rewrite (IH r w' (evs ++ _)), (IH r w' [_]). simpl. by rewrite <- app_assoc.
Qed.

Lemma trace_ret {W} `{ClientInterface W} {A} (a : A) (w : W) : trace (Ret a) w = [].
Proof. done. Qed.

Lemma trace_bind {W} `{ClientInterface W} {A B} (p : prog A) (f : A -> prog B) (w : W) :
  trace (p ≫= f) w = trace p w ++ trace (f (run p w).1) (run p w).2.
Proof.
  unfold trace at 1. rewrite run_bind, run_recording. simpl.
  by rewrite run_recording.
Qed.

Lemma run_do_call {W} `{ClientInterface W} c (w : W) : run (do_call c) w = handle c w.
Proof. unfold do_call; simpl. by destruct (handle c w). Qed.

Lemma trace_do_call {W} `{ClientInterface W} c (w : W) :
  trace (do_call c) w = [MkEvent c (handle c w).1].
Proof. unfold trace. by rewrite run_do_call, handle_recording. Qed.

Lemma trace_vis {W} `{ClientInterface W} {A} c (k : call_ret c -> prog A) (w : W) :
  trace (Vis c k) w = MkEvent c (handle c w).1 :: trace (k (handle c w).1) (handle c w).2.
Proof.
  change (Vis c k) with (do_call c ≫= k). by rewrite trace_bind, trace_do_call, run_do_call.
Qed.
