(* ===== verification/Pipelines.v ===== *)
(** * The pipelines of the repository

    The P4Info messages the test suites load ([tests/es2k/p4Info.txt],
    [tests/dpdk/p4Info.txt]), restricted to the fields of [P4Runtime.v]: the
    tables with their match fields and actions, the actions with their
    parameters. *)

From S2P Require Import Prelude P4Runtime P4InfoUtils.

Definition es2k_p4info_tables : list TableInfo :=
  [
   MkTableInfo (MkPreamble 48773578 "MainControlDecrypt.lem_exception") []
     [21257015];
   MkTableInfo (MkPreamble 38116127 "MainControlDecrypt.lem_clear") []
     [21257015];
   MkTableInfo (MkPreamble 45068641 "MainControlDecrypt.ipsec_rx_sa_classification_table") [
     MkMatchField 1 "hdrs.ipv4[vmeta.common.depth].src_ip" 32 MT_EXACT;
     MkMatchField 2 "hdrs.ipv4[vmeta.common.depth].dst_ip" 32 MT_EXACT;
     MkMatchField 3 "hdrs.esp.spi" 32 MT_EXACT]
     [33177492; 30285547];
   MkTableInfo (MkPreamble 41667918 "linux_networking_control.ipv4_lpm_root_lut") [
     MkMatchField 1 "user_meta.cmeta.bit16_zeros" 16 MT_TERNARY]
     [17061464];
   MkTableInfo (MkPreamble 43524029 "linux_networking_control.ipv6_lpm_root_lut") [
     MkMatchField 1 "user_meta.cmeta.bit16_zeros" 16 MT_TERNARY]
     [25701894];
   MkTableInfo (MkPreamble 42605135 "linux_networking_control.rif_mod_table_start") [
     MkMatchField 1 "rif_mod_map_id0" 11 MT_EXACT]
     [23093409; 21257015];
   MkTableInfo (MkPreamble 43970557 "linux_networking_control.rif_mod_table_mid") [
     MkMatchField 1 "rif_mod_map_id1" 11 MT_EXACT]
     [30315892; 21257015];
   MkTableInfo (MkPreamble 47499906 "linux_networking_control.rif_mod_table_last") [
     MkMatchField 1 "rif_mod_map_id2" 11 MT_EXACT]
     [32740970; 21257015];
   MkTableInfo (MkPreamble 48081556 "linux_networking_control.always_trap_arp_table") [
     MkMatchField 1 "hdrs.inval.data" 16 MT_EXACT;
     MkMatchField 2 "hdrs.inval.data" 16 MT_EXACT]
     [19361592];
   MkTableInfo (MkPreamble 47372228 "linux_networking_control.always_recirculate_table") [
     MkMatchField 1 "hdrs.inval.data" 16 MT_EXACT;
     MkMatchField 2 "hdrs.inval.data" 16 MT_EXACT]
     [33275382];
   MkTableInfo (MkPreamble 40312237 "linux_networking_control.vlan_push_mod_table") [
     MkMatchField 1 "vmeta.common.mod_blob_ptr" 24 MT_EXACT]
     [24137163; 21257015];
   MkTableInfo (MkPreamble 38884256 "linux_networking_control.vlan_pop_mod_table") [
     MkMatchField 1 "vmeta.common.mod_blob_ptr" 24 MT_EXACT]
     [25667542; 21257015];
   MkTableInfo (MkPreamble 40763773 "linux_networking_control.vxlan_encap_mod_table") [
     MkMatchField 1 "vmeta.common.mod_blob_ptr" 24 MT_EXACT]
     [20733968; 21257015];
   MkTableInfo (MkPreamble 39675860 "linux_networking_control.vxlan_encap_vlan_pop_mod_table") [
     MkMatchField 1 "vmeta.common.mod_blob_ptr" 24 MT_EXACT]
     [26114242; 21257015];
   MkTableInfo (MkPreamble 46225003 "linux_networking_control.vxlan_encap_v6_mod_table") [
     MkMatchField 1 "vmeta.common.mod_blob_ptr" 24 MT_EXACT]
     [30345128; 21257015];
   MkTableInfo (MkPreamble 34318005 "linux_networking_control.vxlan_encap_v6_vlan_pop_mod_table") [
     MkMatchField 1 "vmeta.common.mod_blob_ptr" 24 MT_EXACT]
     [28284062; 21257015];
   MkTableInfo (MkPreamble 40980035 "linux_networking_control.vxlan_decap_mod_table") [
     MkMatchField 1 "vmeta.common.mod_blob_ptr" 24 MT_EXACT]
     [28308555; 21257015];
   MkTableInfo (MkPreamble 37624107 "linux_networking_control.vxlan_decap_and_push_vlan_mod_table") [
     MkMatchField 1 "vmeta.common.mod_blob_ptr" 24 MT_EXACT]
     [31953264; 21257015];
   MkTableInfo (MkPreamble 41319073 "linux_networking_control.geneve_encap_mod_table") [
     MkMatchField 1 "vmeta.common.mod_blob_ptr" 24 MT_EXACT]
     [25818889; 21257015];
   MkTableInfo (MkPreamble 47977422 "linux_networking_control.geneve_encap_vlan_pop_mod_table") [
     MkMatchField 1 "vmeta.common.mod_blob_ptr" 24 MT_EXACT]
     [26665268; 21257015];
   MkTableInfo (MkPreamble 42283616 "linux_networking_control.geneve_encap_v6_mod_table") [
     MkMatchField 1 "vmeta.common.mod_blob_ptr" 24 MT_EXACT]
     [29610186; 21257015];
   MkTableInfo (MkPreamble 47370391 "linux_networking_control.geneve_encap_v6_vlan_pop_mod_table") [
     MkMatchField 1 "vmeta.common.mod_blob_ptr" 24 MT_EXACT]
     [27347188; 21257015];
   MkTableInfo (MkPreamble 34173274 "linux_networking_control.geneve_decap_mod_table") [
     MkMatchField 1 "vmeta.common.mod_blob_ptr" 24 MT_EXACT]
     [27842378; 21257015];
   MkTableInfo (MkPreamble 34525815 "linux_networking_control.geneve_decap_and_push_vlan_mod_table") [
     MkMatchField 1 "vmeta.common.mod_blob_ptr" 24 MT_EXACT]
     [25073902; 21257015];
   MkTableInfo (MkPreamble 47484925 "linux_networking_control.ipv4_tunnel_term_table") [
     MkMatchField 1 "ipv4_src" 32 MT_EXACT;
     MkMatchField 2 "vni" 24 MT_EXACT]
     [31163719; 25342798; 26749366; 31208923; 21790705];
   MkTableInfo (MkPreamble 34601307 "linux_networking_control.ipv6_tunnel_term_table") [
     MkMatchField 1 "ipv6_src" 128 MT_EXACT;
     MkMatchField 2 "vni" 24 MT_EXACT]
     [31163719; 25342798; 26749366; 31208923; 21257015];
   MkTableInfo (MkPreamble 44842501 "linux_networking_control.l2_fwd_rx_table") [
     MkMatchField 2 "user_meta.pmeta.bridge_id" 8 MT_EXACT;
     MkMatchField 1 "dst_mac" 48 MT_EXACT]
     [19169916; 21862855; 21283156];
   MkTableInfo (MkPreamble 40240205 "linux_networking_control.l2_fwd_tx_table") [
     MkMatchField 1 "user_meta.pmeta.bridge_id" 8 MT_EXACT;
     MkMatchField 2 "dst_mac" 48 MT_EXACT]
     [19169916; 24440746; 26412051; 19193142; 31983357; 23849990; 23736116; 17483375; 24842266; 33478945; 24108243; 25690116; 20441854];
   MkTableInfo (MkPreamble 37894008 "linux_networking_control.nexthop_table") [
     MkMatchField 1 "user_meta.cmeta.nexthop_id" 16 MT_EXACT;
     MkMatchField 2 "bit16_zeros" 8 MT_EXACT]
     [16795029; 25951413; 29238102; 21257015];
   MkTableInfo (MkPreamble 47712712 "linux_networking_control.ecmp_nexthop_table") [
     MkMatchField 1 "user_meta.cmeta.nexthop_id" 16 MT_TERNARY]
     [27181644; 29238102];
   MkTableInfo (MkPreamble 40757978 "linux_networking_control.tx_lag_table") [
     MkMatchField 1 "user_meta.cmeta.lag_group_id" 8 MT_TERNARY;
     MkMatchField 2 "hash" 3 MT_TERNARY]
     [27998997; 24954025; 29238102];
   MkTableInfo (MkPreamble 44444143 "linux_networking_control.rx_lag_table") [
     MkMatchField 1 "vmeta.common.port_id" 2 MT_EXACT;
     MkMatchField 2 "user_meta.cmeta.lag_group_id" 8 MT_EXACT]
     [26092385; 29238102];
   MkTableInfo (MkPreamble 37566509 "linux_networking_control.ipv4_table") [
     MkMatchField 1 "ipv4_table_lpm_root" 32 MT_EXACT;
     MkMatchField 2 "ipv4_dst_match" 32 MT_LPM]
     [22009623; 16874810; 21257015];
   MkTableInfo (MkPreamble 49661222 "linux_networking_control.ecmp_hash_table") [
     MkMatchField 1 "flex" 16 MT_TERNARY;
     MkMatchField 2 "hash" 3 MT_TERNARY]
     [29883644; 21257015];
   MkTableInfo (MkPreamble 46496254 "linux_networking_control.ipv6_table") [
     MkMatchField 1 "ipv6_table_lpm_root" 32 MT_EXACT;
     MkMatchField 2 "ipv6_dst_match" 128 MT_LPM]
     [21321477; 27000185; 21257015];
   MkTableInfo (MkPreamble 40351839 "linux_networking_control.rx_source_port") [
     MkMatchField 1 "vmeta.common.port_id" 2 MT_EXACT;
     MkMatchField 2 "zero_padding" 16 MT_EXACT]
     [32890467; 29238102];
   MkTableInfo (MkPreamble 49097500 "linux_networking_control.rx_ipv4_tunnel_source_port") [
     MkMatchField 1 "ipv4_src" 32 MT_EXACT;
     MkMatchField 2 "vni" 24 MT_EXACT]
     [32890467; 29238102];
   MkTableInfo (MkPreamble 40981078 "linux_networking_control.rx_ipv6_tunnel_source_port") [
     MkMatchField 1 "ipv6_src" 128 MT_EXACT;
     MkMatchField 2 "vni" 24 MT_EXACT]
     [32890467; 29238102];
   MkTableInfo (MkPreamble 33606489 "linux_networking_control.source_port_to_bridge_map") [
     MkMatchField 1 "user_meta.cmeta.source_port" 16 MT_TERNARY;
     MkMatchField 2 "hdrs.vlan_ext[vmeta.common.depth].hdr.vid" 12 MT_TERNARY]
     [31939992; 29238102];
   MkTableInfo (MkPreamble 46342225 "linux_networking_control.l2_fwd_smac_table") [
     MkMatchField 1 "hdrs.mac[vmeta.common.depth].sa" 48 MT_EXACT;
     MkMatchField 2 "user_meta.pmeta.bridge_id" 8 MT_EXACT]
     [21257015; 21283156];
   MkTableInfo (MkPreamble 42508227 "linux_networking_control.tx_acc_vsi") [
     MkMatchField 1 "vmeta.common.vsi" 11 MT_EXACT;
     MkMatchField 2 "zero_padding" 16 MT_EXACT]
     [31624713; 29238102];
   MkTableInfo (MkPreamble 39041593 "linux_networking_control.tx_source_port") [
     MkMatchField 1 "vmeta.common.vsi" 11 MT_TERNARY]
     [32890467; 29238102];
   MkTableInfo (MkPreamble 43337754 "linux_networking_control.l2_to_tunnel_v4") [
     MkMatchField 1 "hdrs.mac[vmeta.common.depth].da" 48 MT_EXACT]
     [23805991; 29238102; 33275382];
   MkTableInfo (MkPreamble 36796227 "linux_networking_control.l2_to_tunnel_v6") [
     MkMatchField 1 "hdrs.mac[vmeta.common.depth].da" 48 MT_EXACT]
     [23953453; 33275382; 29238102];
   MkTableInfo (MkPreamble 38721082 "linux_networking_control.rx_phy_port_to_pr_map") [
     MkMatchField 1 "vmeta.common.port_id" 2 MT_EXACT;
     MkMatchField 2 "zero_padding" 16 MT_EXACT]
     [26092385; 29238102];
   MkTableInfo (MkPreamble 35934350 "linux_networking_control.source_port_to_pr_map") [
     MkMatchField 1 "user_meta.cmeta.source_port" 16 MT_EXACT;
     MkMatchField 2 "zero_padding" 8 MT_EXACT]
     [26092385; 29238102];
   MkTableInfo (MkPreamble 45509113 "linux_networking_control.vsi_to_vsi_loopback") [
     MkMatchField 1 "vmeta.common.vsi" 11 MT_EXACT;
     MkMatchField 2 "target_vsi" 11 MT_EXACT]
     [26092385; 29238102];
   MkTableInfo (MkPreamble 44641644 "linux_networking_control.hash_ipv4_tcp") []
     [21257015];
   MkTableInfo (MkPreamble 46678878 "linux_networking_control.hash_ipv4_udp") []
     [21257015];
   MkTableInfo (MkPreamble 45972289 "linux_networking_control.hash_ipv4") []
     [21257015];
   MkTableInfo (MkPreamble 33896331 "linux_networking_control.hash_l2") []
     [21257015];
   MkTableInfo (MkPreamble 46852435 "linux_networking_control.hash_ipv6_tcp") []
     [21257015];
   MkTableInfo (MkPreamble 46359163 "linux_networking_control.hash_ipv6_udp") []
     [21257015];
   MkTableInfo (MkPreamble 34506208 "linux_networking_control.hash_ipv6") []
     [21257015];
   MkTableInfo (MkPreamble 49349790 "linux_networking_control.ipsec_tunnel_table") [
     MkMatchField 1 "vmeta.common.saidx" 24 MT_EXACT;
     MkMatchField 2 "bit16_zeros" 13 MT_EXACT]
     [26423957; 21257015];
   MkTableInfo (MkPreamble 47756035 "linux_networking_control.ipsec_spd") [
     MkMatchField 1 "hdrs.ipv4[vmeta.common.depth].dst_ip" 32 MT_EXACT;
     MkMatchField 2 "hdrs.ipv4[vmeta.common.depth].protocol" 8 MT_EXACT]
     [20682322; 19192368; 21257015];
   MkTableInfo (MkPreamble 45022218 "linux_networking_control.ipsec_tx_sa_classification_table") [
     MkMatchField 1 "hdrs.ipv4[vmeta.common.depth].dst_ip" 32 MT_EXACT;
     MkMatchField 2 "hdrs.ipv4[vmeta.common.depth].protocol" 8 MT_EXACT;
     MkMatchField 3 "user_meta.cmeta.is_tunnel" 1 MT_EXACT]
     [24935652; 17885953; 30154712; 29527637; 29238102; 21257015];
   MkTableInfo (MkPreamble 37326952 "linux_networking_control.ipsec_tunnel_encap_mod_table") [
     MkMatchField 1 "vmeta.common.mod_blob_ptr" 24 MT_EXACT]
     [30081157; 21257015];
   MkTableInfo (MkPreamble 43475471 "linux_networking_control.ipv4_ipsec_tunnel_term_table") [
     MkMatchField 1 "ipv4_src" 32 MT_EXACT;
     MkMatchField 2 "ipv4_dst" 32 MT_EXACT]
     [25138331; 33275382];
   MkTableInfo (MkPreamble 37403444 "linux_networking_control.vm_src_ip4_mac_map_table") [
     MkMatchField 1 "ipv4_src" 32 MT_EXACT]
     [28718673; 21257015];
   MkTableInfo (MkPreamble 50085764 "linux_networking_control.vm_dst_ip4_mac_map_table") [
     MkMatchField 1 "ipv4_dst" 32 MT_EXACT]
     [25018769; 21257015]].

Definition es2k_p4info_actions : list ActionInfo :=
  [
   MkActionInfo (MkPreamble 21257015 "NoAction") [];
   MkActionInfo (MkPreamble 30285547 "MainControlDecrypt.ipsec_bypass") [];
   MkActionInfo (MkPreamble 33177492 "MainControlDecrypt.ipsec_decrypt") [
     MkActionParam 1 "saidx" 24];
   MkActionInfo (MkPreamble 19173135 "linux_networking_control.no_modify") [];
   MkActionInfo (MkPreamble 31851898 "linux_networking_control.dummycall") [];
   MkActionInfo (MkPreamble 33275382 "linux_networking_control.do_recirculate") [];
   MkActionInfo (MkPreamble 19169916 "linux_networking_control.l2_fwd") [
     MkActionParam 1 "port" 32];
   MkActionInfo (MkPreamble 31624713 "linux_networking_control.l2_fwd_and_bypass_bridge") [
     MkActionParam 1 "port" 32];
   MkActionInfo (MkPreamble 24440746 "linux_networking_control.l2_fwd_lag") [
     MkActionParam 1 "lag_group_id" 8];
   MkActionInfo (MkPreamble 21862855 "linux_networking_control.l2_fwd_lag_and_recirculate") [
     MkActionParam 1 "lag_group_id" 8];
   MkActionInfo (MkPreamble 24954025 "linux_networking_control.bypass") [];
   MkActionInfo (MkPreamble 29238102 "linux_networking_control.drop") [];
   MkActionInfo (MkPreamble 24137163 "linux_networking_control.vlan_push") [
     MkActionParam 1 "pcp" 3;
     MkActionParam 2 "dei" 1;
     MkActionParam 3 "vlan_id" 12];
   MkActionInfo (MkPreamble 25667542 "linux_networking_control.vlan_pop") [];
   MkActionInfo (MkPreamble 20733968 "linux_networking_control.vxlan_encap") [
     MkActionParam 1 "src_addr" 32;
     MkActionParam 2 "dst_addr" 32;
     MkActionParam 3 "src_port" 16;
     MkActionParam 4 "dst_port" 16;
     MkActionParam 5 "vni" 24];
   MkActionInfo (MkPreamble 26114242 "linux_networking_control.vxlan_encap_vlan_pop") [
     MkActionParam 1 "src_addr" 32;
     MkActionParam 2 "dst_addr" 32;
     MkActionParam 3 "src_port" 16;
     MkActionParam 4 "dst_port" 16;
     MkActionParam 5 "vni" 24];
   MkActionInfo (MkPreamble 30345128 "linux_networking_control.vxlan_encap_v6") [
     MkActionParam 1 "src_addr" 128;
     MkActionParam 2 "dst_addr" 128;
     MkActionParam 3 "ds" 6;
     MkActionParam 4 "ecn" 2;
     MkActionParam 5 "flow_label" 20;
     MkActionParam 6 "hop_limit" 8;
     MkActionParam 7 "src_port" 16;
     MkActionParam 8 "dst_port" 16;
     MkActionParam 9 "vni" 24];
   MkActionInfo (MkPreamble 28284062 "linux_networking_control.vxlan_encap_v6_vlan_pop") [
     MkActionParam 1 "src_addr" 128;
     MkActionParam 2 "dst_addr" 128;
     MkActionParam 3 "ds" 6;
     MkActionParam 4 "ecn" 2;
     MkActionParam 5 "flow_label" 20;
     MkActionParam 6 "hop_limit" 8;
     MkActionParam 7 "src_port" 16;
     MkActionParam 8 "dst_port" 16;
     MkActionParam 9 "vni" 24];
   MkActionInfo (MkPreamble 25818889 "linux_networking_control.geneve_encap") [
     MkActionParam 1 "src_addr" 32;
     MkActionParam 2 "dst_addr" 32;
     MkActionParam 3 "src_port" 16;
     MkActionParam 4 "dst_port" 16;
     MkActionParam 5 "vni" 24];
   MkActionInfo (MkPreamble 26665268 "linux_networking_control.geneve_encap_vlan_pop") [
     MkActionParam 1 "src_addr" 32;
     MkActionParam 2 "dst_addr" 32;
     MkActionParam 3 "src_port" 16;
     MkActionParam 4 "dst_port" 16;
     MkActionParam 5 "vni" 24];
   MkActionInfo (MkPreamble 29610186 "linux_networking_control.geneve_encap_v6") [
     MkActionParam 1 "src_addr" 128;
     MkActionParam 2 "dst_addr" 128;
     MkActionParam 3 "ds" 6;
     MkActionParam 4 "ecn" 2;
     MkActionParam 5 "flow_label" 20;
     MkActionParam 6 "hop_limit" 8;
     MkActionParam 7 "src_port" 16;
     MkActionParam 8 "dst_port" 16;
     MkActionParam 9 "vni" 24];
   MkActionInfo (MkPreamble 27347188 "linux_networking_control.geneve_encap_v6_vlan_pop") [
     MkActionParam 1 "src_addr" 128;
     MkActionParam 2 "dst_addr" 128;
     MkActionParam 3 "ds" 6;
     MkActionParam 4 "ecn" 2;
     MkActionParam 5 "flow_label" 20;
     MkActionParam 6 "hop_limit" 8;
     MkActionParam 7 "src_port" 16;
     MkActionParam 8 "dst_port" 16;
     MkActionParam 9 "vni" 24];
   MkActionInfo (MkPreamble 28308555 "linux_networking_control.vxlan_decap_outer_hdr") [];
   MkActionInfo (MkPreamble 27842378 "linux_networking_control.geneve_decap_outer_hdr") [];
   MkActionInfo (MkPreamble 31953264 "linux_networking_control.vxlan_decap_and_push_vlan") [
     MkActionParam 1 "pcp" 3;
     MkActionParam 2 "dei" 1;
     MkActionParam 3 "vlan_id" 12];
   MkActionInfo (MkPreamble 25073902 "linux_networking_control.geneve_decap_and_push_vlan") [
     MkActionParam 1 "pcp" 3;
     MkActionParam 2 "dei" 1;
     MkActionParam 3 "vlan_id" 12];
   MkActionInfo (MkPreamble 23093409 "linux_networking_control.set_src_mac_start") [
     MkActionParam 1 "arg" 16];
   MkActionInfo (MkPreamble 30315892 "linux_networking_control.set_src_mac_mid") [
     MkActionParam 1 "arg" 16];
   MkActionInfo (MkPreamble 32740970 "linux_networking_control.set_src_mac_last") [
     MkActionParam 1 "arg" 16];
   MkActionInfo (MkPreamble 31671750 "linux_networking_control.set_outer_mac") [];
   MkActionInfo (MkPreamble 31163719 "linux_networking_control.set_vxlan_decap_outer_hdr") [
     MkActionParam 1 "tunnel_id" 20];
   MkActionInfo (MkPreamble 25342798 "linux_networking_control.set_vxlan_decap_outer_and_push_vlan") [
     MkActionParam 1 "tunnel_id" 20];
   MkActionInfo (MkPreamble 26412051 "linux_networking_control.set_vxlan_underlay_v4") [
     MkActionParam 1 "tunnel_id" 20];
   MkActionInfo (MkPreamble 19193142 "linux_networking_control.set_vxlan_underlay_v6") [
     MkActionParam 1 "tunnel_id" 20];
   MkActionInfo (MkPreamble 31983357 "linux_networking_control.pop_vlan_set_vxlan_underlay_v4") [
     MkActionParam 1 "tunnel_id" 20];
   MkActionInfo (MkPreamble 23849990 "linux_networking_control.pop_vlan_set_vxlan_underlay_v6") [
     MkActionParam 1 "tunnel_id" 20];
   MkActionInfo (MkPreamble 26749366 "linux_networking_control.set_geneve_decap_outer_hdr") [
     MkActionParam 1 "tunnel_id" 20];
   MkActionInfo (MkPreamble 31208923 "linux_networking_control.set_geneve_decap_outer_and_push_vlan") [
     MkActionParam 1 "tunnel_id" 20];
   MkActionInfo (MkPreamble 23736116 "linux_networking_control.set_geneve_underlay_v4") [
     MkActionParam 1 "tunnel_id" 20];
   MkActionInfo (MkPreamble 17483375 "linux_networking_control.set_geneve_underlay_v6") [
     MkActionParam 1 "tunnel_id" 20];
   MkActionInfo (MkPreamble 24842266 "linux_networking_control.pop_vlan_set_geneve_underlay_v4") [
     MkActionParam 1 "tunnel_id" 20];
   MkActionInfo (MkPreamble 33478945 "linux_networking_control.pop_vlan_set_geneve_underlay_v6") [
     MkActionParam 1 "tunnel_id" 20];
   MkActionInfo (MkPreamble 27998997 "linux_networking_control.set_egress_port") [
     MkActionParam 1 "router_interface_id" 16;
     MkActionParam 2 "egress_port" 32];
   MkActionInfo (MkPreamble 16795029 "linux_networking_control.set_nexthop_info_dmac") [
     MkActionParam 1 "router_interface_id" 16;
     MkActionParam 2 "egress_port" 32;
     MkActionParam 3 "dmac_high" 16;
     MkActionParam 4 "dmac_low" 32];
   MkActionInfo (MkPreamble 25951413 "linux_networking_control.set_nexthop_lag") [
     MkActionParam 1 "lag_group_id" 8;
     MkActionParam 2 "dmac_high" 16;
     MkActionParam 3 "dmac_low" 32];
   MkActionInfo (MkPreamble 27181644 "linux_networking_control.ecmp_set_nexthop_info_dmac") [
     MkActionParam 1 "router_interface_id" 16;
     MkActionParam 2 "egress_port" 32;
     MkActionParam 3 "dmac_high" 16;
     MkActionParam 4 "dmac_low" 32];
   MkActionInfo (MkPreamble 29883644 "linux_networking_control.set_nexthop_id") [
     MkActionParam 1 "nexthop_id" 16];
   MkActionInfo (MkPreamble 16874810 "linux_networking_control.ecmp_hash_action") [
     MkActionParam 1 "ecmp_group_id" 16];
   MkActionInfo (MkPreamble 22009623 "linux_networking_control.ipv4_set_nexthop_id") [
     MkActionParam 1 "nexthop_id" 16];
   MkActionInfo (MkPreamble 21321477 "linux_networking_control.ipv6_set_nexthop_id") [
     MkActionParam 1 "nexthop_id" 16];
   MkActionInfo (MkPreamble 27000185 "linux_networking_control.ecmp_v6_hash_action") [
     MkActionParam 1 "ecmp_group_id" 16];
   MkActionInfo (MkPreamble 24108243 "linux_networking_control.add_vlan_and_fwd") [
     MkActionParam 1 "vlan_ptr" 24;
     MkActionParam 2 "port_id" 32];
   MkActionInfo (MkPreamble 25690116 "linux_networking_control.remove_vlan_and_fwd") [
     MkActionParam 1 "vlan_ptr" 24;
     MkActionParam 2 "port_id" 32];
   MkActionInfo (MkPreamble 32890467 "linux_networking_control.set_source_port") [
     MkActionParam 1 "source_port" 16];
   MkActionInfo (MkPreamble 31939992 "linux_networking_control.set_bridge_id") [
     MkActionParam 1 "bridge_id" 8];
   MkActionInfo (MkPreamble 23805991 "linux_networking_control.set_tunnel_v4") [
     MkActionParam 1 "dst_addr" 32];
   MkActionInfo (MkPreamble 23953453 "linux_networking_control.set_tunnel_v6") [
     MkActionParam 1 "ipv6_1" 32;
     MkActionParam 2 "ipv6_2" 32;
     MkActionParam 3 "ipv6_3" 32;
     MkActionParam 4 "ipv6_4" 32];
   MkActionInfo (MkPreamble 26092385 "linux_networking_control.fwd_to_vsi") [
     MkActionParam 1 "port" 32];
   MkActionInfo (MkPreamble 21790705 "linux_networking_control.trap_enable") [];
   MkActionInfo (MkPreamble 19361592 "linux_networking_control.do_trap_enable") [];
   MkActionInfo (MkPreamble 20441854 "linux_networking_control.fwd_to_cp_tx") [];
   MkActionInfo (MkPreamble 21283156 "linux_networking_control.fwd_to_cp") [];
   MkActionInfo (MkPreamble 26423957 "linux_networking_control.set_ipsec_tunnel") [
     MkActionParam 1 "tunnel_id" 24];
   MkActionInfo (MkPreamble 19192368 "linux_networking_control.ipsec_bypass") [];
   MkActionInfo (MkPreamble 29527637 "linux_networking_control.tx_ipsec_tunnel_v6") [
     MkActionParam 1 "dst_addr_1" 32;
     MkActionParam 2 "dst_addr_2" 32;
     MkActionParam 3 "dst_addr_3" 16];
   MkActionInfo (MkPreamble 30154712 "linux_networking_control.tx_ipsec_tunnel") [
     MkActionParam 1 "dst_addr" 32];
   MkActionInfo (MkPreamble 24935652 "linux_networking_control.tx_ipsec_transport") [];
   MkActionInfo (MkPreamble 17885953 "linux_networking_control.tx_ipsec_transport_with_underlay") [];
   MkActionInfo (MkPreamble 25138331 "linux_networking_control.decap_ipsec_tunnel_hdr") [];
   MkActionInfo (MkPreamble 20682322 "linux_networking_control.ipsec_protect_set_metadata") [
     MkActionParam 1 "saidx" 24];
   MkActionInfo (MkPreamble 30081157 "linux_networking_control.ipsec_tunnel_encap_mod") [
     MkActionParam 1 "ipsec_src_addr" 32;
     MkActionParam 2 "ipsec_dst_addr" 32;
     MkActionParam 3 "proto" 8];
   MkActionInfo (MkPreamble 33290754 "linux_networking_control.ipsec_transport_mod_action") [];
   MkActionInfo (MkPreamble 24657351 "linux_networking_control.ipsec_transport_with_underlay_mod_action") [];
   MkActionInfo (MkPreamble 28758942 "linux_networking_control.ipsec_tunnel_decap") [];
   MkActionInfo (MkPreamble 28718673 "linux_networking_control.vm_src_ip4_mac_map_action") [
     MkActionParam 1 "smac_high" 16;
     MkActionParam 2 "smac_mid" 16;
     MkActionParam 3 "smac_low" 16];
   MkActionInfo (MkPreamble 25018769 "linux_networking_control.vm_dst_ip4_mac_map_action") [
     MkActionParam 1 "dmac_high" 16;
     MkActionParam 2 "dmac_mid" 16;
     MkActionParam 3 "dmac_low" 16];
   MkActionInfo (MkPreamble 17061464 "linux_networking_control.ipv4_lpm_root_lut_action") [
     MkActionParam 1 "ipv4_table_lpm_root" 32];
   MkActionInfo (MkPreamble 25701894 "linux_networking_control.ipv6_lpm_root_lut_action") [
     MkActionParam 1 "ipv6_table_lpm_root" 32]].

Definition es2k_p4info : P4Info := MkP4Info es2k_p4info_tables es2k_p4info_actions.

Definition dpdk_p4info_tables : list TableInfo :=
  [
   MkTableInfo (MkPreamble 40763773 "linux_networking_control.vxlan_encap_mod_table") [
     MkMatchField 1 "vendormeta_mod_data_ptr" 24 MT_EXACT]
     [20733968; 21257015];
   MkTableInfo (MkPreamble 43691980 "linux_networking_control.rif_mod_table") [
     MkMatchField 1 "local_metadata.rif_mod_map_id" 16 MT_EXACT]
     [32436111; 21257015];
   MkTableInfo (MkPreamble 36439154 "linux_networking_control.neighbor_mod_table") [
     MkMatchField 1 "vendormeta_mod_data_ptr" 24 MT_EXACT]
     [31671750; 21257015];
   MkTableInfo (MkPreamble 47484925 "linux_networking_control.ipv4_tunnel_term_table") [
     MkMatchField 1 "tunnel_type" 8 MT_EXACT;
     MkMatchField 2 "ipv4_src" 32 MT_EXACT;
     MkMatchField 3 "ipv4_dst" 32 MT_EXACT]
     [32579284; 29238102];
   MkTableInfo (MkPreamble 44842501 "linux_networking_control.l2_fwd_rx_table") [
     MkMatchField 1 "dst_mac" 48 MT_EXACT]
     [19169916; 29238102];
   MkTableInfo (MkPreamble 46049425 "linux_networking_control.l2_fwd_rx_with_tunnel_table") [
     MkMatchField 1 "dst_mac" 48 MT_EXACT]
     [19169916; 29238102];
   MkTableInfo (MkPreamble 40240205 "linux_networking_control.l2_fwd_tx_table") [
     MkMatchField 1 "dst_mac" 48 MT_EXACT]
     [19169916; 22384992; 29238102];
   MkTableInfo (MkPreamble 37894008 "linux_networking_control.nexthop_table") [
     MkMatchField 1 "local_metadata.nexthop_id" 16 MT_EXACT]
     [31297949; 29238102];
   MkTableInfo (MkPreamble 37566509 "linux_networking_control.ipv4_table") [
     MkMatchField 1 "local_metadata.ipv4_dst_match" 32 MT_LPM]
     [29883644; 29238102; 21257015];
   MkTableInfo (MkPreamble 41529896 "linux_networking_control.handle_rx_control_pkts_table") [
     MkMatchField 1 "istd.input_port" 32 MT_EXACT]
     [31030905; 29238102];
   MkTableInfo (MkPreamble 49330316 "linux_networking_control.handle_tx_control_vlan_pkts_table") [
     MkMatchField 1 "istd.input_port" 32 MT_EXACT;
     MkMatchField 2 "local_metadata.vlan_id" 16 MT_EXACT]
     [27571656; 29238102];
   MkTableInfo (MkPreamble 35677768 "linux_networking_control.handle_tx_control_pkts_table") [
     MkMatchField 1 "istd.input_port" 32 MT_EXACT]
     [26888899; 31030905; 29238102]].

Definition dpdk_p4info_actions : list ActionInfo :=
  [
   MkActionInfo (MkPreamble 21257015 "NoAction") [];
   MkActionInfo (MkPreamble 29238102 "linux_networking_control.drop") [];
   MkActionInfo (MkPreamble 20733968 "linux_networking_control.vxlan_encap") [
     MkActionParam 1 "src_addr" 32;
     MkActionParam 2 "dst_addr" 32;
     MkActionParam 3 "dst_port" 16;
     MkActionParam 4 "vni" 24];
   MkActionInfo (MkPreamble 18904286 "linux_networking_control.vxlan_decap_outer_ipv4") [];
   MkActionInfo (MkPreamble 32436111 "linux_networking_control.set_src_mac") [
     MkActionParam 1 "src_mac_addr" 48];
   MkActionInfo (MkPreamble 31671750 "linux_networking_control.set_outer_mac") [
     MkActionParam 1 "dst_mac_addr" 48];
   MkActionInfo (MkPreamble 32579284 "linux_networking_control.decap_outer_ipv4") [
     MkActionParam 1 "tunnel_id" 24];
   MkActionInfo (MkPreamble 22384992 "linux_networking_control.set_tunnel") [
     MkActionParam 1 "tunnel_id" 24;
     MkActionParam 2 "dst_addr" 32];
   MkActionInfo (MkPreamble 19169916 "linux_networking_control.l2_fwd") [
     MkActionParam 1 "port" 32];
   MkActionInfo (MkPreamble 31297949 "linux_networking_control.set_nexthop") [
     MkActionParam 1 "router_interface_id" 16;
     MkActionParam 2 "neighbor_id" 24;
     MkActionParam 3 "egress_port" 32];
   MkActionInfo (MkPreamble 29883644 "linux_networking_control.set_nexthop_id") [
     MkActionParam 1 "nexthop_id" 16];
   MkActionInfo (MkPreamble 31030905 "linux_networking_control.set_control_dest") [
     MkActionParam 1 "port_id" 32];
   MkActionInfo (MkPreamble 26888899 "linux_networking_control.push_vlan_fwd") [
     MkActionParam 1 "port" 32;
     MkActionParam 2 "vlan_tag" 16];
   MkActionInfo (MkPreamble 27571656 "linux_networking_control.pop_vlan_fwd") [
     MkActionParam 1 "port" 32]].

Definition dpdk_p4info : P4Info := MkP4Info dpdk_p4info_tables dpdk_p4info_actions.

Lemma wf_es2k_p4info : wf_P4Info es2k_p4info.
Proof. by_computation. Qed.

Lemma wf_dpdk_p4info : wf_P4Info dpdk_p4info.
Proof. by_computation. Qed.

#[export] Hint Resolve wf_es2k_p4info wf_dpdk_p4info : core.
