(* ===== verification/Session.v ===== *)
(** * P4Runtime sessions ([session/ovsp4rt_session.{h,cc}])

    A session is one arbitrated stream to the P4Runtime server and the three
    unary calls made under its identity. The server, gRPC and the machine the
    sidecar runs on are outside the repository: [P4RuntimeStub] is the
    generated stub's interface over an arbitrary server state [S], [Env] what
    the code reads from its environment. *)

From S2P Require Import Prelude P4Runtime P4InfoUtils.

(** ** Status conversions *)

(** [grpc::Status]: a code and a message. *)
Record grpc_Status := MkGrpcStatus { error_code : Z; error_message : string }.

(** [absl::Status(code, message)]: the message of an OK status is dropped. *)
Definition absl_Status (code : Z) (message : string) : Status :=
  if code =? 0 then OkStatus else ErrStatus (MkError code message).

(** [status.code()] gives [kUnknown] for a code outside the canonical ones. *)
Definition status_code (s : Status) : Z :=
  match s with
  | OkStatus => 0
  | ErrStatus e => if (0 <=? err_code e) && (err_code e <=? 16) then err_code e else kUnknown
  end.

Definition status_message (s : Status) : string :=
  match s with OkStatus => "" | ErrStatus e => err_message e end.

Definition AbslStatusToGrpcStatus (status : Status) : grpc_Status :=
  MkGrpcStatus (status_code status) (status_message status).

Definition GrpcStatusToAbslStatus (status : grpc_Status) : Status :=
  absl_Status (error_code status) (error_message status).

(** ** Election ids *)

(** [absl::uint128] is a [Z] modulo 2^128. *)
Definition w128 (z : Z) : Z := z mod 340282366920938463463374607431768211456.

Definition MakeUint128 (high low : Z) : Z := w64 high * 18446744073709551616 + w64 low.
Definition Uint128High64 (v : Z) : Z := w64 (v / 18446744073709551616).
Definition Uint128Low64 (v : Z) : Z := w64 v.

(** [now] is [absl::ToUnixSeconds(absl::Now())], an [int64_t]. *)
Definition TimeBasedElectionId (now : Z) : Z := MakeUint128 now 0.

(** ** The environment and the stub *)

Record Env := MkEnv {
  env_now : Z;                 (* seconds since the epoch *)
  env_pthread_self : Z;        (* the calling thread, 64 bits *)
  (** [DEFAULT_OVS_P4RT_ROLE_CONFIG_FILE]: absent, or the outcome of
      [ReadProtoFromTextFile] on it (the packed role configuration). *)
  env_role_config : option (StatusOr string);
  (** [lstat] succeeds on the file and says it is a regular one. *)
  env_is_regular : string -> bool;
  FLAGS_device_id : Z;         (* uint64_t *)
  FLAGS_role_name : string;
}.

(** [client/ovsp4rt_client_flags.cc]: the values of the flags when the command
    line does not set them. No certificate files are installed. *)
Definition DEFAULT_ROLE_NAME : string := "ovs-p4rt".
Definition default_Env (now tid : Z) (role_config : option (StatusOr string)) : Env :=
  MkEnv now tid role_config (fun _ => false) 1 DEFAULT_ROLE_NAME.

(** [MasterArbitrationUpdate], as sent and as received. *)
Record Arbitration := MkArbitration {
  arb_device_id : Z;
  arb_role_name : string;
  arb_role_config : option string;
  arb_election_id : option Uint128;
  arb_status : Z;              (* [status().code()] of a response *)
}.

(** [StreamMessageResponse]: an arbitration update, or another alternative of
    its [oneof]. *)
Inductive StreamMessageResponse :=
| kArbitration (a : Arbitration)
| kOtherUpdate.

(** *** [session/ovsp4rt_credentials.{h,cc}] *)

Definition ca_cert_file : string := "/usr/share/stratum/certs/ca.crt".
Definition client_key_file : string := "/usr/share/stratum/certs/client.key".
Definition client_cert_file : string := "/usr/share/stratum/certs/client.crt".

Inductive ChannelCredentials :=
| TlsCredentials (ca cert key : string)
| InsecureChannelCredentials.

Definition IsRegularFile (env : Env) (filename : string) : bool := env_is_regular env filename.

(** The credentials, and what is printed. *)
Definition GenerateClientCredentials (env : Env) : ChannelCredentials * list string :=
  if IsRegularFile env ca_cert_file && IsRegularFile env client_cert_file &&
     IsRegularFile env client_key_file
  then (TlsCredentials ca_cert_file client_cert_file client_key_file, [])
  else (InsecureChannelCredentials, ["Using insecure client credentials!"]).

(** *** The stub *)

Class P4RuntimeStub (S : Type) := {
  (** [NewStub(CreateCustomChannel(address))] and opening its stream. *)
  stub_StreamChannel : ChannelCredentials -> string -> S -> S;
  stub_StreamWrite : Arbitration -> S -> bool * S;
  stub_StreamRead : S -> option StreamMessageResponse * S;
  stub_StreamFinish : S -> grpc_Status * S;
  stub_GetForwardingPipelineConfig : Z -> S -> (grpc_Status * P4Info) * S;
  (** A read streams partial responses until it finishes with a status. *)
  stub_Read : ReadRequest -> S -> (list ReadResponse * grpc_Status) * S;
  stub_Write : WriteRequest -> S -> grpc_Status * S;
}.

(** ** The session object *)

Record OvsP4rtSession := MkSession {
  device_id_ : Z;           (* uint32_t *)
  election_id_ : Uint128;
  role_name_ : string;
}.

Definition DeviceId (s : OvsP4rtSession) : Z := device_id_ s.
Definition RoleName (s : OvsP4rtSession) : string := role_name_ s.
Definition ElectionId (s : OvsP4rtSession) : Uint128 := election_id_ s.

(** The constructor: its [role_name] argument initialises nothing. *)
Definition new_OvsP4rtSession (device_id : Z) (role_name : string) (election_id : Z)
  : OvsP4rtSession :=
  MkSession device_id (MkUint128 (Uint128High64 election_id) (Uint128Low64 election_id)) "".

Section Session.
Context {S : Type} `{P4RuntimeStub S}.

(** [OvsP4rtSession::Create] on a stub whose stream is open. *)
Definition Create (env : Env) (device_id : Z) (role_name : string) (election_id : Z)
  (s : S) : StatusOr OvsP4rtSession * S :=
  let session := new_OvsP4rtSession device_id role_name election_id in
  let arbitrate (config : option string) :=
    let arbt_request :=
      MkArbitration device_id role_name config (Some (election_id_ session)) 0 in
    let '(written, s) := stub_StreamWrite arbt_request s in
    if negb written then
      let '(_, s) := stub_StreamFinish s in
      (StatusError (UnavailableError
         "Unable to initiate P4RT connection for Write request, closing stream channel"), s)
    else
    let '(response, s) := stub_StreamRead s in
    match response with
    | None =>
        let '(_, s) := stub_StreamFinish s in
        (StatusError (InternalError "No arbitration response received"), s)
    | Some kOtherUpdate => (StatusError (InternalError "No arbitration update received"), s)
    | Some (kArbitration arbitration) =>
        if negb (arb_device_id arbitration =? device_id_ session) then
          (StatusError (InternalError "Received device id doesn't match"), s)
        else (StatusValue session, s)
    end in
  match env_role_config env with
  | None => arbitrate None
  | Some (StatusError e) => (StatusError e, s)
  | Some (StatusValue role_config) => arbitrate (Some role_config)
  end.

(** The overload on an address: a new stub, and the thread id added to the
    election id. *)
Definition Create_address (env : Env) (address : string)
  (credentials : ChannelCredentials) (device_id : Z)
  (role_name : string) (election_id : Z) (s : S) : StatusOr OvsP4rtSession * S :=
  let election_id := w128 (election_id + env_pthread_self env) in
  Create env device_id role_name election_id (stub_StreamChannel credentials address s).

(** The status of the call is computed and dropped. *)
Definition GetForwardingPipelineConfig (session : OvsP4rtSession) (s : S)
  : (Status * P4Info) * S :=
  let '((grpc_status, p4info), s) := stub_GetForwardingPipelineConfig (DeviceId session) s in
  let status := GrpcStatusToAbslStatus grpc_status in
  ((OkStatus, p4info), s).

(** The [while (reader->Read(&partial_response))] loop is the fold of the
    partial responses of the stream. *)
Definition SendReadRequest (session : OvsP4rtSession) (read_request : ReadRequest) (s : S)
  : StatusOr ReadResponse * S :=
  let '((partial_responses, reader_status), s) := stub_Read read_request s in
  let response := fold_left MergeFrom partial_responses default_ReadResponse in
  match GrpcStatusToAbslStatus reader_status with
  | ErrStatus e => (StatusError e, s)
  | OkStatus => (StatusValue response, s)
  end.

Definition SendWriteRequest (session : OvsP4rtSession) (write_request : WriteRequest) (s : S)
  : Status * S :=
  let '(status, s) := stub_Write write_request s in
  (GrpcStatusToAbslStatus status, s).
End Session.

(** ** Requests *)

Definition SetupTableEntryToRead (session : OvsP4rtSession) (req : ReadRequest)
  : ReadRequest * entry_ptr :=
  (MkReadRequest (DeviceId session)
     (rr_entities req ++ [ENTITY_TABLE_ENTRY default_TableEntry]),
   length (rr_entities req)).

Definition SetupTableEntryToInsert (session : OvsP4rtSession) (req : WriteRequest)
  : WriteRequest * entry_ptr :=
  (MkWriteRequest (DeviceId session) (Some (ElectionId session))
     (wr_updates req ++ [MkUpdate UPDATE_INSERT (ENTITY_TABLE_ENTRY default_TableEntry)]),
   length (wr_updates req)).

Definition SetupTableEntryToModify (session : OvsP4rtSession) (req : WriteRequest)
  : WriteRequest * entry_ptr :=
  (MkWriteRequest (DeviceId session) (Some (ElectionId session))
     (wr_updates req ++ [MkUpdate UPDATE_MODIFY (ENTITY_TABLE_ENTRY default_TableEntry)]),
   length (wr_updates req)).

Definition SetupTableEntryToDelete (session : OvsP4rtSession) (req : WriteRequest)
  : WriteRequest * entry_ptr :=
  (MkWriteRequest (DeviceId session) (Some (ElectionId session))
     (wr_updates req ++ [MkUpdate UPDATE_DELETE (ENTITY_TABLE_ENTRY default_TableEntry)]),
   length (wr_updates req)).

(** ** Session lemmas *)

(** The reading loop concatenates the partial responses. *)
Lemma MergeFrom_concat partials r :
  fold_left MergeFrom partials r =
  MkReadResponse (rsp_entities r ++ (partials ≫= rsp_entities)).
Proof.
  revert r. induction partials as [|p ps IH]; intros r; simpl.
  - rewrite app_nil_r. by destruct r.
  - rewrite IH. simpl. by rewrite <- app_assoc.
Qed.

Lemma ok_GrpcStatus st : ok (GrpcStatusToAbslStatus st) = (error_code st =? 0).
Proof. unfold GrpcStatusToAbslStatus, absl_Status. by case_match. Qed.

Lemma TimeBasedElectionId_range now : 0 <= TimeBasedElectionId now < 2 ^ 128.
Proof. unfold TimeBasedElectionId, MakeUint128. change (2 ^ 128) with
  340282366920938463463374607431768211456. machine_int. Qed.

(** The election id of [Create_address], for 64-bit seconds and thread ids. *)
Lemma election_id_value now tid :
  0 <= now < 2 ^ 64 -> 0 <= tid < 2 ^ 64 ->
  w128 (TimeBasedElectionId now + tid) = now * 2 ^ 64 + tid.
Proof.
  change (2 ^ 64) with 18446744073709551616. intros.
  unfold w128, TimeBasedElectionId, MakeUint128. machine_int.
Qed.

Section Properties.
Context {S : Type} `{P4RuntimeStub S}.

Lemma Create_session env d r e (s : S) ses s' :
  Create env d r e s = (StatusValue ses, s') -> ses = new_OvsP4rtSession d r e.
Proof.
  unfold Create. repeat first [case_match | progress simplify_eq/=]; intros; by simplify_eq/=.
Qed.

(** ** Properties *)

(** What the arbitration request carries as role configuration: nothing when
    the file is absent, its content when it parses. *)
Definition role_config_sent (env : Env) (config : option string) : Prop :=
  match env_role_config env, config with
  | None, None => True
  | Some (StatusValue c), Some c' => c' = c
  | _, _ => False
  end.

(** C28 Create_ok_iff: a session is created exactly when the role configuration
    file is absent or parses, the arbitration request is written, the first
    response is read and is an arbitration update, and the device it names is
    the one asked for. The session holds the device and the two halves of the
    election id; neither the status of the arbitration update (whether this
    client is the primary) nor the role name plays a part, and [RoleName] of
    the session is empty. *)
Theorem Create_ok_iff env d r e (s : S) session s' :
  Create env d r e s = (StatusValue session, s') <->
  session = MkSession d (MkUint128 (Uint128High64 e) (Uint128Low64 e)) "" /\
  exists config s1 a,
    role_config_sent env config /\
    stub_StreamWrite
      (MkArbitration d r config (Some (MkUint128 (Uint128High64 e) (Uint128Low64 e))) 0) s =
      (true, s1) /\
    stub_StreamRead s1 = (Some (kArbitration a), s') /\ arb_device_id a = d.
Proof.
  unfold Create, role_config_sent, new_OvsP4rtSession; simpl. split.
  - destruct (env_role_config env) as [[c|er]|]; [|done|];
      repeat first [case_match | progress simplify_eq/=]; intros; simplify_eq;
      repeat match goal with Hb : negb _ = false |- _ => apply negb_false_iff in Hb end;
      subst; (split; [done|]); [exists (Some c)|exists None]; do 2 eexists;
      (split; [done|]); (split; [eassumption|]); (split; [eassumption|]);
      by apply Z.eqb_eq.
  - intros (-> & config & s1 & a & Hc & Hw & Hr & Hd).
    destruct (env_role_config env) as [[c|er]|], config as [c'|]; try done; subst;
      by rewrite Hw; simpl; rewrite Hr, Z.eqb_refl.
Qed.

(** SendReadRequest_merges: a read returns the entities of all partial
    responses, in order, when the stream finishes with OK, and the final
    status, whatever was received before it, when it does not. *)
Theorem SendReadRequest_merges session req (s : S) :
  SendReadRequest session req s =
  let '((partials, st), s') := stub_Read req s in
  (if error_code st =? 0 then StatusValue (MkReadResponse (partials ≫= rsp_entities))
   else StatusError (MkError (error_code st) (error_message st)), s').
Proof.
  unfold SendReadRequest. destruct (stub_Read req s) as [[partials st] s'].
  rewrite MergeFrom_concat. unfold GrpcStatusToAbslStatus, absl_Status.
  by destruct (error_code st =? 0).
Qed.

(** pipeline_error_ignored: when the server refuses the pipeline query, the
    function still reports success, with the empty P4Info; every table id
    looked up in it is sent as 4294967295. *)
Theorem pipeline_error_ignored session (s : S) st s' :
  stub_GetForwardingPipelineConfig (DeviceId session) s = ((st, default_P4Info), s') ->
  error_code st <> 0 ->
  GetForwardingPipelineConfig session s = ((OkStatus, default_P4Info), s') /\
  forall n te, te_table_id (set_table_id (GetTableId default_P4Info n) te) = 4294967295.
Proof. intros Hq _. unfold GetForwardingPipelineConfig. by rewrite Hq. Qed.
End Properties.

(** A server that refuses everything. *)
#[export] Instance refusing_stub : P4RuntimeStub unit := {|
  stub_StreamChannel _ _ s := s;
  stub_StreamWrite _ s := (false, s);
  stub_StreamRead s := (None, s);
  stub_StreamFinish s := (MkGrpcStatus 14 "", s);
  stub_GetForwardingPipelineConfig _ s := ((MkGrpcStatus 9 "no pipeline", default_P4Info), s);
  stub_Read _ s := (([], MkGrpcStatus 14 ""), s);
  stub_Write _ s := (MkGrpcStatus 14 "", s);
|}.

Lemma pipeline_error_ignored_witness :
  GetForwardingPipelineConfig (MkSession 1 (MkUint128 0 0) "") tt =
    ((OkStatus, default_P4Info), tt).
Proof.
  edestruct (pipeline_error_ignored (MkSession 1 (MkUint128 0 0) "") tt
    (MkGrpcStatus 9 "no pipeline") tt) as [Heq _]; [reflexivity|discriminate|exact Heq].
Defined.

(** status_conversions: the two status conversions are inverse to each
    other on every canonical error code. *)
Theorem status_conversions code message :
  1 <= code <= 16 ->
  GrpcStatusToAbslStatus (AbslStatusToGrpcStatus (ErrStatus (MkError code message))) =
    ErrStatus (MkError code message) /\
  AbslStatusToGrpcStatus (GrpcStatusToAbslStatus (MkGrpcStatus code message)) =
    MkGrpcStatus code message.
Proof.
  intros Hc. unfold GrpcStatusToAbslStatus, AbslStatusToGrpcStatus, absl_Status; simpl.
  assert ((0 <=? code) && (code <=? 16) = true) as -> by lia.
  assert ((code =? 0) = false) as -> by lia. simpl.
  by assert ((0 <=? code) && (code <=? 16) = true) as -> by lia.
Qed.

Lemma status_conversions_witness :
  GrpcStatusToAbslStatus (AbslStatusToGrpcStatus (ErrStatus (MkError 5 "no entry"))) =
    ErrStatus (MkError 5 "no entry").
Proof. apply (status_conversions 5 "no entry"). lia. Defined.

(** election_id_order: the election ids of two sessions compare like the
    pairs of creation second and thread id: sessions of different threads or
    different seconds never share one, and a later second always outranks an
    earlier one. Two sessions of one thread in one second do share theirs. *)
Theorem election_id_order now1 tid1 now2 tid2 :
  0 <= now1 < 2 ^ 64 -> 0 <= tid1 < 2 ^ 64 -> 0 <= now2 < 2 ^ 64 -> 0 <= tid2 < 2 ^ 64 ->
  let id now tid := w128 (TimeBasedElectionId now + tid) in
  (id now1 tid1 < id now2 tid2 <-> now1 < now2 \/ (now1 = now2 /\ tid1 < tid2)) /\
  (id now1 tid1 = id now2 tid2 <-> now1 = now2 /\ tid1 = tid2) /\
  Uint128High64 (id now1 tid1) = now1 /\ Uint128Low64 (id now1 tid1) = tid1.
Proof.
  intros H1 H2 H3 H4 id. unfold id. rewrite !election_id_value by done.
  change (2 ^ 64) with 18446744073709551616 in *.
  unfold Uint128High64, Uint128Low64. repeat split; try machine_int.
Qed.

Lemma election_id_order_witness :
  w128 (TimeBasedElectionId 1700000000 + 139900000000000) <
  w128 (TimeBasedElectionId 1700000001 + 5).
Proof. apply (election_id_order 1700000000 139900000000000 1700000001 5); lia. Defined.
