(* ===== verification/ClientImpl.v ===== *)
(** * The clients ([client/])

    [Client] implements [ClientInterface] over one [OvsP4rtSession];
    [TestClient] fills requests without a server. [JournalClient], which derives
    from [Client] and prints the requests and what they returned, is in
    [JournalOutput.v]; what it is given to record is here. *)

From S2P Require Import Prelude P4Runtime OvsP4rt Client Session.

(** ** Client *)

(** The state of a program that owns a [Client]: [session_] (null until
    [connect] succeeds), the server behind the stub, what was printed, and
    whether a null [session_] has been dereferenced (undefined behaviour in
    C++: the call is then given a default result and [cl_fault] set for
    good). *)
Record ClientState (S : Type) := MkClient {
  session_ : option OvsP4rtSession;
  cl_server : S;
  cl_env : Env;
  cl_out : list string;
  cl_fault : bool;
}.
Arguments MkClient {_} _ _ _ _ _.
Arguments session_ {_} _.
Arguments cl_server {_} _.
Arguments cl_env {_} _.
Arguments cl_out {_} _.
Arguments cl_fault {_} _.

(** [Client client;] *)
Definition new_Client {S} (env : Env) (s : S) : ClientState S := MkClient None s env [] false.

(** Call [f] with [session_.get()]. *)
Definition with_session {S A} (w : ClientState S) (dflt : A)
  (f : OvsP4rtSession -> S -> A * S) : A * ClientState S :=
  match session_ w with
  | Some session =>
      let '(a, s) := f session (cl_server w) in
      (a, MkClient (session_ w) s (cl_env w) (cl_out w) (cl_fault w))
  | None => (dflt, MkClient None (cl_server w) (cl_env w) (cl_out w) true)
  end.

Section Client.
Context {S : Type} `{P4RuntimeStub S}.

Definition Client_connect (grpc_addr : string) (w : ClientState S) : Status * ClientState S :=
  let env := cl_env w in
  let '(credentials, out) := GenerateClientCredentials env in
  let out := cl_out w ++ out in
  let '(result, s) :=
    Create_address env grpc_addr credentials (w32 (FLAGS_device_id env)) (FLAGS_role_name env)
      (TimeBasedElectionId (env_now env)) (cl_server w) in
  match result with
  | StatusError e => (ErrStatus e, MkClient (session_ w) s env out (cl_fault w))
  | StatusValue session =>
      (OkStatus, MkClient (Some session) s env out (cl_fault w))
  end.

Definition Client_getPipelineConfig (w : ClientState S) : (Status * P4Info) * ClientState S :=
  with_session w (OkStatus, default_P4Info) GetForwardingPipelineConfig.

Definition Client_initReadRequest (request : ReadRequest) (w : ClientState S)
  : (ReadRequest * entry_ptr) * ClientState S :=
  with_session w (request, 0%nat) (fun session s => (SetupTableEntryToRead session request, s)).

Definition Client_initInsertRequest (request : WriteRequest) (w : ClientState S)
  : (WriteRequest * entry_ptr) * ClientState S :=
  with_session w (request, 0%nat)
    (fun session s => (SetupTableEntryToInsert session request, s)).

Definition Client_initModifyRequest (request : WriteRequest) (w : ClientState S)
  : (WriteRequest * entry_ptr) * ClientState S :=
  with_session w (request, 0%nat)
    (fun session s => (SetupTableEntryToModify session request, s)).

Definition Client_initDeleteRequest (request : WriteRequest) (w : ClientState S)
  : (WriteRequest * entry_ptr) * ClientState S :=
  with_session w (request, 0%nat)
    (fun session s => (SetupTableEntryToDelete session request, s)).

Definition Client_initWriteRequest (request : WriteRequest) (insert_entry : bool)
  (w : ClientState S) : (WriteRequest * entry_ptr) * ClientState S :=
  if insert_entry then Client_initInsertRequest request w
  else Client_initDeleteRequest request w.

Definition DoSendReadRequest (request : ReadRequest) (w : ClientState S)
  : StatusOr ReadResponse * ClientState S :=
  with_session w (StatusError (InternalError ""))
    (fun session s => SendReadRequest session request s).

Definition DoSendWriteRequest (request : WriteRequest) (w : ClientState S)
  : Status * ClientState S :=
  with_session w OkStatus (fun session s => SendWriteRequest session request s).

Definition Client_cout (line : string) (w : ClientState S) : unit * ClientState S :=
  ((), MkClient (session_ w) (cl_server w) (cl_env w) (cl_out w ++ [line]) (cl_fault w)).

#[export] Instance Client : ClientInterface (ClientState S) := {|
  m_connect := Client_connect;
  m_getPipelineConfig := Client_getPipelineConfig;
  m_initReadRequest := Client_initReadRequest;
  m_sendReadRequest := DoSendReadRequest;
  m_initInsertRequest := Client_initInsertRequest;
  m_initModifyRequest := Client_initModifyRequest;
  m_initDeleteRequest := Client_initDeleteRequest;
  m_initWriteRequest := Client_initWriteRequest;
  m_sendWriteRequest := DoSendWriteRequest;
  m_cout := Client_cout;
|}.
End Client.

(** ** What a [JournalClient] records *)

(** The arguments of an API function, one alternative per overload of
    [Journal::recordInputs]. *)
Inductive api_inputs :=
| inputs_mac_learning_info (info : mac_learning_info)
| inputs_ip_mac_map_info (info : ip_mac_map_info)
| inputs_tunnel_info (info : tunnel_info)
| inputs_src_port_info (info : src_port_info)
| inputs_vlan_id (vlan_id : Z).

(** What [Journal::record...] is given; [Journal.v] has the line it prints, and
    [JournalOutput.v] the client. *)
Inductive journal_action :=
| recordInputs (func_name : string) (info : api_inputs) (insert_entry : bool)
| recordReadRequest (request : ReadRequest)
| recordReadResponse (response : StatusOr ReadResponse)
| recordWriteRequest (request : WriteRequest)
| recordWriteStatus (status : Status).

(** ** TestClient *)

(** [election_id_] is default-constructed. *)
Record TestClientState := MkTestClient {
  tc_device_id_ : Z;     (* uint64_t *)
  tc_role_name_ : string;
  tc_out : list string;
}.

Definition new_TestClient (env : Env) : TestClientState :=
  MkTestClient (FLAGS_device_id env) (FLAGS_role_name env) [].

Definition TestClient_initReadRequest (request : ReadRequest) (w : TestClientState)
  : (ReadRequest * entry_ptr) * TestClientState :=
  ((MkReadRequest (tc_device_id_ w)
      (rr_entities request ++ [ENTITY_TABLE_ENTRY default_TableEntry]),
    length (rr_entities request)), w).

Definition TestClient_InitWriteRequest (request : WriteRequest) (type_value : UpdateType)
  (w : TestClientState) : (WriteRequest * entry_ptr) * TestClientState :=
  ((MkWriteRequest (tc_device_id_ w) (Some (MkUint128 0 0))
      (wr_updates request ++ [MkUpdate type_value (ENTITY_TABLE_ENTRY default_TableEntry)]),
    length (wr_updates request)), w).

Definition TestClient_connect (grpc_addr : string) (w : TestClientState)
  : Status * TestClientState :=
  (ErrStatus (UnimplementedError "connect"), w).

Definition TestClient_getPipelineConfig (w : TestClientState) : (Status * P4Info) * TestClientState :=
  ((ErrStatus (UnimplementedError "getPipelineConfig"), default_P4Info), w).

Definition TestClient_DoSendReadRequest (request : ReadRequest) (w : TestClientState)
  : StatusOr ReadResponse * TestClientState :=
  (StatusError (UnimplementedError "DoSendReadRequest"), w).

Definition TestClient_DoSendWriteRequest (request : WriteRequest) (w : TestClientState)
  : Status * TestClientState :=
  (ErrStatus (UnimplementedError "DoSendWriteRequest"), w).

Definition TestClient_initInsertRequest (request : WriteRequest) :=
  TestClient_InitWriteRequest request UPDATE_INSERT.

Definition TestClient_initModifyRequest (request : WriteRequest) :=
  TestClient_InitWriteRequest request UPDATE_MODIFY.

Definition TestClient_initDeleteRequest (request : WriteRequest) :=
  TestClient_InitWriteRequest request UPDATE_DELETE.

Definition TestClient_initWriteRequest (request : WriteRequest) (insert_entry : bool) :=
  if insert_entry then TestClient_initInsertRequest request
  else TestClient_initDeleteRequest request.

#[export] Instance TestClient : ClientInterface TestClientState := {|
  m_connect := TestClient_connect;
  m_getPipelineConfig := TestClient_getPipelineConfig;
  m_initReadRequest := TestClient_initReadRequest;
  m_sendReadRequest := TestClient_DoSendReadRequest;
  m_initInsertRequest := TestClient_initInsertRequest;
  m_initModifyRequest := TestClient_initModifyRequest;
  m_initDeleteRequest := TestClient_initDeleteRequest;
  m_initWriteRequest := TestClient_initWriteRequest;
  m_sendWriteRequest := TestClient_DoSendWriteRequest;
  m_cout line w := ((), MkTestClient (tc_device_id_ w) (tc_role_name_ w) (tc_out w ++ [line]));
|}.

(** ** Lemmas *)

(** A program that starts with a session keeps one, and never dereferences a
    null pointer. *)
Definition live {S} (w : ClientState S) : Prop :=
  is_Some (session_ w) /\ cl_fault w = false.

Section Lemmas.
Context {S : Type} `{P4RuntimeStub S}.

Lemma with_session_live {A} (w : ClientState S) (dflt : A) f :
  live w -> live (with_session w dflt f).2.
Proof.
  intros [[ses Hs] Hf]. unfold with_session. rewrite Hs. destruct (f ses _).
  split; simpl; [by eexists|done].
Qed.

Lemma handle_live c (w : ClientState S) : live w -> live (handle c w).2.
Proof.
  intros Hl. destruct c; simpl; try by apply with_session_live.
  - unfold Client_connect. destruct (GenerateClientCredentials _), (Create_address _ _ _ _ _ _ _) as [[] s]; [|done].
    split; simpl; [by eexists|apply Hl].
  - unfold Client_initWriteRequest. by destruct insert_entry; apply with_session_live.
  - done.
Qed.

Lemma run_live {A} (p : prog A) (w : ClientState S) : live w -> live (run p w).2.
Proof.
  revert w. induction p as [a|c k IH]; intros w Hl; simpl; [done|].
  pose proof (handle_live c w Hl) as Hl'. destruct (handle c w) as [r w']. by apply IH.
Qed.

Lemma connect_live a (w : ClientState S) :
  cl_fault w = false -> ok (Client_connect a w).1 = true -> live (Client_connect a w).2.
Proof.
  unfold Client_connect. destruct (GenerateClientCredentials _), (Create_address _ _ _ _ _ _ _) as [[] s]; [|done].
  split; simpl; by eauto.
Qed.

Lemma connect_fault a (w : ClientState S) : cl_fault (Client_connect a w).2 = cl_fault w.
Proof. unfold Client_connect. by destruct (GenerateClientCredentials _), (Create_address _ _ _ _ _ _ _) as [[] s]. Qed.

(** The prologue of the [DoConfig...] functions protects what follows it. *)
Lemma session_prologue_fault addr (f : P4Info -> prog Status) (w : ClientState S) :
  cl_fault w = false ->
  cl_fault (run
    (status ← do_call (connect addr);
     if negb (ok status) then mret status else
     '(status, p4info) ← do_call getPipelineConfig;
     if negb (ok status) then mret status else f p4info) w).2 = false.
Proof.
  intros Hf. rewrite run_bind. simpl (run (do_call _) w).
  pose proof (connect_fault addr w). pose proof (connect_live addr w Hf) as Hl.
  destruct (Client_connect addr w) as [s w1]; simpl in *. destruct (ok s); [|simpl; congruence].
  exact (proj2 (run_live _ w1 (Hl eq_refl))).
Qed.

(** *** What the journal is to hold *)

Definition journal_of_event (e : event) : list journal_action :=
  match e with
  | MkEvent c r =>
      match c return call_ret c -> list journal_action with
      | sendReadRequest request => fun r => [recordReadRequest request; recordReadResponse r]
      | sendWriteRequest request => fun r => [recordWriteRequest request; recordWriteStatus r]
      | _ => fun _ => []
      end r
  end.

(** ** Properties *)

(** connect_session: a successful [connect] leaves a session whose election
    id is the pair of the creation second and the thread, whose device is the
    [device_id] flag truncated to 32 bits, and whose role name is empty
    whatever the flag says; a failed one leaves the previous session. *)
Theorem connect_session a (w : ClientState S) :
  0 <= env_now (cl_env w) < 2 ^ 64 -> 0 <= env_pthread_self (cl_env w) < 2 ^ 64 ->
  session_ (Client_connect a w).2 =
  if ok (Client_connect a w).1 then
    Some (MkSession (w32 (FLAGS_device_id (cl_env w)))
            (MkUint128 (env_now (cl_env w)) (env_pthread_self (cl_env w))) "")
  else session_ w.
Proof.
  intros Hn Ht. unfold Client_connect, Create_address. destruct (GenerateClientCredentials _).
  rewrite election_id_value by done.
  destruct (Create _ _ _ _ _) as [[ses|e] s] eqn:Hc; simpl; [|done]. f_equal.
  apply Create_session in Hc as ->.
  unfold new_OvsP4rtSession, Uint128High64, Uint128Low64.
  change (2 ^ 64) with 18446744073709551616 in *. repeat f_equal; machine_int.
Qed.
End Lemmas.

Lemma connect_session_witness :
  session_ (Client_connect "localhost:9559"
    (new_Client (default_Env 1700000000 42 None) tt)).2 = None.
Proof.
  rewrite (connect_session "localhost:9559" (new_Client (default_Env 1700000000 42 None) tt)).
  - reflexivity.
  - simpl. lia.
  - simpl. lia.
Defined.
