(* ===== verification/Switch.v ===== *)
(** * The switch behind the client: abstract specification

    What the sidecar expects of the P4Runtime server, seen through a
    [ClientInterface]: a store of table entries indexed by their match key,
    which INSERT extends when the key is new, DELETE shrinks when the key is
    there, and Read looks up (the code takes a successful read of an entry's
    match key to mean that the entry exists). [SwitchClient] is the interface
    the API functions are verified against; [Server.v] implements it.

    The predicate [wp p Q w] says that running [p] from [w] ends in a result
    and a state satisfying [Q]; every program has one, since programs are
    finite trees. *)

From stdpp Require Import gmap.
From S2P Require Import Prelude P4Runtime Logging Client.

(** ** Keys are countable, so stores are finite maps *)

#[export] Instance FieldMatchType_countable : Countable FieldMatchType.
Proof.
  refine (inj_countable'
    (fun m => match m with
              | FM_NOT_SET => inl ()
              | FM_EXACT v => inr (inl v)
              | FM_TERNARY v k => inr (inr (v, k))
              end)
    (fun s => match s with
              | inl _ => FM_NOT_SET
              | inr (inl v) => FM_EXACT v
              | inr (inr (v, k)) => FM_TERNARY v k
              end) _).
  by intros [].
Defined.

#[export] Instance key_eq_dec : EqDecision key.
Proof. unfold key. apply _. Defined.
#[export] Instance key_countable : Countable key.
Proof. unfold key. apply _. Defined.

Abbreviation tables := (gmap key TableEntry).

(** ** The effect of one update on the store *)

(** INSERT (when [ins]) or DELETE of [te]: whether it succeeds, and the store
    afterwards. [accepts] is the validation of the pipeline, about which
    nothing is assumed. *)
Definition switch_write (accepts : TableEntry -> bool) (ins : bool) (te : TableEntry)
  (T : tables) : bool * tables :=
  if ins then
    if accepts te && bool_decide (T !! te_key te = None)
    then (true, <[te_key te := te]> T) else (false, T)
  else
    if bool_decide (is_Some (T !! te_key te)) then (true, delete (te_key te) T)
    else (false, T).
Arguments switch_write : simpl never.

(** Updates in order, up to the first that fails. *)
Fixpoint switch_writes (accepts : TableEntry -> bool) (ins : bool) (tes : list TableEntry)
  (T : tables) : bool * tables :=
  match tes with
  | [] => (true, T)
  | te :: tes =>
      let '(b, T') := switch_write accepts ins te T in
      if b then switch_writes accepts ins tes T' else (false, T')
  end.

(** Updates in order, failures ignored. *)
Fixpoint switch_writes_all (accepts : TableEntry -> bool) (ins : bool)
  (tes : list TableEntry) (T : tables) : tables :=
  match tes with
  | [] => T
  | te :: tes => switch_writes_all accepts ins tes (switch_write accepts ins te T).2
  end.

(** A read that names one entry: a table and at least one match field. *)
Definition reads_one (te : TableEntry) : Prop := te_table_id te <> 0 /\ te_match te <> [].

Definition update_type (ins : bool) : UpdateType :=
  if ins then UPDATE_INSERT else UPDATE_DELETE.

(** ** The interface *)

(** The identity requests are sent under: device and election id. *)
Abbreviation session_id := (Z * option Uint128)%type.

Definition write_request_of (id : session_id) (ins : bool) (te : TableEntry) : WriteRequest :=
  MkWriteRequest id.1 id.2 [MkUpdate (update_type ins) (ENTITY_TABLE_ENTRY te)].

Definition read_request_of (id : session_id) (te : TableEntry) : ReadRequest :=
  MkReadRequest id.1 [ENTITY_TABLE_ENTRY te].

(** A call leaves the session usable and the tables as [T]. *)
Definition kept {W} (ready : session_id -> W -> Prop) (tbl : W -> tables) (id : session_id)
  (T : tables) (w' : W) : Prop := ready id w' /\ tbl w' = T.

Class SwitchClient (W : Type) `{ClientInterface W} := {
  sc_ready : session_id -> W -> Prop;
  sc_tables : W -> tables;
  sc_p4info : P4Info;
  sc_accepts : TableEntry -> bool;
  (** [connect] establishes the session or reports an error; neither touches
      the tables. *)
  sc_connect : forall a w,
    sc_tables (m_connect a w).2 = sc_tables w /\
    (ok (m_connect a w).1 = true -> exists id, sc_ready id (m_connect a w).2);
  sc_pipeline : forall id w, sc_ready id w ->
    (m_getPipelineConfig w).1 = (OkStatus, sc_p4info) /\
    kept sc_ready sc_tables id (sc_tables w) (m_getPipelineConfig w).2;
  (** The [init] methods return a request with one empty entry. *)
  sc_init_read : forall id w, sc_ready id w ->
    (m_initReadRequest default_ReadRequest w).1 = (read_request_of id default_TableEntry, 0%nat) /\
    kept sc_ready sc_tables id (sc_tables w) (m_initReadRequest default_ReadRequest w).2;
  sc_init_write : forall id ins w, sc_ready id w ->
    (m_initWriteRequest default_WriteRequest ins w).1 =
      (write_request_of id ins default_TableEntry, 0%nat) /\
    kept sc_ready sc_tables id (sc_tables w) (m_initWriteRequest default_WriteRequest ins w).2;
  sc_send_read : forall id w te, sc_ready id w -> reads_one te ->
    kept sc_ready sc_tables id (sc_tables w) (m_sendReadRequest (read_request_of id te) w).2 /\
    match sc_tables w !! te_key te with
    | Some e => (m_sendReadRequest (read_request_of id te) w).1 =
                StatusValue (MkReadResponse [ENTITY_TABLE_ENTRY e])
    | None => is_ok (m_sendReadRequest (read_request_of id te) w).1 = false
    end;
  sc_send_write : forall id w ins te, sc_ready id w ->
    let '(s, w') := m_sendWriteRequest (write_request_of id ins te) w in
    sc_ready id w' /\ (ok s, sc_tables w') = switch_write sc_accepts ins te (sc_tables w);
  sc_cout : forall id s w, sc_ready id w ->
    kept sc_ready sc_tables id (sc_tables w) (m_cout s w).2;
}.

(** ** Weakest preconditions *)

Definition wp {W} `{ClientInterface W} {A} (p : prog A) (Q : A -> W -> Prop) (w : W) : Prop :=
  Q (run p w).1 (run p w).2.

Section WP.
Context {W : Type} `{SwitchClient W}.
Implicit Types (w : W) (id : session_id).

(** [w'] is [w] after calls that did not write. *)
Definition same id w w' : Prop := sc_ready id w' /\ sc_tables w' = sc_tables w.

(** [w'] is [w] after the update of one entry, which succeeded when [s] is OK. *)
Definition wrote id ins te w (s : Status) w' : Prop :=
  sc_ready id w' /\ (ok s, sc_tables w') = switch_write sc_accepts ins te (sc_tables w).

(** [w'] is [w] after reading one entry, which returned [r]. *)
Definition read_result id te w (r : StatusOr ReadResponse) w' : Prop :=
  same id w w' /\
  match sc_tables w !! te_key te with
  | Some e => r = StatusValue (MkReadResponse [ENTITY_TABLE_ENTRY e])
  | None => is_ok r = false
  end.

Lemma wp_ret {A} (a : A) (Q : A -> W -> Prop) w : Q a w -> wp (mret a) Q w.
Proof. done. Qed.

Lemma wp_bind {A B} (p : prog A) (f : A -> prog B) (Q : B -> W -> Prop) w :
  wp p (fun a => wp (f a) Q) w -> wp (p ≫= f) Q w.
Proof. unfold wp. rewrite run_bind. by destruct (run p w). Qed.

Lemma wp_mono {A} (p : prog A) (P Q : A -> W -> Prop) w :
  wp p P w -> (forall a w', P a w' -> Q a w') -> wp p Q w.
Proof. unfold wp. auto. Qed.

(** The specification of a callee, then the rest. *)
Lemma wp_seq {A B} (p : prog A) (f : A -> prog B) (P : A -> W -> Prop) (Q : B -> W -> Prop) w :
  wp p P w -> (forall a w', P a w' -> wp (f a) Q w') -> wp (p ≫= f) Q w.
Proof. intros Hp Hf. apply wp_bind. by eapply wp_mono. Qed.

Lemma wp_if {A} (b : bool) (p q : prog A) (Q : A -> W -> Prop) w :
  (b = true -> wp p Q w) -> (b = false -> wp q Q w) -> wp (if b then p else q) Q w.
Proof. destruct b; auto. Qed.

Lemma same_trans id w1 w2 w3 : same id w1 w2 -> same id w2 w3 -> same id w1 w3.
Proof. unfold same. intros [??] [??]. split; congruence. Qed.

Lemma same_ready id w w' : same id w w' -> sc_ready id w'.
Proof. by intros []. Qed.

Lemma wrote_same id ins te w w0 s w' :
  same id w w0 -> wrote id ins te w0 s w' -> wrote id ins te w s w'.
Proof. unfold same, wrote. by intros [_ ->]. Qed.

Lemma wrote_same_r id ins te w s w' w'' :
  wrote id ins te w s w' -> same id w' w'' -> wrote id ins te w s w''.
Proof. unfold same, wrote. intros [? <-] [? <-]. done. Qed.

Lemma wrote_ready id ins te w s w' : wrote id ins te w s w' -> sc_ready id w'.
Proof. by intros []. Qed.

Lemma read_result_same id te w w0 r w' :
  same id w w0 -> read_result id te w0 r w' -> read_result id te w r w'.
Proof. unfold read_result, same. by intros [_ ->]. Qed.

Lemma read_result_is_ok id te w r w' :
  read_result id te w r w' -> is_ok r = bool_decide (is_Some (sc_tables w !! te_key te)).
Proof.
  intros (_ & Hm). destruct (sc_tables w !! te_key te) as [e|].
  - by rewrite Hm, bool_decide_true by eauto.
  - rewrite Hm, bool_decide_false; [done|]. by intros [? ?].
Qed.

Lemma wp_cout id s w : sc_ready id w -> wp (do_call (cout s)) (fun _ => same id w) w.
Proof.
  intros Hr. pose proof (sc_cout id s w Hr) as Hk. unfold wp; simpl.
  by destruct (m_cout s w).
Qed.

Lemma wp_print_lines id l w : sc_ready id w -> wp (print_lines l) (fun _ => same id w) w.
Proof.
  revert w. induction l as [|s l IH]; intros w Hr; [by apply wp_ret|].
  cbn [print_lines]. eapply wp_seq; [by apply wp_cout|]. intros [] w' Hw'.
  eapply wp_mono; [eapply IH; by eapply same_ready|]. eauto using same_trans.
Qed.

Lemma wp_init_write id ins w :
  sc_ready id w ->
  wp (do_call (initWriteRequest default_WriteRequest ins))
    (fun r w' => r = (write_request_of id ins default_TableEntry, 0%nat) /\ same id w w') w.
Proof.
  intros Hr. pose proof (sc_init_write id ins w Hr) as Hs. unfold wp; simpl.
  by destruct (m_initWriteRequest _ _ w).
Qed.

Lemma wp_init_read id w :
  sc_ready id w ->
  wp (do_call (initReadRequest default_ReadRequest))
    (fun r w' => r = (read_request_of id default_TableEntry, 0%nat) /\ same id w w') w.
Proof.
  intros Hr. pose proof (sc_init_read id w Hr) as Hs. unfold wp; simpl.
  by destruct (m_initReadRequest _ w).
Qed.

Lemma wp_send_write id ins te w :
  sc_ready id w ->
  wp (do_call (sendWriteRequest (write_request_of id ins te))) (wrote id ins te w) w.
Proof.
  intros Hr. pose proof (sc_send_write id w ins te Hr) as Hs.
  unfold wp; simpl. by destruct (m_sendWriteRequest _ w).
Qed.

Lemma wp_send_read id te w :
  sc_ready id w -> reads_one te ->
  wp (do_call (sendReadRequest (read_request_of id te))) (read_result id te w) w.
Proof.
  intros Hr Hone. pose proof (sc_send_read id w te Hr Hone) as Hs.
  unfold wp; simpl. by destruct (m_sendReadRequest _ w).
Qed.

(** *** The skeletons the components share *)

(** A [Write...] function: initialise the request, encode the entry through
    the pointer, send, then do something that does not write (log). *)
Lemma wp_write_entry {D} id ins (enc : TableEntry -> TableEntry * D)
  (after : Status -> D -> prog Status) w :
  (forall s d w, sc_ready id w ->
     wp (after s d) (fun s' w' => s' = s /\ same id w w') w) ->
  sc_ready id w ->
  wp ('(write_request, table_entry) ←
        do_call (initWriteRequest default_WriteRequest ins);
      let '(te, d) := enc (wr_deref write_request table_entry) in
      status ← do_call (sendWriteRequest (wr_store write_request table_entry te));
      after status d)
    (wrote id ins (enc default_TableEntry).1 w) w.
Proof.
  intros Hafter Hr. eapply wp_seq; [by apply wp_init_write|]. intros ? w1 [-> H1]. cbv beta iota.
  change (wr_deref _ _) with default_TableEntry.
  destruct (enc default_TableEntry) as [te d]. cbv beta iota zeta.
  eapply wp_seq; [by apply (wp_send_write id ins te), (same_ready id w)|].
  intros s w2 H2. eapply wp_mono; [by eapply Hafter, wrote_ready|].
  intros ? w3 [-> H3]. eauto using wrote_same, wrote_same_r.
Qed.

Lemma wp_log_if_failed_mac id s ins d mac w :
  sc_ready id w ->
  wp (log_if_failed_mac s ins d mac;; mret s) (fun s' w' => s' = s /\ same id w w') w.
Proof.
  intros Hr. eapply wp_seq.
  - unfold log_if_failed_mac. apply wp_if; intros _; [by apply (wp_cout id)|].
    apply (wp_ret _ (fun _ => same id w)). by split.
  - intros [] w' Hw'. by apply wp_ret.
Qed.

(** A write that logs its failures. *)
Lemma wp_write_logged id ins mac (enc : TableEntry -> TableEntry * DiagDetail) w :
  sc_ready id w ->
  wp ('(write_request, table_entry) ←
        do_call (initWriteRequest default_WriteRequest ins);
      let '(te, detail) := enc (wr_deref write_request table_entry) in
      status ← do_call (sendWriteRequest (wr_store write_request table_entry te));
      log_if_failed_mac status ins detail mac;; mret status)
    (wrote id ins (enc default_TableEntry).1 w) w.
Proof.
  apply (wp_write_entry id ins enc (fun s d => log_if_failed_mac s ins d mac;; mret s)).
  intros. by apply wp_log_if_failed_mac.
Qed.

(** The same when nothing follows the request, and lines are printed first. *)
Lemma wp_print_write_entry id ins (enc : TableEntry -> TableEntry * list string) w :
  sc_ready id w ->
  wp ('(write_request, table_entry) ←
        do_call (initWriteRequest default_WriteRequest ins);
      let '(te, out) := enc (wr_deref write_request table_entry) in
      print_lines out;;
      do_call (sendWriteRequest (wr_store write_request table_entry te)))
    (wrote id ins (enc default_TableEntry).1 w) w.
Proof.
  intros Hr. eapply wp_seq; [by apply wp_init_write|]. intros ? w1 [-> H1]. cbv beta iota.
  change (wr_deref _ _) with default_TableEntry.
  destruct (enc default_TableEntry) as [te out].
  eapply wp_seq; [by apply (wp_print_lines id), (same_ready id w)|].
  intros [] w2 H2. eapply wp_mono; [by apply (wp_send_write id ins te), (same_ready id w1)|].
  intros s w3 H3. eauto using wrote_same, same_trans.
Qed.

Lemma wp_plain_write_entry id ins (enc : TableEntry -> TableEntry) w :
  sc_ready id w ->
  wp ('(write_request, table_entry) ←
        do_call (initWriteRequest default_WriteRequest ins);
      let te := enc (wr_deref write_request table_entry) in
      do_call (sendWriteRequest (wr_store write_request table_entry te)))
    (wrote id ins (enc default_TableEntry) w) w.
Proof.
  intros Hr. eapply wp_seq; [by apply wp_init_write|]. intros ? w1 [-> H1]. cbv beta iota.
  eapply wp_mono; [by apply (wp_send_write id ins), (same_ready id w)|].
  intros s w2 H2. eauto using wrote_same.
Qed.

(** A [Read...] function. *)
Lemma wp_read_entry id (enc : TableEntry -> TableEntry) w :
  sc_ready id w -> reads_one (enc default_TableEntry) ->
  wp ('(read_request, table_entry) ← do_call (initReadRequest default_ReadRequest);
      let te := enc (rr_deref read_request table_entry) in
      do_call (sendReadRequest (rr_store read_request table_entry te)))
    (read_result id (enc default_TableEntry) w) w.
Proof.
  intros Hr Hone. eapply wp_seq; [by apply wp_init_read|]. intros ? w1 [-> H1]. cbv beta iota.
  eapply wp_mono; [by apply (wp_send_read id), Hone; apply (same_ready id w)|].
  intros s w2 H2. eauto using read_result_same.
Qed.

(** An update whose status is dropped, then the rest. *)
Lemma wp_ignore {A} id ins te (p : prog Status) (q : prog A) (Q : A -> W -> Prop) w :
  wp p (wrote id ins te w) w ->
  (forall w', sc_ready id w' ->
     sc_tables w' = (switch_write sc_accepts ins te (sc_tables w)).2 -> wp q Q w') ->
  wp (p;; q) Q w.
Proof.
  intros Hp Hq. eapply wp_seq; [exact Hp|]. intros s w1 [Hr1 Heq]. apply Hq; [done|].
  by rewrite <- Heq.
Qed.

(** Updates in sequence, up to the first that fails: the way the
    [Config...Entry] functions that write several tables call their parts. *)
Definition wrote_seq id ins (tes : list TableEntry) w (s : Status) w' : Prop :=
  sc_ready id w' /\ (ok s, sc_tables w') = switch_writes sc_accepts ins tes (sc_tables w).

Lemma wrote_seq_one id ins te w s w' :
  wrote id ins te w s w' -> wrote_seq id ins [te] w s w'.
Proof.
  intros [Hr Heq]. split; [done|]. cbn [switch_writes]. rewrite <- Heq. by destruct (ok s).
Qed.

Lemma wp_write_then id ins te tes (p q : prog Status) w :
  wp p (wrote id ins te w) w ->
  (forall w', sc_ready id w' -> wp q (wrote_seq id ins tes w') w') ->
  wp (status ← p; if negb (ok status) then mret status else q)
    (wrote_seq id ins (te :: tes) w) w.
Proof.
  intros Hp Hq. eapply wp_seq; [exact Hp|]. intros s w1 [Hr1 Heq1]. apply wp_if.
  - intros Hs%negb_true_iff. apply wp_ret. split; [done|].
    cbn [switch_writes]. rewrite <- Heq1. by rewrite Hs.
  - intros Hs%negb_false_iff. eapply wp_mono; [by apply Hq|]. intros s' w' [Hr' Heq'].
    split; [done|]. cbn [switch_writes]. rewrite <- Heq1. by rewrite Hs.
Qed.

Lemma wp_pipeline id w :
  sc_ready id w ->
  wp (do_call getPipelineConfig) (fun r w' => r = (OkStatus, sc_p4info) /\ same id w w') w.
Proof.
  intros Hr. pose proof (sc_pipeline id w Hr) as Hc. unfold wp; simpl.
  by destruct (m_getPipelineConfig w).
Qed.

(** Whether [connect] succeeds here. *)
Definition connects addr w : bool := ok (m_connect addr w).1.

Lemma wp_connect addr w :
  wp (do_call (connect addr))
    (fun s w' => ok s = connects addr w /\ sc_tables w' = sc_tables w /\
                 (ok s = true -> exists id, sc_ready id w')) w.
Proof.
  pose proof (sc_connect addr w) as Hc. unfold wp, connects; simpl.
  by destruct (m_connect addr w).
Qed.

(** The prologue of every [DoConfig...] function: connect, fetch the P4Info,
    hand over to [f]. Either the session cannot be established, and the tables
    are untouched, or [f] runs with the server's P4Info. *)
Lemma wp_session addr (f : P4Info -> prog Status) (Q : Status -> W -> Prop) w :
  (forall s w', connects addr w = false -> ok s = false -> sc_tables w' = sc_tables w -> Q s w') ->
  (forall id w', connects addr w = true -> sc_ready id w' -> sc_tables w' = sc_tables w ->
     wp (f sc_p4info) Q w') ->
  wp (status ← do_call (connect addr);
      if negb (ok status) then mret status else
      '(status, p4info) ← do_call getPipelineConfig;
      if negb (ok status) then mret status else f p4info) Q w.
Proof.
  intros Herr Hf. eapply wp_seq; [apply wp_connect|]. intros s w1 (Hs1 & HT1 & Hr1).
  rewrite <- Hs1 in *. apply wp_if.
  - intros Hs%negb_true_iff. apply wp_ret. by apply Herr.
  - intros Hs%negb_false_iff. destruct (Hr1 Hs) as [id Hr].
    eapply wp_seq; [by apply (wp_pipeline id)|]. intros ? w2 [-> [Hr2 HT2]].
    apply (Hf id); [done|done|congruence].
Qed.
End WP.

(** ** The store: lemmas *)

Section Store.
Variable accepts : TableEntry -> bool.
Implicit Types (T : tables) (te : TableEntry).

Lemma switch_write_insert_ok te T :
  accepts te = true -> T !! te_key te = None ->
  switch_write accepts true te T = (true, <[te_key te := te]> T).
Proof. intros Ha HT. unfold switch_write. by rewrite Ha, bool_decide_true. Qed.

Lemma switch_write_insert_exists te T e :
  T !! te_key te = Some e -> switch_write accepts true te T = (false, T).
Proof.
  intros HT. unfold switch_write. rewrite bool_decide_false by congruence.
  by rewrite andb_false_r.
Qed.

Lemma switch_write_delete_ok te T e :
  T !! te_key te = Some e -> switch_write accepts false te T = (true, delete (te_key te) T).
Proof. intros HT. unfold switch_write. by rewrite bool_decide_true by eauto. Qed.

Lemma switch_write_delete_missing te T :
  T !! te_key te = None -> switch_write accepts false te T = (false, T).
Proof.
  intros HT. unfold switch_write. rewrite bool_decide_false; [done|].
  rewrite HT. by intros [? ?].
Qed.

Lemma switch_write_insert_inv te T T' :
  switch_write accepts true te T = (true, T') ->
  accepts te = true /\ T !! te_key te = None /\ T' = <[te_key te := te]> T.
Proof.
  unfold switch_write. case_match eqn:Hc; intros; simplify_eq.
  by apply andb_true_iff in Hc as [? ?%bool_decide_eq_true].
Qed.

(** A write only touches its own key. *)
Lemma switch_write_other ins te T k :
  k <> te_key te -> (switch_write accepts ins te T).2 !! k = T !! k.
Proof.
  intros Hk. unfold switch_write. destruct ins; case_match; simpl; auto.
  - by rewrite lookup_insert_ne.
  - by rewrite lookup_delete_ne.
Qed.

(** A write depends on the entry it deletes only through its key. *)
Lemma switch_write_delete_key te te' T :
  te_key te = te_key te' -> switch_write accepts false te T = switch_write accepts false te' T.
Proof. intros Hk. unfold switch_write. by rewrite Hk. Qed.

Lemma switch_writes_insert tes T :
  Forall (fun te => accepts te = true /\ T !! te_key te = None) tes ->
  NoDup (te_key <$> tes) ->
  switch_writes accepts true tes T =
  (true, foldl (fun T te => <[te_key te := te]> T) T tes).
Proof.
  revert T. induction tes as [|te tes IH]; intros T Hall Hnd; [done|].
  inversion Hall as [|? ? [Ha HT] Hall']; subst. inversion Hnd as [|? ? Hni Hnd']; subst.
  cbn [switch_writes]. rewrite switch_write_insert_ok by done. apply IH; [|done].
  apply list.Forall_forall. intros te' Hte'.
  rewrite list.Forall_forall in Hall'. destruct (Hall' te' Hte') as [Ha' HT'].
  split; [done|]. rewrite lookup_insert_ne; [done|]. intros Heq. apply Hni.
  rewrite Heq. by apply list_elem_of_fmap_2.
Qed.

Lemma foldl_insert_lookup_other tes T k :
  k ∉ te_key <$> tes ->
  foldl (fun T te => <[te_key te := te]> T) T tes !! k = T !! k.
Proof.
  revert T. induction tes as [|te tes IH]; intros T Hk; [done|]. simpl.
  rewrite fmap_cons in Hk. apply not_elem_of_cons in Hk as [Hk1 Hk2].
  rewrite IH by done. by rewrite lookup_insert_ne.
Qed.

(** A sequence of insertions leaves the other entries alone, and does not need
    them. *)
Lemma switch_writes_insert_frame tes T0 T1 k e :
  switch_writes accepts true tes T0 = (true, T1) -> T0 !! k = Some e ->
  T1 !! k = Some e /\ switch_writes accepts true tes (delete k T0) = (true, delete k T1).
Proof.
  revert T0 T1. induction tes as [|te tes IH]; intros T0 T1 Hw Hk; simpl in Hw |- *.
  { by injection Hw as <-. }
  destruct (switch_write accepts true te T0) as [b T0'] eqn:Hw'. destruct b; [|done].
  apply switch_write_insert_inv in Hw' as (Ha & Hn & ->).
  assert (te_key te <> k) by congruence.
  rewrite switch_write_insert_ok by (done || by rewrite lookup_delete_ne).
  rewrite <- delete_insert_ne by done. apply IH; [done|]. by rewrite lookup_insert_ne.
Qed.

(** After successful insertions their entries are there. *)
Lemma switch_writes_insert_present tes T T1 te :
  switch_writes accepts true tes T = (true, T1) -> te ∈ tes ->
  T !! te_key te = None /\ T1 !! te_key te = Some te.
Proof.
  revert T. induction tes as [|te' tes IH]; intros T Hw Hin; [by apply not_elem_of_nil in Hin|].
  cbn [switch_writes] in Hw.
  destruct (switch_write accepts true te' T) as [b T'] eqn:Hw'. destruct b; [|done].
  apply switch_write_insert_inv in Hw' as (_ & Hn & ->).
  apply elem_of_cons in Hin as [->|Hin].
  - split; [done|]. eapply switch_writes_insert_frame; [exact Hw|]. apply lookup_insert_eq.
  - destruct (IH _ Hw Hin) as [Hn' Hs]. split; [|done].
    apply lookup_insert_None in Hn'. apply Hn'.
Qed.

(** Deleting, in the same order and by key, the entries that were inserted
    gives back the original store. *)
Lemma switch_writes_insert_delete tes tes' T T1 :
  switch_writes accepts true tes T = (true, T1) ->
  (te_key <$> tes') = (te_key <$> tes) ->
  switch_writes accepts false tes' T1 = (true, T).
Proof.
  revert tes' T T1. induction tes as [|te tes IH]; intros [|te' tes'] T T1 Hins Hkeys;
    try discriminate.
  { by injection Hins as ->. }
  rewrite !fmap_cons in Hkeys. apply (inj2 cons) in Hkeys as [Hkey Hkeys].
  cbn [switch_writes] in Hins |- *.
  destruct (switch_write accepts true te T) as [b T0] eqn:Hw. destruct b; [|done].
  apply switch_write_insert_inv in Hw as (_ & Hn & ->).
  destruct (switch_writes_insert_frame _ _ _ (te_key te) te Hins) as [Hk Hrest];
    [by rewrite lookup_insert_eq|].
  rewrite delete_insert_id in Hrest by done.
  rewrite (switch_write_delete_ok te' T1 te) by congruence.
  apply IH; congruence.
Qed.

Lemma switch_writes_all_ok ins tes T T1 :
  switch_writes accepts ins tes T = (true, T1) -> switch_writes_all accepts ins tes T = T1.
Proof.
  revert T. induction tes as [|te tes IH]; intros T Hw; simplify_eq/=; [done|].
  destruct (switch_write accepts ins te T) as [b T'] eqn:Hw'. destruct b; [|done].
  by apply IH.
Qed.

Lemma switch_writes_app ins tes1 tes2 T :
  switch_writes accepts ins (tes1 ++ tes2) T =
  let '(b, T') := switch_writes accepts ins tes1 T in
  if b then switch_writes accepts ins tes2 T' else (false, T').
Proof.
  revert T. induction tes1 as [|te tes IH]; intros T; simpl.
  { by destruct (switch_writes _ _ tes2 T). }
  destruct (switch_write accepts ins te T) as [[] T']; [apply IH|done].
Qed.

(** An entry whose key none of the updates has is not touched. *)
Lemma switch_writes_all_other ins tes T k :
  k ∉ te_key <$> tes -> switch_writes_all accepts ins tes T !! k = T !! k.
Proof.
  revert T. induction tes as [|te tes IH]; intros T Hk; [done|]. simpl.
  rewrite fmap_cons in Hk. apply not_elem_of_cons in Hk as [Hk1 Hk2].
  rewrite IH by done. by apply switch_write_other.
Qed.
End Store.

(** ** Operations that write a sequence of tables *)

Section Operations.
Context {W : Type} `{SwitchClient W}.

(** The contract of the [DoConfig...] functions that only write: when the
    session is established, the outcome is that of the updates [tes], in order,
    up to the first that fails; when it is not, nothing happens. *)
Definition operation_result addr (ins : bool) (tes : list TableEntry) (w : W) (s : Status)
  (w' : W) : Prop :=
  if connects addr w then
    (ok s, sc_tables w') = switch_writes sc_accepts ins tes (sc_tables w)
  else ok s = false /\ sc_tables w' = sc_tables w.

Lemma wp_operation addr (f : P4Info -> prog Status) ins tes (w : W) :
  (forall id w, sc_ready id w -> wp (f sc_p4info) (wrote_seq id ins tes w) w) ->
  wp (status ← do_call (connect addr);
      if negb (ok status) then mret status else
      '(status, p4info) ← do_call getPipelineConfig;
      if negb (ok status) then mret status else f p4info)
    (operation_result addr ins tes w) w.
Proof.
  intros Hf. unfold operation_result. apply wp_session.
  - intros s w' Hc Hs HT. by rewrite Hc.
  - intros id w1 Hc Hr HT. eapply wp_mono; [by apply (Hf id)|]. intros s w' [_ Heq].
    by rewrite Hc, <- HT.
Qed.

(** Inserting and deleting again: when the first call succeeds, so does the
    second, and the tables are back, provided it connects. *)
Definition undone addr (p : bool -> prog Status) (w : W) : Prop :=
  let '(s1, w1) := run (p true) w in
  let '(s2, w2) := run (p false) w1 in
  ok s1 = true -> connects addr w1 = true -> ok s2 = true /\ sc_tables w2 = sc_tables w.

Lemma operation_undone addr (p : bool -> prog Status) (tes : bool -> list TableEntry) (w : W) :
  (forall ins w, wp (p ins) (operation_result addr ins (tes ins) w) w) ->
  te_key <$> tes false = te_key <$> tes true ->
  undone addr p w.
Proof.
  intros Hp Hk. unfold undone, wp, operation_result in *.
  pose proof (Hp true w) as H1. destruct (run (p true) w) as [s1 w1].
  pose proof (Hp false w1) as H2. destruct (run (p false) w1) as [s2 w2]. simpl in *.
  intros Hs1 Hc. rewrite Hc, Hs1 in *. destruct (connects addr w); [|by destruct H1].
  symmetry in H1. pose proof (switch_writes_insert_delete _ _ _ _ _ H1 Hk) as H3.
  rewrite H3 in H2. by injection H2.
Qed.
End Operations.
