(* ===== verification/Server.v ===== *)
(** * The client over a server: [Client] implements the switch interface

    [P4RuntimeServer] states what the sidecar relies on in the server behind
    the stub (P4Runtime specification): a client that got an arbitration
    update with status OK for its device is the primary; a primary's reads and
    writes act on the tables; the stream and the pipeline query do not. One law
    is of the deployment: no other controller outranks the sidecar. Under these laws the
    [Client] of [client/], over the session code of [session/], satisfies
    [SwitchClient]. [RefServer] is a concrete server that has the laws. *)

From stdpp Require Import gmap.
From S2P Require Import Prelude P4Runtime Client Session ClientImpl Switch.

Class P4RuntimeServer (S : Type) `{P4RuntimeStub S} := {
  srv_tables : S -> tables;
  srv_p4info : P4Info;
  srv_accepts : TableEntry -> bool;
  srv_primary : Z -> Uint128 -> S -> Prop;
  srv_channel : forall c a s, srv_tables (stub_StreamChannel c a s) = srv_tables s;
  srv_stream_write : forall arb s, srv_tables (stub_StreamWrite arb s).2 = srv_tables s;
  srv_stream_read : forall s, srv_tables (stub_StreamRead s).2 = srv_tables s;
  srv_stream_finish : forall s, srv_tables (stub_StreamFinish s).2 = srv_tables s;
  srv_arbitration : forall d r c e a s s1 s2,
    stub_StreamWrite (MkArbitration d r c (Some e) 0) s = (true, s1) ->
    stub_StreamRead s1 = (Some (kArbitration a), s2) -> arb_device_id a = d ->
    arb_status a = 0 -> srv_primary d e s2;
  (** Of the deployment, not of the protocol: no other controller of the role
      has a higher election id. The code relies on it, since it does not look
      at the status ([Session.Create_ok_iff]). *)
  srv_outranks : forall d r c e a s s1 s2,
    stub_StreamWrite (MkArbitration d r c (Some e) 0) s = (true, s1) ->
    stub_StreamRead s1 = (Some (kArbitration a), s2) -> arb_status a = 0;
  srv_pipeline : forall d e s, srv_primary d e s ->
    (stub_GetForwardingPipelineConfig d s).1.2 = srv_p4info /\
    srv_primary d e (stub_GetForwardingPipelineConfig d s).2 /\
    srv_tables (stub_GetForwardingPipelineConfig d s).2 = srv_tables s;
  (** A read that names one entry is an error when there is none: the code
      documents and uses it so ([core/v3/es2k_config_fdb_entry.cc]: a read
      that is OK means that the entry already exists). *)
  srv_read : forall d e s te, srv_primary d e s -> reads_one te ->
    let '((partials, status), s') := stub_Read (MkReadRequest d [ENTITY_TABLE_ENTRY te]) s in
    srv_primary d e s' /\ srv_tables s' = srv_tables s /\
    match srv_tables s !! te_key te with
    | Some entry =>
        partials ≫= rsp_entities = [ENTITY_TABLE_ENTRY entry] /\ error_code status = 0
    | None => error_code status <> 0
    end;
  srv_write : forall d e s ins te, srv_primary d e s ->
    let '(status, s') :=
      stub_Write (MkWriteRequest d (Some e) [MkUpdate (update_type ins) (ENTITY_TABLE_ENTRY te)]) s in
    srv_primary d e s' /\
    (error_code status =? 0, srv_tables s') = switch_write srv_accepts ins te (srv_tables s);
}.

Section Refinement.
Context {S : Type} `{P4RuntimeServer S}.

Lemma Create_keeps_tables env d r e (s : S) :
  srv_tables (Create env d r e s).2 = srv_tables s.
Proof.
  unfold Create. repeat first [case_match | progress simplify_eq/=]; try done.
  all: repeat match goal with
    | Heq : stub_StreamWrite ?a ?s = (_, ?s') |- _ =>
        pose proof (srv_stream_write a s); rewrite Heq in *; clear Heq; simpl in *
    | Heq : stub_StreamRead ?s = (_, ?s') |- _ =>
        pose proof (srv_stream_read s); rewrite Heq in *; clear Heq; simpl in *
    | Heq : stub_StreamFinish ?s = (_, ?s') |- _ =>
        pose proof (srv_stream_finish s); rewrite Heq in *; clear Heq; simpl in *
    end; congruence.
Qed.

Lemma Create_primary env d r e (s : S) session s' :
  Create env d r e s = (StatusValue session, s') ->
  device_id_ session = d /\ srv_primary d (election_id_ session) s'.
Proof.
  unfold Create. repeat first [case_match | progress simplify_eq/=]; intros; simplify_eq/=.
  all: repeat match goal with
    | Hb : negb _ = false |- _ => apply negb_false_iff in Hb; subst
    | Hb : (_ =? _) = true |- _ => apply Z.eqb_eq in Hb
    end.
  all: split; [done|]; by eauto using srv_arbitration, srv_outranks.
Qed.
(** ** Client implements SwitchClient *)

Definition client_ready (id : session_id) (w : ClientState S) : Prop :=
  exists session, session_ w = Some session /\
    id = (device_id_ session, Some (election_id_ session)) /\
    srv_primary (device_id_ session) (election_id_ session) (cl_server w).

Definition client_tables (w : ClientState S) : tables := srv_tables (cl_server w).

Lemma Client_connect_spec a (w : ClientState S) :
  client_tables (Client_connect a w).2 = client_tables w /\
  (ok (Client_connect a w).1 = true -> exists id, client_ready id (Client_connect a w).2).
Proof.
  unfold Client_connect, Create_address, client_tables.
  destruct (GenerateClientCredentials _) as [cred out].
  set (d := w32 _). set (e := w128 _). set (r := FLAGS_role_name _).
  pose proof (Create_keeps_tables (cl_env w) d r e (stub_StreamChannel cred a (cl_server w))) as HT.
  destruct (Create _ d r e _) as [[session|er] s] eqn:Hc; simpl in *;
    rewrite srv_channel in HT; (split; [done|]); [|done].
  intros _. apply Create_primary in Hc as [Hd Hp].
  exists (device_id_ session, Some (election_id_ session)), session. by rewrite Hd.
Qed.

Lemma Client_pipeline_spec id (w : ClientState S) :
  client_ready id w ->
  (Client_getPipelineConfig w).1 = (OkStatus, srv_p4info) /\
  kept client_ready client_tables id (client_tables w) (Client_getPipelineConfig w).2.
Proof.
  intros (ses & Hs & -> & Hp).
  destruct (srv_pipeline _ _ _ Hp) as (Hi & Hp' & HT).
  unfold Client_getPipelineConfig, with_session, GetForwardingPipelineConfig, DeviceId.
  rewrite Hs. destruct (stub_GetForwardingPipelineConfig _ _) as [[st i] s]; simpl in *; subst.
  split; [done|]. split; [|done]. by exists ses.
Qed.

Lemma Client_init_spec {A} id (w : ClientState S) (dflt : A) (f : OvsP4rtSession -> A) :
  client_ready id w ->
  exists ses, id = (device_id_ ses, Some (election_id_ ses)) /\
    (with_session w dflt (fun ses s => (f ses, s))).1 = f ses /\
    kept client_ready client_tables id (client_tables w)
      (with_session w dflt (fun ses s => (f ses, s))).2.
Proof.
  intros (ses & Hs & -> & Hp). exists ses. unfold with_session. rewrite Hs.
  split; [done|]. split; [done|]. split; [|done]. by exists ses.
Qed.

Lemma Client_send_read_spec id (w : ClientState S) te :
  client_ready id w -> reads_one te ->
  kept client_ready client_tables id (client_tables w)
    (DoSendReadRequest (read_request_of id te) w).2 /\
  match client_tables w !! te_key te with
  | Some e => (DoSendReadRequest (read_request_of id te) w).1 =
              StatusValue (MkReadResponse [ENTITY_TABLE_ENTRY e])
  | None => is_ok (DoSendReadRequest (read_request_of id te) w).1 = false
  end.
Proof.
  intros (ses & Hs & -> & Hp) Hone. pose proof (srv_read _ _ _ te Hp Hone) as Hr.
  unfold DoSendReadRequest, with_session, SendReadRequest, client_tables.
  rewrite Hs. unfold read_request_of; simpl.
  destruct (stub_Read _ _) as [[ps st] s]. destruct Hr as (Hp' & HT & Hm).
  rewrite MergeFrom_concat. simpl. pose proof (ok_GrpcStatus st) as Hok.
  destruct (srv_tables (cl_server w) !! te_key te) as [e|].
  - destruct Hm as [-> Hst]. rewrite Hst in Hok.
    destruct (GrpcStatusToAbslStatus st); [|done].
    split; [|done]. split; [|done]. by exists ses.
  - apply Z.eqb_neq in Hm. rewrite Hm in Hok.
    destruct (GrpcStatusToAbslStatus st); [done|].
    split; [|done]. split; [|done]. by exists ses.
Qed.

Lemma Client_send_write_spec id (w : ClientState S) ins te :
  client_ready id w ->
  let '(s, w') := DoSendWriteRequest (write_request_of id ins te) w in
  client_ready id w' /\ (ok s, client_tables w') = switch_write srv_accepts ins te (client_tables w).
Proof.
  intros (ses & Hs & -> & Hp). pose proof (srv_write _ _ _ ins te Hp) as Hw.
  unfold DoSendWriteRequest, with_session, SendWriteRequest, client_tables.
  rewrite Hs. unfold write_request_of; simpl.
  destruct (stub_Write _ _) as [st s]. destruct Hw as (Hp' & Heq).
  rewrite <- Heq, ok_GrpcStatus. split; [|done]. by exists ses.
Qed.

#[export] Program Instance Client_SwitchClient : SwitchClient (ClientState S) := {|
  sc_ready := client_ready;
  sc_tables := client_tables;
  sc_p4info := srv_p4info;
  sc_accepts := srv_accepts;
  sc_connect := Client_connect_spec;
  sc_pipeline := Client_pipeline_spec;
  sc_send_read := Client_send_read_spec;
  sc_send_write := Client_send_write_spec;
|}.
Next Obligation.
  intros id w Hr. destruct (Client_init_spec id w (default_ReadRequest, 0%nat)
    (fun ses => SetupTableEntryToRead ses default_ReadRequest) Hr) as (ses & -> & H1 & H2).
  done.
Qed.
Next Obligation.
  intros id ins w Hr. destruct ins.
  - destruct (Client_init_spec id w (default_WriteRequest, 0%nat)
      (fun ses => SetupTableEntryToInsert ses default_WriteRequest) Hr) as (ses & -> & H1 & H2).
    done.
  - destruct (Client_init_spec id w (default_WriteRequest, 0%nat)
      (fun ses => SetupTableEntryToDelete ses default_WriteRequest) Hr) as (ses & -> & H1 & H2).
    done.
Qed.
Next Obligation.
  intros id s w (ses & Hs & -> & Hp). split; [|done]. by exists ses.
Qed.
End Refinement.

(** ** A reference server *)

(** One device, [1]; the tables; the primary's election id, and an arbitration
    to answer. The type carries the pipeline and its validation. A MODIFY
    replaces an entry that exists. *)
Record RefServer (p4info : P4Info) (accepts : TableEntry -> bool) := MkRefServer {
  rs_tables : tables;
  rs_primary : option Uint128;
  rs_pending : option Arbitration;
}.
Arguments MkRefServer {_ _} _ _ _.
Arguments rs_tables {_ _} _.
Arguments rs_primary {_ _} _.
Arguments rs_pending {_ _} _.

#[export] Instance Uint128_eq_dec : EqDecision Uint128.
Proof. solve_decision. Defined.

Definition grpc_OK : grpc_Status := MkGrpcStatus 0 "".
Definition grpc_NOT_FOUND : grpc_Status := MkGrpcStatus 5 "not found".
Definition grpc_REJECTED : grpc_Status := MkGrpcStatus 2 "rejected".
Definition grpc_PERMISSION_DENIED : grpc_Status := MkGrpcStatus 7 "not primary".

Section RefServer.
Context {p4info : P4Info} {accepts : TableEntry -> bool}.
Abbreviation S := (RefServer p4info accepts).

Definition ref_read_entity (T : tables) (e : Entity) : option TableEntry :=
  match e with
  | ENTITY_TABLE_ENTRY te => T !! te_key te
  | ENTITY_OTHER => None
  end.

(** All the entities named must exist; one partial response each. *)
Definition ref_read (req : ReadRequest) (s : S) : (list ReadResponse * grpc_Status) * S :=
  match mapM (ref_read_entity (rs_tables s)) (rr_entities req) with
  | Some tes => ((map (fun te => MkReadResponse [ENTITY_TABLE_ENTRY te]) tes, grpc_OK), s)
  | None => (([], grpc_NOT_FOUND), s)
  end.

Definition ref_update (u : Update) (T : tables) : bool * tables :=
  match u_entity u with
  | ENTITY_OTHER => (false, T)
  | ENTITY_TABLE_ENTRY te =>
      match u_type u with
      | UPDATE_INSERT => switch_write accepts true te T
      | UPDATE_DELETE => switch_write accepts false te T
      | UPDATE_MODIFY =>
          if accepts te && bool_decide (is_Some (T !! te_key te))
          then (true, <[te_key te := te]> T) else (false, T)
      | UPDATE_UNSPECIFIED => (false, T)
      end
  end.

Fixpoint ref_updates (us : list Update) (T : tables) : bool * tables :=
  match us with
  | [] => (true, T)
  | u :: us =>
      let '(b, T) := ref_update u T in
      if b then ref_updates us T else (false, T)
  end.

Definition ref_write (req : WriteRequest) (s : S) : grpc_Status * S :=
  if negb (bool_decide (wr_election_id req = rs_primary s)) || negb (wr_device_id req =? 1)
  then (grpc_PERMISSION_DENIED, s)
  else
    let '(b, T) := ref_updates (wr_updates req) (rs_tables s) in
    (if b then grpc_OK else grpc_REJECTED, MkRefServer T (rs_primary s) (rs_pending s)).

(** The server refuses requests for another device, and answers a request
    that carries an election id by making its client the primary. *)
Definition ref_stream_write (a : Arbitration) (s : S) : bool * S :=
  if (arb_device_id a =? 1) && bool_decide (is_Some (arb_election_id a))
  then (true, MkRefServer (rs_tables s) (arb_election_id a) (Some a))
  else (false, s).

Definition ref_stream_read (s : S) : option StreamMessageResponse * S :=
  match rs_pending s with
  | Some a => (Some (kArbitration a), MkRefServer (rs_tables s) (rs_primary s) None)
  | None => (None, s)
  end.

#[export] Instance RefStub : P4RuntimeStub S := {|
  stub_StreamChannel _ _ s := s;
  stub_StreamWrite := ref_stream_write;
  stub_StreamRead := ref_stream_read;
  stub_StreamFinish s := (grpc_OK, s);
  stub_GetForwardingPipelineConfig _ s := ((grpc_OK, p4info), s);
  stub_Read := ref_read;
  stub_Write := ref_write;
|}.

#[export] Program Instance RefServer_laws : P4RuntimeServer S := {|
  srv_tables := rs_tables;
  srv_p4info := p4info;
  srv_accepts := accepts;
  srv_primary d e s := d = 1 /\ rs_primary s = Some e;
|}.
Next Obligation. done. Qed.
Next Obligation. intros a s. simpl. unfold ref_stream_write. by case_match. Qed.
Next Obligation. intros s. simpl. unfold ref_stream_read. by case_match. Qed.
Next Obligation. done. Qed.
Next Obligation.
  intros d r c e a s s1 s2. simpl. unfold ref_stream_write, ref_stream_read; simpl.
  intros Hw. case_match eqn:Hc; simplify_eq/=. intros; simplify_eq/=.
  apply andb_true_iff in Hc as [Hd%Z.eqb_eq _]. done.
Qed.
Next Obligation.
  intros d r c e a s s1 s2. simpl. unfold ref_stream_write, ref_stream_read; simpl.
  intros Hw. case_match; by simplify_eq/=; intros; simplify_eq/=.
Qed.
Next Obligation. done. Qed.
Next Obligation.
  intros d e s te [-> Hp] Hone. simpl. unfold ref_read; simpl.
  by destruct (rs_tables s !! te_key te) eqn:HT; simpl; rewrite ?HT.
Qed.
Next Obligation.
  intros d e s ins te [-> Hp]. simpl. unfold ref_write; simpl.
  rewrite bool_decide_true by done. simpl. rewrite Hp.
  destruct (ref_update _ _) as [b T] eqn:Hu. unfold ref_update in Hu.
  by destruct ins, b; simpl in Hu; rewrite Hu.
Qed.
End RefServer.

(** A client in session with a reference server that holds [T]. *)
Section RefWorld.
Context (p4info : P4Info) (accepts : TableEntry -> bool).

Definition ref_session : OvsP4rtSession := MkSession 1 (MkUint128 1700000000 42) "".

Definition ref_id : session_id := (1, Some (MkUint128 1700000000 42)).

Definition ref_world (T : tables) : ClientState (RefServer p4info accepts) :=
  MkClient (Some ref_session) (MkRefServer T (Some (election_id_ ref_session)) None)
    (default_Env 1700000000 42 None) [] false.

Lemma ref_world_ready T : sc_ready ref_id (ref_world T).
Proof. by exists ref_session. Qed.

(** A new client of that server. *)
Definition ref_client (T : tables) : ClientState (RefServer p4info accepts) :=
  new_Client (default_Env 1700000000 42 None) (MkRefServer T None None).
End RefWorld.

#[export] Hint Resolve ref_world_ready : core.
