(* ===== verification/TxAccVsi.v ===== *)
(** * TX_ACC_VSI lookup ([core/v3/tx_acc_vsi_table_entry.cc])

    The source port of an FDB or source-port entry is not the one the caller
    passes: it is the [port] parameter of the action the user configured for
    that VSI in the TX_ACC_VSI table, fetched from the server. *)

From stdpp Require Import gmap.
From S2P Require Import Prelude P4Runtime EncodeUtils P4InfoUtils Es2kNames Es2kEncoders.
From S2P Require Import Client Pipelines Session ClientImpl Switch Server.

Definition ReadTxAccVsiTableEntry (sp : Z) (p4info : P4Info)
  : prog (StatusOr ReadResponse) :=
  '(read_request, table_entry) ← do_call (initReadRequest default_ReadRequest);
  let te := EncodeTxAccVsiTableEntry (rr_deref read_request table_entry) sp p4info in
  let read_request := rr_store read_request table_entry te in
  do_call (sendReadRequest read_request).

(** [for (i...) host_sp = ((host_sp << 8) | (val[i] & 0xff))]: [host_sp] is a
    [uint32_t], [val[i]] a signed [char]. *)
Definition decode_port_value (val : bytes) : Z :=
  fold_left (fun host_sp c => w32 (host_sp <<. 8) .| (s8 c .& 255)) val 0.

(** The inner loop: the first parameter with that id. [param_id] is an [int]
    compared with a [uint32_t]. *)
Fixpoint find_port_param (param_id : Z) (params : list Param) : option Z :=
  match params with
  | [] => None
  | param :: params =>
      if p_param_id param =? w32 param_id then Some (decode_port_value (p_value param))
      else find_port_param param_id params
  end.

Fixpoint find_port_entity (param_id : Z) (entities : list Entity) : option Z :=
  match entities with
  | [] => None
  | entity :: entities =>
      let table_entry := entity_table_entry entity in
      match find_port_param param_id (a_params (te_action_or_default table_entry)) with
      | Some host_sp => Some host_sp
      | None => find_port_entity param_id entities
      end
  end.

Definition GetTxAccVsiPort (p4info : P4Info) (src_port : Z) : prog (StatusOr Z) :=
  response_or_status ← ReadTxAccVsiTableEntry src_port p4info;
  match response_or_status with
  | StatusError e => mret (StatusError e)
  | StatusValue read_response =>
      let param_id :=
        GetParamId p4info TX_ACC_VSI_TABLE_ACTION_L2_FWD_AND_BYPASS_BRIDGE
          ACTION_L2_FWD_AND_BYPASS_BRIDGE_PARAM_PORT in
      match find_port_entity param_id (rsp_entities read_response) with
      | Some host_sp => mret (StatusValue host_sp)
      | None => mret (StatusError (InternalError "Missing port parameter"))
      end
  end.

(** ** Lemmas *)

Lemma Z_bits_byte c n : is_byte c -> 8 <= n -> Z.testbit c n = false.
Proof.
  unfold is_byte. intros Hc Hn. destruct (decide (c = 0)) as [->|]; [apply Z.bits_0|].
  apply Z.bits_above_log2; [lia|].
  assert (Z.log2 c < 8); [|lia]. apply Z.log2_lt_pow2; lia.
Qed.

Lemma port_step acc c :
  0 <= acc < 4294967296 -> is_byte c ->
  w32 (acc <<. 8) .| (s8 c .& 255) = (acc * 256 + c) mod 4294967296.
Proof.
  intros Hacc Hc. replace (s8 c .& 255) with c by machine_int.
  assert (Hland : Z.land (w32 (acc <<. 8)) c = 0).
  { apply Z.bits_inj'. intros n Hn. rewrite Z.land_spec, Z.bits_0. unfold w32.
    destruct (decide (n < 8)) as [Hlt|Hge].
    - change 4294967296 with (2 ^ 32).
      rewrite Z.mod_pow2_bits_low, Z.shiftl_spec_low by lia. done.
    - rewrite (Z_bits_byte c n) by (done || lia). by rewrite andb_false_r. }
  pose proof (Z.add_lor_land (w32 (acc <<. 8)) c) as Hadd.
  rewrite Hland, Z.add_0_r in Hadd. rewrite Hadd.
  unfold is_byte in *. machine_int.
Qed.

Lemma decode_port_acc val acc :
  Forall is_byte val -> 0 <= acc < 4294967296 ->
  fold_left (fun host_sp c => w32 (host_sp <<. 8) .| (s8 c .& 255)) val acc
  = be_acc acc val mod 4294967296.
Proof.
  intros Hval. revert acc. induction Hval as [|c val Hc _ IH]; intros acc Hacc; simpl.
  { by rewrite Z.mod_small. }
  rewrite port_step by done. rewrite IH by (apply Z.mod_pos_bound; lia).
  rewrite !(be_acc_val _ val).
  rewrite Z.add_mod, (Z.mul_mod ((_ * 256 + c) mod _)), Z.mod_mod by lia.
  rewrite <- Z.mul_mod, <- Z.add_mod by lia. done.
Qed.

(** The loop computes the 32-bit value of the byte string. *)
Lemma decode_port_value_be val :
  Forall is_byte val -> decode_port_value val = be_val val mod 4294967296.
Proof. intros H. by apply decode_port_acc. Qed.

(** ** Specification *)

Definition tx_acc_vsi_entry (p4info : P4Info) (sp : Z) : TableEntry :=
  EncodeTxAccVsiTableEntry default_TableEntry sp p4info.

Definition port_param_id (p4info : P4Info) : Z :=
  GetParamId p4info TX_ACC_VSI_TABLE_ACTION_L2_FWD_AND_BYPASS_BRIDGE
    ACTION_L2_FWD_AND_BYPASS_BRIDGE_PARAM_PORT.

(** The port configured in the table for the VSI of port [sp]: the number the
    first of the action's parameters with the id of [port] denotes, modulo
    2^32. *)
Definition lookup_port (p4info : P4Info) (sp : Z) (T : tables) : option Z :=
  e ← T !! te_key (tx_acc_vsi_entry p4info sp);
  param ← head (filter (fun p => p_param_id p = w32 (port_param_id p4info))
                  (a_params (te_action_or_default e)));
  Some (be_val (w8 <$> p_value param) mod 2 ^ 32).

Lemma decode_port_value_w8 val : decode_port_value val = decode_port_value (w8 <$> val).
Proof.
  unfold decode_port_value. generalize 0. induction val as [|c val IH]; intros acc; [done|].
  simpl. rewrite IH. do 3 f_equal. unfold s8. machine_int.
Qed.

(** The two loops find that parameter. *)
Lemma find_port_param_spec param_id params :
  find_port_param param_id params =
  param ← head (filter (fun p => p_param_id p = w32 param_id) params);
  Some (be_val (w8 <$> p_value param) mod 2 ^ 32).
Proof.
  induction params as [|p params IH]; [done|]. simpl. rewrite list.filter_cons.
  destruct (Z.eqb_spec (p_param_id p) (w32 param_id)) as [E|E].
  - rewrite decide_True by done. simpl. f_equal.
    rewrite decode_port_value_w8, decode_port_value_be; [done|].
    apply Forall_fmap, Forall_true. intros c. apply w8_range.
  - by rewrite decide_False.
Qed.

Lemma tx_acc_vsi_reads_one p4info sp :
  wf_P4Info p4info -> reads_one (tx_acc_vsi_entry p4info sp).
Proof. intros Hwf. split; [by apply GetTableId_nonzero|done]. Qed.

Section Spec.
Context {W : Type} `{SwitchClient W}.

(** What a lookup leaves and returns. *)
Definition port_result (id : session_id) (p4info : P4Info) (sp : Z) (w : W)
  (r : StatusOr Z) (w' : W) : Prop :=
  same id w w' /\
  match lookup_port p4info sp (sc_tables w) with
  | Some port => r = StatusValue port
  | None => is_ok r = false
  end.

Lemma wp_GetTxAccVsiPort id p4info sp (w : W) :
  wf_P4Info p4info -> sc_ready id w ->
  wp (GetTxAccVsiPort p4info sp) (port_result id p4info sp w) w.
Proof.
  intros Hwf Hr. eapply wp_seq.
  { apply (wp_read_entry id (fun te => EncodeTxAccVsiTableEntry te sp p4info)); [done|].
    by apply tx_acc_vsi_reads_one. }
  intros r w' [Hs Hm]. unfold port_result, lookup_port, tx_acc_vsi_entry.
  destruct (sc_tables w !! _) as [e|]; simpl.
  - subst r. fold (port_param_id p4info). cbn [rsp_entities find_port_entity entity_table_entry].
    rewrite find_port_param_spec.
    destruct (head _) as [param|]; by apply wp_ret.
  - destruct r; [done|]. by apply wp_ret.
Qed.

(** C27 GetTxAccVsiPort_spec: the lookup reads one entry, changes nothing, and
    returns the [port] parameter of the TX_ACC_VSI entry of the VSI when the
    table has that entry and the entry that parameter, an error otherwise. *)
Theorem GetTxAccVsiPort_spec id p4info sp (w : W) :
  wf_P4Info p4info -> sc_ready id w ->
  let '(r, w') := run (GetTxAccVsiPort p4info sp) w in
  sc_ready id w' /\ sc_tables w' = sc_tables w /\
  match lookup_port p4info sp (sc_tables w) with
  | Some port => r = StatusValue port
  | None => is_ok r = false
  end.
Proof.
  intros Hwf Hr. pose proof (wp_GetTxAccVsiPort id p4info sp w Hwf Hr) as Hwp.
  unfold wp in Hwp. destruct (run _ w) as [r w']. by destruct Hwp as [[??] ?].
Qed.
End Spec.

(** decode_port: the decoding loop computes the number the parameter
    denotes, modulo 2^32 for strings longer than four bytes; so the port a
    four-byte parameter encodes is read back whatever its bytes, also those
    above 127. *)
Theorem decode_port val port :
  Forall is_byte val -> 0 <= port < 2 ^ 32 ->
  decode_port_value val = be_val val mod 2 ^ 32 /\
  decode_port_value
    (EncodeByteValue 4 [port >>. 24; port >>. 16; port >>. 8; port]) = port.
Proof.
  intros Hv Hp. change (2 ^ 32) with 4294967296 in *.
  rewrite !decode_port_value_be by auto with mint. split; [done|]. cbn. machine_int.
Qed.

(** A table with the entry of the VSI behind port 23, which gives port 4919. *)
Definition sample_vsi_entry : TableEntry :=
  mutable_action (fun a =>
    add_param (port_param_id es2k_p4info) [0; 0; 19; 55]
      (set_action_id
         (GetActionId es2k_p4info TX_ACC_VSI_TABLE_ACTION_L2_FWD_AND_BYPASS_BRIDGE) a))
    (tx_acc_vsi_entry es2k_p4info 23).

Definition sample_vsi_tables : tables :=
  {[ te_key sample_vsi_entry := sample_vsi_entry ]}.

(** The parameter is found behind another one. *)
Definition other_param_entry : TableEntry :=
  mutable_action (fun a =>
    add_param (port_param_id es2k_p4info) [0; 0; 19; 55]
      (add_param (port_param_id es2k_p4info + 1) [7]
         (set_action_id
            (GetActionId es2k_p4info TX_ACC_VSI_TABLE_ACTION_L2_FWD_AND_BYPASS_BRIDGE) a)))
    (tx_acc_vsi_entry es2k_p4info 23).

Definition other_param_tables : tables :=
  {[ te_key other_param_entry := other_param_entry ]}.

Lemma GetTxAccVsiPort_spec_witness :
  (run (GetTxAccVsiPort es2k_p4info 23)
     (ref_world es2k_p4info (fun _ => true) other_param_tables)).1 = StatusValue 4919.
Proof.
  pose proof (GetTxAccVsiPort_spec ref_id es2k_p4info 23
    (ref_world es2k_p4info (fun _ => true) other_param_tables)
    wf_es2k_p4info (ref_world_ready _ _ _)) as Hs.
  assert (Hl : lookup_port es2k_p4info 23 other_param_tables = Some 4919) by (vm_compute; reflexivity).
  destruct (run _ _) as [r w']. destruct Hs as (_ & _ & Hm).
  change (sc_tables (ref_world _ _ _)) with other_param_tables in Hm.
  rewrite Hl in Hm. exact Hm.
Defined.

Lemma decode_port_witness : decode_port_value [255; 200; 0; 1] = 4291297281.
Proof.
  destruct (decode_port [255; 200; 0; 1] 5) as [H1 _]; [|lia|exact H1].
  repeat constructor; unfold is_byte; lia.
Defined.
