(* ===== verification/Es2kFdb.v ===== *)
(** * FDB entries, ES2K ([core/v3/es2k_config_fdb_entry.cc]) *)

From stdpp Require Import gmap.
From S2P Require Import Prelude P4Runtime OvsP4rt EncodeUtils P4InfoUtils Logging.
From S2P Require Import Es2kNames Es2kEncoders Client Pipelines Session ClientImpl Switch.
From S2P Require Import Server TxAccVsi.

Definition WriteFdbSmacTableEntry (learn_info : mac_learning_info) (p4info : P4Info)
  (insert_entry : bool) : prog Status :=
  '(write_request, table_entry) ←
    do_call (initWriteRequest default_WriteRequest insert_entry);
  let '(te, detail) :=
    EncodeFdbSmacTableEntry (wr_deref write_request table_entry) learn_info p4info
      insert_entry default_DiagDetail in
  status ← do_call (sendWriteRequest (wr_store write_request table_entry te));
  log_if_failed_mac status insert_entry detail (mac_addr learn_info);;
  mret status.

Definition PrepareL2TunnelTableEntry (table_entry : TableEntry)
  (learn_info : mac_learning_info) (p4info : P4Info) (insert_entry : bool)
  (detail : DiagDetail) : TableEntry * DiagDetail :=
  if (family (local_ip (tnl_info learn_info)) =? AF_INET6) &&
     (family (remote_ip (tnl_info learn_info)) =? AF_INET6) then
    EncodeL2ToTunnelV6 table_entry learn_info p4info insert_entry detail
  else
    EncodeL2ToTunnelV4 table_entry learn_info p4info insert_entry detail.

Definition WriteL2TunnelTableEntry (learn_info : mac_learning_info) (p4info : P4Info)
  (insert_entry : bool) : prog Status :=
  '(write_request, table_entry) ←
    do_call (initWriteRequest default_WriteRequest insert_entry);
  let '(te, detail) :=
    PrepareL2TunnelTableEntry (wr_deref write_request table_entry) learn_info p4info
      insert_entry default_DiagDetail in
  status ← do_call (sendWriteRequest (wr_store write_request table_entry te));
  log_if_failed_mac status insert_entry detail (mac_addr learn_info);;
  mret status.

Definition WriteFdbTxVlanTableEntry (learn_info : mac_learning_info) (p4info : P4Info)
  (insert_entry : bool) : prog Status :=
  '(write_request, table_entry) ←
    do_call (initWriteRequest default_WriteRequest insert_entry);
  let '(te, detail) :=
    EncodeFdbTxVlanTableEntry (wr_deref write_request table_entry) learn_info p4info
      insert_entry default_DiagDetail in
  status ← do_call (sendWriteRequest (wr_store write_request table_entry te));
  log_if_failed_mac status insert_entry detail (mac_addr learn_info);;
  mret status.

Definition WriteFdbRxVlanTableEntry (learn_info : mac_learning_info) (p4info : P4Info)
  (insert_entry : bool) : prog Status :=
  '(write_request, table_entry) ←
    do_call (initWriteRequest default_WriteRequest insert_entry);
  let '(te, detail) :=
    EncodeFdbRxVlanTableEntry (wr_deref write_request table_entry) learn_info p4info
      insert_entry default_DiagDetail in
  status ← do_call (sendWriteRequest (wr_store write_request table_entry te));
  log_if_failed_mac status insert_entry detail (mac_addr learn_info);;
  mret status.

Definition PrepareFdbTunnelTableEntry (table_entry : TableEntry)
  (learn_info : mac_learning_info) (p4info : P4Info) (insert_entry : bool)
  (detail : DiagDetail) : TableEntry * DiagDetail :=
  if tunnel_type (tnl_info learn_info) =? tunnel_type_value OVS_TUNNEL_VXLAN then
    EncodeFdbTableEntryforV4VxlanTunnel table_entry learn_info p4info insert_entry detail
  else if tunnel_type (tnl_info learn_info) =? tunnel_type_value OVS_TUNNEL_GENEVE then
    EncodeFdbTableEntryforV4GeneveTunnel table_entry learn_info p4info insert_entry detail
  else if negb insert_entry then
    (EncodeL2FwdTxTablePrologue table_entry learn_info p4info, detail)
  else (table_entry, detail).

Definition WriteFdbTunnelTableEntry (learn_info : mac_learning_info) (p4info : P4Info)
  (insert_entry : bool) : prog Status :=
  '(write_request, table_entry) ←
    do_call (initWriteRequest default_WriteRequest insert_entry);
  let '(te, detail) :=
    PrepareFdbTunnelTableEntry (wr_deref write_request table_entry) learn_info p4info
      insert_entry default_DiagDetail in
  status ← do_call (sendWriteRequest (wr_store write_request table_entry te));
  log_if_failed_mac status insert_entry detail (mac_addr learn_info);;
  mret status.

Definition ReadL2ToTunnelV4TableEntry (learn_info : mac_learning_info) (p4info : P4Info)
  : prog (StatusOr ReadResponse) :=
  '(read_request, table_entry) ← do_call (initReadRequest default_ReadRequest);
  let '(te, _) :=
    EncodeL2ToTunnelV4 (rr_deref read_request table_entry) learn_info p4info false
      default_DiagDetail in
  do_call (sendReadRequest (rr_store read_request table_entry te)).

Definition ReadL2ToTunnelV6TableEntry (learn_info : mac_learning_info) (p4info : P4Info)
  : prog (StatusOr ReadResponse) :=
  '(read_request, table_entry) ← do_call (initReadRequest default_ReadRequest);
  let '(te, _) :=
    EncodeL2ToTunnelV6 (rr_deref read_request table_entry) learn_info p4info false
      default_DiagDetail in
  do_call (sendReadRequest (rr_store read_request table_entry te)).

(** [insert_entry] is ignored: reading only needs the match fields. *)
Definition PrepareFdbTableV4TunnelEntry (table_entry : TableEntry)
  (learn_info : mac_learning_info) (p4info : P4Info) (insert_entry : bool)
  (detail : DiagDetail) (testing : bool) : TableEntry * DiagDetail :=
  if tunnel_type (tnl_info learn_info) =? tunnel_type_value OVS_TUNNEL_VXLAN then
    EncodeFdbTableEntryforV4VxlanTunnel table_entry learn_info p4info testing detail
  else if tunnel_type (tnl_info learn_info) =? tunnel_type_value OVS_TUNNEL_GENEVE then
    EncodeFdbTableEntryforV4GeneveTunnel table_entry learn_info p4info testing detail
  else (table_entry, detail).

Definition ReadFdbTunnelTableEntry (learn_info : mac_learning_info) (p4info : P4Info)
  (adding : bool) : prog (StatusOr ReadResponse) :=
  '(read_request, table_entry) ← do_call (initReadRequest default_ReadRequest);
  let '(te, _) :=
    PrepareFdbTableV4TunnelEntry (rr_deref read_request table_entry) learn_info p4info
      false default_DiagDetail false in
  do_call (sendReadRequest (rr_store read_request table_entry te)).

Definition ReadFdbVlanTableEntry (learn_info : mac_learning_info) (p4info : P4Info)
  (adding : bool) : prog (StatusOr ReadResponse) :=
  '(read_request, table_entry) ← do_call (initReadRequest default_ReadRequest);
  let '(te, _) :=
    EncodeFdbTxVlanTableEntry (rr_deref read_request table_entry) learn_info p4info
      false default_DiagDetail in
  do_call (sendReadRequest (rr_store read_request table_entry te)).

(** [learn_info] is an in-out parameter: the updated value is returned. *)
Definition UpdateFdbTunnelInfo (learn_info : mac_learning_info) (p4info : P4Info)
  : prog mac_learning_info :=
  status_or_read_response ← ReadL2ToTunnelV4TableEntry learn_info p4info;
  let learn_info :=
    if is_ok status_or_read_response then set_is_tunnel true learn_info else learn_info in
  if negb (is_tunnel learn_info) then
    status_or_read_response ← ReadL2ToTunnelV6TableEntry learn_info p4info;
    mret (if is_ok status_or_read_response then
            let learn_info := set_is_tunnel true learn_info in
            set_tnl_info (set_ip_families AF_INET6 AF_INET6 (tnl_info learn_info)) learn_info
          else learn_info)
  else mret learn_info.

Definition UpdateFdbSrcPortInfo (learn_info : mac_learning_info) (p4info : P4Info)
  : prog (Status * mac_learning_info) :=
  host_sp ← GetTxAccVsiPort p4info (src_port learn_info);
  match host_sp with
  | StatusError e => mret (ErrStatus e, learn_info)
  | StatusValue host_sp => mret (OkStatus, set_src_port host_sp learn_info)
  end.

Definition ConfigFdbTunnelEntry (learn_info : mac_learning_info) (insert_entry : bool)
  (p4info : P4Info) : prog Status :=
  let write_entries :=
    (WriteFdbTunnelTableEntry learn_info p4info insert_entry;;
     WriteL2TunnelTableEntry learn_info p4info insert_entry;;
     WriteFdbSmacTableEntry learn_info p4info insert_entry;;
     mret OkStatus) in
  if insert_entry then
    status_or_read_response ← ReadFdbTunnelTableEntry learn_info p4info true;
    if is_ok status_or_read_response then mret OkStatus else write_entries
  else write_entries.

Definition ConfigFdbVlanEntry (learn_info : mac_learning_info) (insert_entry : bool)
  (p4info : P4Info) : prog Status :=
  let write_entries learn_info :=
    (WriteFdbTxVlanTableEntry learn_info p4info insert_entry;;
     WriteFdbSmacTableEntry learn_info p4info insert_entry;;
     mret OkStatus) in
  if insert_entry then
    status_or_read_response ← ReadFdbVlanTableEntry learn_info p4info true;
    if is_ok status_or_read_response then mret OkStatus else
    WriteFdbRxVlanTableEntry learn_info p4info insert_entry;;
    '(status, learn_info) ← UpdateFdbSrcPortInfo learn_info p4info;
    if negb (ok status) then mret status else write_entries learn_info
  else write_entries learn_info.

Definition ConfigFdbEntry (learn_info : mac_learning_info) (p4info : P4Info)
  (insert_entry : bool) : prog Status :=
  learn_info ←
    (if negb insert_entry then UpdateFdbTunnelInfo learn_info p4info else mret learn_info);
  if is_tunnel learn_info then ConfigFdbTunnelEntry learn_info insert_entry p4info
  else ConfigFdbVlanEntry learn_info insert_entry p4info.

Definition DoConfigFdbEntry (learn_info : mac_learning_info) (insert_entry : bool)
  (grpc_addr : string) : prog Status :=
  status ← do_call (connect grpc_addr);
  if negb (ok status) then mret status else
  '(status, p4info) ← do_call getPipelineConfig;
  if negb (ok status) then mret status else
  ConfigFdbEntry learn_info p4info insert_entry.

(** ** Specification *)

Definition fdb_tunnel_tx (l : mac_learning_info) (p4info : P4Info) (ins : bool) : TableEntry :=
  (PrepareFdbTunnelTableEntry default_TableEntry l p4info ins default_DiagDetail).1.

Definition fdb_l2_tunnel (l : mac_learning_info) (p4info : P4Info) (ins : bool) : TableEntry :=
  (PrepareL2TunnelTableEntry default_TableEntry l p4info ins default_DiagDetail).1.

Definition fdb_smac (l : mac_learning_info) (p4info : P4Info) (ins : bool) : TableEntry :=
  (EncodeFdbSmacTableEntry default_TableEntry l p4info ins default_DiagDetail).1.

Definition fdb_vlan_tx (l : mac_learning_info) (p4info : P4Info) (ins : bool) : TableEntry :=
  (EncodeFdbTxVlanTableEntry default_TableEntry l p4info ins default_DiagDetail).1.

Definition fdb_vlan_rx (l : mac_learning_info) (p4info : P4Info) (ins : bool) : TableEntry :=
  (EncodeFdbRxVlanTableEntry default_TableEntry l p4info ins default_DiagDetail).1.

(** The keys of the tables, which only depend on the MAC address and the
    bridge. *)
Definition l2_fwd_tx_key (l : mac_learning_info) (p4info : P4Info) : key :=
  te_key (EncodeL2FwdTxTablePrologue default_TableEntry l p4info).

Definition tunnel_v4_key (l : mac_learning_info) (p4info : P4Info) : key :=
  te_key (EncodeL2ToTunnelV4 default_TableEntry l p4info false default_DiagDetail).1.

Definition tunnel_v6_key (l : mac_learning_info) (p4info : P4Info) : key :=
  te_key (EncodeL2ToTunnelV6 default_TableEntry l p4info false default_DiagDetail).1.

Definition v6_families (l : mac_learning_info) : bool :=
  (family (local_ip (tnl_info l)) =? AF_INET6) && (family (remote_ip (tnl_info l)) =? AF_INET6).

Definition supported_tunnel (l : mac_learning_info) : Prop :=
  tunnel_type (tnl_info l) = 1 \/ tunnel_type (tnl_info l) = 2.

(** The entries of a tunnel MAC, and of the transmit side of a VLAN MAC. *)
Definition fdb_tunnel_entries l p4info ins : list TableEntry :=
  [fdb_tunnel_tx l p4info ins; fdb_l2_tunnel l p4info ins; fdb_smac l p4info ins].

Definition fdb_vlan_entries l p4info ins : list TableEntry :=
  [fdb_vlan_tx l p4info ins; fdb_smac l p4info ins].

(** What [UpdateFdbTunnelInfo] makes of [l] on tables [T]. *)
Definition learned (l : mac_learning_info) (p4info : P4Info) (T : tables) : mac_learning_info :=
  let l := if bool_decide (is_Some (T !! tunnel_v4_key l p4info))
           then set_is_tunnel true l else l in
  if is_tunnel l then l
  else if bool_decide (is_Some (T !! tunnel_v6_key l p4info)) then
    set_tnl_info (set_ip_families AF_INET6 AF_INET6 (tnl_info l)) (set_is_tunnel true l)
  else l.

(** *** Keys *)

Lemma fdb_tunnel_tx_key l p4info ins :
  supported_tunnel l \/ ins = false ->
  te_key (fdb_tunnel_tx l p4info ins) = l2_fwd_tx_key l p4info.
Proof.
  unfold fdb_tunnel_tx, PrepareFdbTunnelTableEntry.
  intros [[-> | ->] | ->]; [by destruct ins|by destruct ins|by repeat case_match].
Qed.

Lemma fdb_vlan_tx_key l p4info ins :
  te_key (fdb_vlan_tx l p4info ins) = l2_fwd_tx_key l p4info.
Proof. by destruct ins. Qed.

Lemma fdb_l2_tunnel_key l p4info ins :
  te_key (fdb_l2_tunnel l p4info ins) =
  if v6_families l then tunnel_v6_key l p4info else tunnel_v4_key l p4info.
Proof.
  unfold fdb_l2_tunnel, PrepareL2TunnelTableEntry, v6_families.
  by destruct (_ && _), ins.
Qed.

(** Two learning events about the same MAC address on the same bridge. *)
Definition same_mac (l l' : mac_learning_info) : Prop :=
  mac_addr l = mac_addr l' /\ bridge_id l = bridge_id l'.

Lemma same_mac_keys l l' p4info :
  same_mac l l' ->
  l2_fwd_tx_key l p4info = l2_fwd_tx_key l' p4info /\
  tunnel_v4_key l p4info = tunnel_v4_key l' p4info /\
  tunnel_v6_key l p4info = tunnel_v6_key l' p4info /\
  forall ins ins', te_key (fdb_smac l p4info ins) = te_key (fdb_smac l' p4info ins').
Proof.
  intros [Hm Hb].
  unfold l2_fwd_tx_key, tunnel_v4_key, tunnel_v6_key, fdb_smac, EncodeL2FwdTxTablePrologue,
    EncodeL2ToTunnelV4, EncodeL2ToTunnelV6, EncodeFdbSmacTableEntry.
  rewrite Hm, Hb. repeat split. by intros [] [].
Qed.

Lemma tunnel_delete_keys l l' p4info :
  same_mac l l' -> supported_tunnel l -> v6_families l = v6_families l' ->
  te_key <$> fdb_tunnel_entries l' p4info false = te_key <$> fdb_tunnel_entries l p4info true.
Proof.
  intros Hm Hs Hf. destruct (same_mac_keys l l' p4info Hm) as (H1 & H2 & H3 & H4).
  unfold fdb_tunnel_entries. cbn [fmap list_fmap].
  rewrite !fdb_tunnel_tx_key, !fdb_l2_tunnel_key by auto.
  by rewrite (H4 true false), H1, H2, H3, Hf.
Qed.

Lemma vlan_delete_keys l l' p4info :
  same_mac l l' ->
  te_key <$> fdb_vlan_entries l' p4info false = te_key <$> fdb_vlan_entries l p4info true.
Proof.
  intros Hm. destruct (same_mac_keys l l' p4info Hm) as (H1 & _ & _ & H4).
  unfold fdb_vlan_entries. cbn [fmap list_fmap]. by rewrite !fdb_vlan_tx_key, (H4 true false), H1.
Qed.

Lemma learned_same_mac l p4info T : same_mac l (learned l p4info T).
Proof. unfold learned. repeat case_match; done. Qed.

(** *** The effect of the operations on the tables *)

Section Spec.
Context {W : Type} `{SwitchClient W}.

Definition fdb_tunnel_effect (l : mac_learning_info) (ins : bool) (T : tables) : tables :=
  if ins && bool_decide (is_Some (T !! l2_fwd_tx_key l sc_p4info)) then T
  else switch_writes_all sc_accepts ins (fdb_tunnel_entries l sc_p4info ins) T.

Definition fdb_vlan_effect (l : mac_learning_info) (ins : bool) (T : tables) : bool * tables :=
  if ins then
    if bool_decide (is_Some (T !! l2_fwd_tx_key l sc_p4info)) then (true, T) else
    let T1 := (switch_write sc_accepts true (fdb_vlan_rx l sc_p4info true) T).2 in
    match lookup_port sc_p4info (src_port l) T1 with
    | Some port =>
        (true, switch_writes_all sc_accepts true
                 (fdb_vlan_entries (set_src_port port l) sc_p4info true) T1)
    | None => (false, T1)
    end
  else (true, switch_writes_all sc_accepts false (fdb_vlan_entries l sc_p4info false) T).

Definition fdb_effect (l : mac_learning_info) (ins : bool) (T : tables) : bool * tables :=
  let l := if ins then l else learned l sc_p4info T in
  if is_tunnel l then (true, fdb_tunnel_effect l ins T) else fdb_vlan_effect l ins T.

Lemma wp_WriteFdbTunnel id l p4info ins (w : W) :
  sc_ready id w ->
  wp (WriteFdbTunnelTableEntry l p4info ins) (wrote id ins (fdb_tunnel_tx l p4info ins) w) w.
Proof. apply (wp_write_logged id ins (mac_addr l) (fun te => PrepareFdbTunnelTableEntry te l p4info ins
  default_DiagDetail)). Qed.

Lemma wp_WriteL2Tunnel id l p4info ins (w : W) :
  sc_ready id w ->
  wp (WriteL2TunnelTableEntry l p4info ins) (wrote id ins (fdb_l2_tunnel l p4info ins) w) w.
Proof. apply (wp_write_logged id ins (mac_addr l) (fun te => PrepareL2TunnelTableEntry te l p4info ins
  default_DiagDetail)). Qed.

Lemma wp_WriteFdbSmac id l p4info ins (w : W) :
  sc_ready id w ->
  wp (WriteFdbSmacTableEntry l p4info ins) (wrote id ins (fdb_smac l p4info ins) w) w.
Proof. apply (wp_write_logged id ins (mac_addr l) (fun te => EncodeFdbSmacTableEntry te l p4info ins
  default_DiagDetail)). Qed.

Lemma wp_WriteFdbTxVlan id l p4info ins (w : W) :
  sc_ready id w ->
  wp (WriteFdbTxVlanTableEntry l p4info ins) (wrote id ins (fdb_vlan_tx l p4info ins) w) w.
Proof. apply (wp_write_logged id ins (mac_addr l) (fun te => EncodeFdbTxVlanTableEntry te l p4info ins
  default_DiagDetail)). Qed.

Lemma wp_WriteFdbRxVlan id l p4info ins (w : W) :
  sc_ready id w ->
  wp (WriteFdbRxVlanTableEntry l p4info ins) (wrote id ins (fdb_vlan_rx l p4info ins) w) w.
Proof. apply (wp_write_logged id ins (mac_addr l) (fun te => EncodeFdbRxVlanTableEntry te l p4info ins
  default_DiagDetail)). Qed.

(** A read that only asks whether the key is there. *)
Definition exists_result id (k : key) (w : W) (r : StatusOr ReadResponse) (w' : W) : Prop :=
  same id w w' /\ is_ok r = bool_decide (is_Some (sc_tables w !! k)).

Lemma wp_read_exists id (enc : TableEntry -> TableEntry * DiagDetail) (w : W) :
  sc_ready id w -> reads_one (enc default_TableEntry).1 ->
  wp ('(read_request, table_entry) ← do_call (initReadRequest default_ReadRequest);
      let '(te, _) := enc (rr_deref read_request table_entry) in
      do_call (sendReadRequest (rr_store read_request table_entry te)))
    (exists_result id (te_key (enc default_TableEntry).1) w) w.
Proof.
  intros Hr Hone. eapply wp_seq; [by apply wp_init_read|]. intros ? w1 [-> H1]. cbv beta iota.
  change (rr_deref _ _) with default_TableEntry.
  destruct (enc default_TableEntry) as [te d]. cbv beta iota zeta.
  eapply wp_mono; [by apply (wp_send_read id), Hone; apply (same_ready id w)|].
  intros r w2 H2. apply (read_result_same id te w) in H2; [|done].
  split; [apply H2|]. by eapply read_result_is_ok.
Qed.

Lemma wp_ReadV4 id l p4info (w : W) :
  wf_P4Info p4info -> sc_ready id w ->
  wp (ReadL2ToTunnelV4TableEntry l p4info) (exists_result id (tunnel_v4_key l p4info) w) w.
Proof.
  intros Hwf Hr. apply (wp_read_exists id (fun te => EncodeL2ToTunnelV4 te l p4info false
      default_DiagDetail));
    [done|]. split; [by apply GetTableId_nonzero|done].
Qed.

Lemma wp_ReadV6 id l p4info (w : W) :
  wf_P4Info p4info -> sc_ready id w ->
  wp (ReadL2ToTunnelV6TableEntry l p4info) (exists_result id (tunnel_v6_key l p4info) w) w.
Proof.
  intros Hwf Hr. apply (wp_read_exists id (fun te => EncodeL2ToTunnelV6 te l p4info false
      default_DiagDetail));
    [done|]. split; [by apply GetTableId_nonzero|done].
Qed.

Lemma wp_ReadVlan id l p4info (w : W) :
  wf_P4Info p4info -> sc_ready id w ->
  wp (ReadFdbVlanTableEntry l p4info true) (exists_result id (l2_fwd_tx_key l p4info) w) w.
Proof.
  intros Hwf Hr.
  apply (wp_read_exists id (fun te => EncodeFdbTxVlanTableEntry te l p4info false
      default_DiagDetail));
    [done|]. split; [by apply GetTableId_nonzero|done].
Qed.

Lemma wp_ReadTunnel id l p4info (w : W) :
  wf_P4Info p4info -> supported_tunnel l -> sc_ready id w ->
  wp (ReadFdbTunnelTableEntry l p4info true) (exists_result id (l2_fwd_tx_key l p4info) w) w.
Proof.
  intros Hwf Hs Hr.
  assert (Henc : (PrepareFdbTableV4TunnelEntry default_TableEntry l p4info false
    default_DiagDetail false).1 = EncodeL2FwdTxTablePrologue default_TableEntry l p4info).
  { unfold PrepareFdbTableV4TunnelEntry. by destruct Hs as [-> | ->]. }
  unfold l2_fwd_tx_key. rewrite <- Henc.
  apply (wp_read_exists id (fun te => PrepareFdbTableV4TunnelEntry te l p4info false
      default_DiagDetail false));
    [done|]. rewrite Henc. split; [by apply GetTableId_nonzero|done].
Qed.

Lemma wp_UpdateFdbTunnelInfo id l p4info (w : W) :
  wf_P4Info p4info -> sc_ready id w ->
  wp (UpdateFdbTunnelInfo l p4info)
    (fun l' w' => l' = learned l p4info (sc_tables w) /\ same id w w') w.
Proof.
  intros Hwf Hr. eapply wp_seq; [by apply (wp_ReadV4 id)|]. intros r w1 [Hs1 Hok].
  rewrite Hok. unfold learned. set (l1 := if bool_decide _ then _ else l).
  assert (Hk : tunnel_v6_key l1 p4info = tunnel_v6_key l p4info) by (unfold l1; by case_match).
  apply wp_if.
  - intros Ht%negb_true_iff. eapply wp_seq; [by apply (wp_ReadV6 id), (same_ready id w)|].
    intros r2 w2 [Hs2 Hok2]. apply wp_ret. rewrite Ht, Hok2, (proj2 Hs1).
    split; [done|]. by eapply same_trans.
  - intros Ht%negb_false_iff. apply wp_ret. by rewrite Ht.
Qed.

(** The three writes of a tunnel MAC. *)
Lemma wp_tunnel_writes id l ins (w : W) :
  sc_ready id w ->
  wp (WriteFdbTunnelTableEntry l sc_p4info ins;; WriteL2TunnelTableEntry l sc_p4info ins;;
      WriteFdbSmacTableEntry l sc_p4info ins;; mret OkStatus)
    (fun s w' => s = OkStatus /\ sc_tables w' =
       switch_writes_all sc_accepts ins (fdb_tunnel_entries l sc_p4info ins) (sc_tables w)) w.
Proof.
  intros Hr. eapply wp_ignore; [by apply (wp_WriteFdbTunnel id)|]. intros w1 Hr1 HT1.
  eapply wp_ignore; [by apply (wp_WriteL2Tunnel id)|]. intros w2 Hr2 HT2.
  eapply wp_ignore; [by apply (wp_WriteFdbSmac id)|]. intros w3 Hr3 HT3.
  apply wp_ret. by rewrite HT3, HT2, HT1.
Qed.

(** The two writes that end the configuration of a VLAN MAC. *)
Lemma wp_vlan_writes id l ins (w : W) :
  sc_ready id w ->
  wp (WriteFdbTxVlanTableEntry l sc_p4info ins;; WriteFdbSmacTableEntry l sc_p4info ins;;
      mret OkStatus)
    (fun s w' => s = OkStatus /\ sc_tables w' =
       switch_writes_all sc_accepts ins (fdb_vlan_entries l sc_p4info ins) (sc_tables w)) w.
Proof.
  intros Hr. eapply wp_ignore; [by apply (wp_WriteFdbTxVlan id)|]. intros w1 Hr1 HT1.
  eapply wp_ignore; [by apply (wp_WriteFdbSmac id)|]. intros w2 Hr2 HT2.
  apply wp_ret. by rewrite HT2, HT1.
Qed.

Lemma wp_ConfigFdbTunnelEntry id l ins (w : W) :
  wf_P4Info sc_p4info -> supported_tunnel l \/ ins = false -> sc_ready id w ->
  wp (ConfigFdbTunnelEntry l ins sc_p4info)
    (fun s w' => s = OkStatus /\ sc_tables w' = fdb_tunnel_effect l ins (sc_tables w)) w.
Proof.
  intros Hwf Hs Hr. unfold ConfigFdbTunnelEntry, fdb_tunnel_effect.
  destruct ins; [|by apply (wp_tunnel_writes id)].
  destruct Hs as [Hs|]; [|done]. eapply wp_seq; [by apply (wp_ReadTunnel id)|].
  intros r w1 [[Hr1 HT1] ->]. cbn [andb]. rewrite <- HT1. apply wp_if; intros ->.
  - by apply wp_ret.
  - by apply (wp_tunnel_writes id).
Qed.

Lemma wp_UpdateFdbSrcPortInfo id l (w : W) :
  wf_P4Info sc_p4info -> sc_ready id w ->
  wp (UpdateFdbSrcPortInfo l sc_p4info)
    (fun r w' => same id w w' /\
       match lookup_port sc_p4info (src_port l) (sc_tables w) with
       | Some port => r = (OkStatus, set_src_port port l)
       | None => ok r.1 = false
       end) w.
Proof.
  intros Hwf Hr. eapply wp_seq; [by apply (wp_GetTxAccVsiPort id)|].
  intros r w1 [Hs1 Hm]. destruct (lookup_port _ _ _) as [port|].
  - subst r. by apply wp_ret.
  - destruct r; [done|]. by apply wp_ret.
Qed.

Lemma wp_ConfigFdbVlanEntry id l ins (w : W) :
  wf_P4Info sc_p4info -> sc_ready id w ->
  wp (ConfigFdbVlanEntry l ins sc_p4info)
    (fun s w' => (ok s, sc_tables w') = fdb_vlan_effect l ins (sc_tables w)) w.
Proof.
  intros Hwf Hr. unfold ConfigFdbVlanEntry, fdb_vlan_effect. destruct ins.
  - eapply wp_seq; [by apply (wp_ReadVlan id)|]. intros r w1 [[Hr1 HT1] ->].
    apply wp_if; intros ->; [apply wp_ret; by rewrite HT1|].
    eapply wp_ignore; [by apply (wp_WriteFdbRxVlan id)|]. intros w2 Hr2 HT2.
    rewrite <- HT1, <- HT2.
    eapply wp_seq; [by apply (wp_UpdateFdbSrcPortInfo id)|]. intros [s l'] w3 [[Hr3 HT3] Hm].
    destruct (lookup_port _ _ _) as [port|].
    + injection Hm as -> ->. eapply wp_mono; [by apply (wp_vlan_writes id)|].
      intros s w4 [-> HT4]. simpl. by rewrite HT4, HT3.
    + simpl in Hm. rewrite Hm. apply wp_ret. by rewrite Hm, HT3.
  - eapply wp_mono; [by apply (wp_vlan_writes id)|]. by intros s w1 [-> ->].
Qed.

Lemma wp_ConfigFdbEntry id l ins (w : W) :
  wf_P4Info sc_p4info -> supported_tunnel l \/ is_tunnel l && ins = false -> sc_ready id w ->
  wp (ConfigFdbEntry l sc_p4info ins)
    (fun s w' => (ok s, sc_tables w') = fdb_effect l ins (sc_tables w)) w.
Proof.
  intros Hwf Hs Hr. unfold ConfigFdbEntry, fdb_effect. apply wp_seq with (P := fun l' w' =>
    l' = (if ins then l else learned l sc_p4info (sc_tables w)) /\ same id w w').
  { destruct ins; [by apply wp_ret|]. by apply wp_UpdateFdbTunnelInfo. }
  intros l' w1 [-> [Hr1 HT1]]. rewrite <- HT1. apply wp_if; intros Ht; rewrite Ht.
  - eapply wp_mono; [apply (wp_ConfigFdbTunnelEntry id); [done| |done]|].
    + destruct ins; [|by right]. destruct Hs as [?|Hs]; [by left|]. by rewrite Ht in Hs.
    + by intros s w2 [-> ->].
  - by apply (wp_ConfigFdbVlanEntry id).
Qed.

Lemma wp_DoConfigFdbEntry l ins addr (w : W) :
  wf_P4Info sc_p4info -> supported_tunnel l \/ is_tunnel l && ins = false ->
  wp (DoConfigFdbEntry l ins addr) (fun s w' =>
    if connects addr w then (ok s, sc_tables w') = fdb_effect l ins (sc_tables w)
    else ok s = false /\ sc_tables w' = sc_tables w) w.
Proof.
  intros Hwf Hs. apply (wp_session addr (fun p4info => ConfigFdbEntry l p4info ins)).
  - intros s w' Hc Hs' HT. by rewrite Hc.
  - intros id w1 Hc Hr HT. eapply wp_mono; [by apply (wp_ConfigFdbEntry id)|].
    intros s w' Heq. by rewrite Hc, Heq, HT.
Qed.

(** *** Consequences for the tables *)

Lemma tunnel_insert_effect l T T1 :
  switch_writes sc_accepts true (fdb_tunnel_entries l sc_p4info true) T = (true, T1) ->
  is_tunnel l = true -> supported_tunnel l ->
  fdb_effect l true T = (true, T1) /\
  is_Some (T1 !! te_key (fdb_l2_tunnel l sc_p4info true)).
Proof.
  intros Hw Ht Hs.
  destruct (switch_writes_insert_present _ _ _ _ (fdb_tunnel_tx l sc_p4info true) Hw)
    as [Hn _]; [by left|].
  destruct (switch_writes_insert_present _ _ _ _ (fdb_l2_tunnel l sc_p4info true) Hw)
    as [_ Hp]; [by right; left|].
  rewrite fdb_tunnel_tx_key in Hn by auto.
  unfold fdb_effect, fdb_tunnel_effect. rewrite Ht, bool_decide_false by (rewrite Hn; by intros [? ?]).
  split; [|by eexists]. cbn [andb]. by rewrite (switch_writes_all_ok _ _ _ _ _ Hw).
Qed.

Lemma tunnel_delete_effect l l' T T1 :
  switch_writes sc_accepts true (fdb_tunnel_entries l sc_p4info true) T = (true, T1) ->
  supported_tunnel l -> same_mac l l' -> is_tunnel (learned l' sc_p4info T1) = true ->
  v6_families l = v6_families (learned l' sc_p4info T1) ->
  fdb_effect l' false T1 = (true, T).
Proof.
  intros Hw Hs Hm Ht Hf. unfold fdb_effect, fdb_tunnel_effect. rewrite Ht. cbn [andb].
  f_equal. apply switch_writes_all_ok, (switch_writes_insert_delete _ _ _ _ _ Hw).
  apply tunnel_delete_keys; [|done|done].
  destruct Hm, (learned_same_mac l' sc_p4info T1). split; congruence.
Qed.

(** The deletion recognises a tunnel by the entry the insertion left. *)
Lemma learned_v4 l p4info T :
  is_Some (T !! tunnel_v4_key l p4info) -> learned l p4info T = set_is_tunnel true l.
Proof. intros Hs. unfold learned. by rewrite bool_decide_true. Qed.

Lemma learned_v6 l p4info T :
  T !! tunnel_v4_key l p4info = None -> is_Some (T !! tunnel_v6_key l p4info) ->
  is_tunnel l = false ->
  is_tunnel (learned l p4info T) = true /\ v6_families (learned l p4info T) = true.
Proof.
  intros Hn Hs Ht. unfold learned.
  rewrite bool_decide_false by (rewrite Hn; by intros [? ?]). rewrite Ht.
  by rewrite bool_decide_true.
Qed.

Lemma vlan_insert_effect l T T2 port :
  let rx := fdb_vlan_rx l sc_p4info true in
  is_tunnel l = false -> sc_accepts rx = true -> T !! te_key rx = None ->
  lookup_port sc_p4info (src_port l) (<[te_key rx := rx]> T) = Some port ->
  switch_writes sc_accepts true (fdb_vlan_entries (set_src_port port l) sc_p4info true)
    (<[te_key rx := rx]> T) = (true, T2) ->
  fdb_effect l true T = (true, T2).
Proof.
  intros rx Ht Ha Hn Hl Hw. unfold fdb_effect, fdb_vlan_effect. rewrite Ht.
  destruct (switch_writes_insert_present _ _ _ _
    (fdb_vlan_tx (set_src_port port l) sc_p4info true) Hw) as [Htx _]; [by left|].
  rewrite fdb_vlan_tx_key in Htx. apply lookup_insert_None in Htx as [Htx _].
  change (l2_fwd_tx_key (set_src_port port l)) with (l2_fwd_tx_key l) in Htx.
  rewrite bool_decide_false by (rewrite Htx; by intros [? ?]).
  rewrite switch_write_insert_ok by done. cbn zeta. simpl snd. fold rx. rewrite Hl.
  by rewrite (switch_writes_all_ok _ _ _ _ _ Hw).
Qed.

Lemma vlan_delete_effect l l' T T1 :
  switch_writes sc_accepts true (fdb_vlan_entries l sc_p4info true) T = (true, T1) ->
  same_mac l l' -> is_tunnel l' = false ->
  T1 !! tunnel_v4_key l sc_p4info = None -> T1 !! tunnel_v6_key l sc_p4info = None ->
  fdb_effect l' false T1 = (true, T).
Proof.
  intros Hw Hm Ht H4 H6. destruct (same_mac_keys l l' sc_p4info Hm) as (_ & Hk4 & Hk6 & _).
  unfold fdb_effect. replace (learned l' sc_p4info T1) with l'.
  - rewrite Ht. unfold fdb_vlan_effect. f_equal.
    apply switch_writes_all_ok, (switch_writes_insert_delete _ _ _ _ _ Hw).
    by apply vlan_delete_keys.
  - unfold learned. rewrite <- Hk4, H4, bool_decide_false by (by intros [? ?]).
    by rewrite Ht, <- Hk6, H6, bool_decide_false by (by intros [? ?]).
Qed.

(** Two calls in a row, with the effects of both. *)
Lemma run_insert_delete l l' addr (w : W) T1 T2 :
  wf_P4Info sc_p4info -> supported_tunnel l \/ is_tunnel l = false ->
  fdb_effect l true (sc_tables w) = (true, T1) -> fdb_effect l' false T1 = (true, T2) ->
  let '(s1, w1) := run (DoConfigFdbEntry l true addr) w in
  let '(s2, w2) := run (DoConfigFdbEntry l' false addr) w1 in
  connects addr w = true -> connects addr w1 = true ->
  ok s1 = true /\ sc_tables w1 = T1 /\ ok s2 = true /\ sc_tables w2 = T2.
Proof.
  intros Hwf Hs Hi Hd.
  pose proof (wp_DoConfigFdbEntry l true addr w Hwf) as H1. unfold wp in H1.
  destruct (run _ w) as [s1 w1].
  pose proof (wp_DoConfigFdbEntry l' false addr w1 Hwf) as H2. unfold wp in H2.
  destruct (run _ w1) as [s2 w2]. simpl in *. intros Hc Hc1. rewrite Hc, Hc1 in *.
  rewrite andb_true_r in H1. specialize (H1 Hs).
  rewrite andb_false_r in H2. specialize (H2 (or_intror eq_refl)).
  rewrite Hi in H1. injection H1 as Hs1 HT1. rewrite HT1, Hd in H2. by injection H2.
Qed.

(** ** Properties *)

(** C3 DoConfigFdbEntry_refines: the effect of an FDB operation on the tables is
    [fdb_effect]. A tunnel MAC is inserted, unless the L2 forwarding table
    knows it, by three updates whose failures are ignored; a VLAN MAC likewise
    by a receive-side entry and, after the port of its VSI was found, two more;
    a failed lookup is the only error reported. A deletion first decides from
    the tables whether the MAC is a tunnel's. *)
Theorem DoConfigFdbEntry_refines l ins addr (w : W) :
  wf_P4Info sc_p4info -> supported_tunnel l \/ is_tunnel l && ins = false ->
  let '(s, w') := run (DoConfigFdbEntry l ins addr) w in
  if connects addr w then (ok s, sc_tables w') = fdb_effect l ins (sc_tables w)
  else ok s = false /\ sc_tables w' = sc_tables w.
Proof.
  intros Hwf Hs. pose proof (wp_DoConfigFdbEntry l ins addr w Hwf Hs) as Hwp.
  unfold wp in Hwp. by destruct (run _ w).
Qed.

(** C4 fdb_tunnel_insert_delete: a MAC address learned behind a tunnel and
    forgotten again leaves the tables as they were, when its three entries
    could be inserted, although the deletion is only told the MAC address and
    the bridge: that it is a tunnel, and of which address family, is read back
    from the tables. For an IPv4 tunnel the deletion may say anything except
    that both ends are IPv6; for an IPv6 tunnel it must not claim to know it
    is a tunnel, and no IPv4 tunnel entry may exist for that MAC. *)
Theorem fdb_tunnel_insert_delete l l' addr (w : W) T1 :
  wf_P4Info sc_p4info -> is_tunnel l = true -> supported_tunnel l -> same_mac l l' ->
  switch_writes sc_accepts true (fdb_tunnel_entries l sc_p4info true) (sc_tables w) = (true, T1) ->
  (if v6_families l then is_tunnel l' = false /\ T1 !! tunnel_v4_key l sc_p4info = None
   else v6_families l' = false) ->
  let '(s1, w1) := run (DoConfigFdbEntry l true addr) w in
  let '(s2, w2) := run (DoConfigFdbEntry l' false addr) w1 in
  connects addr w = true -> connects addr w1 = true ->
  ok s1 = true /\ sc_tables w1 = T1 /\ ok s2 = true /\ sc_tables w2 = sc_tables w.
Proof.
  intros Hwf Ht Hs Hm Hw Hl. destruct (tunnel_insert_effect l _ _ Hw Ht Hs) as [Hi Hp].
  destruct (same_mac_keys l l' sc_p4info Hm) as (_ & H4 & H6 & _).
  rewrite fdb_l2_tunnel_key in Hp.
  apply run_insert_delete; [done|by left|done|]. apply (tunnel_delete_effect l); [done..| |].
  - destruct (v6_families l).
    + destruct Hl as [Hl Hn]. rewrite H4 in Hn. rewrite H6 in Hp. by apply learned_v6.
    + rewrite H4 in Hp. by rewrite learned_v4.
  - destruct (v6_families l).
    + destruct Hl as [Hl Hn]. rewrite H4 in Hn. rewrite H6 in Hp. symmetry. by apply learned_v6.
    + rewrite H4 in Hp. rewrite learned_v4 by done. by symmetry.
Qed.

(** fdb_vlan_rx_leak: a VLAN MAC address that is learned and forgotten again
    does not leave the tables as they were: the receive-side entry, inserted
    with the others, is not deleted with them. *)
Theorem fdb_vlan_rx_leak l l' addr (w : W) port T2 :
  let rx := fdb_vlan_rx l sc_p4info true in
  let T1 := <[te_key rx := rx]> (sc_tables w) in
  wf_P4Info sc_p4info -> is_tunnel l = false -> is_tunnel l' = false -> same_mac l l' ->
  sc_accepts rx = true -> sc_tables w !! te_key rx = None ->
  lookup_port sc_p4info (src_port l) T1 = Some port ->
  switch_writes sc_accepts true (fdb_vlan_entries (set_src_port port l) sc_p4info true) T1 =
    (true, T2) ->
  T2 !! tunnel_v4_key l sc_p4info = None -> T2 !! tunnel_v6_key l sc_p4info = None ->
  let '(s1, w1) := run (DoConfigFdbEntry l true addr) w in
  let '(s2, w2) := run (DoConfigFdbEntry l' false addr) w1 in
  connects addr w = true -> connects addr w1 = true ->
  ok s1 = true /\ sc_tables w1 = T2 /\ ok s2 = true /\
  sc_tables w2 = <[te_key rx := rx]> (sc_tables w).
Proof.
  intros rx T1 Hwf Ht Ht' Hm Ha Hn Hl Hw H4 H6.
  apply run_insert_delete; [done|by right| |].
  - by eapply vlan_insert_effect.
  - by apply (vlan_delete_effect (set_src_port port l)).
Qed.

(** fdb_known_mac_noop: inserting a MAC address the L2 forwarding table
    already has for the bridge reports OK and changes nothing, whatever port
    or tunnel it is now learned on: a moved address keeps its old entries
    until it is deleted. *)
Theorem fdb_known_mac_noop l addr (w : W) :
  wf_P4Info sc_p4info -> supported_tunnel l \/ is_tunnel l = false ->
  is_Some (sc_tables w !! l2_fwd_tx_key l sc_p4info) ->
  let '(s, w') := run (DoConfigFdbEntry l true addr) w in
  ok s = connects addr w /\ sc_tables w' = sc_tables w.
Proof.
  intros Hwf Hs Hk. pose proof (wp_DoConfigFdbEntry l true addr w Hwf) as Hwp.
  rewrite andb_true_r in Hwp. specialize (Hwp Hs). unfold wp in Hwp.
  destruct (run _ w) as [s w']. simpl in *. destruct (connects addr w); [|done].
  unfold fdb_effect, fdb_tunnel_effect, fdb_vlan_effect in Hwp.
  rewrite bool_decide_true in Hwp by done. by case_match; injection Hwp as -> ->.
Qed.
End Spec.

(** ** Witnesses *)

Abbreviation sample_state := (ClientState (RefServer es2k_p4info (fun _ => true))).

Definition sample_client (T : tables) : sample_state := ref_client es2k_p4info (fun _ => true) T.

Definition sample_addr : string := "localhost:9559".

(** What the deletion is told: the MAC address and the bridge. *)
Definition sample_forget : mac_learning_info :=
  MkMacLearningInfo false false (mac_addr sample_learn) (bridge_id sample_learn) 0 0
    (MkPortVlanInfo P4_PORT_VLAN_ACCESS 0)
    (MkTunnelInfo 0 0 0 (MkIpAddr 0 0 (replicate 16 0)) (MkIpAddr 0 0 (replicate 16 0)) 0 0
       (MkPortVlanInfo P4_PORT_VLAN_ACCESS 0) 0 0).

Definition sample_vlan_learn : mac_learning_info :=
  set_src_port 23 (set_is_tunnel false sample_learn).

Lemma same_mac_forget : same_mac sample_learn sample_forget.
Proof. done. Qed.

Lemma DoConfigFdbEntry_refines_witness :
  ok (run (DoConfigFdbEntry sample_learn true sample_addr) (sample_client ∅)).1 = true.
Proof.
  pose proof (DoConfigFdbEntry_refines sample_learn true sample_addr (sample_client ∅)
    wf_es2k_p4info (or_introl (or_introl eq_refl))) as Hs.
  assert (Hc : connects sample_addr (sample_client ∅) = true) by (vm_compute; reflexivity).
  assert (He : (fdb_effect (W := sample_state) sample_learn true ∅).1 = true)
    by (vm_compute; reflexivity).
  rewrite Hc in Hs. destruct (run _ _) as [s w']. rewrite <- He.
  change (sc_tables (sample_client ∅)) with (∅ : tables) in Hs. rewrite <- Hs. reflexivity.
Defined.

Lemma fdb_tunnel_insert_delete_witness :
  sc_tables
    (run (DoConfigFdbEntry sample_forget false sample_addr)
       (run (DoConfigFdbEntry sample_learn true sample_addr) (sample_client ∅)).2).2 = ∅.
Proof.
  destruct (switch_writes (fun _ => true) true
    (fdb_tunnel_entries sample_learn es2k_p4info true) ∅) as [b T1] eqn:Hw.
  assert (Hb : b = true).
  { change b with (b, T1).1. rewrite <- Hw. vm_compute. reflexivity. }
  rewrite Hb in Hw.
  pose proof (fdb_tunnel_insert_delete sample_learn sample_forget sample_addr
    (sample_client ∅) T1 wf_es2k_p4info eq_refl (or_introl eq_refl) same_mac_forget Hw
    eq_refl) as Hs.
  assert (Hc : connects sample_addr (sample_client ∅) = true) by (vm_compute; reflexivity).
  assert (Hc1 : connects sample_addr
    (run (DoConfigFdbEntry sample_learn true sample_addr) (sample_client ∅)).2 = true)
    by (vm_compute; reflexivity).
  destruct (run _ (sample_client ∅)) as [s1 w1]. simpl in Hc1.
  simpl (snd (s1, w1)). destruct (run _ w1) as [s2 w2].
  destruct (Hs Hc Hc1) as (_ & _ & _ & HT). exact HT.
Defined.

Lemma fdb_vlan_rx_leak_witness :
  sc_tables
    (run (DoConfigFdbEntry sample_forget false sample_addr)
       (run (DoConfigFdbEntry sample_vlan_learn true sample_addr)
          (sample_client sample_vsi_tables)).2).2 =
  <[te_key (fdb_vlan_rx sample_vlan_learn es2k_p4info true) :=
      fdb_vlan_rx sample_vlan_learn es2k_p4info true]> sample_vsi_tables.
Proof.
  destruct (switch_writes (fun _ => true) true
    (fdb_vlan_entries (set_src_port 4919 sample_vlan_learn) es2k_p4info true)
    (<[te_key (fdb_vlan_rx sample_vlan_learn es2k_p4info true) :=
      fdb_vlan_rx sample_vlan_learn es2k_p4info true]> sample_vsi_tables)) as [b T2] eqn:Hw.
  assert (Hb : b = true).
  { change b with (b, T2).1. rewrite <- Hw. vm_compute. reflexivity. }
  rewrite Hb in Hw.
  assert (H46 : T2 !! tunnel_v4_key sample_vlan_learn es2k_p4info = None /\
                T2 !! tunnel_v6_key sample_vlan_learn es2k_p4info = None).
  { change T2 with (true, T2).2. rewrite <- Hw. split; vm_compute; reflexivity. }
  pose proof (fdb_vlan_rx_leak sample_vlan_learn sample_forget sample_addr
    (sample_client sample_vsi_tables) 4919 T2 wf_es2k_p4info eq_refl eq_refl same_mac_forget
    eq_refl ltac:(vm_compute; reflexivity) ltac:(vm_compute; reflexivity) Hw
    (proj1 H46) (proj2 H46)) as Hs.
  assert (Hc : connects sample_addr (sample_client sample_vsi_tables) = true)
    by (vm_compute; reflexivity).
  assert (Hc1 : connects sample_addr
    (run (DoConfigFdbEntry sample_vlan_learn true sample_addr)
       (sample_client sample_vsi_tables)).2 = true) by (vm_compute; reflexivity).
  destruct (run _ (sample_client sample_vsi_tables)) as [s1 w1]. simpl in Hc1.
  simpl (snd (s1, w1)). destruct (run _ w1) as [s2 w2].
  destruct (Hs Hc Hc1) as (_ & _ & _ & HT). exact HT.
Defined.

Lemma fdb_known_mac_noop_witness :
  ok (run (DoConfigFdbEntry sample_learn true sample_addr)
        (sample_client {[ l2_fwd_tx_key sample_learn es2k_p4info := default_TableEntry ]})).1
  = true.
Proof.
  pose proof (fdb_known_mac_noop sample_learn sample_addr
    (sample_client {[ l2_fwd_tx_key sample_learn es2k_p4info := default_TableEntry ]})
    wf_es2k_p4info (or_introl (or_introl eq_refl))
    ltac:(eexists; vm_compute; reflexivity)) as Hs.
  destruct (run _ _) as [s w']. destruct Hs as [Hs _]. simpl. rewrite Hs.
  vm_compute. reflexivity.
Defined.
