(* ===== verification/Es2kTunnel.v ===== *)
(** * Tunnel entries, ES2K ([core/v3/es2k_config_tunnel_entry.cc]) *)

From stdpp Require Import gmap.
From S2P Require Import Prelude P4Runtime OvsP4rt EncodeUtils P4InfoUtils Es2kNames.
From S2P Require Import Es2kEncoders Client Pipelines Session ClientImpl Switch Server.

Definition unsupported_tunnel_type : string := "ERROR: Unsupported tunnel type".

Definition PrepareV4EncapTableEntry (table_entry : TableEntry) (info : tunnel_info)
  (p4info : P4Info) (insert_entry : bool) : TableEntry * list string :=
  if tunnel_type info =? tunnel_type_value OVS_TUNNEL_VXLAN then
    (EncodeVxlanEncapTableEntry table_entry info p4info insert_entry, [])
  else if tunnel_type info =? tunnel_type_value OVS_TUNNEL_GENEVE then
    (EncodeGeneveEncapTableEntry table_entry info p4info insert_entry, [])
  else (table_entry, [unsupported_tunnel_type]).

Definition PrepareV6EncapTableEntry (table_entry : TableEntry) (info : tunnel_info)
  (p4info : P4Info) (insert_entry : bool) : TableEntry * list string :=
  if tunnel_type info =? tunnel_type_value OVS_TUNNEL_VXLAN then
    (EncodeV6VxlanEncapTableEntry table_entry info p4info insert_entry, [])
  else if tunnel_type info =? tunnel_type_value OVS_TUNNEL_GENEVE then
    (EncodeV6GeneveEncapTableEntry table_entry info p4info insert_entry, [])
  else (table_entry, [unsupported_tunnel_type]).

Definition PrepareV4EncapAndVlanPopTableEntry (table_entry : TableEntry) (info : tunnel_info)
  (p4info : P4Info) (insert_entry : bool) : TableEntry * list string :=
  if tunnel_type info =? tunnel_type_value OVS_TUNNEL_VXLAN then
    (EncodeVxlanEncapAndVlanPopTableEntry table_entry info p4info insert_entry, [])
  else if tunnel_type info =? tunnel_type_value OVS_TUNNEL_GENEVE then
    (EncodeGeneveEncapAndVlanPopTableEntry table_entry info p4info insert_entry, [])
  else (table_entry, [unsupported_tunnel_type]).

Definition PrepareV6EncapAndVlanPopTableEntry (table_entry : TableEntry) (info : tunnel_info)
  (p4info : P4Info) (insert_entry : bool) : TableEntry * list string :=
  if tunnel_type info =? tunnel_type_value OVS_TUNNEL_VXLAN then
    (EncodeV6VxlanEncapAndVlanPopTableEntry table_entry info p4info insert_entry, [])
  else if tunnel_type info =? tunnel_type_value OVS_TUNNEL_GENEVE then
    (EncodeV6GeneveEncapAndVlanPopTableEntry table_entry info p4info insert_entry, [])
  else (table_entry, [unsupported_tunnel_type]).

Definition PrepareEncapTableEntry (table_entry : TableEntry) (info : tunnel_info)
  (p4info : P4Info) (insert_entry : bool) : TableEntry * list string :=
  if (family (local_ip info) =? AF_INET) && (family (remote_ip info) =? AF_INET) then
    if decide (port_vlan_mode (tnl_vlan_info info) = P4_PORT_VLAN_NATIVE_UNTAGGED) then
      PrepareV4EncapAndVlanPopTableEntry table_entry info p4info insert_entry
    else
      PrepareV4EncapTableEntry table_entry info p4info insert_entry
  else if (family (local_ip info) =? AF_INET6) && (family (remote_ip info) =? AF_INET6) then
    if decide (port_vlan_mode (tnl_vlan_info info) = P4_PORT_VLAN_NATIVE_UNTAGGED) then
      PrepareV6EncapAndVlanPopTableEntry table_entry info p4info insert_entry
    else
      PrepareV6EncapTableEntry table_entry info p4info insert_entry
  else (table_entry, []).

Definition WriteEncapTableEntry (info : tunnel_info) (p4info : P4Info)
  (insert_entry : bool) : prog Status :=
  '(write_request, table_entry) ←
    do_call (initWriteRequest default_WriteRequest insert_entry);
  let '(te, out) :=
    PrepareEncapTableEntry (wr_deref write_request table_entry) info p4info insert_entry in
  print_lines out;;
  do_call (sendWriteRequest (wr_store write_request table_entry te)).

Definition PrepareDecapModTableEntry (table_entry : TableEntry) (info : tunnel_info)
  (p4info : P4Info) (insert_entry : bool) : TableEntry * list string :=
  if tunnel_type info =? tunnel_type_value OVS_TUNNEL_VXLAN then
    (EncodeVxlanDecapModTableEntry table_entry info p4info insert_entry, [])
  else if tunnel_type info =? tunnel_type_value OVS_TUNNEL_GENEVE then
    (EncodeGeneveDecapModTableEntry table_entry info p4info insert_entry, [])
  else (table_entry, [unsupported_tunnel_type]).

Definition PrepareDecapModAndVlanPushTableEntry (table_entry : TableEntry)
  (info : tunnel_info) (p4info : P4Info) (insert_entry : bool)
  : TableEntry * list string :=
  if tunnel_type info =? tunnel_type_value OVS_TUNNEL_VXLAN then
    (EncodeVxlanDecapModAndVlanPushTableEntry table_entry info p4info insert_entry, [])
  else if tunnel_type info =? tunnel_type_value OVS_TUNNEL_GENEVE then
    (EncodeGeneveDecapModAndVlanPushTableEntry table_entry info p4info insert_entry, [])
  else (table_entry, [unsupported_tunnel_type]).

Definition PrepareDecapTableEntry (table_entry : TableEntry) (info : tunnel_info)
  (p4info : P4Info) (insert_entry : bool) : TableEntry * list string :=
  if decide (port_vlan_mode (tnl_vlan_info info) = P4_PORT_VLAN_NATIVE_TAGGED) then
    PrepareDecapModTableEntry table_entry info p4info insert_entry
  else
    PrepareDecapModAndVlanPushTableEntry table_entry info p4info insert_entry.

Definition WriteDecapTableEntry (info : tunnel_info) (p4info : P4Info)
  (insert_entry : bool) : prog Status :=
  '(write_request, table_entry) ←
    do_call (initWriteRequest default_WriteRequest insert_entry);
  let '(te, out) :=
    PrepareDecapTableEntry (wr_deref write_request table_entry) info p4info insert_entry in
  print_lines out;;
  do_call (sendWriteRequest (wr_store write_request table_entry te)).

Definition PrepareTunnelTermTableEntry (table_entry : TableEntry) (info : tunnel_info)
  (p4info : P4Info) (insert_entry : bool) : TableEntry * list string :=
  if (family (local_ip info) =? AF_INET) && (family (remote_ip info) =? AF_INET) then
    EncodeTunnelTermTableEntry table_entry info p4info insert_entry
  else if (family (local_ip info) =? AF_INET6) && (family (remote_ip info) =? AF_INET6) then
    EncodeV6TunnelTermTableEntry table_entry info p4info insert_entry
  else (table_entry, []).

Definition WriteTunnelTermTableEntry (info : tunnel_info) (p4info : P4Info)
  (insert_entry : bool) : prog Status :=
  '(write_request, table_entry) ←
    do_call (initWriteRequest default_WriteRequest insert_entry);
  let '(te, out) :=
    PrepareTunnelTermTableEntry (wr_deref write_request table_entry) info p4info
      insert_entry in
  print_lines out;;
  do_call (sendWriteRequest (wr_store write_request table_entry te)).

Definition ConfigTunnelEntry (info : tunnel_info) (p4info : P4Info)
  (insert_entry : bool) : prog Status :=
  status ← WriteEncapTableEntry info p4info insert_entry;
  if negb (ok status) then mret status else
  status ← WriteDecapTableEntry info p4info insert_entry;
  if negb (ok status) then mret status else
  WriteTunnelTermTableEntry info p4info insert_entry.

Definition DoConfigTunnelEntry (info : tunnel_info) (insert_entry : bool)
  (grpc_addr : string) : prog Status :=
  status ← do_call (connect grpc_addr);
  if negb (ok status) then mret status else
  '(status, p4info) ← do_call getPipelineConfig;
  if negb (ok status) then mret status else
  ConfigTunnelEntry info p4info insert_entry.

(** ** Specification *)

(** The entries of the three tables a tunnel is configured in. *)
Definition tunnel_entries (info : tunnel_info) (p4info : P4Info) (ins : bool)
  : list TableEntry :=
  [(PrepareEncapTableEntry default_TableEntry info p4info ins).1;
   (PrepareDecapTableEntry default_TableEntry info p4info ins).1;
   (PrepareTunnelTermTableEntry default_TableEntry info p4info ins).1].

Lemma symmetric_encap info p4info :
  symmetric (fun b => (PrepareEncapTableEntry default_TableEntry info p4info b).1).
Proof.
  unfold PrepareEncapTableEntry, PrepareV4EncapAndVlanPopTableEntry, PrepareV4EncapTableEntry,
    PrepareV6EncapAndVlanPopTableEntry, PrepareV6EncapTableEntry.
  repeat case_match; done.
Qed.

Lemma symmetric_decap info p4info :
  symmetric (fun b => (PrepareDecapTableEntry default_TableEntry info p4info b).1).
Proof.
  unfold PrepareDecapTableEntry, PrepareDecapModTableEntry, PrepareDecapModAndVlanPushTableEntry.
  repeat case_match; done.
Qed.

Lemma symmetric_term info p4info :
  symmetric (fun b => (PrepareTunnelTermTableEntry default_TableEntry info p4info b).1).
Proof. unfold PrepareTunnelTermTableEntry. case_match; [auto|]. case_match; [auto|done]. Qed.

Lemma tunnel_entries_keys info p4info :
  te_key <$> tunnel_entries info p4info false = te_key <$> tunnel_entries info p4info true.
Proof.
  unfold tunnel_entries. cbn [fmap list_fmap].
  by rewrite (proj1 (symmetric_encap _ _)), (proj1 (symmetric_decap _ _)),
    (proj1 (symmetric_term _ _)).
Qed.

Section Spec.
Context {W : Type} `{SwitchClient W}.

Lemma wp_ConfigTunnelEntry id info p4info ins (w : W) :
  sc_ready id w ->
  wp (ConfigTunnelEntry info p4info ins)
    (wrote_seq id ins (tunnel_entries info p4info ins) w) w.
Proof.
  intros Hr. apply wp_write_then.
  { by apply (wp_print_write_entry id ins
      (fun te => PrepareEncapTableEntry te info p4info ins)). }
  intros w1 Hr1. apply wp_write_then.
  { by apply (wp_print_write_entry id ins
      (fun te => PrepareDecapTableEntry te info p4info ins)). }
  intros w2 Hr2. eapply wp_mono; [|apply wrote_seq_one].
  by apply (wp_print_write_entry id ins
    (fun te => PrepareTunnelTermTableEntry te info p4info ins)).
Qed.

Lemma wp_DoConfigTunnelEntry info ins addr (w : W) :
  wp (DoConfigTunnelEntry info ins addr)
    (operation_result addr ins (tunnel_entries info sc_p4info ins) w) w.
Proof.
  apply (wp_operation addr (fun p4info => ConfigTunnelEntry info p4info ins)).
  intros id w1 Hr. by apply wp_ConfigTunnelEntry.
Qed.

(** C1 DoConfigTunnelEntry_refines: configuring a tunnel is the update of its
    encapsulation, decapsulation and termination entries, in this order, under
    the server's own P4Info: the status and the tables are those of the
    abstract sequence, which stops at the first refused update and does not
    take back the earlier ones; without a session nothing is touched and an
    error is returned. *)
Theorem DoConfigTunnelEntry_refines info ins addr (w : W) :
  let '(s, w') := run (DoConfigTunnelEntry info ins addr) w in
  operation_result addr ins (tunnel_entries info sc_p4info ins) w s w'.
Proof.
  pose proof (wp_DoConfigTunnelEntry info ins addr w) as Hwp. unfold wp in Hwp.
  by destruct (run _ w).
Qed.

(** C2 tunnel_insert_delete: deleting a tunnel that was inserted successfully,
    with the same arguments, succeeds and restores the tables of the switch
    exactly, unless the session cannot be established. *)
Theorem tunnel_insert_delete info addr (w : W) :
  undone addr (fun ins => DoConfigTunnelEntry info ins addr) w.
Proof.
  apply (operation_undone addr _ (tunnel_entries info sc_p4info)); [|apply tunnel_entries_keys].
  intros. apply wp_DoConfigTunnelEntry.
Qed.

(** tunnel_partial_insert: when the decapsulation entry of a new tunnel is
    already there, the insertion fails and its encapsulation entry stays in
    the tables: there is no rollback. *)
Theorem tunnel_partial_insert id info (w : W) :
  sc_ready id w ->
  let encap := (PrepareEncapTableEntry default_TableEntry info sc_p4info true).1 in
  let decap := (PrepareDecapTableEntry default_TableEntry info sc_p4info true).1 in
  sc_accepts encap = true -> sc_tables w !! te_key encap = None ->
  is_Some (sc_tables w !! te_key decap) ->
  let '(s, w') := run (ConfigTunnelEntry info sc_p4info true) w in
  ok s = false /\ sc_tables w' = <[te_key encap := encap]> (sc_tables w).
Proof.
  intros Hr encap decap Ha Hn [e Hd].
  pose proof (wp_ConfigTunnelEntry id info sc_p4info true w Hr) as Hwp. unfold wp in Hwp.
  destruct (run _ w) as [s w']. destruct Hwp as [_ Heq]. simpl in Heq.
  fold encap in Heq. fold decap in Heq.
  rewrite switch_write_insert_ok in Heq by done.
  rewrite (switch_write_insert_exists _ decap _ e) in Heq; [by injection Heq|].
  rewrite lookup_insert_ne; [done|]. congruence.
Qed.

(** unsupported_tunnel_type_no_effect: a tunnel type that is neither VXLAN
    nor Geneve is not refused by the code: it sends an entry of no table. A
    server that rejects such an entry makes both directions fail with the
    tables unchanged. *)
Theorem unsupported_tunnel_type_no_effect id info ins (w : W) :
  sc_ready id w -> tunnel_type info <> 1 -> tunnel_type info <> 2 ->
  sc_accepts default_TableEntry = false ->
  sc_tables w !! te_key default_TableEntry = None ->
  (PrepareEncapTableEntry default_TableEntry info sc_p4info ins).1 = default_TableEntry /\
  let '(s, w') := run (ConfigTunnelEntry info sc_p4info ins) w in
  ok s = false /\ sc_tables w' = sc_tables w.
Proof.
  intros Hr H1 H2 Ha Hn.
  assert (Henc : (PrepareEncapTableEntry default_TableEntry info sc_p4info ins).1 =
    default_TableEntry).
  { unfold PrepareEncapTableEntry, PrepareV4EncapAndVlanPopTableEntry,
      PrepareV4EncapTableEntry, PrepareV6EncapAndVlanPopTableEntry, PrepareV6EncapTableEntry.
    apply Z.eqb_neq in H1, H2. simpl in *. rewrite H1, H2. by repeat case_match. }
  split; [done|].
  pose proof (wp_ConfigTunnelEntry id info sc_p4info ins w Hr) as Hwp. unfold wp in Hwp.
  destruct (run _ w) as [s w']. destruct Hwp as [_ Heq]. simpl in Heq. rewrite Henc in Heq.
  destruct ins.
  - unfold switch_write in Heq. rewrite Ha in Heq. simpl in Heq. by injection Heq.
  - rewrite switch_write_delete_missing in Heq by done. by injection Heq.
Qed.
End Spec.

(** A server of the ES2K pipeline that refuses entries of no table. *)
Definition known_table (te : TableEntry) : bool := negb (te_table_id te =? 0).

Definition sample_world (T : tables) := ref_world es2k_p4info known_table T.

Lemma tunnel_insert_delete_witness :
  ok (run (DoConfigTunnelEntry sample_tunnel true "localhost:9559")
        (ref_client es2k_p4info known_table ∅)).1 = true /\
  undone "localhost:9559" (fun ins => DoConfigTunnelEntry sample_tunnel ins "localhost:9559")
    (ref_client es2k_p4info known_table ∅).
Proof. split; [vm_compute; reflexivity|]. apply tunnel_insert_delete. Defined.

Lemma tunnel_partial_insert_witness :
  ok (run (ConfigTunnelEntry sample_tunnel es2k_p4info true)
        (sample_world
           {[ te_key (PrepareDecapTableEntry default_TableEntry sample_tunnel es2k_p4info
                        true).1 := default_TableEntry ]})).1 = false.
Proof.
  pose proof (tunnel_partial_insert ref_id sample_tunnel (sample_world
           {[ te_key (PrepareDecapTableEntry default_TableEntry sample_tunnel es2k_p4info
                        true).1 := default_TableEntry ]}) (ref_world_ready _ _ _)) as Hp.
  cbv zeta in Hp. specialize (Hp ltac:(vm_compute; reflexivity) ltac:(vm_compute; reflexivity)
    ltac:(eexists; vm_compute; reflexivity)).
  change (sc_p4info) with es2k_p4info in Hp.
  destruct (run _ _) as [s w']. exact (proj1 Hp).
Defined.

Definition sample_unknown_tunnel : tunnel_info :=
  MkTunnelInfo 1 2 3 (local_ip sample_tunnel) (remote_ip sample_tunnel) (htons 4789) 1000
    (MkPortVlanInfo P4_PORT_VLAN_NATIVE_UNTAGGED 5) 7 0.

Lemma unsupported_tunnel_type_no_effect_witness :
  ok (run (ConfigTunnelEntry sample_unknown_tunnel es2k_p4info true) (sample_world ∅)).1 = false.
Proof.
  destruct (unsupported_tunnel_type_no_effect ref_id sample_unknown_tunnel true
    (sample_world ∅) (ref_world_ready _ _ _)) as [_ Hs];
    [discriminate|discriminate|reflexivity|reflexivity|].
  change (sc_p4info) with es2k_p4info in Hs. destruct (run _ _) as [s w']. exact (proj1 Hs).
Defined.

(** ** Termination and decapsulation *)

(** The entry names a table, or its action is one, that pushes a VLAN. *)
Definition pushes_vlan_table (te : TableEntry) : bool :=
  bool_decide (te_table_id te ∈
    (fun n => w32 (GetTableId es2k_p4info n)) <$>
      [VXLAN_DECAP_AND_VLAN_PUSH_MOD_TABLE; GENEVE_DECAP_AND_VLAN_PUSH_MOD_TABLE]).

Definition pushes_vlan_action (te : TableEntry) : bool :=
  bool_decide (a_action_id (te_action_or_default te) ∈
    (fun n => w32 (GetActionId es2k_p4info n)) <$>
      [ACTION_SET_VXLAN_DECAP_OUTER_HDR_AND_PUSH_VLAN;
       ACTION_SET_GENEVE_DECAP_OUTER_HDR_AND_PUSH_VLAN]).

Definition native (m : p4_vlan_mode) : bool :=
  match m with P4_PORT_VLAN_NATIVE_TAGGED | P4_PORT_VLAN_NATIVE_UNTAGGED => true | _ => false end.

(** term_decap_vlan_push: in the pipeline of the repository, the action of
    the tunnel termination entry and the table its decapsulation entry is in
    agree on whether a VLAN tag is pushed exactly for the two native port VLAN
    modes; for the other four modes the termination says no and the
    decapsulation yes. *)
Theorem term_decap_vlan_push info :
  tunnel_type info = 1 \/ tunnel_type info = 2 ->
  (family (local_ip info) = AF_INET /\ family (remote_ip info) = AF_INET) \/
  (family (local_ip info) = AF_INET6 /\ family (remote_ip info) = AF_INET6) ->
  eqb (pushes_vlan_action
         (PrepareTunnelTermTableEntry default_TableEntry info es2k_p4info true).1)
      (pushes_vlan_table (PrepareDecapTableEntry default_TableEntry info es2k_p4info true).1)
  = native (port_vlan_mode (tnl_vlan_info info)).
Proof.
  unfold PrepareTunnelTermTableEntry, PrepareDecapTableEntry, PrepareDecapModTableEntry,
    PrepareDecapModAndVlanPushTableEntry, EncodeTunnelTermTableEntry,
    EncodeV6TunnelTermTableEntry.
  intros [-> | ->] [[-> ->] | [-> ->]]; destruct (port_vlan_mode (tnl_vlan_info info)); reflexivity.
Qed.

Lemma term_decap_vlan_push_witness :
  eqb (pushes_vlan_action
         (PrepareTunnelTermTableEntry default_TableEntry sample_tunnel es2k_p4info true).1)
      (pushes_vlan_table
         (PrepareDecapTableEntry default_TableEntry sample_tunnel es2k_p4info true).1) = true.
Proof. apply (term_decap_vlan_push sample_tunnel); [by left|left; done]. Defined.
