(* ===== verification/Es2kIpMacMap.v ===== *)
(** * IP-to-MAC map entries, ES2K ([core/v3/do_config_ip_mac_map_entry.cc]) *)

From stdpp Require Import gmap.
From S2P Require Import Prelude P4Runtime OvsP4rt EncodeUtils P4InfoUtils Logging.
From S2P Require Import Es2kNames Es2kEncoders Client Pipelines Session ClientImpl Switch.
From S2P Require Import Server.

(** [<netinet/in.h>]; both constants are in host byte order. *)
Definition INADDR_ANY : Z := 0.
Definition INADDR_LOOPBACK : Z := 2130706433.

Definition ValidIpAddr (nw_addr : Z) : bool :=
  negb (nw_addr =? 0) && negb (nw_addr =? INADDR_ANY) &&
  negb (nw_addr =? INADDR_LOOPBACK) && negb (nw_addr =? 4294967295).

Definition ReadVmSrcTableEntry (ip_info : ip_mac_map_info) (p4info : P4Info)
  : prog (StatusOr ReadResponse) :=
  '(read_request, table_entry) ← do_call (initReadRequest default_ReadRequest);
  let '(te, _) :=
    EncodeSrcIpMacMapTableEntry (rr_deref read_request table_entry) ip_info p4info false
      default_DiagDetail in
  do_call (sendReadRequest (rr_store read_request table_entry te)).

Definition ReadVmDstTableEntry (ip_info : ip_mac_map_info) (p4info : P4Info)
  : prog (StatusOr ReadResponse) :=
  '(read_request, table_entry) ← do_call (initReadRequest default_ReadRequest);
  let '(te, _) :=
    EncodeDstIpMacMapTableEntry (rr_deref read_request table_entry) ip_info p4info false
      default_DiagDetail in
  do_call (sendReadRequest (rr_store read_request table_entry te)).

(** [if (!status.ok()) LogFailure(...)]. *)
Definition log_if_failed (status : Status) (insert_entry : bool) (detail : DiagDetail)
  : prog unit :=
  if negb (ok status) then
    do_call (cout (LogFailure insert_entry (getLogTableName detail)))
  else mret ().

Definition WriteDstIpMacMapTableEntry (ip_info : ip_mac_map_info) (p4info : P4Info)
  (insert_entry : bool) : prog Status :=
  '(write_request, table_entry) ←
    do_call (initWriteRequest default_WriteRequest insert_entry);
  let '(te, detail) :=
    EncodeDstIpMacMapTableEntry (wr_deref write_request table_entry) ip_info p4info
      insert_entry default_DiagDetail in
  status ← do_call (sendWriteRequest (wr_store write_request table_entry te));
  log_if_failed status insert_entry detail;;
  mret status.

Definition WriteSrcIpMacMapTableEntry (ip_info : ip_mac_map_info) (p4info : P4Info)
  (insert_entry : bool) : prog Status :=
  '(write_request, table_entry) ←
    do_call (initWriteRequest default_WriteRequest insert_entry);
  let '(te, detail) :=
    EncodeSrcIpMacMapTableEntry (wr_deref write_request table_entry) ip_info p4info
      insert_entry default_DiagDetail in
  status ← do_call (sendWriteRequest (wr_store write_request table_entry te));
  log_if_failed status insert_entry detail;;
  mret status.

(** The part of [ConfigIpMacMapEntry] from the label [try_dstip] on. *)
Definition ConfigIpMacMapEntry_try_dstip (ip_info : ip_mac_map_info) (p4info : P4Info)
  (insert_entry : bool) : prog Status :=
  let write_dst :=
    (if ValidIpAddr (s_addr (src_ip_addr ip_info)) then
       WriteDstIpMacMapTableEntry ip_info p4info insert_entry;; mret ()
     else mret ());;
    mret OkStatus in
  if insert_entry then
    status_or_read_response ← ReadVmDstTableEntry ip_info p4info;
    if is_ok status_or_read_response then mret (status_of status_or_read_response)
    else write_dst
  else write_dst.

Definition ConfigIpMacMapEntry (ip_info : ip_mac_map_info) (p4info : P4Info)
  (insert_entry : bool) : prog Status :=
  let write_src :=
    (if ValidIpAddr (s_addr (src_ip_addr ip_info)) then
       WriteSrcIpMacMapTableEntry ip_info p4info insert_entry;; mret ()
     else mret ());;
    ConfigIpMacMapEntry_try_dstip ip_info p4info insert_entry in
  if insert_entry then
    status_or_read_response ← ReadVmSrcTableEntry ip_info p4info;
    if is_ok status_or_read_response then
      ConfigIpMacMapEntry_try_dstip ip_info p4info insert_entry
    else write_src
  else write_src.

Definition DoConfigIpMacMapEntry (ip_info : ip_mac_map_info) (insert_entry : bool)
  (grpc_addr : string) : prog Status :=
  status ← do_call (connect grpc_addr);
  if negb (ok status) then mret status else
  '(status, p4info) ← do_call getPipelineConfig;
  if negb (ok status) then mret status else
  ConfigIpMacMapEntry ip_info p4info insert_entry.

(** ** Specification *)

Definition src_ip_mac_entry (im : ip_mac_map_info) (p4info : P4Info) (ins : bool) : TableEntry :=
  (EncodeSrcIpMacMapTableEntry default_TableEntry im p4info ins default_DiagDetail).1.

Definition dst_ip_mac_entry (im : ip_mac_map_info) (p4info : P4Info) (ins : bool) : TableEntry :=
  (EncodeDstIpMacMapTableEntry default_TableEntry im p4info ins default_DiagDetail).1.

Section Spec.
Context {W : Type} `{SwitchClient W}.

(** The tables after the operation on tables [T]: both updates, failures
    ignored, when the *source* address is valid; nothing otherwise. *)
Definition ip_mac_effect (im : ip_mac_map_info) (ins : bool) (T : tables) : tables :=
  if ValidIpAddr (s_addr (src_ip_addr im)) then
    switch_writes_all sc_accepts ins
      [src_ip_mac_entry im sc_p4info ins; dst_ip_mac_entry im sc_p4info ins] T
  else T.

Lemma wp_log_if_failed id s ins d (w : W) :
  sc_ready id w ->
  wp (log_if_failed s ins d;; mret s) (fun s' w' => s' = s /\ same id w w') w.
Proof.
  intros Hr. eapply wp_seq.
  - unfold log_if_failed. apply wp_if; intros _; [by apply (wp_cout id)|].
    apply (wp_ret _ (fun _ => same id w)). by split.
  - intros [] w' Hw'. by apply wp_ret.
Qed.

Lemma wp_WriteSrc id im p4info ins (w : W) :
  sc_ready id w ->
  wp (WriteSrcIpMacMapTableEntry im p4info ins)
    (wrote id ins (src_ip_mac_entry im p4info ins) w) w.
Proof.
  apply (wp_write_entry id ins
    (fun te => EncodeSrcIpMacMapTableEntry te im p4info ins default_DiagDetail)
    (fun s d => log_if_failed s ins d;; mret s)).
  intros. by apply wp_log_if_failed.
Qed.

Lemma wp_WriteDst id im p4info ins (w : W) :
  sc_ready id w ->
  wp (WriteDstIpMacMapTableEntry im p4info ins)
    (wrote id ins (dst_ip_mac_entry im p4info ins) w) w.
Proof.
  apply (wp_write_entry id ins
    (fun te => EncodeDstIpMacMapTableEntry te im p4info ins default_DiagDetail)
    (fun s d => log_if_failed s ins d;; mret s)).
  intros. by apply wp_log_if_failed.
Qed.

Lemma src_ip_mac_key im p4info ins :
  te_key (src_ip_mac_entry im p4info ins) = te_key (src_ip_mac_entry im p4info false).
Proof. by destruct ins. Qed.

Lemma dst_ip_mac_key im p4info ins :
  te_key (dst_ip_mac_entry im p4info ins) = te_key (dst_ip_mac_entry im p4info false).
Proof. by destruct ins. Qed.

(** Writing one entry when [b], then going on. *)
Lemma wp_optional_write {A} id ins te (b : bool) (p : prog Status) (q : prog A)
  (Q : A -> W -> Prop) w :
  sc_ready id w -> wp p (wrote id ins te w) w ->
  (forall w', sc_ready id w' ->
     sc_tables w' = (if b then (switch_write sc_accepts ins te (sc_tables w)).2 else sc_tables w) ->
     wp q Q w') ->
  wp ((if b then p;; mret () else mret ());; q) Q w.
Proof.
  intros Hr Hp Hq. destruct b.
  - apply wp_bind. eapply wp_ignore; [exact Hp|]. intros w1 Hr1 HT1. apply wp_ret. by apply Hq.
  - apply wp_bind, wp_ret. by apply Hq.
Qed.

Lemma wp_try_dstip id im ins (w : W) :
  wf_P4Info sc_p4info -> sc_ready id w ->
  wp (ConfigIpMacMapEntry_try_dstip im sc_p4info ins)
    (fun s w' => s = OkStatus /\ sc_tables w' =
       if ValidIpAddr (s_addr (src_ip_addr im)) then
         (switch_write sc_accepts ins (dst_ip_mac_entry im sc_p4info ins) (sc_tables w)).2
       else sc_tables w) w.
Proof.
  intros Hwf Hr. unfold ConfigIpMacMapEntry_try_dstip. destruct ins.
  - eapply wp_seq.
    { apply (wp_read_entry id
        (fun te => (EncodeDstIpMacMapTableEntry te im sc_p4info false default_DiagDetail).1));
        [done|]. split; [by apply GetTableId_nonzero|done]. }
    intros r w1 [[Hr1 HT1] Hm].
    change (te_key _) with (te_key (dst_ip_mac_entry im sc_p4info false)) in Hm.
    destruct (sc_tables w !! _) as [e|] eqn:Hk.
    + subst r. apply wp_ret. split; [done|].
      rewrite (switch_write_insert_exists _ _ _ e) by (by rewrite dst_ip_mac_key).
      rewrite HT1. by case_match.
    + rewrite Hm. apply (wp_optional_write id true (dst_ip_mac_entry im sc_p4info true));
        [done|by apply wp_WriteDst|].
      intros w2 Hr2 HT2. apply wp_ret. by rewrite HT2, HT1.
  - apply (wp_optional_write id false (dst_ip_mac_entry im sc_p4info false));
      [done|by apply wp_WriteDst|].
    intros w2 Hr2 HT2. by apply wp_ret.
Qed.

Lemma wp_ConfigIpMacMapEntry id im ins (w : W) :
  wf_P4Info sc_p4info -> sc_ready id w ->
  wp (ConfigIpMacMapEntry im sc_p4info ins)
    (fun s w' => s = OkStatus /\ sc_tables w' = ip_mac_effect im ins (sc_tables w)) w.
Proof.
  intros Hwf Hr. unfold ConfigIpMacMapEntry, ip_mac_effect. cbn [switch_writes_all].
  destruct ins.
  - eapply wp_seq.
    { apply (wp_read_entry id
        (fun te => (EncodeSrcIpMacMapTableEntry te im sc_p4info false default_DiagDetail).1));
        [done|]. split; [by apply GetTableId_nonzero|done]. }
    intros r w1 [[Hr1 HT1] Hm].
    change (te_key _) with (te_key (src_ip_mac_entry im sc_p4info false)) in Hm.
    destruct (sc_tables w !! _) as [e|] eqn:Hk.
    + subst r. eapply wp_mono; [by apply (wp_try_dstip id)|]. intros s w2 [-> HT2].
      split; [done|].
      rewrite (switch_write_insert_exists _ (src_ip_mac_entry im sc_p4info true) _ e)
        by (by rewrite src_ip_mac_key).
      by rewrite HT2, HT1.
    + rewrite Hm. apply (wp_optional_write id true (src_ip_mac_entry im sc_p4info true));
        [done|by apply wp_WriteSrc|].
      intros w2 Hr2 HT2. eapply wp_mono; [by apply (wp_try_dstip id)|].
      intros s w3 [-> HT3]. split; [done|]. rewrite HT3, HT2, HT1. by case_match.
  - apply (wp_optional_write id false (src_ip_mac_entry im sc_p4info false));
      [done|by apply wp_WriteSrc|].
    intros w2 Hr2 HT2. eapply wp_mono; [by apply (wp_try_dstip id)|].
    intros s w3 [-> HT3]. split; [done|]. rewrite HT3, HT2. by case_match.
Qed.

(** C26 DoConfigIpMacMapEntry_spec: with a session, the operation reports OK and
    its effect is that of both updates, each tried whatever became of the
    other, when the source IPv4 address is valid, and none when it is not: the
    destination entry too depends on the source address, and the reads that
    precede the insertions change nothing. *)
Theorem DoConfigIpMacMapEntry_spec im ins addr (w : W) :
  wf_P4Info sc_p4info ->
  let '(s, w') := run (DoConfigIpMacMapEntry im ins addr) w in
  if connects addr w then s = OkStatus /\ sc_tables w' = ip_mac_effect im ins (sc_tables w)
  else ok s = false /\ sc_tables w' = sc_tables w.
Proof.
  intros Hwf.
  assert (Hwp : wp (DoConfigIpMacMapEntry im ins addr) (fun s w' =>
    if connects addr w then s = OkStatus /\ sc_tables w' = ip_mac_effect im ins (sc_tables w)
    else ok s = false /\ sc_tables w' = sc_tables w) w).
  { apply (wp_session addr (fun p4info => ConfigIpMacMapEntry im p4info ins)).
    - intros s w' Hc Hs HT. by rewrite Hc.
    - intros id w1 Hc Hr HT. eapply wp_mono; [by apply (wp_ConfigIpMacMapEntry id)|].
      intros s w' [-> HT']. by rewrite Hc, HT', HT. }
  unfold wp in Hwp. by destruct (run _ w).
Qed.

(** ip_mac_insert_delete: when both entries could be inserted, deleting them
    restores the tables; so does deleting when the source address is invalid
    (nothing was inserted). *)
Theorem ip_mac_insert_delete im T T1 :
  switch_writes sc_accepts true
    [src_ip_mac_entry im sc_p4info true; dst_ip_mac_entry im sc_p4info true] T = (true, T1) ->
  ip_mac_effect im false (ip_mac_effect im true T) = T.
Proof.
  intros Hins. unfold ip_mac_effect. case_match; [|done].
  rewrite (switch_writes_all_ok _ _ _ _ _ Hins).
  by apply switch_writes_all_ok, (switch_writes_insert_delete _ _ _ _ _ Hins).
Qed.
End Spec.

(** ValidIpAddr_spec: an address is refused when its four bytes are
    0.0.0.0, 255.255.255.255 or 1.0.0.127. The loopback address 127.0.0.1 is
    accepted: the constant it is compared with is in host byte order, the
    address in network byte order. *)
Theorem ValidIpAddr_spec a :
  wf_ipaddr a ->
  ValidIpAddr (s_addr a) = true <->
  take 4 (ip a) ∉ [[0; 0; 0; 0]; [255; 255; 255; 255]; [1; 0; 0; 127]].
Proof.
  intros Ha. rewrite (ip16_inv a Ha). cbn [take].
  pose proof (u6_addr8_byte a 0 Ha ltac:(lia)). pose proof (u6_addr8_byte a 1 Ha ltac:(lia)).
  pose proof (u6_addr8_byte a 2 Ha ltac:(lia)). pose proof (u6_addr8_byte a 3 Ha ltac:(lia)).
  unfold ValidIpAddr, s_addr, u6_addr32, INADDR_ANY, INADDR_LOOPBACK, is_byte in *.
  cbn [le_val Nat.mul Nat.add].
  generalize dependent (u6_addr8 a 0); intros b0 ?. generalize dependent (u6_addr8 a 1); intros b1 ?.
  generalize dependent (u6_addr8 a 2); intros b2 ?. generalize dependent (u6_addr8 a 3); intros b3 ?.
  rewrite !not_elem_of_cons. split.
  - intros Hv. repeat split; [..|apply not_elem_of_nil]; intros [= -> -> -> ->]; by vm_compute in Hv.
  - intros (Hz & Hf & Hl & _).
    destruct (decide (b0 = 0 /\ b1 = 0 /\ b2 = 0 /\ b3 = 0)) as [(-> & -> & -> & ->)|]; [done|].
    destruct (decide (b0 = 255 /\ b1 = 255 /\ b2 = 255 /\ b3 = 255))
      as [(-> & -> & -> & ->)|]; [done|].
    destruct (decide (b0 = 1 /\ b1 = 0 /\ b2 = 0 /\ b3 = 127)) as [(-> & -> & -> & ->)|]; [done|].
    rewrite !andb_true_iff, !negb_true_iff, !Z.eqb_neq. lia.
Qed.

(** ** Witnesses *)

Definition sample_client := ref_client es2k_p4info (fun _ => true) ∅.

Lemma DoConfigIpMacMapEntry_spec_witness :
  (run (DoConfigIpMacMapEntry sample_ip_mac true "localhost:9559") sample_client).1 = OkStatus.
Proof.
  pose proof (DoConfigIpMacMapEntry_spec sample_ip_mac true "localhost:9559" sample_client
    wf_es2k_p4info) as Hs.
  assert (Hc : connects "localhost:9559" sample_client = true) by (vm_compute; reflexivity).
  rewrite Hc in Hs. destruct (run _ _) as [s w']. exact (proj1 Hs).
Defined.

Abbreviation sample_state := (ClientState (RefServer es2k_p4info (fun _ => true))).

Lemma ip_mac_insert_delete_witness :
  ip_mac_effect (W := sample_state) sample_ip_mac false
    (ip_mac_effect (W := sample_state) sample_ip_mac true ∅) = ∅.
Proof.
  destruct (switch_writes (fun _ => true) true
    [src_ip_mac_entry sample_ip_mac es2k_p4info true;
     dst_ip_mac_entry sample_ip_mac es2k_p4info true] ∅) as [b T1] eqn:Hw.
  assert (Hb : b = true).
  { change b with (b, T1).1. rewrite <- Hw. vm_compute. reflexivity. }
  rewrite Hb in Hw.
  exact (ip_mac_insert_delete (W := sample_state) sample_ip_mac ∅ T1 Hw).
Defined.

Lemma ValidIpAddr_spec_witness :
  ValidIpAddr (s_addr (MkIpAddr AF_INET 8 ([127; 0; 0; 1] ++ replicate 12 0))) = true.
Proof.
  apply (ValidIpAddr_spec (MkIpAddr AF_INET 8 ([127; 0; 0; 1] ++ replicate 12 0)));
    by_computation.
Defined.
