(* ===== verification/Es2kPorts.v ===== *)
(** * Source ports and VLANs, ES2K

    [core/v3/do_config_rx_tunnel_src_entry.cc], [do_config_src_port_entry.cc],
    [do_config_tunnel_src_port_entry.cc] and [do_config_vlan_entry.cc]. *)

From stdpp Require Import gmap.
From S2P Require Import Prelude P4Runtime OvsP4rt EncodeUtils P4InfoUtils Es2kNames.
From S2P Require Import Es2kEncoders Client Pipelines Session ClientImpl Switch Server.
From S2P Require Import TxAccVsi.

(** ** do_config_rx_tunnel_src_entry.cc *)

Definition PrepareRxTunnelSrcPortTableEntry (table_entry : TableEntry) (info : tunnel_info)
  (p4info : P4Info) (insert_entry : bool) : TableEntry :=
  if (family (local_ip info) =? AF_INET) && (family (remote_ip info) =? AF_INET) then
    EncodeRxTunnelTableEntry table_entry info p4info insert_entry
  else if (family (local_ip info) =? AF_INET6) && (family (remote_ip info) =? AF_INET6) then
    EncodeV6RxTunnelTableEntry table_entry info p4info insert_entry
  else table_entry.

Definition WriteRxTunnelSrcPortTableEntry (info : tunnel_info) (p4info : P4Info)
  (insert_entry : bool) : prog Status :=
  '(write_request, table_entry) ←
    do_call (initWriteRequest default_WriteRequest insert_entry);
  let te :=
    PrepareRxTunnelSrcPortTableEntry (wr_deref write_request table_entry) info p4info
      insert_entry in
  do_call (sendWriteRequest (wr_store write_request table_entry te)).

Definition DoConfigRxTunnelSrcEntry (info : tunnel_info) (insert_entry : bool)
  (grpc_addr : string) : prog Status :=
  status ← do_call (connect grpc_addr);
  if negb (ok status) then mret status else
  '(status, p4info) ← do_call getPipelineConfig;
  if negb (ok status) then mret status else
  WriteRxTunnelSrcPortTableEntry info p4info insert_entry.

(** ** do_config_src_port_entry.cc *)

Definition WriteVsiSrcPortTableEntry (port_info : src_port_info) (p4info : P4Info)
  (insert_entry : bool) : prog Status :=
  '(write_request, table_entry) ←
    do_call (initWriteRequest default_WriteRequest insert_entry);
  let te :=
    EncodeSrcPortTableEntry (wr_deref write_request table_entry) port_info p4info
      insert_entry in
  do_call (sendWriteRequest (wr_store write_request table_entry te)).

Definition ConfigSrcPortEntry (port_info : src_port_info) (p4info : P4Info)
  (insert_entry : bool) : prog Status :=
  host_sp ← GetTxAccVsiPort p4info (sp_src_port port_info);
  match host_sp with
  | StatusError e => mret (ErrStatus e)
  | StatusValue host_sp =>
      let port_info := set_sp_src_port host_sp port_info in
      WriteVsiSrcPortTableEntry port_info p4info insert_entry
  end.

Definition DoConfigSrcPortEntry (port_info : src_port_info) (insert_entry : bool)
  (grpc_addr : string) : prog Status :=
  status ← do_call (connect grpc_addr);
  if negb (ok status) then mret status else
  '(status, p4info) ← do_call getPipelineConfig;
  if negb (ok status) then mret status else
  ConfigSrcPortEntry port_info p4info insert_entry.

(** ** do_config_tunnel_src_port_entry.cc *)

Definition WriteTunnelSrcPortEntry (port_info : src_port_info) (p4info : P4Info)
  (insert_entry : bool) : prog Status :=
  '(write_request, table_entry) ←
    do_call (initWriteRequest default_WriteRequest insert_entry);
  let te :=
    EncodeSrcPortTableEntry (wr_deref write_request table_entry) port_info p4info
      insert_entry in
  do_call (sendWriteRequest (wr_store write_request table_entry te)).

Definition DoConfigTunnelSrcPortEntry (port_info : src_port_info) (insert_entry : bool)
  (grpc_addr : string) : prog Status :=
  status ← do_call (connect grpc_addr);
  if negb (ok status) then mret status else
  '(status, p4info) ← do_call getPipelineConfig;
  if negb (ok status) then mret status else
  WriteTunnelSrcPortEntry port_info p4info insert_entry.

(** ** do_config_vlan_entry.cc *)

Definition WriteVlanPushTableEntry (vlan_id : Z) (p4info : P4Info)
  (insert_entry : bool) : prog Status :=
  '(write_request, table_entry) ←
    do_call (initWriteRequest default_WriteRequest insert_entry);
  let te :=
    EncodeVlanPushTableEntry (wr_deref write_request table_entry) vlan_id p4info
      insert_entry in
  do_call (sendWriteRequest (wr_store write_request table_entry te)).

Definition WriteVlanPopTableEntry (vlan_id : Z) (p4info : P4Info)
  (insert_entry : bool) : prog Status :=
  '(write_request, table_entry) ←
    do_call (initWriteRequest default_WriteRequest insert_entry);
  let te :=
    EncodeVlanPopTableEntry (wr_deref write_request table_entry) vlan_id p4info
      insert_entry in
  do_call (sendWriteRequest (wr_store write_request table_entry te)).

Definition ConfigVlanEntry (vlan_id : Z) (p4info : P4Info) (insert_entry : bool)
  : prog Status :=
  status ← WriteVlanPushTableEntry vlan_id p4info insert_entry;
  if negb (ok status) then mret status else
  WriteVlanPopTableEntry vlan_id p4info insert_entry.

Definition DoConfigVlanEntry (vlan_id : Z) (insert_entry : bool) (grpc_addr : string)
  : prog Status :=
  status ← do_call (connect grpc_addr);
  if negb (ok status) then mret status else
  '(status, p4info) ← do_call getPipelineConfig;
  if negb (ok status) then mret status else
  ConfigVlanEntry vlan_id p4info insert_entry.

(** ** Specification *)

Definition rx_tunnel_src_entry (info : tunnel_info) (p4info : P4Info) (ins : bool)
  : TableEntry := PrepareRxTunnelSrcPortTableEntry default_TableEntry info p4info ins.

Definition src_port_entry (sp : src_port_info) (p4info : P4Info) (ins : bool)
  : TableEntry := EncodeSrcPortTableEntry default_TableEntry sp p4info ins.

Definition vlan_entries (vlan_id : Z) (p4info : P4Info) (ins : bool) : list TableEntry :=
  [EncodeVlanPushTableEntry default_TableEntry vlan_id p4info ins;
   EncodeVlanPopTableEntry default_TableEntry vlan_id p4info ins].

Section Spec.
Context {W : Type} `{SwitchClient W}.

Lemma wp_ConfigVlanEntry id vlan_id p4info ins (w : W) :
  sc_ready id w ->
  wp (ConfigVlanEntry vlan_id p4info ins)
    (wrote_seq id ins (vlan_entries vlan_id p4info ins) w) w.
Proof.
  intros Hr. apply wp_write_then.
  { by apply (wp_plain_write_entry id ins
      (fun te => EncodeVlanPushTableEntry te vlan_id p4info ins)). }
  intros w1 Hr1. eapply wp_mono; [|apply wrote_seq_one].
  by apply (wp_plain_write_entry id ins
    (fun te => EncodeVlanPopTableEntry te vlan_id p4info ins)).
Qed.

Lemma wp_DoConfigVlanEntry vlan_id ins addr (w : W) :
  wp (DoConfigVlanEntry vlan_id ins addr)
    (operation_result addr ins (vlan_entries vlan_id sc_p4info ins) w) w.
Proof.
  apply (wp_operation addr (fun p4info => ConfigVlanEntry vlan_id p4info ins)).
  intros id w1 Hr. by apply wp_ConfigVlanEntry.
Qed.

Lemma wp_DoConfigRxTunnelSrcEntry info ins addr (w : W) :
  wp (DoConfigRxTunnelSrcEntry info ins addr)
    (operation_result addr ins [rx_tunnel_src_entry info sc_p4info ins] w) w.
Proof.
  apply (wp_operation addr (fun p4info => WriteRxTunnelSrcPortTableEntry info p4info ins)).
  intros id w1 Hr. eapply wp_mono; [|apply wrote_seq_one].
  by apply (wp_plain_write_entry id ins
    (fun te => PrepareRxTunnelSrcPortTableEntry te info sc_p4info ins)).
Qed.

Lemma wp_DoConfigTunnelSrcPortEntry sp ins addr (w : W) :
  wp (DoConfigTunnelSrcPortEntry sp ins addr)
    (operation_result addr ins [src_port_entry sp sc_p4info ins] w) w.
Proof.
  apply (wp_operation addr (fun p4info => WriteTunnelSrcPortEntry sp p4info ins)).
  intros id w1 Hr. eapply wp_mono; [|apply wrote_seq_one].
  by apply (wp_plain_write_entry id ins
    (fun te => EncodeSrcPortTableEntry te sp sc_p4info ins)).
Qed.

Lemma symmetric_rx_tunnel_src info p4info : symmetric (rx_tunnel_src_entry info p4info).
Proof.
  unfold rx_tunnel_src_entry, PrepareRxTunnelSrcPortTableEntry. repeat case_match; done.
Qed.

(** DoConfigVlanEntry_refines: configuring a VLAN is the update of its push
    entry, then of its pop entry unless the first was refused; inserting and
    then deleting a VLAN restores the tables. *)
Theorem DoConfigVlanEntry_refines vlan_id ins addr (w : W) :
  (let '(s, w') := run (DoConfigVlanEntry vlan_id ins addr) w in
   operation_result addr ins (vlan_entries vlan_id sc_p4info ins) w s w') /\
  undone addr (fun ins => DoConfigVlanEntry vlan_id ins addr) w.
Proof.
  split.
  - pose proof (wp_DoConfigVlanEntry vlan_id ins addr w) as Hwp. unfold wp in Hwp.
    by destruct (run _ w).
  - apply (operation_undone addr _ (vlan_entries vlan_id sc_p4info)); [|done].
    intros. apply wp_DoConfigVlanEntry.
Qed.

(** DoConfigRxTunnelSrcEntry_refines: a receive-side tunnel source port is
    one update, of the table of the tunnel's address family; inserting and then
    deleting it restores the tables. *)
Theorem DoConfigRxTunnelSrcEntry_refines info ins addr (w : W) :
  (let '(s, w') := run (DoConfigRxTunnelSrcEntry info ins addr) w in
   operation_result addr ins [rx_tunnel_src_entry info sc_p4info ins] w s w') /\
  undone addr (fun ins => DoConfigRxTunnelSrcEntry info ins addr) w.
Proof.
  split.
  - pose proof (wp_DoConfigRxTunnelSrcEntry info ins addr w) as Hwp. unfold wp in Hwp.
    by destruct (run _ w).
  - apply (operation_undone addr _ (fun ins => [rx_tunnel_src_entry info sc_p4info ins])).
    + intros. apply wp_DoConfigRxTunnelSrcEntry.
    + cbn [fmap list_fmap]. by rewrite (proj1 (symmetric_rx_tunnel_src _ _)).
Qed.

(** DoConfigTunnelSrcPortEntry_refines: a tunnel source port is one update
    of the source-port-to-bridge table, with the port the caller gave;
    inserting and then deleting it restores the tables. *)
Theorem DoConfigTunnelSrcPortEntry_refines sp ins addr (w : W) :
  (let '(s, w') := run (DoConfigTunnelSrcPortEntry sp ins addr) w in
   operation_result addr ins [src_port_entry sp sc_p4info ins] w s w') /\
  undone addr (fun ins => DoConfigTunnelSrcPortEntry sp ins addr) w.
Proof.
  split.
  - pose proof (wp_DoConfigTunnelSrcPortEntry sp ins addr w) as Hwp. unfold wp in Hwp.
    by destruct (run _ w).
  - apply (operation_undone addr _ (fun ins => [src_port_entry sp sc_p4info ins])); [|done].
    intros. apply wp_DoConfigTunnelSrcPortEntry.
Qed.

(** ** The source port of a VSI *)

(** The outcome of [ConfigSrcPortEntry] on tables [T]. *)
Definition src_port_effect (sp : src_port_info) (ins : bool) (T : tables) : bool * tables :=
  match lookup_port sc_p4info (sp_src_port sp) T with
  | Some port =>
      switch_write sc_accepts ins (src_port_entry (set_sp_src_port port sp) sc_p4info ins) T
  | None => (false, T)
  end.

Lemma wp_ConfigSrcPortEntry id sp ins (w : W) :
  wf_P4Info sc_p4info -> sc_ready id w ->
  wp (ConfigSrcPortEntry sp sc_p4info ins)
    (fun s w' => sc_ready id w' /\ (ok s, sc_tables w') = src_port_effect sp ins (sc_tables w)) w.
Proof.
  intros Hwf Hr. eapply wp_seq; [by apply (wp_GetTxAccVsiPort id)|].
  intros r w1 [[Hr1 HT1] Hm]. unfold src_port_effect.
  destruct (lookup_port _ _ _) as [port|].
  - subst r. eapply wp_mono.
    { by apply (wp_plain_write_entry id ins
        (fun te => EncodeSrcPortTableEntry te (set_sp_src_port port sp) sc_p4info ins)). }
    intros s w2 [Hr2 Heq]. split; [done|]. by rewrite <- HT1.
  - destruct r; [done|]. apply wp_ret. split; [done|]. by rewrite HT1.
Qed.

Lemma wp_DoConfigSrcPortEntry sp ins addr (w : W) :
  wf_P4Info sc_p4info ->
  wp (DoConfigSrcPortEntry sp ins addr) (fun s w' =>
    if connects addr w then (ok s, sc_tables w') = src_port_effect sp ins (sc_tables w)
    else ok s = false /\ sc_tables w' = sc_tables w) w.
Proof.
  intros Hwf. apply (wp_session addr (fun p4info => ConfigSrcPortEntry sp p4info ins)).
  - intros s w' Hc Hs HT. by rewrite Hc.
  - intros id w1 Hc Hr HT. eapply wp_mono; [by apply (wp_ConfigSrcPortEntry id)|].
    intros s w' [_ Heq]. by rewrite Hc, <- HT.
Qed.

(** The deletion undoes the insertion, when the port found does not depend on
    the source-port table. *)
Lemma src_port_effect_undo sp T T1 :
  w32 (GetTableId sc_p4info SOURCE_PORT_TO_BRIDGE_MAP_TABLE) <>
    w32 (GetTableId sc_p4info TX_ACC_VSI_TABLE) ->
  src_port_effect sp true T = (true, T1) -> src_port_effect sp false T1 = (true, T).
Proof.
  intros Hids. unfold src_port_effect at 1.
  destruct (lookup_port _ _ T) as [port|] eqn:Hl; [|done].
  intros (_ & Hn & ->)%switch_write_insert_inv. unfold src_port_effect.
  replace (lookup_port sc_p4info (sp_src_port sp) _) with (Some port).
  - rewrite (switch_write_delete_ok _ _ _
      (src_port_entry (set_sp_src_port port sp) sc_p4info true)) by apply lookup_insert_eq.
    f_equal. by apply delete_insert_id.
  - rewrite <- Hl. unfold lookup_port. rewrite lookup_insert_ne; [done|].
    intros Hk. by injection Hk.
Qed.

(** C25 DoConfigSrcPortEntry_spec: configuring the source port of a VSI first
    looks the port up in the TX_ACC_VSI table. When it is there, the one update
    made is that of the source-port entry of the port found, not of the port
    the caller passed, and its status is returned; when it is not, an error is
    returned and no table changes. *)
Theorem DoConfigSrcPortEntry_spec sp ins addr (w : W) :
  wf_P4Info sc_p4info ->
  let '(s, w') := run (DoConfigSrcPortEntry sp ins addr) w in
  if connects addr w then (ok s, sc_tables w') = src_port_effect sp ins (sc_tables w)
  else ok s = false /\ sc_tables w' = sc_tables w.
Proof.
  intros Hwf. pose proof (wp_DoConfigSrcPortEntry sp ins addr w Hwf) as Hwp.
  unfold wp in Hwp. by destruct (run _ w).
Qed.

(** src_port_insert_delete: inserting and then deleting the source port of a
    VSI restores the tables, in a pipeline where the source-port table is not
    the TX_ACC_VSI table itself: the port found the second time is that of the
    first. *)
Theorem src_port_insert_delete sp addr (w : W) :
  wf_P4Info sc_p4info ->
  w32 (GetTableId sc_p4info SOURCE_PORT_TO_BRIDGE_MAP_TABLE) <>
    w32 (GetTableId sc_p4info TX_ACC_VSI_TABLE) ->
  undone addr (fun ins => DoConfigSrcPortEntry sp ins addr) w.
Proof.
  intros Hwf Hids. unfold undone.
  pose proof (fun ins w => wp_DoConfigSrcPortEntry sp ins addr w Hwf) as Hwp.
  unfold wp in Hwp. pose proof (Hwp true w) as H1. destruct (run _ w) as [s1 w1].
  pose proof (Hwp false w1) as H2. destruct (run _ w1) as [s2 w2]. simpl in *.
  intros Hs1 Hc. rewrite Hc, Hs1 in *. destruct (connects addr w); [|by destruct H1].
  symmetry in H1. apply src_port_effect_undo in H1; [|done]. rewrite H1 in H2.
  by injection H2.
Qed.
End Spec.

(** vlan_keys_collide: the keys of the push and the pop entries are the low
    eight bits of the VLAN id, so two VLANs that agree in them share both
    entries: the second one cannot be inserted while the first is there, and
    deleting one deletes the other's. *)
Theorem vlan_keys_collide v v' p4info ins :
  te_key <$> vlan_entries v p4info ins = te_key <$> vlan_entries v' p4info ins <->
  v mod 2 ^ 8 = v' mod 2 ^ 8.
Proof.
  change (2 ^ 8) with 256. unfold vlan_entries, EncodeVlanPushTableEntry, EncodeVlanPopTableEntry.
  split.
  - intros Hk. rewrite !fmap_cons in Hk. apply (inj2 cons) in Hk as [Hk _].
    apply (te_key_match _ _ (w32 (GetMatchFieldId p4info VLAN_PUSH_MOD_TABLE
      VLAN_PUSH_MOD_KEY_MOD_BLOB_PTR))) in Hk.
    destruct ins; cbn [te_match mutable_action add_match_exact set_table_id default_TableEntry app] in Hk;
      rewrite !match_map_cons, !lookup_insert_eq in Hk; by injection Hk.
  - intros Hv. assert (Hb : EncodeByteValue 1 [v] = EncodeByteValue 1 [v']).
    { cbn. unfold w8. by rewrite Hv. }
    rewrite Hb. by destruct ins.
Qed.

(** ** Witnesses *)

Definition sample_src_port : src_port_info := MkSrcPortInfo 4 100 23.

Definition sample_client := ref_client es2k_p4info (fun _ => true) sample_vsi_tables.

Lemma DoConfigSrcPortEntry_spec_witness :
  ok (run (DoConfigSrcPortEntry sample_src_port true "localhost:9559") sample_client).1 = true.
Proof.
  pose proof (DoConfigSrcPortEntry_spec sample_src_port true "localhost:9559" sample_client
    wf_es2k_p4info) as Hs.
  assert (Hc : connects "localhost:9559" sample_client = true) by (vm_compute; reflexivity).
  assert (He : (src_port_effect (W := ClientState (RefServer es2k_p4info (fun _ => true)))
    sample_src_port true (sc_tables sample_client)).1 = true) by (vm_compute; reflexivity).
  rewrite Hc in Hs. destruct (run _ _) as [s w']. rewrite <- Hs in He. exact He.
Defined.

Lemma src_port_insert_delete_witness :
  undone "localhost:9559"
    (fun ins => DoConfigSrcPortEntry sample_src_port ins "localhost:9559") sample_client.
Proof.
  apply src_port_insert_delete; [exact wf_es2k_p4info|].
  apply (bool_decide_unpack _). vm_compute. exact I.
Defined.

Lemma DoConfigVlanEntry_refines_witness :
  undone "localhost:9559" (fun ins => DoConfigVlanEntry 100 ins "localhost:9559") sample_client.
Proof. exact (proj2 (DoConfigVlanEntry_refines 100 true "localhost:9559" sample_client)). Defined.
