(* ===== verification/Dpdk.v ===== *)
(** * FDB and tunnel entries, DPDK

    [core/v3/dpdk_config_fdb_entry.cc] and [dpdk_config_tunnel_entry.cc]. *)

From stdpp Require Import gmap.
From S2P Require Import Prelude P4Runtime OvsP4rt EncodeUtils P4InfoUtils Logging.
From S2P Require Import DpdkNames DpdkEncoders Client Pipelines Session ClientImpl Switch.
From S2P Require Import Server.

(** ** dpdk_config_fdb_entry.cc *)

Definition WriteFdbTxVlanTableEntry (learn_info : mac_learning_info) (p4info : P4Info)
  (insert_entry : bool) : prog Status :=
  '(write_request, table_entry) ←
    do_call (initWriteRequest default_WriteRequest insert_entry);
  let '(te, detail) :=
    EncodeFdbTxVlanTableEntry (wr_deref write_request table_entry) learn_info p4info
      insert_entry default_DiagDetail in
  status ← do_call (sendWriteRequest (wr_store write_request table_entry te));
  log_if_failed_mac status insert_entry detail (mac_addr learn_info);;
  mret status.

Definition WriteFdbRxVlanTableEntry (learn_info : mac_learning_info) (p4info : P4Info)
  (insert_entry : bool) : prog Status :=
  '(write_request, table_entry) ←
    do_call (initWriteRequest default_WriteRequest insert_entry);
  let '(te, detail) :=
    EncodeFdbRxVlanTableEntry (wr_deref write_request table_entry) learn_info p4info
      insert_entry default_DiagDetail in
  status ← do_call (sendWriteRequest (wr_store write_request table_entry te));
  log_if_failed_mac status insert_entry detail (mac_addr learn_info);;
  mret status.

Definition WriteFdbTunnelTableEntry (learn_info : mac_learning_info) (p4info : P4Info)
  (insert_entry : bool) : prog Status :=
  '(write_request, table_entry) ←
    do_call (initWriteRequest default_WriteRequest insert_entry);
  let '(te, detail) :=
    EncodeFdbTableEntryforV4VxlanTunnel (wr_deref write_request table_entry) learn_info
      p4info insert_entry default_DiagDetail in
  status ← do_call (sendWriteRequest (wr_store write_request table_entry te));
  log_if_failed_mac status insert_entry detail (mac_addr learn_info);;
  mret status.

Definition ConfigFdbEntry (learn_info : mac_learning_info) (p4info : P4Info)
  (insert_entry : bool) : prog Status :=
  if is_tunnel learn_info then WriteFdbTunnelTableEntry learn_info p4info insert_entry
  else if is_vlan learn_info then
    status ← WriteFdbTxVlanTableEntry learn_info p4info insert_entry;
    if negb (ok status) then mret status else
    WriteFdbRxVlanTableEntry learn_info p4info insert_entry
  else mret OkStatus.

Definition DoConfigFdbEntry (learn_info : mac_learning_info) (insert_entry : bool)
  (grpc_addr : string) : prog Status :=
  status ← do_call (connect grpc_addr);
  if negb (ok status) then mret status else
  '(status, p4info) ← do_call getPipelineConfig;
  if negb (ok status) then mret status else
  ConfigFdbEntry learn_info p4info insert_entry.

(** ** dpdk_config_tunnel_entry.cc *)

Definition PrepareV4EncapTableEntry (table_entry : TableEntry) (info : tunnel_info)
  (p4info : P4Info) (insert_entry : bool) : TableEntry :=
  EncodeVxlanEncapTableEntry table_entry info p4info insert_entry.

Definition WriteEncapTableEntry (info : tunnel_info) (p4info : P4Info)
  (insert_entry : bool) : prog Status :=
  '(write_request, table_entry) ←
    do_call (initWriteRequest default_WriteRequest insert_entry);
  let te :=
    PrepareV4EncapTableEntry (wr_deref write_request table_entry) info p4info
      insert_entry in
  do_call (sendWriteRequest (wr_store write_request table_entry te)).

Definition WriteTunnelTermTableEntry (info : tunnel_info) (p4info : P4Info)
  (insert_entry : bool) : prog Status :=
  '(write_request, table_entry) ←
    do_call (initWriteRequest default_WriteRequest insert_entry);
  let te :=
    EncodeTunnelTermTableEntry (wr_deref write_request table_entry) info p4info
      insert_entry in
  do_call (sendWriteRequest (wr_store write_request table_entry te)).

Definition ConfigTunnelEntry (info : tunnel_info) (p4info : P4Info)
  (insert_entry : bool) : prog Status :=
  status ← WriteEncapTableEntry info p4info insert_entry;
  if negb (ok status) then mret status else
  WriteTunnelTermTableEntry info p4info insert_entry.

Definition DoConfigTunnelEntry (info : tunnel_info) (insert_entry : bool)
  (grpc_addr : string) : prog Status :=
  status ← do_call (connect grpc_addr);
  if negb (ok status) then mret status else
  '(status, p4info) ← do_call getPipelineConfig;
  if negb (ok status) then mret status else
  ConfigTunnelEntry info p4info insert_entry.

(** ** Specification *)

Definition fdb_entries (l : mac_learning_info) (p4info : P4Info) (ins : bool)
  : list TableEntry :=
  let D := default_TableEntry in
  let dd := default_DiagDetail in
  if is_tunnel l then [(EncodeFdbTableEntryforV4VxlanTunnel D l p4info ins dd).1]
  else if is_vlan l then
    [(EncodeFdbTxVlanTableEntry D l p4info ins dd).1;
     (EncodeFdbRxVlanTableEntry D l p4info ins dd).1]
  else [].

Definition tunnel_entries (info : tunnel_info) (p4info : P4Info) (ins : bool)
  : list TableEntry :=
  [EncodeVxlanEncapTableEntry default_TableEntry info p4info ins;
   EncodeTunnelTermTableEntry default_TableEntry info p4info ins].

Lemma dpdk_fdb_entries_keys l p4info :
  te_key <$> fdb_entries l p4info false = te_key <$> fdb_entries l p4info true.
Proof. unfold fdb_entries. by repeat case_match. Qed.

Section Spec.
Context {W : Type} `{SwitchClient W}.

Lemma wp_dpdk_ConfigFdbEntry id l p4info ins (w : W) :
  sc_ready id w ->
  wp (ConfigFdbEntry l p4info ins) (wrote_seq id ins (fdb_entries l p4info ins) w) w.
Proof.
  intros Hr. unfold ConfigFdbEntry, fdb_entries. destruct (is_tunnel l); [|destruct (is_vlan l)].
  - eapply wp_mono; [|apply wrote_seq_one].
    by apply (wp_write_logged id ins (mac_addr l)
      (fun te => EncodeFdbTableEntryforV4VxlanTunnel te l p4info ins default_DiagDetail)).
  - apply wp_write_then.
    { by apply (wp_write_logged id ins (mac_addr l)
        (fun te => EncodeFdbTxVlanTableEntry te l p4info ins default_DiagDetail)). }
    intros w1 Hr1. eapply wp_mono; [|apply wrote_seq_one].
    by apply (wp_write_logged id ins (mac_addr l)
      (fun te => EncodeFdbRxVlanTableEntry te l p4info ins default_DiagDetail)).
  - by apply wp_ret.
Qed.

Lemma wp_dpdk_ConfigTunnelEntry id info p4info ins (w : W) :
  sc_ready id w ->
  wp (ConfigTunnelEntry info p4info ins) (wrote_seq id ins (tunnel_entries info p4info ins) w) w.
Proof.
  intros Hr. apply wp_write_then.
  { by apply (wp_plain_write_entry id ins
      (fun te => EncodeVxlanEncapTableEntry te info p4info ins)). }
  intros w1 Hr1. eapply wp_mono; [|apply wrote_seq_one].
  by apply (wp_plain_write_entry id ins
    (fun te => EncodeTunnelTermTableEntry te info p4info ins)).
Qed.

Lemma wp_dpdk_DoConfigFdbEntry l ins addr (w : W) :
  wp (DoConfigFdbEntry l ins addr)
    (operation_result addr ins (fdb_entries l sc_p4info ins) w) w.
Proof.
  apply (wp_operation addr (fun p4info => ConfigFdbEntry l p4info ins)).
  intros id w1 Hr. by apply wp_dpdk_ConfigFdbEntry.
Qed.

Lemma wp_dpdk_DoConfigTunnelEntry info ins addr (w : W) :
  wp (DoConfigTunnelEntry info ins addr)
    (operation_result addr ins (tunnel_entries info sc_p4info ins) w) w.
Proof.
  apply (wp_operation addr (fun p4info => ConfigTunnelEntry info p4info ins)).
  intros id w1 Hr. by apply wp_dpdk_ConfigTunnelEntry.
Qed.

(** C35 dpdk_fdb_refines: on DPDK an FDB operation is the update of one entry for
    a tunnel MAC, of a transmit-side entry and, unless that was refused, a
    receive-side entry for a VLAN MAC, and nothing otherwise; forgetting a MAC
    after learning it restores the tables. *)
Theorem dpdk_fdb_refines l ins addr (w : W) :
  (let '(s, w') := run (DoConfigFdbEntry l ins addr) w in
   operation_result addr ins (fdb_entries l sc_p4info ins) w s w') /\
  undone addr (fun ins => DoConfigFdbEntry l ins addr) w.
Proof.
  split.
  - pose proof (wp_dpdk_DoConfigFdbEntry l ins addr w) as Hwp. unfold wp in Hwp.
    by destruct (run _ w).
  - apply (operation_undone addr _ (fdb_entries l sc_p4info)); [|apply dpdk_fdb_entries_keys].
    intros. apply wp_dpdk_DoConfigFdbEntry.
Qed.

(** dpdk_tunnel_refines: on DPDK configuring a tunnel is the update of its
    encapsulation entry and, unless that was refused, of its termination
    entry, whatever the type and the address family of the tunnel; deleting it
    after inserting it restores the tables. *)
Theorem dpdk_tunnel_refines info ins addr (w : W) :
  (let '(s, w') := run (DoConfigTunnelEntry info ins addr) w in
   operation_result addr ins (tunnel_entries info sc_p4info ins) w s w') /\
  undone addr (fun ins => DoConfigTunnelEntry info ins addr) w.
Proof.
  split.
  - pose proof (wp_dpdk_DoConfigTunnelEntry info ins addr w) as Hwp. unfold wp in Hwp.
    by destruct (run _ w).
  - apply (operation_undone addr _ (tunnel_entries info sc_p4info)); [|done].
    intros. apply wp_dpdk_DoConfigTunnelEntry.
Qed.
End Spec.

(** dpdk_vlan_port: the port of a DPDK VLAN entry is one byte, the VLAN id
    minus one modulo 256: the intended port for VLANs 1 to 256, port 255 for
    VLAN 0, and the port of VLAN [v - 256] for a VLAN [v] above 256. *)
Theorem dpdk_vlan_port l p4info :
  0 <= vlan_id (vln_info l) < 2 ^ 32 ->
  let v := vlan_id (vln_info l) in
  let port := if v =? 0 then 255 else (v - 1) mod 256 in
  te_param_values
    (EncodeFdbTxVlanTableEntry default_TableEntry l p4info true default_DiagDetail).1 = [[port]] /\
  te_param_values
    (EncodeFdbRxVlanTableEntry default_TableEntry l p4info true default_DiagDetail).1 = [[port]].
Proof.
  intros Hv v port.
  assert (Hp : EncodeByteValue 1 [w32 (v - 1)] = [port]).
  { change (EncodeByteValue 1 [w32 (v - 1)]) with [w8 (w32 (v - 1))]. f_equal.
    unfold port. change (2 ^ 32) with 4294967296 in Hv. fold v in Hv. clearbody v.
    destruct (Z.eqb_spec v 0) as [->|]; [done|]. by rewrite w32_id by lia. }
  rewrite <- Hp. by split.
Qed.

Lemma dpdk_vlan_port_witness :
  te_param_values
    (EncodeFdbRxVlanTableEntry default_TableEntry
       (MkMacLearningInfo false true [0; 1; 2; 3; 4; 5] 0 0 0
          (MkPortVlanInfo P4_PORT_VLAN_ACCESS 0)
          (MkTunnelInfo 0 0 0 (MkIpAddr 0 0 (replicate 16 0)) (MkIpAddr 0 0 (replicate 16 0)) 0 0
             (MkPortVlanInfo P4_PORT_VLAN_ACCESS 0) 0 0))
       dpdk_p4info true default_DiagDetail).1 = [[255]].
Proof.
  apply (dpdk_vlan_port (MkMacLearningInfo false true [0; 1; 2; 3; 4; 5] 0 0 0
    (MkPortVlanInfo P4_PORT_VLAN_ACCESS 0)
    (MkTunnelInfo 0 0 0 (MkIpAddr 0 0 (replicate 16 0)) (MkIpAddr 0 0 (replicate 16 0)) 0 0
       (MkPortVlanInfo P4_PORT_VLAN_ACCESS 0) 0 0)) dpdk_p4info).
  simpl. lia.
Defined.
