(* ===== verification/Conformance.v ===== *)
(** * Conformance of the requests with the pipelines of the repository

    A P4Runtime server validates an entry against the P4Info: the table and the
    fields must be declared, the kind of each match must be the declared one,
    every exact field must be there, the action must be one of the table's with
    exactly its parameters, and every value must fit the declared width.
    [conforms] is that check (P4Runtime specification, sections 8.3 and 9.1).
    The theorems say which encoders pass it, for every input, against the
    P4Info files the test suites load. *)

From S2P Require Import DpdkNames DpdkEncoders.
From S2P Require Import Prelude P4Runtime OvsP4rt EncodeUtils P4InfoUtils Logging.
From S2P Require Import Es2kNames Es2kEncoders Pipelines.

(** ** The check *)

Definition find_table (p : P4Info) (id : Z) : option TableInfo :=
  List.find (fun t => pre_id (tbl_preamble t) =? id) (p4_tables p).

Definition find_action (p : P4Info) (id : Z) : option ActionInfo :=
  List.find (fun a => pre_id (act_preamble a) =? id) (p4_actions p).

Definition kind_ok (d : MatchField) (m : FieldMatchType) : bool :=
  match mf_match_type d, m with
  | MT_EXACT, FM_EXACT _ => true
  | MT_TERNARY, FM_TERNARY _ _ => true
  | _, _ => false
  end.

(** Each match is of a declared field and of its kind, none is repeated, and
    no exact field is missing. *)
Definition match_structure (ds : list MatchField) (ms : list FieldMatch) : bool :=
  bool_decide (NoDup (map fm_field_id ms)) &&
  forallb (fun m => match List.find (fun d => mf_id d =? fm_field_id m) ds with
                    | Some d => kind_ok d (fm_type m)
                    | None => false
                    end) ms &&
  forallb (fun d => match mf_match_type d with
                    | MT_EXACT => existsb (fun m => fm_field_id m =? mf_id d) ms
                    | _ => true
                    end) ds.

(** The parameters are those declared, once each. *)
Definition param_structure (ds : list ActionParam) (ps : list Param) : bool :=
  bool_decide (NoDup (map p_param_id ps)) && (length ps =? length ds)%nat &&
  forallb (fun p => existsb (fun d => ap_id d =? p_param_id p) ds) ps.

Section Check.
(** Whether a value fits a width. *)
Variable fits : Z -> bytes -> bool.

Definition match_values (ds : list MatchField) (ms : list FieldMatch) : bool :=
  forallb (fun m => match List.find (fun d => mf_id d =? fm_field_id m) ds with
                    | Some d =>
                        match fm_type m with
                        | FM_TERNARY v k => fits (mf_bitwidth d) v && fits (mf_bitwidth d) k
                        | FM_EXACT v => fits (mf_bitwidth d) v
                        | FM_NOT_SET => false
                        end
                    | None => false
                    end) ms.

Definition param_values (ds : list ActionParam) (ps : list Param) : bool :=
  forallb (fun p => match List.find (fun d => ap_id d =? p_param_id p) ds with
                    | Some d => fits (ap_bitwidth d) (p_value p)
                    | None => false
                    end) ps.

Definition conforms_with (p : P4Info) (ins : bool) (te : TableEntry) : bool :=
  match find_table p (te_table_id te) with
  | None => false
  | Some t =>
      match_structure (tbl_match_fields t) (te_match te) &&
      (if ins then
         match te_action te with
         | None => false
         | Some a =>
             existsb (Z.eqb (a_action_id a)) (tbl_action_refs t) &&
             match find_action p (a_action_id a) with
             | None => false
             | Some ai =>
                 param_structure (act_params ai) (a_params a) &&
                 param_values (act_params ai) (a_params a)
             end
         end
       else true) &&
      match_values (tbl_match_fields t) (te_match te)
  end.
End Check.

Definition fits (bitwidth : Z) (v : bytes) : bool :=
  (1 <=? Z.of_nat (length v)) && (be_val v <? 2 ^ bitwidth).

Definition conforms : P4Info -> bool -> TableEntry -> bool := conforms_with fits.

(** ** Values that fit *)

(** [v] fits [n] bits and more. *)
Definition fits_from (F : Z -> bytes -> bool) (n : Z) (v : bytes) : Prop :=
  forall bw, (n <=? bw) = true -> F bw v = true.

Lemma fits_below n v :
  v <> [] -> be_val v < 2 ^ n -> 0 <= n -> fits_from fits n v.
Proof.
  intros Hne Hlt Hn bw Hbw%Z.leb_le. unfold fits.
  pose proof (Z.pow_le_mono_r 2 n bw ltac:(lia) Hbw). destruct v; [done|]. cbn [length].
  apply andb_true_iff. split; [apply Z.leb_le; lia|apply Z.ltb_lt].
  eapply Z.lt_le_trans; eassumption.
Qed.

Lemma fits_bytes k args :
  (0 < k <= length args)%nat -> fits_from fits (8 * Z.of_nat k) (EncodeByteValue k args).
Proof.
  intros Hk. pose proof (EncodeByteValue_length k args ltac:(lia)) as Hlen.
  pose proof (be_val_bound _ (EncodeByteValue_bytes k args)) as Hb. rewrite Hlen in Hb.
  apply (fits_below (8 * Z.of_nat k)); [| |lia].
  - intros He. rewrite He in Hlen. simpl in Hlen. lia.
  - rewrite Z.pow_mul_r by lia. change (2 ^ 8) with 256. lia.
Qed.

Lemma fits_vni v : fits_from fits 24 (EncodeVniValue v).
Proof. apply (fits_bytes 3). simpl. lia. Qed.
Lemma fits_tunnel_id v : fits_from fits 20 (EncodeTunnelId v).
Proof. apply (fits_below 20); [done| |done]. rewrite EncodeTunnelId_val. change (2 ^ 20) with 1048576. lia. Qed.
Lemma fits_ip a : fits_from fits 32 (CanonicalizeIp a).
Proof. apply (fits_bytes 4). simpl. lia. Qed.
Lemma fits_ipv6 a : fits_from fits 128 (CanonicalizeIpv6 a).
Proof. apply (fits_bytes 16). simpl. lia. Qed.
Lemma fits_mac m : fits_from fits 48 (CanonicalizeMac m).
Proof. apply (fits_bytes 6). simpl. lia. Qed.
Lemma fits_byte x : fits_from fits 8 (EncodeByteValue 1 [x]).
Proof. apply (fits_bytes 1). simpl. lia. Qed.
Lemma fits_two x y : fits_from fits 16 (EncodeByteValue 2 [x; y]).
Proof. apply (fits_bytes 2). simpl. lia. Qed.
Lemma fits_vid x y : fits_from fits 12 (EncodeByteValue 2 [(x .& 15); y]).
Proof. apply (fits_below 12); [done| |done]. cbn. change (2 ^ 12) with 4096. machine_int. Qed.

Lemma fits_consts :
  fits_from fits 1 (EncodeByteValue 1 [1]) /\ fits_from fits 1 (EncodeByteValue 1 [0]) /\
  fits_from fits 2 (EncodeByteValue 1 [2]) /\
  fits_from fits 16 (EncodeByteValue 2 [255; 255]) /\
  fits_from fits 12 (EncodeByteValue 2 [15; 255]).
Proof. split_and!; by apply fits_below. Qed.

(** Replace each encoded value of the goal by a variable that fits, the test by
    one of which only that is known, and compute. *)
Ltac hide v lem :=
  let H := fresh "Hv" in
  pose proof lem as H; revert H; generalize v; intros ? H.

Ltac hide_values :=
  repeat match goal with
  | |- context [EncodeVniValue ?v] => hide (EncodeVniValue v) (fits_vni v)
  | |- context [EncodeTunnelId ?v] => hide (EncodeTunnelId v) (fits_tunnel_id v)
  | |- context [CanonicalizeIp ?a] => hide (CanonicalizeIp a) (fits_ip a)
  | |- context [CanonicalizeIpv6 ?a] => hide (CanonicalizeIpv6 a) (fits_ipv6 a)
  | |- context [CanonicalizeMac ?m] => hide (CanonicalizeMac m) (fits_mac m)
  | |- context [EncodeByteValue 1 [1]] =>
      hide (EncodeByteValue 1 [1]) (proj1 fits_consts)
  | |- context [EncodeByteValue 1 [0]] =>
      hide (EncodeByteValue 1 [0]) (proj1 (proj2 fits_consts))
  | |- context [EncodeByteValue 2 [255; 255]] =>
      hide (EncodeByteValue 2 [255; 255]) (proj1 (proj2 (proj2 (proj2 fits_consts))))
  | |- context [EncodeByteValue 2 [15; 255]] =>
      hide (EncodeByteValue 2 [15; 255]) (proj2 (proj2 (proj2 (proj2 fits_consts))))
  | |- context [EncodeByteValue 2 [(?x .& 15); ?y]] =>
      hide (EncodeByteValue 2 [(x .& 15); y]) (fits_vid x y)
  | |- context [EncodeByteValue 2 [?x; ?y]] =>
      hide (EncodeByteValue 2 [x; y]) (fits_two x y)
  | |- context [EncodeByteValue 1 [?x]] => hide (EncodeByteValue 1 [x]) (fits_byte x)
  end.

Ltac check_conformance :=
  unfold conforms; hide_values;
  repeat match goal with H : fits_from fits _ _ |- _ => revert H end;
  generalize fits; intros; vm_compute;
  repeat match goal with
  | H : fits_from _ _ ?v |- context [_ ?v] => rewrite !H by reflexivity; clear H
  end; try reflexivity.

(** Case analysis on what an encoder tests. *)
Ltac case_encoder :=
  repeat match goal with
  | |- context [if decide ?P then _ else _] => destruct (decide P)
  | |- context [if ?b && ?c then _ else _] => destruct (b && c)
  | |- context [if ?x =? ?y then _ else _] => destruct (x =? y)
  end.

(** ** ES2K *)

(** The tunnel ends have one address family. *)
Definition one_family (t : tunnel_info) : bool :=
  (family (local_ip t) =? AF_INET) && (family (remote_ip t) =? AF_INET) ||
  (family (local_ip t) =? AF_INET6) && (family (remote_ip t) =? AF_INET6).

Definition es2k_conforming (l : mac_learning_info) (t : tunnel_info) (vlan : Z)
  (sp : src_port_info) (im : ip_mac_map_info) : list (bool -> TableEntry) :=
  let p := es2k_p4info in
  let D := default_TableEntry in
  let dd := default_DiagDetail in
  [(fun b => (EncodeFdbSmacTableEntry D l p b dd).1);
   (fun b => (EncodeFdbTxVlanTableEntry D l p b dd).1);
   (fun b => (EncodeFdbRxVlanTableEntry D l p b dd).1);
   (fun b => (EncodeL2ToTunnelV4 D l p b dd).1);
   (fun b => (EncodeL2ToTunnelV6 D l p b dd).1);
   EncodeVxlanEncapTableEntry D t p; EncodeGeneveEncapTableEntry D t p;
   EncodeVxlanEncapAndVlanPopTableEntry D t p; EncodeGeneveEncapAndVlanPopTableEntry D t p;
   EncodeRxTunnelTableEntry D t p; EncodeV6RxTunnelTableEntry D t p;
   EncodeVxlanDecapModTableEntry D t p; EncodeGeneveDecapModTableEntry D t p;
   EncodeVxlanDecapModAndVlanPushTableEntry D t p;
   EncodeGeneveDecapModAndVlanPushTableEntry D t p;
   EncodeVlanPushTableEntry D vlan p; EncodeVlanPopTableEntry D vlan p;
   EncodeSrcPortTableEntry D sp p;
   (fun b => (EncodeSrcIpMacMapTableEntry D im p b dd).1);
   (fun b => (EncodeDstIpMacMapTableEntry D im p b dd).1)].

Ltac unfold_encoders :=
  unfold EncodeFdbSmacTableEntry, EncodeFdbTxVlanTableEntry, EncodeFdbRxVlanTableEntry,
    EncodeL2ToTunnelV4, EncodeL2ToTunnelV6, EncodeL2ToTunnelV6_param,
    EncodeVxlanEncapTableEntry, EncodeGeneveEncapTableEntry,
    EncodeV6VxlanEncapTableEntry, EncodeV6GeneveEncapTableEntry,
    EncodeVxlanEncapAndVlanPopTableEntry, EncodeGeneveEncapAndVlanPopTableEntry,
    EncodeV6VxlanEncapAndVlanPopTableEntry, EncodeV6GeneveEncapAndVlanPopTableEntry,
    EncodeRxTunnelTableEntry, EncodeV6RxTunnelTableEntry,
    EncodeTunnelTermTableEntry, EncodeV6TunnelTermTableEntry,
    EncodeVxlanDecapModTableEntry, EncodeGeneveDecapModTableEntry,
    EncodeVxlanDecapModAndVlanPushTableEntry, EncodeGeneveDecapModAndVlanPushTableEntry,
    EncodeVlanPushTableEntry, EncodeVlanPopTableEntry, EncodeSrcPortTableEntry,
    EncodeSrcIpMacMapTableEntry, EncodeDstIpMacMapTableEntry,
    EncodeFdbTableEntryforV4VxlanTunnel, EncodeFdbTableEntryforV4GeneveTunnel,
    EncodeL2FwdTxTablePrologue, EncodeTxAccVsiTableEntry;
  cbn [seq fold_left].

(** C7 es2k_requests_conform: against the ES2K P4Info of the repository, the
    entries of twenty encoders conform for every input, both to insert and to
    delete: declared table, exactly the declared match fields with their kind,
    an action of that table with exactly its parameters, every value within its
    width; so do the tunnel FDB entries when both ends of the tunnel have the
    same address family. *)
Theorem es2k_requests_conform l t vlan sp im ins :
  Forall (fun E => conforms es2k_p4info ins (E ins) = true) (es2k_conforming l t vlan sp im) /\
  (one_family (tnl_info l) = true ->
   conforms es2k_p4info ins
     (EncodeFdbTableEntryforV4VxlanTunnel default_TableEntry l es2k_p4info ins
        default_DiagDetail).1 = true /\
   conforms es2k_p4info ins
     (EncodeFdbTableEntryforV4GeneveTunnel default_TableEntry l es2k_p4info ins
        default_DiagDetail).1 = true).
Proof.
  split.
  - unfold es2k_conforming. cbv zeta.
    repeat apply Forall_cons; [..|apply Forall_nil]; unfold_encoders;
      destruct ins; cbn [fst]; case_encoder; check_conformance.
  - intros Hf. unfold_encoders. unfold one_family in Hf. destruct ins; cbn [fst].
    + destruct (_ && _); [|simpl in Hf; rewrite Hf]; split; case_encoder; check_conformance.
    + split; check_conformance.
Qed.

Lemma es2k_requests_conform_witness :
  conforms es2k_p4info true
    (EncodeFdbTableEntryforV4VxlanTunnel default_TableEntry sample_learn es2k_p4info true
       default_DiagDetail).1 = true.
Proof.
  refine (proj1 (proj2 (es2k_requests_conform sample_learn sample_tunnel 5 (MkSrcPortInfo 1 2 3)
    sample_ip_mac true) _)).
  reflexivity.
Defined.

(** es2k_requests_not_conforming: against the same P4Info, no entry of six
    encoders conforms, whatever the input: the IPv6 encapsulation actions have
    four parameters (DS, ECN, flow label, hop limit) that are never given, and
    the tunnel termination tables have no bridge id field, which is matched
    on; nor does the key the TX_ACC_VSI table is read with, which lacks its
    second exact field. *)
Theorem es2k_requests_not_conforming t sp :
  Forall (fun E => conforms es2k_p4info true (E default_TableEntry t es2k_p4info true) = false)
    v6_encap_encoders /\
  conforms es2k_p4info true
    (EncodeTunnelTermTableEntry default_TableEntry t es2k_p4info true).1 = false /\
  conforms es2k_p4info true
    (EncodeV6TunnelTermTableEntry default_TableEntry t es2k_p4info true).1 = false /\
  conforms es2k_p4info false (EncodeTxAccVsiTableEntry default_TableEntry sp es2k_p4info) = false.
Proof.
  split; [|split; [|split]].
  - repeat apply Forall_cons; [..|apply Forall_nil]; unfold_encoders; check_conformance.
  - unfold_encoders. case_encoder; cbn [fst]; check_conformance.
  - unfold_encoders. case_encoder; cbn [fst]; check_conformance.
  - unfold_encoders. check_conformance.
Qed.

(** ** DPDK *)

Ltac unfold_dpdk_encoders :=
  unfold DpdkEncoders.EncodeFdbTxVlanTableEntry, DpdkEncoders.EncodeFdbRxVlanTableEntry,
    DpdkEncoders.EncodeFdbTableEntryforV4VxlanTunnel, DpdkEncoders.EncodeL2FwdTxTablePrologue,
    DpdkEncoders.EncodeVxlanEncapTableEntry, DpdkEncoders.EncodeTunnelTermTableEntry.

Definition dpdk_requests (l : mac_learning_info) (t : tunnel_info) (ins : bool)
  : list TableEntry :=
  let p := dpdk_p4info in
  let D := default_TableEntry in
  let dd := default_DiagDetail in
  [(DpdkEncoders.EncodeFdbTxVlanTableEntry D l p ins dd).1;
   (DpdkEncoders.EncodeFdbRxVlanTableEntry D l p ins dd).1;
   (DpdkEncoders.EncodeFdbTableEntryforV4VxlanTunnel D l p ins dd).1;
   DpdkEncoders.EncodeVxlanEncapTableEntry D t p ins;
   DpdkEncoders.EncodeTunnelTermTableEntry D t p ins].

(** dpdk_requests_conform: against the DPDK P4Info of the repository, the
    entries of all five DPDK encoders conform for every input, both to insert
    and to delete. *)
Theorem dpdk_requests_conform l t ins :
  Forall (fun te => conforms dpdk_p4info ins te = true) (dpdk_requests l t ins).
Proof.
  unfold dpdk_requests. cbv zeta.
  repeat apply Forall_cons; [..|apply Forall_nil]; unfold_dpdk_encoders;
    destruct ins; cbn [fst]; check_conformance.
Qed.
