(* ===== verification/Es2kApi.v ===== *)
(** * The C API, ES2K ([core/api/ovsp4rt_standard_api.cc])

    Each function creates a client on the stack, runs one operation and drops
    its status. It is modelled by the state of that client when it is
    destroyed: what the server became, what was printed, and whether a null
    session was dereferenced. *)

From stdpp Require Import gmap.
From S2P Require Import Prelude P4Runtime OvsP4rt EncodeUtils P4InfoUtils Es2kEncoders.
From S2P Require Import Client Pipelines Session ClientImpl Switch Server Es2kFdb.
From S2P Require Import Es2kTunnel Es2kIpMacMap Es2kPorts.

(** ** ovsp4rt_str_to_tunnel_type.cc *)

(** A null pointer is [None]. *)
Definition ovsp4rt_str_to_tunnel_type (tnl_type : option string) : ovs_tunnel_type :=
  match tnl_type with
  | Some tnl_type =>
      if decide (tnl_type = "vxlan") then OVS_TUNNEL_VXLAN
      else if decide (tnl_type = "geneve") then OVS_TUNNEL_GENEVE
      else OVS_TUNNEL_UNKNOWN
  | None => OVS_TUNNEL_UNKNOWN
  end.

(** ** ovsp4rt_standard_api.cc *)

Section Api.
Context {S : Type} `{P4RuntimeStub S}.

Definition ovsp4rt_config_fdb_entry (learn_info : mac_learning_info)
  (insert_entry : bool) (grpc_addr : string) (env : Env) (s : S) : ClientState S :=
  let client := new_Client env s in
  let '(_, client) := run (DoConfigFdbEntry learn_info insert_entry grpc_addr) client in
  client.

Definition ovsp4rt_config_tunnel_entry (info : tunnel_info)
  (insert_entry : bool) (grpc_addr : string) (env : Env) (s : S) : ClientState S :=
  let client := new_Client env s in
  let '(_, client) := run (DoConfigTunnelEntry info insert_entry grpc_addr) client in
  client.

Definition ovsp4rt_config_ip_mac_map_entry (ip_info : ip_mac_map_info)
  (insert_entry : bool) (grpc_addr : string) (env : Env) (s : S) : ClientState S :=
  let client := new_Client env s in
  let '(_, client) := run (DoConfigIpMacMapEntry ip_info insert_entry grpc_addr) client in
  client.

Definition ovsp4rt_config_rx_tunnel_src_entry (info : tunnel_info)
  (insert_entry : bool) (grpc_addr : string) (env : Env) (s : S) : ClientState S :=
  let client := new_Client env s in
  let '(_, client) := run (DoConfigRxTunnelSrcEntry info insert_entry grpc_addr) client in
  client.

Definition ovsp4rt_config_src_port_entry (vsi_sp : src_port_info)
  (insert_entry : bool) (grpc_addr : string) (env : Env) (s : S) : ClientState S :=
  let client := new_Client env s in
  let '(_, client) := run (DoConfigSrcPortEntry vsi_sp insert_entry grpc_addr) client in
  client.

Definition ovsp4rt_config_tunnel_src_port_entry (tnl_sp : src_port_info)
  (insert_entry : bool) (grpc_addr : string) (env : Env) (s : S) : ClientState S :=
  let client := new_Client env s in
  let '(_, client) := run (DoConfigTunnelSrcPortEntry tnl_sp insert_entry grpc_addr) client in
  client.

Definition ovsp4rt_config_vlan_entry (vlan_id : Z)
  (insert_entry : bool) (grpc_addr : string) (env : Env) (s : S) : ClientState S :=
  let client := new_Client env s in
  let '(_, client) := run (DoConfigVlanEntry vlan_id insert_entry grpc_addr) client in
  client.

(** ** Lemmas *)

(** Running a program on a client and dropping its result. *)
Lemma drop_result {W A} (r : A * W) : (let '(_, client) := r in client) = r.2.
Proof. by destruct r. Qed.

(** ** Properties *)

(** C29 api_no_null_session: no ES2K API function ever dereferences the null
    session pointer of its client, whatever the server does and wherever the
    operation fails. *)
Theorem api_no_null_session (env : Env) (s : S) (ins : bool) (addr : string) l t im sp vlan :
  Forall (fun client => cl_fault client = false)
    [ovsp4rt_config_fdb_entry l ins addr env s;
     ovsp4rt_config_tunnel_entry t ins addr env s;
     ovsp4rt_config_ip_mac_map_entry im ins addr env s;
     ovsp4rt_config_rx_tunnel_src_entry t ins addr env s;
     ovsp4rt_config_src_port_entry sp ins addr env s;
     ovsp4rt_config_tunnel_src_port_entry sp ins addr env s;
     ovsp4rt_config_vlan_entry vlan ins addr env s].
Proof.
  unfold ovsp4rt_config_fdb_entry, ovsp4rt_config_tunnel_entry, ovsp4rt_config_ip_mac_map_entry,
    ovsp4rt_config_rx_tunnel_src_entry, ovsp4rt_config_src_port_entry,
    ovsp4rt_config_tunnel_src_port_entry, ovsp4rt_config_vlan_entry.
  cbv zeta. rewrite !drop_result.
  repeat apply Forall_cons; [..|apply Forall_nil]; by apply session_prologue_fault.
Qed.
End Api.

(** str_to_tunnel_type_spec: the string is translated to the enumerator of
    that name; anything else, the null pointer included, is unknown. *)
Theorem str_to_tunnel_type_spec str :
  (ovsp4rt_str_to_tunnel_type str = OVS_TUNNEL_VXLAN <-> str = Some "vxlan") /\
  (ovsp4rt_str_to_tunnel_type str = OVS_TUNNEL_GENEVE <-> str = Some "geneve").
Proof.
  unfold ovsp4rt_str_to_tunnel_type. destruct str as [str|]; [|by repeat split].
  repeat case_decide; subst; split; split; intros; simplify_eq; done.
Qed.

(** C8 api_tunnel_roundtrip: from the C API down to the server, through the
    session and its arbitration: when the three entries of a tunnel can be
    inserted and both calls connect, the first call, under one client, leaves
    the server with them, and the second, under another, takes exactly them
    away. *)
Theorem api_tunnel_roundtrip {S} `{P4RuntimeServer S} t addr env env' (s : S) T1 :
  switch_writes srv_accepts true (tunnel_entries t srv_p4info true) (srv_tables s) = (true, T1) ->
  let w1 := ovsp4rt_config_tunnel_entry t true addr env s in
  let w2 := ovsp4rt_config_tunnel_entry t false addr env' (cl_server w1) in
  connects addr (new_Client env s) = true ->
  connects addr (new_Client env' (cl_server w1)) = true ->
  srv_tables (cl_server w1) = T1 /\ srv_tables (cl_server w2) = srv_tables s.
Proof.
  intros Hw w1 w2 Hc1 Hc2.
  pose proof (wp_DoConfigTunnelEntry t true addr (new_Client env s)) as H1.
  pose proof (wp_DoConfigTunnelEntry t false addr (new_Client env' (cl_server w1))) as H2.
  unfold wp, operation_result in H1, H2. rewrite Hc1 in H1. rewrite Hc2 in H2.
  unfold w2, ovsp4rt_config_tunnel_entry. cbv zeta. rewrite drop_result.
  assert (HT1 : srv_tables (cl_server w1) = T1).
  { unfold w1, ovsp4rt_config_tunnel_entry. cbv zeta. rewrite drop_result.
    change (sc_tables (new_Client env s)) with (srv_tables s) in H1.
    change (switch_writes sc_accepts) with (switch_writes srv_accepts) in H1.
    change sc_p4info with srv_p4info in H1. rewrite Hw in H1. by injection H1. }
  split; [done|].
  change (sc_tables (new_Client env' (cl_server w1))) with (srv_tables (cl_server w1)) in H2.
  rewrite HT1 in H2.
  change (switch_writes sc_accepts) with (switch_writes srv_accepts) in H2.
  change sc_p4info with srv_p4info in H2.
  rewrite (switch_writes_insert_delete _ _ _ _ _ Hw (tunnel_entries_keys t srv_p4info)) in H2.
  by injection H2.
Qed.

Lemma api_tunnel_roundtrip_witness :
  srv_tables (cl_server
    (ovsp4rt_config_tunnel_entry sample_tunnel false "localhost:9559"
       (default_Env 1700000001 43 None)
       (cl_server
          (ovsp4rt_config_tunnel_entry sample_tunnel true "localhost:9559"
             (default_Env 1700000000 42 None)
             (MkRefServer ∅ None None : RefServer es2k_p4info known_table))))) = ∅.
Proof.
  destruct (switch_writes known_table true
    (Es2kTunnel.tunnel_entries sample_tunnel es2k_p4info true) ∅) as [b T1] eqn:Hw.
  assert (Hb : b = true).
  { change b with (b, T1).1. rewrite <- Hw. vm_compute. reflexivity. }
  rewrite Hb in Hw.
  pose proof (api_tunnel_roundtrip (S := RefServer es2k_p4info known_table) sample_tunnel
    "localhost:9559" (default_Env 1700000000 42 None) (default_Env 1700000001 43 None)
    (MkRefServer ∅ None None) T1 Hw) as Hr.
  apply Hr; vm_compute; reflexivity.
Defined.
