(* ===== verification/DpdkApi.v ===== *)
(** * The C API, DPDK ([core/api/ovsp4rt_standard_api.cc], [#if defined(DPDK_TARGET)])

    On DPDK two functions are implemented; the other five do nothing. *)

From S2P Require Import Prelude P4Runtime OvsP4rt Client Session ClientImpl Dpdk.

Section Api.
Context {S : Type} `{P4RuntimeStub S}.

Definition ovsp4rt_config_fdb_entry (learn_info : mac_learning_info) (insert_entry : bool)
  (grpc_addr : string) (env : Env) (s : S) : ClientState S :=
  let client := new_Client env s in
  let '(_, client) := run (DoConfigFdbEntry learn_info insert_entry grpc_addr) client in
  client.

Definition ovsp4rt_config_tunnel_entry (info : tunnel_info) (insert_entry : bool)
  (grpc_addr : string) (env : Env) (s : S) : ClientState S :=
  let client := new_Client env s in
  let '(_, client) := run (DoConfigTunnelEntry info insert_entry grpc_addr) client in
  client.

(** The functions with an empty body have no client: the server stays as it
    is. *)
Definition ovsp4rt_config_rx_tunnel_src_entry (info : tunnel_info) (insert_entry : bool)
  (grpc_addr : string) (env : Env) (s : S) : S := s.

Definition ovsp4rt_config_vlan_entry (vlan_id : Z) (insert_entry : bool)
  (grpc_addr : string) (env : Env) (s : S) : S := s.

Definition ovsp4rt_config_tunnel_src_port_entry (tnl_sp : src_port_info) (insert_entry : bool)
  (grpc_addr : string) (env : Env) (s : S) : S := s.

Definition ovsp4rt_config_src_port_entry (vsi_sp : src_port_info) (insert_entry : bool)
  (grpc_addr : string) (env : Env) (s : S) : S := s.

Definition ovsp4rt_config_ip_mac_map_entry (ip_info : ip_mac_map_info) (insert_entry : bool)
  (grpc_addr : string) (env : Env) (s : S) : S := s.

(** dpdk_api_no_null_session: neither DPDK API function dereferences the
    null session pointer of its client, whatever the server does. *)
Theorem dpdk_api_no_null_session (env : Env) (s : S) (ins : bool) (addr : string) l t :
  cl_fault (ovsp4rt_config_fdb_entry l ins addr env s) = false /\
  cl_fault (ovsp4rt_config_tunnel_entry t ins addr env s) = false.
Proof.
  unfold ovsp4rt_config_fdb_entry, ovsp4rt_config_tunnel_entry. cbv zeta. split;
    match goal with |- context [run ?p ?w] =>
      pose proof (session_prologue_fault addr) as Hp;
      transitivity (cl_fault (run p w).2); [by destruct (run p w)|by apply Hp]
    end.
Qed.
End Api.
