(* ===== verification/Target.v ===== *)
(** * The compilation target

    [core/v1] and [core/v2] choose between the two pipelines with
    [#if defined(DPDK_TARGET)] and include the name mapping of one of them
    ([core/v1/ovsp4rt.cc], lines 18 to 22). The names both mappings define,
    and code compiled for both targets uses, depend on the target. *)

From S2P Require Import Prelude.
From S2P Require Import DpdkNames Es2kNames.

Inductive target := DPDK_TARGET | ES2K_TARGET.

(** The macro [dpdk] or [es2k] expands to. *)
Definition macro (tgt : target) (dpdk es2k : string) : string :=
  match tgt with DPDK_TARGET => dpdk | ES2K_TARGET => es2k end.

Section Names.
Variable tgt : target.

Definition t_L2_FWD_TX_TABLE : string :=
  macro tgt DpdkNames.L2_FWD_TX_TABLE
    Es2kNames.L2_FWD_TX_TABLE.
Definition t_L2_FWD_TX_TABLE_KEY_DST_MAC : string :=
  macro tgt DpdkNames.L2_FWD_TX_TABLE_KEY_DST_MAC
    Es2kNames.L2_FWD_TX_TABLE_KEY_DST_MAC.
Definition t_VXLAN_ENCAP_MOD_TABLE : string :=
  macro tgt DpdkNames.VXLAN_ENCAP_MOD_TABLE
    Es2kNames.VXLAN_ENCAP_MOD_TABLE.
Definition t_VXLAN_ENCAP_MOD_TABLE_KEY_VENDORMETA_MOD_DATA_PTR : string :=
  macro tgt DpdkNames.VXLAN_ENCAP_MOD_TABLE_KEY_VENDORMETA_MOD_DATA_PTR
    Es2kNames.VXLAN_ENCAP_MOD_TABLE_KEY_VENDORMETA_MOD_DATA_PTR.
Definition t_ACTION_VXLAN_ENCAP : string :=
  macro tgt DpdkNames.ACTION_VXLAN_ENCAP
    Es2kNames.ACTION_VXLAN_ENCAP.
Definition t_ACTION_VXLAN_ENCAP_PARAM_SRC_ADDR : string :=
  macro tgt DpdkNames.ACTION_VXLAN_ENCAP_PARAM_SRC_ADDR
    Es2kNames.ACTION_VXLAN_ENCAP_PARAM_SRC_ADDR.
Definition t_ACTION_VXLAN_ENCAP_PARAM_DST_ADDR : string :=
  macro tgt DpdkNames.ACTION_VXLAN_ENCAP_PARAM_DST_ADDR
    Es2kNames.ACTION_VXLAN_ENCAP_PARAM_DST_ADDR.
Definition t_ACTION_VXLAN_ENCAP_PARAM_DST_PORT : string :=
  macro tgt DpdkNames.ACTION_VXLAN_ENCAP_PARAM_DST_PORT
    Es2kNames.ACTION_VXLAN_ENCAP_PARAM_DST_PORT.
Definition t_ACTION_VXLAN_ENCAP_PARAM_VNI : string :=
  macro tgt DpdkNames.ACTION_VXLAN_ENCAP_PARAM_VNI
    Es2kNames.ACTION_VXLAN_ENCAP_PARAM_VNI.
Definition t_IPV4_TUNNEL_TERM_TABLE : string :=
  macro tgt DpdkNames.IPV4_TUNNEL_TERM_TABLE
    Es2kNames.IPV4_TUNNEL_TERM_TABLE.
Definition t_IPV4_TUNNEL_TERM_TABLE_KEY_IPV4_SRC : string :=
  macro tgt DpdkNames.IPV4_TUNNEL_TERM_TABLE_KEY_IPV4_SRC
    Es2kNames.IPV4_TUNNEL_TERM_TABLE_KEY_IPV4_SRC.
End Names.
