(* ===== verification/V1Utils.v ===== *)
(** * Helpers of version 1 ([core/v1/ovsp4rt.cc], lines 38 to 125, 2289)

    The file has its own copies of the functions that version 3 has in
    [core/common/] and [core/api/], with the same text. *)

From S2P Require Import Prelude.
From S2P Require EncodeUtils P4InfoUtils Es2kApi.

Definition EncodeByteValue := EncodeUtils.EncodeByteValue.
Definition EncodeTunnelId := EncodeUtils.EncodeTunnelId.
Definition EncodeVniValue := EncodeUtils.EncodeVniValue.
Definition CanonicalizeIp := EncodeUtils.CanonicalizeIp.
Definition CanonicalizeIpv6 := EncodeUtils.CanonicalizeIpv6.
Definition CanonicalizeMac := EncodeUtils.CanonicalizeMac.

Definition GetTableId := P4InfoUtils.GetTableId.
Definition GetActionId := P4InfoUtils.GetActionId.
Definition GetParamId := P4InfoUtils.GetParamId.
Definition GetMatchFieldId := P4InfoUtils.GetMatchFieldId.

Definition ovsp4rt_str_to_tunnel_type := Es2kApi.ovsp4rt_str_to_tunnel_type.
