(* ===== verification/V1Encoders.v ===== *)
(** * Encoders of version 1 ([core/v1/ovsp4rt.cc])

    The default implementation of the library is one source file for both
    targets, with the differences under [#if]. A function that is compiled for
    both takes the target first; one that is compiled for ES2K only has no such
    argument. *)

From S2P Require Import Prelude P4Runtime OvsP4rt EncodeUtils P4InfoUtils Logging.
From S2P Require Import DpdkNames DpdkEncoders Es2kEncoders.
From S2P Require Import Es2kNames Target V1Utils.

Definition tunnel_v6_param_name : list string :=
  [ACTION_SET_TUNNEL_V6_PARAM_IPV6_1; ACTION_SET_TUNNEL_V6_PARAM_IPV6_2;
   ACTION_SET_TUNNEL_V6_PARAM_IPV6_3; ACTION_SET_TUNNEL_V6_PARAM_IPV6_4].

Definition EncodeFdbSmacTableEntry (table_entry : TableEntry)
  (learn_info : mac_learning_info) (p4info : P4Info) (insert_entry : bool)
  (detail : DiagDetail) : TableEntry * DiagDetail :=
  let detail := MkDiagDetail LOG_L2_FWD_SMAC_TABLE in
  let table_entry := set_table_id (GetTableId p4info L2_FWD_SMAC_TABLE) table_entry in
  let table_entry :=
    add_match_exact (GetMatchFieldId p4info L2_FWD_SMAC_TABLE L2_FWD_SMAC_TABLE_KEY_SA)
      (CanonicalizeMac (mac_addr learn_info)) table_entry in
  let table_entry :=
    add_match_exact
      (GetMatchFieldId p4info L2_FWD_SMAC_TABLE L2_FWD_SMAC_TABLE_KEY_BRIDGE_ID)
      (EncodeByteValue 1 [bridge_id learn_info]) table_entry in
  let table_entry :=
    if insert_entry then
      mutable_action (fun action =>
        set_action_id (GetActionId p4info L2_FWD_SMAC_TABLE_ACTION_NO_ACTION) action)
        table_entry
    else table_entry in
  (table_entry, detail).

Definition EncodeFdbTxVlanTableEntry (tgt : target) (table_entry : TableEntry)
  (learn_info : mac_learning_info) (p4info : P4Info) (insert_entry : bool)
  (detail : DiagDetail) : TableEntry * DiagDetail :=
  let detail := MkDiagDetail LOG_L2_FWD_TX_TABLE in
  let table_entry := set_table_id (GetTableId p4info (t_L2_FWD_TX_TABLE tgt)) table_entry in
  let table_entry :=
    add_match_exact
      (GetMatchFieldId p4info (t_L2_FWD_TX_TABLE tgt) (t_L2_FWD_TX_TABLE_KEY_DST_MAC tgt))
      (CanonicalizeMac (mac_addr learn_info)) table_entry in
  let table_entry :=
    match tgt with
    | ES2K_TARGET =>
        let table_entry :=
          add_match_exact
            (GetMatchFieldId p4info L2_FWD_TX_TABLE L2_FWD_TX_TABLE_KEY_BRIDGE_ID)
            (EncodeByteValue 1 [bridge_id learn_info]) table_entry in
        if insert_entry then
          mutable_action (fun action =>
            if decide (port_vlan_mode (vlan_mode_info learn_info) =
                         P4_PORT_VLAN_NATIVE_UNTAGGED)
            then
              let action :=
                set_action_id (GetActionId p4info L2_FWD_TX_TABLE_ACTION_REMOVE_VLAN_AND_FWD)
                  action in
              let action :=
                let port_id := src_port learn_info in
                add_param
                  (GetParamId p4info L2_FWD_TX_TABLE_ACTION_REMOVE_VLAN_AND_FWD
                     ACTION_REMOVE_VLAN_AND_FWD_PARAM_PORT_ID)
                  (EncodeByteValue 1 [port_id]) action in
              add_param
                (GetParamId p4info L2_FWD_TX_TABLE_ACTION_REMOVE_VLAN_AND_FWD
                   ACTION_REMOVE_VLAN_AND_FWD_PARAM_VLAN_PTR)
                (EncodeByteValue 1 [port_vlan (vlan_mode_info learn_info)]) action
            else
              let action :=
                set_action_id (GetActionId p4info L2_FWD_TX_TABLE_ACTION_L2_FWD) action in
              let port_id := src_port learn_info in
              add_param
                (GetParamId p4info L2_FWD_TX_TABLE_ACTION_L2_FWD ACTION_L2_FWD_PARAM_PORT)
                (EncodeByteValue 1 [port_id]) action) table_entry
        else table_entry
    | DPDK_TARGET =>
        if insert_entry then
          mutable_action (fun action =>
            let action :=
              set_action_id (GetActionId p4info DpdkNames.L2_FWD_TX_TABLE_ACTION_L2_FWD)
                action in
            let port_id := w32 (vlan_id (vln_info learn_info) - 1) in
            add_param
              (GetParamId p4info DpdkNames.L2_FWD_TX_TABLE_ACTION_L2_FWD
                 DpdkNames.ACTION_L2_FWD_PARAM_PORT)
              (EncodeByteValue 1 [port_id]) action) table_entry
        else table_entry
    end in
  (table_entry, detail).

(** Two functions, one per target. *)
Definition EncodeFdbRxVlanTableEntry (tgt : target) (table_entry : TableEntry)
  (learn_info : mac_learning_info) (p4info : P4Info) (insert_entry : bool)
  (detail : DiagDetail) : TableEntry * DiagDetail :=
  match tgt with
  | ES2K_TARGET =>
      let detail := MkDiagDetail LOG_L2_FWD_RX_TABLE in
      let table_entry := set_table_id (GetTableId p4info L2_FWD_RX_TABLE) table_entry in
      let table_entry :=
        add_match_exact (GetMatchFieldId p4info L2_FWD_RX_TABLE L2_FWD_RX_TABLE_KEY_DST_MAC)
          (CanonicalizeMac (mac_addr learn_info)) table_entry in
      let table_entry :=
        add_match_exact (GetMatchFieldId p4info L2_FWD_RX_TABLE L2_FWD_RX_TABLE_KEY_BRIDGE_ID)
          (EncodeByteValue 1 [bridge_id learn_info]) table_entry in
      let table_entry :=
        if insert_entry then
          mutable_action (fun action =>
            let action :=
              set_action_id (GetActionId p4info L2_FWD_RX_TABLE_ACTION_L2_FWD) action in
            let port_id := rx_src_port learn_info in
            add_param
              (GetParamId p4info L2_FWD_RX_TABLE_ACTION_L2_FWD ACTION_L2_FWD_PARAM_PORT)
              (EncodeByteValue 1 [port_id]) action) table_entry
        else table_entry in
      (table_entry, detail)
  | DPDK_TARGET =>
      let detail := MkDiagDetail LOG_L2_FWD_RX_WITH_TUNNEL_TABLE in
      let table_entry :=
        set_table_id (GetTableId p4info DpdkNames.L2_FWD_RX_WITH_TUNNEL_TABLE) table_entry in
      let table_entry :=
        add_match_exact
          (GetMatchFieldId p4info DpdkNames.L2_FWD_RX_WITH_TUNNEL_TABLE
             DpdkNames.L2_FWD_TX_TABLE_KEY_DST_MAC)
          (CanonicalizeMac (mac_addr learn_info)) table_entry in
      let table_entry :=
        if insert_entry then
          mutable_action (fun action =>
            let action :=
              set_action_id (GetActionId p4info DpdkNames.L2_FWD_TX_TABLE_ACTION_L2_FWD)
                action in
            let port_id := w32 (vlan_id (vln_info learn_info) - 1) in
            add_param
              (GetParamId p4info DpdkNames.L2_FWD_RX_TABLE_ACTION_L2_FWD
                 DpdkNames.ACTION_L2_FWD_PARAM_PORT)
              (EncodeByteValue 1 [port_id]) action) table_entry
        else table_entry in
      (table_entry, detail)
  end.

Definition EncodeFdbTableEntryforV4VxlanTunnel (tgt : target) (table_entry : TableEntry)
  (learn_info : mac_learning_info) (p4info : P4Info) (insert_entry : bool)
  (detail : DiagDetail) : TableEntry * DiagDetail :=
  let detail := MkDiagDetail LOG_L2_FWD_TX_TABLE in
  let table_entry := set_table_id (GetTableId p4info (t_L2_FWD_TX_TABLE tgt)) table_entry in
  let table_entry :=
    add_match_exact
      (GetMatchFieldId p4info (t_L2_FWD_TX_TABLE tgt) (t_L2_FWD_TX_TABLE_KEY_DST_MAC tgt))
      (CanonicalizeMac (mac_addr learn_info)) table_entry in
  let table_entry :=
    match tgt with
    | ES2K_TARGET =>
        add_match_exact
          (GetMatchFieldId p4info L2_FWD_TX_TABLE L2_FWD_TX_TABLE_KEY_BRIDGE_ID)
          (EncodeByteValue 1 [bridge_id learn_info]) table_entry
    | DPDK_TARGET => table_entry
    end in
  let table_entry :=
    match tgt with
    | DPDK_TARGET =>
        if insert_entry then
          mutable_action (fun action =>
            let action :=
              set_action_id (GetActionId p4info DpdkNames.L2_FWD_TX_TABLE_ACTION_SET_TUNNEL)
                action in
            let action :=
              add_param
                (GetParamId p4info DpdkNames.L2_FWD_TX_TABLE_ACTION_SET_TUNNEL
                   DpdkNames.ACTION_SET_TUNNEL_PARAM_TUNNEL_ID)
                (EncodeByteValue 1 [vni (tnl_info learn_info)]) action in
            add_param
              (GetParamId p4info DpdkNames.L2_FWD_TX_TABLE_ACTION_SET_TUNNEL
                 DpdkNames.ACTION_SET_TUNNEL_PARAM_DST_ADDR)
              (CanonicalizeIp (s_addr (remote_ip (tnl_info learn_info)))) action) table_entry
        else table_entry
    | ES2K_TARGET =>
        if insert_entry then
          mutable_action (fun action =>
            if (family (local_ip (tnl_info learn_info)) =? AF_INET) &&
               (family (remote_ip (tnl_info learn_info)) =? AF_INET) then
              if decide (port_vlan_mode (vlan_mode_info learn_info) = P4_PORT_VLAN_NATIVE_UNTAGGED)
              then
                  let action :=
                    set_action_id (GetActionId p4info L2_FWD_TX_TABLE_ACTION_POP_VLAN_SET_VXLAN_UNDERLAY_V4)
                      action in
                  add_param
                    (GetParamId p4info L2_FWD_TX_TABLE_ACTION_POP_VLAN_SET_VXLAN_UNDERLAY_V4
                       ACTION_PARAM_TUNNEL_ID)
                    (EncodeTunnelId (vni (tnl_info learn_info))) action
              else
                  let action :=
                    set_action_id (GetActionId p4info L2_FWD_TX_TABLE_ACTION_SET_VXLAN_UNDERLAY_V4)
                      action in
                  add_param
                    (GetParamId p4info L2_FWD_TX_TABLE_ACTION_SET_VXLAN_UNDERLAY_V4
                       ACTION_PARAM_TUNNEL_ID)
                    (EncodeTunnelId (vni (tnl_info learn_info))) action
            else if (family (local_ip (tnl_info learn_info)) =? AF_INET6) &&
                    (family (remote_ip (tnl_info learn_info)) =? AF_INET6) then
              if decide (port_vlan_mode (vlan_mode_info learn_info) = P4_PORT_VLAN_NATIVE_UNTAGGED)
              then
                  let action :=
                    set_action_id (GetActionId p4info L2_FWD_TX_TABLE_ACTION_POP_VLAN_SET_VXLAN_UNDERLAY_V6)
                      action in
                  add_param
                    (GetParamId p4info L2_FWD_TX_TABLE_ACTION_POP_VLAN_SET_VXLAN_UNDERLAY_V6
                       ACTION_PARAM_TUNNEL_ID)
                    (EncodeTunnelId (vni (tnl_info learn_info))) action
              else
                  let action :=
                    set_action_id (GetActionId p4info L2_FWD_TX_TABLE_ACTION_SET_VXLAN_UNDERLAY_V6)
                      action in
                  add_param
                    (GetParamId p4info L2_FWD_TX_TABLE_ACTION_SET_VXLAN_UNDERLAY_V6
                       ACTION_PARAM_TUNNEL_ID)
                    (EncodeTunnelId (vni (tnl_info learn_info))) action
            else action) table_entry
        else table_entry
    end in
  (table_entry, detail).

Definition EncodeFdbTableEntryforV4GeneveTunnel (table_entry : TableEntry)
  (learn_info : mac_learning_info) (p4info : P4Info) (insert_entry : bool)
  (detail : DiagDetail) : TableEntry * DiagDetail :=
  let detail := MkDiagDetail LOG_L2_FWD_TX_TABLE in
  let table_entry := set_table_id (GetTableId p4info L2_FWD_TX_TABLE) table_entry in
  let table_entry :=
    add_match_exact (GetMatchFieldId p4info L2_FWD_TX_TABLE L2_FWD_TX_TABLE_KEY_DST_MAC)
      (CanonicalizeMac (mac_addr learn_info)) table_entry in
  let table_entry :=
    add_match_exact (GetMatchFieldId p4info L2_FWD_TX_TABLE L2_FWD_TX_TABLE_KEY_BRIDGE_ID)
      (EncodeByteValue 1 [bridge_id learn_info]) table_entry in
  let table_entry :=
    if insert_entry then
      mutable_action (fun action =>
        if (family (local_ip (tnl_info learn_info)) =? AF_INET) &&
           (family (remote_ip (tnl_info learn_info)) =? AF_INET) then
          if decide (port_vlan_mode (vlan_mode_info learn_info) = P4_PORT_VLAN_NATIVE_UNTAGGED)
          then
              let action :=
                set_action_id (GetActionId p4info L2_FWD_TX_TABLE_ACTION_POP_VLAN_SET_GENEVE_UNDERLAY_V4)
                  action in
              add_param
                (GetParamId p4info L2_FWD_TX_TABLE_ACTION_POP_VLAN_SET_GENEVE_UNDERLAY_V4
                   ACTION_PARAM_TUNNEL_ID)
                (EncodeTunnelId (vni (tnl_info learn_info))) action
          else
              let action :=
                set_action_id (GetActionId p4info L2_FWD_TX_TABLE_ACTION_SET_GENEVE_UNDERLAY_V4)
                  action in
              add_param
                (GetParamId p4info L2_FWD_TX_TABLE_ACTION_SET_GENEVE_UNDERLAY_V4
                   ACTION_PARAM_TUNNEL_ID)
                (EncodeTunnelId (vni (tnl_info learn_info))) action
        else if (family (local_ip (tnl_info learn_info)) =? AF_INET6) &&
                (family (remote_ip (tnl_info learn_info)) =? AF_INET6) then
          if decide (port_vlan_mode (vlan_mode_info learn_info) = P4_PORT_VLAN_NATIVE_UNTAGGED)
          then
              let action :=
                set_action_id (GetActionId p4info L2_FWD_TX_TABLE_ACTION_POP_VLAN_SET_GENEVE_UNDERLAY_V6)
                  action in
              add_param
                (GetParamId p4info L2_FWD_TX_TABLE_ACTION_POP_VLAN_SET_GENEVE_UNDERLAY_V6
                   ACTION_PARAM_TUNNEL_ID)
                (EncodeTunnelId (vni (tnl_info learn_info))) action
          else
              let action :=
                set_action_id (GetActionId p4info L2_FWD_TX_TABLE_ACTION_SET_GENEVE_UNDERLAY_V6)
                  action in
              add_param
                (GetParamId p4info L2_FWD_TX_TABLE_ACTION_SET_GENEVE_UNDERLAY_V6
                   ACTION_PARAM_TUNNEL_ID)
                (EncodeTunnelId (vni (tnl_info learn_info))) action
        else action) table_entry
    else table_entry in
  (table_entry, detail).

Definition EncodeL2ToTunnelV4 (table_entry : TableEntry)
  (learn_info : mac_learning_info) (p4info : P4Info) (insert_entry : bool)
  (detail : DiagDetail) : TableEntry * DiagDetail :=
  let detail := MkDiagDetail LOG_L2_TO_TUNNEL_V4_TABLE in
  let table_entry := set_table_id (GetTableId p4info L2_TO_TUNNEL_V4_TABLE) table_entry in
  let table_entry :=
    add_match_exact (GetMatchFieldId p4info L2_TO_TUNNEL_V4_TABLE L2_TO_TUNNEL_V4_KEY_DA)
      (CanonicalizeMac (mac_addr learn_info)) table_entry in
  let table_entry :=
    if insert_entry then
      mutable_action (fun action =>
        let action :=
          set_action_id (GetActionId p4info L2_TO_TUNNEL_V4_ACTION_SET_TUNNEL_V4) action in
        add_param
          (GetParamId p4info L2_TO_TUNNEL_V4_ACTION_SET_TUNNEL_V4
             ACTION_SET_TUNNEL_V4_PARAM_DST_ADDR)
          (CanonicalizeIp (s_addr (remote_ip (tnl_info learn_info)))) action) table_entry
    else table_entry in
  (table_entry, detail).

(** The body of the [for (i = 0; i < 4; i++)] loop. *)
Definition EncodeL2ToTunnelV6_param (learn_info : mac_learning_info) (p4info : P4Info)
  (action : Action) (i : nat) : Action :=
  add_param
    (GetParamId p4info L2_TO_TUNNEL_V6_ACTION_SET_TUNNEL_V6 (tunnel_v6_param_name !!! i))
    (CanonicalizeIp (u6_addr32 (remote_ip (tnl_info learn_info)) i)) action.

Definition EncodeL2ToTunnelV6 (table_entry : TableEntry)
  (learn_info : mac_learning_info) (p4info : P4Info) (insert_entry : bool)
  (detail : DiagDetail) : TableEntry * DiagDetail :=
  let detail := MkDiagDetail LOG_L2_TO_TUNNEL_V6_TABLE in
  let table_entry := set_table_id (GetTableId p4info L2_TO_TUNNEL_V6_TABLE) table_entry in
  let table_entry :=
    add_match_exact (GetMatchFieldId p4info L2_TO_TUNNEL_V6_TABLE L2_TO_TUNNEL_V6_KEY_DA)
      (CanonicalizeMac (mac_addr learn_info)) table_entry in
  let table_entry :=
    if insert_entry then
      mutable_action (fun action =>
        let action :=
          set_action_id (GetActionId p4info L2_TO_TUNNEL_V6_ACTION_SET_TUNNEL_V6) action in
        fold_left (EncodeL2ToTunnelV6_param learn_info p4info) (seq 0 4) action) table_entry
    else table_entry in
  (table_entry, detail).

Definition EncodeVxlanEncapTableEntry (tgt : target) (table_entry : TableEntry)
  (info : tunnel_info) (p4info : P4Info) (insert_entry : bool) : TableEntry :=
  let table_entry :=
    set_table_id (GetTableId p4info (t_VXLAN_ENCAP_MOD_TABLE tgt)) table_entry in
  let table_entry :=
    add_match_exact
      (GetMatchFieldId p4info (t_VXLAN_ENCAP_MOD_TABLE tgt)
         (t_VXLAN_ENCAP_MOD_TABLE_KEY_VENDORMETA_MOD_DATA_PTR tgt))
      (EncodeVniValue (vni info)) table_entry in
  if insert_entry then
    mutable_action (fun action =>
      let action := set_action_id (GetActionId p4info (t_ACTION_VXLAN_ENCAP tgt)) action in
      let action :=
        add_param
          (GetParamId p4info (t_ACTION_VXLAN_ENCAP tgt)
             (t_ACTION_VXLAN_ENCAP_PARAM_SRC_ADDR tgt))
          (CanonicalizeIp (s_addr (local_ip info))) action in
      let action :=
        add_param
          (GetParamId p4info (t_ACTION_VXLAN_ENCAP tgt)
             (t_ACTION_VXLAN_ENCAP_PARAM_DST_ADDR tgt))
          (CanonicalizeIp (s_addr (remote_ip info))) action in
      let action :=
        match tgt with
        | ES2K_TARGET =>
            let src_port := w16 (htons (dst_port info) * 2) in
            add_param (GetParamId p4info ACTION_VXLAN_ENCAP ACTION_VXLAN_ENCAP_PARAM_SRC_PORT)
              (EncodeByteValue 2 [(src_port >>. 8) .& 255; src_port .& 255]) action
        | DPDK_TARGET => action
        end in
      let action :=
        let dst_port := htons (dst_port info) in
        add_param
          (GetParamId p4info (t_ACTION_VXLAN_ENCAP tgt)
             (t_ACTION_VXLAN_ENCAP_PARAM_DST_PORT tgt))
          (EncodeByteValue 2 [(dst_port >>. 8) .& 255; dst_port .& 255]) action in
      add_param
        (GetParamId p4info (t_ACTION_VXLAN_ENCAP tgt) (t_ACTION_VXLAN_ENCAP_PARAM_VNI tgt))
        (EncodeVniValue (vni info)) action) table_entry
  else table_entry.

Definition EncodeGeneveEncapTableEntry (table_entry : TableEntry) (info : tunnel_info)
  (p4info : P4Info) (insert_entry : bool) : TableEntry :=
  let table_entry := set_table_id (GetTableId p4info GENEVE_ENCAP_MOD_TABLE) table_entry in
  let table_entry :=
    add_match_exact
      (GetMatchFieldId p4info GENEVE_ENCAP_MOD_TABLE
         GENEVE_ENCAP_MOD_TABLE_KEY_VENDORMETA_MOD_DATA_PTR)
      (EncodeVniValue (vni info)) table_entry in
  if insert_entry then
    mutable_action (fun action =>
      let action := set_action_id (GetActionId p4info ACTION_GENEVE_ENCAP) action in
      let action :=
        add_param (GetParamId p4info ACTION_GENEVE_ENCAP ACTION_GENEVE_ENCAP_PARAM_SRC_ADDR)
          (CanonicalizeIp (s_addr (local_ip info))) action in
      let action :=
        add_param (GetParamId p4info ACTION_GENEVE_ENCAP ACTION_GENEVE_ENCAP_PARAM_DST_ADDR)
          (CanonicalizeIp (s_addr (remote_ip info))) action in
      let action :=
        let src_port := w16 (htons (dst_port info) * 2) in
        add_param (GetParamId p4info ACTION_GENEVE_ENCAP ACTION_GENEVE_ENCAP_PARAM_SRC_PORT)
          (EncodeByteValue 2 [(src_port >>. 8) .& 255; src_port .& 255]) action in
      let action :=
        let dst_port := htons (dst_port info) in
        add_param (GetParamId p4info ACTION_GENEVE_ENCAP ACTION_GENEVE_ENCAP_PARAM_DST_PORT)
          (EncodeByteValue 2 [(dst_port >>. 8) .& 255; dst_port .& 255]) action in
      add_param (GetParamId p4info ACTION_GENEVE_ENCAP ACTION_GENEVE_ENCAP_PARAM_VNI)
        (EncodeVniValue (vni info)) action) table_entry
  else table_entry.

Definition EncodeV6VxlanEncapTableEntry (table_entry : TableEntry) (info : tunnel_info)
  (p4info : P4Info) (insert_entry : bool) : TableEntry :=
  let table_entry := set_table_id (GetTableId p4info VXLAN_ENCAP_V6_MOD_TABLE) table_entry in
  let table_entry :=
    add_match_exact
      (GetMatchFieldId p4info VXLAN_ENCAP_V6_MOD_TABLE
         VXLAN_ENCAP_V6_MOD_TABLE_KEY_VENDORMETA_MOD_DATA_PTR)
      (EncodeVniValue (vni info)) table_entry in
  if insert_entry then
    mutable_action (fun action =>
      let action := set_action_id (GetActionId p4info ACTION_VXLAN_ENCAP_V6) action in
      let action :=
        add_param (GetParamId p4info ACTION_VXLAN_ENCAP_V6 ACTION_VXLAN_ENCAP_V6_PARAM_SRC_ADDR)
          (CanonicalizeIpv6 (local_ip info)) action in
      let action :=
        add_param (GetParamId p4info ACTION_VXLAN_ENCAP_V6 ACTION_VXLAN_ENCAP_V6_PARAM_DST_ADDR)
          (CanonicalizeIpv6 (remote_ip info)) action in
      let action :=
        let src_port := w16 (htons (dst_port info) * 2) in
        add_param (GetParamId p4info ACTION_VXLAN_ENCAP_V6 ACTION_VXLAN_ENCAP_V6_PARAM_SRC_PORT)
          (EncodeByteValue 2 [(src_port >>. 8) .& 255; src_port .& 255]) action in
      let action :=
        let dst_port := htons (dst_port info) in
        add_param (GetParamId p4info ACTION_VXLAN_ENCAP_V6 ACTION_VXLAN_ENCAP_V6_PARAM_DST_PORT)
          (EncodeByteValue 2 [(dst_port >>. 8) .& 255; dst_port .& 255]) action in
      add_param (GetParamId p4info ACTION_VXLAN_ENCAP_V6 ACTION_VXLAN_ENCAP_V6_PARAM_VNI)
        (EncodeVniValue (vni info)) action) table_entry
  else table_entry.

Definition EncodeV6GeneveEncapTableEntry (table_entry : TableEntry) (info : tunnel_info)
  (p4info : P4Info) (insert_entry : bool) : TableEntry :=
  let table_entry := set_table_id (GetTableId p4info GENEVE_ENCAP_V6_MOD_TABLE) table_entry in
  let table_entry :=
    add_match_exact
      (GetMatchFieldId p4info GENEVE_ENCAP_V6_MOD_TABLE
         GENEVE_ENCAP_V6_MOD_TABLE_KEY_VENDORMETA_MOD_DATA_PTR)
      (EncodeVniValue (vni info)) table_entry in
  if insert_entry then
    mutable_action (fun action =>
      let action := set_action_id (GetActionId p4info ACTION_GENEVE_ENCAP_V6) action in
      let action :=
        add_param (GetParamId p4info ACTION_GENEVE_ENCAP_V6 ACTION_GENEVE_ENCAP_V6_PARAM_SRC_ADDR)
          (CanonicalizeIpv6 (local_ip info)) action in
      let action :=
        add_param (GetParamId p4info ACTION_GENEVE_ENCAP_V6 ACTION_GENEVE_ENCAP_V6_PARAM_DST_ADDR)
          (CanonicalizeIpv6 (remote_ip info)) action in
      let action :=
        let src_port := w16 (htons (dst_port info) * 2) in
        add_param (GetParamId p4info ACTION_GENEVE_ENCAP_V6 ACTION_GENEVE_ENCAP_V6_PARAM_SRC_PORT)
          (EncodeByteValue 2 [(src_port >>. 8) .& 255; src_port .& 255]) action in
      let action :=
        let dst_port := htons (dst_port info) in
        add_param (GetParamId p4info ACTION_GENEVE_ENCAP_V6 ACTION_GENEVE_ENCAP_V6_PARAM_DST_PORT)
          (EncodeByteValue 2 [(dst_port >>. 8) .& 255; dst_port .& 255]) action in
      add_param (GetParamId p4info ACTION_GENEVE_ENCAP_V6 ACTION_GENEVE_ENCAP_V6_PARAM_VNI)
        (EncodeVniValue (vni info)) action) table_entry
  else table_entry.

Definition EncodeVxlanEncapAndVlanPopTableEntry (table_entry : TableEntry) (info : tunnel_info)
  (p4info : P4Info) (insert_entry : bool) : TableEntry :=
  let table_entry := set_table_id (GetTableId p4info VXLAN_ENCAP_VLAN_POP_MOD_TABLE) table_entry in
  let table_entry :=
    add_match_exact
      (GetMatchFieldId p4info VXLAN_ENCAP_VLAN_POP_MOD_TABLE
         VXLAN_ENCAP_VLAN_POP_MOD_TABLE_KEY_VENDORMETA_MOD_DATA_PTR)
      (EncodeVniValue (vni info)) table_entry in
  if insert_entry then
    mutable_action (fun action =>
      let action := set_action_id (GetActionId p4info ACTION_VXLAN_ENCAP_VLAN_POP) action in
      let action :=
        add_param (GetParamId p4info ACTION_VXLAN_ENCAP_VLAN_POP ACTION_VXLAN_ENCAP_VLAN_POP_PARAM_SRC_ADDR)
          (CanonicalizeIp (s_addr (local_ip info))) action in
      let action :=
        add_param (GetParamId p4info ACTION_VXLAN_ENCAP_VLAN_POP ACTION_VXLAN_ENCAP_VLAN_POP_PARAM_DST_ADDR)
          (CanonicalizeIp (s_addr (remote_ip info))) action in
      let action :=
        let src_port := w16 (htons (dst_port info) * 2) in
        add_param (GetParamId p4info ACTION_VXLAN_ENCAP_VLAN_POP ACTION_VXLAN_ENCAP_VLAN_POP_PARAM_SRC_PORT)
          (EncodeByteValue 2 [(src_port >>. 8) .& 255; src_port .& 255]) action in
      let action :=
        let dst_port := htons (dst_port info) in
        add_param (GetParamId p4info ACTION_VXLAN_ENCAP_VLAN_POP ACTION_VXLAN_ENCAP_VLAN_POP_PARAM_DST_PORT)
          (EncodeByteValue 2 [(dst_port >>. 8) .& 255; dst_port .& 255]) action in
      add_param (GetParamId p4info ACTION_VXLAN_ENCAP_VLAN_POP ACTION_VXLAN_ENCAP_VLAN_POP_PARAM_VNI)
        (EncodeVniValue (vni info)) action) table_entry
  else table_entry.

Definition EncodeGeneveEncapAndVlanPopTableEntry (table_entry : TableEntry) (info : tunnel_info)
  (p4info : P4Info) (insert_entry : bool) : TableEntry :=
  let table_entry := set_table_id (GetTableId p4info GENEVE_ENCAP_VLAN_POP_MOD_TABLE) table_entry in
  let table_entry :=
    add_match_exact
      (GetMatchFieldId p4info GENEVE_ENCAP_VLAN_POP_MOD_TABLE
         GENEVE_ENCAP_VLAN_POP_MOD_TABLE_KEY_VENDORMETA_MOD_DATA_PTR)
      (EncodeVniValue (vni info)) table_entry in
  if insert_entry then
    mutable_action (fun action =>
      let action := set_action_id (GetActionId p4info ACTION_GENEVE_ENCAP_VLAN_POP) action in
      let action :=
        add_param (GetParamId p4info ACTION_GENEVE_ENCAP_VLAN_POP ACTION_GENEVE_ENCAP_VLAN_POP_PARAM_SRC_ADDR)
          (CanonicalizeIp (s_addr (local_ip info))) action in
      let action :=
        add_param (GetParamId p4info ACTION_GENEVE_ENCAP_VLAN_POP ACTION_GENEVE_ENCAP_VLAN_POP_PARAM_DST_ADDR)
          (CanonicalizeIp (s_addr (remote_ip info))) action in
      let action :=
        let src_port := w16 (htons (dst_port info) * 2) in
        add_param (GetParamId p4info ACTION_GENEVE_ENCAP_VLAN_POP ACTION_GENEVE_ENCAP_VLAN_POP_PARAM_SRC_PORT)
          (EncodeByteValue 2 [(src_port >>. 8) .& 255; src_port .& 255]) action in
      let action :=
        let dst_port := htons (dst_port info) in
        add_param (GetParamId p4info ACTION_GENEVE_ENCAP_VLAN_POP ACTION_GENEVE_ENCAP_VLAN_POP_PARAM_DST_PORT)
          (EncodeByteValue 2 [(dst_port >>. 8) .& 255; dst_port .& 255]) action in
      add_param (GetParamId p4info ACTION_GENEVE_ENCAP_VLAN_POP ACTION_GENEVE_ENCAP_VLAN_POP_PARAM_VNI)
        (EncodeVniValue (vni info)) action) table_entry
  else table_entry.

Definition EncodeV6VxlanEncapAndVlanPopTableEntry (table_entry : TableEntry) (info : tunnel_info)
  (p4info : P4Info) (insert_entry : bool) : TableEntry :=
  let table_entry := set_table_id (GetTableId p4info VXLAN_ENCAP_V6_VLAN_POP_MOD_TABLE) table_entry in
  let table_entry :=
    add_match_exact
      (GetMatchFieldId p4info VXLAN_ENCAP_V6_VLAN_POP_MOD_TABLE
         VXLAN_ENCAP_V6_VLAN_POP_MOD_TABLE_KEY_VENDORMETA_MOD_DATA_PTR)
      (EncodeVniValue (vni info)) table_entry in
  if insert_entry then
    mutable_action (fun action =>
      let action := set_action_id (GetActionId p4info ACTION_VXLAN_ENCAP_V6_VLAN_POP) action in
      let action :=
        add_param (GetParamId p4info ACTION_VXLAN_ENCAP_V6_VLAN_POP ACTION_VXLAN_ENCAP_V6_VLAN_POP_PARAM_SRC_ADDR)
          (CanonicalizeIpv6 (local_ip info)) action in
      let action :=
        add_param (GetParamId p4info ACTION_VXLAN_ENCAP_V6_VLAN_POP ACTION_VXLAN_ENCAP_V6_VLAN_POP_PARAM_DST_ADDR)
          (CanonicalizeIpv6 (remote_ip info)) action in
      let action :=
        let src_port := w16 (htons (dst_port info) * 2) in
        add_param (GetParamId p4info ACTION_VXLAN_ENCAP_V6_VLAN_POP ACTION_VXLAN_ENCAP_V6_VLAN_POP_PARAM_SRC_PORT)
          (EncodeByteValue 2 [(src_port >>. 8) .& 255; src_port .& 255]) action in
      let action :=
        let dst_port := htons (dst_port info) in
        add_param (GetParamId p4info ACTION_VXLAN_ENCAP_V6_VLAN_POP ACTION_VXLAN_ENCAP_V6_VLAN_POP_PARAM_DST_PORT)
          (EncodeByteValue 2 [(dst_port >>. 8) .& 255; dst_port .& 255]) action in
      add_param (GetParamId p4info ACTION_VXLAN_ENCAP_V6_VLAN_POP ACTION_VXLAN_ENCAP_V6_VLAN_POP_PARAM_VNI)
        (EncodeVniValue (vni info)) action) table_entry
  else table_entry.

Definition EncodeV6GeneveEncapAndVlanPopTableEntry (table_entry : TableEntry) (info : tunnel_info)
  (p4info : P4Info) (insert_entry : bool) : TableEntry :=
  let table_entry := set_table_id (GetTableId p4info GENEVE_ENCAP_V6_VLAN_POP_MOD_TABLE) table_entry in
  let table_entry :=
    add_match_exact
      (GetMatchFieldId p4info GENEVE_ENCAP_V6_VLAN_POP_MOD_TABLE
         GENEVE_ENCAP_V6_VLAN_POP_MOD_TABLE_KEY_VENDORMETA_MOD_DATA_PTR)
      (EncodeVniValue (vni info)) table_entry in
  if insert_entry then
    mutable_action (fun action =>
      let action := set_action_id (GetActionId p4info ACTION_GENEVE_ENCAP_V6_VLAN_POP) action in
      let action :=
        add_param (GetParamId p4info ACTION_GENEVE_ENCAP_V6_VLAN_POP ACTION_GENEVE_ENCAP_V6_VLAN_POP_PARAM_SRC_ADDR)
          (CanonicalizeIpv6 (local_ip info)) action in
      let action :=
        add_param (GetParamId p4info ACTION_GENEVE_ENCAP_V6_VLAN_POP ACTION_GENEVE_ENCAP_V6_VLAN_POP_PARAM_DST_ADDR)
          (CanonicalizeIpv6 (remote_ip info)) action in
      let action :=
        let src_port := w16 (htons (dst_port info) * 2) in
        add_param (GetParamId p4info ACTION_GENEVE_ENCAP_V6_VLAN_POP ACTION_GENEVE_ENCAP_V6_VLAN_POP_PARAM_SRC_PORT)
          (EncodeByteValue 2 [(src_port >>. 8) .& 255; src_port .& 255]) action in
      let action :=
        let dst_port := htons (dst_port info) in
        add_param (GetParamId p4info ACTION_GENEVE_ENCAP_V6_VLAN_POP ACTION_GENEVE_ENCAP_V6_VLAN_POP_PARAM_DST_PORT)
          (EncodeByteValue 2 [(dst_port >>. 8) .& 255; dst_port .& 255]) action in
      add_param (GetParamId p4info ACTION_GENEVE_ENCAP_V6_VLAN_POP ACTION_GENEVE_ENCAP_V6_VLAN_POP_PARAM_VNI)
        (EncodeVniValue (vni info)) action) table_entry
  else table_entry.

Definition EncodeRxTunnelTableEntry (table_entry : TableEntry) (info : tunnel_info)
  (p4info : P4Info) (insert_entry : bool) : TableEntry :=
  let table_entry := set_table_id (GetTableId p4info RX_IPV4_TUNNEL_SOURCE_PORT_TABLE) table_entry in
  let table_entry :=
    add_match_exact
      (GetMatchFieldId p4info RX_IPV4_TUNNEL_SOURCE_PORT_TABLE RX_IPV4_TUNNEL_SOURCE_PORT_TABLE_KEY_VNI)
      (EncodeVniValue (vni info)) table_entry in
  let table_entry :=
    add_match_exact
      (GetMatchFieldId p4info RX_IPV4_TUNNEL_SOURCE_PORT_TABLE RX_IPV4_TUNNEL_SOURCE_PORT_TABLE_KEY_IPV4_SRC)
      (CanonicalizeIp (s_addr (remote_ip info))) table_entry in
  if insert_entry then
    mutable_action (fun action =>
      let action :=
        set_action_id (GetActionId p4info RX_IPV4_TUNNEL_SOURCE_PORT_TABLE_ACTION_SET_SRC_PORT) action in
      add_param
        (GetParamId p4info RX_IPV4_TUNNEL_SOURCE_PORT_TABLE_ACTION_SET_SRC_PORT ACTION_SET_SRC_PORT)
        (EncodeByteValue 2 [(tnl_src_port info >>. 8) .& 255; tnl_src_port info .& 255])
        action) table_entry
  else table_entry.

Definition EncodeV6RxTunnelTableEntry (table_entry : TableEntry) (info : tunnel_info)
  (p4info : P4Info) (insert_entry : bool) : TableEntry :=
  let table_entry := set_table_id (GetTableId p4info RX_IPV6_TUNNEL_SOURCE_PORT_TABLE) table_entry in
  let table_entry :=
    add_match_exact
      (GetMatchFieldId p4info RX_IPV6_TUNNEL_SOURCE_PORT_TABLE RX_IPV6_TUNNEL_SOURCE_PORT_TABLE_KEY_VNI)
      (EncodeVniValue (vni info)) table_entry in
  let table_entry :=
    add_match_exact
      (GetMatchFieldId p4info RX_IPV6_TUNNEL_SOURCE_PORT_TABLE RX_IPV6_TUNNEL_SOURCE_PORT_TABLE_KEY_IPV6_SRC)
      (CanonicalizeIpv6 (remote_ip info)) table_entry in
  if insert_entry then
    mutable_action (fun action =>
      let action :=
        set_action_id (GetActionId p4info RX_IPV6_TUNNEL_SOURCE_PORT_TABLE_ACTION_SET_SRC_PORT) action in
      add_param
        (GetParamId p4info RX_IPV6_TUNNEL_SOURCE_PORT_TABLE_ACTION_SET_SRC_PORT ACTION_SET_SRC_PORT)
        (EncodeByteValue 2 [(tnl_src_port info >>. 8) .& 255; tnl_src_port info .& 255])
        action) table_entry
  else table_entry.

Definition EncodeTunnelTermTableEntry (tgt : target) (table_entry : TableEntry)
  (info : tunnel_info) (p4info : P4Info) (insert_entry : bool)
  : TableEntry * list string :=
  let table_entry :=
    add_match_exact
      (GetMatchFieldId p4info (t_IPV4_TUNNEL_TERM_TABLE tgt)
         (t_IPV4_TUNNEL_TERM_TABLE_KEY_IPV4_SRC tgt))
      (CanonicalizeIp (s_addr (remote_ip info))) table_entry in
  let table_entry :=
    match tgt with
    | ES2K_TARGET =>
        let table_entry :=
          set_table_id (GetTableId p4info IPV4_TUNNEL_TERM_TABLE) table_entry in
        let table_entry :=
          add_match_exact
            (GetMatchFieldId p4info IPV4_TUNNEL_TERM_TABLE
               IPV4_TUNNEL_TERM_TABLE_KEY_BRIDGE_ID)
            (EncodeByteValue 1 [tnl_bridge_id info]) table_entry in
        add_match_exact
          (GetMatchFieldId p4info IPV4_TUNNEL_TERM_TABLE IPV4_TUNNEL_TERM_TABLE_KEY_VNI)
          (EncodeVniValue (vni info)) table_entry
    | DPDK_TARGET =>
        let table_entry :=
          set_table_id (GetTableId p4info DpdkNames.IPV4_TUNNEL_TERM_TABLE) table_entry in
        let table_entry :=
          add_match_exact
            (GetMatchFieldId p4info DpdkNames.IPV4_TUNNEL_TERM_TABLE
               DpdkNames.IPV4_TUNNEL_TERM_TABLE_KEY_TUNNEL_TYPE)
            (EncodeByteValue 1 [DpdkNames.TUNNEL_TYPE_VXLAN]) table_entry in
        add_match_exact
          (GetMatchFieldId p4info DpdkNames.IPV4_TUNNEL_TERM_TABLE
             DpdkNames.IPV4_TUNNEL_TERM_TABLE_KEY_IPV4_DST)
          (CanonicalizeIp (s_addr (local_ip info))) table_entry
    end in
  match tgt with
  | DPDK_TARGET =>
      if insert_entry then
        (mutable_action (fun action =>
           let action :=
             set_action_id (GetActionId p4info DpdkNames.ACTION_DECAP_OUTER_IPV4) action in
           add_param
             (GetParamId p4info DpdkNames.ACTION_DECAP_OUTER_IPV4
                DpdkNames.ACTION_DECAP_OUTER_IPV4_PARAM_TUNNEL_ID)
             (EncodeByteValue 1 [vni info]) action) table_entry, [])
      else (table_entry, [])
  | ES2K_TARGET =>
      if insert_entry then
        let action := default default_Action (te_action table_entry) in
        let '(action, out) :=
          if decide (port_vlan_mode (tnl_vlan_info info) = P4_PORT_VLAN_NATIVE_UNTAGGED) then
             if tunnel_type info =? tunnel_type_value OVS_TUNNEL_VXLAN then
               (let action := set_action_id (GetActionId p4info ACTION_SET_VXLAN_DECAP_OUTER_HDR_AND_PUSH_VLAN) action in
                add_param (GetParamId p4info ACTION_SET_VXLAN_DECAP_OUTER_HDR_AND_PUSH_VLAN ACTION_PARAM_TUNNEL_ID)
                  (EncodeTunnelId (vni info)) action, [])
             else if tunnel_type info =? tunnel_type_value OVS_TUNNEL_GENEVE then
               (let action := set_action_id (GetActionId p4info ACTION_SET_GENEVE_DECAP_OUTER_HDR_AND_PUSH_VLAN) action in
                add_param (GetParamId p4info ACTION_SET_GENEVE_DECAP_OUTER_HDR_AND_PUSH_VLAN ACTION_PARAM_TUNNEL_ID)
                  (EncodeTunnelId (vni info)) action, [])
             else (action, ["Unsupported tunnel type"])
          else
             if tunnel_type info =? tunnel_type_value OVS_TUNNEL_VXLAN then
               (let action := set_action_id (GetActionId p4info ACTION_SET_VXLAN_DECAP_OUTER_HDR) action in
                add_param (GetParamId p4info ACTION_SET_VXLAN_DECAP_OUTER_HDR ACTION_PARAM_TUNNEL_ID)
                  (EncodeTunnelId (vni info)) action, [])
             else if tunnel_type info =? tunnel_type_value OVS_TUNNEL_GENEVE then
               (let action := set_action_id (GetActionId p4info ACTION_SET_GENEVE_DECAP_OUTER_HDR) action in
                add_param (GetParamId p4info ACTION_SET_GENEVE_DECAP_OUTER_HDR ACTION_PARAM_TUNNEL_ID)
                  (EncodeTunnelId (vni info)) action, [])
             else (action, ["Unsupported tunnel type"]) in
        (mutable_action (fun _ => action) table_entry, out)
      else (table_entry, [])
  end.

Definition EncodeV6TunnelTermTableEntry (table_entry : TableEntry) (info : tunnel_info)
  (p4info : P4Info) (insert_entry : bool) : TableEntry * list string :=
  let table_entry := set_table_id (GetTableId p4info IPV6_TUNNEL_TERM_TABLE) table_entry in
  let table_entry :=
    add_match_exact
      (GetMatchFieldId p4info IPV6_TUNNEL_TERM_TABLE IPV6_TUNNEL_TERM_TABLE_KEY_BRIDGE_ID)
      (EncodeByteValue 1 [tnl_bridge_id info]) table_entry in
  let table_entry :=
    add_match_exact
      (GetMatchFieldId p4info IPV6_TUNNEL_TERM_TABLE IPV6_TUNNEL_TERM_TABLE_KEY_IPV6_SRC)
      (CanonicalizeIpv6 (remote_ip info)) table_entry in
  let table_entry :=
    add_match_exact
      (GetMatchFieldId p4info IPV6_TUNNEL_TERM_TABLE IPV6_TUNNEL_TERM_TABLE_KEY_VNI)
      (EncodeVniValue (vni info)) table_entry in
  if insert_entry then
    let action := default default_Action (te_action table_entry) in
    let '(action, out) :=
      if decide (port_vlan_mode (tnl_vlan_info info) = P4_PORT_VLAN_NATIVE_UNTAGGED) then
         if tunnel_type info =? tunnel_type_value OVS_TUNNEL_VXLAN then
           (let action := set_action_id (GetActionId p4info ACTION_SET_VXLAN_DECAP_OUTER_HDR_AND_PUSH_VLAN) action in
            add_param (GetParamId p4info ACTION_SET_VXLAN_DECAP_OUTER_HDR_AND_PUSH_VLAN ACTION_PARAM_TUNNEL_ID)
              (EncodeTunnelId (vni info)) action, [])
         else if tunnel_type info =? tunnel_type_value OVS_TUNNEL_GENEVE then
           (let action := set_action_id (GetActionId p4info ACTION_SET_GENEVE_DECAP_OUTER_HDR_AND_PUSH_VLAN) action in
            add_param (GetParamId p4info ACTION_SET_GENEVE_DECAP_OUTER_HDR_AND_PUSH_VLAN ACTION_PARAM_TUNNEL_ID)
              (EncodeTunnelId (vni info)) action, [])
         else (action, ["Unsupported tunnel type"])
      else
         if tunnel_type info =? tunnel_type_value OVS_TUNNEL_VXLAN then
           (let action := set_action_id (GetActionId p4info ACTION_SET_VXLAN_DECAP_OUTER_HDR) action in
            add_param (GetParamId p4info ACTION_SET_VXLAN_DECAP_OUTER_HDR ACTION_PARAM_TUNNEL_ID)
              (EncodeTunnelId (vni info)) action, [])
         else if tunnel_type info =? tunnel_type_value OVS_TUNNEL_GENEVE then
           (let action := set_action_id (GetActionId p4info ACTION_SET_GENEVE_DECAP_OUTER_HDR) action in
            add_param (GetParamId p4info ACTION_SET_GENEVE_DECAP_OUTER_HDR ACTION_PARAM_TUNNEL_ID)
              (EncodeTunnelId (vni info)) action, [])
         else (action, ["Unsupported tunnel type"]) in
    (mutable_action (fun _ => action) table_entry, out)
  else (table_entry, []).

Definition EncodeVxlanDecapModAndVlanPushTableEntry (table_entry : TableEntry)
  (info : tunnel_info) (p4info : P4Info) (insert_entry : bool) : TableEntry :=
  let table_entry :=
    set_table_id (GetTableId p4info VXLAN_DECAP_AND_VLAN_PUSH_MOD_TABLE) table_entry in
  let table_entry :=
    add_match_exact
      (GetMatchFieldId p4info VXLAN_DECAP_AND_VLAN_PUSH_MOD_TABLE
         VXLAN_DECAP_AND_VLAN_PUSH_MOD_TABLE_KEY_MOD_BLOB_PTR)
      (EncodeVniValue (vni info)) table_entry in
  if insert_entry then
    mutable_action (fun action =>
      let action := set_action_id (GetActionId p4info ACTION_VXLAN_DECAP_AND_PUSH_VLAN) action in
      let action :=
        add_param (GetParamId p4info ACTION_VXLAN_DECAP_AND_PUSH_VLAN ACTION_VXLAN_DECAP_AND_PUSH_VLAN_PARAM_PCP)
          (EncodeByteValue 1 [1]) action in
      let action :=
        add_param (GetParamId p4info ACTION_VXLAN_DECAP_AND_PUSH_VLAN ACTION_VXLAN_DECAP_AND_PUSH_VLAN_PARAM_DEI)
          (EncodeByteValue 1 [0]) action in
      add_param (GetParamId p4info ACTION_VXLAN_DECAP_AND_PUSH_VLAN ACTION_VXLAN_DECAP_AND_PUSH_VLAN_PARAM_VLAN_ID)
        (EncodeByteValue 1 [port_vlan (tnl_vlan_info info)]) action) table_entry
  else table_entry.

Definition EncodeGeneveDecapModAndVlanPushTableEntry (table_entry : TableEntry)
  (info : tunnel_info) (p4info : P4Info) (insert_entry : bool) : TableEntry :=
  let table_entry :=
    set_table_id (GetTableId p4info GENEVE_DECAP_AND_VLAN_PUSH_MOD_TABLE) table_entry in
  let table_entry :=
    add_match_exact
      (GetMatchFieldId p4info GENEVE_DECAP_AND_VLAN_PUSH_MOD_TABLE
         GENEVE_DECAP_AND_VLAN_PUSH_MOD_TABLE_KEY_MOD_BLOB_PTR)
      (EncodeVniValue (vni info)) table_entry in
  if insert_entry then
    mutable_action (fun action =>
      let action := set_action_id (GetActionId p4info ACTION_GENEVE_DECAP_AND_PUSH_VLAN) action in
      let action :=
        add_param (GetParamId p4info ACTION_GENEVE_DECAP_AND_PUSH_VLAN ACTION_GENEVE_DECAP_AND_PUSH_VLAN_PARAM_PCP)
          (EncodeByteValue 1 [1]) action in
      let action :=
        add_param (GetParamId p4info ACTION_GENEVE_DECAP_AND_PUSH_VLAN ACTION_GENEVE_DECAP_AND_PUSH_VLAN_PARAM_DEI)
          (EncodeByteValue 1 [0]) action in
      add_param (GetParamId p4info ACTION_GENEVE_DECAP_AND_PUSH_VLAN ACTION_GENEVE_DECAP_AND_PUSH_VLAN_PARAM_VLAN_ID)
        (EncodeByteValue 1 [port_vlan (tnl_vlan_info info)]) action) table_entry
  else table_entry.

Definition EncodeVlanPushTableEntry (table_entry : TableEntry) (vlan_id : Z)
  (p4info : P4Info) (insert_entry : bool) : TableEntry :=
  let table_entry := set_table_id (GetTableId p4info VLAN_PUSH_MOD_TABLE) table_entry in
  let table_entry :=
    add_match_exact
      (GetMatchFieldId p4info VLAN_PUSH_MOD_TABLE VLAN_PUSH_MOD_KEY_MOD_BLOB_PTR)
      (EncodeByteValue 1 [vlan_id]) table_entry in
  if insert_entry then
    mutable_action (fun action =>
      let action := set_action_id (GetActionId p4info VLAN_PUSH_MOD_ACTION_VLAN_PUSH) action in
      let action :=
        add_param
          (GetParamId p4info VLAN_PUSH_MOD_ACTION_VLAN_PUSH ACTION_VLAN_PUSH_PARAM_PCP)
          (EncodeByteValue 1 [1]) action in
      let action :=
        add_param
          (GetParamId p4info VLAN_PUSH_MOD_ACTION_VLAN_PUSH ACTION_VLAN_PUSH_PARAM_DEI)
          (EncodeByteValue 1 [0]) action in
      add_param
        (GetParamId p4info VLAN_PUSH_MOD_ACTION_VLAN_PUSH ACTION_VLAN_PUSH_PARAM_VLAN_ID)
        (EncodeByteValue 1 [vlan_id]) action) table_entry
  else table_entry.

Definition EncodeVlanPopTableEntry (table_entry : TableEntry) (vlan_id : Z)
  (p4info : P4Info) (insert_entry : bool) : TableEntry :=
  let table_entry := set_table_id (GetTableId p4info VLAN_POP_MOD_TABLE) table_entry in
  let table_entry :=
    add_match_exact
      (GetMatchFieldId p4info VLAN_POP_MOD_TABLE VLAN_POP_MOD_KEY_MOD_BLOB_PTR)
      (EncodeByteValue 1 [vlan_id]) table_entry in
  if insert_entry then
    mutable_action (fun action =>
      set_action_id (GetActionId p4info VLAN_POP_MOD_ACTION_VLAN_POP) action) table_entry
  else table_entry.

Definition EncodeSrcPortTableEntry (table_entry : TableEntry) (sp : src_port_info)
  (p4info : P4Info) (insert_entry : bool) : TableEntry :=
  let table_entry :=
    set_table_id (GetTableId p4info SOURCE_PORT_TO_BRIDGE_MAP_TABLE) table_entry in
  let table_entry := set_priority 1 table_entry in
  let table_entry :=
    add_match_ternary
      (GetMatchFieldId p4info SOURCE_PORT_TO_BRIDGE_MAP_TABLE
         SOURCE_PORT_TO_BRIDGE_MAP_TABLE_KEY_SRC_PORT)
      (EncodeByteValue 2 [(sp_src_port sp >>. 8) .& 255; sp_src_port sp .& 255])
      (EncodeByteValue 2 [255; 255]) table_entry in
  let table_entry :=
    add_match_ternary
      (GetMatchFieldId p4info SOURCE_PORT_TO_BRIDGE_MAP_TABLE
         SOURCE_PORT_TO_BRIDGE_MAP_TABLE_KEY_VID)
      (EncodeByteValue 2 [(sp_vlan_id sp >>. 8) .& 15; sp_vlan_id sp .& 255])
      (EncodeByteValue 2 [15; 255]) table_entry in
  if insert_entry then
    mutable_action (fun action =>
      let action :=
        set_action_id
          (GetActionId p4info SOURCE_PORT_TO_BRIDGE_MAP_TABLE_ACTION_SET_BRIDGE_ID) action in
      add_param
        (GetParamId p4info SOURCE_PORT_TO_BRIDGE_MAP_TABLE_ACTION_SET_BRIDGE_ID
           ACTION_SET_BRIDGE_ID_PARAM_BRIDGE_ID)
        (EncodeByteValue 1 [sp_bridge_id sp]) action) table_entry
  else table_entry.

Definition EncodeSrcIpMacMapTableEntry (table_entry : TableEntry)
  (ip_info : ip_mac_map_info) (p4info : P4Info) (insert_entry : bool)
  (detail : DiagDetail) : TableEntry * DiagDetail :=
  let detail := MkDiagDetail LOG_SRC_IP_MAC_MAP_TABLE in
  let table_entry := set_table_id (GetTableId p4info SRC_IP_MAC_MAP_TABLE) table_entry in
  let table_entry :=
    add_match_exact
      (GetMatchFieldId p4info SRC_IP_MAC_MAP_TABLE SRC_IP_MAC_MAP_TABLE_KEY_SRC_IP)
      (CanonicalizeIp (s_addr (src_ip_addr ip_info))) table_entry in
  let table_entry :=
    if insert_entry then
      mutable_action (fun action =>
        let action :=
          set_action_id (GetActionId p4info SRC_IP_MAC_MAP_TABLE_ACTION_SMAC_MAP) action in
        let action :=
          add_param (GetParamId p4info SRC_IP_MAC_MAP_TABLE_ACTION_SMAC_MAP ACTION_SET_SRC_MAC_HIGH)
          (EncodeByteValue 2 [(src_mac_addr ip_info !!! 0%nat) .& 255;
                              (src_mac_addr ip_info !!! 1%nat) .& 255]) action in
        let action :=
          add_param (GetParamId p4info SRC_IP_MAC_MAP_TABLE_ACTION_SMAC_MAP ACTION_SET_SRC_MAC_MID)
          (EncodeByteValue 2 [(src_mac_addr ip_info !!! 2%nat) .& 255;
                              (src_mac_addr ip_info !!! 3%nat) .& 255]) action in
        add_param (GetParamId p4info SRC_IP_MAC_MAP_TABLE_ACTION_SMAC_MAP ACTION_SET_SRC_MAC_LOW)
          (EncodeByteValue 2 [(src_mac_addr ip_info !!! 4%nat) .& 255;
                              (src_mac_addr ip_info !!! 5%nat) .& 255]) action) table_entry
    else table_entry in
  (table_entry, detail).

Definition EncodeDstIpMacMapTableEntry (table_entry : TableEntry)
  (ip_info : ip_mac_map_info) (p4info : P4Info) (insert_entry : bool)
  (detail : DiagDetail) : TableEntry * DiagDetail :=
  let detail := MkDiagDetail LOG_DST_IP_MAC_MAP_TABLE in
  let table_entry := set_table_id (GetTableId p4info DST_IP_MAC_MAP_TABLE) table_entry in
  let table_entry :=
    add_match_exact
      (GetMatchFieldId p4info DST_IP_MAC_MAP_TABLE DST_IP_MAC_MAP_TABLE_KEY_DST_IP)
      (CanonicalizeIp (s_addr (dst_ip_addr ip_info))) table_entry in
  let table_entry :=
    if insert_entry then
      mutable_action (fun action =>
        let action :=
          set_action_id (GetActionId p4info DST_IP_MAC_MAP_TABLE_ACTION_DMAC_MAP) action in
        let action :=
          add_param (GetParamId p4info DST_IP_MAC_MAP_TABLE_ACTION_DMAC_MAP ACTION_SET_DST_MAC_HIGH)
          (EncodeByteValue 2 [(dst_mac_addr ip_info !!! 0%nat) .& 255;
                              (dst_mac_addr ip_info !!! 1%nat) .& 255]) action in
        let action :=
          add_param (GetParamId p4info DST_IP_MAC_MAP_TABLE_ACTION_DMAC_MAP ACTION_SET_DST_MAC_MID)
          (EncodeByteValue 2 [(dst_mac_addr ip_info !!! 2%nat) .& 255;
                              (dst_mac_addr ip_info !!! 3%nat) .& 255]) action in
        add_param (GetParamId p4info DST_IP_MAC_MAP_TABLE_ACTION_DMAC_MAP ACTION_SET_DST_MAC_LOW)
          (EncodeByteValue 2 [(dst_mac_addr ip_info !!! 4%nat) .& 255;
                              (dst_mac_addr ip_info !!! 5%nat) .& 255]) action) table_entry
    else table_entry in
  (table_entry, detail).

Definition EncodeTxAccVsiTableEntry (table_entry : TableEntry) (sp : Z)
  (p4info : P4Info) : TableEntry :=
  let table_entry := set_table_id (GetTableId p4info TX_ACC_VSI_TABLE) table_entry in
  add_match_exact (GetMatchFieldId p4info TX_ACC_VSI_TABLE TX_ACC_VSI_TABLE_KEY_VSI)
    (EncodeByteValue 1 [w32 (sp - ES2K_VPORT_ID_OFFSET)]) table_entry.

Definition EncodeVxlanDecapModTableEntry (table_entry : TableEntry) (info : tunnel_info)
  (p4info : P4Info) (insert_entry : bool) : TableEntry :=
  let table_entry := set_table_id (GetTableId p4info VXLAN_DECAP_MOD_TABLE) table_entry in
  let table_entry :=
    add_match_exact
      (GetMatchFieldId p4info VXLAN_DECAP_MOD_TABLE VXLAN_DECAP_MOD_TABLE_KEY_MOD_BLOB_PTR)
      (EncodeVniValue (vni info)) table_entry in
  if insert_entry then
    mutable_action (fun action =>
      set_action_id (GetActionId p4info ACTION_VXLAN_DECAP_OUTER_HDR) action) table_entry
  else table_entry.

Definition EncodeGeneveDecapModTableEntry (table_entry : TableEntry) (info : tunnel_info)
  (p4info : P4Info) (insert_entry : bool) : TableEntry :=
  let table_entry := set_table_id (GetTableId p4info GENEVE_DECAP_MOD_TABLE) table_entry in
  let table_entry :=
    add_match_exact
      (GetMatchFieldId p4info GENEVE_DECAP_MOD_TABLE GENEVE_DECAP_MOD_TABLE_KEY_MOD_BLOB_PTR)
      (EncodeVniValue (vni info)) table_entry in
  if insert_entry then
    mutable_action (fun action =>
      set_action_id (GetActionId p4info ACTION_GENEVE_DECAP_OUTER_HDR) action) table_entry
  else table_entry.

(** ** Comparison with version 3 *)

(** v1_encoders_agree: compiled for ES2K, every encoder of the default
    implementation is the one of version 3 for ES2K, although version 3 has
    split three of them; compiled for DPDK, the five encoders that are left are
    those of version 3 for DPDK, and print nothing. *)
Theorem v1_encoders_agree :
  [EncodeFdbSmacTableEntry; EncodeFdbTxVlanTableEntry ES2K_TARGET;
   EncodeFdbRxVlanTableEntry ES2K_TARGET; EncodeFdbTableEntryforV4VxlanTunnel ES2K_TARGET;
   EncodeFdbTableEntryforV4GeneveTunnel; EncodeL2ToTunnelV4; EncodeL2ToTunnelV6] =
  [Es2kEncoders.EncodeFdbSmacTableEntry; Es2kEncoders.EncodeFdbTxVlanTableEntry;
   Es2kEncoders.EncodeFdbRxVlanTableEntry; Es2kEncoders.EncodeFdbTableEntryforV4VxlanTunnel;
   Es2kEncoders.EncodeFdbTableEntryforV4GeneveTunnel; Es2kEncoders.EncodeL2ToTunnelV4;
   Es2kEncoders.EncodeL2ToTunnelV6] /\
  [EncodeVxlanEncapTableEntry ES2K_TARGET; EncodeGeneveEncapTableEntry;
   EncodeV6VxlanEncapTableEntry; EncodeV6GeneveEncapTableEntry;
   EncodeVxlanEncapAndVlanPopTableEntry; EncodeGeneveEncapAndVlanPopTableEntry;
   EncodeV6VxlanEncapAndVlanPopTableEntry; EncodeV6GeneveEncapAndVlanPopTableEntry;
   EncodeRxTunnelTableEntry; EncodeV6RxTunnelTableEntry;
   EncodeVxlanDecapModTableEntry; EncodeGeneveDecapModTableEntry;
   EncodeVxlanDecapModAndVlanPushTableEntry; EncodeGeneveDecapModAndVlanPushTableEntry] =
  [Es2kEncoders.EncodeVxlanEncapTableEntry; Es2kEncoders.EncodeGeneveEncapTableEntry;
   Es2kEncoders.EncodeV6VxlanEncapTableEntry; Es2kEncoders.EncodeV6GeneveEncapTableEntry;
   Es2kEncoders.EncodeVxlanEncapAndVlanPopTableEntry;
   Es2kEncoders.EncodeGeneveEncapAndVlanPopTableEntry;
   Es2kEncoders.EncodeV6VxlanEncapAndVlanPopTableEntry;
   Es2kEncoders.EncodeV6GeneveEncapAndVlanPopTableEntry;
   Es2kEncoders.EncodeRxTunnelTableEntry; Es2kEncoders.EncodeV6RxTunnelTableEntry;
   Es2kEncoders.EncodeVxlanDecapModTableEntry; Es2kEncoders.EncodeGeneveDecapModTableEntry;
   Es2kEncoders.EncodeVxlanDecapModAndVlanPushTableEntry;
   Es2kEncoders.EncodeGeneveDecapModAndVlanPushTableEntry] /\
  [EncodeTunnelTermTableEntry ES2K_TARGET; EncodeV6TunnelTermTableEntry] =
  [Es2kEncoders.EncodeTunnelTermTableEntry; Es2kEncoders.EncodeV6TunnelTermTableEntry] /\
  [EncodeVlanPushTableEntry; EncodeVlanPopTableEntry] =
  [Es2kEncoders.EncodeVlanPushTableEntry; Es2kEncoders.EncodeVlanPopTableEntry] /\
  [EncodeSrcIpMacMapTableEntry; EncodeDstIpMacMapTableEntry] =
  [Es2kEncoders.EncodeSrcIpMacMapTableEntry; Es2kEncoders.EncodeDstIpMacMapTableEntry] /\
  EncodeSrcPortTableEntry = Es2kEncoders.EncodeSrcPortTableEntry /\
  EncodeTxAccVsiTableEntry = Es2kEncoders.EncodeTxAccVsiTableEntry /\
  [EncodeFdbTxVlanTableEntry DPDK_TARGET; EncodeFdbRxVlanTableEntry DPDK_TARGET;
   EncodeFdbTableEntryforV4VxlanTunnel DPDK_TARGET] =
  [DpdkEncoders.EncodeFdbTxVlanTableEntry; DpdkEncoders.EncodeFdbRxVlanTableEntry;
   DpdkEncoders.EncodeFdbTableEntryforV4VxlanTunnel] /\
  EncodeVxlanEncapTableEntry DPDK_TARGET = DpdkEncoders.EncodeVxlanEncapTableEntry /\
  (forall te info p4info ins, EncodeTunnelTermTableEntry DPDK_TARGET te info p4info ins =
     (DpdkEncoders.EncodeTunnelTermTableEntry te info p4info ins, [])).
Proof. repeat split. intros. by destruct ins. Qed.
