(* ===== verification/V1.v ===== *)
(** * Version 1: the default implementation ([core/v1/ovsp4rt.cc])

    The code above the encoders. It has no client object: an API function
    creates a session and passes it down, so a function is modelled as a
    computation on the server behind the stub and the lines printed. The
    opening of the session and the query of the P4Info, which every API
    function repeats word for word, are [with_new_session]. *)

From S2P Require Import Prelude P4Runtime OvsP4rt EncodeUtils P4InfoUtils Logging.
From S2P Require Import DpdkNames Es2kNames Target V1Encoders Session.

(** ** Computations *)

Record V1State (S : Type) := MkV1 { v1_server : S; v1_out : list string }.
Arguments MkV1 {_} _ _.
Arguments v1_server {_} _.
Arguments v1_out {_} _.

Definition V1 (S A : Type) : Type := V1State S -> A * V1State S.

#[export] Instance V1_ret {S} : MRet (V1 S) := fun A a w => (a, w).
#[export] Instance V1_bind {S} : MBind (V1 S) :=
  fun A B f m w => let '(a, w) := m w in f a w.

(** A call of a function of [session/]. *)
Definition on_server {S A} (f : S -> A * S) : V1 S A :=
  fun w => let '(a, s) := f (v1_server w) in (a, MkV1 s (v1_out w)).

Definition say {S} (lines : list string) : V1 S unit :=
  fun w => ((), MkV1 (v1_server w) (v1_out w ++ lines)).

(** ** What C++ leaves open

    Whether [char] is signed (it is on x86, it is not on ARM); the [char] read
    from a string past its terminator; the text [printf] prints for the
    conversion of a format that has none of its letters after [%]. *)
Class Platform := {
  char_is_signed : bool;
  char_past_end : bytes -> nat -> Z;
  printf_undefined : string -> string;
}.

(** [ValidIpAddr]; both constants are in host byte order. *)
Definition INADDR_ANY : Z := 0.
Definition INADDR_LOOPBACK : Z := 2130706433.

Definition ValidIpAddr (nw_addr : Z) : bool :=
  negb (nw_addr =? 0) && negb (nw_addr =? INADDR_ANY) &&
  negb (nw_addr =? INADDR_LOOPBACK) && negb (nw_addr =? 4294967295).

Section Version1.
Context {S : Type} `{P4RuntimeStub S} `{Platform}.

(** [if (!status.ok()) LogFailureWithMacAddr(...); return status;] *)
Definition report_mac (status : Status) (insert_entry : bool) (detail : DiagDetail)
  (mac : bytes) : V1 S Status :=
  if negb (ok status) then
    say [LogFailureWithMacAddr insert_entry (getLogTableName detail) mac];; mret status
  else mret status.

(** ** FDB entries *)

Definition WriteFdbSmacTableEntry (session : OvsP4rtSession) (learn_info : mac_learning_info)
  (p4info : P4Info) (insert_entry : bool) : V1 S Status :=
  let '(write_request, table_entry) :=
    if insert_entry then SetupTableEntryToInsert session default_WriteRequest
    else SetupTableEntryToDelete session default_WriteRequest in
  let '(te, detail) :=
    EncodeFdbSmacTableEntry (wr_deref write_request table_entry) learn_info p4info
      insert_entry default_DiagDetail in
  status ← on_server (SendWriteRequest session (wr_store write_request table_entry te));
  report_mac status insert_entry detail (mac_addr learn_info).

Definition WriteL2TunnelTableEntry (session : OvsP4rtSession) (learn_info : mac_learning_info)
  (p4info : P4Info) (insert_entry : bool) : V1 S Status :=
  let '(write_request, table_entry) :=
    if insert_entry then SetupTableEntryToInsert session default_WriteRequest
    else SetupTableEntryToDelete session default_WriteRequest in
  let '(te, detail) :=
    if (family (local_ip (tnl_info learn_info)) =? AF_INET6) &&
       (family (remote_ip (tnl_info learn_info)) =? AF_INET6)
    then
      EncodeL2ToTunnelV6 (wr_deref write_request table_entry) learn_info p4info
        insert_entry default_DiagDetail
    else
      EncodeL2ToTunnelV4 (wr_deref write_request table_entry) learn_info p4info
        insert_entry default_DiagDetail in
  status ← on_server (SendWriteRequest session (wr_store write_request table_entry te));
  report_mac status insert_entry detail (mac_addr learn_info).

Definition WriteFdbTxVlanTableEntry (tgt : target) (session : OvsP4rtSession)
  (learn_info : mac_learning_info) (p4info : P4Info) (insert_entry : bool) : V1 S Status :=
  let '(write_request, table_entry) :=
    if insert_entry then SetupTableEntryToInsert session default_WriteRequest
    else SetupTableEntryToDelete session default_WriteRequest in
  let '(te, detail) :=
    EncodeFdbTxVlanTableEntry tgt (wr_deref write_request table_entry) learn_info p4info
      insert_entry default_DiagDetail in
  status ← on_server (SendWriteRequest session (wr_store write_request table_entry te));
  report_mac status insert_entry detail (mac_addr learn_info).

Definition WriteFdbRxVlanTableEntry (tgt : target) (session : OvsP4rtSession)
  (learn_info : mac_learning_info) (p4info : P4Info) (insert_entry : bool) : V1 S Status :=
  let '(write_request, table_entry) :=
    if insert_entry then SetupTableEntryToInsert session default_WriteRequest
    else SetupTableEntryToDelete session default_WriteRequest in
  let '(te, detail) :=
    EncodeFdbRxVlanTableEntry tgt (wr_deref write_request table_entry) learn_info p4info
      insert_entry default_DiagDetail in
  status ← on_server (SendWriteRequest session (wr_store write_request table_entry te));
  report_mac status insert_entry detail (mac_addr learn_info).

Definition WriteFdbTunnelTableEntry (tgt : target) (session : OvsP4rtSession)
  (learn_info : mac_learning_info) (p4info : P4Info) (insert_entry : bool) : V1 S Status :=
  let '(write_request, table_entry) :=
    if insert_entry then SetupTableEntryToInsert session default_WriteRequest
    else SetupTableEntryToDelete session default_WriteRequest in
  let te := wr_deref write_request table_entry in
  let '(te, detail) :=
    match tgt with
    | DPDK_TARGET =>
        EncodeFdbTableEntryforV4VxlanTunnel DPDK_TARGET te learn_info p4info insert_entry
          default_DiagDetail
    | ES2K_TARGET =>
        if tunnel_type (tnl_info learn_info) =? tunnel_type_value OVS_TUNNEL_VXLAN then
          EncodeFdbTableEntryforV4VxlanTunnel ES2K_TARGET te learn_info p4info insert_entry
            default_DiagDetail
        else if tunnel_type (tnl_info learn_info) =? tunnel_type_value OVS_TUNNEL_GENEVE then
          EncodeFdbTableEntryforV4GeneveTunnel te learn_info p4info insert_entry
            default_DiagDetail
        else if negb insert_entry then
          EncodeFdbTableEntryforV4VxlanTunnel ES2K_TARGET te learn_info p4info insert_entry
            default_DiagDetail
        else (te, default_DiagDetail)
    end in
  status ← on_server (SendWriteRequest session (wr_store write_request table_entry te));
  report_mac status insert_entry detail (mac_addr learn_info).

(** ** Tunnel entries *)

Definition unsupported_tunnel_type : string := "ERROR: Unsupported tunnel type".

Definition PrepareV4EncapTableEntry (tgt : target) (table_entry : TableEntry)
  (info : tunnel_info) (p4info : P4Info) (insert_entry : bool)
  : TableEntry * list string :=
  match tgt with
  | DPDK_TARGET =>
      (EncodeVxlanEncapTableEntry DPDK_TARGET table_entry info p4info insert_entry, [])
  | ES2K_TARGET =>
      if tunnel_type info =? tunnel_type_value OVS_TUNNEL_VXLAN then
        (EncodeVxlanEncapTableEntry ES2K_TARGET table_entry info p4info insert_entry, [])
      else if tunnel_type info =? tunnel_type_value OVS_TUNNEL_GENEVE then
        (EncodeGeneveEncapTableEntry table_entry info p4info insert_entry, [])
      else (table_entry, [unsupported_tunnel_type])
  end.

Definition PrepareV6EncapTableEntry (table_entry : TableEntry) (info : tunnel_info)
  (p4info : P4Info) (insert_entry : bool) : TableEntry * list string :=
  if tunnel_type info =? tunnel_type_value OVS_TUNNEL_VXLAN then
    (EncodeV6VxlanEncapTableEntry table_entry info p4info insert_entry, [])
  else if tunnel_type info =? tunnel_type_value OVS_TUNNEL_GENEVE then
    (EncodeV6GeneveEncapTableEntry table_entry info p4info insert_entry, [])
  else (table_entry, [unsupported_tunnel_type]).

Definition PrepareV4EncapAndVlanPopTableEntry (table_entry : TableEntry) (info : tunnel_info)
  (p4info : P4Info) (insert_entry : bool) : TableEntry * list string :=
  if tunnel_type info =? tunnel_type_value OVS_TUNNEL_VXLAN then
    (EncodeVxlanEncapAndVlanPopTableEntry table_entry info p4info insert_entry, [])
  else if tunnel_type info =? tunnel_type_value OVS_TUNNEL_GENEVE then
    (EncodeGeneveEncapAndVlanPopTableEntry table_entry info p4info insert_entry, [])
  else (table_entry, [unsupported_tunnel_type]).

Definition PrepareV6EncapAndVlanPopTableEntry (table_entry : TableEntry) (info : tunnel_info)
  (p4info : P4Info) (insert_entry : bool) : TableEntry * list string :=
  if tunnel_type info =? tunnel_type_value OVS_TUNNEL_VXLAN then
    (EncodeV6VxlanEncapAndVlanPopTableEntry table_entry info p4info insert_entry, [])
  else if tunnel_type info =? tunnel_type_value OVS_TUNNEL_GENEVE then
    (EncodeV6GeneveEncapAndVlanPopTableEntry table_entry info p4info insert_entry, [])
  else (table_entry, [unsupported_tunnel_type]).

Definition WriteEncapTableEntry (tgt : target) (session : OvsP4rtSession)
  (info : tunnel_info) (p4info : P4Info) (insert_entry : bool) : V1 S Status :=
  let '(write_request, table_entry) :=
    if insert_entry then SetupTableEntryToInsert session default_WriteRequest
    else SetupTableEntryToDelete session default_WriteRequest in
  let te := wr_deref write_request table_entry in
  let '(te, out) :=
    match tgt with
    | DPDK_TARGET => PrepareV4EncapTableEntry DPDK_TARGET te info p4info insert_entry
    | ES2K_TARGET =>
        if (family (local_ip info) =? AF_INET) && (family (remote_ip info) =? AF_INET) then
          if decide (port_vlan_mode (tnl_vlan_info info) = P4_PORT_VLAN_NATIVE_UNTAGGED) then
            PrepareV4EncapAndVlanPopTableEntry te info p4info insert_entry
          else
            PrepareV4EncapTableEntry ES2K_TARGET te info p4info insert_entry
        else if (family (local_ip info) =? AF_INET6) &&
                (family (remote_ip info) =? AF_INET6) then
          if decide (port_vlan_mode (tnl_vlan_info info) = P4_PORT_VLAN_NATIVE_UNTAGGED) then
            PrepareV6EncapAndVlanPopTableEntry te info p4info insert_entry
          else
            PrepareV6EncapTableEntry te info p4info insert_entry
        else (te, [])
    end in
  say out;;
  on_server (SendWriteRequest session (wr_store write_request table_entry te)).

Definition PrepareDecapModTableEntry (table_entry : TableEntry) (info : tunnel_info)
  (p4info : P4Info) (insert_entry : bool) : TableEntry * list string :=
  if tunnel_type info =? tunnel_type_value OVS_TUNNEL_VXLAN then
    (EncodeVxlanDecapModTableEntry table_entry info p4info insert_entry, [])
  else if tunnel_type info =? tunnel_type_value OVS_TUNNEL_GENEVE then
    (EncodeGeneveDecapModTableEntry table_entry info p4info insert_entry, [])
  else (table_entry, [unsupported_tunnel_type]).

Definition PrepareDecapModAndVlanPushTableEntry (table_entry : TableEntry)
  (info : tunnel_info) (p4info : P4Info) (insert_entry : bool)
  : TableEntry * list string :=
  if tunnel_type info =? tunnel_type_value OVS_TUNNEL_VXLAN then
    (EncodeVxlanDecapModAndVlanPushTableEntry table_entry info p4info insert_entry, [])
  else if tunnel_type info =? tunnel_type_value OVS_TUNNEL_GENEVE then
    (EncodeGeneveDecapModAndVlanPushTableEntry table_entry info p4info insert_entry, [])
  else (table_entry, [unsupported_tunnel_type]).

Definition WriteDecapTableEntry (session : OvsP4rtSession) (info : tunnel_info)
  (p4info : P4Info) (insert_entry : bool) : V1 S Status :=
  let '(write_request, table_entry) :=
    if insert_entry then SetupTableEntryToInsert session default_WriteRequest
    else SetupTableEntryToDelete session default_WriteRequest in
  let te := wr_deref write_request table_entry in
  let '(te, out) :=
    if decide (port_vlan_mode (tnl_vlan_info info) = P4_PORT_VLAN_NATIVE_TAGGED) then
      PrepareDecapModTableEntry te info p4info insert_entry
    else
      PrepareDecapModAndVlanPushTableEntry te info p4info insert_entry in
  say out;;
  on_server (SendWriteRequest session (wr_store write_request table_entry te)).

Definition WriteTunnelTermTableEntry (tgt : target) (session : OvsP4rtSession)
  (info : tunnel_info) (p4info : P4Info) (insert_entry : bool) : V1 S Status :=
  let '(write_request, table_entry) :=
    if insert_entry then SetupTableEntryToInsert session default_WriteRequest
    else SetupTableEntryToDelete session default_WriteRequest in
  let te := wr_deref write_request table_entry in
  let '(te, out) :=
    match tgt with
    | DPDK_TARGET => EncodeTunnelTermTableEntry DPDK_TARGET te info p4info insert_entry
    | ES2K_TARGET =>
        if (family (local_ip info) =? AF_INET) && (family (remote_ip info) =? AF_INET) then
          EncodeTunnelTermTableEntry ES2K_TARGET te info p4info insert_entry
        else if (family (local_ip info) =? AF_INET6) &&
                (family (remote_ip info) =? AF_INET6) then
          EncodeV6TunnelTermTableEntry te info p4info insert_entry
        else (te, [])
    end in
  say out;;
  on_server (SendWriteRequest session (wr_store write_request table_entry te)).

(** ** VLANs, source ports and IP-to-MAC entries (ES2K) *)

Definition WriteVlanPushTableEntry (session : OvsP4rtSession) (vlan_id : Z)
  (p4info : P4Info) (insert_entry : bool) : V1 S Status :=
  let '(write_request, table_entry) :=
    if insert_entry then SetupTableEntryToInsert session default_WriteRequest
    else SetupTableEntryToDelete session default_WriteRequest in
  let te :=
    EncodeVlanPushTableEntry (wr_deref write_request table_entry) vlan_id p4info
      insert_entry in
  on_server (SendWriteRequest session (wr_store write_request table_entry te)).

Definition WriteVlanPopTableEntry (session : OvsP4rtSession) (vlan_id : Z)
  (p4info : P4Info) (insert_entry : bool) : V1 S Status :=
  let '(write_request, table_entry) :=
    if insert_entry then SetupTableEntryToInsert session default_WriteRequest
    else SetupTableEntryToDelete session default_WriteRequest in
  let te :=
    EncodeVlanPopTableEntry (wr_deref write_request table_entry) vlan_id p4info
      insert_entry in
  on_server (SendWriteRequest session (wr_store write_request table_entry te)).

Definition ConfigureVsiSrcPortTableEntry (session : OvsP4rtSession) (sp : src_port_info)
  (p4info : P4Info) (insert_entry : bool) : V1 S Status :=
  let '(write_request, table_entry) :=
    if insert_entry then SetupTableEntryToInsert session default_WriteRequest
    else SetupTableEntryToDelete session default_WriteRequest in
  let te :=
    EncodeSrcPortTableEntry (wr_deref write_request table_entry) sp p4info insert_entry in
  on_server (SendWriteRequest session (wr_store write_request table_entry te)).

Definition WriteRxTunnelSrcPortTableEntry (session : OvsP4rtSession) (info : tunnel_info)
  (p4info : P4Info) (insert_entry : bool) : V1 S Status :=
  let '(write_request, table_entry) :=
    if insert_entry then SetupTableEntryToInsert session default_WriteRequest
    else SetupTableEntryToDelete session default_WriteRequest in
  let te := wr_deref write_request table_entry in
  let te :=
    if (family (local_ip info) =? AF_INET) && (family (remote_ip info) =? AF_INET) then
      EncodeRxTunnelTableEntry te info p4info insert_entry
    else if (family (local_ip info) =? AF_INET6) && (family (remote_ip info) =? AF_INET6) then
      EncodeV6RxTunnelTableEntry te info p4info insert_entry
    else te in
  on_server (SendWriteRequest session (wr_store write_request table_entry te)).

(** [if (!status.ok()) LogFailure(...); return status;] *)
Definition report (status : Status) (insert_entry : bool) (detail : DiagDetail)
  : V1 S Status :=
  if negb (ok status) then
    say [LogFailure insert_entry (getLogTableName detail)];; mret status
  else mret status.

Definition WriteDstIpMacMapTableEntry (session : OvsP4rtSession) (ip_info : ip_mac_map_info)
  (p4info : P4Info) (insert_entry : bool) : V1 S Status :=
  let '(write_request, table_entry) :=
    if insert_entry then SetupTableEntryToInsert session default_WriteRequest
    else SetupTableEntryToDelete session default_WriteRequest in
  let '(te, detail) :=
    EncodeDstIpMacMapTableEntry (wr_deref write_request table_entry) ip_info p4info
      insert_entry default_DiagDetail in
  status ← on_server (SendWriteRequest session (wr_store write_request table_entry te));
  report status insert_entry detail.

Definition WriteSrcIpMacMapTableEntry (session : OvsP4rtSession) (ip_info : ip_mac_map_info)
  (p4info : P4Info) (insert_entry : bool) : V1 S Status :=
  let '(write_request, table_entry) :=
    if insert_entry then SetupTableEntryToInsert session default_WriteRequest
    else SetupTableEntryToDelete session default_WriteRequest in
  let '(te, detail) :=
    EncodeSrcIpMacMapTableEntry (wr_deref write_request table_entry) ip_info p4info
      insert_entry default_DiagDetail in
  status ← on_server (SendWriteRequest session (wr_store write_request table_entry te));
  report status insert_entry detail.

(** ** Reads *)

Definition ReadL2ToTunnelV4TableEntry (session : OvsP4rtSession)
  (learn_info : mac_learning_info) (p4info : P4Info) : V1 S (StatusOr ReadResponse) :=
  let '(read_request, table_entry) := SetupTableEntryToRead session default_ReadRequest in
  let '(te, _) :=
    EncodeL2ToTunnelV4 (rr_deref read_request table_entry) learn_info p4info false
      default_DiagDetail in
  on_server (SendReadRequest session (rr_store read_request table_entry te)).

Definition ReadL2ToTunnelV6TableEntry (session : OvsP4rtSession)
  (learn_info : mac_learning_info) (p4info : P4Info) : V1 S (StatusOr ReadResponse) :=
  let '(read_request, table_entry) := SetupTableEntryToRead session default_ReadRequest in
  let '(te, _) :=
    EncodeL2ToTunnelV6 (rr_deref read_request table_entry) learn_info p4info false
      default_DiagDetail in
  on_server (SendReadRequest session (rr_store read_request table_entry te)).

(** The entry to read; the unsupported tunnel type is refused before any
    request. *)
Definition ReadFdbTunnelTableEntry (tgt : target) (session : OvsP4rtSession)
  (learn_info : mac_learning_info) (p4info : P4Info) (adding : bool)
  : V1 S (StatusOr ReadResponse) :=
  let '(read_request, table_entry) := SetupTableEntryToRead session default_ReadRequest in
  let te := rr_deref read_request table_entry in
  let encoded :=
    match tgt with
    | DPDK_TARGET =>
        Some (EncodeFdbTableEntryforV4VxlanTunnel DPDK_TARGET te learn_info p4info false
                default_DiagDetail)
    | ES2K_TARGET =>
        if tunnel_type (tnl_info learn_info) =? tunnel_type_value OVS_TUNNEL_VXLAN then
          Some (EncodeFdbTableEntryforV4VxlanTunnel ES2K_TARGET te learn_info p4info false
                  default_DiagDetail)
        else if tunnel_type (tnl_info learn_info) =? tunnel_type_value OVS_TUNNEL_GENEVE then
          Some (EncodeFdbTableEntryforV4GeneveTunnel te learn_info p4info false
                  default_DiagDetail)
        else None
    end in
  match encoded with
  | None => mret (StatusError (UnknownError "Unsupported tunnel type"))
  | Some (te, detail) =>
      status ← on_server (SendReadRequest session (rr_store read_request table_entry te));
      (if is_ok status && adding then
         say [ovsp4rt_log_message OVSP4RT_LEVEL_ERROR
                ("Error adding to " +:+ getLogTableName detail +:+ ": entry already exists")]
       else mret ());;
      mret status
  end.

(** The format of the message has [%:] where the table name should be. *)
Definition ReadFdbVlanTableEntry (tgt : target) (session : OvsP4rtSession)
  (learn_info : mac_learning_info) (p4info : P4Info) (adding : bool)
  : V1 S (StatusOr ReadResponse) :=
  let '(read_request, table_entry) := SetupTableEntryToRead session default_ReadRequest in
  let '(te, detail) :=
    EncodeFdbTxVlanTableEntry tgt (rr_deref read_request table_entry) learn_info p4info
      false default_DiagDetail in
  status ← on_server (SendReadRequest session (rr_store read_request table_entry te));
  (if is_ok status && adding then
     say [ovsp4rt_log_message OVSP4RT_LEVEL_ERROR
            (printf_undefined "Error adding to %: entry already exists")]
   else mret ());;
  mret status.

Definition ReadVmSrcTableEntry (session : OvsP4rtSession) (ip_info : ip_mac_map_info)
  (p4info : P4Info) : V1 S (StatusOr ReadResponse) :=
  let '(read_request, table_entry) := SetupTableEntryToRead session default_ReadRequest in
  let '(te, _) :=
    EncodeSrcIpMacMapTableEntry (rr_deref read_request table_entry) ip_info p4info false
      default_DiagDetail in
  on_server (SendReadRequest session (rr_store read_request table_entry te)).

Definition ReadVmDstTableEntry (session : OvsP4rtSession) (ip_info : ip_mac_map_info)
  (p4info : P4Info) : V1 S (StatusOr ReadResponse) :=
  let '(read_request, table_entry) := SetupTableEntryToRead session default_ReadRequest in
  let '(te, _) :=
    EncodeDstIpMacMapTableEntry (rr_deref read_request table_entry) ip_info p4info false
      default_DiagDetail in
  on_server (SendReadRequest session (rr_store read_request table_entry te)).

Definition ReadTxAccVsiTableEntry (session : OvsP4rtSession) (sp : Z) (p4info : P4Info)
  : V1 S (StatusOr ReadResponse) :=
  let '(read_request, table_entry) := SetupTableEntryToRead session default_ReadRequest in
  let te := EncodeTxAccVsiTableEntry (rr_deref read_request table_entry) sp p4info in
  on_server (SendReadRequest session (rr_store read_request table_entry te)).

(** ** The source port of a VSI

    The loop both [ovsp4rt_config_fdb_entry] and
    [ovsp4rt_config_src_port_entry] contain. *)

(** [int(s2[i])]. *)
Definition char_at (s : bytes) (i : nat) : Z :=
  match s !! i with
  | Some b => if char_is_signed && (128 <=? b) then b - 256 else b
  | None => if decide (i = length s) then 0 else char_past_end s i
  end.

(** [host_sp = host_sp << 8 | int(s2[i])] for [i] from 0 to 3. *)
Definition shift_in_bytes (host_sp : Z) (s2 : bytes) : Z :=
  fold_left (fun host_sp i => w32 (w32 (host_sp <<. 8) .| w32 (char_at s2 i))) (seq 0 4)
    host_sp.

(** The inner loop stops at the first parameter with the id. *)
Fixpoint host_sp_params (param_id : Z) (host_sp : Z) (params : list Param) : Z :=
  match params with
  | [] => host_sp
  | param :: params =>
      if w32 param_id =? p_param_id param then shift_in_bytes host_sp (p_value param)
      else host_sp_params param_id host_sp params
  end.

(** The outer loop goes on over all the entities. *)
Definition host_sp_of (param_id : Z) (read_response : ReadResponse) : Z :=
  fold_left (fun host_sp entity =>
      let table_entry_1 := entity_table_entry entity in
      host_sp_params param_id host_sp (a_params (te_action_or_default table_entry_1)))
    (rsp_entities read_response) 0.

(** ** The C API *)

(** The code before the work proper of every API function. *)
Definition with_new_session (env : Env) (grpc_addr : string)
  (body : OvsP4rtSession -> P4Info -> V1 S unit) : V1 S unit :=
  let '(credentials, out) := GenerateClientCredentials env in
  say out;;
  status_or_session ← on_server
    (Create_address env grpc_addr credentials (w32 (FLAGS_device_id env))
       (FLAGS_role_name env) (TimeBasedElectionId (env_now env)));
  match status_or_session with
  | StatusError _ => mret ()
  | StatusValue session =>
      '(status, p4info) ← on_server (GetForwardingPipelineConfig session);
      if negb (ok status) then mret () else body session p4info
  end.

(** Deletion: is the address that of a tunnel, and of which family? *)
Definition update_tunnel_info (session : OvsP4rtSession) (learn_info : mac_learning_info)
  (p4info : P4Info) (insert_entry : bool) : V1 S mac_learning_info :=
  if negb insert_entry then
    status_or_read_response ← ReadL2ToTunnelV4TableEntry session learn_info p4info;
    let learn_info :=
      if is_ok status_or_read_response then set_is_tunnel true learn_info
      else learn_info in
    if negb (is_tunnel learn_info) then
      status_or_read_response ← ReadL2ToTunnelV6TableEntry session learn_info p4info;
      mret (if is_ok status_or_read_response then
              let learn_info := set_is_tunnel true learn_info in
              set_tnl_info (set_ip_families AF_INET6 AF_INET6 (tnl_info learn_info)) learn_info
            else learn_info)
    else mret learn_info
  else mret learn_info.

Definition config_fdb_tunnel (session : OvsP4rtSession) (learn_info : mac_learning_info)
  (p4info : P4Info) (insert_entry : bool) : V1 S unit :=
  let write_entries :=
    (WriteFdbTunnelTableEntry ES2K_TARGET session learn_info p4info insert_entry;;
     WriteL2TunnelTableEntry session learn_info p4info insert_entry;;
     WriteFdbSmacTableEntry session learn_info p4info insert_entry;;
     mret ()) in
  if insert_entry then
    status_or_read_response ←
      ReadFdbTunnelTableEntry ES2K_TARGET session learn_info p4info true;
    if is_ok status_or_read_response then mret () else write_entries
  else write_entries.

Definition config_fdb_vlan (session : OvsP4rtSession) (learn_info : mac_learning_info)
  (p4info : P4Info) (insert_entry : bool) : V1 S unit :=
  let write_entries learn_info :=
    (WriteFdbTxVlanTableEntry ES2K_TARGET session learn_info p4info insert_entry;;
     WriteFdbSmacTableEntry session learn_info p4info insert_entry;;
     mret ()) in
  if insert_entry then
    status_or_read_response ←
      ReadFdbVlanTableEntry ES2K_TARGET session learn_info p4info true;
    if is_ok status_or_read_response then mret () else
    WriteFdbRxVlanTableEntry ES2K_TARGET session learn_info p4info insert_entry;;
    status_or_read_response ←
      ReadTxAccVsiTableEntry session (src_port learn_info) p4info;
    match status_or_read_response with
    | StatusError _ => mret ()
    | StatusValue read_response =>
        let param_id :=
          GetParamId p4info TX_ACC_VSI_TABLE_ACTION_L2_FWD_AND_BYPASS_BRIDGE
            ACTION_L2_FWD_AND_BYPASS_BRIDGE_PARAM_PORT in
        write_entries (set_src_port (host_sp_of param_id read_response) learn_info)
    end
  else write_entries learn_info.

(** The body of the DPDK function. *)
Definition dpdk_config_fdb (session : OvsP4rtSession) (learn_info : mac_learning_info)
  (p4info : P4Info) (insert_entry : bool) : V1 S unit :=
  if is_tunnel learn_info then
    WriteFdbTunnelTableEntry DPDK_TARGET session learn_info p4info insert_entry;;
    mret ()
  else if is_vlan learn_info then
    status ← WriteFdbTxVlanTableEntry DPDK_TARGET session learn_info p4info insert_entry;
    if negb (ok status) then mret () else
    WriteFdbRxVlanTableEntry DPDK_TARGET session learn_info p4info insert_entry;;
    mret ()
  else mret ().

Definition ovsp4rt_config_fdb_entry (tgt : target) (learn_info : mac_learning_info)
  (insert_entry : bool) (grpc_addr : string) (env : Env) : V1 S unit :=
  match tgt with
  | ES2K_TARGET =>
      with_new_session env grpc_addr (fun session p4info =>
        learn_info ← update_tunnel_info session learn_info p4info insert_entry;
        if is_tunnel learn_info then config_fdb_tunnel session learn_info p4info insert_entry
        else config_fdb_vlan session learn_info p4info insert_entry)
  | DPDK_TARGET =>
      with_new_session env grpc_addr (fun session p4info =>
        dpdk_config_fdb session learn_info p4info insert_entry)
  end.

(** The entry points the DPDK build leaves empty. *)
Definition dpdk_unimplemented : V1 S unit := mret ().

Definition ovsp4rt_config_rx_tunnel_src_entry (tgt : target) (info : tunnel_info)
  (insert_entry : bool) (grpc_addr : string) (env : Env) : V1 S unit :=
  match tgt with
  | ES2K_TARGET =>
      with_new_session env grpc_addr (fun session p4info =>
        WriteRxTunnelSrcPortTableEntry session info p4info insert_entry;; mret ())
  | DPDK_TARGET => dpdk_unimplemented
  end.

Definition ovsp4rt_config_tunnel_src_port_entry (tgt : target) (tnl_sp : src_port_info)
  (insert_entry : bool) (grpc_addr : string) (env : Env) : V1 S unit :=
  match tgt with
  | ES2K_TARGET =>
      with_new_session env grpc_addr (fun session p4info =>
        let '(write_request, table_entry) :=
          if insert_entry then SetupTableEntryToInsert session default_WriteRequest
          else SetupTableEntryToDelete session default_WriteRequest in
        let te :=
          EncodeSrcPortTableEntry (wr_deref write_request table_entry) tnl_sp p4info
            insert_entry in
        on_server (SendWriteRequest session (wr_store write_request table_entry te));;
        mret ())
  | DPDK_TARGET => dpdk_unimplemented
  end.

Definition ovsp4rt_config_src_port_entry (tgt : target) (vsi_sp : src_port_info)
  (insert_entry : bool) (grpc_addr : string) (env : Env) : V1 S unit :=
  match tgt with
  | ES2K_TARGET =>
      with_new_session env grpc_addr (fun session p4info =>
        status_or_read_response ← ReadTxAccVsiTableEntry session (sp_src_port vsi_sp) p4info;
        match status_or_read_response with
        | StatusError _ => mret ()
        | StatusValue read_response =>
            let param_id :=
              GetParamId p4info TX_ACC_VSI_TABLE_ACTION_L2_FWD_AND_BYPASS_BRIDGE
                ACTION_L2_FWD_AND_BYPASS_BRIDGE_PARAM_PORT in
            let vsi_sp := set_sp_src_port (host_sp_of param_id read_response) vsi_sp in
            ConfigureVsiSrcPortTableEntry session vsi_sp p4info insert_entry;; mret ()
        end)
  | DPDK_TARGET => dpdk_unimplemented
  end.

Definition ovsp4rt_config_vlan_entry (tgt : target) (vlan_id : Z)
  (insert_entry : bool) (grpc_addr : string) (env : Env) : V1 S unit :=
  match tgt with
  | ES2K_TARGET =>
      with_new_session env grpc_addr (fun session p4info =>
        status ← WriteVlanPushTableEntry session vlan_id p4info insert_entry;
        if negb (ok status) then mret () else
        WriteVlanPopTableEntry session vlan_id p4info insert_entry;; mret ())
  | DPDK_TARGET => dpdk_unimplemented
  end.

Definition ovsp4rt_config_tunnel_entry (tgt : target) (info : tunnel_info)
  (insert_entry : bool) (grpc_addr : string) (env : Env) : V1 S unit :=
  with_new_session env grpc_addr (fun session p4info =>
    status ← WriteEncapTableEntry tgt session info p4info insert_entry;
    if negb (ok status) then mret () else
    status ←
      match tgt with
      | ES2K_TARGET => WriteDecapTableEntry session info p4info insert_entry
      | DPDK_TARGET => mret status
      end;
    if negb (ok status) then mret () else
    WriteTunnelTermTableEntry tgt session info p4info insert_entry;; mret ()).

(** The code from the label [try_dstip]. *)
Definition try_dstip (session : OvsP4rtSession) (ip_info : ip_mac_map_info)
  (p4info : P4Info) (insert_entry : bool) : V1 S unit :=
  let write_dst :=
    if ValidIpAddr (s_addr (src_ip_addr ip_info)) then
      WriteDstIpMacMapTableEntry session ip_info p4info insert_entry;; mret ()
    else mret () in
  if insert_entry then
    status_or_read_response ← ReadVmDstTableEntry session ip_info p4info;
    if is_ok status_or_read_response then mret () else write_dst
  else write_dst.

Definition ovsp4rt_config_ip_mac_map_entry (tgt : target) (ip_info : ip_mac_map_info)
  (insert_entry : bool) (grpc_addr : string) (env : Env) : V1 S unit :=
  match tgt with
  | ES2K_TARGET =>
      with_new_session env grpc_addr (fun session p4info =>
        let write_src :=
          (if ValidIpAddr (s_addr (src_ip_addr ip_info)) then
             WriteSrcIpMacMapTableEntry session ip_info p4info insert_entry;; mret ()
           else mret ());;
          try_dstip session ip_info p4info insert_entry in
        if insert_entry then
          status_or_read_response ← ReadVmSrcTableEntry session ip_info p4info;
          if is_ok status_or_read_response then try_dstip session ip_info p4info insert_entry
          else write_src
        else write_src)
  | DPDK_TARGET => dpdk_unimplemented
  end.
End Version1.
