(* ===== verification/V1Equiv.v ===== *)
(** * Version 1 against version 3

    The default implementation ([V1.v]) has no client; version 3 is a program
    over [ClientInterface]. [sim_at] relates a computation of the first to a
    program of the second, run on a [Client] with the same session: they make
    the same server move to the same state. When it is [strict] they also
    print the same. *)

From stdpp Require Import gmap.
From S2P Require Import Prelude P4Runtime OvsP4rt EncodeUtils P4InfoUtils Logging.
From S2P Require Import DpdkNames Es2kNames Target DpdkEncoders Es2kEncoders V1Encoders.
From S2P Require Import Client Session V1 ClientImpl Switch Server TxAccVsi Es2kFdb.
From S2P Require Import Es2kTunnel Es2kIpMacMap Es2kPorts Dpdk Es2kApi DpdkApi.

(** ** The relation *)

Section Sim.
Context {S : Type} `{P4RuntimeStub S} `{Platform}.
Variables (ses : OvsP4rtSession) (env : Env) (strict : bool).

(** A [Client] in session. *)
Definition in_session (s : S) (out : list string) : ClientState S :=
  MkClient (Some ses) s env out false.

Definition sim_at {A B} (Q : A -> B -> S -> Prop) (m : V1 S A) (p : prog B) (s : S) : Prop :=
  forall out1 out2, (strict = true -> out1 = out2) ->
  exists a b s' out1' out2',
    m (MkV1 s out1) = (a, MkV1 s' out1') /\
    run p (in_session s out2) = (b, in_session s' out2') /\
    Q a b s' /\ (strict = true -> out1' = out2').

Definition same_result {A} (a b : A) (s : S) : Prop := a = b.
Definition any_result {A B} (a : A) (b : B) (s : S) : Prop := True.

Lemma sim_ret {A B} (Q : A -> B -> S -> Prop) a b s :
  Q a b s -> sim_at Q (mret a) (mret b) s.
Proof. intros HQ out1 out2 Ho. exists a, b, s, out1, out2. done. Qed.

Lemma sim_bind {A B A' B'} (Q : A -> B -> S -> Prop) (Q' : A' -> B' -> S -> Prop) m p f g s :
  sim_at Q m p s -> (forall a b s', Q a b s' -> sim_at Q' (f a) (g b) s') ->
  sim_at Q' (m ≫= f) (p ≫= g) s.
Proof.
  intros Hm Hf out1 out2 Ho.
  destruct (Hm out1 out2 Ho) as (a & b & s1 & o1 & o2 & Em & Ep & HQ & Ho').
  destruct (Hf a b s1 HQ o1 o2 Ho') as (a' & b' & s2 & o1' & o2' & Ef & Eg & HQ' & Ho2).
  exists a', b', s2, o1', o2'. split_and!; [|rewrite run_bind, Ep|..]; try done.
  unfold mbind, V1_bind. by rewrite Em.
Qed.

(** Dropping both results. *)
Lemma sim_then {A B A' B'} (Q' : A' -> B' -> S -> Prop) (m : V1 S A) (p : prog B) f g s :
  sim_at any_result m p s -> (forall s', sim_at Q' f g s') ->
  sim_at Q' (m;; f) (p;; g) s.
Proof. intros Hm Hf. apply (sim_bind any_result); [done|]. intros. apply Hf. Qed.

Lemma sim_mono {A B} (Q Q' : A -> B -> S -> Prop) m p s :
  (forall a b s', Q a b s' -> Q' a b s') -> sim_at Q m p s -> sim_at Q' m p s.
Proof.
  intros HQ Hm out1 out2 Ho.
  destruct (Hm out1 out2 Ho) as (a & b & s1 & o1 & o2 & Em & Ep & Hr & Ho').
  exists a, b, s1, o1, o2. auto.
Qed.

Lemma sim_any {A} (m : V1 S A) (p : prog A) s :
  sim_at same_result m p s -> sim_at any_result m p s.
Proof. by apply sim_mono. Qed.

(** A last call whose result the API function drops. *)
Lemma sim_last {A} (m : V1 S A) (p : prog A) s :
  sim_at same_result m p s -> sim_at any_result (m;; mret ()) p s.
Proof.
  intros Hm out1 out2 Ho.
  destruct (Hm out1 out2 Ho) as (a & b & s1 & o1 & o2 & Em & Ep & _ & Ho').
  exists (), b, s1, o1, o2. unfold mbind, V1_bind. by rewrite Em.
Qed.

Lemma run_print_lines lines s out :
  run (print_lines lines) (in_session s out) = ((), in_session s (out ++ lines)).
Proof.
  revert out. induction lines as [|l lines IH]; intros out; simpl.
  - by rewrite app_nil_r.
  - unfold in_session in *. rewrite IH. by rewrite <- app_assoc.
Qed.

(** ** Requests *)

Lemma V1_on_server {A B} (f : S -> A * S) (k : A -> V1 S B) s out :
  (on_server f ≫= k) (MkV1 s out) = let '(a, s') := f s in k a (MkV1 s' out).
Proof. unfold mbind, V1_bind, on_server; simpl. by destruct (f s). Qed.

Definition write_setup (ins : bool) : WriteRequest * entry_ptr :=
  if ins then SetupTableEntryToInsert ses default_WriteRequest
  else SetupTableEntryToDelete ses default_WriteRequest.

Lemma run_init_write {A} ins (k : _ -> prog A) s out :
  run (do_call (initWriteRequest default_WriteRequest ins) ≫= k) (in_session s out) =
  run (k (write_setup ins)) (in_session s out).
Proof. by destruct ins. Qed.

Lemma run_init_read {A} (k : _ -> prog A) s out :
  run (do_call (initReadRequest default_ReadRequest) ≫= k) (in_session s out) =
  run (k (SetupTableEntryToRead ses default_ReadRequest)) (in_session s out).
Proof. done. Qed.

Lemma sim_send_write req s :
  sim_at (fun a b s' => a = b /\ SendWriteRequest ses req s = (b, s'))
    (on_server (SendWriteRequest ses req)) (do_call (sendWriteRequest req)) s.
Proof.
  intros out1 out2 Ho. destruct (SendWriteRequest ses req s) as [st s'] eqn:Hs.
  exists st, st, s', out1, out2. unfold on_server, do_call; simpl.
  unfold DoSendWriteRequest, with_session; simpl. by rewrite Hs.
Qed.

Lemma sim_send_read req s :
  sim_at (fun a b s' => a = b /\ SendReadRequest ses req s = (b, s'))
    (on_server (SendReadRequest ses req)) (do_call (sendReadRequest req)) s.
Proof.
  intros out1 out2 Ho. destruct (SendReadRequest ses req s) as [r s'] eqn:Hs.
  exists r, r, s', out1, out2. unfold on_server, do_call; simpl.
  unfold DoSendReadRequest, with_session; simpl. by rewrite Hs.
Qed.

Lemma sim_say lines s : sim_at any_result (say lines) (print_lines lines) s.
Proof.
  intros out1 out2 Ho. exists (), (), s, (out1 ++ lines), (out2 ++ lines).
  split_and!; [done|apply run_print_lines|done|]. intros. by rewrite Ho.
Qed.

(** The four shapes of the functions that write. *)
Lemma sim_write_plain (enc : TableEntry -> TableEntry) ins s :
  sim_at same_result
    (let '(wr, p) := write_setup ins in
     let te := enc (wr_deref wr p) in
     on_server (SendWriteRequest ses (wr_store wr p te)))
    ('(wr, p) ← do_call (initWriteRequest default_WriteRequest ins);
     let te := enc (wr_deref wr p) in
     do_call (sendWriteRequest (wr_store wr p te))) s.
Proof.
  intros out1 out2 Ho. rewrite run_init_write. destruct (write_setup ins) as [wr p].
  revert out1 out2 Ho. eapply sim_mono, sim_send_write. by intros ??? [-> _].
Qed.

Lemma sim_write_print (enc : TableEntry -> TableEntry * list string) ins s :
  sim_at same_result
    (let '(wr, p) := write_setup ins in
     let '(te, out) := enc (wr_deref wr p) in
     say out;; on_server (SendWriteRequest ses (wr_store wr p te)))
    ('(wr, p) ← do_call (initWriteRequest default_WriteRequest ins);
     let '(te, out) := enc (wr_deref wr p) in
     print_lines out;; do_call (sendWriteRequest (wr_store wr p te))) s.
Proof.
  intros out1 out2 Ho. rewrite run_init_write. destruct (write_setup ins) as [wr p].
  destruct (enc _) as [te out]. revert out1 out2 Ho. apply sim_then; [apply sim_say|].
  intros s'. eapply sim_mono, sim_send_write. by intros ??? [-> _].
Qed.

Lemma sim_write_silent (enc1 : TableEntry -> TableEntry * list string)
  (enc : TableEntry -> TableEntry) ins s :
  (forall te, enc1 te = (enc te, [])) ->
  sim_at same_result
    (let '(wr, p) := write_setup ins in
     let '(te, out) := enc1 (wr_deref wr p) in
     say out;; on_server (SendWriteRequest ses (wr_store wr p te)))
    ('(wr, p) ← do_call (initWriteRequest default_WriteRequest ins);
     let te := enc (wr_deref wr p) in
     do_call (sendWriteRequest (wr_store wr p te))) s.
Proof.
  intros He out1 out2 Ho. rewrite run_init_write. destruct (write_setup ins) as [wr p].
  rewrite He. revert out1 out2 Ho.
  change (sim_at same_result (say [];; on_server (SendWriteRequest ses
      (wr_store wr p (enc (wr_deref wr p)))))
    (print_lines [];; do_call (sendWriteRequest (wr_store wr p (enc (wr_deref wr p))))) s).
  apply sim_then; [apply sim_say|].
  intros s'. eapply sim_mono, sim_send_write. by intros ??? [-> _].
Qed.

Lemma sim_write_mac (enc : TableEntry -> TableEntry * DiagDetail) ins mac s :
  sim_at same_result
    (let '(wr, p) := write_setup ins in
     let '(te, detail) := enc (wr_deref wr p) in
     status ← on_server (SendWriteRequest ses (wr_store wr p te));
     report_mac status ins detail mac)
    ('(wr, p) ← do_call (initWriteRequest default_WriteRequest ins);
     let '(te, detail) := enc (wr_deref wr p) in
     status ← do_call (sendWriteRequest (wr_store wr p te));
     log_if_failed_mac status ins detail mac;; mret status) s.
Proof.
  intros out1 out2 Ho. rewrite run_init_write. destruct (write_setup ins) as [wr p].
  destruct (enc _) as [te d]. revert out1 out2 Ho.
  eapply sim_bind; [apply sim_send_write|]. intros st ? s' [-> _].
  unfold report_mac, log_if_failed_mac. destruct (ok _); simpl negb; cbv iota.
  - by apply sim_ret.
  - apply sim_then; [apply (sim_say [_])|]. intros. by apply sim_ret.
Qed.

Lemma sim_write_report (enc : TableEntry -> TableEntry * DiagDetail) ins s :
  sim_at same_result
    (let '(wr, p) := write_setup ins in
     let '(te, detail) := enc (wr_deref wr p) in
     status ← on_server (SendWriteRequest ses (wr_store wr p te));
     report status ins detail)
    ('(wr, p) ← do_call (initWriteRequest default_WriteRequest ins);
     let '(te, detail) := enc (wr_deref wr p) in
     status ← do_call (sendWriteRequest (wr_store wr p te));
     log_if_failed status ins detail;; mret status) s.
Proof.
  intros out1 out2 Ho. rewrite run_init_write. destruct (write_setup ins) as [wr p].
  destruct (enc _) as [te d]. revert out1 out2 Ho.
  eapply sim_bind; [apply sim_send_write|]. intros st ? s' [-> _].
  unfold report, log_if_failed. destruct (ok _); simpl negb; cbv iota.
  - by apply sim_ret.
  - apply sim_then; [apply (sim_say [_])|]. intros. by apply sim_ret.
Qed.

(** And of those that read. *)
Lemma sim_read_entry (enc : TableEntry -> TableEntry) s :
  sim_at (fun a b s' => a = b /\
      SendReadRequest ses (read_request_of (device_id_ ses, None) (enc default_TableEntry)) s =
        (b, s'))
    (let '(rr, p) := SetupTableEntryToRead ses default_ReadRequest in
     let te := enc (rr_deref rr p) in
     on_server (SendReadRequest ses (rr_store rr p te)))
    ('(rr, p) ← do_call (initReadRequest default_ReadRequest);
     let te := enc (rr_deref rr p) in
     do_call (sendReadRequest (rr_store rr p te))) s.
Proof.
  intros out1 out2 Ho. rewrite run_init_read. simpl SetupTableEntryToRead. cbv iota.
  revert out1 out2 Ho. apply sim_send_read.
Qed.

Lemma sim_read_detail (enc : TableEntry -> TableEntry * DiagDetail) s :
  sim_at same_result
    (let '(rr, p) := SetupTableEntryToRead ses default_ReadRequest in
     let '(te, _) := enc (rr_deref rr p) in
     on_server (SendReadRequest ses (rr_store rr p te)))
    ('(rr, p) ← do_call (initReadRequest default_ReadRequest);
     let '(te, _) := enc (rr_deref rr p) in
     do_call (sendReadRequest (rr_store rr p te))) s.
Proof.
  intros out1 out2 Ho. rewrite run_init_read.
  destruct (SetupTableEntryToRead _ _) as [rr p]. destruct (enc _) as [te d]. revert out1 out2 Ho.
  eapply sim_mono, sim_send_read. by intros ??? [-> _].
Qed.
End Sim.

(** ** The functions of both versions, ES2K *)

Section Es2k.
Context {S : Type} `{P4RuntimeStub S} `{Platform}.
Variables (ses : OvsP4rtSession) (env : Env) (strict : bool).
Abbreviation sim := (sim_at ses env strict).

Lemma sim_smac l p ins (s : S) :
  sim same_result (V1.WriteFdbSmacTableEntry ses l p ins) (Es2kFdb.WriteFdbSmacTableEntry l p ins) s.
Proof.
  exact (sim_write_mac _ _ _
    (fun te => Es2kEncoders.EncodeFdbSmacTableEntry te l p ins default_DiagDetail) _ _ s).
Qed.

Lemma sim_l2_tunnel l p ins (s : S) :
  sim same_result (V1.WriteL2TunnelTableEntry ses l p ins)
    (Es2kFdb.WriteL2TunnelTableEntry l p ins) s.
Proof.
  exact (sim_write_mac _ _ _
    (fun te => PrepareL2TunnelTableEntry te l p ins default_DiagDetail) _ _ s).
Qed.

Lemma sim_tx_vlan l p ins (s : S) :
  sim same_result (V1.WriteFdbTxVlanTableEntry ES2K_TARGET ses l p ins)
    (Es2kFdb.WriteFdbTxVlanTableEntry l p ins) s.
Proof.
  exact (sim_write_mac _ _ _
    (fun te => Es2kEncoders.EncodeFdbTxVlanTableEntry te l p ins default_DiagDetail) _ _ s).
Qed.

Lemma sim_rx_vlan l p ins (s : S) :
  sim same_result (V1.WriteFdbRxVlanTableEntry ES2K_TARGET ses l p ins)
    (Es2kFdb.WriteFdbRxVlanTableEntry l p ins) s.
Proof.
  exact (sim_write_mac _ _ _
    (fun te => Es2kEncoders.EncodeFdbRxVlanTableEntry te l p ins default_DiagDetail) _ _ s).
Qed.

Lemma sim_encap t p ins (s : S) :
  sim same_result (V1.WriteEncapTableEntry ES2K_TARGET ses t p ins)
    (Es2kTunnel.WriteEncapTableEntry t p ins) s.
Proof. exact (sim_write_print _ _ _ (fun te => PrepareEncapTableEntry te t p ins) _ s). Qed.

Lemma sim_decap t p ins (s : S) :
  sim same_result (V1.WriteDecapTableEntry ses t p ins)
    (Es2kTunnel.WriteDecapTableEntry t p ins) s.
Proof. exact (sim_write_print _ _ _ (fun te => PrepareDecapTableEntry te t p ins) _ s). Qed.

Lemma sim_term t p ins (s : S) :
  sim same_result (V1.WriteTunnelTermTableEntry ES2K_TARGET ses t p ins)
    (Es2kTunnel.WriteTunnelTermTableEntry t p ins) s.
Proof.
  exact (sim_write_print _ _ _ (fun te => PrepareTunnelTermTableEntry te t p ins) _ s).
Qed.

Lemma sim_vlan_push v p ins (s : S) :
  sim same_result (V1.WriteVlanPushTableEntry ses v p ins)
    (Es2kPorts.WriteVlanPushTableEntry v p ins) s.
Proof.
  exact (sim_write_plain _ _ _ (fun te => Es2kEncoders.EncodeVlanPushTableEntry te v p ins) _ s).
Qed.

Lemma sim_vlan_pop v p ins (s : S) :
  sim same_result (V1.WriteVlanPopTableEntry ses v p ins)
    (Es2kPorts.WriteVlanPopTableEntry v p ins) s.
Proof.
  exact (sim_write_plain _ _ _ (fun te => Es2kEncoders.EncodeVlanPopTableEntry te v p ins) _ s).
Qed.

Lemma sim_rx_tunnel t p ins (s : S) :
  sim same_result (V1.WriteRxTunnelSrcPortTableEntry ses t p ins)
    (Es2kPorts.WriteRxTunnelSrcPortTableEntry t p ins) s.
Proof.
  exact (sim_write_plain _ _ _ (fun te => PrepareRxTunnelSrcPortTableEntry te t p ins) _ s).
Qed.

Lemma sim_src_port sp p ins (s : S) :
  sim same_result (V1.ConfigureVsiSrcPortTableEntry ses sp p ins)
    (Es2kPorts.WriteVsiSrcPortTableEntry sp p ins) s.
Proof.
  exact (sim_write_plain _ _ _ (fun te => Es2kEncoders.EncodeSrcPortTableEntry te sp p ins) _ s).
Qed.

Lemma sim_dst_ip im p ins (s : S) :
  sim same_result (V1.WriteDstIpMacMapTableEntry ses im p ins)
    (Es2kIpMacMap.WriteDstIpMacMapTableEntry im p ins) s.
Proof.
  exact (sim_write_report _ _ _
    (fun te => Es2kEncoders.EncodeDstIpMacMapTableEntry te im p ins default_DiagDetail) _ s).
Qed.

Lemma sim_src_ip im p ins (s : S) :
  sim same_result (V1.WriteSrcIpMacMapTableEntry ses im p ins)
    (Es2kIpMacMap.WriteSrcIpMacMapTableEntry im p ins) s.
Proof.
  exact (sim_write_report _ _ _
    (fun te => Es2kEncoders.EncodeSrcIpMacMapTableEntry te im p ins default_DiagDetail) _ s).
Qed.

Lemma sim_read_v4 l p (s : S) :
  sim same_result (V1.ReadL2ToTunnelV4TableEntry ses l p)
    (Es2kFdb.ReadL2ToTunnelV4TableEntry l p) s.
Proof.
  exact (sim_read_detail _ _ _
    (fun te => Es2kEncoders.EncodeL2ToTunnelV4 te l p false default_DiagDetail) s).
Qed.

Lemma sim_read_v6 l p (s : S) :
  sim same_result (V1.ReadL2ToTunnelV6TableEntry ses l p)
    (Es2kFdb.ReadL2ToTunnelV6TableEntry l p) s.
Proof.
  exact (sim_read_detail _ _ _
    (fun te => Es2kEncoders.EncodeL2ToTunnelV6 te l p false default_DiagDetail) s).
Qed.

Lemma sim_read_src_ip im p (s : S) :
  sim same_result (V1.ReadVmSrcTableEntry ses im p) (Es2kIpMacMap.ReadVmSrcTableEntry im p) s.
Proof.
  exact (sim_read_detail _ _ _
    (fun te => Es2kEncoders.EncodeSrcIpMacMapTableEntry te im p false default_DiagDetail) s).
Qed.

Lemma sim_read_dst_ip im p (s : S) :
  sim same_result (V1.ReadVmDstTableEntry ses im p) (Es2kIpMacMap.ReadVmDstTableEntry im p) s.
Proof.
  exact (sim_read_detail _ _ _
    (fun te => Es2kEncoders.EncodeDstIpMacMapTableEntry te im p false default_DiagDetail) s).
Qed.

(** ** Bodies of the API functions *)

Lemma sim_tunnel_body t p ins (s : S) :
  sim any_result
    (status ← V1.WriteEncapTableEntry ES2K_TARGET ses t p ins;
     if negb (ok status) then mret () else
     status ← V1.WriteDecapTableEntry ses t p ins;
     if negb (ok status) then mret () else
     V1.WriteTunnelTermTableEntry ES2K_TARGET ses t p ins;; mret ())
    (Es2kTunnel.ConfigTunnelEntry t p ins) s.
Proof.
  eapply sim_bind; [apply sim_encap|]. intros st ? s1 <-.
  destruct (ok st); simpl negb; cbv iota; [|by apply sim_ret].
  eapply sim_bind; [apply sim_decap|]. intros st2 ? s2 <-.
  destruct (ok st2); simpl negb; cbv iota; [|by apply sim_ret].
  apply sim_last, sim_term.
Qed.

Lemma sim_vlan_body v p ins (s : S) :
  sim any_result
    (status ← V1.WriteVlanPushTableEntry ses v p ins;
     if negb (ok status) then mret () else
     V1.WriteVlanPopTableEntry ses v p ins;; mret ())
    (ConfigVlanEntry v p ins) s.
Proof.
  eapply sim_bind; [apply sim_vlan_push|]. intros st ? s1 <-.
  destruct (ok st); simpl negb; cbv iota; [|by apply sim_ret].
  apply sim_last, sim_vlan_pop.
Qed.

Lemma sim_optional {A B} (Q : unit -> B -> S -> Prop) (b : bool) (m : V1 S A) (p : prog A) f g s :
  sim same_result m p s -> (forall s', sim Q f g s') ->
  sim Q ((if b then m;; mret () else mret ());; f) ((if b then p;; mret () else mret ());; g) s.
Proof.
  intros Hm Hf. destruct b.
  - apply sim_then; [|done]. apply sim_then; [by apply sim_any|]. intros. by apply sim_ret.
  - apply sim_then; [|done]. by apply sim_ret.
Qed.

Lemma sim_optional_last {A} (b : bool) (m : V1 S A) (p : prog A) (st : Status) s :
  sim same_result m p s ->
  sim any_result (if b then m;; mret () else mret ())
    ((if b then p;; mret () else mret ());; mret st) s.
Proof.
  intros Hm. destruct b; [|by apply (sim_ret _ _ _ _ () st)].
  intros out1 out2 Ho.
  destruct (Hm out1 out2 Ho) as (a & b & s1 & o1 & o2 & Em & Ep & _ & Ho').
  exists (), st, s1, o1, o2. rewrite run_bind, run_bind, Ep.
  unfold mbind, V1_bind. by rewrite Em.
Qed.

Lemma sim_try_dstip im p ins (s : S) :
  sim any_result (try_dstip ses im p ins) (ConfigIpMacMapEntry_try_dstip im p ins) s.
Proof.
  assert (Hw : forall s', sim any_result
    (if V1.ValidIpAddr (s_addr (src_ip_addr im)) then
       V1.WriteDstIpMacMapTableEntry ses im p ins;; mret () else mret ())
    ((if Es2kIpMacMap.ValidIpAddr (s_addr (src_ip_addr im)) then
        Es2kIpMacMap.WriteDstIpMacMapTableEntry im p ins;; mret () else mret ());;
     mret OkStatus) s').
  { intros. apply sim_optional_last, sim_dst_ip. }
  unfold try_dstip, ConfigIpMacMapEntry_try_dstip. destruct ins; [|apply Hw].
  eapply sim_bind; [apply sim_read_dst_ip|]. intros r ? s1 <-.
  destruct (is_ok r); [by apply sim_ret|apply Hw].
Qed.

Lemma sim_ip_mac_body im p ins (s : S) :
  sim any_result
    (let write_src :=
       (if V1.ValidIpAddr (s_addr (src_ip_addr im)) then
          V1.WriteSrcIpMacMapTableEntry ses im p ins;; mret () else mret ());;
       try_dstip ses im p ins in
     if ins then
       r ← V1.ReadVmSrcTableEntry ses im p;
       if is_ok r then try_dstip ses im p ins else write_src
     else write_src)
    (ConfigIpMacMapEntry im p ins) s.
Proof.
  assert (Hw : forall s', sim any_result
    ((if V1.ValidIpAddr (s_addr (src_ip_addr im)) then
        V1.WriteSrcIpMacMapTableEntry ses im p ins;; mret () else mret ());;
     try_dstip ses im p ins)
    ((if Es2kIpMacMap.ValidIpAddr (s_addr (src_ip_addr im)) then
        Es2kIpMacMap.WriteSrcIpMacMapTableEntry im p ins;; mret () else mret ());;
     ConfigIpMacMapEntry_try_dstip im p ins) s').
  { intros. apply sim_optional; [apply sim_src_ip|intros; apply sim_try_dstip]. }
  unfold ConfigIpMacMapEntry. destruct ins; [|apply Hw].
  eapply sim_bind; [apply sim_read_src_ip|]. intros r ? s1 <-.
  destruct (is_ok r); [apply sim_try_dstip|apply Hw].
Qed.
End Es2k.

(** ** The functions of both versions, DPDK *)

Section DpdkSim.
Context {S : Type} `{P4RuntimeStub S} `{Platform}.
Variables (ses : OvsP4rtSession) (env : Env) (strict : bool).
Abbreviation sim := (sim_at ses env strict).

Lemma sim_dpdk_tunnel_body t p ins (s : S) :
  sim any_result
    (status ← V1.WriteEncapTableEntry DPDK_TARGET ses t p ins;
     if negb (ok status) then mret () else
     status ← mret status;
     if negb (ok status) then mret () else
     V1.WriteTunnelTermTableEntry DPDK_TARGET ses t p ins;; mret ())
    (Dpdk.ConfigTunnelEntry t p ins) s.
Proof.
  eapply (sim_bind _ _ _ same_result).
  { exact (sim_write_silent _ _ _
      (fun te => V1.PrepareV4EncapTableEntry DPDK_TARGET te t p ins)
      (fun te => Dpdk.PrepareV4EncapTableEntry te t p ins) _ s (fun te => eq_refl)). }
  intros st ? s1 <-. destruct (ok st) eqn:Hst; simpl negb; cbv iota; [|by apply sim_ret].
  unfold mbind at 1, V1_bind at 1, mret at 1, V1_ret at 1. rewrite Hst. simpl negb. cbv iota.
  apply sim_last.
  refine (sim_write_silent _ _ _
    (fun te => V1Encoders.EncodeTunnelTermTableEntry DPDK_TARGET te t p ins)
    (fun te => DpdkEncoders.EncodeTunnelTermTableEntry te t p ins) _ s1 _).
  intros. by destruct ins.
Qed.

Lemma sim_dpdk_fdb_body l p ins (s : S) :
  sim any_result
    (if is_tunnel l then V1.WriteFdbTunnelTableEntry DPDK_TARGET ses l p ins;; mret ()
     else if is_vlan l then
       status ← V1.WriteFdbTxVlanTableEntry DPDK_TARGET ses l p ins;
       if negb (ok status) then mret () else
       V1.WriteFdbRxVlanTableEntry DPDK_TARGET ses l p ins;; mret ()
     else mret ())
    (Dpdk.ConfigFdbEntry l p ins) s.
Proof.
  unfold Dpdk.ConfigFdbEntry. destruct (is_tunnel l); [|destruct (is_vlan l)].
  - apply sim_last. exact (sim_write_mac _ _ _ (fun te =>
      DpdkEncoders.EncodeFdbTableEntryforV4VxlanTunnel te l p ins default_DiagDetail) _ _ s).
  - eapply (sim_bind _ _ _ same_result).
    { exact (sim_write_mac _ _ _ (fun te =>
        DpdkEncoders.EncodeFdbTxVlanTableEntry te l p ins default_DiagDetail) _ _ s). }
    intros st ? s1 <-. destruct (ok st); simpl negb; cbv iota; [|by apply sim_ret].
    apply sim_last. exact (sim_write_mac _ _ _ (fun te =>
      DpdkEncoders.EncodeFdbRxVlanTableEntry te l p ins default_DiagDetail) _ _ s1).
  - by apply sim_ret.
Qed.
End DpdkSim.

(** ** From the opening of the session *)

Section Api.
Context {S : Type} `{P4RuntimeStub S} `{Platform}.

(** The states the two implementations reach: of the server and, when
    [strict], of the output. *)
Definition same_effect (strict : bool) (v1 : V1State S) (v3 : ClientState S) : Prop :=
  v1_server v1 = cl_server v3 /\ (strict = true -> v1_out v1 = cl_out v3).

(** The prologues, and a body that is related once the session is there. *)
Lemma sim_api strict env addr (body : OvsP4rtSession -> P4Info -> V1 S unit)
  (P : P4Info -> prog Status) (s : S) :
  (forall ses s1 p4info s2,
     Create_address env addr (GenerateClientCredentials env).1 (w32 (FLAGS_device_id env))
       (FLAGS_role_name env) (TimeBasedElectionId (env_now env)) s = (StatusValue ses, s1) ->
     GetForwardingPipelineConfig ses s1 = ((OkStatus, p4info), s2) ->
     sim_at ses env strict any_result (body ses p4info) (P p4info) s2) ->
  same_effect strict (with_new_session env addr body (MkV1 s [])).2
    (run (status ← do_call (connect addr);
          if negb (ok status) then mret status else
          '(status, p4info) ← do_call getPipelineConfig;
          if negb (ok status) then mret status else P p4info) (new_Client env s)).2.
Proof.
  intros Hbody. unfold with_new_session. rewrite (run_call (connect addr)). cbn [handle].
  change (m_connect addr) with (Client_connect addr). unfold Client_connect. cbn [cl_env cl_server cl_out new_Client].
  destruct (GenerateClientCredentials env) as [cred out]. cbn [fst] in Hbody.
  unfold say at 1, mbind at 1, V1_bind at 1. cbn [v1_server v1_out].
  rewrite V1_on_server. destruct (Create_address _ _ _ _ _ _ _) as [[ses|er] s1] eqn:Hc;
    [|done].
  cbn [ok negb]. cbv iota. rewrite V1_on_server, (run_call getPipelineConfig). cbn [handle].
  change m_getPipelineConfig with Client_getPipelineConfig.
  unfold Client_getPipelineConfig, with_session.
  cbn [session_ cl_server cl_env cl_out cl_fault].
  destruct (GetForwardingPipelineConfig ses s1) as [[st p4info] s2] eqn:Hg.
  assert (st = OkStatus) as ->.
  { unfold GetForwardingPipelineConfig in Hg. by repeat case_match; simplify_eq. }
  cbn [ok negb]. cbv iota.
  destruct (Hbody ses s1 p4info s2 eq_refl Hg out out) as
    (a & b & s' & o1 & o2 & Ev & Er & _ & Ho); [done|].
  change ([] ++ out) with out. rewrite Ev. change (MkClient (Some ses) s2 env out _) with (in_session ses env s2 out).
  by rewrite Er.
Qed.

(** An API function of version 1 called on a server. *)
Definition v1_call (m : V1 S unit) (s : S) : V1State S := (m (MkV1 s [])).2.

(** C5 v1_api_agrees: whatever the server does, the default implementation of
    the tunnel, VLAN, receive-side tunnel source, tunnel source port and
    IP-to-MAC functions for ES2K, and of both DPDK functions, makes the server
    move to the state version 3 leads it to, and prints what it prints. *)
Theorem v1_api_agrees (env : Env) (s : S) (ins : bool) (addr : string) l t im sp vlan :
  same_effect true
    (v1_call (V1.ovsp4rt_config_tunnel_entry ES2K_TARGET t ins addr env) s)
    (Es2kApi.ovsp4rt_config_tunnel_entry t ins addr env s) /\
  same_effect true
    (v1_call (V1.ovsp4rt_config_vlan_entry ES2K_TARGET vlan ins addr env) s)
    (Es2kApi.ovsp4rt_config_vlan_entry vlan ins addr env s) /\
  same_effect true
    (v1_call (V1.ovsp4rt_config_rx_tunnel_src_entry ES2K_TARGET t ins addr env) s)
    (Es2kApi.ovsp4rt_config_rx_tunnel_src_entry t ins addr env s) /\
  same_effect true
    (v1_call (V1.ovsp4rt_config_tunnel_src_port_entry ES2K_TARGET sp ins addr env) s)
    (Es2kApi.ovsp4rt_config_tunnel_src_port_entry sp ins addr env s) /\
  same_effect true
    (v1_call (V1.ovsp4rt_config_ip_mac_map_entry ES2K_TARGET im ins addr env) s)
    (Es2kApi.ovsp4rt_config_ip_mac_map_entry im ins addr env s) /\
  same_effect true
    (v1_call (V1.ovsp4rt_config_tunnel_entry DPDK_TARGET t ins addr env) s)
    (DpdkApi.ovsp4rt_config_tunnel_entry t ins addr env s) /\
  same_effect true
    (v1_call (V1.ovsp4rt_config_fdb_entry DPDK_TARGET l ins addr env) s)
    (DpdkApi.ovsp4rt_config_fdb_entry l ins addr env s).
Proof.
  unfold Es2kApi.ovsp4rt_config_tunnel_entry, ovsp4rt_config_vlan_entry,
    Es2kApi.ovsp4rt_config_rx_tunnel_src_entry, Es2kApi.ovsp4rt_config_tunnel_src_port_entry,
    Es2kApi.ovsp4rt_config_ip_mac_map_entry, DpdkApi.ovsp4rt_config_tunnel_entry,
    DpdkApi.ovsp4rt_config_fdb_entry, Es2kApi.ovsp4rt_config_vlan_entry.
  cbv zeta. rewrite !drop_result. unfold v1_call. split_and!.
  - apply sim_api. intros. apply sim_tunnel_body.
  - apply sim_api. intros. apply sim_vlan_body.
  - apply sim_api. intros. apply sim_last, sim_rx_tunnel.
  - apply sim_api. intros ses s1 p4info s2 _ _. destruct ins.
    + exact (sim_last _ _ _ _ _ _ (sim_src_port ses env true sp p4info true s2)).
    + exact (sim_last _ _ _ _ _ _ (sim_src_port ses env true sp p4info false s2)).
  - apply sim_api. intros. apply sim_ip_mac_body.
  - apply sim_api. intros. apply sim_dpdk_tunnel_body.
  - apply sim_api. intros. apply sim_dpdk_fdb_body.
Qed.
End Api.
