(* ===== verification/V1Fdb.v ===== *)
(** * Version 1 against version 3: the functions that look up a port

    [ovsp4rt_config_fdb_entry] and [ovsp4rt_config_src_port_entry] for ES2K.
    Version 1 has its own loop for the port of a VSI, which agrees with that of
    version 3 ([TxAccVsi.decode_port_value]) on the low bytes only; and it logs
    more. So what is compared here is the server, and the port parameter is
    taken to have the four bytes the loop reads. *)

From stdpp Require Import gmap.
From S2P Require Import Prelude P4Runtime OvsP4rt EncodeUtils P4InfoUtils Logging.
From S2P Require Import DpdkNames Es2kNames Target DpdkEncoders Es2kEncoders V1Encoders.
From S2P Require Import Client Pipelines Session V1 ClientImpl Switch Server TxAccVsi Es2kFdb.
From S2P Require Import Es2kTunnel Es2kIpMacMap Es2kPorts Dpdk Es2kApi DpdkApi V1Equiv.

(** ** The port loop *)

Section Port.
Context `{Platform}.

(** The character of a byte, and one turn of the loop. *)
Definition char_of (b : Z) : Z := if char_is_signed && (128 <=? b) then b - 256 else b.
Definition shift_in (host_sp b : Z) : Z :=
  w32 (w32 (host_sp <<. 8) .| w32 (char_of b)).

Lemma shift_in_bytes_4 h a b c d :
  shift_in_bytes h [a; b; c; d] = shift_in (shift_in (shift_in (shift_in h a) b) c) d.
Proof. done. Qed.

Lemma shift_in_range h b : 0 <= shift_in h b < 4294967296.
Proof. apply w32_range. Qed.

Lemma w32_bits z n : 0 <= n < 32 -> Z.testbit (w32 z) n = Z.testbit z n.
Proof. intros. unfold w32. change 4294967296 with (2 ^ 32). apply Z.mod_pow2_bits_low. lia. Qed.

Lemma low_byte b : is_byte b -> s8 b .& 255 = b.
Proof. intros Hb. machine_int. Qed.

(** A character that is not negative is a digit in base 256. *)
Lemma shift_in_digit h b :
  0 <= h < 4294967296 -> is_byte b -> char_is_signed && (128 <=? b) = false ->
  shift_in h b = (h * 256 + b) mod 4294967296.
Proof.
  intros Hh Hb Hs. unfold shift_in, char_of. rewrite Hs, <- port_step by done.
  rewrite low_byte, (w32_id b) by (done || unfold is_byte in *; lia).
  apply Z.bits_inj'. intros n Hn. destruct (decide (n < 32)).
  - by rewrite w32_bits by lia.
  - unfold w32 at 1. change 4294967296 with (2 ^ 32). rewrite Z.mod_pow2_bits_high by lia.
    rewrite Z.lor_spec. unfold w32. change 4294967296 with (2 ^ 32).
    by rewrite Z.mod_pow2_bits_high, Z_bits_byte by (done || lia).
Qed.

(** A negative one sets all the bits above its own. *)
Lemma shift_in_negative h b :
  is_byte b -> char_is_signed && (128 <=? b) = true -> shift_in h b = 4294967040 + b.
Proof.
  intros Hb Hs. unfold shift_in, char_of. rewrite Hs. apply andb_true_iff in Hs as [_ Hs].
  assert (E : w32 (b - 256) = 4294967040 + b) by (unfold is_byte, w32 in *; lia).
  rewrite E. change 4294967040 with (Z.shiftl 16777215 8).
  assert (Hl : Z.land (Z.shiftl 16777215 8) b = 0).
  { apply Z.bits_inj'. intros n Hn. rewrite Z.land_spec, Z.bits_0.
    destruct (decide (n < 8)).
    - by rewrite Z.shiftl_spec_low.
    - by rewrite (Z_bits_byte b n), andb_false_r by (done || lia). }
  pose proof (Z.add_lor_land (Z.shiftl 16777215 8) b) as Ha. rewrite Hl, Z.add_0_r in Ha.
  rewrite <- Ha. apply Z.bits_inj'. intros n Hn. destruct (decide (n < 32)) as [Hlt|].
  - rewrite w32_bits, !Z.lor_spec, w32_bits by lia. destruct (decide (n < 8)).
    + by rewrite !Z.shiftl_spec_low by lia.
    + rewrite (Z_bits_byte b n), !orb_false_r by (done || lia).
      rewrite (Z.shiftl_spec 16777215) by lia. change 16777215 with (Z.ones 24).
      rewrite Z.ones_spec_low by lia. by rewrite orb_true_r.
  - unfold w32 at 1. change 4294967296 with (2 ^ 32). rewrite Z.mod_pow2_bits_high by lia.
    rewrite Z.lor_spec, Z.shiftl_spec, (Z_bits_byte b n) by (done || lia).
    change 16777215 with (Z.ones 24). by rewrite Z.ones_spec_high by lia.
Qed.

Lemma shift_in_low h b : 0 <= h < 4294967296 -> is_byte b -> shift_in h b mod 256 = b.
Proof.
  intros Hh Hb. destruct (char_is_signed && (128 <=? b)) eqn:Hs.
  - rewrite shift_in_negative by done. unfold is_byte in *. lia.
  - rewrite shift_in_digit by done. unfold is_byte in *. lia.
Qed.

(** The low byte is right, and the low 16 bits unless the last character is
    negative. *)
Lemma shift_in_bytes_low a b c d :
  Forall is_byte [a; b; c; d] ->
  shift_in_bytes 0 [a; b; c; d] mod 256 = decode_port_value [a; b; c; d] mod 256.
Proof.
  intros Hb. rewrite decode_port_value_be by done. rewrite shift_in_bytes_4.
  inversion_clear Hb as [|?? Ha Hb1]. inversion_clear Hb1 as [|?? Hb Hb2].
  inversion_clear Hb2 as [|?? Hc Hb3]. inversion_clear Hb3 as [|?? Hd _].
  rewrite shift_in_low by (apply shift_in_range || done).
  unfold is_byte, be_val in *. cbn. lia.
Qed.

Lemma shift_in_bytes_16 a b c d :
  Forall is_byte [a; b; c; d] ->
  shift_in_bytes 0 [a; b; c; d] mod 65536 =
  if char_is_signed && (128 <=? d) then 65280 + d
  else decode_port_value [a; b; c; d] mod 65536.
Proof.
  intros Hb. rewrite decode_port_value_be by done. rewrite shift_in_bytes_4.
  inversion_clear Hb as [|?? Ha Hb1]. inversion_clear Hb1 as [|?? Hb Hb2].
  inversion_clear Hb2 as [|?? Hc Hb3]. inversion_clear Hb3 as [|?? Hd _].
  set (y := shift_in (shift_in 0 a) b).
  pose proof (shift_in_range (shift_in 0 a) b : 0 <= y < _) as Hy.
  destruct (char_is_signed && (128 <=? d)) eqn:Hs.
  - rewrite shift_in_negative by done. unfold is_byte in *. lia.
  - rewrite shift_in_digit by (apply shift_in_range || done).
    pose proof (shift_in_low y c Hy Hc) as Hlow.
    unfold is_byte, be_val in *. cbn. lia.
Qed.

Lemma shift_in_bytes_exact a b c d :
  Forall is_byte [a; b; c; d] ->
  forallb (fun x => negb (char_is_signed && (128 <=? x))) [a; b; c; d] = true ->
  shift_in_bytes 0 [a; b; c; d] = decode_port_value [a; b; c; d].
Proof.
  intros Hb Hn. rewrite decode_port_value_be by done. rewrite shift_in_bytes_4.
  inversion_clear Hb as [|?? Ha Hb1]. inversion_clear Hb1 as [|?? Hb Hb2].
  inversion_clear Hb2 as [|?? Hc Hb3]. inversion_clear Hb3 as [|?? Hd _].
  simpl in Hn. rewrite !andb_true_iff, !negb_true_iff in Hn. destruct Hn as (Na & Nb & Nc & Nd & _).
  unfold is_byte in *.
  rewrite (shift_in_digit 0 a) by (done || lia).
  rewrite (shift_in_digit _ b), (shift_in_digit _ c), (shift_in_digit _ d)
    by (done || apply Z.mod_pos_bound; lia).
  unfold be_val. cbn. lia.
Qed.

Lemma EncodeByteValue_16_eq h1 h2 :
  h1 mod 65536 = h2 mod 65536 ->
  EncodeByteValue 2 [(h1 >>. 8) .& 255; h1 .& 255] =
  EncodeByteValue 2 [(h2 >>. 8) .& 255; h2 .& 255].
Proof.
  intros Hh. apply be_val_inj; [done|apply EncodeByteValue_bytes..|].
  by rewrite !EncodeByteValue_16.
Qed.

(** The value of the first parameter with an id: the loops of both versions
    decode it. *)
Fixpoint find_param (param_id : Z) (params : list Param) : option bytes :=
  match params with
  | [] => None
  | param :: params =>
      if p_param_id param =? w32 param_id then Some (p_value param)
      else find_param param_id params
  end.

Lemma host_sp_params_find id h params :
  host_sp_params id h params =
  match find_param id params with Some v => shift_in_bytes h v | None => h end.
Proof.
  induction params as [|q params IH]; [done|]. simpl. rewrite Z.eqb_sym.
  by destruct (_ =? _).
Qed.

Lemma find_port_param_find id params :
  find_port_param id params = decode_port_value <$> find_param id params.
Proof. induction params as [|q params IH]; [done|]. simpl. by destruct (_ =? _). Qed.
End Port.

(** ** Requests, comparing servers only *)

Section Loose.
Context {S : Type} `{P4RuntimeStub S} `{Platform}.
Variables (ses : OvsP4rtSession) (env : Env).
Abbreviation sim := (sim_at ses env false).
Implicit Types s : S.

(** Messages are not compared. *)
Lemma sim_log (m : V1 S unit) s :
  (forall out, exists out', m (MkV1 s out) = ((), MkV1 s out')) ->
  sim any_result m (mret ()) s.
Proof.
  intros Hm out1 out2 _. destruct (Hm out1) as [out' E].
  by exists (), (), s, out', out2.
Qed.

Lemma sim_log_if (b : bool) lines s :
  sim any_result (if b then say lines else mret () : V1 S unit) (mret ()) s.
Proof. apply sim_log. intros out. destruct b; by eexists. Qed.

Lemma sim_say_any lines lines' s : sim any_result (say lines) (print_lines lines') s.
Proof.
  intros out1 out2 _. exists (), (), s, (out1 ++ lines), (out2 ++ lines').
  split_and!; [done|apply run_print_lines|done|done].
Qed.

(** Two functions that send the same entry. *)
Lemma sim_write_mac_loose (enc1 enc2 : TableEntry -> TableEntry * DiagDetail) ins mac s :
  (forall te, (enc1 te).1 = (enc2 te).1) ->
  sim same_result
    (let '(wr, p) := write_setup ses ins in
     let '(te, detail) := enc1 (wr_deref wr p) in
     status ← on_server (SendWriteRequest ses (wr_store wr p te));
     report_mac status ins detail mac)
    ('(wr, p) ← do_call (initWriteRequest default_WriteRequest ins);
     let '(te, detail) := enc2 (wr_deref wr p) in
     status ← do_call (sendWriteRequest (wr_store wr p te));
     log_if_failed_mac status ins detail mac;; mret status) s.
Proof.
  intros He out1 out2 Ho. rewrite run_init_write. destruct (write_setup ses ins) as [wr p].
  specialize (He (wr_deref wr p)).
  destruct (enc1 _) as [te d1], (enc2 _) as [te2 d2]. simpl in He. subst te2.
  revert out1 out2 Ho. eapply sim_bind; [apply sim_send_write|]. intros st ? s' [-> _].
  unfold report_mac, log_if_failed_mac. destruct (ok _); simpl negb; cbv iota.
  - by apply sim_ret.
  - apply sim_then; [exact (sim_say_any [LogFailureWithMacAddr ins (getLogTableName d1) mac] [LogFailureWithMacAddr ins (getLogTableName d2) mac] s')|]. intros. by apply sim_ret.
Qed.

Lemma sim_write_plain_loose (enc1 enc2 : TableEntry -> TableEntry) ins s :
  (forall te, enc1 te = enc2 te) ->
  sim same_result
    (let '(wr, p) := write_setup ses ins in
     let te := enc1 (wr_deref wr p) in
     on_server (SendWriteRequest ses (wr_store wr p te)))
    ('(wr, p) ← do_call (initWriteRequest default_WriteRequest ins);
     let te := enc2 (wr_deref wr p) in
     do_call (sendWriteRequest (wr_store wr p te))) s.
Proof.
  intros He. pose proof (sim_write_plain ses env false enc2 ins s) as Hw.
  destruct (write_setup ses ins) as [wr p]. cbv zeta. by rewrite He.
Qed.

(** A read after which version 1 logs. *)
Lemma sim_read_log (enc : TableEntry -> TableEntry * DiagDetail)
  (log : StatusOr ReadResponse -> DiagDetail -> V1 S unit) s :
  (forall r d out s, exists out', log r d (MkV1 s out) = ((), MkV1 s out')) ->
  sim same_result
    (let '(rr, p) := SetupTableEntryToRead ses default_ReadRequest in
     let '(te, d) := enc (rr_deref rr p) in
     r ← on_server (SendReadRequest ses (rr_store rr p te)); log r d;; mret r)
    ('(rr, p) ← do_call (initReadRequest default_ReadRequest);
     let '(te, _) := enc (rr_deref rr p) in
     do_call (sendReadRequest (rr_store rr p te))) s.
Proof.
  intros Hlog out1 out2 Ho. rewrite run_init_read. unfold SetupTableEntryToRead.
  destruct (enc _) as [te d].
  match goal with |- context [run ?p _] => set (rd := p) end.
  destruct (sim_send_read ses env false (rr_store
    (MkReadRequest (DeviceId ses) (rr_entities default_ReadRequest ++
       [ENTITY_TABLE_ENTRY default_TableEntry]))
    (length (rr_entities default_ReadRequest)) te) s out1 out2 Ho)
    as (r & ? & s' & o1 & o2 & E1 & E2 & [<- _] & _).
  destruct (Hlog r d o1 s') as [o1' E].
  exists r, r, s', o1', o2. split_and!; [|exact E2|done|done].
  unfold mbind, V1_bind. rewrite E1. by rewrite E.
Qed.

(** A continuation of version 3 that only computes. *)
Lemma sim_map_r {A B B'} (Q : A -> B -> S -> Prop) (Q' : A -> B' -> S -> Prop)
  (m : V1 S A) (p : prog B) (f : B -> prog B') s :
  sim Q m p s ->
  (forall a b s', Q a b s' -> exists b', f b = mret b' /\ Q' a b' s') ->
  sim Q' m (p ≫= f) s.
Proof.
  intros Hm Hf out1 out2 Ho.
  destruct (Hm out1 out2 Ho) as (a & b & s' & o1 & o2 & E1 & E2 & HQ & Ho').
  destruct (Hf a b s' HQ) as (b' & Ef & HQ').
  exists a, b', s', o1, o2. rewrite run_bind, E2, Ef. done.
Qed.

(** What is known of version 3 alone. *)
Definition serves {B} (p : prog B) (P : B -> S -> Prop) (s : S) : Prop :=
  forall out, wp p (fun b w => P b (cl_server w)) (in_session ses env s out).

Lemma sim_knowing {A B} (Q : A -> B -> S -> Prop) (P : B -> S -> Prop) (m : V1 S A)
  (p : prog B) s :
  sim Q m p s -> serves p P s -> sim (fun a b s' => Q a b s' /\ P b s') m p s.
Proof.
  intros Hm Hp out1 out2 Ho.
  destruct (Hm out1 out2 Ho) as (a & b & s' & o1 & o2 & E1 & E2 & HQ & Ho').
  exists a, b, s', o1, o2. specialize (Hp out2). unfold wp in Hp. rewrite E2 in Hp. done.
Qed.

(** ** The functions of both versions *)

(** The line version 1 prints when the entry to insert exists. *)
Definition exists_line (d : DiagDetail) : string :=
  ovsp4rt_log_message OVSP4RT_LEVEL_ERROR
    ("Error adding to " +:+ getLogTableName d +:+ ": entry already exists").

Lemma sim_fdb_tunnel l p ins s :
  sim same_result (V1.WriteFdbTunnelTableEntry ES2K_TARGET ses l p ins)
    (Es2kFdb.WriteFdbTunnelTableEntry l p ins) s.
Proof.
  refine (sim_write_mac_loose
    (fun te =>
       if tunnel_type (tnl_info l) =? tunnel_type_value OVS_TUNNEL_VXLAN then
         V1Encoders.EncodeFdbTableEntryforV4VxlanTunnel ES2K_TARGET te l p ins default_DiagDetail
       else if tunnel_type (tnl_info l) =? tunnel_type_value OVS_TUNNEL_GENEVE then
         V1Encoders.EncodeFdbTableEntryforV4GeneveTunnel te l p ins default_DiagDetail
       else if negb ins then
         V1Encoders.EncodeFdbTableEntryforV4VxlanTunnel ES2K_TARGET te l p ins default_DiagDetail
       else (te, default_DiagDetail))
    (fun te => PrepareFdbTunnelTableEntry te l p ins default_DiagDetail) _ (mac_addr l) s _).
  intros te. unfold PrepareFdbTunnelTableEntry.
  destruct (_ =? _); [done|]. destruct (_ =? _); [done|]. by destruct ins.
Qed.

Lemma sim_read_vlan l p adding s :
  sim same_result (V1.ReadFdbVlanTableEntry ES2K_TARGET ses l p adding)
    (Es2kFdb.ReadFdbVlanTableEntry l p adding) s.
Proof.
  refine (sim_read_log
    (fun te => Es2kEncoders.EncodeFdbTxVlanTableEntry te l p false default_DiagDetail)
    (fun r _ => if is_ok r && adding then
       say [ovsp4rt_log_message OVSP4RT_LEVEL_ERROR
              (printf_undefined "Error adding to %: entry already exists")] else mret ()) s _).
  intros r d out s0. destruct (_ && _); by eexists.
Qed.

(** Version 1 refuses an unsupported tunnel type without a request. *)
Lemma sim_read_tunnel l p adding s :
  supported_tunnel l ->
  sim same_result (V1.ReadFdbTunnelTableEntry ES2K_TARGET ses l p adding)
    (Es2kFdb.ReadFdbTunnelTableEntry l p adding) s.
Proof.
  intros Hs. unfold V1.ReadFdbTunnelTableEntry, Es2kFdb.ReadFdbTunnelTableEntry,
    PrepareFdbTableV4TunnelEntry.
  destruct Hs as [-> | ->]; cbv [Z.eqb Pos.eqb tunnel_type_value].
  - refine (sim_read_log
      (fun te => Es2kEncoders.EncodeFdbTableEntryforV4VxlanTunnel te l p false default_DiagDetail)
      (fun r d => if is_ok r && adding then say [exists_line d] else mret ()) s _).
    intros r d out s0. destruct (_ && _); by eexists.
  - refine (sim_read_log
      (fun te => Es2kEncoders.EncodeFdbTableEntryforV4GeneveTunnel te l p false default_DiagDetail)
      (fun r d => if is_ok r && adding then say [exists_line d] else mret ()) s _).
    intros r d out s0. destruct (_ && _); by eexists.
Qed.

Lemma sim_update_tunnel_info l p ins s :
  sim same_result (update_tunnel_info ses l p ins)
    (if negb ins then UpdateFdbTunnelInfo l p else mret l) s.
Proof.
  unfold update_tunnel_info, UpdateFdbTunnelInfo. destruct ins; [by apply sim_ret|].
  eapply sim_bind; [apply sim_read_v4|]. intros r b s1 Hr.
  unfold same_result in Hr. subst b. cbv zeta. set (l1 := if is_ok r then _ else l). destruct (negb (is_tunnel l1)); [|by apply sim_ret].
  eapply sim_bind; [apply sim_read_v6|]. intros r6 ? s2 <-. by apply sim_ret.
Qed.

Lemma sim_tunnel_mac l p ins s :
  supported_tunnel l \/ ins = false ->
  sim any_result (config_fdb_tunnel ses l p ins) (ConfigFdbTunnelEntry l ins p) s.
Proof.
  assert (Hw : forall s', sim any_result
    (V1.WriteFdbTunnelTableEntry ES2K_TARGET ses l p ins;;
     V1.WriteL2TunnelTableEntry ses l p ins;; V1.WriteFdbSmacTableEntry ses l p ins;; mret ())
    (Es2kFdb.WriteFdbTunnelTableEntry l p ins;; Es2kFdb.WriteL2TunnelTableEntry l p ins;;
     Es2kFdb.WriteFdbSmacTableEntry l p ins;; mret OkStatus) s').
  { intros. apply sim_then; [apply sim_any, sim_fdb_tunnel|]. intros.
    apply sim_then; [apply sim_any, sim_l2_tunnel|]. intros.
    apply sim_then; [apply sim_any, sim_smac|]. intros. by apply sim_ret. }
  intros Hs. unfold config_fdb_tunnel, ConfigFdbTunnelEntry. destruct ins; [|apply Hw].
  destruct Hs as [Hs|]; [|done].
  eapply sim_bind; [by apply sim_read_tunnel|]. intros r ? s1 <-.
  destruct (is_ok r); [by apply sim_ret|apply Hw].
Qed.

(** The writes that end the configuration of a VLAN MAC only use the low byte
    of the port. *)
Lemma sim_vlan_writes l p ins h1 h2 s :
  h1 mod 256 = h2 mod 256 ->
  sim any_result
    (V1.WriteFdbTxVlanTableEntry ES2K_TARGET ses (set_src_port h1 l) p ins;;
     V1.WriteFdbSmacTableEntry ses (set_src_port h1 l) p ins;; mret ())
    (Es2kFdb.WriteFdbTxVlanTableEntry (set_src_port h2 l) p ins;;
     Es2kFdb.WriteFdbSmacTableEntry (set_src_port h2 l) p ins;; mret OkStatus) s.
Proof.
  intros Hh. apply sim_then; [|intros s1; apply sim_then].
  - apply sim_any. refine (sim_write_mac_loose
      (fun te => Es2kEncoders.EncodeFdbTxVlanTableEntry te (set_src_port h1 l) p ins
         default_DiagDetail)
      (fun te => Es2kEncoders.EncodeFdbTxVlanTableEntry te (set_src_port h2 l) p ins
         default_DiagDetail) _ (mac_addr l) s _).
    intros te. unfold Es2kEncoders.EncodeFdbTxVlanTableEntry. cbn [fst src_port set_src_port].
    assert (E : EncodeByteValue 1 [h1] = EncodeByteValue 1 [h2]).
    { cbn. unfold w8. by rewrite Hh. }
    by destruct ins; rewrite ?E.
  - apply sim_any. exact (sim_smac ses env false (set_src_port h2 l) p ins s1).
  - intros s2. by apply sim_ret.
Qed.
End Loose.

(** ** Against the switch *)

Section Lookup.
Context {S : Type} `{P4RuntimeServer S} `{Platform}.
Variables (ses : OvsP4rtSession) (env : Env).
Abbreviation sim := (sim_at ses env false).
Implicit Types s : S.

Definition primary s : Prop := srv_primary (device_id_ ses) (election_id_ ses) s.

Definition ses_id : session_id := (device_id_ ses, Some (election_id_ ses)).

Lemma in_session_ready s out : primary s -> sc_ready ses_id (in_session ses env s out).
Proof. intros Hp. by exists ses. Qed.

Lemma ready_primary (w : ClientState S) : sc_ready ses_id w -> primary (cl_server w).
Proof. intros (ses' & _ & [= Hd He] & Hp). unfold primary. by rewrite Hd, He. Qed.

(** A read of version 3 keeps the session and the tables. *)
Lemma sim_reading {A B} (Q : A -> B -> S -> Prop) (P : tables -> B -> Prop) (m : V1 S A)
  (p : prog B) s :
  primary s -> sim Q m p s ->
  (forall w : ClientState S, sc_ready ses_id w ->
     wp p (fun b w' => same ses_id w w' /\ P (sc_tables w) b) w) ->
  sim (fun a b s' => Q a b s' /\ primary s' /\ srv_tables s' = srv_tables s /\
         P (srv_tables s) b) m p s.
Proof.
  intros Hp Hm Hw. eapply sim_mono; [|eapply (sim_knowing ses env Q
    (fun b s' => primary s' /\ srv_tables s' = srv_tables s /\ P (srv_tables s) b)); [exact Hm|]].
  - by intros a b s' [HQ HP].
  - intros out. eapply wp_mono; [by apply Hw, in_session_ready|].
    intros b w' [[Hr HT] HP]. split_and!; [by apply ready_primary|exact HT|exact HP].
Qed.

(** So does a write of one entry. *)
Lemma sim_writing ins te (m : V1 S Status) (p : prog Status) s :
  primary s -> sim same_result m p s ->
  (forall w : ClientState S, sc_ready ses_id w -> wp p (wrote ses_id ins te w) w) ->
  sim (fun a b s' => a = b /\ primary s' /\
         srv_tables s' = (switch_write srv_accepts ins te (srv_tables s)).2) m p s.
Proof.
  intros Hp Hm Hw. eapply sim_mono; [|eapply (sim_knowing ses env same_result
    (fun b s' => primary s' /\
       srv_tables s' = (switch_write srv_accepts ins te (srv_tables s)).2)); [exact Hm|]].
  - by intros a b s' [HQ HP].
  - intros out. eapply wp_mono; [by apply Hw, in_session_ready|].
    intros b w' [Hr HT]. split; [by apply ready_primary|]. exact (f_equal snd HT).
Qed.

(** The port parameter of the entry of a VSI, when there is one, has the four
    bytes the loop of version 1 reads. *)
Definition port_bytes (p4info : P4Info) (e : TableEntry) : option bytes :=
  find_param (port_param_id p4info) (a_params (te_action_or_default e)).

Definition port_ok (good : bytes -> Prop) (p4info : P4Info) (sp : Z) (T : tables) : Prop :=
  forall e, T !! te_key (tx_acc_vsi_entry p4info sp) = Some e ->
  exists a b c d, port_bytes p4info e = Some [a; b; c; d] /\ Forall is_byte [a; b; c; d] /\
    good [a; b; c; d].

(** Version 1 decodes with [h = shift_in_bytes 0], version 3 with
    [decode_port_value]; both find the same parameter. *)
Lemma sim_port_lookup (R : Z -> Z -> Prop) sp s :
  wf_P4Info srv_p4info -> primary s ->
  port_ok (fun v => R (shift_in_bytes 0 v) (decode_port_value v)) srv_p4info sp (srv_tables s) ->
  sim (fun a b s' =>
      match a with
      | StatusError _ => is_ok b = false
      | StatusValue r => exists h2, b = StatusValue h2 /\
          R (host_sp_of (port_param_id srv_p4info) r) h2
      end)
    (V1.ReadTxAccVsiTableEntry ses sp srv_p4info) (GetTxAccVsiPort srv_p4info sp) s.
Proof.
  intros Hwf Hp Hport. unfold GetTxAccVsiPort. eapply sim_map_r.
  { apply (sim_reading _ (fun T r =>
      match T !! te_key (tx_acc_vsi_entry srv_p4info sp) with
      | Some e => r = StatusValue (MkReadResponse [ENTITY_TABLE_ENTRY e])
      | None => is_ok r = false
      end) _ _ _ Hp
      (sim_read_entry ses env false (fun te => EncodeTxAccVsiTableEntry te sp srv_p4info) s)).
    intros w Hr. apply (wp_read_entry ses_id (fun te => EncodeTxAccVsiTableEntry te sp srv_p4info));
      [done|]. by apply tx_acc_vsi_reads_one. }
  intros a b s' [[<- _] (_ & _ & Hm)].
  unfold port_ok in Hport.
  destruct (srv_tables s !! _) as [e|].
  - subst a. destruct (Hport e eq_refl) as (x0 & x1 & x2 & x3 & Hf & _ & HR).
    unfold port_bytes, port_param_id in Hf. cbn [rsp_entities find_port_entity].
    rewrite find_port_param_find. cbn [entity_table_entry]. rewrite Hf.
    eexists. split; [reflexivity|]. eexists. split; [reflexivity|].
    unfold host_sp_of. cbn [rsp_entities fold_left entity_table_entry].
    unfold port_param_id. rewrite host_sp_params_find, Hf. exact HR.
  - destruct a; [done|]. eexists. split; [reflexivity|]. done.
Qed.

(** What the opening of the session leaves. *)
Lemma session_primary addr cred d r e s s1 p4info s2 :
  Create_address env addr cred d r e s = (StatusValue ses, s1) ->
  GetForwardingPipelineConfig ses s1 = ((OkStatus, p4info), s2) ->
  p4info = srv_p4info /\ srv_tables s2 = srv_tables s /\ primary s2.
Proof.
  unfold Create_address. intros Hc Hg.
  pose proof (Create_keeps_tables env d r (w128 (e + env_pthread_self env))
    (stub_StreamChannel cred addr s)) as HT. rewrite Hc in HT. simpl in HT.
  rewrite srv_channel in HT. apply Create_primary in Hc as [<- Hp].
  destruct (srv_pipeline _ _ _ Hp) as (Hi & Hp' & HT').
  unfold GetForwardingPipelineConfig, DeviceId in Hg.
  destruct (stub_GetForwardingPipelineConfig _ _) as [[st i] s']. simpl in *.
  injection Hg as <- <-. split_and!; [done|congruence|done].
Qed.

(** The receive-side entry is not an entry of the table of VSIs. *)
Definition separate_tables (p4info : P4Info) : Prop :=
  GetTableId p4info L2_FWD_RX_TABLE <> GetTableId p4info TX_ACC_VSI_TABLE /\
  0 <= GetTableId p4info L2_FWD_RX_TABLE < 4294967296 /\
  0 <= GetTableId p4info TX_ACC_VSI_TABLE < 4294967296.

Lemma vsi_key_not_rx p4info sp l ins :
  separate_tables p4info ->
  te_key (tx_acc_vsi_entry p4info sp) <> te_key (fdb_vlan_rx l p4info ins).
Proof.
  intros (Hne & Hrx & Hvsi) Hk. apply Hne. apply (f_equal (fun k => k.1.1)) in Hk.
  destruct ins; cbn in Hk; by rewrite !w32_id in Hk.
Qed.

Lemma sim_vlan_mac l ins s :
  (ins = true -> wf_P4Info srv_p4info /\ separate_tables srv_p4info /\ primary s /\
     port_ok (fun _ => True) srv_p4info (src_port l) (srv_tables s)) ->
  sim any_result (config_fdb_vlan ses l srv_p4info ins) (ConfigFdbVlanEntry l ins srv_p4info) s.
Proof.
  intros Hi. unfold config_fdb_vlan, ConfigFdbVlanEntry. destruct ins.
  2: { exact (sim_vlan_writes ses env l srv_p4info false (src_port l) (src_port l) s eq_refl). }
  destruct (Hi eq_refl) as (Hwf & Hsep & Hp & Hport).
  eapply sim_bind; [apply (sim_reading same_result (fun _ _ => True) _ _ _ Hp)|].
  { apply sim_read_vlan. }
  { intros w Hr. eapply wp_mono; [by apply (wp_ReadVlan ses_id)|]. by intros ?? [? _]. }
  intros r ? s1 [<- (Hp1 & HT1 & _)]. destruct (is_ok r); [by apply sim_ret|].
  eapply sim_bind; [apply (sim_writing true (fdb_vlan_rx l srv_p4info true) _ _ _ Hp1)|].
  { apply sim_rx_vlan. }
  { intros. by apply wp_WriteFdbRxVlan. }
  intros st st' s2 (_ & Hp2 & HT2).
  apply (sim_bind _ _ _ (fun a b _ =>
    match a with
    | StatusError _ => ok b.1 = false
    | StatusValue r => exists h2, b = (OkStatus, set_src_port h2 l) /\
        host_sp_of (port_param_id srv_p4info) r mod 256 = h2 mod 256
    end)).
  { eapply sim_map_r; [apply (sim_port_lookup (fun h1 h2 => h1 mod 256 = h2 mod 256)); [done..|]|].
    - intros e He. rewrite HT2, HT1, switch_write_other in He by by apply vsi_key_not_rx.
      destruct (Hport e He) as (x0 & x1 & x2 & x3 & Hf & Hb & _).
      exists x0, x1, x2, x3. split_and!; [done..|]. by apply shift_in_bytes_low.
    - intros a b s3 Hab. exists (match b with
        | StatusError e => (ErrStatus e, l)
        | StatusValue h => (OkStatus, set_src_port h l) end).
      split; [by destruct b|]. destruct a; [|by destruct b].
      destruct Hab as (h2 & -> & Hh). by exists h2. }
  intros a b s3 Hab. destruct a as [rr|e].
  - destruct Hab as (h2 & -> & Hh). by apply sim_vlan_writes.
  - destruct b as [st2 l2]. simpl in Hab. rewrite Hab. by apply sim_ret.
Qed.
End Lookup.

(** ** The API functions *)

Section Api.
Context {S : Type} `{P4RuntimeServer S} `{Platform}.

Lemma port_ok_mono (P Q : bytes -> Prop) p4info sp T :
  (forall a b c d, Forall is_byte [a; b; c; d] -> P [a; b; c; d] -> Q [a; b; c; d]) ->
  port_ok P p4info sp T -> port_ok Q p4info sp T.
Proof.
  intros HPQ Hport e He. destruct (Hport e He) as (a & b & c & d & Hf & Hb & HP).
  exists a, b, c, d. auto.
Qed.

(** C6 v1_fdb_agrees: the default implementation of the FDB function leads a
    P4Runtime server to the same state as version 3, whatever learning event it
    is given, except perhaps when it inserts a tunnel of an unsupported type;
    for the insertion of a VLAN MAC the port parameter of the VSI is taken to
    be there and to have four bytes. *)
Theorem v1_fdb_agrees (env : Env) (s : S) (ins : bool) (addr : string) l :
  (ins = true -> is_tunnel l = true -> supported_tunnel l) ->
  (ins = true -> is_tunnel l = false ->
     wf_P4Info srv_p4info /\ separate_tables srv_p4info /\
     port_ok (fun _ => True) srv_p4info (src_port l) (srv_tables s)) ->
  v1_server (v1_call (V1.ovsp4rt_config_fdb_entry ES2K_TARGET l ins addr env) s) =
  cl_server (Es2kApi.ovsp4rt_config_fdb_entry l ins addr env s).
Proof.
  intros Ht Hv. unfold Es2kApi.ovsp4rt_config_fdb_entry. cbv zeta. rewrite drop_result.
  refine (proj1 (sim_api false env addr _ (fun p4info => Es2kFdb.ConfigFdbEntry l p4info ins) s _)).
  intros ses s1 p4info s2 Hc Hg.
  destruct (session_primary ses env _ _ _ _ _ _ _ _ _ Hc Hg) as (-> & HT & Hp).
  unfold Es2kFdb.ConfigFdbEntry. destruct ins; cbn [negb].
  - apply (sim_bind _ _ _ (fun l1 l2 s3 => l1 = l /\ l2 = l /\ s3 = s2)); [by apply sim_ret|].
    intros ? ? s3 (-> & -> & ->). destruct (is_tunnel l) eqn:Hl.
    + apply sim_tunnel_mac. left. by apply Ht.
    + apply sim_vlan_mac. intros _. destruct (Hv eq_refl eq_refl) as (Hwf & Hsep & Hport).
      rewrite HT. done.
  - eapply sim_bind; [exact (sim_update_tunnel_info ses env l srv_p4info false s2)|].
    intros l1 l2 s3 Hl. unfold same_result in Hl. subst l2. destruct (is_tunnel l1).
    + apply sim_tunnel_mac. by right.
    + by apply sim_vlan_mac.
Qed.

(** v1_src_port_agrees: the default implementation of the VSI source port
    function leads a P4Runtime server to the same state as version 3, when the
    port parameter of the VSI has four bytes and [char] is unsigned or the last
    of them is an ASCII character. *)
Theorem v1_src_port_agrees (env : Env) (s : S) (ins : bool) (addr : string) sp :
  wf_P4Info srv_p4info ->
  port_ok (fun v => char_is_signed && (128 <=? v !!! 3%nat) = false)
    srv_p4info (sp_src_port sp) (srv_tables s) ->
  v1_server (v1_call (V1.ovsp4rt_config_src_port_entry ES2K_TARGET sp ins addr env) s) =
  cl_server (Es2kApi.ovsp4rt_config_src_port_entry sp ins addr env s).
Proof.
  intros Hwf Hport. unfold Es2kApi.ovsp4rt_config_src_port_entry. cbv zeta. rewrite drop_result.
  refine (proj1 (sim_api false env addr _ (fun p4info => ConfigSrcPortEntry sp p4info ins) s _)).
  intros ses s1 p4info s2 Hc Hg.
  destruct (session_primary ses env _ _ _ _ _ _ _ _ _ Hc Hg) as (-> & HT & Hp).
  eapply sim_bind.
  { apply (sim_port_lookup ses env (fun h1 h2 => h1 mod 65536 = h2 mod 65536)); [done..|].
    rewrite HT. eapply port_ok_mono, Hport. intros a b c d Hb Hd. cbv beta in Hd.
    rewrite shift_in_bytes_16 by done. change ([a; b; c; d] !!! 3%nat) with d in Hd.
    by rewrite Hd. }
  intros a b s3 Hab. cbv beta in Hab. destruct a as [r|e].
  - destruct Hab as (h2 & -> & Hh). fold (port_param_id srv_p4info).
    set (h1 := host_sp_of _ r) in *.
    apply sim_last. refine (sim_write_plain_loose ses env
      (fun te => Es2kEncoders.EncodeSrcPortTableEntry te (set_sp_src_port h1 sp) srv_p4info ins)
      (fun te => Es2kEncoders.EncodeSrcPortTableEntry te (set_sp_src_port h2 sp) srv_p4info ins)
      _ s3 _).
    intros te. unfold Es2kEncoders.EncodeSrcPortTableEntry.
    cbn [sp_src_port sp_vlan_id sp_bridge_id set_sp_src_port].
    by rewrite (EncodeByteValue_16_eq h1 h2 Hh).
  - destruct b; [done|]. by apply sim_ret.
Qed.
End Api.

(** v1_port_decoding: what the loop of the default implementation makes of a
    four-byte port. The low byte is always right; the low 16 bits are, unless
    [char] is signed and the last byte is above 127, when they come out as
    0xFF00 plus that byte; all 32 are those version 3 decodes when no byte is
    taken for a negative number. When the entry lacks the parameter, version 1
    goes on with port 0 where version 3 reports an error. *)
Theorem v1_port_decoding `{Platform} a b c d param_id e :
  Forall is_byte [a; b; c; d] ->
  (find_param param_id (a_params (te_action_or_default e)) = Some [a; b; c; d] ->
   let v1 := host_sp_of param_id (MkReadResponse [ENTITY_TABLE_ENTRY e]) in
   let value := be_val [a; b; c; d] in
   find_port_entity param_id [ENTITY_TABLE_ENTRY e] = Some value /\
   v1 mod 2 ^ 8 = value mod 2 ^ 8 /\
   v1 mod 2 ^ 16 = (if char_is_signed && (128 <=? d) then 65280 + d else value mod 2 ^ 16) /\
   (forallb (fun x => negb (char_is_signed && (128 <=? x))) [a; b; c; d] = true ->
    v1 = value)) /\
  (find_param param_id (a_params (te_action_or_default e)) = None ->
   host_sp_of param_id (MkReadResponse [ENTITY_TABLE_ENTRY e]) = 0 /\
   find_port_entity param_id [ENTITY_TABLE_ENTRY e] = None).
Proof.
  intros Hb. unfold host_sp_of. cbn [rsp_entities fold_left find_port_entity entity_table_entry].
  change (2 ^ 8) with 256. change (2 ^ 16) with 65536.
  rewrite host_sp_params_find, find_port_param_find. split; intros ->; [|done].
  assert (E : decode_port_value [a; b; c; d] = be_val [a; b; c; d]).
  { rewrite decode_port_value_be by done. pose proof (be_val_bound [a; b; c; d] Hb) as Hr.
    apply Z.mod_small. cbn [length] in Hr. exact Hr. }
  cbn [fmap option_fmap option_map]. cbv zeta. rewrite <- E. split_and!; [done|..].
  - by apply shift_in_bytes_low.
  - by apply shift_in_bytes_16.
  - intros Hn. by apply shift_in_bytes_exact.
Qed.

(** ** Witnesses *)

(** A platform where [char] is signed. *)
#[local] Instance x86 : Platform := {|
  char_is_signed := true;
  char_past_end := fun _ _ => 0;
  printf_undefined := fun fmt => fmt;
|}.

Definition sample_env : Env := default_Env 1700000000 42 None.

Abbreviation sample_server := (RefServer es2k_p4info (fun _ => true)).

Definition server_with (T : tables) : sample_server := MkRefServer T None None.

Lemma sample_port_ok (P : bytes -> Prop) sp :
  P [0; 0; 19; 55] -> sp = 23 -> port_ok P es2k_p4info sp sample_vsi_tables.
Proof.
  intros HP -> e He. vm_compute in He. injection He as <-.
  exists 0, 0, 19, 55. split; [vm_compute; reflexivity|]. split; [|done].
  repeat constructor; unfold is_byte; lia.
Qed.

Lemma es2k_separate : separate_tables es2k_p4info.
Proof. split; [vm_compute; discriminate|]. vm_compute. repeat split; discriminate. Qed.

Lemma v1_fdb_agrees_witness :
  v1_server (v1_call
    (V1.ovsp4rt_config_fdb_entry ES2K_TARGET sample_vlan_learn true sample_addr sample_env)
    (server_with sample_vsi_tables)) =
  cl_server (Es2kApi.ovsp4rt_config_fdb_entry sample_vlan_learn true sample_addr sample_env
    (server_with sample_vsi_tables)).
Proof.
  apply v1_fdb_agrees.
  - intros _ Ht. discriminate.
  - intros _ _. split; [exact wf_es2k_p4info|]. split; [exact es2k_separate|].
    apply sample_port_ok; reflexivity.
Defined.

Lemma v1_src_port_agrees_witness :
  v1_server (v1_call
    (V1.ovsp4rt_config_src_port_entry ES2K_TARGET sample_src_port true sample_addr sample_env)
    (server_with sample_vsi_tables)) =
  cl_server (Es2kApi.ovsp4rt_config_src_port_entry sample_src_port true sample_addr sample_env
    (server_with sample_vsi_tables)).
Proof.
  apply v1_src_port_agrees; [exact wf_es2k_p4info|]. apply sample_port_ok; reflexivity.
Defined.

(** Port 200 of a VSI: version 3 reads 200, version 1 reads 0xFFC8 below. *)
Definition vsi_200_entry : TableEntry :=
  mutable_action (fun a => add_param (port_param_id es2k_p4info) [0; 0; 0; 200] a)
    (tx_acc_vsi_entry es2k_p4info 23).

Lemma v1_port_decoding_witness :
  host_sp_of (port_param_id es2k_p4info) (MkReadResponse [ENTITY_TABLE_ENTRY vsi_200_entry])
    mod 2 ^ 16 = 65480.
Proof.
  destruct (v1_port_decoding 0 0 0 200 (port_param_id es2k_p4info) vsi_200_entry) as [Hp _].
  { repeat constructor; unfold is_byte; lia. }
  destruct Hp as (_ & _ & Hl & _); [vm_compute; reflexivity|]. exact Hl.
Defined.
