(* ===== verification/V2.v ===== *)
(** * Version 2 ([core/v2/])

    The intermediate implementation: the encoders are in one file for both
    targets, as in version 1, and the operations are those of version 3, in one
    file for both targets. A function that is compiled for both targets takes
    the target first. Most functions have, word for word, the text of the
    function of the same name of version 1 (the encoders) or version 3 (the
    operations for ES2K only); those are not translated again but named here.
    What is translated is what [#if] shares between the targets, and what calls
    it. *)

From S2P Require Import Prelude P4Runtime OvsP4rt EncodeUtils P4InfoUtils Logging.
From S2P Require Import DpdkNames Es2kNames Target DpdkEncoders Es2kEncoders V1Encoders.
From S2P Require Import Client Session V1 ClientImpl Switch Server TxAccVsi Es2kFdb.
From S2P Require Import Es2kTunnel Es2kIpMacMap Es2kPorts Dpdk.

(** ** ovsp4rt_encoders.cc *)

(** *** The encoders with the text of version 1 *)

Definition EncodeFdbSmacTableEntry := V1Encoders.EncodeFdbSmacTableEntry.
Definition EncodeFdbRxVlanTableEntry := V1Encoders.EncodeFdbRxVlanTableEntry.
Definition EncodeL2ToTunnelV4 := V1Encoders.EncodeL2ToTunnelV4.
Definition EncodeL2ToTunnelV6 := V1Encoders.EncodeL2ToTunnelV6.
Definition EncodeVxlanEncapTableEntry := V1Encoders.EncodeVxlanEncapTableEntry.
Definition EncodeGeneveEncapTableEntry := V1Encoders.EncodeGeneveEncapTableEntry.
Definition EncodeV6VxlanEncapTableEntry := V1Encoders.EncodeV6VxlanEncapTableEntry.
Definition EncodeV6GeneveEncapTableEntry := V1Encoders.EncodeV6GeneveEncapTableEntry.
Definition EncodeVxlanEncapAndVlanPopTableEntry := V1Encoders.EncodeVxlanEncapAndVlanPopTableEntry.
Definition EncodeGeneveEncapAndVlanPopTableEntry := V1Encoders.EncodeGeneveEncapAndVlanPopTableEntry.
Definition EncodeV6VxlanEncapAndVlanPopTableEntry := V1Encoders.EncodeV6VxlanEncapAndVlanPopTableEntry.
Definition EncodeV6GeneveEncapAndVlanPopTableEntry := V1Encoders.EncodeV6GeneveEncapAndVlanPopTableEntry.
Definition EncodeRxTunnelTableEntry := V1Encoders.EncodeRxTunnelTableEntry.
Definition EncodeV6RxTunnelTableEntry := V1Encoders.EncodeV6RxTunnelTableEntry.
Definition EncodeTunnelTermTableEntry := V1Encoders.EncodeTunnelTermTableEntry.
Definition EncodeV6TunnelTermTableEntry := V1Encoders.EncodeV6TunnelTermTableEntry.
Definition EncodeVxlanDecapModTableEntry := V1Encoders.EncodeVxlanDecapModTableEntry.
Definition EncodeGeneveDecapModTableEntry := V1Encoders.EncodeGeneveDecapModTableEntry.
Definition EncodeVxlanDecapModAndVlanPushTableEntry := V1Encoders.EncodeVxlanDecapModAndVlanPushTableEntry.
Definition EncodeGeneveDecapModAndVlanPushTableEntry := V1Encoders.EncodeGeneveDecapModAndVlanPushTableEntry.
Definition EncodeVlanPushTableEntry := V1Encoders.EncodeVlanPushTableEntry.
Definition EncodeVlanPopTableEntry := V1Encoders.EncodeVlanPopTableEntry.
Definition EncodeSrcIpMacMapTableEntry := V1Encoders.EncodeSrcIpMacMapTableEntry.
Definition EncodeDstIpMacMapTableEntry := V1Encoders.EncodeDstIpMacMapTableEntry.
Definition EncodeSrcPortTableEntry := V1Encoders.EncodeSrcPortTableEntry.
Definition EncodeTxAccVsiTableEntry := V1Encoders.EncodeTxAccVsiTableEntry.

(** *** The encoders of the L2 forwarding table *)

Definition EncodeL2FwdTxTablePrologue (tgt : target) (table_entry : TableEntry)
  (learn_info : mac_learning_info) (p4info : P4Info) : TableEntry :=
  let table_entry := set_table_id (GetTableId p4info (t_L2_FWD_TX_TABLE tgt)) table_entry in
  let table_entry :=
    add_match_exact
      (GetMatchFieldId p4info (t_L2_FWD_TX_TABLE tgt) (t_L2_FWD_TX_TABLE_KEY_DST_MAC tgt))
      (CanonicalizeMac (mac_addr learn_info)) table_entry in
  match tgt with
  | ES2K_TARGET =>
      add_match_exact
        (GetMatchFieldId p4info L2_FWD_TX_TABLE L2_FWD_TX_TABLE_KEY_BRIDGE_ID)
        (EncodeByteValue 1 [bridge_id learn_info]) table_entry
  | DPDK_TARGET => table_entry
  end.

Definition EncodeFdbTxVlanTableEntry (tgt : target) (table_entry : TableEntry)
  (learn_info : mac_learning_info) (p4info : P4Info) (insert_entry : bool)
  (detail : DiagDetail) : TableEntry * DiagDetail :=
  let detail := MkDiagDetail LOG_L2_FWD_TX_TABLE in
  let table_entry := EncodeL2FwdTxTablePrologue tgt table_entry learn_info p4info in
  let table_entry :=
    match tgt with
    | ES2K_TARGET =>
        if insert_entry then
          mutable_action (fun action =>
            if decide (port_vlan_mode (vlan_mode_info learn_info) =
                         P4_PORT_VLAN_NATIVE_UNTAGGED)
            then
              let action :=
                set_action_id (GetActionId p4info L2_FWD_TX_TABLE_ACTION_REMOVE_VLAN_AND_FWD)
                  action in
              let action :=
                let port_id := src_port learn_info in
                add_param
                  (GetParamId p4info L2_FWD_TX_TABLE_ACTION_REMOVE_VLAN_AND_FWD
                     ACTION_REMOVE_VLAN_AND_FWD_PARAM_PORT_ID)
                  (EncodeByteValue 1 [port_id]) action in
              add_param
                (GetParamId p4info L2_FWD_TX_TABLE_ACTION_REMOVE_VLAN_AND_FWD
                   ACTION_REMOVE_VLAN_AND_FWD_PARAM_VLAN_PTR)
                (EncodeByteValue 1 [port_vlan (vlan_mode_info learn_info)]) action
            else
              let action :=
                set_action_id (GetActionId p4info L2_FWD_TX_TABLE_ACTION_L2_FWD) action in
              let port_id := src_port learn_info in
              add_param
                (GetParamId p4info L2_FWD_TX_TABLE_ACTION_L2_FWD ACTION_L2_FWD_PARAM_PORT)
                (EncodeByteValue 1 [port_id]) action) table_entry
        else table_entry
    | DPDK_TARGET =>
        if insert_entry then
          mutable_action (fun action =>
            let action :=
              set_action_id (GetActionId p4info DpdkNames.L2_FWD_TX_TABLE_ACTION_L2_FWD)
                action in
            let port_id := w32 (vlan_id (vln_info learn_info) - 1) in
            add_param
              (GetParamId p4info DpdkNames.L2_FWD_TX_TABLE_ACTION_L2_FWD
                 DpdkNames.ACTION_L2_FWD_PARAM_PORT)
              (EncodeByteValue 1 [port_id]) action) table_entry
        else table_entry
    end in
  (table_entry, detail).

Definition EncodeFdbTableEntryforV4VxlanTunnel (tgt : target) (table_entry : TableEntry)
  (learn_info : mac_learning_info) (p4info : P4Info) (insert_entry : bool)
  (detail : DiagDetail) : TableEntry * DiagDetail :=
  let detail := MkDiagDetail LOG_L2_FWD_TX_TABLE in
  let table_entry := EncodeL2FwdTxTablePrologue tgt table_entry learn_info p4info in
  let table_entry :=
    match tgt with
    | DPDK_TARGET =>
        if insert_entry then
          mutable_action (fun action =>
            let action :=
              set_action_id (GetActionId p4info DpdkNames.L2_FWD_TX_TABLE_ACTION_SET_TUNNEL)
                action in
            let action :=
              add_param
                (GetParamId p4info DpdkNames.L2_FWD_TX_TABLE_ACTION_SET_TUNNEL
                   DpdkNames.ACTION_SET_TUNNEL_PARAM_TUNNEL_ID)
                (EncodeByteValue 1 [vni (tnl_info learn_info)]) action in
            add_param
              (GetParamId p4info DpdkNames.L2_FWD_TX_TABLE_ACTION_SET_TUNNEL
                 DpdkNames.ACTION_SET_TUNNEL_PARAM_DST_ADDR)
              (CanonicalizeIp (s_addr (remote_ip (tnl_info learn_info)))) action) table_entry
        else table_entry
    | ES2K_TARGET =>
        if insert_entry then
          mutable_action (fun action =>
            if (family (local_ip (tnl_info learn_info)) =? AF_INET) &&
               (family (remote_ip (tnl_info learn_info)) =? AF_INET) then
              if decide (port_vlan_mode (vlan_mode_info learn_info) = P4_PORT_VLAN_NATIVE_UNTAGGED)
              then
                  let action :=
                    set_action_id (GetActionId p4info L2_FWD_TX_TABLE_ACTION_POP_VLAN_SET_VXLAN_UNDERLAY_V4)
                      action in
                  add_param
                    (GetParamId p4info L2_FWD_TX_TABLE_ACTION_POP_VLAN_SET_VXLAN_UNDERLAY_V4
                       ACTION_PARAM_TUNNEL_ID)
                    (EncodeTunnelId (vni (tnl_info learn_info))) action
              else
                  let action :=
                    set_action_id (GetActionId p4info L2_FWD_TX_TABLE_ACTION_SET_VXLAN_UNDERLAY_V4)
                      action in
                  add_param
                    (GetParamId p4info L2_FWD_TX_TABLE_ACTION_SET_VXLAN_UNDERLAY_V4
                       ACTION_PARAM_TUNNEL_ID)
                    (EncodeTunnelId (vni (tnl_info learn_info))) action
            else if (family (local_ip (tnl_info learn_info)) =? AF_INET6) &&
                    (family (remote_ip (tnl_info learn_info)) =? AF_INET6) then
              if decide (port_vlan_mode (vlan_mode_info learn_info) = P4_PORT_VLAN_NATIVE_UNTAGGED)
              then
                  let action :=
                    set_action_id (GetActionId p4info L2_FWD_TX_TABLE_ACTION_POP_VLAN_SET_VXLAN_UNDERLAY_V6)
                      action in
                  add_param
                    (GetParamId p4info L2_FWD_TX_TABLE_ACTION_POP_VLAN_SET_VXLAN_UNDERLAY_V6
                       ACTION_PARAM_TUNNEL_ID)
                    (EncodeTunnelId (vni (tnl_info learn_info))) action
              else
                  let action :=
                    set_action_id (GetActionId p4info L2_FWD_TX_TABLE_ACTION_SET_VXLAN_UNDERLAY_V6)
                      action in
                  add_param
                    (GetParamId p4info L2_FWD_TX_TABLE_ACTION_SET_VXLAN_UNDERLAY_V6
                       ACTION_PARAM_TUNNEL_ID)
                    (EncodeTunnelId (vni (tnl_info learn_info))) action
            else action) table_entry
        else table_entry
    end in
  (table_entry, detail).

Definition EncodeFdbTableEntryforV4GeneveTunnel (table_entry : TableEntry)
  (learn_info : mac_learning_info) (p4info : P4Info) (insert_entry : bool)
  (detail : DiagDetail) : TableEntry * DiagDetail :=
  let detail := MkDiagDetail LOG_L2_FWD_TX_TABLE in
  let table_entry := EncodeL2FwdTxTablePrologue ES2K_TARGET table_entry learn_info p4info in
  let table_entry :=
    if insert_entry then
      mutable_action (fun action =>
        if (family (local_ip (tnl_info learn_info)) =? AF_INET) &&
           (family (remote_ip (tnl_info learn_info)) =? AF_INET) then
          if decide (port_vlan_mode (vlan_mode_info learn_info) = P4_PORT_VLAN_NATIVE_UNTAGGED)
          then
              let action :=
                set_action_id (GetActionId p4info L2_FWD_TX_TABLE_ACTION_POP_VLAN_SET_GENEVE_UNDERLAY_V4)
                  action in
              add_param
                (GetParamId p4info L2_FWD_TX_TABLE_ACTION_POP_VLAN_SET_GENEVE_UNDERLAY_V4
                   ACTION_PARAM_TUNNEL_ID)
                (EncodeTunnelId (vni (tnl_info learn_info))) action
          else
              let action :=
                set_action_id (GetActionId p4info L2_FWD_TX_TABLE_ACTION_SET_GENEVE_UNDERLAY_V4)
                  action in
              add_param
                (GetParamId p4info L2_FWD_TX_TABLE_ACTION_SET_GENEVE_UNDERLAY_V4
                   ACTION_PARAM_TUNNEL_ID)
                (EncodeTunnelId (vni (tnl_info learn_info))) action
        else if (family (local_ip (tnl_info learn_info)) =? AF_INET6) &&
                (family (remote_ip (tnl_info learn_info)) =? AF_INET6) then
          if decide (port_vlan_mode (vlan_mode_info learn_info) = P4_PORT_VLAN_NATIVE_UNTAGGED)
          then
              let action :=
                set_action_id (GetActionId p4info L2_FWD_TX_TABLE_ACTION_POP_VLAN_SET_GENEVE_UNDERLAY_V6)
                  action in
              add_param
                (GetParamId p4info L2_FWD_TX_TABLE_ACTION_POP_VLAN_SET_GENEVE_UNDERLAY_V6
                   ACTION_PARAM_TUNNEL_ID)
                (EncodeTunnelId (vni (tnl_info learn_info))) action
          else
              let action :=
                set_action_id (GetActionId p4info L2_FWD_TX_TABLE_ACTION_SET_GENEVE_UNDERLAY_V6)
                  action in
              add_param
                (GetParamId p4info L2_FWD_TX_TABLE_ACTION_SET_GENEVE_UNDERLAY_V6
                   ACTION_PARAM_TUNNEL_ID)
                (EncodeTunnelId (vni (tnl_info learn_info))) action
        else action) table_entry
    else table_entry in
  (table_entry, detail).

(** ** ovsp4rt_v2.cc *)

(** *** The functions for ES2K with the text of version 3 *)

Definition WriteFdbSmacTableEntry := Es2kFdb.WriteFdbSmacTableEntry.
Definition PrepareL2TunnelTableEntry := Es2kFdb.PrepareL2TunnelTableEntry.
Definition WriteL2TunnelTableEntry := Es2kFdb.WriteL2TunnelTableEntry.
Definition ReadL2ToTunnelV4TableEntry := Es2kFdb.ReadL2ToTunnelV4TableEntry.
Definition ReadL2ToTunnelV6TableEntry := Es2kFdb.ReadL2ToTunnelV6TableEntry.
Definition UpdateFdbTunnelInfo := Es2kFdb.UpdateFdbTunnelInfo.
Definition UpdateFdbSrcPortInfo := Es2kFdb.UpdateFdbSrcPortInfo.

Definition PrepareV6EncapTableEntry := Es2kTunnel.PrepareV6EncapTableEntry.
Definition PrepareV4EncapAndVlanPopTableEntry := Es2kTunnel.PrepareV4EncapAndVlanPopTableEntry.
Definition PrepareV6EncapAndVlanPopTableEntry := Es2kTunnel.PrepareV6EncapAndVlanPopTableEntry.
Definition PrepareDecapModTableEntry := Es2kTunnel.PrepareDecapModTableEntry.
Definition PrepareDecapModAndVlanPushTableEntry := Es2kTunnel.PrepareDecapModAndVlanPushTableEntry.
Definition PrepareDecapTableEntry := Es2kTunnel.PrepareDecapTableEntry.
Definition WriteDecapTableEntry := Es2kTunnel.WriteDecapTableEntry.

Definition ReadTxAccVsiTableEntry := TxAccVsi.ReadTxAccVsiTableEntry.
Definition GetTxAccVsiPort := TxAccVsi.GetTxAccVsiPort.

Definition ValidIpAddr := Es2kIpMacMap.ValidIpAddr.
Definition ReadVmSrcTableEntry := Es2kIpMacMap.ReadVmSrcTableEntry.
Definition ReadVmDstTableEntry := Es2kIpMacMap.ReadVmDstTableEntry.
Definition WriteDstIpMacMapTableEntry := Es2kIpMacMap.WriteDstIpMacMapTableEntry.
Definition WriteSrcIpMacMapTableEntry := Es2kIpMacMap.WriteSrcIpMacMapTableEntry.
Definition ConfigIpMacMapEntry := Es2kIpMacMap.ConfigIpMacMapEntry.
Definition DoConfigIpMacMapEntry := Es2kIpMacMap.DoConfigIpMacMapEntry.

Definition PrepareRxTunnelSrcPortTableEntry := Es2kPorts.PrepareRxTunnelSrcPortTableEntry.
Definition WriteRxTunnelSrcPortTableEntry := Es2kPorts.WriteRxTunnelSrcPortTableEntry.
Definition DoConfigRxTunnelSrcEntry := Es2kPorts.DoConfigRxTunnelSrcEntry.
Definition WriteVsiSrcPortTableEntry := Es2kPorts.WriteVsiSrcPortTableEntry.
Definition ConfigSrcPortEntry := Es2kPorts.ConfigSrcPortEntry.
Definition DoConfigSrcPortEntry := Es2kPorts.DoConfigSrcPortEntry.
Definition WriteTunnelSrcPortEntry := Es2kPorts.WriteTunnelSrcPortEntry.
Definition DoConfigTunnelSrcPortEntry := Es2kPorts.DoConfigTunnelSrcPortEntry.
Definition WriteVlanPushTableEntry := Es2kPorts.WriteVlanPushTableEntry.
Definition WriteVlanPopTableEntry := Es2kPorts.WriteVlanPopTableEntry.
Definition ConfigVlanEntry := Es2kPorts.ConfigVlanEntry.
Definition DoConfigVlanEntry := Es2kPorts.DoConfigVlanEntry.

(** *** FDB entries *)

Definition WriteFdbTxVlanTableEntry (tgt : target) (learn_info : mac_learning_info)
  (p4info : P4Info) (insert_entry : bool) : prog Status :=
  '(write_request, table_entry) ←
    do_call (initWriteRequest default_WriteRequest insert_entry);
  let '(te, detail) :=
    EncodeFdbTxVlanTableEntry tgt (wr_deref write_request table_entry) learn_info p4info
      insert_entry default_DiagDetail in
  status ← do_call (sendWriteRequest (wr_store write_request table_entry te));
  log_if_failed_mac status insert_entry detail (mac_addr learn_info);;
  mret status.

Definition WriteFdbRxVlanTableEntry (tgt : target) (learn_info : mac_learning_info)
  (p4info : P4Info) (insert_entry : bool) : prog Status :=
  '(write_request, table_entry) ←
    do_call (initWriteRequest default_WriteRequest insert_entry);
  let '(te, detail) :=
    EncodeFdbRxVlanTableEntry tgt (wr_deref write_request table_entry) learn_info p4info
      insert_entry default_DiagDetail in
  status ← do_call (sendWriteRequest (wr_store write_request table_entry te));
  log_if_failed_mac status insert_entry detail (mac_addr learn_info);;
  mret status.

Definition PrepareFdbTunnelTableEntry (table_entry : TableEntry)
  (learn_info : mac_learning_info) (p4info : P4Info) (insert_entry : bool)
  (detail : DiagDetail) : TableEntry * DiagDetail :=
  if tunnel_type (tnl_info learn_info) =? tunnel_type_value OVS_TUNNEL_VXLAN then
    EncodeFdbTableEntryforV4VxlanTunnel ES2K_TARGET table_entry learn_info p4info
      insert_entry detail
  else if tunnel_type (tnl_info learn_info) =? tunnel_type_value OVS_TUNNEL_GENEVE then
    EncodeFdbTableEntryforV4GeneveTunnel table_entry learn_info p4info insert_entry detail
  else if negb insert_entry then
    (EncodeL2FwdTxTablePrologue ES2K_TARGET table_entry learn_info p4info, detail)
  else (table_entry, detail).

Definition WriteFdbTunnelTableEntry (tgt : target) (learn_info : mac_learning_info)
  (p4info : P4Info) (insert_entry : bool) : prog Status :=
  '(write_request, table_entry) ←
    do_call (initWriteRequest default_WriteRequest insert_entry);
  let te := wr_deref write_request table_entry in
  let '(te, detail) :=
    match tgt with
    | DPDK_TARGET =>
        EncodeFdbTableEntryforV4VxlanTunnel DPDK_TARGET te learn_info p4info insert_entry
          default_DiagDetail
    | ES2K_TARGET =>
        PrepareFdbTunnelTableEntry te learn_info p4info insert_entry default_DiagDetail
    end in
  status ← do_call (sendWriteRequest (wr_store write_request table_entry te));
  log_if_failed_mac status insert_entry detail (mac_addr learn_info);;
  mret status.

Definition PrepareFdbTableV4TunnelEntry (table_entry : TableEntry)
  (learn_info : mac_learning_info) (p4info : P4Info) (insert_entry : bool)
  (detail : DiagDetail) (testing : bool) : TableEntry * DiagDetail :=
  if tunnel_type (tnl_info learn_info) =? tunnel_type_value OVS_TUNNEL_VXLAN then
    EncodeFdbTableEntryforV4VxlanTunnel ES2K_TARGET table_entry learn_info p4info testing
      detail
  else if tunnel_type (tnl_info learn_info) =? tunnel_type_value OVS_TUNNEL_GENEVE then
    EncodeFdbTableEntryforV4GeneveTunnel table_entry learn_info p4info testing detail
  else (table_entry, detail).

(** Inside [#if defined(ES2K_TARGET)], so its own branch for DPDK is never
    compiled. *)
Definition ReadFdbTunnelTableEntry (learn_info : mac_learning_info) (p4info : P4Info)
  (adding : bool) : prog (StatusOr ReadResponse) :=
  '(read_request, table_entry) ← do_call (initReadRequest default_ReadRequest);
  let '(te, _) :=
    PrepareFdbTableV4TunnelEntry (rr_deref read_request table_entry) learn_info p4info
      false default_DiagDetail false in
  do_call (sendReadRequest (rr_store read_request table_entry te)).

Definition ReadFdbVlanTableEntry (learn_info : mac_learning_info) (p4info : P4Info)
  (adding : bool) : prog (StatusOr ReadResponse) :=
  '(read_request, table_entry) ← do_call (initReadRequest default_ReadRequest);
  let '(te, _) :=
    EncodeFdbTxVlanTableEntry ES2K_TARGET (rr_deref read_request table_entry) learn_info
      p4info false default_DiagDetail in
  do_call (sendReadRequest (rr_store read_request table_entry te)).

Definition ConfigFdbTunnelEntry (learn_info : mac_learning_info) (insert_entry : bool)
  (p4info : P4Info) : prog Status :=
  let write_entries :=
    (WriteFdbTunnelTableEntry ES2K_TARGET learn_info p4info insert_entry;;
     WriteL2TunnelTableEntry learn_info p4info insert_entry;;
     WriteFdbSmacTableEntry learn_info p4info insert_entry;;
     mret OkStatus) in
  if insert_entry then
    status_or_read_response ← ReadFdbTunnelTableEntry learn_info p4info true;
    if is_ok status_or_read_response then mret OkStatus else write_entries
  else write_entries.

Definition ConfigFdbVlanEntry (learn_info : mac_learning_info) (insert_entry : bool)
  (p4info : P4Info) : prog Status :=
  let write_entries learn_info :=
    (WriteFdbTxVlanTableEntry ES2K_TARGET learn_info p4info insert_entry;;
     WriteFdbSmacTableEntry learn_info p4info insert_entry;;
     mret OkStatus) in
  if insert_entry then
    status_or_read_response ← ReadFdbVlanTableEntry learn_info p4info true;
    if is_ok status_or_read_response then mret OkStatus else
    WriteFdbRxVlanTableEntry ES2K_TARGET learn_info p4info insert_entry;;
    '(status, learn_info) ← UpdateFdbSrcPortInfo learn_info p4info;
    if negb (ok status) then mret status else write_entries learn_info
  else write_entries learn_info.

(** Two functions, one per target. *)
Definition dpdk_ConfigFdbEntry (learn_info : mac_learning_info) (p4info : P4Info)
  (insert_entry : bool) : prog Status :=
  if is_tunnel learn_info then
    WriteFdbTunnelTableEntry DPDK_TARGET learn_info p4info insert_entry
  else if is_vlan learn_info then
    status ← WriteFdbTxVlanTableEntry DPDK_TARGET learn_info p4info insert_entry;
    if negb (ok status) then mret status else
    WriteFdbRxVlanTableEntry DPDK_TARGET learn_info p4info insert_entry
  else mret OkStatus.

Definition ConfigFdbEntry (tgt : target) (learn_info : mac_learning_info) (p4info : P4Info)
  (insert_entry : bool) : prog Status :=
  match tgt with
  | ES2K_TARGET =>
      learn_info ←
        (if negb insert_entry then UpdateFdbTunnelInfo learn_info p4info
         else mret learn_info);
      if is_tunnel learn_info then ConfigFdbTunnelEntry learn_info insert_entry p4info
      else ConfigFdbVlanEntry learn_info insert_entry p4info
  | DPDK_TARGET => dpdk_ConfigFdbEntry learn_info p4info insert_entry
  end.

Definition dpdk_DoConfigFdbEntry (learn_info : mac_learning_info) (insert_entry : bool)
  (grpc_addr : string) : prog Status :=
  status ← do_call (connect grpc_addr);
  if negb (ok status) then mret status else
  '(status, p4info) ← do_call getPipelineConfig;
  if negb (ok status) then mret status else
  dpdk_ConfigFdbEntry learn_info p4info insert_entry.

Definition DoConfigFdbEntry (tgt : target) (learn_info : mac_learning_info)
  (insert_entry : bool) (grpc_addr : string) : prog Status :=
  match tgt with
  | ES2K_TARGET =>
      status ← do_call (connect grpc_addr);
      if negb (ok status) then mret status else
      '(status, p4info) ← do_call getPipelineConfig;
      if negb (ok status) then mret status else
      ConfigFdbEntry ES2K_TARGET learn_info p4info insert_entry
  | DPDK_TARGET => dpdk_DoConfigFdbEntry learn_info insert_entry grpc_addr
  end.

(** *** Tunnel entries *)

Definition PrepareV4EncapTableEntry (tgt : target) (table_entry : TableEntry)
  (info : tunnel_info) (p4info : P4Info) (insert_entry : bool)
  : TableEntry * list string :=
  match tgt with
  | DPDK_TARGET =>
      (EncodeVxlanEncapTableEntry DPDK_TARGET table_entry info p4info insert_entry, [])
  | ES2K_TARGET =>
      if tunnel_type info =? tunnel_type_value OVS_TUNNEL_VXLAN then
        (EncodeVxlanEncapTableEntry ES2K_TARGET table_entry info p4info insert_entry, [])
      else if tunnel_type info =? tunnel_type_value OVS_TUNNEL_GENEVE then
        (EncodeGeneveEncapTableEntry table_entry info p4info insert_entry, [])
      else (table_entry, [Es2kTunnel.unsupported_tunnel_type])
  end.

Definition PrepareEncapTableEntry (table_entry : TableEntry) (info : tunnel_info)
  (p4info : P4Info) (insert_entry : bool) : TableEntry * list string :=
  if (family (local_ip info) =? AF_INET) && (family (remote_ip info) =? AF_INET) then
    if decide (port_vlan_mode (tnl_vlan_info info) = P4_PORT_VLAN_NATIVE_UNTAGGED) then
      PrepareV4EncapAndVlanPopTableEntry table_entry info p4info insert_entry
    else
      PrepareV4EncapTableEntry ES2K_TARGET table_entry info p4info insert_entry
  else if (family (local_ip info) =? AF_INET6) && (family (remote_ip info) =? AF_INET6) then
    if decide (port_vlan_mode (tnl_vlan_info info) = P4_PORT_VLAN_NATIVE_UNTAGGED) then
      PrepareV6EncapAndVlanPopTableEntry table_entry info p4info insert_entry
    else
      PrepareV6EncapTableEntry table_entry info p4info insert_entry
  else (table_entry, []).

Definition WriteEncapTableEntry (tgt : target) (info : tunnel_info) (p4info : P4Info)
  (insert_entry : bool) : prog Status :=
  '(write_request, table_entry) ←
    do_call (initWriteRequest default_WriteRequest insert_entry);
  let te := wr_deref write_request table_entry in
  let '(te, out) :=
    match tgt with
    | DPDK_TARGET => PrepareV4EncapTableEntry DPDK_TARGET te info p4info insert_entry
    | ES2K_TARGET => PrepareEncapTableEntry te info p4info insert_entry
    end in
  print_lines out;;
  do_call (sendWriteRequest (wr_store write_request table_entry te)).

Definition PrepareTunnelTermTableEntry (table_entry : TableEntry) (info : tunnel_info)
  (p4info : P4Info) (insert_entry : bool) : TableEntry * list string :=
  if (family (local_ip info) =? AF_INET) && (family (remote_ip info) =? AF_INET) then
    EncodeTunnelTermTableEntry ES2K_TARGET table_entry info p4info insert_entry
  else if (family (local_ip info) =? AF_INET6) && (family (remote_ip info) =? AF_INET6) then
    EncodeV6TunnelTermTableEntry table_entry info p4info insert_entry
  else (table_entry, []).

Definition WriteTunnelTermTableEntry (tgt : target) (info : tunnel_info) (p4info : P4Info)
  (insert_entry : bool) : prog Status :=
  '(write_request, table_entry) ←
    do_call (initWriteRequest default_WriteRequest insert_entry);
  let te := wr_deref write_request table_entry in
  let '(te, out) :=
    match tgt with
    | DPDK_TARGET => EncodeTunnelTermTableEntry DPDK_TARGET te info p4info insert_entry
    | ES2K_TARGET => PrepareTunnelTermTableEntry te info p4info insert_entry
    end in
  print_lines out;;
  do_call (sendWriteRequest (wr_store write_request table_entry te)).

Definition ConfigTunnelEntry (tgt : target) (info : tunnel_info) (p4info : P4Info)
  (insert_entry : bool) : prog Status :=
  status ← WriteEncapTableEntry tgt info p4info insert_entry;
  if negb (ok status) then mret status else
  let rest := WriteTunnelTermTableEntry tgt info p4info insert_entry in
  match tgt with
  | ES2K_TARGET =>
      status ← WriteDecapTableEntry info p4info insert_entry;
      if negb (ok status) then mret status else rest
  | DPDK_TARGET => rest
  end.

Definition DoConfigTunnelEntry (tgt : target) (info : tunnel_info) (insert_entry : bool)
  (grpc_addr : string) : prog Status :=
  status ← do_call (connect grpc_addr);
  if negb (ok status) then mret status else
  '(status, p4info) ← do_call getPipelineConfig;
  if negb (ok status) then mret status else
  ConfigTunnelEntry tgt info p4info insert_entry.

(** ** Properties *)

(** C34 v2_refines: the operations version 2 shares between the targets are, for
    each target, the same interactions with the client, request by request and
    line by line, as the operations version 3 has for that target. *)
Theorem v2_refines l t ins addr :
  DoConfigFdbEntry ES2K_TARGET l ins addr = Es2kFdb.DoConfigFdbEntry l ins addr /\
  DoConfigTunnelEntry ES2K_TARGET t ins addr = Es2kTunnel.DoConfigTunnelEntry t ins addr /\
  DoConfigFdbEntry DPDK_TARGET l ins addr = Dpdk.DoConfigFdbEntry l ins addr /\
  DoConfigTunnelEntry DPDK_TARGET t ins addr = Dpdk.DoConfigTunnelEntry t ins addr.
Proof. destruct ins; done. Qed.
