(* ===== verification/Journal.v ===== *)
(** * The journal ([journal/])

    What [JournalClient] prints: the inputs of the API function and the
    P4Runtime requests and responses, as JSON. The JSON values and their text
    are those of a library, nlohmann::json, and the JSON form of a protobuf
    message is that of another; [JsonLibrary] and [Protobuf] are their
    interfaces, with the laws the code relies on. [RefJson] is a concrete
    JSON type that has the laws. *)

From stdpp Require Import gmap.
From S2P Require Import Prelude P4Runtime OvsP4rt EncodeUtils Client Session ClientImpl.

(** ** The libraries *)

(** A [nlohmann::json] value. [j_members] are the members of an object;
    [operator[]] treats null as an empty object, so null has no members. The
    values of C++ types keep their content. [dump] throws when a string is not
    UTF-8, [parse] when the text is not JSON. *)
Class JsonLibrary (J : Type) := {
  j_null : J;
  j_bool : bool -> J;
  j_number : Z -> J;
  j_string : string -> J;
  j_array : list J -> J;
  j_object : gmap string J -> J;
  j_members : J -> option (gmap string J);
  j_parse : string -> option J;
  j_dump : nat -> J -> option string;
  j_members_null : j_members j_null = Some ∅;
  j_members_object : forall m, j_members (j_object m) = Some m;
  j_bool_inj :: Inj (=) (=) j_bool;
  j_number_inj :: Inj (=) (=) j_number;
  j_string_inj :: Inj (=) (=) j_string;
  j_array_inj :: Inj (=) (=) j_array;
}.

(** The messages the journal converts, and
    [google::protobuf::util::MessageToJsonString]. *)
Inductive Message :=
| ReadRequest_message (m : ReadRequest)
| ReadResponse_message (m : ReadResponse)
| WriteRequest_message (m : WriteRequest).

Class Protobuf := { MessageToJsonString : Message -> Status * string }.

Section Json.
Context {J : Type} `{JsonLibrary J}.

(** [f(json[key])] for an [f] that updates its reference argument, and
    [json[key] = value]. [None] is the [type_error] the library throws when
    [json] is neither null nor an object. *)
Definition at_key (key : string) (f : J -> option J) (json : J) : option J :=
  members ← j_members json;
  value ← f (default j_null (members !! key));
  Some (j_object (<[key := value]> members)).

Definition set_key (key : string) (value : J) (json : J) : option J :=
  at_key key (fun _ => Some value) json.

(** ** ovsp4rt_encode_inputs.cc *)

Definition LEARN_INFO_VERSION : Z := 1.
Definition PORT_INFO_VERSION : Z := 1.
Definition TUNNEL_INFO_VERSION : Z := 1.
Definition VLAN_ID_VERSION : Z := 1.
Definition IP_MAC_MAP_INFO_VERSION : Z := 1.

(** [ip.v6addr.__in6_u.__u6_addr16[i]]: the host is little-endian. *)
Definition u6_addr16 (a : p4_ipaddr) (i : nat) : Z :=
  le_val [u6_addr8 a (2 * i); u6_addr8 a (2 * i + 1)].

Definition IpAddrToJson (info : p4_ipaddr) (json : J) : option J :=
  json ← set_key "family" (j_number (family info)) json;
  json ← set_key "prefix_len" (j_number (prefix_len info)) json;
  if family info =? AF_INET then
    set_key "ipv4_addr" (j_array [j_number (s_addr info)]) json
  else if family info =? AF_INET6 then
    let v6addr := u6_addr16 info in
    set_key "ipv6_addr"
      (j_array [j_number (v6addr 0%nat); j_number (v6addr 1%nat); j_number (v6addr 2%nat);
                j_number (v6addr 3%nat); j_number (v6addr 4%nat); j_number (v6addr 5%nat);
                j_number (v6addr 6%nat); j_number (v6addr 7%nat)]) json
  else Some json.

(** The value assigned replaces [json], whatever it was. *)
Definition MacAddrToJson (mac_addr : bytes) (json : J) : option J :=
  Some (j_array [j_number (mac_addr !!! 0%nat); j_number (mac_addr !!! 1%nat);
                 j_number (mac_addr !!! 2%nat); j_number (mac_addr !!! 3%nat);
                 j_number (mac_addr !!! 4%nat); j_number (mac_addr !!! 5%nat)]).

Definition IpMacMapInfoToJson (info : ip_mac_map_info) (json : J) : option J :=
  json ← at_key "src_mac_addr" (MacAddrToJson (src_mac_addr info)) json;
  json ← at_key "dst_mac_addr" (MacAddrToJson (dst_mac_addr info)) json;
  json ← at_key "src_ip_addr" (IpAddrToJson (src_ip_addr info)) json;
  at_key "dst_ip_addr" (IpAddrToJson (dst_ip_addr info)) json.

(** An enumerator is written as its value. *)
Definition vlan_mode_value (m : p4_vlan_mode) : Z :=
  match m with
  | P4_PORT_VLAN_ACCESS => 0
  | P4_PORT_VLAN_TRUNK => 1
  | P4_PORT_VLAN_NATIVE_TAGGED => 2
  | P4_PORT_VLAN_NATIVE_UNTAGGED => 3
  | P4_PORT_VLAN_DOT1Q_TUNNEL => 4
  | P4_PORT_VLAN_UNSUPPORTED => 5
  end.

Definition PortVlanInfoToJson (info : port_vlan_info) (json : J) : option J :=
  json ← set_key "port_vlan_mode" (j_number (vlan_mode_value (port_vlan_mode info))) json;
  set_key "port_vlan" (j_number (port_vlan info)) json.

Definition SrcPortInfoToJson (info : src_port_info) (json : J) : option J :=
  json ← set_key "bridge_id" (j_number (sp_bridge_id info)) json;
  json ← set_key "vlan_id" (j_number (sp_vlan_id info)) json;
  set_key "src_port" (j_number (sp_src_port info)) json.

Definition TunnelInfoToJson (info : tunnel_info) (json : J) : option J :=
  json ← set_key "ifindex" (j_number (ifindex info)) json;
  json ← set_key "port_id" (j_number (tnl_port_id info)) json;
  json ← set_key "src_port" (j_number (tnl_src_port info)) json;
  json ← at_key "local_ip" (IpAddrToJson (local_ip info)) json;
  json ← at_key "remote_ip" (IpAddrToJson (remote_ip info)) json;
  json ← set_key "dst_port" (j_number (dst_port info)) json;
  json ← set_key "vni" (j_number (vni info)) json;
  json ← at_key "vlan_info" (PortVlanInfoToJson (tnl_vlan_info info)) json;
  json ← set_key "bridge_id" (j_number (tnl_bridge_id info)) json;
  set_key "tunnel_type" (j_number (tunnel_type info)) json.

Definition VlanInfoToJson (info : vlan_info) (json : J) : option J :=
  set_key "vlan_id" (j_number (vlan_id info)) json.

Definition MacLearningInfoToJson (info : mac_learning_info) (json : J) : option J :=
  json ← set_key "is_tunnel" (j_bool (is_tunnel info)) json;
  json ← set_key "is_vlan" (j_bool (is_vlan info)) json;
  json ← at_key "mac_addr" (MacAddrToJson (mac_addr info)) json;
  json ← set_key "bridge_id" (j_number (bridge_id info)) json;
  json ← set_key "src_port" (j_number (src_port info)) json;
  json ← set_key "rx_src_port" (j_number (rx_src_port info)) json;
  json ← at_key "vlan_info" (PortVlanInfoToJson (vlan_mode_info info)) json;
  if is_tunnel info then at_key "tnl_info" (TunnelInfoToJson (tnl_info info)) json
  else if is_vlan info then at_key "vln_info" (VlanInfoToJson (vln_info info)) json
  else Some json.

(** [auto& params = json["params"]; f(params)]: the reference stays valid, since
    the members of an object are the nodes of a [std::map]. *)
Definition with_params (f : J -> option J) (json : J) : option J := at_key "params" f json.

Definition EncodeIpMacMapInfo (func_name : string) (info : ip_mac_map_info)
  (insert_entry : bool) : option J :=
  let json := j_null in
  json ← set_key "func_name" (j_string func_name) json;
  json ← set_key "version" (j_number IP_MAC_MAP_INFO_VERSION) json;
  json ← set_key "struct_name" (j_string "ip_mac_map_info") json;
  with_params (fun params =>
    params ← at_key "ip_mac_map_info" (IpMacMapInfoToJson info) params;
    set_key "insert_entry" (j_bool insert_entry) params) json.

Definition EncodeMacLearningInfo (func_name : string) (info : mac_learning_info)
  (insert_entry : bool) : option J :=
  let json := j_null in
  json ← set_key "func_name" (j_string func_name) json;
  json ← set_key "version" (j_number LEARN_INFO_VERSION) json;
  json ← set_key "struct_name" (j_string "mac_learning_info") json;
  with_params (fun params =>
    params ← at_key "learn_info" (MacLearningInfoToJson info) params;
    set_key "insert_entry" (j_bool insert_entry) params) json.

Definition EncodeSrcPortInfo (func_name : string) (info : src_port_info)
  (insert_entry : bool) : option J :=
  let json := j_null in
  json ← set_key "func_name" (j_string func_name) json;
  json ← set_key "version" (j_number PORT_INFO_VERSION) json;
  json ← set_key "struct_name" (j_string "src_port_info") json;
  with_params (fun params =>
    params ← at_key "port_info" (SrcPortInfoToJson info) params;
    set_key "insert_entry" (j_bool insert_entry) params) json.

(** The tunnel goes into [json], not into [params]. *)
Definition EncodeTunnelInfo (func_name : string) (info : tunnel_info)
  (insert_entry : bool) : option J :=
  let json := j_null in
  json ← set_key "func_name" (j_string func_name) json;
  json ← set_key "version" (j_number TUNNEL_INFO_VERSION) json;
  json ← set_key "struct_name" (j_string "tunnel_info") json;
  json ← with_params Some json;
  json ← at_key "tunnel_info" (TunnelInfoToJson info) json;
  with_params (set_key "insert_entry" (j_bool insert_entry)) json.

Definition EncodeVlanId (func_name : string) (vlan_id : Z) (insert_entry : bool)
  : option J :=
  let json := j_null in
  json ← set_key "func_name" (j_string func_name) json;
  json ← set_key "version" (j_number VLAN_ID_VERSION) json;
  with_params (fun params =>
    params ← set_key "vlan_id" (j_number vlan_id) params;
    set_key "insert_entry" (j_bool insert_entry) params) json.

(** ** ovsp4rt_encode_actions.cc *)

Definition READ_REQUEST_VERSION : Z := 0.
Definition READ_RESPONSE_VERSION : Z := 0.
Definition WRITE_REQUEST_VERSION : Z := 0.
Definition WRITE_STATUS_VERSION : Z := 0.

Definition EncodeStatus (status : Status) : J :=
  j_object {[ "code" := j_number (status_code status);
              "message" := j_string (status_message status) ]}.

(** [None] is the exception of [parse] on a text that is not JSON. *)
Definition EncodeProtobuf `{Protobuf} (message : Message) : option J :=
  let '(status, jsonString) := MessageToJsonString message in
  if ok status then j_parse jsonString
  else Some (j_object {[ "EncodeProtobuf" := EncodeStatus status ]}).

Definition EncodeReadRequest `{Protobuf} (request : ReadRequest) : option J :=
  let json := j_null in
  json ← set_key "action" (j_string "ReadRequest") json;
  json ← set_key "version" (j_number READ_REQUEST_VERSION) json;
  at_key "message" (fun _ => EncodeProtobuf (ReadRequest_message request)) json.

Definition EncodeReadResponse `{Protobuf} (response : StatusOr ReadResponse) : option J :=
  let json := j_null in
  json ← set_key "action" (j_string "ReadResponse") json;
  json ← set_key "version" (j_number READ_RESPONSE_VERSION) json;
  match response with
  | StatusValue value =>
      at_key "message" (fun _ => EncodeProtobuf (ReadResponse_message value)) json
  | StatusError _ => set_key "status" (EncodeStatus (status_of response)) json
  end.

Definition EncodeWriteRequest `{Protobuf} (request : WriteRequest) : option J :=
  let json := j_null in
  json ← set_key "action" (j_string "WriteRequest") json;
  json ← set_key "version" (j_number WRITE_REQUEST_VERSION) json;
  at_key "message" (fun _ => EncodeProtobuf (WriteRequest_message request)) json.

Definition EncodeWriteStatus (status : Status) : option J :=
  let json := j_null in
  json ← set_key "action" (j_string "WriteStatus") json;
  json ← set_key "version" (j_number WRITE_STATUS_VERSION) json;
  set_key "status" (EncodeStatus status) json.

(** ** ovsp4rt_journal.cc *)

Definition journalInputs (json : J) : option string :=
  text ← j_dump 4 json; Some ("inputs: " +:+ text).
Definition journalAction (json : J) : option string :=
  text ← j_dump 4 json; Some ("actions: " +:+ text).

(** The overloads of [Journal::recordInputs]. *)
Definition encode_inputs (func_name : string) (info : api_inputs) (insert_entry : bool)
  : option J :=
  match info with
  | inputs_mac_learning_info info => EncodeMacLearningInfo func_name info insert_entry
  | inputs_ip_mac_map_info info => EncodeIpMacMapInfo func_name info insert_entry
  | inputs_tunnel_info info => EncodeTunnelInfo func_name info insert_entry
  | inputs_src_port_info info => EncodeSrcPortInfo func_name info insert_entry
  | inputs_vlan_id vlan_id => EncodeVlanId func_name vlan_id insert_entry
  end.

(** What the [Journal::record...] functions print; [None] when an exception
    leaves them. *)
Definition journal_line `{Protobuf} (a : journal_action) : option string :=
  match a with
  | recordInputs func_name info insert_entry =>
      inputs ← encode_inputs func_name info insert_entry; journalInputs inputs
  | recordReadRequest request =>
      action ← EncodeReadRequest request; journalAction action
  | recordReadResponse response =>
      action ← EncodeReadResponse response; journalAction action
  | recordWriteRequest request =>
      action ← EncodeWriteRequest request; journalAction action
  | recordWriteStatus status =>
      action ← EncodeWriteStatus status; journalAction action
  end.
End Json.

(** ** Lemmas *)

Section Keys.
Context {J : Type} `{JsonLibrary J}.
Implicit Types (m : gmap string J) (j v : J).

Lemma at_key_members k f j m :
  j_members j = Some m ->
  at_key k f j = v ← f (default j_null (m !! k)); Some (j_object (<[k := v]> m)).
Proof. intros Hm. unfold at_key. by rewrite Hm. Qed.

Lemma set_key_null k v : set_key k v j_null = Some (j_object (<[k := v]> ∅)).
Proof. unfold set_key. by rewrite (at_key_members _ _ _ ∅) by apply j_members_null. Qed.

Lemma set_key_object k v m : set_key k v (j_object m) = Some (j_object (<[k := v]> m)).
Proof. unfold set_key. by rewrite (at_key_members _ _ _ m) by apply j_members_object. Qed.

Lemma at_key_null k f : at_key k f j_null = v ← f j_null; Some (j_object (<[k := v]> ∅)).
Proof. by rewrite (at_key_members _ _ _ ∅) by apply j_members_null. Qed.

(** A key that is not there yet. *)
Lemma at_key_fresh k f m :
  m !! k = None ->
  at_key k f (j_object m) = v ← f j_null; Some (j_object (<[k := v]> m)).
Proof. intros Hk. by rewrite (at_key_members _ _ _ m), Hk by apply j_members_object. Qed.

(** One that is. *)
Lemma at_key_present k f m v :
  m !! k = Some v ->
  at_key k f (j_object m) = v ← f v; Some (j_object (<[k := v]> m)).
Proof. intros Hk. by rewrite (at_key_members _ _ _ m), Hk by apply j_members_object. Qed.

#[export] Instance j_object_inj : Inj (=) (=) j_object.
Proof. intros m1 m2 E. apply (f_equal j_members) in E. rewrite !j_members_object in E. by simplify_eq. Qed.
End Keys.

(** Lookups of literal keys, computed. *)
Lemma lookup_key {A} (m : gmap string A) k k' v :
  <[k := v]> m !! k' = if String.eqb k k' then Some v else m !! k'.
Proof.
  destruct (String.eqb_spec k k') as [->|Hk]; [by rewrite lookup_insert_eq|].
  by rewrite lookup_insert_ne.
Qed.

(** Computes the construction of an object member by member. *)
Ltac json_build :=
  repeat first
    [ progress cbn [mbind option_bind]
    | rewrite set_key_null
    | rewrite set_key_object
    | rewrite at_key_null
    | rewrite at_key_fresh by (rewrite !lookup_key; reflexivity) ].

Ltac keys_in E :=
  rewrite ?lookup_key, ?lookup_empty in E; cbv [String.eqb Ascii.eqb Bool.eqb] in E.

(** From an equation between maps, the one between their values at a key. *)
Ltac at_member H k E := pose proof (f_equal (lookup k) H) as E; keys_in E.

(** *** The objects the conversions build *)

Section Members.
Context {J : Type} `{JsonLibrary J}.

Definition ip_members (a : p4_ipaddr) : gmap string J :=
  let m := <["prefix_len" := j_number (prefix_len a)]> (<["family" := j_number (family a)]> ∅) in
  if family a =? AF_INET then <["ipv4_addr" := j_array [j_number (s_addr a)]]> m
  else if family a =? AF_INET6 then
    <["ipv6_addr" := j_array (j_number ∘ u6_addr16 a <$> seq 0 8)]> m
  else m.

Definition mac_value (mac : bytes) : J :=
  j_array [j_number (mac !!! 0%nat); j_number (mac !!! 1%nat); j_number (mac !!! 2%nat);
           j_number (mac !!! 3%nat); j_number (mac !!! 4%nat); j_number (mac !!! 5%nat)].

Definition port_vlan_members (v : port_vlan_info) : gmap string J :=
  <["port_vlan" := j_number (port_vlan v)]>
  (<["port_vlan_mode" := j_number (vlan_mode_value (port_vlan_mode v))]> ∅).

Definition src_port_members (s : src_port_info) : gmap string J :=
  <["src_port" := j_number (sp_src_port s)]>
  (<["vlan_id" := j_number (sp_vlan_id s)]> (<["bridge_id" := j_number (sp_bridge_id s)]> ∅)).

Definition tunnel_members (t : tunnel_info) : gmap string J :=
  <["tunnel_type" := j_number (tunnel_type t)]>
  (<["bridge_id" := j_number (tnl_bridge_id t)]>
  (<["vlan_info" := j_object (port_vlan_members (tnl_vlan_info t))]>
  (<["vni" := j_number (vni t)]>
  (<["dst_port" := j_number (dst_port t)]>
  (<["remote_ip" := j_object (ip_members (remote_ip t))]>
  (<["local_ip" := j_object (ip_members (local_ip t))]>
  (<["src_port" := j_number (tnl_src_port t)]>
  (<["port_id" := j_number (tnl_port_id t)]>
  (<["ifindex" := j_number (ifindex t)]> ∅))))))))).

Definition learn_members (l : mac_learning_info) : gmap string J :=
  let m :=
    <["vlan_info" := j_object (port_vlan_members (vlan_mode_info l))]>
    (<["rx_src_port" := j_number (rx_src_port l)]>
    (<["src_port" := j_number (src_port l)]>
    (<["bridge_id" := j_number (bridge_id l)]>
    (<["mac_addr" := mac_value (mac_addr l)]>
    (<["is_vlan" := j_bool (is_vlan l)]> (<["is_tunnel" := j_bool (is_tunnel l)]> ∅)))))) in
  if is_tunnel l then <["tnl_info" := j_object (tunnel_members (tnl_info l))]> m
  else if is_vlan l then
    <["vln_info" := j_object (<["vlan_id" := j_number (ifindex (tnl_info l))]> ∅)]> m
  else m.

Definition ip_mac_members (i : ip_mac_map_info) : gmap string J :=
  <["dst_ip_addr" := j_object (ip_members (dst_ip_addr i))]>
  (<["src_ip_addr" := j_object (ip_members (src_ip_addr i))]>
  (<["dst_mac_addr" := mac_value (dst_mac_addr i)]>
  (<["src_mac_addr" := mac_value (src_mac_addr i)]> ∅))).

Lemma IpAddrToJson_object a : IpAddrToJson a j_null = Some (j_object (ip_members a)).
Proof.
  unfold IpAddrToJson, ip_members. json_build.
  destruct (family a =? AF_INET); [by json_build|].
  destruct (family a =? AF_INET6); [|done]. by json_build.
Qed.

Lemma PortVlanInfoToJson_object v :
  PortVlanInfoToJson v j_null = Some (j_object (port_vlan_members v)).
Proof. unfold PortVlanInfoToJson. by json_build. Qed.

Lemma SrcPortInfoToJson_object s :
  SrcPortInfoToJson s j_null = Some (j_object (src_port_members s)).
Proof. unfold SrcPortInfoToJson. by json_build. Qed.

Lemma TunnelInfoToJson_object t :
  TunnelInfoToJson t j_null = Some (j_object (tunnel_members t)).
Proof.
  unfold TunnelInfoToJson. json_build. rewrite IpAddrToJson_object. json_build.
  rewrite IpAddrToJson_object. json_build. rewrite PortVlanInfoToJson_object. by json_build.
Qed.

Lemma MacLearningInfoToJson_object l :
  MacLearningInfoToJson l j_null = Some (j_object (learn_members l)).
Proof.
  unfold MacLearningInfoToJson, MacAddrToJson, learn_members. json_build.
  rewrite PortVlanInfoToJson_object. json_build. destruct (is_tunnel l).
  - json_build. by rewrite TunnelInfoToJson_object.
  - destruct (is_vlan l); [|done]. unfold VlanInfoToJson. by json_build.
Qed.

Lemma IpMacMapInfoToJson_object i :
  IpMacMapInfoToJson i j_null = Some (j_object (ip_mac_members i)).
Proof.
  unfold IpMacMapInfoToJson, MacAddrToJson. json_build. rewrite IpAddrToJson_object.
  json_build. by rewrite IpAddrToJson_object.
Qed.
End Members.

(** *** What the conversions keep *)

Definition recorded_ip (a : p4_ipaddr) : p4_ipaddr :=
  MkIpAddr (family a) (prefix_len a)
    (if family a =? AF_INET then take 4 (ip a)
     else if family a =? AF_INET6 then ip a else []).

Definition recorded_tunnel (t : tunnel_info) : tunnel_info :=
  MkTunnelInfo (ifindex t) (tnl_port_id t) (tnl_src_port t) (recorded_ip (local_ip t))
    (recorded_ip (remote_ip t)) (dst_port t) (vni t) (tnl_vlan_info t) (tnl_bridge_id t)
    (tunnel_type t).

(** A tunnel of which only the first four bytes, or nothing, is known. *)
Definition unknown_tunnel (first : Z) : tunnel_info :=
  MkTunnelInfo first 0 0 (MkIpAddr 0 0 []) (MkIpAddr 0 0 []) 0 0
    (MkPortVlanInfo P4_PORT_VLAN_ACCESS 0) 0 0.

Definition recorded_learn (l : mac_learning_info) : mac_learning_info :=
  set_tnl_info
    (if is_tunnel l then recorded_tunnel (tnl_info l)
     else if is_vlan l then unknown_tunnel (ifindex (tnl_info l)) else unknown_tunnel 0) l.

Definition recorded_ip_mac (i : ip_mac_map_info) : ip_mac_map_info :=
  MkIpMacMapInfo (src_mac_addr i) (dst_mac_addr i) (recorded_ip (src_ip_addr i))
    (recorded_ip (dst_ip_addr i)).

Definition recorded (i : api_inputs) : api_inputs :=
  match i with
  | inputs_mac_learning_info l => inputs_mac_learning_info (recorded_learn l)
  | inputs_ip_mac_map_info i => inputs_ip_mac_map_info (recorded_ip_mac i)
  | inputs_tunnel_info t => inputs_tunnel_info (recorded_tunnel t)
  | inputs_src_port_info s => inputs_src_port_info s
  | inputs_vlan_id v => inputs_vlan_id v
  end.

Definition wf_inputs (i : api_inputs) : Prop :=
  match i with
  | inputs_mac_learning_info l => wf_mac_learning_info l
  | inputs_ip_mac_map_info i => wf_ip_mac_map_info i
  | inputs_tunnel_info t => wf_tunnel_info t
  | _ => True
  end.

Section Injectivity.
Context {J : Type} `{JsonLibrary J}.

#[local] Instance vlan_mode_value_inj : Inj (=) (=) vlan_mode_value.
Proof. by intros [] []. Qed.

Lemma mac_value_inj m1 m2 :
  wf_mac m1 -> wf_mac m2 -> mac_value (J := J) m1 = mac_value m2 -> m1 = m2.
Proof.
  intros (? & ? & ? & ? & ? & ? & -> & _)%wf_mac_inv (? & ? & ? & ? & ? & ? & -> & _)%wf_mac_inv.
  unfold mac_value. cbn. intros E%(inj j_array). by simplify_eq.
Qed.

Lemma addr16_inj a b :
  wf_ipaddr a -> wf_ipaddr b ->
  (forall i, (i < 8)%nat -> u6_addr16 a i = u6_addr16 b i) -> ip a = ip b.
Proof.
  intros Ha Hb Hi. rewrite (ip16_inv a Ha), (ip16_inv b Hb).
  assert (E : forall i, (i < 8)%nat ->
    [u6_addr8 a (2 * i); u6_addr8 a (2 * i + 1)] = [u6_addr8 b (2 * i); u6_addr8 b (2 * i + 1)]).
  { intros i Hlt. apply le_val_inj; [done|..|by apply Hi];
      repeat constructor; apply u6_addr8_byte; (done || lia). }
  assert (F : forall k, (k < 16)%nat -> u6_addr8 a k = u6_addr8 b k).
  { intros k Hk. assert (Hlt : (k / 2 < 8)%nat) by (apply Nat.Div0.div_lt_upper_bound; lia).
    pose proof (E (k / 2)%nat Hlt) as E'. apply (inj2 cons) in E' as [E0 [E1 _]%(inj2 cons)].
    rewrite (Nat.div_mod_eq k 2). pose proof (Nat.mod_upper_bound k 2).
    destruct (k mod 2)%nat as [|[|]]; [by rewrite Nat.add_0_r|done|lia]. }
  by rewrite !F by lia.
Qed.

Lemma s_addr_inj a b :
  wf_ipaddr a -> wf_ipaddr b -> s_addr a = s_addr b -> take 4 (ip a) = take 4 (ip b).
Proof.
  intros Ha Hb E. rewrite (ip16_inv a Ha), (ip16_inv b Hb). cbn [take].
  apply le_val_inj; [done|..|exact E]; repeat constructor; apply u6_addr8_byte; (done || lia).
Qed.

Lemma ip_members_inj a b :
  wf_ipaddr a -> wf_ipaddr b -> ip_members (J := J) a = ip_members b ->
  recorded_ip a = recorded_ip b.
Proof.
  intros Ha Hb E. unfold recorded_ip.
  assert (Hf : family a = family b /\ prefix_len a = prefix_len b).
  { unfold ip_members in E. cbv zeta in E.
    destruct (family a =? AF_INET), (family b =? AF_INET), (family a =? AF_INET6),
      (family b =? AF_INET6);
      at_member E "family" E1; at_member E "prefix_len" E2;
      apply (inj Some), (inj j_number) in E1; by apply (inj Some), (inj j_number) in E2. }
  destruct Hf as [Hf Hp]. rewrite Hp, Hf. f_equal.
  unfold ip_members in E. rewrite Hf in E. cbv zeta in E.
  destruct (family b =? AF_INET); [|destruct (family b =? AF_INET6); [|done]].
  - at_member E "ipv4_addr" E1. apply s_addr_inj; [done..|].
    apply (inj Some), (inj j_array), (inj2 cons) in E1 as [E1 _]. by apply (inj j_number) in E1.
  - at_member E "ipv6_addr" E1. apply (inj Some), (inj j_array) in E1.
    apply addr16_inj; [done..|]. intros i Hi.
    apply (f_equal (lookup i)) in E1. rewrite !list_lookup_fmap in E1.
    rewrite lookup_seq_lt in E1 by done. by apply (inj Some), (inj j_number) in E1.
Qed.

Lemma port_vlan_members_inj v1 v2 :
  port_vlan_members (J := J) v1 = port_vlan_members v2 -> v1 = v2.
Proof.
  unfold port_vlan_members. intros E.
  at_member E "port_vlan" E1. at_member E "port_vlan_mode" E2.
  destruct v1, v2; simpl in *. by simplify_eq.
Qed.

Lemma src_port_members_inj s1 s2 :
  src_port_members (J := J) s1 = src_port_members s2 -> s1 = s2.
Proof.
  unfold src_port_members. intros E.
  at_member E "src_port" E1. at_member E "vlan_id" E2. at_member E "bridge_id" E3.
  destruct s1, s2; simpl in *. by simplify_eq.
Qed.
Lemma tunnel_members_inj t1 t2 :
  wf_tunnel_info t1 -> wf_tunnel_info t2 ->
  tunnel_members (J := J) t1 = tunnel_members t2 -> recorded_tunnel t1 = recorded_tunnel t2.
Proof.
  intros (_ & _ & _ & Hl1 & Hr1 & _) (_ & _ & _ & Hl2 & Hr2 & _) E.
  unfold tunnel_members in E.
  at_member E "local_ip" E1. at_member E "remote_ip" E2. at_member E "vlan_info" E3.
  apply (inj Some), (inj j_object), ip_members_inj in E1; [|done..].
  apply (inj Some), (inj j_object), ip_members_inj in E2; [|done..].
  apply (inj Some), (inj j_object), port_vlan_members_inj in E3.
  at_member E "ifindex" N1. at_member E "port_id" N2. at_member E "src_port" N3.
  at_member E "dst_port" N4. at_member E "vni" N5. at_member E "bridge_id" N6.
  at_member E "tunnel_type" N7. clear E. unfold recorded_tunnel.
  repeat match goal with N : Some _ = Some _ |- _ => apply (inj Some), (inj j_number) in N end.
  by f_equal.
Qed.

Lemma learn_members_inj l1 l2 :
  wf_mac_learning_info l1 -> wf_mac_learning_info l2 ->
  learn_members (J := J) l1 = learn_members l2 -> recorded_learn l1 = recorded_learn l2.
Proof.
  intros (Hm1 & _ & _ & _ & _ & Ht1) (Hm2 & _ & _ & _ & _ & Ht2) E.
  assert (Hk : forall k, k <> "tnl_info" -> k <> "vln_info" ->
    learn_members l1 !! k = learn_members l2 !! k) by by rewrite E.
  assert (Hb : is_tunnel l1 = is_tunnel l2 /\ is_vlan l1 = is_vlan l2).
  { pose proof (Hk "is_tunnel" ltac:(done) ltac:(done)) as E1.
    pose proof (Hk "is_vlan" ltac:(done) ltac:(done)) as E2.
    unfold learn_members in E1, E2. cbv zeta in E1, E2.
    destruct (is_tunnel l1), (is_tunnel l2), (is_vlan l1), (is_vlan l2);
      keys_in E1; keys_in E2; apply (inj Some), (inj j_bool) in E1;
      by apply (inj Some), (inj j_bool) in E2. }
  destruct Hb as [Hbt Hbv].
  assert (Hrec : (if is_tunnel l1 then recorded_tunnel (tnl_info l1)
      else if is_vlan l1 then unknown_tunnel (ifindex (tnl_info l1)) else unknown_tunnel 0) =
    (if is_tunnel l2 then recorded_tunnel (tnl_info l2)
      else if is_vlan l2 then unknown_tunnel (ifindex (tnl_info l2)) else unknown_tunnel 0)).
  { unfold learn_members in E. cbv zeta in E. rewrite Hbt, Hbv in *.
    destruct (is_tunnel l2); [|destruct (is_vlan l2); [|done]].
    - at_member E "tnl_info" E1. apply (inj Some), (inj j_object) in E1.
      by apply tunnel_members_inj.
    - at_member E "vln_info" E1. apply (inj Some), (inj j_object) in E1.
      at_member E1 "vlan_id" E2. apply (inj Some), (inj j_number) in E2. by rewrite E2. }
  unfold recorded_learn. rewrite Hrec. clear Hrec.
  pose proof (Hk "mac_addr" ltac:(done) ltac:(done)) as N1.
  pose proof (Hk "bridge_id" ltac:(done) ltac:(done)) as N2.
  pose proof (Hk "src_port" ltac:(done) ltac:(done)) as N3.
  pose proof (Hk "rx_src_port" ltac:(done) ltac:(done)) as N4.
  pose proof (Hk "vlan_info" ltac:(done) ltac:(done)) as N5.
  clear E Hk. unfold learn_members in *. cbv zeta in *. rewrite Hbt, Hbv in *.
  unfold set_tnl_info. rewrite Hbt, Hbv. cbn [is_tunnel is_vlan].
  destruct (is_tunnel l2); [|destruct (is_vlan l2)]; keys_in N1; keys_in N2; keys_in N3;
    keys_in N4; keys_in N5; apply (inj Some), mac_value_inj in N1; try done;
    apply (inj Some), (inj j_number) in N2; apply (inj Some), (inj j_number) in N3;
    apply (inj Some), (inj j_number) in N4;
    apply (inj Some), (inj j_object), port_vlan_members_inj in N5; by f_equal.
Qed.

Lemma ip_mac_members_inj i1 i2 :
  wf_ip_mac_map_info i1 -> wf_ip_mac_map_info i2 ->
  ip_mac_members (J := J) i1 = ip_mac_members i2 -> recorded_ip_mac i1 = recorded_ip_mac i2.
Proof.
  intros (Hs1 & Hd1 & His1 & Hid1) (Hs2 & Hd2 & His2 & Hid2) E. unfold ip_mac_members in E.
  at_member E "src_mac_addr" E1. at_member E "dst_mac_addr" E2.
  at_member E "src_ip_addr" E3. at_member E "dst_ip_addr" E4.
  apply (inj Some), mac_value_inj in E1; [|done..].
  apply (inj Some), mac_value_inj in E2; [|done..].
  apply (inj Some), (inj j_object), ip_members_inj in E3; [|done..].
  apply (inj Some), (inj j_object), ip_members_inj in E4; [|done..].
  unfold recorded_ip_mac. by f_equal.
Qed.

(** *** The entries *)

(** What every entry has. *)
Definition entry_members (func_name : string) (struct_name : option string)
  : gmap string J :=
  let m := <["version" := j_number 1]> (<["func_name" := j_string func_name]> ∅) in
  match struct_name with
  | Some n => <["struct_name" := j_string n]> m
  | None => m
  end.

Definition params_with (insert_entry : bool) (k : string) (v : J) : J :=
  j_object (<["insert_entry" := j_bool insert_entry]> (<[k := v]> ∅)).

Definition inputs_members (f : string) (i : api_inputs) (b : bool) : gmap string J :=
  match i with
  | inputs_mac_learning_info l =>
      <["params" := params_with b "learn_info" (j_object (learn_members l))]>
      (entry_members f (Some "mac_learning_info"))
  | inputs_ip_mac_map_info i =>
      <["params" := params_with b "ip_mac_map_info" (j_object (ip_mac_members i))]>
      (entry_members f (Some "ip_mac_map_info"))
  | inputs_tunnel_info t =>
      <["params" := j_object (<["insert_entry" := j_bool b]> ∅)]>
      (<["tunnel_info" := j_object (tunnel_members t)]>
      (<["params" := j_null]> (entry_members f (Some "tunnel_info"))))
  | inputs_src_port_info s =>
      <["params" := params_with b "port_info" (j_object (src_port_members s))]>
      (entry_members f (Some "src_port_info"))
  | inputs_vlan_id v =>
      <["params" := params_with b "vlan_id" (j_number v)]> (entry_members f None)
  end.

Lemma encode_inputs_object f i b :
  encode_inputs f i b = Some (j_object (inputs_members f i b)).
Proof.
  unfold encode_inputs, EncodeMacLearningInfo, EncodeIpMacMapInfo, EncodeTunnelInfo,
    EncodeSrcPortInfo, EncodeVlanId, with_params. destruct i; cbv zeta; json_build.
  - rewrite MacLearningInfoToJson_object. by json_build.
  - rewrite IpMacMapInfoToJson_object. by json_build.
  - rewrite TunnelInfoToJson_object. json_build.
    rewrite (at_key_present _ _ _ j_null) by (rewrite !lookup_key; reflexivity).
    by json_build.
  - rewrite SrcPortInfoToJson_object. by json_build.
  - done.
Qed.

(** Entries of different kinds differ in [struct_name]; within one kind the
    function, the flag and the struct can be read back. *)
Lemma params_with_inj b1 b2 k (v1 v2 : J) :
  k <> "insert_entry" -> params_with b1 k v1 = params_with b2 k v2 -> b1 = b2 /\ v1 = v2.
Proof.
  unfold params_with. intros Hk E%(inj j_object).
  assert (Hk' : String.eqb "insert_entry" k = false) by by apply String.eqb_neq.
  assert (Hk2 : String.eqb k "insert_entry" = false) by by apply String.eqb_neq.
  pose proof (f_equal (lookup "insert_entry") E) as E1.
  pose proof (f_equal (lookup k) E) as E2.
  rewrite !lookup_key in E1, E2. rewrite Hk', String.eqb_refl in E2.
  cbv [String.eqb Ascii.eqb Bool.eqb] in E1.
  apply (inj Some), (inj j_bool) in E1. by apply (inj Some) in E2.
Qed.

Lemma inputs_members_kind f1 i1 b1 f2 i2 b2 :
  inputs_members f1 i1 b1 = inputs_members f2 i2 b2 ->
  f1 = f2 /\
  match i1, i2 with
  | inputs_mac_learning_info _, inputs_mac_learning_info _
  | inputs_ip_mac_map_info _, inputs_ip_mac_map_info _
  | inputs_tunnel_info _, inputs_tunnel_info _
  | inputs_src_port_info _, inputs_src_port_info _
  | inputs_vlan_id _, inputs_vlan_id _ => True
  | _, _ => False
  end.
Proof.
  intros E. at_member E "func_name" E1. at_member E "struct_name" E2. clear E.
  destruct i1, i2; cbv [inputs_members entry_members] in E1, E2; keys_in E1; keys_in E2;
    try (apply (inj Some), (inj j_string) in E2; done);
    apply (inj Some), (inj j_string) in E1; done.
Qed.
End Injectivity.

(** ** Properties *)

(** C32 journal_inputs_faithful: recording the inputs of an API function never
    throws, and the JSON value determines the function, the insert flag and the
    argument, whichever overload was called, except for what it leaves out: of
    an address the bytes its family does not use, and of a learning event the
    tunnel when it is not one ([recorded]). *)
Theorem journal_inputs_faithful {J} `{JsonLibrary J} f1 i1 b1 f2 i2 b2 :
  (exists json, encode_inputs f1 i1 b1 = Some json) /\
  (wf_inputs i1 -> wf_inputs i2 ->
   encode_inputs f1 i1 b1 = encode_inputs f2 i2 b2 ->
   f1 = f2 /\ b1 = b2 /\ recorded i1 = recorded i2).
Proof.
  split; [eexists; apply encode_inputs_object|]. intros W1 W2 E.
  rewrite !encode_inputs_object in E. apply (inj Some), (inj j_object) in E.
  destruct (inputs_members_kind _ _ _ _ _ _ E) as [<- Hk]. split; [done|].
  destruct i1, i2; try done; unfold inputs_members in E; at_member E "params" E1;
    apply (inj Some) in E1.
  - apply params_with_inj in E1 as [-> E1%(inj j_object)]; [|done].
    split; [done|]. simpl. f_equal. by apply learn_members_inj.
  - apply params_with_inj in E1 as [-> E1%(inj j_object)]; [|done].
    split; [done|]. simpl. f_equal. by apply ip_mac_members_inj.
  - apply (inj j_object) in E1. at_member E1 "insert_entry" E2.
    apply (inj Some), (inj j_bool) in E2. split; [done|].
    at_member E "tunnel_info" E3. apply (inj Some), (inj j_object) in E3.
    simpl. f_equal. by apply tunnel_members_inj.
  - apply params_with_inj in E1 as [-> E1%(inj j_object)]; [|done].
    split; [done|]. simpl. f_equal. by apply src_port_members_inj.
  - apply params_with_inj in E1 as [-> E1%(inj j_number)]; [|done].
    split; [done|]. by rewrite E1.
Qed.

(** tunnel_info_outside_params: the entry of a tunnel function has the tunnel
    beside [params], which hold the insert flag only, where the entries of the
    other functions have their argument in [params], under the name the C
    prototype gives it or a similar one. *)
Theorem tunnel_info_outside_params {J} `{JsonLibrary J} f i b :
  exists json members params,
    encode_inputs f i b = Some json /\ j_members json = Some members /\
    members !! "params" ≫= j_members = Some params /\
    params !! "insert_entry" = Some (j_bool b) /\
    match i with
    | inputs_tunnel_info t =>
        dom params = {["insert_entry"]} /\
        members !! "tunnel_info" = TunnelInfoToJson t j_null
    | inputs_mac_learning_info l => params !! "learn_info" = MacLearningInfoToJson l j_null
    | inputs_ip_mac_map_info m => params !! "ip_mac_map_info" = IpMacMapInfoToJson m j_null
    | inputs_src_port_info s => params !! "port_info" = SrcPortInfoToJson s j_null
    | inputs_vlan_id v => params !! "vlan_id" = Some (j_number v)
    end.
Proof.
  exists (j_object (inputs_members f i b)), (inputs_members f i b).
  rewrite encode_inputs_object, j_members_object.
  assert (Hp : forall (m : gmap string J) p,
    <["params" := j_object p]> m !! "params" ≫= j_members = Some p).
  { intros. rewrite lookup_insert_eq. apply j_members_object. }
  destruct i; unfold inputs_members, params_with; eexists;
    (split; [done|]); (split; [done|]); (split; [apply Hp|]);
    rewrite !lookup_key; (split; [done|]).
  - by rewrite MacLearningInfoToJson_object.
  - by rewrite IpMacMapInfoToJson_object.
  - split; [by rewrite dom_insert_L, dom_empty_L, union_empty_r_L|].
    by rewrite TunnelInfoToJson_object.
  - by rewrite SrcPortInfoToJson_object.
  - done.
Qed.

(** ** A JSON type with the laws *)

Inductive RefJson :=
| RNull
| RBool (b : bool)
| RNumber (n : Z)
| RString (s : string)
| RArray (l : list RefJson)
| RObject (m : gmap string RefJson).

(** Of the text, only the two shortest values. *)
#[export] Instance RefJson_library : JsonLibrary RefJson.
Proof.
  refine {|
    j_null := RNull;
    j_bool := RBool;
    j_number := RNumber;
    j_string := RString;
    j_array := RArray;
    j_object := RObject;
    j_members j := match j with RNull => Some ∅ | RObject m => Some m | _ => None end;
    j_parse text :=
      if decide (text = "null") then Some RNull
      else if decide (text = "{}") then Some (RObject ∅) else None;
    j_dump _ j := Some match j with RNull => "null" | _ => "{}" end;
  |}; try done; by intros x y [= ->].
Defined.

(** ** Witnesses *)

Definition sample_address (last : Z) : p4_ipaddr :=
  MkIpAddr AF_INET 32 ([192; 168; 17; 5] ++ replicate 11 0 ++ [last]).

(** Two addresses that differ in a byte IPv4 does not use. *)
Lemma journal_inputs_faithful_witness :
  let i n := inputs_ip_mac_map_info (MkIpMacMapInfo [1; 2; 3; 4; 5; 6] [6; 5; 4; 3; 2; 1]
    (sample_address n) (sample_address n)) in
  i 1 <> i 2 /\ recorded (i 1) = recorded (i 2).
Proof.
  intros i. split; [intros [=]|].
  apply (proj2 (journal_inputs_faithful (J := RefJson) "f" (i 1) true "f" (i 2) true)).
  - by_computation.
  - by_computation.
  - reflexivity.
Defined.
