(* ===== verification/JournalOutput.v ===== *)
(** * The journaling client ([client/ovsp4rt_journal_client.{h,cc}])

    A [JournalClient] is a [Client] that also prints a line per request and per
    response, on the standard output the functions above it print on too. The
    encoding of a record can throw; nothing in the library catches it. *)

From stdpp Require Import gmap.
From S2P Require Import Prelude P4Runtime OvsP4rt Client Session ClientImpl Journal.
From S2P Require Import P4InfoUtils Es2kEncoders Pipelines Switch Server Es2kFdb.

(** ** The client *)

(** [jc_threw]: an exception has left [Journal::record...], and unwinds the
    stack: nothing happens any more. [journal], for the theorems, lists the
    actions recorded so far; the program prints them and does not keep them. *)
Record JournalState (S : Type) := MkJournalClient {
  jc_client : ClientState S;
  journal : list journal_action;
  jc_threw : bool;
}.
Arguments MkJournalClient {_} _ _ _.
Arguments jc_client {_} _.
Arguments journal {_} _.
Arguments jc_threw {_} _.

Definition set_out {S} (out : list string) (w : ClientState S) : ClientState S :=
  MkClient (session_ w) (cl_server w) (cl_env w) out (cl_fault w).

(** [JournalClient client;] *)
Definition new_JournalClient {S} (env : Env) (s : S) : JournalState S :=
  MkJournalClient (new_Client env s) [] false.

Section JournalClient.
Context {S J : Type} `{P4RuntimeStub S} `{JsonLibrary J} `{Protobuf}.

(** The [Journal::record...] functions: encode, and print
    ([std::cout << ... << std::endl]). *)
Definition record_action (a : journal_action) (w : JournalState S) : JournalState S :=
  if jc_threw w then w else
  match journal_line a with
  | Some line =>
      MkJournalClient (set_out (cl_out (jc_client w) ++ [line]) (jc_client w)) (journal w ++ [a]) false
  | None => MkJournalClient (jc_client w) (journal w) true
  end.

(** An inherited method. (After an exception there is no result; the one given
    is never looked at.) *)
Definition inherited {A} (f : ClientState S -> A * ClientState S) (w : JournalState S)
  : A * JournalState S :=
  let '(a, c) := f (jc_client w) in
  (a, if jc_threw w then w else MkJournalClient c (journal w) false).

Definition JournalClient_sendReadRequest (request : ReadRequest) (w : JournalState S)
  : StatusOr ReadResponse * JournalState S :=
  let w := record_action (recordReadRequest request) w in
  let '(response, w) := inherited (DoSendReadRequest request) w in
  let w := record_action (recordReadResponse response) w in
  (response, w).

Definition JournalClient_sendWriteRequest (request : WriteRequest) (w : JournalState S)
  : Status * JournalState S :=
  let w := record_action (recordWriteRequest request) w in
  let '(status, w) := inherited (DoSendWriteRequest request) w in
  let w := record_action (recordWriteStatus status) w in
  (status, w).

#[export] Instance JournalClient : ClientInterface (JournalState S) := {|
  m_connect a := inherited (Client_connect a);
  m_getPipelineConfig := inherited Client_getPipelineConfig;
  m_initReadRequest r := inherited (Client_initReadRequest r);
  m_sendReadRequest := JournalClient_sendReadRequest;
  m_initInsertRequest r := inherited (Client_initInsertRequest r);
  m_initModifyRequest r := inherited (Client_initModifyRequest r);
  m_initDeleteRequest r := inherited (Client_initDeleteRequest r);
  m_initWriteRequest r b := inherited (Client_initWriteRequest r b);
  m_sendWriteRequest := JournalClient_sendWriteRequest;
  m_cout l := inherited (Client_cout l);
|}.

(** ** Lemmas *)

(** [c] is [a] and [b] merged, each in its order. *)
Inductive interleave {A} : list A -> list A -> list A -> Prop :=
| interleave_nil : interleave [] [] []
| interleave_l x a b c : interleave a b c -> interleave (x :: a) b (x :: c)
| interleave_r x a b c : interleave a b c -> interleave a (x :: b) (x :: c).

#[local] Hint Constructors interleave : core.

Lemma interleave_left {A} (l : list A) : interleave l [] l.
Proof. induction l; auto. Qed.

Lemma interleave_around {A} x y (l : list A) : interleave l [x; y] (x :: l ++ [y]).
Proof. constructor. induction l; simpl; auto. Qed.

Lemma interleave_app {A} (a b c a' b' c' : list A) :
  interleave a b c -> interleave a' b' c' -> interleave (a ++ a') (b ++ b') (c ++ c').
Proof. intros Hi Hi'. induction Hi; simpl; auto. Qed.

(** No exception leaves the [record] functions for these actions. *)
Definition lines_printed (js : list journal_action) : Prop :=
  Forall (fun a => is_Some (journal_line a)) js.

(** The line, when there is one. *)
Definition line_of (a : journal_action) : string := default "" (journal_line a).

Lemma lines_printed_dec js : Decision (lines_printed js).
Proof. unfold lines_printed. apply _. Defined.

Lemma record_line a (w : ClientState S) js :
  is_Some (journal_line a) ->
  record_action a (MkJournalClient w js false) =
  MkJournalClient (set_out (cl_out w ++ [line_of a]) w) (js ++ [a]) false.
Proof. intros [line E]. unfold record_action, line_of. simpl. by rewrite E. Qed.

Lemma record_threw a (w : JournalState S) : jc_threw w = true -> record_action a w = w.
Proof. intros Hw. unfold record_action. by rewrite Hw. Qed.

Lemma record_throws a (w : ClientState S) js :
  journal_line a = None ->
  record_action a (MkJournalClient w js false) = MkJournalClient w js true.
Proof. intros E. unfold record_action. simpl. by rewrite E. Qed.

Lemma inherited_threw {A} (f : ClientState S -> A * ClientState S) w :
  jc_threw w = true -> (inherited f w).2 = w.
Proof. intros Hw. unfold inherited. rewrite Hw. by destruct (f (jc_client w)). Qed.

(** The exception ends everything. *)
Lemma handle_threw c (w : JournalState S) : jc_threw w = true -> (handle c w).2 = w.
Proof.
  intros Hw. destruct c; try exact (inherited_threw _ w Hw); simpl.
  - unfold JournalClient_sendReadRequest. rewrite record_threw by done.
    pose proof (inherited_threw (DoSendReadRequest request) w Hw) as E.
    destruct (inherited _ w) as [r w']. simpl in *. subst w'. by apply record_threw.
  - unfold JournalClient_sendWriteRequest. rewrite record_threw by done.
    pose proof (inherited_threw (DoSendWriteRequest request) w Hw) as E.
    destruct (inherited _ w) as [r w']. simpl in *. subst w'. by apply record_threw.
Qed.

Lemma run_threw {A} (p : prog A) (w : JournalState S) : jc_threw w = true -> (run p w).2 = w.
Proof.
  intros Hw. induction p as [a|c k IH]; [done|]. cbn [run].
  pose proof (handle_threw c w Hw) as E. destruct (handle c w) as [r w']. simpl in E. subst w'.
  apply IH.
Qed.

(** A [Client] appends to the output, and does not look at it. *)
Lemma handle_out c (w : ClientState S) :
  exists l, forall out,
    handle c (set_out out w) = ((handle c w).1, set_out (out ++ l) (handle c w).2).
Proof.
  assert (Hs : forall A (d : A) f, exists l, forall out,
    with_session (set_out out w) d f =
      ((with_session w d f).1, set_out (out ++ l) (with_session w d f).2)).
  { intros A d f. exists []. intros out. rewrite app_nil_r. unfold with_session. simpl.
    destruct (session_ w) as [ses|]; [|done]. by destruct (f ses (cl_server w)). }
  destruct c; simpl; try apply Hs.
  - exists (GenerateClientCredentials (cl_env w)).2. intros out. unfold Client_connect. simpl.
    destruct (GenerateClientCredentials (cl_env w)) as [cred o].
    by destruct (Create_address _ _ _ _ _ _ _) as [[ses|e] s].
  - unfold Client_initWriteRequest. destruct insert_entry; apply Hs.
  - exists [line]. intros out. done.
Qed.

(** *** One call *)

(** What a request is: a record, the request, a record of the answer. *)
Definition recorded_call {A} (a1 : journal_action) (f : ClientState S -> A * ClientState S)
  (a2 : A -> journal_action) (w : JournalState S) : A * JournalState S :=
  let w := record_action a1 w in
  let '(r, w) := inherited f w in
  let w := record_action (a2 r) w in
  (r, w).

(** What is recorded of [js]: up to the first exception. *)
Fixpoint recorded (js : list journal_action) : list journal_action :=
  match js with
  | [] => []
  | a :: js => match journal_line a with Some _ => a :: recorded js | None => [] end
  end.

Lemma recorded_all js : lines_printed js -> recorded js = js.
Proof. induction 1 as [|a js [line E] _ IH]; simpl; [done|]. by rewrite E, IH. Qed.

Lemma recorded_app js1 js2 : lines_printed js1 -> recorded (js1 ++ js2) = js1 ++ recorded js2.
Proof. induction 1 as [|a js [line E] _ IH]; simpl; [done|]. by rewrite E, IH. Qed.

Lemma recorded_stops js1 js2 : ~ lines_printed js1 -> recorded (js1 ++ js2) = recorded js1.
Proof.
  induction js1 as [|a js IH]; intros Hn; simpl; [exfalso; apply Hn; constructor|].
  destruct (journal_line a) as [line|] eqn:E; [|done]. f_equal. apply IH.
  intros Hp. apply Hn. constructor; [by eexists|done].
Qed.

Lemma inherited_run {A} (f : ClientState S -> A * ClientState S) r w w' l out js :
  f (set_out out w) = (r, set_out (out ++ l) w') ->
  inherited f (MkJournalClient (set_out out w) js false) =
  (r, MkJournalClient (set_out (out ++ l) w') js false).
Proof. intros E. unfold inherited. simpl. by rewrite E. Qed.

Section Call.
Context {A : Type} (f : ClientState S -> A * ClientState S).
Context (a1 : journal_action) (a2 : A -> journal_action).
Context (w w' : ClientState S) (r : A) (l : list string).
Hypothesis Hf : forall out, f (set_out out w) = (r, set_out (out ++ l) w').

Lemma recorded_call_prints out js :
  lines_printed [a1; a2 r] ->
  recorded_call a1 f a2 (MkJournalClient (set_out out w) js false) =
  (r, MkJournalClient (set_out (out ++ line_of a1 :: l ++ [line_of (a2 r)]) w')
        (js ++ [a1; a2 r]) false).
Proof.
  unfold lines_printed. rewrite !list.Forall_cons. intros (H1' & H2' & _).
  unfold recorded_call. rewrite record_line by done. simpl cl_out.
  change (set_out ?a (set_out ?b w)) with (set_out a w).
  rewrite (inherited_run _ _ _ _ _ _ _ (Hf _)), record_line by done. simpl.
  by rewrite <- !app_assoc.
Qed.

Lemma recorded_call_throws out js :
  ~ lines_printed [a1; a2 r] ->
  exists o w0, (w0 = w \/ w0 = w') /\
    (recorded_call a1 f a2 (MkJournalClient (set_out out w) js false)).2 =
    MkJournalClient (set_out o w0) (js ++ recorded [a1; a2 r]) true.
Proof.
  intros Hn. unfold recorded_call. destruct (journal_line a1) as [line|] eqn:E1.
  - rewrite record_line by by eexists. simpl cl_out.
    change (set_out ?a (set_out ?b w)) with (set_out a w).
    rewrite (inherited_run _ _ _ _ _ _ _ (Hf _)). simpl recorded. rewrite E1.
    destruct (journal_line (a2 r)) as [line'|] eqn:E2.
    { destruct Hn. constructor; [by eexists|]. constructor; [by eexists|constructor]. }
    rewrite record_throws by done. eexists _, w'. split; [by right|]. reflexivity.
  - rewrite record_throws by done. simpl recorded. rewrite E1, app_nil_r.
    pose proof (inherited_threw f (MkJournalClient (set_out out w) js true) eq_refl) as E.
    destruct (inherited _ _) as [r0 w0]. simpl in E |- *. subst w0.
    rewrite record_threw by done. eexists _, w. split; [by left|]. reflexivity.
Qed.
End Call.

Lemma handle_prints c (w : ClientState S) :
  let acts := journal_of_event (MkEvent c (handle c w).1) in
  lines_printed acts ->
  exists l o, interleave l (line_of <$> acts) o /\
    forall out js,
      handle c (set_out out w) = ((handle c w).1, set_out (out ++ l) (handle c w).2) /\
      handle c (MkJournalClient (set_out out w) js false) =
        ((handle c w).1, MkJournalClient (set_out (out ++ o) (handle c w).2) (js ++ acts) false).
Proof.
  intros acts Hp. destruct (handle_out c w) as [l Hl]. subst acts.
  destruct c; try (exists l, l; split; [apply interleave_left|];
    intros out js; split; [apply Hl|]; rewrite app_nil_r; exact (inherited_run _ _ _ _ _ _ _ (Hl out))).
  all: exists l; eexists; split; [apply interleave_around|];
    intros out js; split; [apply Hl|]; exact (recorded_call_prints _ _ _ _ _ _ _ Hl out js Hp).
Qed.

Lemma handle_throws c (w : ClientState S) out js :
  let acts := journal_of_event (MkEvent c (handle c w).1) in
  ~ lines_printed acts ->
  exists o w0, (w0 = w \/ w0 = (handle c w).2) /\
    (handle c (MkJournalClient (set_out out w) js false)).2 =
    MkJournalClient (set_out o w0) (js ++ recorded acts) true.
Proof.
  intros acts Hn. destruct (handle_out c w) as [l Hl]. subst acts.
  destruct c; try (by destruct Hn; constructor).
  all: exact (recorded_call_throws _ _ _ _ _ _ _ Hl out js Hn).
Qed.

(** *** A program *)

Lemma run_prints {A} (p : prog A) (w : ClientState S) :
  let acts := trace p w ≫= journal_of_event in
  lines_printed acts ->
  exists l o, interleave l (line_of <$> acts) o /\
    forall out js,
      run p (set_out out w) = ((run p w).1, set_out (out ++ l) (run p w).2) /\
      run p (MkJournalClient (set_out out w) js false) =
        ((run p w).1, MkJournalClient (set_out (out ++ o) (run p w).2) (js ++ acts) false).
Proof.
  cbv zeta. revert w. induction p as [a|c k IH]; intros w Hp.
  { exists [], []. split; [constructor|]. intros out js. by rewrite !app_nil_r. }
  unfold lines_printed in Hp. rewrite trace_vis, bind_cons in Hp |- *.
  rewrite Forall_app in Hp. destruct Hp as [Hp1 Hp2].
  destruct (handle_prints c w Hp1) as (l1 & o1 & Hi1 & Hc).
  rewrite fmap_app. cbn [run].
  destruct (handle c w) as [r w'] eqn:Hh. simpl in *.
  destruct (IH r w' Hp2) as (l2 & o2 & Hi2 & Hk).
  exists (l1 ++ l2), (o1 ++ o2). split; [by apply interleave_app|]. intros out js.
  destruct (Hc out js) as [-> ->]. rewrite !app_assoc.
  split; [apply (Hk (out ++ l1) js)|apply (Hk (out ++ o1))].
Qed.

(** A client after the first [n] calls of a program. *)
Fixpoint after_calls {A} (n : nat) (p : prog A) (w : ClientState S) : ClientState S :=
  match n, p with
  | O, _ | _, Ret _ => w
  | Datatypes.S n, Vis c k => let '(r, w) := handle c w in after_calls n (k r) w
  end.

Lemma run_throws {A} (p : prog A) (w : ClientState S) out js :
  let acts := trace p w ≫= journal_of_event in
  ~ lines_printed acts ->
  exists o n, (run p (MkJournalClient (set_out out w) js false)).2 =
    MkJournalClient (set_out o (after_calls n p w)) (js ++ recorded acts) true /\
    ~ lines_printed (take (Datatypes.S n) (trace p w) ≫= journal_of_event).
Proof.
  cbv zeta. revert w out js. induction p as [a|c k IH]; intros w out js Hn.
  { destruct Hn. constructor. }
  rewrite trace_vis, bind_cons in Hn |- *. cbn [run].
  destruct (lines_printed_dec (journal_of_event (MkEvent c (handle c w).1))) as [Hp|Hp].
  - destruct (handle_prints c w Hp) as (l1 & o1 & _ & Hc). destruct (Hc out js) as [_ ->].
    rewrite recorded_app, app_assoc by done.
    edestruct (IH (handle c w).1 (handle c w).2) as (o & n & E & Hs).
    { intros Hk. apply Hn. by apply Forall_app. }
    exists o, (Datatypes.S n). rewrite E. split; [simpl; by destruct (handle c w)|].
    rewrite firstn_cons, bind_cons. intros [_ Hk]%Forall_app. by apply Hs.
  - destruct (handle_throws c w out js Hp) as (o & w0 & Hw0 & E).
    destruct (handle c (MkJournalClient (set_out out w) js false)) as [r w1] eqn:Hh.
    simpl in E. subst w1. rewrite run_threw, recorded_stops by done.
    assert (Hstop : forall l, ~ lines_printed (journal_of_event (MkEvent c (handle c w).1) ++ l))
      by (intros l [Hk _]%Forall_app; done).
    exists o. destruct Hw0 as [-> | ->]; [exists 0%nat|exists 1%nat];
      (split; [simpl; by destruct (handle c w)|]); rewrite firstn_cons, bind_cons; apply Hstop.
Qed.

(** ** Properties *)

(** The same client, but for what has been printed. *)
Definition same_but_output (w w' : ClientState S) : Prop := exists out, w = set_out out w'.

Lemma set_out_same (w : ClientState S) : set_out (cl_out w) w = w.
Proof. by destruct w. Qed.


(** C33 journal_output: on the standard output of a journaling client appear the
    lines the same program prints under the plain client, in their order, and
    between them one line per request and per response, in the order of the
    requests; nothing else changes, provided no exception of the JSON library
    leaves the recording of one of them. *)
Theorem journal_output {A} (p : prog A) (w : ClientState S) js :
  let acts := trace p w ≫= journal_of_event in
  lines_printed acts ->
  exists plain journaled,
    run p w = ((run p w).1, set_out (cl_out w ++ plain) (run p w).2) /\
    run p (MkJournalClient w js false) =
      ((run p w).1,
       MkJournalClient (set_out (cl_out w ++ journaled) (run p w).2) (js ++ acts) false) /\
    interleave plain (line_of <$> acts) journaled.
Proof.
  intros acts Hp. destruct (run_prints p w Hp) as (l & o & Hi & Hr).
  exists l, o. destruct (Hr (cl_out w) js) as [Hplain Hjournal].
  rewrite set_out_same in Hplain, Hjournal. done.
Qed.
End JournalClient.

(** ** Witness *)

(** A conversion to JSON text that yields an empty object. *)
#[local] Instance sample_protobuf : Protobuf := {| MessageToJsonString _ := (OkStatus, "{}") |}.

Lemma journal_output_witness :
  exists journaled,
    interleave ["Using insecure client credentials!"]
      (replicate 8 "actions: {}") journaled /\
    (run (DoConfigFdbEntry sample_learn true "localhost:9559")
       (MkJournalClient (ref_client es2k_p4info (fun _ => true) ∅) [] false)).2 =
    MkJournalClient (set_out journaled
      (run (DoConfigFdbEntry sample_learn true "localhost:9559")
         (ref_client es2k_p4info (fun _ => true) ∅)).2)
      (trace (DoConfigFdbEntry sample_learn true "localhost:9559")
         (ref_client es2k_p4info (fun _ => true) ∅) ≫= journal_of_event) false.
Proof.
  destruct (journal_output (J := RefJson)
    (DoConfigFdbEntry sample_learn true "localhost:9559")
    (ref_client es2k_p4info (fun _ => true) ∅) []) as (plain & journaled & Hp & Hj & Hi).
  { apply Forall_true. intros [| | [] | |]; try by eexists.
    unfold journal_line. rewrite encode_inputs_object. by eexists. }
  exists journaled. split; [|by rewrite Hj].
  apply (f_equal (fun r => cl_out r.2)) in Hp.
  assert (E : plain = ["Using insecure client credentials!"]).
  { transitivity (cl_out (run (DoConfigFdbEntry sample_learn true "localhost:9559")
      (ref_client es2k_p4info (fun _ => true) ∅)).2); [symmetry; exact Hp|vm_compute; reflexivity]. }
  rewrite E in Hi. exact Hi.
Defined.
