(* ===== verification/JournalApi.v ===== *)
(** * The journaling C API ([core/api/ovsp4rt_journal_api.cc])

    The same functions as in [Es2kApi.v] and [DpdkApi.v], on a [JournalClient],
    after recording their arguments. *)

From S2P Require Import Dpdk DpdkApi.
From S2P Require Import Prelude P4Runtime OvsP4rt Client Session ClientImpl Es2kFdb.
From S2P Require Import Es2kTunnel Es2kIpMacMap Es2kPorts Es2kApi Journal JournalOutput.

Section JournalApi.
Context {S J : Type} `{P4RuntimeStub S} `{JsonLibrary J} `{Protobuf}.

(** [client.journal().recordInputs(__func__, info, insert_entry)]. *)
Definition with_inputs (func_name : string) (info : api_inputs) (insert_entry : bool)
  (client : JournalState S) : JournalState S :=
  record_action (recordInputs func_name info insert_entry) client.

Definition journal_ovsp4rt_config_fdb_entry (learn_info : mac_learning_info)
  (insert_entry : bool) (grpc_addr : string) (env : Env) (s : S) : JournalState S :=
  let client := new_JournalClient env s in
  let client :=
    with_inputs "ovsp4rt_config_fdb_entry" (inputs_mac_learning_info learn_info)
      insert_entry client in
  let '(_, client) := run (DoConfigFdbEntry learn_info insert_entry grpc_addr) client in
  client.

Definition journal_ovsp4rt_config_tunnel_entry (info : tunnel_info)
  (insert_entry : bool) (grpc_addr : string) (env : Env) (s : S) : JournalState S :=
  let client := new_JournalClient env s in
  let client :=
    with_inputs "ovsp4rt_config_tunnel_entry" (inputs_tunnel_info info)
      insert_entry client in
  let '(_, client) := run (DoConfigTunnelEntry info insert_entry grpc_addr) client in
  client.

Definition journal_ovsp4rt_config_ip_mac_map_entry (ip_info : ip_mac_map_info)
  (insert_entry : bool) (grpc_addr : string) (env : Env) (s : S) : JournalState S :=
  let client := new_JournalClient env s in
  let client :=
    with_inputs "ovsp4rt_config_ip_mac_map_entry" (inputs_ip_mac_map_info ip_info)
      insert_entry client in
  let '(_, client) := run (DoConfigIpMacMapEntry ip_info insert_entry grpc_addr) client in
  client.

Definition journal_ovsp4rt_config_rx_tunnel_src_entry (info : tunnel_info)
  (insert_entry : bool) (grpc_addr : string) (env : Env) (s : S) : JournalState S :=
  let client := new_JournalClient env s in
  let client :=
    with_inputs "ovsp4rt_config_rx_tunnel_src_entry" (inputs_tunnel_info info)
      insert_entry client in
  let '(_, client) := run (DoConfigRxTunnelSrcEntry info insert_entry grpc_addr) client in
  client.

Definition journal_ovsp4rt_config_src_port_entry (vsi_sp : src_port_info)
  (insert_entry : bool) (grpc_addr : string) (env : Env) (s : S) : JournalState S :=
  let client := new_JournalClient env s in
  let client :=
    with_inputs "ovsp4rt_config_src_port_entry" (inputs_src_port_info vsi_sp)
      insert_entry client in
  let '(_, client) := run (DoConfigSrcPortEntry vsi_sp insert_entry grpc_addr) client in
  client.

Definition journal_ovsp4rt_config_tunnel_src_port_entry (tnl_sp : src_port_info)
  (insert_entry : bool) (grpc_addr : string) (env : Env) (s : S) : JournalState S :=
  let client := new_JournalClient env s in
  let client :=
    with_inputs "ovsp4rt_config_tunnel_src_port_entry" (inputs_src_port_info tnl_sp)
      insert_entry client in
  let '(_, client) := run (DoConfigTunnelSrcPortEntry tnl_sp insert_entry grpc_addr) client in
  client.

Definition journal_ovsp4rt_config_vlan_entry (vlan_id : Z)
  (insert_entry : bool) (grpc_addr : string) (env : Env) (s : S) : JournalState S :=
  let client := new_JournalClient env s in
  let client :=
    with_inputs "ovsp4rt_config_vlan_entry" (inputs_vlan_id vlan_id)
      insert_entry client in
  let '(_, client) := run (DoConfigVlanEntry vlan_id insert_entry grpc_addr) client in
  client.

(** *** DPDK: two functions, and five with an empty body *)

Definition journal_dpdk_config_fdb_entry (learn_info : mac_learning_info)
  (insert_entry : bool) (grpc_addr : string) (env : Env) (s : S) : JournalState S :=
  let client := new_JournalClient env s in
  let client :=
    with_inputs "ovsp4rt_config_fdb_entry" (inputs_mac_learning_info learn_info)
      insert_entry client in
  let '(_, client) := run (Dpdk.DoConfigFdbEntry learn_info insert_entry grpc_addr) client in
  client.

Definition journal_dpdk_config_tunnel_entry (info : tunnel_info)
  (insert_entry : bool) (grpc_addr : string) (env : Env) (s : S) : JournalState S :=
  let client := new_JournalClient env s in
  let client :=
    with_inputs "ovsp4rt_config_tunnel_entry" (inputs_tunnel_info info)
      insert_entry client in
  let '(_, client) := run (Dpdk.DoConfigTunnelEntry info insert_entry grpc_addr) client in
  client.

Definition journal_dpdk_config_rx_tunnel_src_entry (info : tunnel_info)
  (insert_entry : bool) (grpc_addr : string) (env : Env) (s : S) : S := s.

Definition journal_dpdk_config_vlan_entry (vlan_id : Z)
  (insert_entry : bool) (grpc_addr : string) (env : Env) (s : S) : S := s.

Definition journal_dpdk_config_tunnel_src_port_entry (tnl_sp : src_port_info)
  (insert_entry : bool) (grpc_addr : string) (env : Env) (s : S) : S := s.

Definition journal_dpdk_config_src_port_entry (vsi_sp : src_port_info)
  (insert_entry : bool) (grpc_addr : string) (env : Env) (s : S) : S := s.

Definition journal_dpdk_config_ip_mac_map_entry (ip_info : ip_mac_map_info)
  (insert_entry : bool) (grpc_addr : string) (env : Env) (s : S) : S := s.

(** ** Properties *)

(** What a journaling function leaves, when the standard one runs [p] on the
    client [w] and leaves [client]: the journal begins with the record of its
    own name and arguments, which occurs once, and goes on with the requests
    and answers of the standard function, up to the first record that throws;
    if none throws, the client is that of the standard function but for what it
    has printed, which is the line of the arguments and then what the standard
    function prints with the lines of the journal in between; if the first one
    does, nothing has happened. *)
Definition records_call (f : string) (i : api_inputs) (b : bool) (p : prog Status)
  (w : ClientState S) (jc : JournalState S) (client : ClientState S) : Prop :=
  let inputs := recordInputs f i b in
  let acts := trace p w ≫= journal_of_event in
  journal jc = recorded (inputs :: acts) /\
  (forall f' i' b', recordInputs f' i' b' ∉ acts) /\
  (jc_threw jc = false <-> lines_printed (inputs :: acts)) /\
  (jc_threw jc = false ->
     same_but_output (jc_client jc) client /\
     exists out, cl_out (jc_client jc) = line_of inputs :: out /\
       interleave (cl_out client) (line_of <$> acts) out) /\
  (journal_line inputs = None -> jc_client jc = w).

Lemma journal_no_inputs {A} (p : prog A) (w : ClientState S) f i b :
  recordInputs f i b ∉ trace p w ≫= journal_of_event.
Proof.
  intros ([c r] & Hin & _)%list_elem_of_bind. destruct c; simpl in Hin;
    repeat (apply elem_of_cons in Hin as [Hin|Hin]; [done|]); by apply elem_of_nil in Hin.
Qed.

Lemma journal_run f i b (p : prog Status) env (s : S) :
  records_call f i b p (new_Client env s)
    (run p (with_inputs f i b (new_JournalClient env s))).2 (run p (new_Client env s)).2.
Proof.
  set (w := new_Client env s). set (a := recordInputs f i b).
  unfold with_inputs, new_JournalClient, records_call. fold a w.
  assert (Hin : forall f' i' b', recordInputs f' i' b' ∉ trace p w ≫= journal_of_event)
    by (intros; apply journal_no_inputs).
  clearbody a.
  destruct (journal_line a) as [line|] eqn:Ha.
  2: { rewrite (record_throws a w []) by done. rewrite run_threw by done. simpl recorded.
    rewrite Ha. cbn. split_and!; [done..| |done|done].
    unfold lines_printed. rewrite list.Forall_cons. by split; [|intros [[? ?] _]; congruence]. }
  pose proof (record_line a w [] ltac:(by eexists)) as Ew.
  change (cl_out w ++ [line_of a]) with [line_of a] in Ew. cbn [app] in Ew.
  rewrite Ew. clear Ew.
  destruct (lines_printed_dec (trace p w ≫= journal_of_event)) as [Hp|Hn].
  - destruct (run_prints p w Hp) as (l & o & Hi & Hr).
    destruct (Hr [line_of a] [a]) as [_ Ej]. destruct (Hr [] []) as [Hc _].
    change (set_out [] w) with w in Hc. rewrite Ej. cbn [snd journal jc_threw jc_client].
    assert (Hall : lines_printed (a :: trace p w ≫= journal_of_event))
      by (constructor; [by eexists|done]).
    rewrite (recorded_all (a :: _)) by done. split_and!; [done..| |congruence].
    intros _. split; [by eexists|]. eexists. split; [done|]. rewrite Hc. exact Hi.
  - destruct (run_throws p w [line_of a] [a] Hn) as (o & n & -> & _).
    cbn [journal jc_threw jc_client]. simpl recorded. rewrite Ha.
    split_and!; [done..| |done|congruence]. split; [done|]. by intros [_ Hp]%list.Forall_cons.
Qed.

(** C31 journal_api_transparent: each function of the journaling API, for ES2K
    and for DPDK, begins its journal with the record of its own name and
    arguments, the only one of its kind, and goes on with the requests and
    answers of the standard function; unless the encoding of one of them throws,
    it leaves the client, hence the server, exactly as the standard function
    does, and prints what that prints with the lines of the journal in
    between. *)
Theorem journal_api_transparent (env : Env) (s : S) (ins : bool) (addr : string) l t im sp vlan :
  records_call "ovsp4rt_config_fdb_entry" (inputs_mac_learning_info l) ins
    (DoConfigFdbEntry l ins addr) (new_Client env s)
    (journal_ovsp4rt_config_fdb_entry l ins addr env s)
    (ovsp4rt_config_fdb_entry l ins addr env s) /\
  records_call "ovsp4rt_config_tunnel_entry" (inputs_tunnel_info t) ins
    (DoConfigTunnelEntry t ins addr) (new_Client env s)
    (journal_ovsp4rt_config_tunnel_entry t ins addr env s)
    (ovsp4rt_config_tunnel_entry t ins addr env s) /\
  records_call "ovsp4rt_config_ip_mac_map_entry" (inputs_ip_mac_map_info im) ins
    (DoConfigIpMacMapEntry im ins addr) (new_Client env s)
    (journal_ovsp4rt_config_ip_mac_map_entry im ins addr env s)
    (ovsp4rt_config_ip_mac_map_entry im ins addr env s) /\
  records_call "ovsp4rt_config_rx_tunnel_src_entry" (inputs_tunnel_info t) ins
    (DoConfigRxTunnelSrcEntry t ins addr) (new_Client env s)
    (journal_ovsp4rt_config_rx_tunnel_src_entry t ins addr env s)
    (ovsp4rt_config_rx_tunnel_src_entry t ins addr env s) /\
  records_call "ovsp4rt_config_src_port_entry" (inputs_src_port_info sp) ins
    (DoConfigSrcPortEntry sp ins addr) (new_Client env s)
    (journal_ovsp4rt_config_src_port_entry sp ins addr env s)
    (ovsp4rt_config_src_port_entry sp ins addr env s) /\
  records_call "ovsp4rt_config_tunnel_src_port_entry" (inputs_src_port_info sp) ins
    (DoConfigTunnelSrcPortEntry sp ins addr) (new_Client env s)
    (journal_ovsp4rt_config_tunnel_src_port_entry sp ins addr env s)
    (ovsp4rt_config_tunnel_src_port_entry sp ins addr env s) /\
  records_call "ovsp4rt_config_vlan_entry" (inputs_vlan_id vlan) ins
    (DoConfigVlanEntry vlan ins addr) (new_Client env s)
    (journal_ovsp4rt_config_vlan_entry vlan ins addr env s)
    (ovsp4rt_config_vlan_entry vlan ins addr env s) /\
  records_call "ovsp4rt_config_fdb_entry" (inputs_mac_learning_info l) ins
    (Dpdk.DoConfigFdbEntry l ins addr) (new_Client env s)
    (journal_dpdk_config_fdb_entry l ins addr env s)
    (DpdkApi.ovsp4rt_config_fdb_entry l ins addr env s) /\
  records_call "ovsp4rt_config_tunnel_entry" (inputs_tunnel_info t) ins
    (Dpdk.DoConfigTunnelEntry t ins addr) (new_Client env s)
    (journal_dpdk_config_tunnel_entry t ins addr env s)
    (DpdkApi.ovsp4rt_config_tunnel_entry t ins addr env s).
Proof.
  unfold ovsp4rt_config_fdb_entry, journal_ovsp4rt_config_fdb_entry,
    ovsp4rt_config_tunnel_entry, journal_ovsp4rt_config_tunnel_entry,
    ovsp4rt_config_ip_mac_map_entry, journal_ovsp4rt_config_ip_mac_map_entry,
    ovsp4rt_config_rx_tunnel_src_entry, journal_ovsp4rt_config_rx_tunnel_src_entry,
    ovsp4rt_config_src_port_entry, journal_ovsp4rt_config_src_port_entry,
    ovsp4rt_config_tunnel_src_port_entry, journal_ovsp4rt_config_tunnel_src_port_entry,
    ovsp4rt_config_vlan_entry, journal_ovsp4rt_config_vlan_entry,
    journal_dpdk_config_fdb_entry, DpdkApi.ovsp4rt_config_fdb_entry,
    journal_dpdk_config_tunnel_entry, DpdkApi.ovsp4rt_config_tunnel_entry.
  cbv zeta. rewrite !drop_result. do 8 (split; [apply journal_run|]). apply journal_run.
Qed.
End JournalApi.
