(* ===== verification/Spy.v ===== *)
(** * The spy ([spies/])

    A build for the tests of Open vSwitch links [spies/] in the place of the
    library. Its [ovsp4rt_config_fdb_entry] prints its arguments as JSON and
    connects to nothing; the other functions of [ovsp4rt_spies.cc], like all of
    [stubs/ovsp4rt_stubs.cc], return at once. The spy has its own conversions,
    which are compared here with those of the journal. *)

From stdpp Require Import gmap.
From S2P Require Import Prelude OvsP4rt Journal.

(** [ovsp4rt_str_to_tunnel_type] of the stubs and of the spies. *)
Definition stub_str_to_tunnel_type (tnl_type : option string) : ovs_tunnel_type :=
  OVS_TUNNEL_UNKNOWN.

(** ** ovsp4rt_config_fdb_entry_spy.cc *)

Section Spy.
Context {J : Type} `{JsonLibrary J}.

(** The code writes it out once for each address. *)
Definition spy_ip (learn_ip : p4_ipaddr) (ip : J) : option J :=
  ip ← set_key "family" (j_number (family learn_ip)) ip;
  ip ← set_key "prefix_len" (j_number (prefix_len learn_ip)) ip;
  if family learn_ip =? AF_INET then
    set_key "ipv4_addr" (j_array [j_number (s_addr learn_ip)]) ip
  else if family learn_ip =? AF_INET6 then
    let v6addr := u6_addr16 learn_ip in
    set_key "ipv6_addr"
      (j_array [j_number (v6addr 0%nat); j_number (v6addr 1%nat); j_number (v6addr 2%nat);
                j_number (v6addr 3%nat); j_number (v6addr 4%nat); j_number (v6addr 5%nat);
                j_number (v6addr 6%nat); j_number (v6addr 7%nat)]) ip
  else Some ip.

Definition spy_vlan_info (info : port_vlan_info) (vlan_info : J) : option J :=
  vlan_info ← set_key "port_vlan_mode" (j_number (vlan_mode_value (port_vlan_mode info)))
                vlan_info;
  set_key "port_vlan" (j_number (port_vlan info)) vlan_info.

Definition spy_tnl_info (info : tunnel_info) (tnl_info : J) : option J :=
  tnl_info ← set_key "ifindex" (j_number (ifindex info)) tnl_info;
  tnl_info ← set_key "port_id" (j_number (tnl_port_id info)) tnl_info;
  tnl_info ← set_key "src_port" (j_number (tnl_src_port info)) tnl_info;
  tnl_info ← at_key "local_ip" (spy_ip (local_ip info)) tnl_info;
  at_key "remote_ip" (spy_ip (remote_ip info)) tnl_info.

(** [f] on [json_info["params"]["learn_info"]]. The union is read as a tunnel
    whatever the flags are. *)
Definition spy_fdb_info (learn_info : mac_learning_info) (fdb_info : J) : option J :=
  fdb_info ← set_key "is_tunnel" (j_bool (is_tunnel learn_info)) fdb_info;
  fdb_info ← set_key "is_vlan" (j_bool (is_vlan learn_info)) fdb_info;
  let mac := mac_addr learn_info in
  fdb_info ← set_key "mac_addr"
    (j_array [j_number (mac !!! 0%nat); j_number (mac !!! 1%nat); j_number (mac !!! 2%nat);
              j_number (mac !!! 3%nat); j_number (mac !!! 4%nat); j_number (mac !!! 5%nat)])
    fdb_info;
  fdb_info ← set_key "bridge_id" (j_number (bridge_id learn_info)) fdb_info;
  fdb_info ← set_key "src_port" (j_number (src_port learn_info)) fdb_info;
  fdb_info ← set_key "rx_src_port" (j_number (rx_src_port learn_info)) fdb_info;
  fdb_info ← at_key "vlan_info" (spy_vlan_info (vlan_mode_info learn_info)) fdb_info;
  at_key "tnl_info" (spy_tnl_info (tnl_info learn_info)) fdb_info.

Definition spy_json (learn_info : mac_learning_info) (insert_entry : bool) : option J :=
  let json_info := j_null in
  json_info ← set_key "name" (j_string "ovsp4rt_config_fdb_entry") json_info;
  json_info ← set_key "version" (j_number 1) json_info;
  json_info ← at_key "params" (at_key "learn_info" (spy_fdb_info learn_info)) json_info;
  at_key "params" (set_key "insert_entry" (j_bool insert_entry)) json_info.

(** What is printed; [None] when an exception leaves the function. *)
Definition spy_config_fdb_entry (learn_info : mac_learning_info) (insert_entry : bool)
  (grpc_addr : string) : option string :=
  json_info ← spy_json learn_info insert_entry;
  text ← j_dump 2 json_info;
  let endl := String (Ascii.ascii_of_nat 10) "" in
  Some (endl +:+ text +:+ endl).

(** ** Lemmas *)

Definition spy_tunnel_members (t : tunnel_info) : gmap string J :=
  <["remote_ip" := j_object (ip_members (remote_ip t))]>
  (<["local_ip" := j_object (ip_members (local_ip t))]>
  (<["src_port" := j_number (tnl_src_port t)]>
  (<["port_id" := j_number (tnl_port_id t)]>
  (<["ifindex" := j_number (ifindex t)]> ∅)))).

Definition spy_learn_members (l : mac_learning_info) : gmap string J :=
  <["tnl_info" := j_object (spy_tunnel_members (tnl_info l))]>
  (<["vlan_info" := j_object (port_vlan_members (vlan_mode_info l))]>
  (<["rx_src_port" := j_number (rx_src_port l)]>
  (<["src_port" := j_number (src_port l)]>
  (<["bridge_id" := j_number (bridge_id l)]>
  (<["mac_addr" := mac_value (mac_addr l)]>
  (<["is_vlan" := j_bool (is_vlan l)]> (<["is_tunnel" := j_bool (is_tunnel l)]> ∅))))))).

Lemma spy_ip_journal a j : spy_ip a j = IpAddrToJson a j.
Proof. done. Qed.

Lemma spy_tnl_info_object t :
  spy_tnl_info t j_null = Some (j_object (spy_tunnel_members t)).
Proof.
  unfold spy_tnl_info. json_build. rewrite spy_ip_journal, IpAddrToJson_object. json_build.
  by rewrite spy_ip_journal, IpAddrToJson_object.
Qed.

Lemma spy_fdb_info_object l :
  spy_fdb_info l j_null = Some (j_object (spy_learn_members l)).
Proof.
  unfold spy_fdb_info, spy_vlan_info. json_build. by rewrite spy_tnl_info_object.
Qed.

Lemma spy_json_object l b :
  spy_json l b =
  Some (j_object
    (<["params" := params_with b "learn_info" (j_object (spy_learn_members l))]>
    (<["params" := j_object (<["learn_info" := j_object (spy_learn_members l)]> ∅)]>
    (<["version" := j_number 1]>
    (<["name" := j_string "ovsp4rt_config_fdb_entry"]> ∅))))).
Proof.
  unfold spy_json. json_build. rewrite spy_fdb_info_object. json_build.
  rewrite (at_key_present _ _ _ (j_object (<["learn_info" := j_object (spy_learn_members l)]> ∅)))
    by (rewrite !lookup_key; reflexivity).
  by json_build.
Qed.

Lemma spy_tunnel_subset t : spy_tunnel_members t ⊆ tunnel_members (J := J) t.
Proof.
  apply map_subseteq_spec. intros k v E. unfold spy_tunnel_members in E.
  rewrite !lookup_insert_Some, lookup_empty in E. unfold tunnel_members.
  repeat (destruct E as [[<- <-]|[_ E]]; [rewrite !lookup_key; reflexivity|]). done.
Qed.

(** Up to the tunnel the spy writes what the journal writes. *)
Lemma spy_learn_common l k :
  k <> "tnl_info" -> k <> "vln_info" -> spy_learn_members l !! k = learn_members (J := J) l !! k.
Proof.
  intros Ht Hv. unfold spy_learn_members, learn_members. cbv zeta.
  rewrite lookup_insert_ne by done.
  destruct (is_tunnel l); [by rewrite (lookup_insert_ne _ "tnl_info") by done|].
  destruct (is_vlan l); [by rewrite (lookup_insert_ne _ "vln_info") by done|done].
Qed.

(** ** Properties *)

(** spy_against_journal: the spy never throws while it builds its JSON value,
    which has the learning event under [params], as the journal has it: with
    the same members beside the union, and of the union always the tunnel, with
    a part of the members that the journal writes of a tunnel ([dst_port],
    [vni], [vlan_info], [bridge_id] and [tunnel_type] are left out). *)
Theorem spy_against_journal l b :
  exists json members params m mj,
    spy_json l b = Some json /\ j_members json = Some members /\
    members !! "params" ≫= j_members = Some params /\
    params !! "insert_entry" = Some (j_bool b) /\
    params !! "learn_info" = Some (j_object m) /\
    MacLearningInfoToJson l j_null = Some (j_object mj) /\
    (forall k, k <> "tnl_info" -> k <> "vln_info" -> m !! k = mj !! k) /\
    exists t, m !! "tnl_info" = Some (j_object t) /\
      dom t = {["ifindex"; "port_id"; "src_port"; "local_ip"; "remote_ip"]} /\
      exists tj, TunnelInfoToJson (tnl_info l) j_null = Some (j_object tj) /\ t ⊆ tj.
Proof.
  rewrite spy_json_object, MacLearningInfoToJson_object, TunnelInfoToJson_object.
  eexists _, _, _, (spy_learn_members l), _. split; [done|].
  split; [apply j_members_object|].
  split; [rewrite lookup_insert_eq; apply j_members_object|].
  split; [by rewrite !lookup_key|]. split; [by rewrite !lookup_key|]. split; [done|].
  split; [apply spy_learn_common|].
  exists (spy_tunnel_members (tnl_info l)). split; [done|].
  split; [unfold spy_tunnel_members; rewrite !dom_insert_L, dom_empty_L; set_solver|].
  eexists. split; [done|apply spy_tunnel_subset].
Qed.

(** spy_faithful: the value determines the insert flag and the learning event,
    except for the members of the tunnel it leaves out. *)
Theorem spy_faithful l1 b1 l2 b2 :
  wf_mac_learning_info l1 -> wf_mac_learning_info l2 ->
  spy_json l1 b1 = spy_json l2 b2 ->
  b1 = b2 /\ is_tunnel l1 = is_tunnel l2 /\ is_vlan l1 = is_vlan l2 /\
  mac_addr l1 = mac_addr l2 /\ vlan_mode_info l1 = vlan_mode_info l2 /\
  bridge_id l1 = bridge_id l2 /\ src_port l1 = src_port l2 /\ rx_src_port l1 = rx_src_port l2 /\
  ifindex (tnl_info l1) = ifindex (tnl_info l2) /\
  recorded_ip (local_ip (tnl_info l1)) = recorded_ip (local_ip (tnl_info l2)) /\
  recorded_ip (remote_ip (tnl_info l1)) = recorded_ip (remote_ip (tnl_info l2)).
Proof.
  intros (Hm1 & _ & _ & _ & _ & (_ & _ & _ & Hl1 & Hr1 & _))
    (Hm2 & _ & _ & _ & _ & (_ & _ & _ & Hl2 & Hr2 & _)) E.
  rewrite !spy_json_object in E. apply (inj Some), (inj j_object) in E.
  at_member E "params" E1. apply (inj Some), params_with_inj in E1 as [-> E1%(inj j_object)]; [|done].
  clear E. unfold spy_learn_members in E1.
  at_member E1 "is_tunnel" N1. at_member E1 "is_vlan" N2. at_member E1 "mac_addr" N3.
  at_member E1 "vlan_info" N4. at_member E1 "bridge_id" N5. at_member E1 "src_port" N6.
  at_member E1 "rx_src_port" N7. at_member E1 "tnl_info" E2. clear E1.
  apply (inj Some), (inj j_object) in E2. unfold spy_tunnel_members in E2.
  at_member E2 "ifindex" N8. at_member E2 "local_ip" N9. at_member E2 "remote_ip" N10. clear E2.
  apply (inj Some), (inj j_object), ip_members_inj in N9; [|done..].
  apply (inj Some), (inj j_object), ip_members_inj in N10; [|done..].
  apply (inj Some), mac_value_inj in N3; [|done..].
  apply (inj Some), (inj j_object), port_vlan_members_inj in N4.
  apply (inj Some), (inj j_bool) in N1, N2. apply (inj Some), (inj j_number) in N5, N6, N7, N8.
  done.
Qed.
End Spy.
