(* ===== verification/Threads.v ===== *)
(** * Several threads

    Open vSwitch calls the API from more than one thread; that is why the id of
    the thread is part of the election id ([session/ovsp4rt_session.cc]). Each
    call has its own client, so what threads share is the server. A pool is a
    list of running API calls and the server; a step is one call of a method of
    [ClientInterface] by one thread. *)

From stdpp Require Import gmap well_founded relations.
From S2P Require Import Dpdk.
From S2P Require Import Prelude P4Runtime OvsP4rt P4InfoUtils Es2kEncoders Pipelines.
From S2P Require Import Client Session ClientImpl Switch Server Es2kFdb Es2kTunnel.
From S2P Require Import Es2kIpMacMap Es2kPorts.

(** ** The step relation *)

(** A thread: what is left of its API function, and its client. *)
Record thread := MkThread {
  th_prog : prog Status;
  th_session : option OvsP4rtSession;
  th_env : Env;
  th_out : list string;
  th_fault : bool;
}.

Record pool (S : Type) := MkPool { threads : list thread; pool_server : S }.
Arguments MkPool {_} _ _.
Arguments threads {_} _.
Arguments pool_server {_} _.

(** The client of a thread, in front of the server. *)
Definition client_of {S} (s : S) (th : thread) : ClientState S :=
  MkClient (th_session th) s (th_env th) (th_out th) (th_fault th).

Definition thread_of {S} (p : prog Status) (w : ClientState S) : thread :=
  MkThread p (session_ w) (cl_env w) (cl_out w) (cl_fault w).

(** An API function that has been called: [Client client; DoConfig...(client, ...)]. *)
Definition start (env : Env) (p : prog Status) : thread := MkThread p None env [] false.

Section Threads.
Context {S : Type} `{P4RuntimeStub S}.

(** The next call of thread [i]. *)
Definition thread_step (i : nat) (P : pool S) : option (pool S) :=
  th ← threads P !! i;
  match th_prog th with
  | Ret _ => None
  | Vis c k =>
      let '(r, w) := handle c (client_of (pool_server P) th) in
      Some (MkPool (<[i := thread_of (k r) w]> (threads P)) (cl_server w))
  end.

Inductive step : pool S -> pool S -> Prop :=
| step_thread i P P' : thread_step i P = Some P' -> step P P'.

(** The scheduler that lets the threads [order] take a step each, in order. *)
Fixpoint run_schedule (order : list nat) (P : pool S) : pool S :=
  match order with
  | [] => P
  | i :: order => run_schedule order (default P (thread_step i P))
  end.

Definition returned (th : thread) : option Status :=
  match th_prog th with Ret s => Some s | Vis _ _ => None end.

(** ** Termination *)

(** What a call leaves to run. *)
Inductive next : prog Status -> prog Status -> Prop :=
| next_call c k r : next (k r) (Vis c k).

Lemma next_wf : well_founded next.
Proof.
  intros p. induction p as [a|c k IH]; constructor; intros q Hq; [by inversion Hq|].
  refine (match Hq in next q0 p0 return
      match p0 with
      | Ret _ => True
      | Vis c k => (forall r, Acc next (k r)) -> Acc next q0
      end with next_call c k r => fun IH => IH r end IH).
Qed.

Lemma thread_step_next i P P' :
  thread_step i P = Some P' -> step_in next (th_prog <$> threads P') (th_prog <$> threads P).
Proof.
  unfold thread_step. destruct (threads P !! i) as [th|] eqn:Hi; [|done]. simpl.
  destruct (th_prog th) as [a|c k] eqn:Hp; [done|].
  destruct (handle c _) as [r w]. intros [= <-]. simpl.
  rewrite list_fmap_insert. apply (step_in_insert _ _ _ (Vis c k)).
  - by rewrite list_lookup_fmap, Hi, <- Hp.
  - exact (next_call c k r).
Qed.

Lemma step_wf : well_founded (flip step).
Proof.
  apply (wf_projected (step_in next) (fun P => th_prog <$> threads P));
    [|apply step_in_wf, next_wf].
  intros P' P [i ? ? Hs]. by apply thread_step_next in Hs.
Qed.

Lemma step_progress P :
  (exists P', step P P') \/ Forall (fun th => is_Some (returned th)) (threads P).
Proof.
  destruct (decide (Forall (fun th => is_Some (returned th)) (threads P))) as [|Hn]; [by right|left].
  apply not_Forall_Exists, Exists_exists in Hn as (th & Hth & Hr); [|apply _].
  apply list_elem_of_In, list_elem_of_lookup in Hth as [i Hi].
  destruct (th_prog th) as [a|c k] eqn:Hp.
  { destruct Hr. unfold returned. rewrite Hp. by eexists. }
  destruct (handle c (client_of (pool_server P) th)) as [r w] eqn:Hh.
  exists (MkPool (<[i := thread_of (k r) w]> (threads P)) (cl_server w)).
  exists i. unfold thread_step. rewrite Hi. simpl. by rewrite Hp, Hh.
Qed.

Lemma thread_step_enabled i P th :
  threads P !! i = Some th -> returned th = None -> is_Some (thread_step i P).
Proof.
  intros Hi Hr. unfold thread_step, returned in *. rewrite Hi. simpl.
  destruct (th_prog th) as [a|c k]; [done|].
  destruct (handle c (client_of (pool_server P) th)) as [r w]. by eexists.
Qed.

Lemma pool_terminates P :
  exists P', rtc step P P' /\ Forall (fun th => is_Some (returned th)) (threads P').
Proof.
  induction (step_wf P) as [P _ IH].
  destruct (step_progress P) as [[P' Hs]|Hr]; [|by exists P].
  destruct (IH P' Hs) as (P'' & Hss & Hr). exists P''. split; [|done].
  by eapply rtc_l.
Qed.

Lemma run_schedule_rtc order P : rtc step P (run_schedule order P).
Proof.
  revert P. induction order as [|i order IH]; intros P; simpl; [done|].
  destruct (thread_step i P) as [P'|] eqn:Hs; [|apply IH].
  eapply rtc_l; [|apply IH]. by exists i.
Qed.

(** ** The session pointer *)

(** Whether there is a session after call [c] returned [r]; [None] when the
    call would have dereferenced a null one. *)
Definition after (has : bool) (c : call) : call_ret c -> option bool :=
  match c with
  | connect _ => fun r => Some (has || ok r)
  | cout _ => fun _ => Some has
  | _ => fun _ => if has then Some true else None
  end.

(** No run of the program dereferences a null session, whatever the calls
    return. *)
Fixpoint safe (has : bool) (p : prog Status) : Prop :=
  match p with
  | Ret _ => True
  | Vis c k => forall r, match after has c r with
                         | Some has' => safe has' (k r)
                         | None => False
                         end
  end.

Lemma safe_true p : safe true p.
Proof.
  induction p as [a|c k IH]; [done|]. intros r. by destruct c; apply IH.
Qed.

Lemma safe_prologue addr (f : P4Info -> prog Status) :
  safe false
    (status ← do_call (connect addr);
     if negb (ok status) then mret status else
     '(status, p4info) ← do_call getPipelineConfig;
     if negb (ok status) then mret status else f p4info).
Proof. intros r. simpl. destruct (ok r); [apply safe_true|done]. Qed.

Definition thread_ok (th : thread) : Prop :=
  th_fault th = false /\ safe (bool_decide (is_Some (th_session th))) (th_prog th).

(** A session is never lost. *)
Lemma handle_after has c (w : ClientState S) has' :
  cl_fault w = false -> (has = true -> is_Some (session_ w)) ->
  after has c (handle c w).1 = Some has' ->
  cl_fault (handle c w).2 = false /\ (has' = true -> is_Some (session_ (handle c w).2)).
Proof.
  intros Hf Hs Ha. destruct has.
  { destruct (handle_live c w) as [Hses Hfault]; [by split; [apply Hs|]|]. by split. }
  destruct c; simpl in Ha; try done.
  - simpl in *. pose proof (connect_fault grpc_addr w) as Hcf.
    pose proof (connect_live grpc_addr w Hf) as Hcl. split; [congruence|].
    injection Ha as <-. intros Hok. by apply Hcl.
  - injection Ha as <-. by split.
Qed.

Lemma thread_step_ok i P P' :
  thread_step i P = Some P' -> Forall thread_ok (threads P) -> Forall thread_ok (threads P').
Proof.
  unfold thread_step. destruct (threads P !! i) as [th|] eqn:Hi; [|done]. simpl.
  destruct (th_prog th) as [a|c k] eqn:Hp; [done|].
  destruct (handle c (client_of (pool_server P) th)) as [r w] eqn:Hh.
  intros [= <-] Hall. simpl. apply Forall_insert; [done|].
  assert (Hth : thread_ok th) by (by eapply Forall_lookup_1 in Hall).
  destruct Hth as [Hf Hsafe]. rewrite Hp in Hsafe. specialize (Hsafe r).
  destruct (after _ c r) as [has'|] eqn:Ha; [|done].
  pose proof (handle_after (bool_decide (is_Some (th_session th))) c
    (client_of (pool_server P) th) has' Hf) as Hafter.
  rewrite Hh in Hafter. destruct Hafter as [Hf' Hs'].
  { intros Hb. by apply bool_decide_eq_true in Hb. }
  { exact Ha. }
  split; [exact Hf'|]. cbn [th_session th_prog thread_of].
  destruct (decide (is_Some (session_ w))) as [Hses|Hses].
  - rewrite bool_decide_true by done. apply safe_true.
  - rewrite bool_decide_false by done. destruct has'; [by destruct Hses; apply Hs'|exact Hsafe].
Qed.

(** ** Properties *)

(** The API functions, as the threads run them. *)
Inductive api_function : prog Status -> Prop :=
| api_fdb l ins addr : api_function (Es2kFdb.DoConfigFdbEntry l ins addr)
| api_tunnel t ins addr : api_function (Es2kTunnel.DoConfigTunnelEntry t ins addr)
| api_ip_mac_map im ins addr : api_function (DoConfigIpMacMapEntry im ins addr)
| api_rx_tunnel_src t ins addr : api_function (DoConfigRxTunnelSrcEntry t ins addr)
| api_src_port sp ins addr : api_function (DoConfigSrcPortEntry sp ins addr)
| api_tunnel_src_port sp ins addr : api_function (DoConfigTunnelSrcPortEntry sp ins addr)
| api_vlan v ins addr : api_function (DoConfigVlanEntry v ins addr)
| api_dpdk_fdb l ins addr : api_function (Dpdk.DoConfigFdbEntry l ins addr)
| api_dpdk_tunnel t ins addr : api_function (Dpdk.DoConfigTunnelEntry t ins addr).

Lemma api_function_safe p : api_function p -> safe false p.
Proof. destruct 1; apply safe_prologue. Qed.

(** threads_terminate: however the threads are interleaved and whatever the
    server answers, a pool of API calls only makes finitely many calls of the
    client. *)
Theorem threads_terminate : well_founded (flip step).
Proof. apply step_wf. Qed.

(** threads_progress: no API call waits for another. From every pool some
    interleaving lets all the calls return; a thread that has not returned can
    always take its next step; and a pool that cannot take any has returned
    from all of them. *)
Theorem threads_progress P :
  (exists P', rtc step P P' /\ Forall (fun th => is_Some (returned th)) (threads P')) /\
  (forall i th, threads P !! i = Some th -> returned th = None ->
     is_Some (thread_step i P)) /\
  (nf step P -> Forall (fun th => is_Some (returned th)) (threads P)).
Proof.
  split_and!; [apply pool_terminates|intros i th; apply thread_step_enabled|].
  intros Hnf. by destruct (step_progress P) as [Hs|].
Qed.

(** C12 threads_session_invariant: in every state a pool of API calls reaches, no
    thread has dereferenced a null session, and none will: each that has no
    session yet is about to connect or to return. *)
Theorem threads_session_invariant calls (s : S) P :
  Forall (fun c => api_function c.2) calls ->
  rtc step (MkPool ((fun c => start c.1 c.2) <$> calls) s) P ->
  Forall (fun th => th_fault th = false /\
    safe (bool_decide (is_Some (th_session th))) (th_prog th)) (threads P).
Proof.
  intros Hcalls Hsteps.
  assert (Hinit : Forall thread_ok ((fun c => start c.1 c.2) <$> calls)).
  { apply Forall_fmap. eapply Forall_impl; [|exact Hcalls]. intros c Hc.
    split; [done|]. by apply api_function_safe. }
  clear Hcalls. remember (MkPool _ s) as P0 eqn:E.
  assert (H0 : Forall thread_ok (threads P0)) by by rewrite E.
  clear E Hinit. induction Hsteps as [|P0 P1 P2 [i ? ? Hs] _ IH]; [exact H0|].
  apply IH. by eapply thread_step_ok.
Qed.
End Threads.

(** ** Two threads at one switch *)

Definition vlan_7 : prog Status := DoConfigVlanEntry 7 true "localhost:9559".
Definition insert_tunnel : prog Status :=
  Es2kTunnel.DoConfigTunnelEntry sample_tunnel true "localhost:9559".

(** Two threads call the API within one second; the second has the larger
    thread id. The switch accepts every entry. *)
Definition two_calls : pool (RefServer es2k_p4info (fun _ => true)) :=
  MkPool [start (default_Env 1700000000 42 None) insert_tunnel;
          start (default_Env 1700000000 43 None) vlan_7]
    (MkRefServer ∅ None None).

(** The second thread connects between two requests of the first. *)
Definition overlapping : list nat := ([0; 0; 0; 0; 1] ++ replicate 10 0 ++ replicate 10 1)%nat.
Definition one_by_one : list nat := (replicate 10 0 ++ replicate 10 1)%nat.

(** threads_partial_tunnel: a session is taken over by the next one with a
    higher election id. If another thread connects while a tunnel is inserted,
    the rest of the insertion is refused and the switch is left with the
    encapsulation entry alone, although it accepts every entry and both calls
    succeed when they run one after the other. (Two runs; [net_tunnel_cut_off]
    is about every run.) *)
Theorem threads_partial_tunnel :
  let P1 := run_schedule overlapping two_calls in
  let P2 := run_schedule one_by_one two_calls in
  rtc step two_calls P1 /\ rtc step two_calls P2 /\
  (returned <$> threads P1) = [Some (ErrStatus (MkError 7 "not primary")); Some OkStatus] /\
  rs_tables (pool_server P1) =
    (switch_writes (fun _ => true) true
       (take 1 (Es2kTunnel.tunnel_entries sample_tunnel es2k_p4info true) ++
        vlan_entries 7 es2k_p4info true) ∅).2 /\
  (returned <$> threads P2) = [Some OkStatus; Some OkStatus] /\
  rs_tables (pool_server P2) =
    (switch_writes (fun _ => true) true
       (Es2kTunnel.tunnel_entries sample_tunnel es2k_p4info true ++
        vlan_entries 7 es2k_p4info true) ∅).2.
Proof.
  split; [exact (run_schedule_rtc overlapping two_calls)|].
  split; [exact (run_schedule_rtc one_by_one two_calls)|].
  split; [vm_compute; reflexivity|]. split; [by_computation|].
  split; [vm_compute; reflexivity|by_computation].
Qed.

Lemma threads_session_invariant_witness :
  Forall (fun th => th_fault th = false) (threads (run_schedule overlapping two_calls)).
Proof.
  pose proof (threads_session_invariant
    [(default_Env 1700000000 42 None, insert_tunnel); (default_Env 1700000000 43 None, vlan_7)]
    (MkRefServer ∅ None None : RefServer es2k_p4info (fun _ => true))
    (run_schedule overlapping two_calls)) as Hi.
  eapply Forall_impl; [|apply Hi; [repeat constructor|apply run_schedule_rtc]].
  intros th [Hf _]. exact Hf.
Defined.

Lemma threads_progress_witness : is_Some (thread_step 1 two_calls).
Proof.
  apply (proj1 (proj2 (threads_progress two_calls)) 1%nat
    (start (default_Env 1700000000 43 None) vlan_7)); reflexivity.
Defined.
