(* ===== verification/Rpc.v ===== *)
(** * The RPCs of an API call

    A call of [ClientInterface] is one step in [Threads]. Here it is taken apart
    into what it asks of gRPC: opening the stream of a session, writing to it,
    reading from it, the unary calls, and closing it, which the destructor of
    [OvsP4rtSession] does. An API call is a finite tree of these ([rprog]);
    [rpc_client_agrees] shows that on any stub it is the call of [ClientImpl]. *)

From S2P Require Import Prelude P4Runtime Client Session ClientImpl.

(** ** Calls of gRPC *)

(** Streams are numbered. A read of entities is one call, with the partial
    responses its reader returns and the status it finishes with. *)
Inductive srpc :=
| NewStream (credentials : ChannelCredentials) (address : string)
| StreamWrite (stream : nat) (request : Arbitration)
| StreamRead (stream : nat)
| StreamFinish (stream : nat)
| StreamClose (stream : nat)
| PipelineConfig (device_id : Z)
| ReadEntities (request : ReadRequest)
| WriteUpdates (request : WriteRequest).

Definition srpc_ret (r : srpc) : Type :=
  match r with
  | NewStream _ _ => nat
  | StreamWrite _ _ => bool
  | StreamRead _ => option StreamMessageResponse
  | StreamFinish _ => grpc_Status
  | StreamClose _ => unit
  | PipelineConfig _ => grpc_Status * P4Info
  | ReadEntities _ => list ReadResponse * grpc_Status
  | WriteUpdates _ => grpc_Status
  end.

Inductive rprog (A : Type) : Type :=
| RRet (a : A)
| RVis (r : srpc) (k : srpc_ret r -> rprog A).
Arguments RRet {_} _.
Arguments RVis {_} _ _.

#[export] Instance rprog_ret : MRet rprog := @RRet.

#[export] Instance rprog_bind : MBind rprog :=
  fun A B f => fix bind p :=
    match p with
    | RRet a => f a
    | RVis r k => RVis r (fun x => bind (k x))
    end.

Definition rcall (r : srpc) : rprog (srpc_ret r) := RVis r RRet.

(** ** The client, call by call *)

(** A [Client]: [session_], with the stream it owns. *)
Record RpcClient := MkRpcClient {
  rc_session : option (nat * OvsP4rtSession);
  rc_env : Env;
  rc_out : list string;
  rc_fault : bool;
}.

Definition new_RpcClient (env : Env) : RpcClient := MkRpcClient None env [] false.

(** [OvsP4rtSession::Create]: the constructor opens the stream, and an error
    destroys the session. *)
Definition Create_rpc (env : Env) (device_id : Z) (role_name : string) (election_id : Z)
  (stream : nat) : rprog (StatusOr OvsP4rtSession) :=
  let session := new_OvsP4rtSession device_id role_name election_id in
  let fail e := rcall (StreamClose stream);; mret (StatusError e) in
  let arbitrate (config : option string) :=
    let arbt_request :=
      MkArbitration device_id role_name config (Some (election_id_ session)) 0 in
    written ← rcall (StreamWrite stream arbt_request);
    if negb written then
      rcall (StreamFinish stream);;
      fail (UnavailableError
        "Unable to initiate P4RT connection for Write request, closing stream channel")
    else
    response ← rcall (StreamRead stream);
    match response with
    | None =>
        rcall (StreamFinish stream);;
        fail (InternalError "No arbitration response received")
    | Some kOtherUpdate => fail (InternalError "No arbitration update received")
    | Some (kArbitration arbitration) =>
        if negb (arb_device_id arbitration =? device_id_ session) then
          fail (InternalError "Received device id doesn't match")
        else mret (StatusValue session)
    end in
  match env_role_config env with
  | None => arbitrate None
  | Some (StatusError e) => fail e
  | Some (StatusValue role_config) => arbitrate (Some role_config)
  end.

Definition Create_address_rpc (env : Env) (address : string) (credentials : ChannelCredentials)
  (device_id : Z) (role_name : string) (election_id : Z)
  : rprog (nat * StatusOr OvsP4rtSession) :=
  let election_id := w128 (election_id + env_pthread_self env) in
  stream ← rcall (NewStream credentials address);
  result ← Create_rpc env device_id role_name election_id stream;
  mret (stream, result).

(** The destructor of what [session_] points to. *)
Definition close_session (w : RpcClient) : rprog unit :=
  match rc_session w with
  | Some (stream, _) => rcall (StreamClose stream)
  | None => mret ()
  end.

(** Assigning [session_] destroys the session it pointed to. *)
Definition connect_rpc (grpc_addr : string) (w : RpcClient) : rprog (Status * RpcClient) :=
  let env := rc_env w in
  let '(credentials, out) := GenerateClientCredentials env in
  let out := rc_out w ++ out in
  '(stream, result) ←
    Create_address_rpc env grpc_addr credentials (w32 (FLAGS_device_id env)) (FLAGS_role_name env)
      (TimeBasedElectionId (env_now env));
  match result with
  | StatusError e => mret (ErrStatus e, MkRpcClient (rc_session w) env out (rc_fault w))
  | StatusValue session =>
      close_session w;;
      mret (OkStatus, MkRpcClient (Some (stream, session)) env out (rc_fault w))
  end.

(** Call [f] with [session_.get()]. *)
Definition with_session_rpc {A} (w : RpcClient) (dflt : A) (f : OvsP4rtSession -> rprog A)
  : rprog (A * RpcClient) :=
  match rc_session w with
  | Some (_, session) => a ← f session; mret (a, w)
  | None => mret (dflt, MkRpcClient None (rc_env w) (rc_out w) true)
  end.

Definition GetForwardingPipelineConfig_rpc (session : OvsP4rtSession)
  : rprog (Status * P4Info) :=
  '(grpc_status, p4info) ← rcall (PipelineConfig (DeviceId session));
  mret (OkStatus, p4info).

Definition SendReadRequest_rpc (read_request : ReadRequest) (session : OvsP4rtSession)
  : rprog (StatusOr ReadResponse) :=
  '(partial_responses, reader_status) ← rcall (ReadEntities read_request);
  let response := fold_left MergeFrom partial_responses default_ReadResponse in
  mret match GrpcStatusToAbslStatus reader_status with
       | ErrStatus e => StatusError e
       | OkStatus => StatusValue response
       end.

Definition SendWriteRequest_rpc (write_request : WriteRequest) (session : OvsP4rtSession)
  : rprog Status :=
  status ← rcall (WriteUpdates write_request);
  mret (GrpcStatusToAbslStatus status).

Definition handle_rpc (c : call) (w : RpcClient) : rprog (call_ret c * RpcClient) :=
  match c with
  | connect grpc_addr => connect_rpc grpc_addr w
  | getPipelineConfig =>
      with_session_rpc w (OkStatus, default_P4Info) GetForwardingPipelineConfig_rpc
  | initReadRequest request =>
      with_session_rpc w (request, 0%nat) (fun s => mret (SetupTableEntryToRead s request))
  | sendReadRequest request =>
      with_session_rpc w (StatusError (InternalError "")) (SendReadRequest_rpc request)
  | initInsertRequest request =>
      with_session_rpc w (request, 0%nat) (fun s => mret (SetupTableEntryToInsert s request))
  | initModifyRequest request =>
      with_session_rpc w (request, 0%nat) (fun s => mret (SetupTableEntryToModify s request))
  | initDeleteRequest request =>
      with_session_rpc w (request, 0%nat) (fun s => mret (SetupTableEntryToDelete s request))
  | initWriteRequest request insert_entry =>
      with_session_rpc w (request, 0%nat) (fun s =>
        mret (if insert_entry then SetupTableEntryToInsert s request
              else SetupTableEntryToDelete s request))
  | sendWriteRequest request =>
      with_session_rpc w OkStatus (SendWriteRequest_rpc request)
  | cout line => mret ((), MkRpcClient (rc_session w) (rc_env w) (rc_out w ++ [line]) (rc_fault w))
  end.

Fixpoint run_rpc {A} (p : prog A) (w : RpcClient) : rprog (A * RpcClient) :=
  match p with
  | Ret a => mret (a, w)
  | Vis c k => '(r, w) ← handle_rpc c w; run_rpc (k r) w
  end.

(** An API function: [Client client; return DoConfig...(client, ...)], with the
    destructor of [client]. *)
Definition api_rpc {A} (env : Env) (p : prog A) : rprog A :=
  '(a, w) ← run_rpc p (new_RpcClient env);
  close_session w;;
  mret a.

(** ** On a stub *)

Section Stub.
Context {S : Type} `{P4RuntimeStub S}.

(** A stub has one stream, and does not see it close. *)
Definition stub_rpc (r : srpc) : S -> srpc_ret r * S :=
  match r with
  | NewStream credentials address => fun s => (0%nat, stub_StreamChannel credentials address s)
  | StreamWrite _ request => stub_StreamWrite request
  | StreamRead _ => stub_StreamRead
  | StreamFinish _ => stub_StreamFinish
  | StreamClose _ => fun s => ((), s)
  | PipelineConfig device_id => stub_GetForwardingPipelineConfig device_id
  | ReadEntities request => stub_Read request
  | WriteUpdates request => stub_Write request
  end.

Fixpoint rrun {A} (q : rprog A) (s : S) : A * S :=
  match q with
  | RRet a => (a, s)
  | RVis r k => let '(x, s) := stub_rpc r s in rrun (k x) s
  end.

Lemma rrun_bind {A B} (q : rprog A) (f : A -> rprog B) s :
  rrun (q ≫= f) s = let '(a, s) := rrun q s in rrun (f a) s.
Proof.
  revert s. induction q as [a|r k IH]; intros s; simpl; [done|].
  destruct (stub_rpc r s) as [x s']. apply IH.
Qed.

(** The state of [ClientImpl]'s client; the number of the stream is not in it. *)
Definition client_state (w : RpcClient) (s : S) : ClientState S :=
  MkClient (snd <$> rc_session w) s (rc_env w) (rc_out w) (rc_fault w).

Lemma Create_rpc_agrees env d r e stream (s : S) :
  rrun (Create_rpc env d r e stream) s = Create env d r e s.
Proof.
  unfold Create_rpc, Create. destruct (env_role_config env) as [[c|er]|]; [|done|];
    simpl; (destruct (stub_StreamWrite _ s) as [[] s1]); simpl;
    try (destruct (stub_StreamFinish s1); done);
    (destruct (stub_StreamRead s1) as [[[a|]|] s2]); simpl;
    try (destruct (stub_StreamFinish s2)); try done; by destruct (negb _).
Qed.

Lemma close_session_rrun w (s : S) : rrun (close_session w) s = ((), s).
Proof. unfold close_session. by destruct (rc_session w) as [[]|]. Qed.

(** A call whose result is [r] and leaves the client [w'] and the server [s']. *)
Definition agree {R} (a : (R * RpcClient) * S) (b : R * ClientState S) : Prop :=
  b = (a.1.1, client_state a.1.2 a.2).

Lemma with_session_agrees {A} w (dflt : A) (f : OvsP4rtSession -> rprog A)
  (g : OvsP4rtSession -> S -> A * S) s :
  (forall ses, rrun (f ses) s = g ses s) ->
  agree (rrun (with_session_rpc w dflt f) s) (with_session (client_state w s) dflt g).
Proof.
  intros Hf. unfold with_session_rpc, with_session, agree. simpl.
  destruct (rc_session w) as [[n ses]|] eqn:Hw; simpl; [|done].
  rewrite rrun_bind, Hf. destruct (g ses s). simpl. unfold client_state. by rewrite Hw.
Qed.

Lemma Create_address_rpc_agrees env a cred d r e (s : S) :
  rrun (Create_address_rpc env a cred d r e) s =
  ((0%nat, (Create_address env a cred d r e s).1), (Create_address env a cred d r e s).2).
Proof.
  change (rrun (Create_address_rpc env a cred d r e) s) with
    (rrun (Create_rpc env d r (w128 (e + env_pthread_self env)) 0 ≫= fun x => mret (0%nat, x))
       (stub_StreamChannel cred a s)).
  rewrite rrun_bind, Create_rpc_agrees. unfold Create_address. by destruct (Create _ _ _ _ _).
Qed.

Lemma connect_agrees addr w (s : S) :
  agree (rrun (connect_rpc addr w) s) (Client_connect addr (client_state w s)).
Proof.
  unfold connect_rpc, Client_connect, agree. cbn [client_state cl_env cl_out cl_server].
  destruct (GenerateClientCredentials (rc_env w)) as [cred out].
  rewrite rrun_bind, Create_address_rpc_agrees.
  destruct (Create_address _ _ _ _ _ _ _) as [[ses|e] s']; [|done].
  cbn [fst snd]. by rewrite rrun_bind, close_session_rrun.
Qed.

Lemma handle_rpc_agrees c w (s : S) :
  agree (rrun (handle_rpc c w) s) (handle c (client_state w s)).
Proof.
  destruct c; simpl handle; simpl handle_rpc; try (by apply with_session_agrees).
  - apply connect_agrees.
  - apply with_session_agrees. intros ses. unfold GetForwardingPipelineConfig_rpc,
      GetForwardingPipelineConfig. simpl. by destruct (stub_GetForwardingPipelineConfig _ s) as [[] ?].
  - apply with_session_agrees. intros ses. unfold SendReadRequest_rpc, SendReadRequest. simpl.
    destruct (stub_Read _ s) as [[ps st] s']. simpl.
    by destruct (GrpcStatusToAbslStatus st).
  - unfold Client_initWriteRequest. by destruct insert_entry; apply with_session_agrees.
  - done.
Qed.

Lemma run_rpc_agrees {A} (p : prog A) w (s : S) :
  agree (rrun (run_rpc p w) s) (run p (client_state w s)).
Proof.
  revert w s. induction p as [a|c k IH]; intros w s; [done|]. simpl.
  pose proof (handle_rpc_agrees c w s) as Hc. rewrite rrun_bind.
  destruct (rrun (handle_rpc c w) s) as [[r w'] s']. rewrite Hc. simpl. apply IH.
Qed.

(** rpc_client_agrees: on any stub, the RPCs of an API function, one by one,
    give the result of the function on a new [Client] and leave the server as
    it does. *)
Theorem rpc_client_agrees {A} env (p : prog A) (s : S) :
  rrun (api_rpc env p) s =
  ((run p (new_Client env s)).1, cl_server (run p (new_Client env s)).2).
Proof.
  unfold api_rpc. rewrite rrun_bind.
  pose proof (run_rpc_agrees p (new_RpcClient env) s) as Hp.
  destruct (rrun (run_rpc p (new_RpcClient env)) s) as [[a w] s'].
  change (client_state (new_RpcClient env) s) with (new_Client env s) in Hp. rewrite Hp.
  simpl. by rewrite rrun_bind, close_session_rrun.
Qed.
End Stub.
