(* ===== verification/Arbitration.v ===== *)
(** * A server with streams, and calls interleaved by RPC

    The server arbitrates as the P4Runtime specification has it: every
    controller names an election id on its stream; an id that a connected
    controller has already is refused, and the stream ended; the controller
    that names an id no lower than any before becomes the primary, and the
    others are told; only the primary writes. When the primary's stream closes
    there is no primary until a controller names such an id again. All the
    controllers are calls of the sidecar, which have one role between them.

    [net] is a pool of API calls, each at some RPC, in front of such a server.
    A step is one RPC, the server's look at the next message of a stream, or
    its noticing that a stream has closed. *)

From stdpp Require Import gmap.
From S2P Require Import Prelude P4Runtime Client Session ClientImpl Switch Server Rpc.

(** ** The server *)

(** A stream: the messages the server has not looked at, its answers the client
    has not read, the election id it granted, whether the server ended the
    stream and whether the client closed it. *)
Record stream := MkStream {
  st_sent : list Arbitration;
  st_answers : list StreamMessageResponse;
  st_election : option Uint128;
  st_ended : bool;
  st_closed : bool;
}.

Definition new_stream : stream := MkStream [] [] None false false.

(** The tables; the highest election id granted so far; the streams, and the
    number of the next; and, for the theorems, the write requests that the
    server let through, each under its election id. *)
Record ArbServer (p4info : P4Info) (accepts : TableEntry -> bool) := MkArbServer {
  as_tables : tables;
  as_highest : option Uint128;
  as_streams : gmap nat stream;
  as_next : nat;
  as_log : list (Uint128 * list Update);
}.
Arguments MkArbServer {_ _} _ _ _ _ _.
Arguments as_tables {_ _} _.
Arguments as_highest {_ _} _.
Arguments as_streams {_ _} _.
Arguments as_next {_ _} _.
Arguments as_log {_ _} _.

Definition election_value (e : Uint128) : Z := u128_high e * 2 ^ 64 + u128_low e.

(** [e] is no lower than the highest. *)
Definition outranks (e : Uint128) (highest : option Uint128) : bool :=
  match highest with
  | Some e' => election_value e' <=? election_value e
  | None => true
  end.

Definition ALREADY_EXISTS : Z := 6.
Definition NOT_FOUND : Z := 5.
Definition grpc_INVALID_ARGUMENT : grpc_Status := MkGrpcStatus 3 "invalid arbitration".

(** An update to a controller about the primary. *)
Definition notice (highest : option Uint128) (code : Z) : StreamMessageResponse :=
  kArbitration (MkArbitration 1 "" None highest code).

(** Only controllers that take part in the arbitration are told. *)
Definition notify (m : StreamMessageResponse) (st : stream) : stream :=
  match st_election st with
  | Some _ => MkStream (st_sent st) (st_answers st ++ [m]) (st_election st) (st_ended st) (st_closed st)
  | None => st
  end.

Section ArbServer.
Context {p4info : P4Info} {accepts : TableEntry -> bool}.
Abbreviation S := (ArbServer p4info accepts).

Definition set_streams (f : gmap nat stream -> gmap nat stream) (s : S) : S :=
  MkArbServer (as_tables s) (as_highest s) (f (as_streams s)) (as_next s) (as_log s).

Definition set_highest (e : Uint128) (s : S) : S :=
  MkArbServer (as_tables s) (Some e) (as_streams s) (as_next s) (as_log s).

(** A stream holds [e]. *)
Definition holds (e : Uint128) (streams : gmap nat stream) : bool :=
  bool_decide (map_Exists (fun _ st => st_election st = Some e) streams).

(** The primary is connected and has the highest id. *)
Definition as_primary (s : S) : option Uint128 :=
  match as_highest s with
  | Some e => if holds e (as_streams s) then Some e else None
  | None => None
  end.

(** The server looks at the next message of stream [n]. *)
Definition arbitrate (n : nat) (s : S) : option S :=
  st ← as_streams s !! n;
  match st_sent st with
  | [] => None
  | a :: sent =>
      let ended := MkStream [] (st_answers st) None true (st_closed st) in
      match arb_election_id a with
      | Some e =>
          if (arb_device_id a =? 1) && negb (holds e (delete n (as_streams s))) then
            let primary := outranks e (as_highest s) in
            let answer := kArbitration (MkArbitration (arb_device_id a) (arb_role_name a)
              (arb_role_config a) (if primary then Some e else as_highest s)
              (if primary then 0 else ALREADY_EXISTS)) in
            let st := MkStream sent (st_answers st ++ [answer]) (Some e) false (st_closed st) in
            Some (if primary then
                    set_highest e
                      (set_streams (fun ss => <[n := st]> (notify (notice (Some e) ALREADY_EXISTS) <$> ss)) s)
                  else set_streams (<[n := st]>) s)
          else Some (set_streams (<[n := ended]>) s)
      | None => Some (set_streams (<[n := ended]>) s)
      end
  end.

(** The server notices that stream [n] has closed. *)
Definition disconnect (n : nat) (s : S) : option S :=
  st ← as_streams s !! n;
  if st_closed st then
    Some (set_streams (fun ss =>
      let ss := delete n ss in
      if bool_decide (is_Some (st_election st) /\ st_election st = as_highest s)
      then notify (notice (as_highest s) NOT_FOUND) <$> ss else ss) s)
  else None.

(** Only the primary writes. *)
Definition arb_write (req : WriteRequest) (s : S) : grpc_Status * S :=
  match wr_election_id req with
  | Some e =>
      if (wr_device_id req =? 1) && bool_decide (as_primary s = Some e) then
        let '(b, T) := ref_updates (accepts := accepts) (wr_updates req) (as_tables s) in
        (if b then grpc_OK else grpc_REJECTED,
         MkArbServer T (as_highest s) (as_streams s) (as_next s)
           (as_log s ++ [(e, wr_updates req)]))
      else (grpc_PERMISSION_DENIED, s)
  | None => (grpc_PERMISSION_DENIED, s)
  end.

Definition arb_read (req : ReadRequest) (s : S) : list ReadResponse * grpc_Status :=
  match mapM (ref_read_entity (as_tables s)) (rr_entities req) with
  | Some tes => (map (fun te => MkReadResponse [ENTITY_TABLE_ENTRY te]) tes, grpc_OK)
  | None => ([], grpc_NOT_FOUND)
  end.

(** [None] when the call blocks: a read until there is an answer or the stream
    has ended, [Finish] until it has ended. A write to a stream that has ended
    fails. *)
Definition arb_rpc (r : srpc) (s : S) : option (srpc_ret r * S) :=
  match r with
  | NewStream _ _ =>
      Some (as_next s, MkArbServer (as_tables s) (as_highest s)
        (<[as_next s := new_stream]> (as_streams s)) (1 + as_next s)%nat (as_log s))
  | StreamWrite n a =>
      match as_streams s !! n with
      | Some st =>
          if st_ended st then Some (false, s)
          else Some (true, set_streams (<[n :=
            MkStream (st_sent st ++ [a]) (st_answers st) (st_election st) false (st_closed st)]>) s)
      | None => Some (false, s)
      end
  | StreamRead n =>
      match as_streams s !! n with
      | Some st =>
          match st_answers st with
          | m :: answers => Some (Some m, set_streams (<[n :=
              MkStream (st_sent st) answers (st_election st) (st_ended st) (st_closed st)]>) s)
          | [] => if st_ended st then Some (None, s) else None
          end
      | None => Some (None, s)
      end
  | StreamFinish n =>
      match as_streams s !! n with
      | Some st => if st_ended st then Some (grpc_INVALID_ARGUMENT, s) else None
      | None => Some (grpc_INVALID_ARGUMENT, s)
      end
  | StreamClose n =>
      Some ((), set_streams (alter (fun st =>
        MkStream (st_sent st) (st_answers st) (st_election st) (st_ended st) true) n) s)
  | PipelineConfig _ => Some ((grpc_OK, p4info), s)
  | ReadEntities req => Some (arb_read req s, s)
  | WriteUpdates req => Some (arb_write req s)
  end.
End ArbServer.

(** ** The calls in front of it *)

Record net (p4info : P4Info) (accepts : TableEntry -> bool) := MkNet {
  net_calls : list (rprog Status);
  net_server : ArbServer p4info accepts;
}.
Arguments MkNet {_ _} _ _.
Arguments net_calls {_ _} _.
Arguments net_server {_ _} _.

Inductive nevent :=
| Call (i : nat)
| Arbitrate (n : nat)
| Disconnect (n : nat).

Section Net.
Context {p4info : P4Info} {accepts : TableEntry -> bool}.
Abbreviation net := (net p4info accepts).
Abbreviation S := (ArbServer p4info accepts).

(** [None] when the event cannot happen. *)
Definition net_event (ev : nevent) (N : net) : option net :=
  match ev with
  | Call i =>
      q ← net_calls N !! i;
      match q with
      | RRet _ => None
      | RVis r k =>
          '(x, s) ← arb_rpc r (net_server N);
          Some (MkNet (<[i := k x]> (net_calls N)) s)
      end
  | Arbitrate n => s ← arbitrate n (net_server N); Some (MkNet (net_calls N) s)
  | Disconnect n => s ← disconnect n (net_server N); Some (MkNet (net_calls N) s)
  end.

Inductive net_step : net -> net -> Prop :=
| net_step_event ev N N' : net_event ev N = Some N' -> net_step N N'.

(** Events in order, those that cannot happen left out. *)
Fixpoint net_run (evs : list nevent) (N : net) : net :=
  match evs with
  | [] => N
  | ev :: evs => net_run evs (default N (net_event ev N))
  end.

(** A server that has not met the sidecar yet, but perhaps other controllers,
    which have gone: [highest] is the highest id they had. *)
Definition fresh_server (T : tables) (highest : option Uint128) : S :=
  MkArbServer T highest ∅ 0 [].

(** API calls, each on a thread with its environment. *)
Definition net_start (calls : list (Env * prog Status)) (s : S) : net :=
  MkNet ((fun c => api_rpc c.1 c.2) <$> calls) s.

Definition net_returned (q : rprog Status) : option Status :=
  match q with RRet st => Some st | RVis _ _ => None end.

(** The election id a call names. *)
Definition call_election (env : Env) : Uint128 :=
  let e := w128 (TimeBasedElectionId (env_now env) + env_pthread_self env) in
  MkUint128 (Uint128High64 e) (Uint128Low64 e).

Lemma net_run_rtc evs N : rtc net_step N (net_run evs N).
Proof.
  revert N. induction evs as [|ev evs IH]; intros N; simpl; [done|].
  destruct (net_event ev N) as [N'|] eqn:He; [|apply IH].
  eapply rtc_l; [|apply IH]. by exists ev.
Qed.
End Net.
