(* ===== verification/NetProps.v ===== *)
(** * Interleaved RPCs: the order of writes, termination

    What holds of every pool of calls in front of an arbitrating server. *)

From Stdlib Require Import Wellfounded Relation_Operators.
From stdpp Require Import sorting gmap well_founded relations.
From S2P Require Import Prelude P4Runtime Client Session ClientImpl Switch Server Rpc.
From S2P Require Import Arbitration.

Section NetProps.
Context {p4info : P4Info} {accepts : TableEntry -> bool}.
Abbreviation net := (net p4info accepts).
Abbreviation S := (ArbServer p4info accepts).
Implicit Types (N : net) (s : S).

(** ** The order of the writes *)

(** The effect of write requests on the tables. *)
Definition replay (log : list (Uint128 * list Update)) (T : tables) : tables :=
  foldl (fun T x => (ref_updates (accepts := accepts) x.2 T).2) T log.

Definition no_higher (x y : Uint128 * list Update) : Prop :=
  election_value x.1 <= election_value y.1.

(** [e] has been granted, or something higher has. *)
Definition granted (e : Uint128) (highest : option Uint128) : Prop :=
  exists h, highest = Some h /\ election_value e <= election_value h.

Record log_inv (T0 : tables) s : Prop := {
  log_sorted : StronglySorted no_higher (as_log s);
  log_granted : Forall (fun x => granted x.1 (as_highest s)) (as_log s);
  log_replay : as_tables s = replay (as_log s) T0;
}.

Lemma granted_outranks e h h' :
  outranks h' h = true -> granted e h -> granted e (Some h').
Proof.
  intros Ho (h0 & -> & Hle). exists h'. split; [done|]. simpl in Ho. lia.
Qed.

(** What does not write keeps the invariant, if the highest id only grows. *)
Lemma log_inv_keep T0 s s' :
  as_log s' = as_log s -> as_tables s' = as_tables s ->
  (forall e, granted e (as_highest s) -> granted e (as_highest s')) ->
  log_inv T0 s -> log_inv T0 s'.
Proof.
  intros Hl HT Hg [Hs Hgr Hr]. split; rewrite ?Hl, ?HT; [done| |done].
  eapply list.Forall_impl; [exact Hgr|]. intros x. apply Hg.
Qed.

Lemma as_primary_highest s e : as_primary s = Some e -> as_highest s = Some e.
Proof. unfold as_primary. destruct (as_highest s); [|done]. by case_match. Qed.

Lemma replay_snoc log x T :
  replay (log ++ [x]) T = (ref_updates (accepts := accepts) x.2 (replay log T)).2.
Proof. unfold replay. by rewrite foldl_snoc. Qed.

Lemma arb_write_inv T0 req s : log_inv T0 s -> log_inv T0 (arb_write req s).2.
Proof.
  intros HI. unfold arb_write. destruct (wr_election_id req) as [e|]; [|done].
  case_match eqn:Hc; [|done]. apply andb_true_iff in Hc as [_ Hp%bool_decide_eq_true].
  apply as_primary_highest in Hp. destruct HI as [Hs Hg Hr].
  destruct (ref_updates _ _) as [b T] eqn:Hu. split; simpl.
  - apply StronglySorted_app_2; [|done|by repeat constructor].
    intros x y Hx ->%list_elem_of_singleton.
    rewrite list.Forall_forall in Hg. destruct (Hg x Hx) as (h & Hh & Hle).
    rewrite Hp in Hh. by simplify_eq.
  - apply list.Forall_app. split; [done|]. repeat constructor. exists e. by split.
  - rewrite replay_snoc, <- Hr. simpl. by rewrite Hu.
Qed.

Lemma arb_rpc_inv T0 r s x s' : arb_rpc r s = Some (x, s') -> log_inv T0 s -> log_inv T0 s'.
Proof.
  intros Hr HI. destruct r; simpl in Hr; repeat case_match; simplify_eq; try done;
    try (by apply (log_inv_keep T0 s)).
  pose proof (arb_write_inv T0 request s HI) as Hw. by rewrite Hr in Hw.
Qed.

Lemma arbitrate_inv T0 n s s' : arbitrate n s = Some s' -> log_inv T0 s -> log_inv T0 s'.
Proof.
  unfold arbitrate. destruct (as_streams s !! n) as [st|]; [|done]. simpl.
  destruct (st_sent st) as [|a sent]; [done|]. intros Ha HI.
  destruct (arb_election_id a) as [e|]; [case_match|]; simplify_eq;
    [|by apply (log_inv_keep T0 s)..].
  destruct (outranks e (as_highest s)) eqn:Ho; simplify_eq; [|by apply (log_inv_keep T0 s)].
  apply (log_inv_keep T0 s); [done..| |done]. intros e'. by apply granted_outranks.
Qed.

Lemma disconnect_inv T0 n s s' : disconnect n s = Some s' -> log_inv T0 s -> log_inv T0 s'.
Proof.
  unfold disconnect. destruct (as_streams s !! n) as [st|]; [|done]. simpl.
  destruct (st_closed st); [|done]. intros [= <-]. by apply (log_inv_keep T0 s).
Qed.

Lemma net_event_inv T0 ev N N' :
  net_event ev N = Some N' -> log_inv T0 (net_server N) -> log_inv T0 (net_server N').
Proof.
  destruct ev as [i|n|n]; simpl.
  - destruct (net_calls N !! i) as [[st|r k]|]; [done| |done]. simpl.
    destruct (arb_rpc r (net_server N)) as [[x s]|] eqn:Hr; [|done]. intros [= <-].
    by apply (arb_rpc_inv _ _ _ _ _ Hr).
  - destruct (arbitrate n _) as [s|] eqn:Hr; [|done]. intros [= <-]. by apply (arbitrate_inv _ _ _ _ Hr).
  - destruct (disconnect n _) as [s|] eqn:Hr; [|done]. intros [= <-]. by apply (disconnect_inv _ _ _ _ Hr).
Qed.

Lemma net_log_inv T0 N N' :
  rtc net_step N N' -> log_inv T0 (net_server N) -> log_inv T0 (net_server N').
Proof.
  induction 1 as [|N1 N2 N3 [ev ? ? He] _ IH]; [done|]. intros HI.
  apply IH. by apply (net_event_inv _ _ _ _ He).
Qed.

Lemma fresh_log_inv T h : log_inv T (fresh_server T h).
Proof. by repeat constructor. Qed.

(** In a sorted list, what has one value stands together. *)
Lemma sorted_block (log : list (Uint128 * list Update)) v :
  StronglySorted no_higher log ->
  log = filter (fun x => election_value x.1 < v) log ++
        filter (fun x => election_value x.1 = v) log ++
        filter (fun x => v < election_value x.1) log.
Proof.
  induction 1 as [|x log _ IH Hx]; [done|]. rewrite !list.filter_cons.
  assert (Hlow : forall P : Uint128 * list Update -> Prop, forall `{!forall y, Decision (P y)},
    (forall y, no_higher x y -> ~ P y) -> filter P log = []).
  { intros P HP Hn. clear IH. induction Hx as [|y l Hy _ IH]; [done|].
    rewrite list.filter_cons, decide_False by auto. exact IH. }
  destruct (decide (election_value x.1 < v)) as [Hlt|Hlt].
  - rewrite decide_False by lia. rewrite decide_False by lia. simpl. by f_equal.
  - assert (E1 : filter (fun y => election_value y.1 < v) log = []).
    { apply Hlow. unfold no_higher. lia. }
    rewrite E1 in *. destruct (decide (election_value x.1 = v)) as [Heq|Heq].
    + rewrite decide_False by lia. simpl in *. by f_equal.
    + assert (E2 : filter (fun y => election_value y.1 = v) log = []).
      { apply Hlow. unfold no_higher. lia. }
      rewrite E2 in *. rewrite decide_True by lia. simpl in *. by f_equal.
Qed.

(** ** Termination *)

(** What an RPC leaves to do. *)
Inductive rnext : rprog Status -> rprog Status -> Prop :=
| rnext_rpc r k x : rnext (k x) (RVis r k).

Lemma rnext_wf : well_founded rnext.
Proof.
  intros q. induction q as [a|r k IH]; constructor; intros q' Hq; [by inversion Hq|].
  refine (match Hq in rnext q0 q1 return
      match q1 with
      | RRet _ => True
      | RVis r k => (forall x, Acc rnext (k x)) -> Acc rnext q0
      end with rnext_rpc r k x => fun IH => IH x end IH).
Qed.

(** What the server has left to do by itself. *)
Definition stream_work (st : stream) : nat := 1 + length (st_sent st).
Definition server_work (ss : gmap nat stream) : nat :=
  map_fold (fun _ st w => stream_work st + w)%nat 0%nat ss.

Lemma server_work_insert ss n st :
  ss !! n = None -> server_work (<[n := st]> ss) = (stream_work st + server_work ss)%nat.
Proof. intros Hn. apply (map_fold_insert_L (fun _ st w => stream_work st + w)%nat); [|done].
  intros. lia. Qed.

Lemma server_work_delete ss n st :
  ss !! n = Some st -> server_work ss = (stream_work st + server_work (delete n ss))%nat.
Proof.
  intros Hn. apply (map_fold_delete_L (fun _ st w => stream_work st + w)%nat); [|done]. intros. lia.
Qed.

Lemma server_work_replace ss n st st' :
  ss !! n = Some st ->
  (server_work (<[n := st']> ss) + stream_work st = server_work ss + stream_work st')%nat.
Proof.
  intros Hn. rewrite (server_work_delete ss n st Hn), <- insert_delete_eq.
  rewrite server_work_insert by apply lookup_delete_eq. lia.
Qed.

Lemma notify_work m st : stream_work (notify m st) = stream_work st.
Proof. unfold notify. by case_match. Qed.

Lemma server_work_notify m ss : server_work (notify m <$> ss) = server_work ss.
Proof.
  induction ss as [|n st ss Hn IH] using map_ind; [by rewrite fmap_empty|].
  rewrite fmap_insert, !server_work_insert by (rewrite ?lookup_fmap, ?Hn; done).
  by rewrite notify_work, IH.
Qed.

Lemma arbitrate_work n s s' :
  arbitrate n s = Some s' -> (server_work (as_streams s') < server_work (as_streams s))%nat.
Proof.
  unfold arbitrate. destruct (as_streams s !! n) as [st|] eqn:Hn; [|done]. simpl.
  destruct (st_sent st) as [|a sent] eqn:Hs; [done|].
  assert (Hless : forall ss st1 st2, server_work ss = server_work (as_streams s) ->
    ss !! n = Some st1 -> stream_work st1 = stream_work st ->
    (length (st_sent st2) <= length sent)%nat ->
    (server_work (<[n := st2]> ss) < server_work (as_streams s))%nat).
  { intros ss st1 st2 Hw H1 Hw1 Hl. pose proof (server_work_replace ss n st1 st2 H1) as Hr.
    unfold stream_work in *. rewrite Hs in Hw1. simpl in Hw1. lia. }
  destruct (arb_election_id a) as [e|]; [case_match|]; [|by intros [= <-]; eapply Hless; eauto; simpl; lia..].
  destruct (outranks _ _); intros [= <-]; simpl; [|by eapply Hless].
  eapply Hless; [apply server_work_notify|by rewrite lookup_fmap, Hn|apply notify_work|done].
Qed.

Lemma disconnect_work n s s' :
  disconnect n s = Some s' -> (server_work (as_streams s') < server_work (as_streams s))%nat.
Proof.
  unfold disconnect. destruct (as_streams s !! n) as [st|] eqn:Hn; [|done]. simpl.
  destruct (st_closed st); [|done]. intros [= <-]. simpl.
  rewrite (server_work_delete _ _ _ Hn). case_bool_decide; rewrite ?server_work_notify;
    unfold stream_work; lia.
Qed.

Definition net_order : relation (list (rprog Status) * nat) := slexprod _ _ (step_in rnext) lt.

Lemma net_event_order ev N N' :
  net_event ev N = Some N' ->
  net_order (net_calls N', server_work (as_streams (net_server N')))
    (net_calls N, server_work (as_streams (net_server N))).
Proof.
  destruct ev as [i|n|n]; simpl.
  - destruct (net_calls N !! i) as [[st|r k]|] eqn:Hi; [done| |done]. simpl.
    destruct (arb_rpc r (net_server N)) as [[x s]|]; [|done]. intros [= <-].
    apply left_slex, (step_in_insert _ _ _ (RVis r k)); [done|]. constructor.
  - destruct (arbitrate n _) as [s|] eqn:Hr; [|done]. intros [= <-].
    by eapply right_slex, arbitrate_work.
  - destruct (disconnect n _) as [s|] eqn:Hr; [|done]. intros [= <-].
    by eapply right_slex, disconnect_work.
Qed.

(** net_terminates: whatever the calls are and however their RPCs and the
    server's own steps are interleaved, they come to an end. *)
Theorem net_terminates : well_founded (flip (net_step (p4info := p4info) (accepts := accepts))).
Proof.
  apply (wf_projected net_order
    (fun N => (net_calls N, server_work (as_streams (net_server N))))).
  - intros N' N [ev ? ? He]. by apply net_event_order in He.
  - apply wf_slexprod; [apply step_in_wf, rnext_wf|apply lt_wf].
Qed.

(** net_writes_in_order: in every state that interleaved calls reach, the
    tables are the effect of the write requests that were let through, one
    after the other, and these are ordered by election id: the requests made
    under one id stand together, after all those of lower ids and before all
    those of higher ones. No two calls with different ids ever take turns. *)
Theorem net_writes_in_order calls T highest N e :
  rtc net_step (net_start calls (fresh_server T highest)) N ->
  let log := as_log (net_server N) in
  as_tables (net_server N) = replay log T /\
  StronglySorted no_higher log /\
  log = filter (fun x => election_value x.1 < election_value e) log ++
        filter (fun x => election_value x.1 = election_value e) log ++
        filter (fun x => election_value e < election_value x.1) log.
Proof.
  intros Hr. apply (net_log_inv T) in Hr; [|apply fresh_log_inv]. destruct Hr as [Hs _ Hrep].
  split; [done|]. split; [done|]. by apply sorted_block.
Qed.
End NetProps.
