(* ===== verification/OwnRequests.v ===== *)
(** * What a call sends once it is connected

    After [connect] an API function does not connect again, and writes under
    the election id of its session and no other: its requests are those the
    [init] methods filled. [keeps_session] says so of a program, for all
    answers to its calls that a client with that session can give. *)

From S2P Require Import Prelude P4Runtime OvsP4rt Logging Client Session ClientImpl.
From S2P Require Import TxAccVsi Es2kFdb Es2kTunnel Es2kIpMacMap Es2kPorts.
From S2P Require Dpdk.
From S2P Require Import Threads.

(** What a [Client] with session [ses] may return from a call. *)
Definition session_answer (ses : OvsP4rtSession) (c : call) : call_ret c -> Prop :=
  match c with
  | initReadRequest req => fun r => r = SetupTableEntryToRead ses req
  | initInsertRequest req => fun r => r = SetupTableEntryToInsert ses req
  | initModifyRequest req => fun r => r = SetupTableEntryToModify ses req
  | initDeleteRequest req => fun r => r = SetupTableEntryToDelete ses req
  | initWriteRequest req b => fun r =>
      r = if b then SetupTableEntryToInsert ses req else SetupTableEntryToDelete ses req
  | _ => fun _ => True
  end.

Definition session_call (ses : OvsP4rtSession) (c : call) : Prop :=
  match c with
  | connect _ => False
  | sendWriteRequest req => wr_election_id req = Some (ElectionId ses)
  | _ => True
  end.

Fixpoint keeps_session {A} (ses : OvsP4rtSession) (p : prog A) : Prop :=
  match p with
  | Ret _ => True
  | Vis c k => session_call ses c /\ forall r, session_answer ses c r -> keeps_session ses (k r)
  end.

Section Keeps.
Variable ses : OvsP4rtSession.

Lemma keeps_ret {A} (a : A) : keeps_session ses (mret a : prog A).
Proof. done. Qed.

Lemma keeps_bind {A B} (p : prog A) (f : A -> prog B) :
  keeps_session ses p -> (forall a, keeps_session ses (f a)) -> keeps_session ses (p ≫= f).
Proof. induction p as [a|c k IH]; simpl; [auto|]. intros [Hc Hk] Hf. split; auto. Qed.

Lemma keeps_call {A} c (f : call_ret c -> prog A) :
  session_call ses c -> (forall r, session_answer ses c r -> keeps_session ses (f r)) ->
  keeps_session ses (do_call c ≫= f).
Proof. by split. Qed.

(** The request an [init] method filled has the id of the session. *)
Lemma keeps_init {A} req b (f : WriteRequest * entry_ptr -> prog A) :
  (forall r ptr, wr_election_id r = Some (ElectionId ses) -> keeps_session ses (f (r, ptr))) ->
  keeps_session ses (do_call (initWriteRequest req b) ≫= f).
Proof. intros Hf. apply keeps_call; [done|]. intros r ->. destruct b; by apply Hf. Qed.

Lemma keeps_print_lines lines : keeps_session ses (print_lines lines).
Proof. induction lines as [|l lines IH]; [done|]. by split. Qed.

Lemma keeps_log_mac status b d mac : keeps_session ses (log_if_failed_mac status b d mac).
Proof. unfold log_if_failed_mac. by case_match. Qed.

Lemma keeps_log status b d : keeps_session ses (log_if_failed status b d).
Proof. unfold log_if_failed. by case_match. Qed.
End Keeps.

Create HintDb keeps.
#[export] Hint Resolve keeps_ret keeps_print_lines keeps_log_mac keeps_log : keeps.

(** Goes through a program; what it calls is in the hints. *)
Ltac keeps :=
  repeat first
    [ progress cbv beta iota zeta
    | solve [auto with keeps nocore]
    | match goal with
      | |- forall _, _ => intro
      | |- keeps_session _ (do_call (initWriteRequest _ _) ≫= _) => apply keeps_init
      | |- keeps_session _ (do_call _ ≫= _) => apply keeps_call; [done|]
      | |- keeps_session _ (do_call _) => by split
      | |- keeps_session _ (_ ≫= _) => apply keeps_bind
      | |- keeps_session _ (match ?x with _ => _ end) => destruct x
      end ].

(** ** The functions of the API, from the bottom up *)

Section Functions.
Variable ses : OvsP4rtSession.
#[local] Abbreviation K p := (keeps_session ses p).

(** *** The tables of an FDB entry *)

Lemma keeps_WriteFdbSmacTableEntry l i b : K (WriteFdbSmacTableEntry l i b).
Proof. unfold WriteFdbSmacTableEntry. keeps. Qed.
Lemma keeps_WriteL2TunnelTableEntry l i b : K (WriteL2TunnelTableEntry l i b).
Proof. unfold WriteL2TunnelTableEntry. keeps. Qed.
Lemma keeps_WriteFdbTxVlanTableEntry l i b : K (WriteFdbTxVlanTableEntry l i b).
Proof. unfold WriteFdbTxVlanTableEntry. keeps. Qed.
Lemma keeps_WriteFdbRxVlanTableEntry l i b : K (WriteFdbRxVlanTableEntry l i b).
Proof. unfold WriteFdbRxVlanTableEntry. keeps. Qed.
Lemma keeps_WriteFdbTunnelTableEntry l i b : K (WriteFdbTunnelTableEntry l i b).
Proof. unfold WriteFdbTunnelTableEntry. keeps. Qed.
Lemma keeps_ReadL2ToTunnelV4TableEntry l i : K (ReadL2ToTunnelV4TableEntry l i).
Proof. unfold ReadL2ToTunnelV4TableEntry. keeps. Qed.
Lemma keeps_ReadL2ToTunnelV6TableEntry l i : K (ReadL2ToTunnelV6TableEntry l i).
Proof. unfold ReadL2ToTunnelV6TableEntry. keeps. Qed.
Lemma keeps_ReadFdbTunnelTableEntry l i b : K (ReadFdbTunnelTableEntry l i b).
Proof. unfold ReadFdbTunnelTableEntry. keeps. Qed.
Lemma keeps_ReadFdbVlanTableEntry l i b : K (ReadFdbVlanTableEntry l i b).
Proof. unfold ReadFdbVlanTableEntry. keeps. Qed.
Lemma keeps_ReadTxAccVsiTableEntry sp i : K (ReadTxAccVsiTableEntry sp i).
Proof. unfold ReadTxAccVsiTableEntry. keeps. Qed.

#[local] Hint Resolve keeps_WriteFdbSmacTableEntry keeps_WriteL2TunnelTableEntry keeps_WriteFdbTxVlanTableEntry keeps_WriteFdbRxVlanTableEntry keeps_WriteFdbTunnelTableEntry keeps_ReadL2ToTunnelV4TableEntry keeps_ReadL2ToTunnelV6TableEntry keeps_ReadFdbTunnelTableEntry keeps_ReadFdbVlanTableEntry keeps_ReadTxAccVsiTableEntry : keeps.

Lemma keeps_GetTxAccVsiPort i sp : K (GetTxAccVsiPort i sp).
Proof. unfold GetTxAccVsiPort. keeps. Qed.

#[local] Hint Resolve keeps_GetTxAccVsiPort : keeps.

Lemma keeps_UpdateFdbTunnelInfo l i : K (UpdateFdbTunnelInfo l i).
Proof. unfold UpdateFdbTunnelInfo. keeps. Qed.
Lemma keeps_UpdateFdbSrcPortInfo l i : K (UpdateFdbSrcPortInfo l i).
Proof. unfold UpdateFdbSrcPortInfo. keeps. Qed.
#[local] Hint Resolve keeps_UpdateFdbTunnelInfo keeps_UpdateFdbSrcPortInfo : keeps.

Lemma keeps_ConfigFdbTunnelEntry l b i : K (ConfigFdbTunnelEntry l b i).
Proof. unfold ConfigFdbTunnelEntry. keeps. Qed.
Lemma keeps_ConfigFdbVlanEntry l b i : K (ConfigFdbVlanEntry l b i).
Proof. unfold ConfigFdbVlanEntry. keeps. Qed.

#[local] Hint Resolve keeps_ConfigFdbTunnelEntry keeps_ConfigFdbVlanEntry : keeps.

Lemma keeps_es2kfdb_ConfigFdbEntry l i b : K (Es2kFdb.ConfigFdbEntry l i b).
Proof. unfold Es2kFdb.ConfigFdbEntry. keeps. Qed.

#[local] Hint Resolve keeps_es2kfdb_ConfigFdbEntry : keeps.

(** *** Tunnels *)

Lemma keeps_es2ktunnel_WriteEncapTableEntry t i b : K (Es2kTunnel.WriteEncapTableEntry t i b).
Proof. unfold Es2kTunnel.WriteEncapTableEntry. keeps. Qed.
Lemma keeps_WriteDecapTableEntry t i b : K (WriteDecapTableEntry t i b).
Proof. unfold WriteDecapTableEntry. keeps. Qed.
Lemma keeps_es2ktunnel_WriteTunnelTermTableEntry t i b : K (Es2kTunnel.WriteTunnelTermTableEntry t i b).
Proof. unfold Es2kTunnel.WriteTunnelTermTableEntry. keeps. Qed.

#[local] Hint Resolve keeps_es2ktunnel_WriteEncapTableEntry keeps_WriteDecapTableEntry keeps_es2ktunnel_WriteTunnelTermTableEntry : keeps.

Lemma keeps_es2ktunnel_ConfigTunnelEntry t i b : K (Es2kTunnel.ConfigTunnelEntry t i b).
Proof. unfold Es2kTunnel.ConfigTunnelEntry. keeps. Qed.

#[local] Hint Resolve keeps_es2ktunnel_ConfigTunnelEntry : keeps.

(** *** IP-to-MAC map *)

Lemma keeps_ReadVmSrcTableEntry im i : K (ReadVmSrcTableEntry im i).
Proof. unfold ReadVmSrcTableEntry. keeps. Qed.
Lemma keeps_ReadVmDstTableEntry im i : K (ReadVmDstTableEntry im i).
Proof. unfold ReadVmDstTableEntry. keeps. Qed.
Lemma keeps_WriteDstIpMacMapTableEntry im i b : K (WriteDstIpMacMapTableEntry im i b).
Proof. unfold WriteDstIpMacMapTableEntry. keeps. Qed.
Lemma keeps_WriteSrcIpMacMapTableEntry im i b : K (WriteSrcIpMacMapTableEntry im i b).
Proof. unfold WriteSrcIpMacMapTableEntry. keeps. Qed.

#[local] Hint Resolve keeps_ReadVmSrcTableEntry keeps_ReadVmDstTableEntry keeps_WriteDstIpMacMapTableEntry keeps_WriteSrcIpMacMapTableEntry : keeps.

Lemma keeps_ConfigIpMacMapEntry_try_dstip im i b : K (ConfigIpMacMapEntry_try_dstip im i b).
Proof. unfold ConfigIpMacMapEntry_try_dstip. keeps. Qed.

#[local] Hint Resolve keeps_ConfigIpMacMapEntry_try_dstip : keeps.

Lemma keeps_ConfigIpMacMapEntry im i b : K (ConfigIpMacMapEntry im i b).
Proof. unfold ConfigIpMacMapEntry. keeps. Qed.

#[local] Hint Resolve keeps_ConfigIpMacMapEntry : keeps.

(** *** Ports and VLANs *)

Lemma keeps_WriteRxTunnelSrcPortTableEntry t i b : K (WriteRxTunnelSrcPortTableEntry t i b).
Proof. unfold WriteRxTunnelSrcPortTableEntry. keeps. Qed.
Lemma keeps_WriteVsiSrcPortTableEntry sp i b : K (WriteVsiSrcPortTableEntry sp i b).
Proof. unfold WriteVsiSrcPortTableEntry. keeps. Qed.
Lemma keeps_WriteTunnelSrcPortEntry sp i b : K (WriteTunnelSrcPortEntry sp i b).
Proof. unfold WriteTunnelSrcPortEntry. keeps. Qed.
Lemma keeps_WriteVlanPushTableEntry v i b : K (WriteVlanPushTableEntry v i b).
Proof. unfold WriteVlanPushTableEntry. keeps. Qed.
Lemma keeps_WriteVlanPopTableEntry v i b : K (WriteVlanPopTableEntry v i b).
Proof. unfold WriteVlanPopTableEntry. keeps. Qed.

#[local] Hint Resolve keeps_WriteRxTunnelSrcPortTableEntry keeps_WriteVsiSrcPortTableEntry keeps_WriteTunnelSrcPortEntry keeps_WriteVlanPushTableEntry keeps_WriteVlanPopTableEntry : keeps.

Lemma keeps_ConfigSrcPortEntry sp i b : K (ConfigSrcPortEntry sp i b).
Proof. unfold ConfigSrcPortEntry. keeps. Qed.
Lemma keeps_ConfigVlanEntry v i b : K (ConfigVlanEntry v i b).
Proof. unfold ConfigVlanEntry. keeps. Qed.

#[local] Hint Resolve keeps_ConfigSrcPortEntry keeps_ConfigVlanEntry : keeps.

(** *** DPDK *)

Lemma keeps_dpdk_WriteFdbTxVlanTableEntry l i b : K (Dpdk.WriteFdbTxVlanTableEntry l i b).
Proof. unfold Dpdk.WriteFdbTxVlanTableEntry. keeps. Qed.
Lemma keeps_dpdk_WriteFdbRxVlanTableEntry l i b : K (Dpdk.WriteFdbRxVlanTableEntry l i b).
Proof. unfold Dpdk.WriteFdbRxVlanTableEntry. keeps. Qed.
Lemma keeps_dpdk_WriteFdbTunnelTableEntry l i b : K (Dpdk.WriteFdbTunnelTableEntry l i b).
Proof. unfold Dpdk.WriteFdbTunnelTableEntry. keeps. Qed.
Lemma keeps_dpdk_WriteEncapTableEntry t i b : K (Dpdk.WriteEncapTableEntry t i b).
Proof. unfold Dpdk.WriteEncapTableEntry. keeps. Qed.
Lemma keeps_dpdk_WriteTunnelTermTableEntry t i b : K (Dpdk.WriteTunnelTermTableEntry t i b).
Proof. unfold Dpdk.WriteTunnelTermTableEntry. keeps. Qed.

#[local] Hint Resolve keeps_dpdk_WriteFdbTxVlanTableEntry keeps_dpdk_WriteFdbRxVlanTableEntry keeps_dpdk_WriteFdbTunnelTableEntry keeps_dpdk_WriteEncapTableEntry keeps_dpdk_WriteTunnelTermTableEntry : keeps.

Lemma keeps_dpdk_ConfigFdbEntry l i b : K (Dpdk.ConfigFdbEntry l i b).
Proof. unfold Dpdk.ConfigFdbEntry. keeps. Qed.
Lemma keeps_dpdk_ConfigTunnelEntry t i b : K (Dpdk.ConfigTunnelEntry t i b).
Proof. unfold Dpdk.ConfigTunnelEntry. keeps. Qed.

#[local] Hint Resolve keeps_dpdk_ConfigFdbEntry keeps_dpdk_ConfigTunnelEntry : keeps.

(** An API function connects, and then keeps its session. *)
Theorem api_keeps_session p :
  api_function p ->
  exists addr k, p = Vis (connect addr) k /\ forall r, keeps_session ses (k r).
Proof. destruct 1; (eexists _, _; split; [reflexivity|]); cbv beta; keeps. Qed.
End Functions.
