(* ===== verification/Elections.v ===== *)
(** * Interleaved RPCs: sessions and elections

    API calls with election ids of their own, in front of an arbitrating
    server. The invariant gives every call a stream and a phase: not begun,
    about to send its arbitration request, waiting for the answer, in session,
    done. *)

From stdpp Require Import gmap relations well_founded.
From S2P Require Import Prelude P4Runtime Client Session ClientImpl Switch Server Rpc.
From S2P Require Import Threads Arbitration NetProps OwnRequests.

(** ** The RPCs of an API function *)

(** The RPCs of a call in session: its writes are under [e], and at the end it
    closes stream [n]. *)
Definition session_rpc (e : Uint128) (r : srpc) : Prop :=
  match r with
  | PipelineConfig _ | ReadEntities _ => True
  | WriteUpdates req => wr_election_id req = Some e
  | _ => False
  end.

Fixpoint in_session (e : Uint128) (n : nat) (q : rprog Status) : Prop :=
  match q with
  | RRet _ => False
  | RVis r k =>
      (session_rpc e r /\ forall x, in_session e n (k x)) \/
      (r = StreamClose n /\ forall x, is_Some (net_returned (k x)))
  end.

Section Shape.
Variables (env : Env) (addr : string) (k : Status -> prog Status).

Definition call_role_config : option string :=
  match env_role_config env with Some (StatusValue c) => Some c | _ => None end.

(** The arbitration request, and the session. *)
Definition call_arbitration : Arbitration :=
  MkArbitration 1 (FLAGS_role_name env) call_role_config (Some (call_election env)) 0.

Definition call_session : OvsP4rtSession := MkSession 1 (call_election env) "".

(** The environment is set up: the device is that of the server, and the role
    configuration is absent or parses. *)
Definition env_ok : Prop :=
  w32 (FLAGS_device_id env) = 1 /\
  match env_role_config env with Some (StatusError _) => False | _ => True end.

(** What is left to do when the connection to stream [n] stands. *)
Definition connected (n : nat) : rprog Status :=
  '(a, w) ← run_rpc (k OkStatus)
    (MkRpcClient (Some (n, call_session)) env (GenerateClientCredentials env).2 false);
  close_session w;;
  mret a.

Definition reading (n : nat) (q : rprog Status) : Prop :=
  exists kr, q = RVis (StreamRead n) kr /\
    forall a, arb_device_id a = 1 -> kr (Some (kArbitration a)) = connected n.

Definition writing (n : nat) (q : rprog Status) : Prop :=
  exists kw, q = RVis (StreamWrite n call_arbitration) kw /\ reading n (kw true).

Lemma api_rpc_shape :
  env_ok ->
  exists cred kn, api_rpc env (Vis (connect addr) k) = RVis (NewStream cred addr) kn /\
    forall n, writing n (kn n).
Proof.
  intros [Hd Hc]. unfold api_rpc. cbn [run_rpc handle_rpc]. unfold connect_rpc.
  unfold writing, reading, connected.
  cbn [new_RpcClient rc_env rc_out rc_session].
  destruct (GenerateClientCredentials env) as [cred out].
  exists cred. eexists. split; [reflexivity|]. intros n. cbn beta.
  unfold Create_rpc, call_arbitration, call_role_config. rewrite Hd.
  destruct (env_role_config env) as [[c|er]|]; [|done|];
    (eexists; split; [reflexivity|]); (eexists; split; [reflexivity|]);
    intros a Ha; cbn; by rewrite Ha.
Qed.

Lemma run_in_session (p : prog Status) w n ses :
  rc_session w = Some (n, ses) -> keeps_session ses p ->
  in_session (election_id_ ses) n ('(a, w) ← run_rpc p w; close_session w;; mret a).
Proof.
  intros Hw. revert w Hw. induction p as [a|c q IH]; intros w Hw Hp.
  { cbn. unfold close_session. rewrite Hw. right. split; [done|]. by eexists. }
  destruct Hp as [Hc Hk]. destruct c; cbn [run_rpc handle_rpc] in *; unfold with_session_rpc;
    try rewrite Hw; try done; try (by apply IH, Hk).
  - left. split; [done|]. intros [gs i]. by apply IH, Hk.
  - left. split; [done|]. intros [ps gs]. by apply IH, Hk.
  - left. split; [done|]. intros gs. by apply IH, Hk.
Qed.

Lemma connected_in_session n :
  keeps_session call_session (k OkStatus) -> in_session (call_election env) n (connected n).
Proof. intros Hk. by apply (run_in_session (k OkStatus) _ n call_session). Qed.

(** On a stub the number of the stream makes no difference. *)
Lemma connected_stub {S} `{P4RuntimeStub S} n m (s : S) : rrun (connected n) s = rrun (connected m) s.
Proof.
  unfold connected. rewrite !rrun_bind.
  pose proof (run_rpc_agrees (k OkStatus) (MkRpcClient (Some (n, call_session)) env
    (GenerateClientCredentials env).2 false) s) as Hn.
  pose proof (run_rpc_agrees (k OkStatus) (MkRpcClient (Some (m, call_session)) env
    (GenerateClientCredentials env).2 false) s) as Hm.
  unfold agree in *. cbn [client_state rc_session rc_env rc_out rc_fault] in Hn, Hm.
  change (client_state (MkRpcClient (Some (n, call_session)) env _ false) s) with
    (client_state (MkRpcClient (Some (m, call_session)) env
      (GenerateClientCredentials env).2 false) s) in Hn.
  rewrite Hm in Hn.
  destruct (rrun (run_rpc _ _) s) as [[a1 w1] s1], (rrun (run_rpc _ _) s) as [[a2 w2] s2].
  simpl in *. injection Hn as -> Hs. rewrite !rrun_bind, !close_session_rrun.
  by simplify_eq.
Qed.
End Shape.

(** ** The invariant *)

Definition after_connect (p : prog Status) : Status -> prog Status :=
  match p with
  | Vis c k =>
      match c return (call_ret c -> prog Status) -> Status -> prog Status with
      | connect _ => fun k => k
      | _ => fun _ _ => Ret OkStatus
      end k
  | Ret _ => fun _ => Ret OkStatus
  end.

Definition call_ok (c : Env * prog Status) : Prop := env_ok c.1 /\ api_function c.2.

(** A call that has begun: its stream, at the server, and what it is to do. *)
Inductive phase (c : Env * prog Status) (n : nat) : option stream -> rprog Status -> Prop :=
| ph_write q :
    writing c.1 (after_connect c.2) n q -> phase c n (Some new_stream) q
| ph_wait q :
    reading c.1 (after_connect c.2) n q ->
    phase c n (Some (MkStream [call_arbitration c.1] [] None false false)) q
| ph_answer q a l :
    reading c.1 (after_connect c.2) n q -> arb_device_id a = 1 ->
    phase c n (Some (MkStream [] (kArbitration a :: l) (Some (call_election c.1)) false false)) q
| ph_session q l :
    in_session (call_election c.1) n q ->
    phase c n (Some (MkStream [] l (Some (call_election c.1)) false false)) q
| ph_done a l :
    phase c n (Some (MkStream [] l (Some (call_election c.1)) false true)) (RRet a)
| ph_gone a : phase c n None (RRet a).

Lemma phase_notify c n m ost q : phase c n ost q -> phase c n (notify m <$> ost) q.
Proof. destruct 1; simpl; constructor; auto. Qed.

Lemma phase_ended c n st q : phase c n (Some st) q -> st_ended st = false.
Proof. by inversion 1. Qed.

Lemma phase_election c n st q e :
  phase c n (Some st) q -> st_election st = Some e -> e = call_election c.1.
Proof. inversion 1; subst; simpl; congruence. Qed.

Lemma phase_sent c n st q a l :
  phase c n (Some st) q -> st_sent st = a :: l ->
  st = MkStream [call_arbitration c.1] [] None false false /\
  reading c.1 (after_connect c.2) n q.
Proof. by inversion 1. Qed.

Lemma phase_closed c n st q :
  phase c n (Some st) q -> st_closed st = true ->
  exists a, q = RRet a.
Proof. inversion 1; subst; simpl; intros; simplify_eq; eauto. Qed.

Lemma phase_returned c n ost a :
  phase c n ost (RRet a) ->
  forall st, ost = Some st -> st_election st = Some (call_election c.1).
Proof.
  intros Hp. remember (RRet a) as q eqn:Hq.
  destruct Hp as [q (kw & -> & _)|q (kr & -> & _)|q a' l (kr & -> & _) _|q l Hin| |];
    simplify_eq; [done|..]; by intros st [= <-].
Qed.

(** *** Of any pool of calls *)

Section Pool.
Context {p4info : P4Info} {accepts : TableEntry -> bool}.
Abbreviation net := (net p4info accepts).
Abbreviation S := (ArbServer p4info accepts).
Implicit Types (N : net) (s : S).
Variable calls : list (Env * prog Status).

(** What relates a call that has begun to its stream. *)
Variable P : Env * prog Status -> nat -> option stream -> rprog Status -> Prop.
Hypothesis P_notify : forall c n m ost q, P c n ost q -> P c n (notify m <$> ost) q.

(** [own i] is the stream of call [i]. *)
Definition thread_phase (c : Env * prog Status) (o : option nat) s (q : rprog Status) : Prop :=
  match o with
  | None => q = api_rpc c.1 c.2
  | Some n => P c n (as_streams s !! n) q
  end.

Record pool_inv (own : nat -> option nat) N : Prop := {
  inv_length : length (net_calls N) = length calls;
  inv_inj : forall i j n, own i = Some n -> own j = Some n -> i = j;
  inv_next : forall i n, own i = Some n -> (n < as_next (net_server N))%nat;
  inv_owned : forall n st, as_streams (net_server N) !! n = Some st ->
    exists i, own i = Some n /\ (i < length calls)%nat;
  inv_phase : forall i c q, calls !! i = Some c -> net_calls N !! i = Some q ->
    thread_phase c (own i) (net_server N) q;
}.

(** An event of stream [n] only tells the others. *)
Definition frame (n : nat) s s' : Prop :=
  (forall m, m <> n -> as_streams s' !! m = as_streams s !! m \/
     exists msg, as_streams s' !! m = notify msg <$> (as_streams s !! m)) /\
  (as_next s <= as_next s')%nat /\ (n < as_next s')%nat.

Lemma frame_phase c n m s s' q :
  frame n s s' -> m <> n -> P c m (as_streams s !! m) q -> P c m (as_streams s' !! m) q.
Proof.
  intros [Hf _] Hm Hp. destruct (Hf m Hm) as [->|[msg ->]]; [done|]. by apply P_notify.
Qed.

Definition set_own (i n : nat) (own : nat -> option nat) : nat -> option nat :=
  fun j => if decide (j = i) then Some n else own j.

(** The step of one call, or of the server on its stream. *)
Lemma pool_inv_step own N i n c q s' :
  pool_inv own N -> calls !! i = Some c -> is_Some (net_calls N !! i) ->
  own i = Some n \/ (own i = None /\ n = as_next (net_server N)) ->
  frame n (net_server N) s' -> P c n (as_streams s' !! n) q ->
  pool_inv (set_own i n own) (MkNet (<[i := q]> (net_calls N)) s').
Proof.
  intros [Hl Hi Hn Ho Hp] Hc [q0 Hq0] Hown Hf Hph.
  assert (Hfresh : forall j, own j = Some n -> j = i).
  { intros j Hj. destruct Hown as [Hown|[_ ->]]; [by eapply Hi|].
    apply Hn in Hj. lia. }
  split; simpl; unfold set_own.
  - by rewrite length_insert.
  - intros j1 j2 m. repeat case_decide; intros; simplify_eq; [done|symmetry; auto|auto|eauto].
  - intros j m. pose proof Hf as (_ & Hle & Hlt). case_decide; intros; simplify_eq; [done|].
    eapply Nat.lt_le_trans; [by eapply Hn|done].
  - intros m st Hm. destruct (decide (m = n)) as [->|Hne].
    + exists i. rewrite decide_True by done. split; [done|]. by apply lookup_lt_Some in Hc.
    + destruct Hf as (Hf & _). assert (is_Some (as_streams (net_server N) !! m)) as [st0 Hst0].
      { destruct (Hf m Hne) as [E|[msg E]]; rewrite E in Hm; [by eexists|].
        by apply fmap_Some in Hm as (? & ? & _); eexists. }
      destruct (Ho _ _ Hst0) as (j & Hj & Hlt). exists j.
      case_decide as Hji; [|done]. subst. destruct Hown as [Hown|[Hown _]]; congruence.
  - intros j cj qj Hcj Hqj. case_decide as Hji.
    + subst j. rewrite list_lookup_insert_eq in Hqj by (by apply lookup_lt_Some in Hq0).
      simplify_eq. exact Hph.
    + rewrite list_lookup_insert_ne in Hqj by done. specialize (Hp j cj qj Hcj Hqj).
      unfold thread_phase in *. destruct (own j) as [m|] eqn:Hm; [|done].
      eapply frame_phase; [done| |done]. intros ->. by apply Hji, Hfresh.
Qed.

Lemma pool_inv_start T highest :
  pool_inv (fun _ => None) (net_start calls (fresh_server T highest) : net).
Proof.
  split; try done.
  - simpl. by rewrite length_map.
  - intros i c q Hc Hq. simpl in *. rewrite list_lookup_fmap, Hc in Hq. by simplify_eq/=.
Qed.

(** The call a stream belongs to. *)
Lemma pool_owner own N n st :
  pool_inv own N -> as_streams (net_server N) !! n = Some st ->
  exists i c q, own i = Some n /\ calls !! i = Some c /\ net_calls N !! i = Some q /\
    P c n (Some st) q.
Proof.
  intros HI Hn. destruct (inv_owned _ _ HI _ _ Hn) as (i & Hi & Hlt).
  destruct (lookup_lt_is_Some_2 _ _ Hlt) as [c Hc].
  assert (Hlt' : (i < length (net_calls N))%nat) by (by rewrite (inv_length _ _ HI)).
  destruct (lookup_lt_is_Some_2 _ _ Hlt') as [q Hq]. exists i, c, q. split_and!; try done.
  pose proof (inv_phase _ _ HI i c q Hc Hq) as Hp. unfold thread_phase in Hp.
  by rewrite Hi, Hn in Hp.
Qed.
End Pool.
Arguments inv_length {_ _} _ {_} _ _ _.
Arguments inv_inj {_ _} _ {_} _ _ _.
Arguments inv_next {_ _} _ {_} _ _ _.
Arguments inv_owned {_ _} _ {_} _ _ _.
Arguments inv_phase {_ _} _ {_} _ _ _.

(** *** Of calls with election ids of their own *)

Section Invariant.
Context {p4info : P4Info} {accepts : TableEntry -> bool}.
Abbreviation net := (net p4info accepts).
Abbreviation S := (ArbServer p4info accepts).
Implicit Types (N : net) (s : S).
Variable calls : list (Env * prog Status).

Definition net_inv : (nat -> option nat) -> net -> Prop := pool_inv calls phase.

Lemma inv_step own N i n c q s' :
  net_inv own N -> calls !! i = Some c -> is_Some (net_calls N !! i) ->
  own i = Some n \/ (own i = None /\ n = as_next (net_server N)) ->
  frame n (net_server N) s' -> phase c n (as_streams s' !! n) q ->
  net_inv (set_own i n own) (MkNet (<[i := q]> (net_calls N)) s').
Proof. apply pool_inv_step, phase_notify. Qed.

(** *** The steps of a call *)

Definition rpc_step (q : rprog Status) s : option (rprog Status * S) :=
  match q with
  | RRet _ => None
  | RVis r k => '(x, s) ← arb_rpc r s; Some (k x, s)
  end.

Lemma net_event_call i N :
  net_event (Call i) N =
  q ← net_calls N !! i;
  '(q, s) ← rpc_step q (net_server N);
  Some (MkNet (<[i := q]> (net_calls N)) s).
Proof.
  simpl. destruct (net_calls N !! i) as [[a|r k]|]; [done| |done]. simpl.
  by destruct (arb_rpc r (net_server N)) as [[]|].
Qed.

Lemma frame_replace n s f :
  (n < as_next s)%nat ->
  (forall m, m <> n -> f (as_streams s) !! m = as_streams s !! m) ->
  frame n s (set_streams f s).
Proof. intros Hn Hf. split; [|done]. intros m Hm. left. by apply Hf. Qed.

Lemma frame_same n s s' :
  (n < as_next s)%nat -> as_streams s' = as_streams s -> as_next s' = as_next s -> frame n s s'.
Proof. intros Hn Hs Hx. split; [|lia]. intros m _. left. by rewrite Hs. Qed.

Lemma call_shape c :
  call_ok c ->
  exists addr, c.2 = Vis (connect addr) (after_connect c.2) /\
    forall ses, keeps_session ses (after_connect c.2 OkStatus).
Proof.
  intros [_ Hf]. assert (Hs : forall ses, exists addr k, c.2 = Vis (connect addr) k /\
      forall r, keeps_session ses (k r)) by (intros ses; by apply api_keeps_session).
  destruct (Hs (MkSession 0 (MkUint128 0 0) "")) as (addr & k & Hp & _).
  exists addr. rewrite Hp. split; [done|]. intros ses. simpl.
  destruct (Hs ses) as (addr' & k' & Hp' & Hk). rewrite Hp in Hp'.
  apply (f_equal after_connect) in Hp'. simpl in Hp'. rewrite Hp'. apply Hk.
Qed.

Lemma connected_phase c n l :
  call_ok c ->
  phase c n (Some (MkStream [] l (Some (call_election c.1)) false false))
    (connected c.1 (after_connect c.2) n).
Proof.
  intros (addr & _ & Hk)%call_shape. constructor. by apply connected_in_session.
Qed.

Lemma arb_write_frame n req s :
  (n < as_next s)%nat -> frame n s (arb_write req s).2 /\
  as_streams (arb_write req s).2 = as_streams s.
Proof.
  intros Hn. unfold arb_write.
  destruct (wr_election_id req); [|by split; [apply frame_same|]].
  case_match; [|by split; [apply frame_same|]].
  destruct (ref_updates _ _). by split; [apply frame_same|].
Qed.

(** In session: unary calls, and the end. *)
Lemma session_step c n s r k l q' s' :
  call_ok c -> (n < as_next s)%nat ->
  as_streams s !! n = Some (MkStream [] l (Some (call_election c.1)) false false) ->
  in_session (call_election c.1) n (RVis r k) ->
  rpc_step (RVis r k) s = Some (q', s') ->
  frame n s s' /\ phase c n (as_streams s' !! n) q'.
Proof.
  intros Hc Hn Hst [[Hr Hk]|[-> Hk]] Hs.
  - assert (Hsame : as_streams s' = as_streams s /\ frame n s s').
    { destruct r; try done; simpl in Hs; simplify_eq; try (by split; [|apply frame_same]).
      destruct (arb_write request s) as [gs s1] eqn:Hw. simplify_eq/=.
      pose proof (arb_write_frame n request s Hn) as [Hf Hss]. rewrite Hw in Hf, Hss. done. }
    destruct Hsame as [Hss Hf]. split; [done|]. rewrite Hss, Hst.
    simpl in Hs. destruct (arb_rpc r s) as [[x s1]|]; [|done]. simplify_eq/=.
    constructor. by apply Hk.
  - simpl in Hs. simplify_eq. split.
    + apply frame_replace; [done|]. intros m Hm'. by apply lookup_alter_ne.
    + simpl. rewrite lookup_alter_eq, Hst. simpl.
      destruct (Hk ()) as [a Ha]. destruct (k ()) as [a'|] eqn:Hq; [|done]. simplify_eq/=.
      constructor.
Qed.

Lemma phase_step c n s q q' s' :
  call_ok c -> (n < as_next s)%nat -> phase c n (as_streams s !! n) q ->
  rpc_step q s = Some (q', s') -> frame n s s' /\ phase c n (as_streams s' !! n) q'.
Proof.
  intros Hc Hn Hp Hs. remember (as_streams s !! n) as ost eqn:Hst. symmetry in Hst.
  destruct Hp as [q (kw & -> & Hr)|q (kr & -> & Hkr)|q a l (kr & -> & Hkr) Ha|q l Hin| |].
  - simpl in Hs. rewrite Hst in Hs. simplify_eq/=. split.
    + apply frame_replace; [done|]. intros m Hm. by apply lookup_insert_ne.
    + rewrite lookup_insert_eq. by constructor.
  - simpl in Hs. by rewrite Hst in Hs.
  - simpl in Hs. rewrite Hst in Hs. simplify_eq/=. split.
    + apply frame_replace; [done|]. intros m Hm. by apply lookup_insert_ne.
    + rewrite lookup_insert_eq, Hkr by done. by apply connected_phase.
  - destruct q as [|r k]; [done|]. by eapply session_step.
  - done.
  - done.
Qed.

(** The first step opens the stream. *)
Lemma start_rpc_step c s q' s' :
  call_ok c -> rpc_step (api_rpc c.1 c.2) s = Some (q', s') ->
  frame (as_next s) s s' /\ phase c (as_next s) (as_streams s' !! as_next s) q'.
Proof.
  intros Hc Hs. pose proof (call_shape c Hc) as (addr & Hp & _).
  destruct (api_rpc_shape c.1 addr (after_connect c.2) (proj1 Hc)) as (cred & kn & Hq & Hw).
  rewrite <- Hp in Hq. rewrite Hq in Hs. simpl in Hs. simplify_eq. split.
  - split; [|simpl; lia]. intros m Hm. left. by apply lookup_insert_ne.
  - simpl. rewrite lookup_insert_eq. by constructor.
Qed.

(** *** The steps of the server *)

Definition calls_ok : Prop :=
  Forall call_ok calls /\ NoDup ((fun c => call_election c.1) <$> calls).

Lemma elections_inj i j ci cj :
  calls_ok -> calls !! i = Some ci -> calls !! j = Some cj ->
  call_election ci.1 = call_election cj.1 -> i = j.
Proof.
  intros [_ Hnd] Hi Hj E. eapply (NoDup_lookup _ i j); [exact Hnd|..].
  - by rewrite list_lookup_fmap, Hi.
  - rewrite list_lookup_fmap, Hj. simpl. by rewrite E.
Qed.

Lemma stream_owner own N n st :
  net_inv own N -> as_streams (net_server N) !! n = Some st ->
  exists i c q, own i = Some n /\ calls !! i = Some c /\ net_calls N !! i = Some q /\
    phase c n (Some st) q.
Proof. apply pool_owner. Qed.

(** No other stream has the election id of a call. *)
Lemma not_held own N i c n :
  calls_ok -> net_inv own N -> calls !! i = Some c -> own i = Some n ->
  holds (call_election c.1) (delete n (as_streams (net_server N))) = false.
Proof.
  intros Hok HI Hc Hi. apply bool_decide_eq_false. intros (m & st & Hm & He)%map_Exists_lookup.
  apply lookup_delete_Some in Hm as [Hne Hm].
  destruct (stream_owner _ _ _ _ HI Hm) as (j & cj & q & Hj & Hcj & _ & Hp).
  pose proof (phase_election _ _ _ _ _ Hp He) as E.
  assert (i = j) as -> by (by eapply elections_inj). congruence.
Qed.

Lemma arbitrate_step own N n s' :
  calls_ok -> net_inv own N -> arbitrate n (net_server N) = Some s' ->
  exists i c q, own i = Some n /\ calls !! i = Some c /\ net_calls N !! i = Some q /\
    as_streams (net_server N) !! n = Some (MkStream [call_arbitration c.1] [] None false false) /\
    frame n (net_server N) s' /\ phase c n (as_streams s' !! n) q.
Proof.
  intros Hok HI Ha. unfold arbitrate in Ha.
  destruct (as_streams (net_server N) !! n) as [st|] eqn:Hn; [|done]. simpl in Ha.
  destruct (st_sent st) as [|a sent] eqn:Hsent; [done|].
  destruct (stream_owner _ _ _ _ HI Hn) as (i & c & q & Hi & Hc & Hq & Hp).
  destruct (phase_sent _ _ _ _ _ _ Hp Hsent) as [-> Hr]. simplify_eq/=.
  rewrite (not_held own N i c n) in Ha by done. simpl in Ha.
  pose proof (inv_next _ _ _ HI i n Hi) as Hlt. exists i, c, q. do 4 (split; [done|]).
  destruct (outranks _ _); simplify_eq/=.
  - split; [|rewrite lookup_insert_eq; by constructor].
    split; [|done]. intros m Hm. right. eexists. simpl. by rewrite lookup_insert_ne, lookup_fmap.
  - split; [|rewrite lookup_insert_eq; by constructor].
    apply frame_replace; [done|]. intros m Hm. by apply lookup_insert_ne.
Qed.

Lemma disconnect_step own N n s' :
  net_inv own N -> disconnect n (net_server N) = Some s' ->
  exists i c q, own i = Some n /\ calls !! i = Some c /\ net_calls N !! i = Some q /\
    frame n (net_server N) s' /\ phase c n (as_streams s' !! n) q.
Proof.
  intros HI Hd. unfold disconnect in Hd.
  destruct (as_streams (net_server N) !! n) as [st|] eqn:Hn; [|done]. simpl in Hd.
  destruct (st_closed st) eqn:Hcl; [|done].
  destruct (stream_owner _ _ _ _ HI Hn) as (i & c & q & Hi & Hc & Hq & Hp).
  destruct (phase_closed _ _ _ _ Hp Hcl) as (a & ->).
  pose proof (inv_next _ _ _ HI i n Hi) as Hlt. exists i, c, (RRet a). do 3 (split; [done|]).
  simplify_eq. simpl. split.
  - split; [|done]. intros m Hne. simpl. case_bool_decide.
    + right. eexists. by rewrite lookup_fmap, lookup_delete_ne.
    + left. by apply lookup_delete_ne.
  - case_bool_decide; rewrite ?lookup_fmap, lookup_delete_eq; by constructor.
Qed.
End Invariant.
