(* ===== verification/NetSessions.v ===== *)
(** * Interleaved RPCs: every call gets its session

    What the invariant of [Elections] gives of calls whose election ids
    differ. *)

From stdpp Require Import gmap relations well_founded.
From S2P Require Import Prelude P4Runtime OvsP4rt Client Session ClientImpl Switch Server Rpc.
From S2P Require Import Pipelines Es2kTunnel Es2kPorts.
From S2P Require Import Threads Arbitration NetProps OwnRequests Elections.

Section NetSessions.
Context {p4info : P4Info} {accepts : TableEntry -> bool}.
Abbreviation net := (net p4info accepts).
Abbreviation S := (ArbServer p4info accepts).
Implicit Types (N : net) (s : S).
Variable calls : list (Env * prog Status).

(** ** The invariant is preserved *)

(** What an event of the call with election id [e] can do to the tables and
    to the election. *)
Definition event_effect (e : Uint128) s s' : Prop :=
  (as_log s' = as_log s /\ as_tables s' = as_tables s /\
   (as_highest s' = as_highest s \/
    as_highest s' = Some e /\ outranks e (as_highest s) = true)) \/
  (as_primary s = Some e /\ as_highest s' = as_highest s /\
   exists us, as_log s' = as_log s ++ [(e, us)]).

Lemma arb_write_effect req e s :
  wr_election_id req = Some e -> event_effect e s (arb_write req s).2.
Proof.
  intros He. unfold arb_write. rewrite He. case_match eqn:Hc; [|left; auto].
  apply andb_true_iff in Hc as [_ Hp%bool_decide_eq_true].
  destruct (ref_updates _ _). right. simpl. eauto.
Qed.

Definition next_rpc (q : rprog Status) : option srpc :=
  match q with RVis r _ => Some r | RRet _ => None end.

Lemma phase_write c n ost q req :
  phase c n ost q -> next_rpc q = Some (WriteUpdates req) ->
  wr_election_id req = Some (call_election c.1).
Proof.
  intros Hp. destruct Hp as [q (kw & -> & _)|q (kr & -> & _)|q a l (kr & -> & _) _|q l Hin| |];
    try done. destruct q as [|r k]; [done|]. simpl. intros [= ->].
  by destruct Hin as [[Hr _]|[? _]].
Qed.

(** Only a write changes the tables. *)
Lemma rpc_step_effect q s q' s' e :
  rpc_step q s = Some (q', s') ->
  (forall req, next_rpc q = Some (WriteUpdates req) -> wr_election_id req = Some e) ->
  event_effect e s s'.
Proof.
  destruct q as [|r k]; [done|]. simpl. intros Hs Hw.
  destruct (arb_rpc r s) as [[x s1]|] eqn:Hr; [|done]. simplify_eq/=.
  destruct r; simpl in Hr; repeat case_match; simplify_eq; try (left; by auto).
  pose proof (arb_write_effect request e s (Hw _ eq_refl)) as He. by rewrite Hr in He.
Qed.

Lemma arbitrate_effect n s s' st e :
  arbitrate n s = Some s' -> as_streams s !! n = Some st ->
  (forall a l, st_sent st = a :: l -> arb_election_id a = Some e) -> event_effect e s s'.
Proof.
  unfold arbitrate. intros Ha Hn He. rewrite Hn in Ha. simpl in Ha. left.
  destruct (st_sent st) as [|a l]; [done|]. rewrite (He a l eq_refl) in Ha.
  case_match; simplify_eq; [|by auto]. destruct (outranks e (as_highest s)) eqn:Ho; simpl; auto.
Qed.

(** A step of the call with stream [n], or of the server on the stream. *)
Definition own_event (n : nat) (q : rprog Status) s (q' : rprog Status) s' : Prop :=
  rpc_step q s = Some (q', s') \/
  q' = q /\ (arbitrate n s = Some s' \/ disconnect n s = Some s').

(** An event is such a step. *)
Lemma net_event_step own ev N N' :
  calls_ok calls -> net_inv calls own N -> net_event ev N = Some N' ->
  exists i n c q q',
    calls !! i = Some c /\ net_calls N !! i = Some q /\
    (own i = Some n \/ (own i = None /\ n = as_next (net_server N))) /\
    frame n (net_server N) (net_server N') /\
    phase c n (as_streams (net_server N') !! n) q' /\
    net_calls N' = <[i := q']> (net_calls N) /\
    event_effect (call_election c.1) (net_server N) (net_server N') /\
    own_event n q (net_server N) q' (net_server N').
Proof.
  intros Hok HI He. destruct ev as [i|n|n].
  - rewrite net_event_call in He. destruct (net_calls N !! i) as [q|] eqn:Hq; [|done]. simpl in He.
    destruct (rpc_step q (net_server N)) as [[q' s']|] eqn:Hs; [|done]. simplify_eq/=.
    assert (is_Some (calls !! i)) as [c Hc].
    { apply lookup_lt_is_Some_2. rewrite <- (inv_length _ _ _ HI). by eapply lookup_lt_Some. }
    assert (Hcok : call_ok c) by (by eapply (Forall_lookup_1 _ _ _ _ (proj1 Hok))).
    pose proof (inv_phase _ _ _ HI i c q Hc Hq) as Hp. unfold thread_phase in Hp.
    destruct (own i) as [n|] eqn:Hi.
    + pose proof (phase_step _ _ _ _ _ _ Hcok (inv_next _ _ _ HI i n Hi) Hp Hs) as [Hf Hp'].
      exists i, n, c, q, q'. split_and!; auto; [|by left]. apply (rpc_step_effect _ _ _ _ _ Hs).
      intros req. by apply (phase_write _ _ _ _ _ Hp).
    + subst q. pose proof (start_rpc_step _ _ _ _ Hcok Hs) as [Hf Hp'].
      exists i, (as_next (net_server N)), c, (api_rpc c.1 c.2), q'. split_and!; auto; [|by left].
      apply (rpc_step_effect _ _ _ _ _ Hs). intros req.
      pose proof (call_shape c Hcok) as (addr & Hv & _).
      destruct (api_rpc_shape c.1 addr (after_connect c.2) (proj1 Hcok)) as (cred & kn & Hk & _).
      rewrite <- Hv in Hk. by rewrite Hk.
  - simpl in He. destruct (arbitrate n _) as [s'|] eqn:Hs; [|done]. simplify_eq/=.
    destruct (arbitrate_step _ _ _ _ _ Hok HI Hs) as (i & c & q & Hi & Hc & Hq & Hn & Hf & Hp).
    exists i, n, c, q, q. split_and!; auto; [by rewrite list_insert_id| |by right; auto].
    eapply arbitrate_effect; [done..|]. by intros a l [= <- <-].
  - simpl in He. destruct (disconnect n _) as [s'|] eqn:Hs; [|done]. simplify_eq/=.
    destruct (disconnect_step _ _ _ _ _ HI Hs) as (i & c & q & Hi & Hc & Hq & Hf & Hp).
    exists i, n, c, q, q. split_and!; auto; [by rewrite list_insert_id| |by right; auto].
    unfold disconnect in Hs. destruct (as_streams _ !! n); [|done]. simpl in Hs.
    case_match; simplify_eq. left. auto.
Qed.

Lemma net_event_inv_own own ev N N' :
  calls_ok calls -> net_inv calls own N -> net_event ev N = Some N' ->
  exists own', net_inv calls own' N' /\ forall i n, own i = Some n -> own' i = Some n.
Proof.
  intros Hok HI He.
  destruct (net_event_step _ _ _ _ Hok HI He) as (i & n & c & q & q' & Hc & Hq & Ho & Hf & Hp & E & _).
  exists (set_own i n own). split.
  - pose proof (inv_step calls own N i n c q' (net_server N') HI Hc ltac:(by eexists) Ho Hf Hp) as HI'.
    rewrite <- E in HI'. by destruct N'.
  - intros j m Hj. unfold set_own. case_decide as Hji; [subst|done].
    destruct Ho as [Ho|[Ho _]]; congruence.
Qed.

Lemma net_inv_start T highest :
  net_inv calls (fun _ => None) (net_start calls (fresh_server T highest) : net).
Proof. apply pool_inv_start. Qed.

Lemma net_inv_reachable T highest N :
  calls_ok calls -> rtc net_step (net_start calls (fresh_server T highest)) N ->
  exists own, net_inv calls own N.
Proof.
  intros Hok. apply (rtc_ind_r (fun N => exists own, net_inv calls own N)).
  - eexists. apply net_inv_start.
  - intros N1 N2 _ [ev ? ? He] [own HI].
    destruct (net_event_inv_own _ _ _ _ Hok HI He) as (own' & HI' & _). by exists own'.
Qed.

(** ** Progress *)

(** A call that has not returned can go on, or the server owes it an answer. *)
Lemma phase_progress c n s q :
  phase c n (as_streams s !! n) q ->
  is_Some (net_returned q) \/ is_Some (rpc_step q s) \/
  exists a l, as_streams s !! n = Some (MkStream (a :: l) [] None false false).
Proof.
  intros Hp. remember (as_streams s !! n) as ost eqn:Hst. symmetry in Hst.
  destruct Hp as [q (kw & -> & Hr)|q (kr & -> & Hkr)|q a l (kr & -> & Hkr) Ha|q l Hin|a l|a].
  - right; left. simpl. rewrite Hst. by eexists.
  - right; right. by eexists _, _.
  - right; left. simpl. rewrite Hst. by eexists.
  - right; left. destruct q as [|r k]; [done|]. destruct Hin as [[Hr _]|[-> _]]; [|by eexists].
    destruct r; try done; simpl; [by eexists..|]. destruct (arb_write request s). by eexists.
  - left. by eexists.
  - left. by eexists.
Qed.

Lemma arbitrate_enabled n s a l :
  as_streams s !! n = Some (MkStream (a :: l) [] None false false) -> is_Some (arbitrate n s).
Proof.
  intros Hn. unfold arbitrate. rewrite Hn. simpl. destruct (arb_election_id a); [|by eexists].
  case_match; by eexists.
Qed.

Lemma net_enabled own N i :
  calls_ok calls -> net_inv calls own N ->
  (exists q, net_calls N !! i = Some q /\ net_returned q = None) ->
  exists ev N', net_event ev N = Some N'.
Proof.
  intros Hok HI (q & Hq & Hr). assert (is_Some (calls !! i)) as [c Hc].
  { apply lookup_lt_is_Some_2. rewrite <- (inv_length _ _ _ HI). by eapply lookup_lt_Some. }
  pose proof (inv_phase _ _ _ HI i c q Hc Hq) as Hp. unfold thread_phase in Hp.
  destruct (own i) as [n|] eqn:Hi.
  - destruct (phase_progress _ _ _ _ Hp) as [[st Hst]|[[[q' s'] Hs]|(a & l & Hn)]]; [congruence| |].
    + exists (Call i). rewrite net_event_call, Hq. simpl. rewrite Hs. by eexists.
    + destruct (arbitrate_enabled _ _ _ _ Hn) as [s' Hs]. exists (Arbitrate n). simpl. rewrite Hs. by eexists.
  - assert (Hcok : call_ok c) by (by eapply (Forall_lookup_1 _ _ _ _ (proj1 Hok))).
    pose proof (call_shape c Hcok) as (addr & Hv & _).
    destruct (api_rpc_shape c.1 addr (after_connect c.2) (proj1 Hcok)) as (cred & kn & Hk & _).
    rewrite <- Hv, <- Hp in Hk. exists (Call i). rewrite net_event_call, Hq, Hk. by eexists.
Qed.

(** ** Sessions, and the end *)

(** A call whose [connect] has not returned. *)
Definition before_session (c : Env * prog Status) (q : rprog Status) : Prop :=
  q = api_rpc c.1 c.2 \/
  exists n, writing c.1 (after_connect c.2) n q \/ reading c.1 (after_connect c.2) n q.

(** One whose [connect] has just returned OK, with a session on stream [n] whose
    election id the server has granted. *)
Definition has_connected (c : Env * prog Status) (n : nat) (q : rprog Status) s : Prop :=
  q = connected c.1 (after_connect c.2) n /\
  exists st, as_streams s !! n = Some st /\ st_election st = Some (call_election c.1).

Lemma api_rpc_opens c :
  call_ok c ->
  exists cred addr kn, api_rpc c.1 c.2 = RVis (NewStream cred addr) kn /\
    forall n, writing c.1 (after_connect c.2) n (kn n).
Proof.
  intros Hc. pose proof (call_shape c Hc) as (addr & Hv & _).
  destruct (api_rpc_shape c.1 addr (after_connect c.2) (proj1 Hc)) as (cred & kn & Hk & Hw).
  rewrite <- Hv in Hk. by exists cred, addr, kn.
Qed.

(** No session call, no return. *)
Lemma before_session_shape c q :
  call_ok c -> before_session c q ->
  exists r k, q = RVis r k /\ forall e n, ~ in_session e n q.
Proof.
  intros Hc [-> | (n & [(kw & -> & _)|(kr & -> & _)])].
  - destruct (api_rpc_opens c Hc) as (cred & addr & kn & -> & _).
    eexists _, _. split; [done|]. intros e n [[[] _]|[? _]]. done.
  - eexists _, _. split; [done|]. intros e m [[[] _]|[? _]]. done.
  - eexists _, _. split; [done|]. intros e m [[[] _]|[? _]]. done.
Qed.

Lemma before_session_step own N i c n q q' s' :
  calls_ok calls -> net_inv calls own N ->
  calls !! i = Some c -> net_calls N !! i = Some q ->
  own i = Some n \/ (own i = None /\ n = as_next (net_server N)) ->
  own_event n q (net_server N) q' s' -> before_session c q ->
  before_session c q' \/ has_connected c n q' s'.
Proof.
  intros Hok HI Hc Hq Ho [Hs|[-> _]] Hb; [|by left].
  assert (Hcok : call_ok c) by (by eapply (Forall_lookup_1 _ _ _ _ (proj1 Hok))).
  pose proof (inv_phase _ _ _ HI i c q Hc Hq) as Hp. unfold thread_phase in Hp.
  destruct Ho as [Hi|[Hi ->]]; rewrite Hi in Hp.
  2: { subst q. destruct (api_rpc_opens c Hcok) as (cred & addr & kn & Hk & Hw).
    rewrite Hk in Hs. simpl in Hs. simplify_eq. left. right. eexists. left. apply Hw. }
  remember (as_streams (net_server N) !! n) as ost eqn:Hst. symmetry in Hst.
  destruct (before_session_shape c q Hcok Hb) as (r & k & Hrk & Hno).
  destruct Hp as [q (kw & -> & Hr)|q (kr & -> & _)|q a l (kr & -> & Hkr) Ha|q l Hin|a l|a].
  - simpl in Hs. rewrite Hst in Hs. simplify_eq/=. left. right. exists n. by right.
  - simpl in Hs. by rewrite Hst in Hs.
  - simpl in Hs. rewrite Hst in Hs. simplify_eq/=. right. split; [by apply Hkr|].
    eexists. simpl. rewrite lookup_insert_eq. by split.
  - by apply Hno in Hin.
  - done.
  - done.
Qed.

Lemma net_run_app evs1 evs2 N : net_run (evs1 ++ evs2) N = net_run evs2 (net_run evs1 N).
Proof. revert N. induction evs1 as [|ev evs IH]; intros N; [done|]. apply IH. Qed.

(** Along every run a call has connected before it does anything else. *)
Lemma session_on_path T highest evs i c q :
  let N0 : net := net_start calls (fresh_server T highest) in
  calls_ok calls -> calls !! i = Some c -> net_calls (net_run evs N0) !! i = Some q ->
  before_session c q \/
  exists evs1 evs2 n q1, evs = evs1 ++ evs2 /\
    net_calls (net_run evs1 N0) !! i = Some q1 /\
    has_connected c n q1 (net_server (net_run evs1 N0)).
Proof.
  intros N0 Hok Hc. revert q. induction evs as [|ev evs IH] using rev_ind; intros q Hq.
  { left. left. simpl in Hq. rewrite list_lookup_fmap, Hc in Hq. by simplify_eq/=. }
  rewrite net_run_app in Hq. simpl in Hq.
  assert (Hmore : (exists evs1 evs2 n q1, evs = evs1 ++ evs2 /\
      net_calls (net_run evs1 N0) !! i = Some q1 /\
      has_connected c n q1 (net_server (net_run evs1 N0))) ->
    exists evs1 evs2 n q1, evs ++ [ev] = evs1 ++ evs2 /\
      net_calls (net_run evs1 N0) !! i = Some q1 /\
      has_connected c n q1 (net_server (net_run evs1 N0))).
  { intros (evs1 & evs2 & n & q1 & -> & Hrest). exists evs1, (evs2 ++ [ev]), n, q1.
    by rewrite app_assoc. }
  destruct (net_event ev (net_run evs N0)) as [N'|] eqn:He; simpl in Hq.
  2: { destruct (IH q Hq) as [Hb|Hx]; [by left|right; auto]. }
  destruct (net_inv_reachable T highest _ Hok (net_run_rtc evs N0)) as [own HI].
  destruct (net_event_step _ _ _ _ Hok HI He)
    as (j & n & cj & q0 & q' & Hcj & Hq0 & Ho & _ & _ & E & _ & Hev).
  rewrite E in Hq. destruct (decide (j = i)) as [->|Hji].
  - rewrite list_lookup_insert_eq in Hq by (by eapply lookup_lt_Some). simplify_eq.
    destruct (IH q0 Hq0) as [Hb|Hx]; [|right; auto].
    destruct (before_session_step _ _ _ _ _ _ _ _ Hok HI Hc Hq0 Ho Hev Hb) as [Hb'|Hconn]; [by left|].
    right. exists (evs ++ [ev]), [], n, q. rewrite app_nil_r. split; [done|].
    rewrite net_run_app. simpl. rewrite He. simpl. split; [|done].
    rewrite E. apply list_lookup_insert_eq. by eapply lookup_lt_Some.
  - rewrite list_lookup_insert_ne in Hq by done. destruct (IH q Hq) as [Hb|Hx]; [by left|right; auto].
Qed.

(** When the election ids of the calls differ, the server ends no stream, and
    whatever a call returns it returns after its [connect] has returned OK,
    however the RPCs are interleaved and whoever is the primary. *)
Lemma sessions_granted T highest evs :
  let N0 : net := net_start calls (fresh_server T highest) in
  let N := net_run evs N0 in
  calls_ok calls ->
  (forall n st, as_streams (net_server N) !! n = Some st -> st_ended st = false) /\
  forall i c st, calls !! i = Some c -> net_calls N !! i = Some (RRet st) ->
    exists evs1 evs2 n q, evs = evs1 ++ evs2 /\
      net_calls (net_run evs1 N0) !! i = Some q /\
      has_connected c n q (net_server (net_run evs1 N0)).
Proof.
  intros N0 N Hok.
  destruct (net_inv_reachable T highest N Hok (net_run_rtc evs N0)) as [own HI]. split.
  - intros n st Hn. destruct (stream_owner _ _ _ _ _ HI Hn) as (i & c & q & _ & _ & _ & Hp).
    by eapply phase_ended.
  - intros i c st Hc Hq. destruct (session_on_path T highest evs i c _ Hok Hc Hq) as [Hb|Hx]; [|done].
    assert (Hcok : call_ok c) by (by eapply (Forall_lookup_1 _ _ _ _ (proj1 Hok))).
    by destruct (before_session_shape c _ Hcok Hb) as (r & k & ? & _).
Qed.

(** Then no call gets stuck. From every state the interleaved
    calls reach, they can all return; and a state in which nothing can happen
    any more has returned from all of them (with [net_terminates], every run
    gets there). *)
Lemma net_completion T highest N :
  calls_ok calls -> rtc net_step (net_start calls (fresh_server T highest)) N ->
  (exists N', rtc net_step N N' /\
     Forall (fun q => is_Some (net_returned q)) (net_calls N')) /\
  (nf net_step N -> Forall (fun q => is_Some (net_returned q)) (net_calls N)).
Proof.
  intros Hok Hr.
  assert (Hstep : forall N, rtc net_step (net_start calls (fresh_server T highest)) N ->
    (exists N', net_step N N') \/ Forall (fun q => is_Some (net_returned q)) (net_calls N)).
  { clear N Hr. intros N Hr. destruct (net_inv_reachable _ _ _ Hok Hr) as [own HI].
    destruct (decide (Forall (fun q => is_Some (net_returned q)) (net_calls N))) as [|Hn]; [by right|].
    left. apply not_Forall_Exists, Exists_exists in Hn as (q & Hin & Hq); [|apply _].
    apply list_elem_of_In, list_elem_of_lookup in Hin as [i Hi].
    destruct (net_enabled own N i Hok HI) as (ev & N' & He); [|by exists N'; exists ev].
    exists q. split; [done|]. apply eq_None_not_Some. exact Hq. }
  split.
  - revert Hr. induction (net_terminates N) as [N _ IH]. intros Hr.
    destruct (Hstep N Hr) as [[N' Hs]|Hall]; [|by exists N].
    destruct (IH N' Hs) as (N'' & Hss & Hall); [by eapply rtc_r|].
    exists N''. split; [by eapply rtc_l|done].
  - intros Hnf. by destruct (Hstep N Hr) as [Hs|].
Qed.
End NetSessions.
