(* ===== verification/LastCall.v ===== *)
(** * Interleaved RPCs: the last call runs as if alone

    The call with the highest election id is never outranked. From the moment
    the server grants its id nothing else changes the tables, so that it does
    what the same function does on a server of its own ([Server.RefServer]). *)

From stdpp Require Import gmap relations.
From S2P Require Import Prelude P4Runtime OvsP4rt Client Session ClientImpl Switch Server Rpc.
From S2P Require Import Threads Arbitration NetProps OwnRequests Elections NetSessions.

Lemma list_filter_all {A} (P : A -> Prop) `{!forall x, Decision (P x)} (l : list A) :
  Forall P l -> filter P l = l.
Proof.
  induction 1 as [|x l Hx _ IH]; [done|]. by rewrite list.filter_cons, decide_True, IH.
Qed.

Section LastCall.
Context {p4info : P4Info} {accepts : TableEntry -> bool}.
Abbreviation net := (net p4info accepts).
Abbreviation S := (ArbServer p4info accepts).
Abbreviation Ref := (RefServer p4info accepts).
Implicit Types (N : net) (s : S).

Variable calls : list (Env * prog Status).
Variable last : nat.
Variable c0 : Env * prog Status.
Variable T0 : tables.
#[local] Abbreviation e0 := (call_election c0.1).
#[local] Abbreviation k0 := (after_connect c0.2).

Hypothesis Hok : calls_ok calls.
Hypothesis Hlast : calls !! last = Some c0.
Hypothesis Hhighest : forall i c, i <> last -> calls !! i = Some c ->
  election_value (call_election c.1) < election_value e0.

(** ** The same function on a server of its own *)

Definition own_server (T : tables) : Ref := MkRefServer T (Some e0) None.

Definition whole (T : tables) : Status * Ref :=
  rrun (api_rpc c0.1 c0.2) (MkRefServer T None None : Ref).

Lemma last_ok : call_ok c0.
Proof. by eapply (Forall_lookup_1 _ _ _ _ (proj1 Hok)). Qed.

Lemma whole_connected n T : whole T = rrun (connected c0.1 k0 n) (own_server T).
Proof.
  pose proof (call_shape c0 last_ok) as (addr & Hv & _).
  destruct (api_rpc_shape c0.1 addr k0 (proj1 last_ok)) as (cred & kn & Hk & Hw).
  rewrite <- Hv in Hk. unfold whole. rewrite Hk. simpl.
  destruct (Hw 0%nat) as (kw & Hkw & kr & Hkr & Hc). rewrite Hkw. simpl. rewrite Hkr. simpl.
  rewrite Hc by done. apply connected_stub.
Qed.

(** How far the last call is, once its id has been granted; [W] is the result
    it is to have. *)
Inductive stage (n : nat) s (q : rprog Status) (W : Status * Ref) : Prop :=
| stage_answer a l :
    as_streams s !! n = Some (MkStream [] (kArbitration a :: l) (Some e0) false false) ->
    reading c0.1 k0 n q -> arb_device_id a = 1 ->
    rrun (connected c0.1 k0 n) (own_server (as_tables s)) = W -> stage n s q W
| stage_session l :
    as_streams s !! n = Some (MkStream [] l (Some e0) false false) ->
    in_session e0 n q -> rrun q (own_server (as_tables s)) = W -> stage n s q W
| stage_done a :
    q = RRet a -> W = (a, own_server (as_tables s)) -> stage n s q W.

Definition others_log s : list (Uint128 * list Update) := filter (fun x => x.1 <> e0) (as_log s).

(** Before and after the server has granted its id. *)
Definition last_inv (own : nat -> option nat) N : Prop :=
  let s := net_server N in
  ((forall h, as_highest s = Some h -> election_value h <= election_value e0) /\
   Forall (fun x => x.1 <> e0) (as_log s) /\
   (forall n, own last = Some n -> exists st, as_streams s !! n = Some st /\ st_election st = None)) \/
  (as_highest s = Some e0 /\
   exists n q, own last = Some n /\ net_calls N !! last = Some q /\
     stage n s q (whole (replay (accepts := accepts) (others_log s) T0))).

Lemma stage_frame n m s s' q W :
  m <> n -> frame m s s' -> as_tables s' = as_tables s -> stage n s q W -> stage n s' q W.
Proof.
  intros Hm (Hf & _) HT Hst.
  assert (Hn : forall st, as_streams s !! n = Some st ->
    as_streams s' !! n = Some st \/ exists msg, as_streams s' !! n = Some (notify msg st)).
  { intros st Hs. destruct (Hf n (not_eq_sym Hm)) as [->|[msg ->]]; rewrite Hs; eauto. }
  destruct Hst as [a l Hs Hr Ha HW|l Hs Hin HW|a Hq HW].
  - destruct (Hn _ Hs) as [E|[msg E]]; (eapply stage_answer; [exact E|done..|by rewrite HT]).
  - destruct (Hn _ Hs) as [E|[msg E]]; (eapply stage_session; [exact E|done|by rewrite HT]).
  - eapply stage_done; [done|]. by rewrite HT.
Qed.

(** ** Another call's step *)

Lemma others_log_snoc s s' e us :
  as_log s' = as_log s ++ [(e, us)] ->
  others_log s' = if decide (e = e0) then others_log s else others_log s ++ [(e, us)].
Proof.
  intros E. unfold others_log. rewrite E, list.filter_app. simpl.
  case_decide as He.
  - rewrite list.filter_cons, decide_False by (simpl; tauto). by rewrite app_nil_r.
  - by rewrite list.filter_cons, decide_True.
Qed.

Lemma last_inv_other own N i n c q' s' :
  net_inv calls own N -> last_inv own N -> i <> last -> calls !! i = Some c ->
  own i = Some n \/ (own i = None /\ n = as_next (net_server N)) ->
  frame n (net_server N) s' ->
  event_effect (call_election c.1) (net_server N) s' ->
  last_inv (set_own i n own) (MkNet (<[i := q']> (net_calls N)) s').
Proof.
  intros HI Hinv Hi Hc Ho Hf Heff. pose proof (Hhighest i c Hi Hc) as Hlt.
  assert (Hne : call_election c.1 <> e0) by (intros E; rewrite E in Hlt; lia).
  assert (Hown : set_own i n own last = own last) by (unfold set_own; by rewrite decide_False by auto).
  assert (Hdiff : forall n0, own last = Some n0 -> n <> n0).
  { intros n0 H0 ->. destruct Ho as [Ho|[_ ->]].
    - by apply Hi, (inv_inj _ _ _ HI i last n0).
    - apply (inv_next _ _ _ HI) in H0. lia. }
  unfold last_inv. simpl. rewrite Hown.
  destruct Hinv as [(Hh & Hlog & Hst)|(Hh & n0 & q & Hn0 & Hq & Hst)]; [left|right].
  - split_and!.
    + intros h Hh'. destruct Heff as [(_ & _ & [E|[E _]])|(_ & E & _)]; rewrite E in Hh'; auto.
      simplify_eq. lia.
    + destruct Heff as [(E & _)|(_ & _ & us & E)]; rewrite E; [done|].
      apply Forall_app. split; [done|]. by repeat constructor.
    + intros n0 Hn0. destruct (Hst n0 Hn0) as (st & Hs & He). exists st. split; [|done].
      destruct Hf as (Hf & _). destruct (Hf n0 (not_eq_sym (Hdiff n0 Hn0))) as [->|[msg ->]]; [done|].
      rewrite Hs. unfold notify. simpl. by rewrite He.
  - assert (Hquiet : as_log s' = as_log (net_server N) /\ as_tables s' = as_tables (net_server N) /\
      as_highest s' = as_highest (net_server N)).
    { destruct Heff as [(E1 & E2 & [E3|[_ E3]])|(E1 & _)]; [done| |].
      - rewrite Hh in E3. simpl in E3. lia.
      - apply as_primary_highest in E1. congruence. }
    destruct Hquiet as (El & ET & Eh). split; [by rewrite Eh|]. exists n0, q.
    split; [done|]. split; [by rewrite list_lookup_insert_ne|].
    unfold others_log. rewrite El. eapply stage_frame; [by apply Hdiff|done..].
Qed.

(** ** Its own step *)

(** Before its id is granted. *)
Lemma last_inv_before own N n q q' s' :
  let s := net_server N in
  net_inv calls own N -> net_calls N !! last = Some q ->
  own last = Some n \/ (own last = None /\ n = as_next s) ->
  own_event n q s q' s' -> log_inv (accepts := accepts) T0 s ->
  (forall h, as_highest s = Some h -> election_value h <= election_value e0) ->
  Forall (fun x => x.1 <> e0) (as_log s) ->
  (forall n, own last = Some n -> exists st, as_streams s !! n = Some st /\ st_election st = None) ->
  last_inv (set_own last n own) (MkNet (<[last := q']> (net_calls N)) s').
Proof.
  intros s HI Hq Ho Hev HT Hh Hlog Hst. subst s.
  assert (Hown : set_own last n own last = Some n) by (unfold set_own; by rewrite decide_True).
  assert (Hlt : (last < length (net_calls N))%nat) by (by eapply lookup_lt_Some).
  pose proof (inv_phase _ _ _ HI last c0 q Hlast Hq) as Hp.
  destruct Ho as [Ho|[Ho ->]]; rewrite Ho in Hp; simpl in Hp.
  - destruct (Hst n Ho) as (st & Hs & He). unfold own_event, arbitrate, disconnect in Hev.
    rewrite Hs in Hp, Hev. inversion Hp as [q1 Hw|q1 Hr| | | |]; subst; simplify_eq/=.
    + destruct Hev as [Hev|[_ [Hev|Hev]]]; [|done..]. destruct Hw as (kw & -> & _).
      simpl in Hev. rewrite Hs in Hev. simplify_eq/=. left. simpl. rewrite Hown.
      split_and!; [done..|]. intros m [= <-]. rewrite lookup_insert_eq. by eexists.
    + destruct Hev as [Hev|[-> [Hev|Hev]]]; [| |done].
      * destruct Hr as (kr & -> & _). simpl in Hev. by rewrite Hs in Hev.
      * rewrite (not_held calls own N last c0 n) in Hev by done. simpl in Hev.
        assert (outranks e0 (as_highest (net_server N)) = true) as Hout.
        { unfold outranks. destruct (as_highest (net_server N)) as [h|]; [|done].
          apply Z.leb_le. by apply Hh. }
        rewrite Hout in Hev. simplify_eq. right. split; [done|]. rewrite Hown.
        exists n, q. split; [done|]. split; [by simpl; rewrite list_lookup_insert_eq|].
        eapply stage_answer; [simpl; apply lookup_insert_eq|done|done|].
        simpl. unfold others_log. simpl. rewrite <- whole_connected. f_equal.
        rewrite (log_replay _ _ HT). f_equal. symmetry.
        by apply list_filter_all.
  - assert (Hfresh : as_streams (net_server N) !! as_next (net_server N) = None).
    { apply eq_None_not_Some. intros [st Hs].
      destruct (inv_owned _ _ _ HI _ _ Hs) as (i & Hi & _).
      apply (inv_next _ _ _ HI) in Hi. lia. }
    unfold own_event, arbitrate, disconnect in Hev. rewrite Hfresh in Hev.
    destruct Hev as [Hev|[_ [Hev|Hev]]]; [|done..].
    pose proof (call_shape c0 last_ok) as (addr & Hv & _).
    destruct (api_rpc_shape c0.1 addr k0 (proj1 last_ok)) as (cred & kn & Hk & _).
    rewrite <- Hv in Hk. rewrite Hp, Hk in Hev. simpl in Hev. simplify_eq. left. simpl.
    rewrite Hown. split_and!; [done..|]. intros m [= <-]. rewrite lookup_insert_eq. by eexists.
Qed.

(** A write of the primary is one on its own server. *)
Lemma own_write s req gs s' :
  as_primary s = Some e0 -> wr_election_id req = Some e0 -> arb_write req s = (gs, s') ->
  ref_write req (own_server (as_tables s)) = (gs, own_server (as_tables s')) /\
  others_log s' = others_log s.
Proof.
  intros Hp Hr. unfold arb_write, ref_write. rewrite Hr, Hp. simpl.
  rewrite !bool_decide_true by done. simpl. destruct (wr_device_id req =? 1); simpl.
  - destruct (ref_updates _ _) as [b T]. intros [= <- <-]. split; [done|].
    erewrite others_log_snoc; [|done]. by rewrite decide_True.
  - by intros [= <- <-].
Qed.

Lemma own_session_step s n l r k q' s' :
  as_highest s = Some e0 ->
  as_streams s !! n = Some (MkStream [] l (Some e0) false false) ->
  in_session e0 n (RVis r k) -> rpc_step (RVis r k) s = Some (q', s') ->
  as_highest s' = Some e0 /\ others_log s' = others_log s /\
  stage n s' q' (rrun (RVis r k) (own_server (as_tables s))).
Proof.
  intros Hh Hs [[Hr Hk]|[-> Hk]] Hev.
  - assert (Hp : as_primary s = Some e0).
    { unfold as_primary. rewrite Hh. unfold holds. rewrite bool_decide_true; [done|].
      apply map_Exists_lookup. by exists n, (MkStream [] l (Some e0) false false). }
    assert (Hsame : as_streams s' = as_streams s /\ as_highest s' = as_highest s).
    { destruct r; try done; simpl in Hev; simplify_eq; try done.
      unfold arb_write in Hev. repeat case_match; by simplify_eq. }
    split; [by rewrite (proj2 Hsame)|].
    destruct r; try done; simpl in Hev; simplify_eq.
    + split; [done|]. eapply stage_session; [exact Hs|apply Hk|done].
    + split; [done|]. eapply stage_session; [exact Hs|apply Hk|].
      simpl. unfold arb_read, ref_read. simpl. by destruct (mapM _ _).
    + destruct (arb_write request s) as [gs s1] eqn:Hw. simplify_eq/=.
      destruct (own_write _ _ _ _ Hp Hr Hw) as [E El]. split; [done|].
      eapply stage_session; [by rewrite (proj1 Hsame)|apply Hk|]. by rewrite E.
  - simpl in Hev. simplify_eq. split; [done|]. split; [done|].
    destruct (Hk ()) as [a Ha]. destruct (k ()) as [a'|] eqn:Hq; [|done].
    eapply stage_done; [done|]. simpl. by rewrite Hq.
Qed.

(** After. *)
Lemma last_inv_after own N n q q' s' :
  let s := net_server N in
  net_inv calls own N -> own last = Some n -> net_calls N !! last = Some q ->
  own_event n q s q' s' -> as_highest s = Some e0 ->
  stage n s q (whole (replay (accepts := accepts) (others_log s) T0)) ->
  last_inv (set_own last n own) (MkNet (<[last := q']> (net_calls N)) s').
Proof.
  intros s HI Ho Hq Hev Hh Hst. subst s.
  assert (Hlt : (last < length (net_calls N))%nat) by (by eapply lookup_lt_Some).
  assert (Hgoal : as_highest s' = Some e0 -> others_log s' = others_log (net_server N) ->
    stage n s' q' (whole (replay (accepts := accepts) (others_log (net_server N)) T0)) ->
    last_inv (set_own last n own) (MkNet (<[last := q']> (net_calls N)) s')).
  { intros Hh' El Hst'. right. split; [done|]. exists n, q'. unfold set_own.
    rewrite decide_True by done. split; [done|]. split; [by simpl; rewrite list_lookup_insert_eq|].
    simpl. by rewrite El. }
  unfold own_event in Hev.
  destruct Hst as [a l Hs (kr & -> & Hkr) Ha HW|l Hs Hin HW|a -> HW].
  - destruct Hev as [Hev|[_ [Hev|Hev]]];
      [|by unfold arbitrate in Hev; rewrite Hs in Hev|by unfold disconnect in Hev; rewrite Hs in Hev].
    simpl in Hev. rewrite Hs in Hev. simplify_eq/=. apply Hgoal; [done..|].
    rewrite Hkr by done. eapply stage_session; [simpl; apply lookup_insert_eq| |exact HW].
    pose proof (call_shape c0 last_ok) as (_ & _ & Hk). by apply connected_in_session.
  - destruct Hev as [Hev|[_ [Hev|Hev]]];
      [|by unfold arbitrate in Hev; rewrite Hs in Hev|by unfold disconnect in Hev; rewrite Hs in Hev].
    destruct q as [|r k]; [done|].
    destruct (own_session_step _ _ _ _ _ _ _ Hh Hs Hin Hev) as (Hh' & El & Hst').
    rewrite HW in Hst'. by apply Hgoal.
  - pose proof (inv_phase _ _ _ HI last c0 _ Hlast Hq) as Hp. rewrite Ho in Hp. simpl in Hp.
    destruct Hev as [Hev|[-> [Hev|Hev]]]; [done| |].
    + unfold arbitrate in Hev. destruct (as_streams (net_server N) !! n) as [st|]; [|done].
      simpl in Hev. destruct (st_sent st) eqn:Hs; [done|].
      by destruct (phase_sent _ _ _ _ _ _ Hp Hs) as [_ (kr & ? & _)].
    + unfold disconnect in Hev. destruct (as_streams (net_server N) !! n) as [st|]; [|done].
      simpl in Hev. destruct (st_closed st); [|done]. simplify_eq.
      apply Hgoal; [done..|]. by eapply stage_done.
Qed.
End LastCall.

(** ** Properties *)

Section Alone.
Context {p4info : P4Info} {accepts : TableEntry -> bool}.
Abbreviation Ref := (RefServer p4info accepts).

(** [i] is the call with the highest id, and no controller before had a higher
    one. *)
Definition never_outranked (calls : list (Env * prog Status)) (i : nat) (env : Env)
  (highest : option Uint128) : Prop :=
  (forall j c, j <> i -> calls !! j = Some c ->
     election_value (call_election c.1) < election_value (call_election env)) /\
  (forall h, highest = Some h -> election_value h <= election_value (call_election env)).

(** What the other calls have made of the tables, by the log of the server. *)
Definition before_call (env : Env) (T : tables) (s : ArbServer p4info accepts) : tables :=
  replay (accepts := accepts) (filter (fun x => x.1 <> call_election env) (as_log s)) T.

Lemma last_inv_reachable calls i c T highest (N : net p4info accepts) :
  calls_ok calls -> calls !! i = Some c -> never_outranked calls i c.1 highest ->
  rtc net_step (net_start calls (fresh_server T highest)) N ->
  exists own, net_inv calls own N /\ last_inv i c T own N.
Proof.
  intros Hok Hc [Hmax Hold] Hr.
  enough (Hboth : (exists own, net_inv calls own N /\ last_inv i c T own N) /\
    log_inv T (net_server N)) by apply Hboth.
  revert N Hr. apply rtc_ind_r.
  { split; [|apply fresh_log_inv]. eexists. split; [apply net_inv_start|]. left. by split_and!. }
  intros N1 N2 _ [ev N N' He] [(own & HI & Hinv) HT]. split; [|by eapply net_event_inv].
  destruct (net_event_step _ _ _ _ _ Hok HI He)
    as (j & n & cj & q & q' & Hcj & Hq & Ho & Hf & Hp & E & Heff & Hev).
  exists (set_own j n own). split.
  { pose proof (inv_step calls own N j n cj q' _ HI Hcj ltac:(by eexists) Ho Hf Hp) as HI'.
    rewrite <- E in HI'. by destruct N'. }
  assert (Hshape : N' = MkNet (<[j := q']> (net_calls N)) (net_server N')).
  { rewrite <- E. by destruct N'. }
  rewrite Hshape. destruct (decide (j = i)) as [->|Hji].
  - simplify_eq. destruct Hinv as [(Hh & Hlog & Hst)|(Hh & n0 & q0 & Hn0 & Hq0 & Hst)].
    + by eapply last_inv_before.
    + simplify_eq. destruct Ho as [Ho|[Ho _]]; [|congruence].
      assert (n0 = n) as -> by congruence. by eapply last_inv_after.
  - by eapply (last_inv_other calls i c).
Qed.

Lemma last_call_result calls i c T highest (N : net p4info accepts) st :
  calls_ok calls -> calls !! i = Some c -> never_outranked calls i c.1 highest ->
  rtc net_step (net_start calls (fresh_server T highest)) N ->
  net_calls N !! i = Some (RRet st) ->
  run c.2 (new_Client c.1 (MkRefServer (before_call c.1 T (net_server N)) None None : Ref)) =
    (st, (run c.2 (new_Client c.1
            (MkRefServer (before_call c.1 T (net_server N)) None None : Ref))).2) /\
  rs_tables (cl_server (run c.2 (new_Client c.1
    (MkRefServer (before_call c.1 T (net_server N)) None None : Ref))).2) =
    as_tables (net_server N).
Proof.
  intros Hok Hc Hn Hr Hq.
  destruct (last_inv_reachable _ _ _ _ _ _ Hok Hc Hn Hr) as (own & HI & Hinv).
  pose proof (inv_phase _ _ _ HI i c _ Hc Hq) as Hp.
  assert (Hw : whole (accepts := accepts) (p4info := p4info) c (before_call c.1 T (net_server N)) =
    (st, own_server c (as_tables (net_server N)))).
  { destruct Hinv as [(_ & _ & Hst)|(_ & n & q & Ho & Hq' & Hst)].
    - exfalso. destruct (own i) as [n|] eqn:Ho; simpl in Hp.
      + destruct (Hst n eq_refl) as (s & Hs & He). pose proof (phase_returned _ _ _ _ Hp s Hs) as Hp'.
        rewrite Hp' in He. done.
      + pose proof (last_ok calls i c Hok Hc) as Hcok.
        pose proof (call_shape c Hcok) as (addr & Hv & _).
        destruct (api_rpc_shape c.1 addr (after_connect c.2) (proj1 Hcok)) as (cred & kn & Hk & _).
        rewrite <- Hv in Hk. congruence.
    - simplify_eq. destruct Hst as [a l _ (kr & ? & _) _ _|l _ Hin _|a Ha HW]; [done..|].
      by simplify_eq. }
  unfold whole in Hw. rewrite rpc_client_agrees in Hw.
  injection Hw as H1 H2. split; [rewrite <- H1; apply surjective_pairing|by rewrite H2].
Qed.

(** C9 net_last_call_alone: a call that is never outranked runs as if it were
    alone, however its RPCs are interleaved with those of the others and with
    the steps of the server: its status, and the tables when it has returned,
    are those of the same function on a server of its own that starts from what
    the other calls had written before, and they write nothing after it. *)
Theorem net_last_call_alone calls i c T highest (N : net p4info accepts) st :
  calls_ok calls -> calls !! i = Some c -> never_outranked calls i c.1 highest ->
  rtc net_step (net_start calls (fresh_server T highest)) N ->
  net_calls N !! i = Some (RRet st) ->
  let '(st', w) :=
    run c.2 (new_Client c.1 (MkRefServer (before_call c.1 T (net_server N)) None None : Ref)) in
  st' = st /\ rs_tables (cl_server w) = as_tables (net_server N).
Proof.
  intros Hok Hc Hn Hr Hq. destruct (last_call_result _ _ _ _ _ _ _ Hok Hc Hn Hr Hq) as [E ET].
  rewrite E. by split.
Qed.
End Alone.
