(* ===== verification/Outranked.v ===== *)
(** * Interleaved RPCs: a call that is outranked

    Once the server has granted a higher election id, the requests of a call
    are refused. For a tunnel, which is three requests, that means that a part
    of it stays behind. *)

From stdpp Require Import gmap relations.
From S2P Require Import Prelude P4Runtime OvsP4rt Client Session ClientImpl Switch Server Rpc.
From S2P Require Import Es2kTunnel.
From S2P Require Import Threads Arbitration NetProps OwnRequests Elections NetSessions LastCall.

(** ** Programs that send given requests *)

Section Sends.
Variables (ses : OvsP4rtSession) (p4info : P4Info).

(** Prints, and returns an error. *)
Fixpoint fails (p : prog Status) : Prop :=
  match p with
  | Ret st => ok st = false
  | Vis c k => (exists line, c = cout line) /\ forall r, fails (k r)
  end.

(** One call of a program whose write requests are to have the updates [us]:
    [rec] is what remains to be shown of the answers it goes on after, [failed]
    of those it gives up after. *)
Definition sends_call (c : call) (us : list (list Update))
  : (call_ret c -> list (list Update) -> Prop) -> (call_ret c -> Prop) -> Prop :=
  match c with
  | sendWriteRequest req => fun rec failed =>
      exists u us', us = u :: us' /\ wr_updates req = u /\
        wr_device_id req = DeviceId ses /\ wr_election_id req = Some (ElectionId ses) /\
        rec OkStatus us' /\ forall e, failed (ErrStatus e)
  | getPipelineConfig => fun rec _ => rec (OkStatus, p4info) us
  | connect _ | sendReadRequest _ => fun _ _ => False
  | c => fun rec _ => forall r, session_answer ses c r -> rec r us
  end.

(** In session [ses], [p] sends the updates [us], one request each, in order;
    it stops with an error at the first that is refused, and returns OK when
    none is. *)
Fixpoint sends (p : prog Status) (us : list (list Update)) : Prop :=
  match p with
  | Ret st => us = [] /\ ok st = true
  | Vis c k => sends_call c us (fun r us => sends (k r) us) (fun r => fails (k r))
  end.

Lemma sends_print lines p us : sends p us -> sends (print_lines lines;; p) us.
Proof. intros Hp. induction lines as [|l lines IH]; [done|]. by intros r _. Qed.

Lemma sends_print_bind lines p (k : Status -> prog Status) us :
  sends (p ≫= k) us -> sends ((print_lines lines;; p) ≫= k) us.
Proof. intros Hp. induction lines as [|l lines IH]; [done|]. by intros r _. Qed.

(** A request for one entry, as the [Write...TableEntry] functions send it. *)
Definition entry_update (ins : bool) (te : TableEntry) : list Update :=
  [MkUpdate (if ins then UPDATE_INSERT else UPDATE_DELETE) (ENTITY_TABLE_ENTRY te)].

Section Entry.
Variable f : TableEntry -> TableEntry * list string.
Variable ins : bool.

Definition write_entry : prog Status :=
  '(write_request, table_entry) ← do_call (initWriteRequest default_WriteRequest ins);
  let '(te, out) := f (wr_deref write_request table_entry) in
  print_lines out;;
  do_call (sendWriteRequest (wr_store write_request table_entry te)).

Lemma sends_write_entry :
  sends write_entry [entry_update ins (f default_TableEntry).1].
Proof.
  intros [req ptr] E. simpl in E.
  destruct ins; injection E as -> ->; simpl; change (wr_deref _ _) with default_TableEntry;
    destruct (f default_TableEntry) as [te out];
    apply sends_print; (eexists _, []; by split_and!).
Qed.

Lemma sends_write_entry_then (k : Status -> prog Status) us :
  sends (k OkStatus) us -> (forall e, fails (k (ErrStatus e))) ->
  sends (write_entry ≫= k) (entry_update ins (f default_TableEntry).1 :: us).
Proof.
  intros Hk He [req ptr] E. simpl in E.
  destruct ins; injection E as -> ->; simpl; change (wr_deref _ _) with default_TableEntry;
    destruct (f default_TableEntry) as [te out];
    apply sends_print_bind; (eexists _, us; by split_and!).
Qed.
End Entry.

(** The three requests of a tunnel. *)
Definition tunnel_requests (t : tunnel_info) (ins : bool) : list (list Update) :=
  entry_update ins <$> tunnel_entries t p4info ins.

Lemma sends_tunnel t ins addr :
  sends (after_connect (Es2kTunnel.DoConfigTunnelEntry t ins addr) OkStatus)
    (tunnel_requests t ins).
Proof.
  apply (sends_write_entry_then (fun te => PrepareEncapTableEntry te t p4info ins) ins); [|done].
  apply (sends_write_entry_then (fun te => PrepareDecapTableEntry te t p4info ins) ins); [|done].
  apply (sends_write_entry (fun te => PrepareTunnelTermTableEntry te t p4info ins) ins).
Qed.

(** ** The same of RPCs *)

Definition rfails (q : rprog Status) : Prop :=
  match q with
  | RVis (StreamClose _) k => exists st, k () = RRet st /\ ok st = false
  | RRet st => ok st = false
  | _ => False
  end.

Definition rsends_rpc (r : srpc) (us : list (list Update))
  : (srpc_ret r -> list (list Update) -> Prop) -> (srpc_ret r -> rprog Status) -> Prop :=
  match r with
  | StreamClose _ => fun _ k => us = [] /\ exists st, k () = RRet st /\ ok st = true
  | PipelineConfig _ => fun rec _ => rec (grpc_OK, p4info) us
  | WriteUpdates req => fun rec k =>
      exists u us', us = u :: us' /\ wr_updates req = u /\
        wr_device_id req = DeviceId ses /\ wr_election_id req = Some (ElectionId ses) /\
        rec grpc_OK us' /\
        forall gs, ok (GrpcStatusToAbslStatus gs) = false -> rfails (k gs)
  | _ => fun _ _ => False
  end.

Fixpoint rsends (q : rprog Status) (us : list (list Update)) : Prop :=
  match q with
  | RRet _ => False
  | RVis r k => rsends_rpc r us (fun x us => rsends (k x) us) k
  end.

Definition close_after (p : prog Status) (w : RpcClient) : rprog Status :=
  '(a, w) ← run_rpc p w; close_session w;; mret a.

Lemma fails_rpc p w n :
  rc_session w = Some (n, ses) -> fails p -> rfails (close_after p w).
Proof.
  unfold close_after. revert w. induction p as [a|c k IH]; intros w Hw Hf.
  - simpl in *. unfold close_session. rewrite Hw. by exists a.
  - destruct Hf as [[line ->] Hf]. simpl. by apply IH.
Qed.

Lemma sends_rpc p w n us :
  rc_session w = Some (n, ses) -> sends p us -> rsends (close_after p w) us.
Proof.
  unfold close_after. revert w us. induction p as [a|c k IH]; intros w us Hw Hs.
  { destruct Hs as [-> Ha]. simpl. unfold close_session. rewrite Hw. simpl. eauto. }
  destruct c; simpl in Hs |- *; try done; unfold with_session_rpc; try rewrite Hw;
    try (by apply IH, Hs).
  destruct Hs as (u & us' & -> & Hu & Hd & He & Hk & Hf).
  exists u, us'. split_and!; [done..|by apply (IH OkStatus)|].
  intros gs Hgs. simpl. destruct (GrpcStatusToAbslStatus gs) as [|e]; [done|].
  by apply (fails_rpc (k (ErrStatus e)) w n).
Qed.
End Sends.

(** ** Outranked calls *)

Section Outranked.
Context {p4info : P4Info} {accepts : TableEntry -> bool}.
Abbreviation net := (net p4info accepts).
Abbreviation S := (ArbServer p4info accepts).
Implicit Types (N : net) (s : S).

(** The updates of the requests that were let through under [e], in order. *)
Definition written_under (e : Uint128) s : list (list Update) :=
  snd <$> filter (fun x => x.1 = e) (as_log s).

Definition outranked (e : Uint128) s : Prop :=
  exists h, as_highest s = Some h /\ election_value e < election_value h.

Lemma written_snoc e e' us s s' :
  as_log s' = as_log s ++ [(e', us)] ->
  written_under e s' = written_under e s ++ (if decide (e' = e) then [us] else []).
Proof.
  intros E. unfold written_under. rewrite E, list.filter_app, fmap_app, list.filter_cons. simpl.
  by case_decide.
Qed.

Lemma written_same e s s' : as_log s' = as_log s -> written_under e s' = written_under e s.
Proof. unfold written_under. by intros ->. Qed.

(** What an event of the call with id [e'] does to the requests under [e]. *)
Lemma written_other e e' s s' :
  event_effect e' s s' -> e' <> e -> written_under e s' = written_under e s.
Proof.
  intros [(El & _)|(_ & _ & us & El)] Hne; [by apply written_same|].
  rewrite (written_snoc _ _ _ _ _ El). rewrite decide_False by done. apply app_nil_r.
Qed.

Lemma written_outranked e s s' :
  event_effect e s s' -> outranked e s -> written_under e s' = written_under e s.
Proof.
  intros [(El & _)|(Hp & _)] (h & Hh & Hlt); [by apply written_same|].
  apply as_primary_highest in Hp. rewrite Hh in Hp. simplify_eq. lia.
Qed.

Lemma outranked_effect e e' s s' : event_effect e' s s' -> outranked e s -> outranked e s'.
Proof.
  intros [(_ & _ & [E|[E Ho]])|(_ & E & _)] (h & Hh & Hlt); unfold outranked; rewrite E.
  - by exists h.
  - exists e'. split; [done|]. rewrite Hh in Ho. simpl in Ho. lia.
  - by exists h.
Qed.

(** An outranked call writes nothing any more, and stays outranked. *)
Lemma outranked_writes_nothing calls i c T highest N1 N2 :
  calls_ok calls -> calls !! i = Some c ->
  rtc net_step (net_start calls (fresh_server T highest)) N1 -> rtc net_step N1 N2 ->
  outranked (call_election c.1) (net_server N1) ->
  outranked (call_election c.1) (net_server N2) /\
  written_under (call_election c.1) (net_server N2) =
    written_under (call_election c.1) (net_server N1).
Proof.
  intros Hok Hc H1 H12 Ho. revert N2 H12. apply rtc_ind_r; [done|].
  intros N N' H2 Hstep [Ho2 IH]. inversion_clear Hstep as [ev ? ? He].
  destruct (net_inv_reachable calls T highest N Hok) as [own HI].
  { etrans; [exact H1|exact H2]. }
  destruct (net_event_step _ _ _ _ _ Hok HI He)
    as (j & n & cj & q & q' & Hcj & _ & _ & _ & _ & _ & Heff & _).
  split; [by eapply outranked_effect|]. rewrite <- IH.
  destruct (decide (call_election cj.1 = call_election c.1)) as [E|E].
  - rewrite E in Heff. by apply written_outranked.
  - by eapply written_other.
Qed.
End Outranked.

(** ** A tunnel *)

Section Tunnel.
Context {p4info : P4Info} {accepts : TableEntry -> bool}.
Abbreviation net := (net p4info accepts).
Abbreviation S := (ArbServer p4info accepts).
Implicit Types (N : net) (s : S).
Variable calls : list (Env * prog Status).
Variables (i : nat) (c : Env * prog Status) (all : list (list Update)).
#[local] Abbreviation e := (call_election c.1).

Hypothesis Hok : calls_ok calls.
Hypothesis Hc : calls !! i = Some c.
Hypothesis Hsends : sends (call_session c.1) p4info (after_connect c.2 OkStatus) all.

(** How far call [i] is, against the requests it has had let through. *)
Inductive progress (done : list (list Update)) (q : rprog Status) : Prop :=
| pr_before : before_session c q -> done = [] -> progress done q
| pr_session us : rsends (call_session c.1) p4info q us -> all = done ++ us -> progress done q
| pr_failed us : rfails q -> all = done ++ us -> progress done q
| pr_done st : q = RRet st -> ok st = true -> done = all -> progress done q.

Lemma not_write_same q s q' s' :
  rpc_step q s = Some (q', s') -> (forall req, next_rpc q <> Some (WriteUpdates req)) ->
  as_log s' = as_log s.
Proof.
  destruct q as [|r k]; [done|]. simpl. intros Hs Hw.
  destruct (arb_rpc r s) as [[x s1]|] eqn:Hr; [|done]. simplify_eq/=.
  destruct r; simpl in Hr; repeat case_match; simplify_eq; try done. by destruct (Hw request).
Qed.

Lemma before_session_not_write q req :
  before_session c q -> next_rpc q <> Some (WriteUpdates req).
Proof.
  assert (Hcok : call_ok c) by (by eapply (Forall_lookup_1 _ _ _ _ (proj1 Hok))).
  intros [-> | (n & [(kw & -> & _)|(kr & -> & _)])]; [|done..].
  by destruct (api_rpc_opens c Hcok) as (cred & addr & kn & -> & _).
Qed.

(** A request of the call: let through or refused. *)
Lemma progress_write done req k s q' s' u us :
  wr_updates req = u -> wr_election_id req = Some e -> all = done ++ u :: us ->
  rsends (call_session c.1) p4info (k grpc_OK) us ->
  (forall gs, ok (GrpcStatusToAbslStatus gs) = false -> rfails (k gs)) ->
  done = written_under e s ->
  rpc_step (RVis (WriteUpdates req) k) s = Some (q', s') ->
  progress (written_under e s') q'.
Proof.
  intros Hu He Hall Hk Hf -> Hs. simpl in Hs. unfold arb_write in Hs. rewrite He in Hs.
  assert (Hrefused : forall gs, ok (GrpcStatusToAbslStatus gs) = false ->
    progress (written_under e s) (k gs)) by (intros gs Hgs; eapply pr_failed; [by apply Hf|exact Hall]).
  destruct ((wr_device_id req =? 1) && _); [|simplify_eq/=; by apply Hrefused].
  destruct (ref_updates _ _) as [b T]. simplify_eq/=.
  erewrite written_snoc by done. rewrite decide_True by done.
  replace (all = written_under e s ++ wr_updates req :: us)
    with (all = (written_under e s ++ [wr_updates req]) ++ us) in Hall by (by rewrite <- app_assoc).
  destruct b; [by eapply pr_session|]. eapply pr_failed; [by apply Hf|exact Hall].
Qed.

Lemma progress_rpc own N n q q' s' :
  net_inv calls own N -> net_calls N !! i = Some q ->
  own i = Some n \/ (own i = None /\ n = as_next (net_server N)) ->
  own_event n q (net_server N) q' s' ->
  progress (written_under e (net_server N)) q -> progress (written_under e s') q'.
Proof.
  intros HI Hq Ho Hev Hp.
  assert (Hsrv : q' = q /\ as_log s' = as_log (net_server N) \/
    rpc_step q (net_server N) = Some (q', s')).
  { destruct Hev as [Hs|[-> [Ha|Hd]]]; [by right|left; split; [done|]..].
    - unfold arbitrate in Ha. destruct (as_streams _ !! n); [|done]. simpl in Ha.
      repeat case_match; by simplify_eq.
    - unfold disconnect in Hd. destruct (as_streams _ !! n); [|done]. simpl in Hd.
      case_match; by simplify_eq. }
  destruct Hsrv as [[-> El]|Hs]; [by rewrite (written_same _ _ _ El)|].
  destruct Hp as [Hb Hd|us Hr Hall|us Hr Hall|st -> _ _]; [| | |done].
  - rewrite (written_same e _ s') by (eapply not_write_same; [exact Hs|];
      intros req; by apply before_session_not_write). rewrite Hd.
    destruct (before_session_step calls own N i c n q q' s' Hok HI Hc Hq Ho Hev Hb) as [Hb'|[-> _]];
      [by apply pr_before|].
    apply (pr_session _ _ all); [|done]. by eapply sends_rpc.
  - destruct q as [|r k]; [done|]. destruct r; try done; simpl in Hr.
    + destruct Hr as (-> & st & Hk & Hst). simpl in Hs. simplify_eq. rewrite app_nil_r in Hall.
      eapply pr_done; [exact Hk|done|by rewrite Hall].
    + simpl in Hs. simplify_eq. by eapply pr_session.
    + destruct Hr as (u & us' & -> & Hu & _ & He & Hk & Hf). by eapply progress_write.
  - destruct q as [|r k]; [done|]. destruct r; try done. destruct Hr as (st & Hk & Hst).
    simpl in Hs. simplify_eq. eapply pr_failed; [|exact Hall]. by rewrite Hk.
Qed.

Lemma progress_reachable T highest N q :
  rtc net_step (net_start calls (fresh_server T highest)) N -> net_calls N !! i = Some q ->
  progress (written_under e (net_server N)) q.
Proof.
  intros Hr. revert q. revert N Hr.
  apply (rtc_ind_r (fun N => forall q, net_calls N !! i = Some q ->
    progress (written_under e (net_server N)) q)).
  { intros q Hq. simpl in Hq. rewrite list_lookup_fmap, Hc in Hq. simplify_eq/=.
    apply pr_before; [by left|done]. }
  intros N N' Hr Hstep IH q Hq. inversion_clear Hstep as [ev ? ? He].
  destruct (net_inv_reachable calls T highest N Hok Hr) as [own HI].
  destruct (net_event_step _ _ _ _ _ Hok HI He)
    as (j & n & cj & q0 & q' & Hcj & Hq0 & Ho & _ & _ & E & Heff & Hev).
  rewrite E in Hq. destruct (decide (j = i)) as [->|Hji].
  - rewrite list_lookup_insert_eq in Hq by (by eapply lookup_lt_Some). simplify_eq.
    by apply (progress_rpc own N n q0); [..|apply IH].
  - rewrite list_lookup_insert_ne in Hq by done.
    rewrite (written_other _ _ _ _ Heff); [by apply IH|].
    intros Ee. apply Hji. by eapply elections_inj.
Qed.
End Tunnel.

Section CutOff.
Context {p4info : P4Info} {accepts : TableEntry -> bool}.

(** C13 net_tunnel_cut_off: calls take the switch over from each other. When
    another call has been granted a higher election id (at [N1]) before a
    tunnel is complete, the server has let through the requests for the first
    so many of its three entries, it will let through no other, and the call
    returns an error: the tables are left with a part of a tunnel, whatever the
    switch accepts, and nothing takes it back. *)
Theorem net_tunnel_cut_off calls i env t ins addr T highest (N1 N2 : net p4info accepts) st :
  calls_ok calls ->
  calls !! i = Some (env, Es2kTunnel.DoConfigTunnelEntry t ins addr) ->
  rtc net_step (net_start calls (fresh_server T highest)) N1 -> rtc net_step N1 N2 ->
  outranked (call_election env) (net_server N1) ->
  net_calls N2 !! i = Some (RRet st) ->
  let done := written_under (call_election env) (net_server N1) in
  done = take (length done) (tunnel_requests p4info t ins) /\
  written_under (call_election env) (net_server N2) = done /\
  ((length done < 3)%nat -> ok st = false) /\
  as_tables (net_server N2) = replay (accepts := accepts) (as_log (net_server N2)) T.
Proof.
  intros Hok Hc H1 H12 Ho Hq done.
  assert (H2 : rtc net_step (net_start calls (fresh_server T highest)) N2) by (by etrans).
  pose proof (sends_tunnel (call_session env) p4info t ins addr) as Hs.
  destruct (outranked_writes_nothing _ _ _ _ _ _ _ Hok Hc H1 H12 Ho) as [_ Hsame].
  pose proof (progress_reachable _ _ _ _ Hok Hc Hs _ _ _ _ H2 Hq) as Hp.
  pose proof (net_log_inv T _ _ H2 (fresh_log_inv T highest)) as [_ _ Hrep].
  cbn [fst] in Hsame, Hp. rewrite Hsame in Hp |- *. fold done in Hp |- *.
  assert (Hall : exists us, tunnel_requests p4info t ins = done ++ us).
  { destruct Hp as [Hb ->|us _ E|us _ E|st' _ _ ->]; [by eexists|by eexists|by eexists|].
    exists []. by rewrite app_nil_r. }
  split_and!; [|done| |done].
  - destruct Hall as [us ->]. by rewrite take_app_length.
  - intros Hlt. destruct Hp as [Hb _|us Hr _|us Hr _|st' _ _ Hd]; [|done|done|].
    + assert (Hcok : call_ok (env, Es2kTunnel.DoConfigTunnelEntry t ins addr))
        by (by eapply (Forall_lookup_1 _ _ _ _ (proj1 Hok))).
      by destruct (before_session_shape _ _ Hcok Hb) as (r & k & ? & _).
    + rewrite Hd in Hlt. simpl in Hlt. lia.
Qed.
End CutOff.
