(* ===== verification/SameId.v ===== *)
(** * Interleaved RPCs: two calls with one election id

    The election id is the second of the call plus the thread: a thread that
    calls again within the second repeats it. Here the ids of the calls are
    arbitrary; what is left of the invariant of [Elections] is that every call
    keeps to its stream and sends one message on it. *)

From stdpp Require Import gmap relations.
From S2P Require Import Prelude P4Runtime OvsP4rt Client Session ClientImpl Switch Server Rpc.
From S2P Require Import Es2kFdb Es2kTunnel Es2kIpMacMap Es2kPorts.
From S2P Require Dpdk.
From S2P Require Import Threads Arbitration NetProps OwnRequests Elections NetSessions.

(** ** The RPCs of a call, whatever the answers *)

(** Only unary calls and calls of stream [n] but writes. *)
Definition quiet_rpc (n : nat) (r : srpc) : Prop :=
  match r with
  | StreamRead m | StreamFinish m | StreamClose m => m = n
  | NewStream _ _ | StreamWrite _ _ => False
  | _ => True
  end.

Fixpoint quiet (n : nat) (q : rprog Status) : Prop :=
  match q with
  | RRet _ => True
  | RVis r k => quiet_rpc n r /\ forall x, quiet n (k x)
  end.

Lemma in_session_quiet e n q : in_session e n q -> quiet n q.
Proof.
  induction q as [a|r k IH]; simpl; [done|]. intros [[Hr Hk]|[-> Hk]].
  - split; [by destruct r|]. intros x. by apply IH.
  - split; [done|]. intros x. destruct (Hk x) as [a Ha]. by destruct (k x).
Qed.

Definition no_answer : Status := ErrStatus (InternalError "No arbitration response received").

(** An API function returns the error of its [connect]. *)
Lemma after_failed_connect p e :
  api_function p -> after_connect p (ErrStatus e) = Ret (ErrStatus e).
Proof. by destruct 1. Qed.

(** Waiting for the answer: when the server ends the stream, the call fails. *)
Definition closing (n : nat) (q : rprog Status) : Prop :=
  exists kc, q = RVis (StreamClose n) kc /\ kc () = RRet no_answer.

Definition waiting (n : nat) (q : rprog Status) : Prop :=
  exists kr, q = RVis (StreamRead n) kr /\
    exists kf, kr None = RVis (StreamFinish n) kf /\ forall x, closing n (kf x).

Definition opening (c : Env * prog Status) (n : nat) (q : rprog Status) : Prop :=
  exists kw, q = RVis (StreamWrite n (call_arbitration c.1)) kw /\
    waiting n (kw true) /\ forall b, quiet n (kw b).

Lemma api_rpc_opening c :
  call_ok c ->
  exists cred addr kn, api_rpc c.1 c.2 = RVis (NewStream cred addr) kn /\
    forall n, opening c n (kn n).
Proof.
  intros Hc. pose proof Hc as [[Hd Hr] Hf].
  pose proof (call_shape c Hc) as (addr & Hv & Hk).
  destruct c as [env p]. cbn [fst snd] in *.
  pose proof (fun e => after_failed_connect p e Hf) as He.
  set (k := after_connect p) in *. clearbody k. subst p.
  assert (Hconn : forall n, quiet n (connected env k n))
    by (intros n; by eapply in_session_quiet, connected_in_session).
  unfold api_rpc. cbn [run_rpc handle_rpc]. unfold connect_rpc.
  cbn [new_RpcClient rc_env rc_out rc_session]. unfold connected, call_session in Hconn.
  destruct (GenerateClientCredentials env) as [cred out].
  exists cred, addr. eexists. split; [reflexivity|]. intros n. cbn beta.
  unfold opening, waiting, closing, Create_rpc, call_arbitration, call_role_config.
  cbn [fst snd] in *. rewrite Hd.
  destruct (env_role_config env) as [[cfg|er]|]; [|done|].
  all: eexists; split; [reflexivity|]; split.
  all: try (eexists; split; [reflexivity|]; eexists; split; [reflexivity|];
    intros x; eexists; split; [reflexivity|]; cbn; by rewrite He).
  all: intros []; cbn; [split; [done|]; intros [[a|]|]|split; [done|]; intros _]; cbn.
  all: try (destruct (negb (arb_device_id a =? 1)); cbn; [|exact (Hconn n)]).
  all: rewrite ?He; cbn; repeat split.
  all: intros; cbn; rewrite ?He; cbn; repeat split.
Qed.

(** ** The invariant of any pool of API calls *)

(** The stream of a call, and what the call is still to do: write its message,
    or anything but. *)
Inductive talk (c : Env * prog Status) (n : nat) : option stream -> rprog Status -> Prop :=
| tk_open q : opening c n q -> talk c n (Some new_stream) q
| tk_quiet ost q :
    quiet n q ->
    (forall st, ost = Some st ->
       st_sent st = [] \/ exists a, st_sent st = [a] /\ st_election st = None) ->
    talk c n ost q.

Lemma notify_sent m st : st_sent (notify m st) = st_sent st.
Proof. unfold notify. by destruct (st_election st). Qed.

Lemma notify_election m st : st_election (notify m st) = st_election st.
Proof. unfold notify. destruct (st_election st) eqn:E; [by simpl|done]. Qed.

Lemma talk_notify c n m ost q : talk c n ost q -> talk c n (notify m <$> ost) q.
Proof.
  intros [q0 Ho|ost0 q0 Hq Hs]; [by apply tk_open|]. apply tk_quiet; [done|].
  intros st (st0 & -> & Hst)%fmap_Some. subst. rewrite notify_sent, notify_election. by apply Hs.
Qed.

(** The server has answered on the stream, so nothing more comes. *)
Lemma talk_elected c n st q e :
  talk c n (Some st) q -> st_election st = Some e -> st_sent st = [] /\ quiet n q.
Proof.
  intros Ht He. inversion Ht as [q0 Ho|ost q0 Hq Hs]; subst; [done|]. split; [|done].
  destruct (Hs st eq_refl) as [|(a & _ & E)]; [done|congruence].
Qed.

Section SameId.
Context {p4info : P4Info} {accepts : TableEntry -> bool}.
Abbreviation net := (net p4info accepts).
Abbreviation S := (ArbServer p4info accepts).
Implicit Types (N : net) (s : S).
Variable calls : list (Env * prog Status).
Hypothesis Hok : Forall call_ok calls.

Definition talk_inv : (nat -> option nat) -> net -> Prop := pool_inv calls talk.

(** A stream on which nothing was sent or granted. *)
Definition same_talk (st st' : stream) : Prop :=
  st_sent st' = st_sent st /\ st_election st' = st_election st.

#[local] Instance same_talk_refl : Reflexive same_talk.
Proof. done. Qed.

(** A unary call, or one of stream [n] but a write. *)
Lemma quiet_step n r s x s' :
  (n < as_next s)%nat -> quiet_rpc n r -> arb_rpc r s = Some (x, s') ->
  frame n s s' /\ option_Forall2 same_talk (as_streams s !! n) (as_streams s' !! n).
Proof.
  intros Hn Hr Hs.
  assert (Hsame : forall t, as_streams t = as_streams s -> as_next t = as_next s ->
    frame n s t /\ option_Forall2 same_talk (as_streams s !! n) (as_streams t !! n)).
  { intros t Et En. split; [by apply frame_same|]. by rewrite Et. }
  destruct r; simpl in Hr; try done; subst; simpl in Hs.
  - destruct (as_streams s !! n) as [st|] eqn:Hst;
      rewrite <- Hst in Hsame |- *; [|simplify_eq; by apply Hsame].
    destruct (st_answers st) as [|m l] eqn:Ha.
    { case_match; [|done]. simplify_eq. by apply Hsame. }
    simplify_eq. split.
    + apply frame_replace; [done|]. intros m' Hm. by apply lookup_insert_ne.
    + simpl. rewrite lookup_insert_eq, Hst. by constructor.
  - repeat case_match; simplify_eq; by apply Hsame.
  - simplify_eq. split.
    + apply frame_replace; [done|]. intros m' Hm. by apply lookup_alter_ne.
    + simpl. rewrite lookup_alter_eq. destruct (as_streams s !! n); by constructor.
  - simplify_eq. by apply Hsame.
  - simplify_eq. by apply Hsame.
  - pose proof (arb_write_frame n request s Hn) as [Hf Hss].
    destruct (arb_write request s) as [gs s1]. simplify_eq/=. split; [done|]. by rewrite Hss.
Qed.

(** The server's own steps. *)
Lemma arbitrate_talk c n s s' q :
  (n < as_next s)%nat -> talk c n (as_streams s !! n) q -> arbitrate n s = Some s' ->
  frame n s s' /\ talk c n (as_streams s' !! n) q.
Proof.
  intros Hn Ht Ha. unfold arbitrate in Ha. destruct (as_streams s !! n) as [st|] eqn:Hst; [|done].
  simpl in Ha. destruct (st_sent st) as [|a sent] eqn:Hsent; [done|].
  inversion Ht as [q0 Ho|ost q0 Hq Hs]; subst; [done|].
  assert (Hsent' : sent = []).
  { destruct (Hs st eq_refl) as [E|(a' & E & _)]; rewrite E in Hsent; by simplify_eq. }
  subst sent.
  assert (Hput : forall (f : gmap nat stream -> gmap nat stream) st' t,
    st_sent st' = [] -> as_streams t = <[n := st']> (f (as_streams s)) -> as_next t = as_next s ->
    (forall m, m <> n -> f (as_streams s) !! m = as_streams s !! m \/
       exists msg, f (as_streams s) !! m = notify msg <$> (as_streams s !! m)) ->
    frame n s t /\ talk c n (as_streams t !! n) q).
  { intros f st' t He Et En Hf. split.
    - split; [|lia]. intros m Hm. rewrite Et, lookup_insert_ne by done. by apply Hf.
    - rewrite Et, lookup_insert_eq. apply tk_quiet; [done|]. intros st0 [= <-]. by left. }
  destruct (arb_election_id a) as [e|]; [case_match|]; simplify_eq.
  - destruct (outranks _ _).
    + eapply (Hput (fmap (notify (notice (Some e) ALREADY_EXISTS)))); [|done..|]; [done|].
      intros m _. right. eexists. apply lookup_fmap.
    + eapply (Hput id); [|done..|by left]. done.
  - eapply (Hput id); [|done..|by left]. done.
  - eapply (Hput id); [|done..|by left]. done.
Qed.

Lemma disconnect_talk c n s s' q :
  (n < as_next s)%nat -> talk c n (as_streams s !! n) q -> disconnect n s = Some s' ->
  frame n s s' /\ talk c n (as_streams s' !! n) q.
Proof.
  intros Hn Ht Hd. unfold disconnect in Hd. destruct (as_streams s !! n) as [st|] eqn:Hst; [|done].
  simpl in Hd. destruct (st_closed st) eqn:Hcl; [|done]. simplify_eq. simpl. split.
  - split; [|done]. intros m Hne. simpl. case_bool_decide.
    + right. eexists. by rewrite lookup_fmap, lookup_delete_ne.
    + left. by apply lookup_delete_ne.
  - assert (quiet n q) as Hq by (inversion Ht; subst; done).
    case_bool_decide; rewrite ?lookup_fmap, lookup_delete_eq; by apply tk_quiet.
Qed.

(** A step of a call that has begun, on its stream [n]. *)
Lemma talk_call_step c n s q q' s' :
  (n < as_next s)%nat -> talk c n (as_streams s !! n) q -> rpc_step q s = Some (q', s') ->
  frame n s s' /\ talk c n (as_streams s' !! n) q'.
Proof.
  intros Hn Ht Hs. remember (as_streams s !! n) as ost eqn:Hst. symmetry in Hst.
  destruct Ht as [q (kw & -> & _ & Hkw)|ost q Hq Hsent].
  - simpl in Hs. rewrite Hst in Hs. simplify_eq/=. split.
    + apply frame_replace; [done|]. intros m Hm. by apply lookup_insert_ne.
    + rewrite lookup_insert_eq. apply tk_quiet; [done|]. intros st [= <-]. right. by eexists.
  - destruct q as [|r k]; [done|]. destruct Hq as [Hr Hk]. simpl in Hs.
    destruct (arb_rpc r s) as [[x s1]|] eqn:Ha; [|done]. simplify_eq/=.
    destruct (quiet_step _ _ _ _ _ Hn Hr Ha) as [Hf Hsame]. split; [done|].
    apply tk_quiet; [done|]. intros st' Hst'. rewrite Hst' in Hsame.
    inversion Hsame as [st st0 [Es Ee] E|]; subst. rewrite Es, Ee. by apply Hsent.
Qed.

(** Its first step. *)
Lemma talk_first_step c s q' s' :
  call_ok c -> rpc_step (api_rpc c.1 c.2) s = Some (q', s') ->
  frame (as_next s) s s' /\ talk c (as_next s) (as_streams s' !! as_next s) q'.
Proof.
  intros Hc Hs. destruct (api_rpc_opening c Hc) as (cred & addr & kn & Hk & Hw).
  rewrite Hk in Hs. simpl in Hs. simplify_eq/=. split.
  - split; [|simpl; lia]. intros m Hm. left. by apply lookup_insert_ne.
  - rewrite lookup_insert_eq. by apply tk_open.
Qed.

(** What an event is for call [i] and its stream [n]. *)
Definition own_event (ev : nevent) (i n : nat) (q q' : rprog Status) s s' : Prop :=
  match ev with
  | Call j => j = i /\ rpc_step q s = Some (q', s')
  | Arbitrate m => m = n /\ q' = q /\ arbitrate n s = Some s'
  | Disconnect m => m = n /\ q' = q /\ disconnect n s = Some s'
  end.

Definition talk_event (own : nat -> option nat) (ev : nevent) N N' : Prop :=
  exists i n c q q',
    calls !! i = Some c /\ net_calls N !! i = Some q /\
    (own i = Some n \/ (own i = None /\ n = as_next (net_server N))) /\
    frame n (net_server N) (net_server N') /\
    talk c n (as_streams (net_server N') !! n) q' /\
    net_calls N' = <[i := q']> (net_calls N) /\
    own_event ev i n q q' (net_server N) (net_server N').

Lemma talk_server_event own ev N n s' :
  talk_inv own N -> is_Some (as_streams (net_server N) !! n) ->
  (forall i c q, (n < as_next (net_server N))%nat -> talk c n (as_streams (net_server N) !! n) q ->
     own_event ev i n q q (net_server N) s' /\
     frame n (net_server N) s' /\ talk c n (as_streams s' !! n) q) ->
  talk_event own ev N (MkNet (net_calls N) s').
Proof.
  intros HI [st Hst] Hstep. destruct (pool_owner _ _ _ _ _ _ HI Hst) as (i & c & q & Hi & Hc & Hq & Ht).
  rewrite <- Hst in Ht. destruct (Hstep i c q (inv_next _ _ _ HI i n Hi) Ht) as (Hev & Hf & Ht').
  exists i, n, c, q, q. split_and!; auto. simpl. by rewrite list_insert_id.
Qed.

(** Every event is one of a call and its stream. *)
Lemma talk_event_step own ev N N' :
  talk_inv own N -> net_event ev N = Some N' -> talk_event own ev N N'.
Proof.
  intros HI He. destruct ev as [i|n|n].
  - rewrite net_event_call in He. destruct (net_calls N !! i) as [q|] eqn:Hq; [|done]. simpl in He.
    destruct (rpc_step q (net_server N)) as [[q' s']|] eqn:Hs; [|done]. simplify_eq/=.
    assert (is_Some (calls !! i)) as [c Hc].
    { apply lookup_lt_is_Some_2. rewrite <- (inv_length _ _ _ HI). by eapply lookup_lt_Some. }
    pose proof (inv_phase _ _ _ HI i c q Hc Hq) as Hp. unfold thread_phase in Hp.
    destruct (own i) as [n|] eqn:Hi.
    + destruct (talk_call_step _ _ _ _ _ _ (inv_next _ _ _ HI i n Hi) Hp Hs) as [Hf Ht].
      exists i, n, c, q, q'. split_and!; auto. by split.
    + subst q. destruct (talk_first_step c (net_server N) q' s') as [Hf Ht];
        [by eapply Forall_lookup_1|done|].
      exists i, (as_next (net_server N)), c, (api_rpc c.1 c.2), q'. split_and!; auto. by split.
  - simpl in He. destruct (arbitrate n _) as [s'|] eqn:Hs; [|done]. simplify_eq/=.
    apply (talk_server_event own _ N n); [done| |intros i c q Hn Ht].
    + unfold arbitrate in Hs. destruct (as_streams _ !! n); [by eexists|done].
    + split; [done|]. by apply (arbitrate_talk c n _ _ q Hn).
  - simpl in He. destruct (disconnect n _) as [s'|] eqn:Hs; [|done]. simplify_eq/=.
    apply (talk_server_event own _ N n); [done| |intros i c q Hn Ht].
    + unfold disconnect in Hs. destruct (as_streams _ !! n); [by eexists|done].
    + split; [done|]. by apply (disconnect_talk c n _ _ q Hn).
Qed.

Lemma talk_inv_step own N N' i n c q' :
  talk_inv own N -> calls !! i = Some c -> is_Some (net_calls N !! i) ->
  own i = Some n \/ (own i = None /\ n = as_next (net_server N)) ->
  frame n (net_server N) (net_server N') -> talk c n (as_streams (net_server N') !! n) q' ->
  net_calls N' = <[i := q']> (net_calls N) -> talk_inv (set_own i n own) N'.
Proof.
  intros HI Hc Hq Ho Hf Ht E.
  pose proof (pool_inv_step calls talk talk_notify own N i n c q' _ HI Hc Hq Ho Hf Ht) as HI'.
  rewrite <- E in HI'. by destruct N'.
Qed.

Lemma talk_inv_reachable T highest N :
  rtc net_step (net_start calls (fresh_server T highest)) N -> exists own, talk_inv own N.
Proof.
  apply (rtc_ind_r (fun N => exists own, talk_inv own N)).
  - eexists. apply pool_inv_start.
  - intros N1 N2 _ Hstep [own HI]. inversion_clear Hstep as [ev ? ? He].
    destruct (talk_event_step _ _ _ _ HI He)
      as (i & n & c & q & q' & Hc & Hq & Ho & Hf & Ht & E & _).
    eexists. by eapply talk_inv_step.
Qed.
End SameId.

(** ** The second call with an id *)

(** A call that is refused: its stream, and what it is to do. *)
Inductive refused (c : Env * prog Status) (n : nat) : option stream -> rprog Status -> Prop :=
| rf_open q : opening c n q -> refused c n (Some new_stream) q
| rf_wait q :
    waiting n q ->
    refused c n (Some (MkStream [call_arbitration c.1] [] None false false)) q
| rf_ended q : waiting n q -> refused c n (Some (MkStream [] [] None true false)) q
| rf_finish q kf :
    q = RVis (StreamFinish n) kf -> (forall x, closing n (kf x)) ->
    refused c n (Some (MkStream [] [] None true false)) q
| rf_close q : closing n q -> refused c n (Some (MkStream [] [] None true false)) q
| rf_done : refused c n (Some (MkStream [] [] None true true)) (RRet no_answer)
| rf_gone : refused c n None (RRet no_answer).

Lemma refused_notify c n m ost q : refused c n ost q -> refused c n (notify m <$> ost) q.
Proof.
  destruct 1; simpl;
    [by apply rf_open|by apply rf_wait|by apply rf_ended|by eapply rf_finish|by apply rf_close
    |apply rf_done|apply rf_gone].
Qed.

Lemma refused_returned c n ost st : refused c n ost (RRet st) -> st = no_answer.
Proof.
  intros Hr. remember (RRet st) as q eqn:Hq.
  destruct Hr as [q (kw & -> & _)|q (kr & -> & _)|q (kr & -> & _)|q kf -> _|q (kc & -> & _)| |];
    by simplify_eq.
Qed.

Section Second.
Context {p4info : P4Info} {accepts : TableEntry -> bool}.
Abbreviation net := (net p4info accepts).
Abbreviation S := (ArbServer p4info accepts).
Implicit Types (N : net) (s : S).
Variable calls : list (Env * prog Status).
Hypothesis Hok : Forall call_ok calls.
Variables (i m : nat) (c : Env * prog Status).
Hypothesis Hc : calls !! i = Some c.
#[local] Abbreviation e := (call_election c.1).

(** Stream [m] has the election id. *)
Definition held s : Prop :=
  exists st, as_streams s !! m = Some st /\ st_election st = Some e.

Lemma held_holds n s : n <> m -> held s -> holds e (delete n (as_streams s)) = true.
Proof.
  intros Hn (st & Hst & He). apply bool_decide_eq_true, map_Exists_lookup. exists m, st.
  by rewrite lookup_delete_ne.
Qed.

Lemma held_frame n s s' : n <> m -> frame n s s' -> held s -> held s'.
Proof.
  intros Hn (Hf & _) (st & Hst & He). unfold held.
  destruct (Hf m (not_eq_sym Hn)) as [->|[msg ->]]; rewrite Hst; [by exists st|].
  eexists. split; [done|]. by rewrite notify_election.
Qed.

(** A step of call [i], or of the server on its stream. *)
Lemma refused_step n q s q' s' :
  n <> m -> held s -> refused c n (as_streams s !! n) q ->
  rpc_step q s = Some (q', s') \/
    (q' = q /\ (arbitrate n s = Some s' \/ disconnect n s = Some s')) ->
  refused c n (as_streams s' !! n) q' /\ as_log s' = as_log s /\ as_tables s' = as_tables s.
Proof.
  intros Hnm Hh Hr Hev. pose proof (held_holds n s Hnm Hh) as Hholds.
  remember (as_streams s !! n) as ost eqn:Hst. symmetry in Hst.
  destruct Hev as [Hs|[-> [Ha|Hd]]].
  - destruct Hr as [q (kw & -> & Hw & _)|q (kr & -> & _)|q (kr & -> & kf & Hk & Hkf)|q kf -> Hk
      |q (kc & -> & Hk)| |]; try done; simpl in Hs; try rewrite Hst in Hs; simplify_eq/=.
    + rewrite lookup_insert_eq. split; [by apply rf_wait|done].
    + rewrite Hst, Hk. split; [|done]. by eapply rf_finish.
    + rewrite Hst. split; [|done]. by apply rf_close.
    + rewrite lookup_alter_eq, Hst, Hk. split; [|done]. apply rf_done.
  - unfold arbitrate in Ha. rewrite Hst in Ha.
    destruct Hr as [q Ho|q Hw|q Hw|q kf -> Hk|q Hcl| |]; try done.
    simpl in Ha. rewrite Hholds in Ha. simplify_eq/=. rewrite lookup_insert_eq.
    split; [by apply rf_ended|done].
  - unfold disconnect in Hd. rewrite Hst in Hd.
    destruct Hr as [q Ho|q Hw|q Hw|q kf -> Hk|q Hcl| |]; try done.
    simpl in Hd. simplify_eq/=. split; [|done]. rewrite lookup_delete_eq. apply rf_gone.
Qed.

(** Call [i] has not begun, or is on its way to its error. *)
Definition second_inv (own : nat -> option nat) N : Prop :=
  held (net_server N) /\ own i <> Some m /\
  exists q, net_calls N !! i = Some q /\
    match own i with
    | None => q = api_rpc c.1 c.2
    | Some n => refused c n (as_streams (net_server N) !! n) q
    end.

Lemma held_next own N : talk_inv calls own N -> held (net_server N) -> (m < as_next (net_server N))%nat.
Proof.
  intros HI (st & Hst & _). destruct (inv_owned _ _ _ HI _ _ Hst) as (j & Hj & _).
  by apply (inv_next _ _ _ HI j).
Qed.

(** The owner of stream [m] does not give the id up. *)
Lemma held_step own N ev j cj q q' s' :
  talk_inv calls own N -> held (net_server N) -> ev <> Disconnect m ->
  calls !! j = Some cj -> net_calls N !! j = Some q -> own j = Some m ->
  own_event ev j m q q' (net_server N) s' -> held s'.
Proof.
  intros HI (st & Hst & He) Hev Hcj Hq Hj Hs.
  pose proof (inv_phase _ _ _ HI j cj q Hcj Hq) as Ht. rewrite Hj in Ht. simpl in Ht. rewrite Hst in Ht.
  destruct (talk_elected _ _ _ _ _ Ht He) as [Hsent Hquiet].
  destruct ev as [j'|m'|m'].
  - destruct Hs as [_ Hs]. destruct q as [|r k]; [done|]. simpl in Hs.
    destruct (arb_rpc r (net_server N)) as [[x s1]|] eqn:Ha; [|done]. simplify_eq/=.
    destruct (quiet_step m r _ x s' (inv_next _ _ _ HI j m Hj) (proj1 Hquiet) Ha) as [_ Hsame].
    rewrite Hst in Hsame. inversion Hsame as [st0 st1 [Es Ee] E0 E|]; subst.
    exists st1. split; [done|]. congruence.
  - destruct Hs as (_ & _ & Ha). unfold arbitrate in Ha. rewrite Hst in Ha. simpl in Ha.
    by rewrite Hsent in Ha.
  - by destruct Hs as [-> _].
Qed.

(** Call [i] takes a step, or the server one on its stream. *)
Lemma second_own_step own ev N s' n q q' :
  talk_inv calls own N -> held (net_server N) -> n <> m ->
  own i = Some n \/ (own i = None /\ n = as_next (net_server N)) ->
  match own i with
  | None => q = api_rpc c.1 c.2
  | Some n => refused c n (as_streams (net_server N) !! n) q
  end ->
  own_event ev i n q q' (net_server N) s' ->
  refused c n (as_streams s' !! n) q' /\
  as_log s' = as_log (net_server N) /\ as_tables s' = as_tables (net_server N).
Proof.
  intros HI Hh Hnm Ho Hown Hs. destruct Ho as [Ho|[Ho ->]]; rewrite Ho in Hown.
  - apply (refused_step n q (net_server N)); [done..|].
    destruct ev as [i'|n'|n']; destruct Hs as (? & Hs); [by left|right..];
      destruct Hs as [-> Hs]; auto.
  - subst q. assert (Hcok : call_ok c) by (by eapply Forall_lookup_1).
    destruct (api_rpc_opening c Hcok) as (cred & addr & kn & Hk & Hw).
    assert (Hfresh : as_streams (net_server N) !! as_next (net_server N) = None).
    { apply eq_None_not_Some. intros [st Hst].
      destruct (inv_owned _ _ _ HI _ _ Hst) as (k & Hk' & _).
      apply (inv_next _ _ _ HI) in Hk'. lia. }
    destruct ev as [i'|n'|n'].
    + destruct Hs as [_ Hs]. rewrite Hk in Hs. injection Hs as <- <-. simpl.
      rewrite lookup_insert_eq. split; [by apply rf_open|done].
    + destruct Hs as (_ & _ & Hs). unfold arbitrate in Hs. by rewrite Hfresh in Hs.
    + destruct Hs as (_ & _ & Hs). unfold disconnect in Hs. by rewrite Hfresh in Hs.
Qed.

Lemma second_step own ev N N' :
  talk_inv calls own N -> second_inv own N -> ev <> Disconnect m -> net_event ev N = Some N' ->
  (exists own', talk_inv calls own' N' /\ second_inv own' N') /\
  (ev = Call i ->
     as_log (net_server N') = as_log (net_server N) /\
     as_tables (net_server N') = as_tables (net_server N)).
Proof.
  intros HI (Hh & Hom & q & Hq & Hown) Hev He.
  pose proof (held_next _ _ HI Hh) as Hm.
  destruct (talk_event_step _ Hok _ _ _ _ HI He)
    as (j & n & cj & q0 & q' & Hcj & Hq0 & Ho & Hf & Ht & E & Hs).
  assert (HI' : talk_inv calls (set_own j n own) N') by (by eapply talk_inv_step).
  destruct (decide (j = i)) as [->|Hji].
  - simplify_eq. assert (Hnm : n <> m) by (intros ->; destruct Ho as [Ho|[_ ->]]; [done|lia]).
    destruct (second_own_step _ _ _ _ _ _ _ HI Hh Hnm Ho Hown Hs) as (Hr & Hlog & HT).
    split; [|done].
    exists (set_own i n own). split; [done|]. split; [by eapply held_frame|].
    unfold set_own. rewrite decide_True by done. split; [congruence|]. exists q'. split; [|done].
    rewrite E. apply list_lookup_insert_eq. by eapply lookup_lt_Some.
  - split; [|by intros ->; destruct Hs]. exists (set_own j n own). split; [done|].
    assert (Hh' : held (net_server N')).
    { destruct (decide (n = m)) as [->|Hnm]; [|by eapply held_frame].
      destruct Ho as [Ho|[_ ->]]; [|lia].
      exact (held_step own N ev j cj q0 q' _ HI Hh Hev Hcj Hq0 Ho Hs). }
    split; [done|]. unfold set_own. rewrite decide_False by auto. split; [done|]. exists q.
    split; [by rewrite E, list_lookup_insert_ne|].
    destruct (own i) as [n0|] eqn:Hi; [|done].
    apply (frame_phase refused refused_notify c n _ _ _ _ Hf); [|done].
    intros ->. destruct Ho as [Ho|[_ ->]].
    + by apply Hji, (inv_inj _ _ _ HI _ _ n).
    + apply (inv_next _ _ _ HI) in Hi. lia.
Qed.

Lemma second_run own N evs :
  talk_inv calls own N -> second_inv own N -> Disconnect m ∉ evs ->
  exists own', talk_inv calls own' (net_run evs N) /\ second_inv own' (net_run evs N).
Proof.
  revert own N. induction evs as [|ev evs IH]; intros own N HI H2 Hevs; simpl; [by exists own|].
  apply not_elem_of_cons in Hevs as [Hev Hevs].
  destruct (net_event ev N) as [N'|] eqn:He; simpl; [|by eapply IH].
  destruct (second_step _ _ _ _ HI H2 (not_eq_sym Hev) He) as [(own' & HI' & H2') _].
  by eapply IH.
Qed.

(** *** The call comes to its end *)

(** A step of call [i], or an answer of the server. *)
Definition calm (ev : nevent) : Prop := ev = Call i \/ exists n, ev = Arbitrate n.

Definition can_fail N : Prop :=
  exists evs, Forall calm evs /\ net_calls (net_run evs N) !! i = Some (RRet no_answer).

Lemma can_fail_event ev N N' : calm ev -> net_event ev N = Some N' -> can_fail N' -> can_fail N.
Proof.
  intros Hev He (evs & Hevs & Hr). exists (ev :: evs). split; [by constructor|].
  simpl. by rewrite He.
Qed.

Lemma can_fail_call N r k x s' :
  net_calls N !! i = Some (RVis r k) -> arb_rpc r (net_server N) = Some (x, s') ->
  (forall N', net_calls N' !! i = Some (k x) -> net_server N' = s' -> can_fail N') -> can_fail N.
Proof.
  intros Hq Hr Hk. apply (can_fail_event (Call i) N (MkNet (<[i := k x]> (net_calls N)) s')).
  - by left.
  - simpl. rewrite Hq. simpl. by rewrite Hr.
  - apply Hk; [|done]. simpl. apply list_lookup_insert_eq. by eapply lookup_lt_Some.
Qed.

Lemma can_fail_returned N : net_calls N !! i = Some (RRet no_answer) -> can_fail N.
Proof. intros Hq. by exists []. Qed.

Lemma can_fail_closing N n q :
  net_calls N !! i = Some q -> closing n q -> can_fail N.
Proof.
  intros Hq (kc & -> & Hk). eapply can_fail_call; [exact Hq|done|]. intros N' Hq' _.
  rewrite Hk in Hq'. by apply can_fail_returned.
Qed.

Lemma can_fail_finish N n kf :
  net_calls N !! i = Some (RVis (StreamFinish n) kf) -> (forall x, closing n (kf x)) ->
  as_streams (net_server N) !! n = Some (MkStream [] [] None true false) -> can_fail N.
Proof.
  intros Hq Hk Hst. eapply can_fail_call; [exact Hq|simpl; by rewrite Hst|]. intros N' Hq' _.
  eapply can_fail_closing; [exact Hq'|apply Hk].
Qed.

Lemma can_fail_ended N n q :
  net_calls N !! i = Some q -> waiting n q ->
  as_streams (net_server N) !! n = Some (MkStream [] [] None true false) -> can_fail N.
Proof.
  intros Hq (kr & -> & kf & Hk & Hkf) Hst.
  eapply can_fail_call; [exact Hq|simpl; by rewrite Hst|]. intros N' Hq' Hs'.
  rewrite Hk in Hq'. eapply can_fail_finish; [exact Hq'|done|by rewrite Hs'].
Qed.

Lemma can_fail_waiting N n q :
  n <> m -> held (net_server N) -> net_calls N !! i = Some q -> waiting n q ->
  as_streams (net_server N) !! n = Some (MkStream [call_arbitration c.1] [] None false false) ->
  can_fail N.
Proof.
  intros Hn Hh Hq Hw Hst. eapply (can_fail_event (Arbitrate n)); [by right; eexists|..].
  - simpl. unfold arbitrate. rewrite Hst. simpl. by rewrite (held_holds n _ Hn Hh).
  - eapply can_fail_ended; [exact Hq|done|]. simpl. by rewrite lookup_insert_eq.
Qed.

Lemma can_fail_opening N n q :
  n <> m -> held (net_server N) -> net_calls N !! i = Some q -> opening c n q ->
  as_streams (net_server N) !! n = Some new_stream -> can_fail N.
Proof.
  intros Hn Hh Hq (kw & -> & Hw & _) Hst.
  eapply can_fail_call; [exact Hq|simpl; by rewrite Hst|]. intros N' Hq' Hs'.
  eapply can_fail_waiting; [done| |exact Hq'|done|]; rewrite Hs'.
  - destruct Hh as (st & Hst' & He). exists st. split; [|done]. simpl. by rewrite lookup_insert_ne.
  - simpl. by rewrite lookup_insert_eq.
Qed.

Lemma can_fail_refused N n q :
  n <> m -> held (net_server N) -> net_calls N !! i = Some q ->
  refused c n (as_streams (net_server N) !! n) q -> can_fail N.
Proof.
  intros Hn Hh Hq Hr. remember (as_streams (net_server N) !! n) as ost eqn:Hst. symmetry in Hst.
  destruct Hr as [q Ho|q Hw|q Hw|q kf -> Hk|q Hcl| |].
  - by eapply (can_fail_opening N n).
  - by eapply (can_fail_waiting N n).
  - by eapply (can_fail_ended N n).
  - by eapply (can_fail_finish N n).
  - by eapply (can_fail_closing N n).
  - by apply can_fail_returned.
  - by apply can_fail_returned.
Qed.

Lemma second_can_fail own N : talk_inv calls own N -> second_inv own N -> can_fail N.
Proof.
  intros HI (Hh & Hom & q & Hq & Hown). destruct (own i) as [n|] eqn:Hi.
  - eapply can_fail_refused; [|done..]. congruence.
  - subst q. assert (Hcok : call_ok c) by (by eapply Forall_lookup_1).
    destruct (api_rpc_opening c Hcok) as (cred & addr & kn & Hk & Hw). rewrite Hk in Hq.
    pose proof (held_next _ _ HI Hh) as Hm.
    eapply can_fail_call; [exact Hq|done|]. intros N' Hq' Hs'.
    eapply (can_fail_opening _ (as_next (net_server N))); [lia| |exact Hq'|apply Hw|];
      rewrite Hs'; simpl; [|by rewrite lookup_insert_eq].
    destruct Hh as (st & Hst & He). exists st. split; [|done].
    simpl. by rewrite lookup_insert_ne by lia.
Qed.
End Second.

(** ** Theorem *)

Lemma not_begun_talk c n ost : call_ok c -> ~ talk c n ost (api_rpc c.1 c.2).
Proof.
  intros Hc Ht. destruct (api_rpc_opening c Hc) as (cred & addr & kn & Hk & _).
  rewrite Hk in Ht. remember (RVis (NewStream cred addr) kn) as q eqn:Hq.
  destruct Ht as [q (kw & -> & _)|ost q Hq0 _]; [done|]. subst q. by destruct Hq0.
Qed.

Section NetSameId.
Context {p4info : P4Info} {accepts : TableEntry -> bool}.

(** C11 net_same_id: the election id of a call is the second and the thread, so
    a thread that calls twice within a second repeats it. As long as the server
    has not noticed that the stream of the first call, on which it granted the
    id, has closed, the second call cannot succeed: whatever the API function,
    and however the RPCs of all the calls are interleaved, a value it returns is
    the error [Create] has when the stream ends without an answer, none of its
    steps changes a table or is let through as a write, and it can always come
    to its end. *)
Theorem net_same_id calls T highest (N1 : net p4info accepts) i c j c0 m stm evs :
  let N2 := net_run evs N1 in
  Forall call_ok calls ->
  rtc net_step (net_start calls (fresh_server T highest)) N1 ->
  calls !! i = Some c -> net_calls N1 !! i = Some (api_rpc c.1 c.2) ->
  calls !! j = Some c0 ->
  env_now c0.1 = env_now c.1 -> env_pthread_self c0.1 = env_pthread_self c.1 ->
  as_streams (net_server N1) !! m = Some stm ->
  st_election stm = Some (call_election c0.1) ->
  Disconnect m ∉ evs ->
  (forall st, net_calls N2 !! i = Some (RRet st) -> st = no_answer) /\
  (forall N3, net_event (Call i) N2 = Some N3 ->
     as_tables (net_server N3) = as_tables (net_server N2) /\
     as_log (net_server N3) = as_log (net_server N2)) /\
  (exists evs', Forall (calm i) evs' /\
     net_calls (net_run evs' N2) !! i = Some (RRet no_answer)).
Proof.
  intros N2 Hok Hr Hc Hq Hc0 Hnow Hself Hst He Hevs.
  destruct (talk_inv_reachable calls Hok T highest N1 Hr) as [own HI].
  assert (Hcok : call_ok c) by (by eapply Forall_lookup_1).
  assert (Ho : own i = None).
  { destruct (own i) as [n|] eqn:Ho; [|done].
    pose proof (inv_phase _ _ _ HI i c _ Hc Hq) as Hp. rewrite Ho in Hp.
    by apply not_begun_talk in Hp. }
  assert (H2 : second_inv i m c own N1).
  { split; [exists stm; split; [done|]|].
    - rewrite He. unfold call_election. by rewrite Hnow, Hself.
    - rewrite Ho. split; [done|]. by eexists. }
  destruct (second_run calls Hok i m c Hc own N1 evs HI H2 Hevs) as (own' & HI' & H2').
  fold N2 in HI', H2'. split_and!.
  - intros st Hret. destruct H2' as (_ & _ & q & Hq' & Hown). simplify_eq.
    destruct (own' i); [by eapply refused_returned|].
    destruct (api_rpc_opening c Hcok) as (cred & addr & kn & Hk & _). congruence.
  - intros N3 H3.
    destruct (second_step calls Hok i m c Hc own' (Call i) N2 N3 HI' H2' ltac:(done) H3) as [_ Hsame].
    destruct (Hsame eq_refl) as [Hlog HT]. done.
  - by apply (second_can_fail calls Hok i m c Hc own').
Qed.
End NetSameId.
