(* ===== verification/NetExamples.v ===== *)
(** * Interleaved RPCs: consequences and examples *)

From stdpp Require Import sorting gmap relations list.
From S2P Require Import Prelude P4Runtime OvsP4rt Client Session ClientImpl Switch Server Rpc.
From S2P Require Import Es2kEncoders Pipelines Es2kTunnel Es2kPorts.
From S2P Require Import Threads Arbitration NetProps OwnRequests Elections NetSessions LastCall.
From S2P Require Import Outranked SameId.

(** ** Distinct callers *)

Lemma election_value_of env :
  0 <= env_now env < 2 ^ 64 -> 0 <= env_pthread_self env < 2 ^ 64 ->
  election_value (call_election env) = env_now env * 2 ^ 64 + env_pthread_self env.
Proof.
  intros Hn Ht. unfold election_value, call_election. simpl.
  rewrite election_id_value by done. unfold Uint128High64, Uint128Low64.
  change (2 ^ 64) with 18446744073709551616 in *. machine_int.
Qed.

Lemma call_election_inj env1 env2 :
  0 <= env_now env1 < 2 ^ 64 -> 0 <= env_pthread_self env1 < 2 ^ 64 ->
  0 <= env_now env2 < 2 ^ 64 -> 0 <= env_pthread_self env2 < 2 ^ 64 ->
  call_election env1 = call_election env2 ->
  env_now env1 = env_now env2 /\ env_pthread_self env1 = env_pthread_self env2.
Proof.
  intros H1 H2 H3 H4 E. apply (f_equal election_value) in E.
  rewrite !election_value_of in E by done.
  change (2 ^ 64) with 18446744073709551616 in *. lia.
Qed.

(** A set-up process: each call has a machine time and a thread id, and no two
    calls have both in common. *)
Definition caller (c : Env * prog Status) : Z * Z := (env_now c.1, env_pthread_self c.1).

Definition callers_ok (calls : list (Env * prog Status)) : Prop :=
  Forall call_ok calls /\
  Forall (fun c => 0 <= env_now c.1 < 2 ^ 64 /\ 0 <= env_pthread_self c.1 < 2 ^ 64) calls /\
  NoDup (caller <$> calls).

Lemma callers_calls_ok calls : callers_ok calls -> calls_ok calls.
Proof.
  intros (Hok & Hr & Hnd). split; [done|]. clear Hok.
  induction Hr as [|c calls [Hn Ht] Hr IH]; [constructor|]. simpl in *.
  apply list.NoDup_cons in Hnd as [Hin Hnd]. apply list.NoDup_cons. split; [|by apply IH].
  intros (c' & E & Hc')%list_elem_of_fmap. apply Hin. apply list_elem_of_fmap. exists c'.
  split; [|done]. rewrite list.Forall_forall in Hr. destruct (Hr c' Hc') as [Hn' Ht'].
  unfold caller. by destruct (call_election_inj c.1 c'.1) as [-> ->].
Qed.

(** ** Theorems *)

Section Consequences.
Context {p4info : P4Info} {accepts : TableEntry -> bool}.
Abbreviation Ref := (RefServer p4info accepts).

(** C10 net_no_thread_stuck: what the comment on the thread id in
    [OvsP4rtSession::Create] is after. Calls of different threads, or of
    different seconds, all get their sessions, however the RPCs are
    interleaved: in every run the server ends no stream, a call that has
    returned was, at an earlier moment of the run, at the point where [connect]
    has just returned OK with its election id granted, from every state all can
    return, and none waits for ever. *)
Theorem net_no_thread_stuck calls T highest evs :
  let N0 : net p4info accepts := net_start calls (fresh_server T highest) in
  let N := net_run evs N0 in
  callers_ok calls ->
  (forall n st, as_streams (net_server N) !! n = Some st -> st_ended st = false) /\
  (forall i c st, calls !! i = Some c -> net_calls N !! i = Some (RRet st) ->
     exists evs1 evs2 n q, evs = evs1 ++ evs2 /\
       net_calls (net_run evs1 N0) !! i = Some q /\
       has_connected c n q (net_server (net_run evs1 N0))) /\
  (exists N', rtc net_step N N' /\ Forall (fun q => is_Some (net_returned q)) (net_calls N')) /\
  (nf net_step N -> Forall (fun q => is_Some (net_returned q)) (net_calls N)).
Proof.
  intros N0 N Hok%callers_calls_ok.
  destruct (sessions_granted (p4info := p4info) (accepts := accepts) calls T highest evs Hok) as [H1 H2].
  destruct (net_completion _ _ _ _ Hok (net_run_rtc evs N0)) as [H3 H4]. done.
Qed.

Lemma ref_connects env T addr :
  env_ok env -> connects addr (new_Client env (MkRefServer T None None : Ref)) = true.
Proof.
  intros [Hd Hc]. unfold connects. simpl. unfold Client_connect, Create_address, Create. simpl.
  destruct (GenerateClientCredentials env) as [cred out]. rewrite Hd.
  by destruct (env_role_config env) as [[c|e]|].
Qed.

(** net_last_tunnel: the call with the highest election id configures its
    tunnel in one go: its three entries, up to the first that is refused, are
    written with nothing of another call between or after them. *)
Theorem net_last_tunnel calls i env t ins addr T highest (N : net p4info accepts) st :
  calls_ok calls ->
  calls !! i = Some (env, Es2kTunnel.DoConfigTunnelEntry t ins addr) ->
  never_outranked calls i env highest ->
  rtc net_step (net_start calls (fresh_server T highest)) N ->
  net_calls N !! i = Some (RRet st) ->
  (ok st, as_tables (net_server N)) =
  switch_writes accepts ins (Es2kTunnel.tunnel_entries t p4info ins)
    (before_call env T (net_server N)).
Proof.
  intros Hok Hc Hn Hr Hq.
  destruct (last_call_result _ _ _ _ _ _ _ Hok Hc Hn Hr Hq) as [E ET]. cbn [fst snd] in E, ET.
  assert (Henv : env_ok env).
  { pose proof (Forall_lookup_1 _ _ _ _ (proj1 Hok) Hc) as [He _]. exact He. }
  set (w := new_Client env (MkRefServer (before_call env T (net_server N)) None None : Ref)) in *.
  pose proof (wp_DoConfigTunnelEntry t ins addr w) as Hwp. unfold wp, operation_result in Hwp.
  assert (Hcon : connects addr w = true) by (by apply ref_connects).
  rewrite Hcon, E in Hwp. simpl in Hwp.
  unfold client_tables in Hwp. by rewrite <- ET.
Qed.
End Consequences.

(** ** Examples *)

#[local] Abbreviation example_net := (net es2k_p4info (fun _ => true)).

(** Call [i], on stream [n], up to the arbitration; to its end; and the server
    noticing that it has closed. *)
Definition call_connects (i n : nat) : list nevent := [Call i; Call i; Arbitrate n; Call i].
Definition call_ends (i : nat) : list nevent := replicate 10 (Call i).
Definition call_runs (i n : nat) : list nevent := call_connects i n ++ call_ends i.

Definition example (calls : list (Env * prog Status)) (evs : list nevent) : example_net :=
  net_run evs (net_start calls (fresh_server ∅ None)).

Definition vlan_8 : prog Status := DoConfigVlanEntry 8 true "localhost:9559".

Definition second_of (tid : Z) : Env := default_Env 1700000000 tid None.

Definition not_primary : Status := ErrStatus (MkError 7 "not primary").

(** net_same_second: within one second, calls one after the other can fail. The
    second call of a thread fails while the server has not noticed that the
    stream of the first has closed ([net_same_id]); afterwards it succeeds. A
    thread with a lower id than that of the thread before it gets its session,
    but its first write is refused, whether or not the other has gone
    ([outranked_writes_nothing]). *)
Theorem net_same_second :
  let twice := [(second_of 42, vlan_7); (second_of 42, vlan_8)] in
  let lower := [(second_of 43, vlan_7); (second_of 42, vlan_8)] in
  let results N := net_returned <$> net_calls N in
  results (example twice (call_runs 0 0 ++ call_runs 1 1)) = [Some OkStatus; Some no_answer] /\
  results (example twice (call_runs 0 0 ++ [Disconnect 0] ++ call_runs 1 1)) =
    [Some OkStatus; Some OkStatus] /\
  results (example lower (call_runs 0 0 ++ [Disconnect 0] ++ call_runs 1 1)) =
    [Some OkStatus; Some not_primary] /\
  as_tables (net_server (example lower (call_runs 0 0 ++ [Disconnect 0] ++ call_runs 1 1))) =
    (switch_writes (fun _ => true) true (vlan_entries 7 es2k_p4info true) ∅).2.
Proof. split_and!; [vm_compute; reflexivity..|by_computation]. Qed.

(** Two threads within one second; the second connects while the first is at
    work. *)
Definition two_threads : list (Env * prog Status) :=
  [(second_of 42, vlan_7); (second_of 43, insert_tunnel)].

Definition two_interleaved : list nevent :=
  call_connects 0 0 ++ [Call 0; Call 0; Call 1; Call 1; Arbitrate 1] ++
  call_ends 0 ++ call_ends 1 ++ [Disconnect 0; Disconnect 1].

Lemma two_threads_ok : callers_ok two_threads.
Proof.
  split_and!; [|by repeat constructor|by_computation].
  repeat constructor.
Qed.

Lemma two_threads_outranked : never_outranked two_threads 1 (second_of 43) None.
Proof.
  split; [|done]. intros [|[|j]] c Hj Hc; [|done|done].
  simplify_eq/=. by_computation.
Qed.

Definition two_started : example_net := net_start two_threads (fresh_server ∅ None).

(** The first call cannot write any more: it has still not been thrown out. *)
Lemma net_no_thread_stuck_witness :
  (st_ended <$> as_streams (net_server (net_run (take 12 two_interleaved) two_started)) !! 0%nat) =
    Some false /\
  exists N', rtc net_step (net_run (take 12 two_interleaved) two_started) N' /\
    Forall (fun q => is_Some (net_returned q)) (net_calls N').
Proof.
  assert (Hs : is_Some (as_streams (net_server
    (net_run (take 12 two_interleaved) two_started)) !! 0%nat)) by (vm_compute; by eexists).
  destruct (net_no_thread_stuck (p4info := es2k_p4info) (accepts := fun _ => true)
    two_threads ∅ None (take 12 two_interleaved) two_threads_ok) as (H1 & _ & H3 & _).
  split; [|exact H3]. destruct Hs as [st Hst]. rewrite Hst. simpl. f_equal. exact (H1 _ _ Hst).
Defined.

Lemma pair_snd {A B} (a : A) (b : B) (p : A * B) : (a, b) = p -> b = p.2.
Proof. by intros <-. Qed.

Lemma net_last_tunnel_witness :
  as_tables (net_server (example two_threads two_interleaved)) =
  (switch_writes (fun _ => true) true
     (take 1 (vlan_entries 7 es2k_p4info true) ++
      Es2kTunnel.tunnel_entries sample_tunnel es2k_p4info true) ∅).2.
Proof.
  pose proof (net_last_tunnel two_threads 1 (second_of 43) sample_tunnel true "localhost:9559"
    ∅ None (example two_threads two_interleaved) OkStatus (callers_calls_ok _ two_threads_ok)
    eq_refl two_threads_outranked (net_run_rtc two_interleaved _)) as Ht.
  assert (Hr : net_calls (example two_threads two_interleaved) !! 1%nat = Some (RRet OkStatus))
    by (vm_compute; reflexivity).
  specialize (Ht Hr). apply pair_snd in Ht. rewrite Ht. by_computation.
Defined.

Lemma net_last_call_alone_witness :
  (run insert_tunnel (new_Client (second_of 43)
     (MkRefServer (before_call (second_of 43) ∅
        (net_server (example two_threads two_interleaved))) None None
      : RefServer es2k_p4info (fun _ => true)))).1 = OkStatus.
Proof.
  pose proof (net_last_call_alone two_threads 1 (second_of 43, insert_tunnel)
    ∅ None (example two_threads two_interleaved) OkStatus (callers_calls_ok _ two_threads_ok)
    eq_refl two_threads_outranked (net_run_rtc two_interleaved _)) as Ht.
  cbn [fst snd] in Ht. destruct (run insert_tunnel _) as [st w].
  apply Ht. vm_compute. reflexivity.
Defined.

Lemma net_writes_in_order_witness :
  StronglySorted no_higher (as_log (net_server (example two_threads two_interleaved))).
Proof.
  apply (net_writes_in_order two_threads ∅ None (example two_threads two_interleaved)
    (call_election (second_of 43))). apply net_run_rtc.
Defined.

(** The first call of thread 42 is done, but its stream is still there when the
    thread calls again, and stays there. *)
Definition called_twice : list (Env * prog Status) :=
  [(second_of 42, vlan_7); (second_of 42, vlan_8)].

Lemma called_twice_ok : Forall call_ok called_twice.
Proof. by repeat constructor. Qed.

Definition twice_started : example_net := net_start called_twice (fresh_server ∅ None).

(** A call is where its own steps have brought it. *)
Lemma net_run_other {p4info accepts} i evs (N : net p4info accepts) :
  Call i ∉ evs -> net_calls (net_run evs N) !! i = net_calls N !! i.
Proof.
  revert N. induction evs as [|ev evs IH]; intros N Hi; [done|].
  apply not_elem_of_cons in Hi as [Hev Hi]. simpl. rewrite IH by done.
  destruct (net_event ev N) as [N'|] eqn:He; [|done]. simpl.
  destruct ev as [j|n|n]; simpl in He.
  - destruct (net_calls N !! j) as [[|r k]|]; simpl in He; [done| |done].
    destruct (arb_rpc r _) as [[x s]|]; simpl in He; [|done]. injection He as <-. simpl.
    apply list_lookup_insert_ne. congruence.
  - destruct (arbitrate n _); simpl in He; [|done]. by injection He as <-.
  - destruct (disconnect n _); simpl in He; [|done]. by injection He as <-.
Qed.

Lemma not_begun_lookup {p4info accepts} calls i c evs (s : ArbServer p4info accepts) :
  calls !! i = Some c -> Call i ∉ evs ->
  net_calls (net_run evs (net_start calls s)) !! i = Some (api_rpc c.1 c.2).
Proof.
  intros Hc Hi. rewrite net_run_other by done. simpl. by rewrite list_lookup_fmap, Hc.
Qed.

Lemma call_0_alone : Call 1 ∉ call_runs 0 0.
Proof. cbn. set_solver. Qed.

Lemma stream_0_stays : Disconnect 0 ∉ call_runs 1 1.
Proof. cbn. set_solver. Qed.

Lemma net_same_id_witness :
  net_returned <$> net_calls (net_run (call_runs 0 0) twice_started) !! 0%nat =
    Some (Some OkStatus) /\
  net_calls (net_run (call_runs 1 1) (net_run (call_runs 0 0) twice_started)) !! 1%nat =
    Some (RRet no_answer).
Proof.
  split; [vm_compute; reflexivity|].
  assert (Hst : is_Some (as_streams (net_server (net_run (call_runs 0 0) twice_started)) !! 0%nat))
    by (vm_compute; by eexists).
  destruct Hst as [stm Hst].
  assert (He : st_election <$> as_streams (net_server (net_run (call_runs 0 0) twice_started)) !! 0%nat
    = Some (Some (call_election (second_of 42)))) by (vm_compute; reflexivity).
  rewrite Hst in He. injection He as He.
  assert (Hr : rtc net_step (net_start called_twice (fresh_server ∅ None))
    (net_run (call_runs 0 0) twice_started)) by apply net_run_rtc.
  assert (Hq : net_calls (net_run (call_runs 0 0) twice_started) !! 1%nat =
    Some (api_rpc (second_of 42) vlan_8))
    by (apply (not_begun_lookup called_twice 1 (second_of 42, vlan_8)); [done|exact call_0_alone]).
  pose proof (net_same_id called_twice ∅ None _ 1 (second_of 42, vlan_8) 0
    (second_of 42, vlan_7) 0 stm (call_runs 1 1) called_twice_ok Hr eq_refl) as Hsame.
  specialize (Hsame Hq).
  specialize (Hsame eq_refl eq_refl eq_refl).
  specialize (Hsame Hst He stream_0_stays).
  destruct Hsame as [Hret _].
  assert (Hs : exists st, net_calls (net_run (call_runs 1 1)
    (net_run (call_runs 0 0) twice_started)) !! 1%nat = Some (RRet st))
    by (eexists; vm_compute; reflexivity).
  destruct Hs as [st Hs]. rewrite Hs. by rewrite (Hret st Hs).
Defined.

(** Thread 43 connects when the first of the three entries of the tunnel is
    written. *)
Definition cut_off : list (Env * prog Status) :=
  [(second_of 42, insert_tunnel); (second_of 43, vlan_7)].

Definition cut_off_at : list nevent :=
  call_connects 0 0 ++ [Call 0; Call 0; Call 1; Call 1; Arbitrate 1].

Definition cut_off_started : example_net := net_start cut_off (fresh_server ∅ None).

Definition cut_off_N1 : example_net := net_run cut_off_at cut_off_started.
Definition cut_off_N2 : example_net := net_run (call_ends 0) cut_off_N1.

Lemma cut_off_ok : calls_ok cut_off.
Proof. apply callers_calls_ok. split_and!; [by repeat constructor..|by_computation]. Qed.

Lemma cut_off_outranked : outranked (call_election (second_of 42)) (net_server cut_off_N1).
Proof. exists (call_election (second_of 43)). split; vm_compute; reflexivity. Qed.

Lemma net_tunnel_cut_off_witness :
  net_calls cut_off_N2 !! 0%nat = Some (RRet not_primary) /\
  written_under (call_election (second_of 42)) (net_server cut_off_N2) =
    take 1 (tunnel_requests es2k_p4info sample_tunnel true) /\
  ok not_primary = false.
Proof.
  assert (Hq : net_calls cut_off_N2 !! 0%nat = Some (RRet not_primary))
    by (vm_compute; reflexivity).
  assert (Hlen : length (written_under (call_election (second_of 42)) (net_server cut_off_N1)) =
    1%nat) by (vm_compute; reflexivity).
  assert (H1 : rtc net_step cut_off_started cut_off_N1) by apply net_run_rtc.
  assert (H2 : rtc net_step cut_off_N1 cut_off_N2) by apply net_run_rtc.
  pose proof (net_tunnel_cut_off cut_off 0 (second_of 42) sample_tunnel true "localhost:9559"
    ∅ None cut_off_N1 cut_off_N2 not_primary cut_off_ok eq_refl) as Hcut.
  specialize (Hcut H1 H2 cut_off_outranked Hq). cbn zeta in Hcut. rewrite Hlen in Hcut.
  destruct Hcut as (Htake & Hsame & Herr & _).
  split; [exact Hq|]. split; [|apply Herr; repeat constructor].
  rewrite Hsame. exact Htake.
Defined.
