(* ===== verification/CText.v ===== *)
(** * Text in C and C++

    The functions of the standard libraries that the clients of the gNMI server
    use on text: C strings in memory, [strtol] and its relatives, and
    [std::regex] (the part of ECMAScript syntax their expressions are written
    in, with its backtracking semantics). *)

From stdpp Require Import gmap.
From Stdlib Require Import Ascii.
From S2P Require Import Prelude.

(** A [std::string], or the characters of a C string. *)
Abbreviation text := (list ascii).

Definition lit (s : string) : text := String.list_ascii_of_string s.

Definition NUL : ascii := "000"%char.
Definition ENDL : text := ["010"%char].

(** ** C strings in memory

    A block of memory is the list of its characters; a pointer into it is an
    offset. *)
Abbreviation mem := (list ascii).

(** The C string at the start of [m]. *)
Fixpoint c_string (m : mem) : text :=
  match m with
  | [] => []
  | c :: m => if decide (c = NUL) then [] else c :: c_string m
  end.

Definition c_str (m : mem) (p : nat) : text := c_string (drop p m).

(** [m[p]]. *)
Definition char_at (m : mem) (p : nat) : ascii := default NUL (m !! p).

Fixpoint strspn (s accept : text) : nat :=
  match s with
  | [] => 0
  | c :: s => if decide (c ∈ accept) then S (strspn s accept) else 0
  end.

Fixpoint strcspn (s reject : text) : nat :=
  match s with
  | [] => 0
  | c :: s => if decide (c ∈ reject) then 0 else S (strcspn s reject)
  end.

(** Writing a C string into an array; [None] is a write past its end. *)
Definition strcpy_at (dst : mem) (p : nat) (src : text) : option mem :=
  if decide (p + length src < length dst)%nat then
    Some (take p dst ++ src ++ NUL :: drop (p + length src + 1) dst)
  else None.

Definition strlen (m : mem) : nat := length (c_str m 0).

(** [snprintf(dst + p, size, "%s", s)], for a positive [size]. *)
Definition snprintf_at (dst : mem) (p size : nat) (s : text) : option mem :=
  strcpy_at dst p (take (size - 1) s).

(** ** Numbers *)

(** What [isspace] accepts. *)
Definition spaces : text := [" "; "009"; "010"; "011"; "012"; "013"]%char.

Definition digit_value (c : ascii) : option Z :=
  let n := Z.of_nat (nat_of_ascii c) in
  if (48 <=? n) && (n <=? 57) then Some (n - 48) else None.

Fixpoint scan_digits (acc : Z) (s : text) : Z * text :=
  match s with
  | [] => (acc, [])
  | c :: s' =>
      match digit_value c with
      | Some d => scan_digits (10 * acc + d) s'
      | None => (acc, s)
      end
  end.

(** The subject sequence of [strtol] and [strtoull] in base 10: its sign, its
    magnitude and what follows it; [None] when there is none. *)
Definition scan_int (s : text) : option (bool * Z * text) :=
  let s := drop (strspn s spaces) s in
  let '(negative, s) :=
    match s with
    | c :: s' =>
        if decide (c = "-"%char) then (true, s')
        else if decide (c = "+"%char) then (false, s') else (false, s)
    | [] => (false, s)
    end in
  match s with
  | c :: _ =>
      match digit_value c with
      | Some _ => let '(n, rest) := scan_digits 0 s in Some (negative, n, rest)
      | None => None
      end
  | [] => None
  end.

(** Where [strtol] leaves [*endptr]. *)
Definition strtol_end (s : text) : text :=
  match scan_int s with
  | Some (_, rest) => rest
  | None => s
  end.

(** [std::stoull] and [std::stoll]: [None] is the exception. *)
Definition stoull (s : text) : option Z :=
  '(negative, n, _) ← scan_int s;
  if n <=? 18446744073709551615 then Some (if (negative : bool) then w64 (- n) else n)
  else None.

Definition stoll (s : text) : option Z :=
  '(negative, n, _) ← scan_int s;
  let n := if (negative : bool) then - n else n in
  if (-9223372036854775808 <=? n) && (n <=? 9223372036854775807) then Some n else None.

(** Conversion of an unsigned 64-bit integer to [int64_t]. *)
Definition s64 (z : Z) : Z :=
  (z + 9223372036854775808) mod 18446744073709551616 - 9223372036854775808.

(** ** Regular expressions

    A bracket expression, possibly under a greedy [+]; concatenation; a greedy
    [?]; a numbered group. *)
Inductive regex :=
| RClass (p : ascii -> bool)
| RPlus (p : ascii -> bool)
| RSeq (r1 r2 : regex)
| ROpt (r : regex)
| RGroup (n : nat) (r : regex).

Definition is_char (c : string) : ascii -> bool := fun x => bool_decide (x ∈ lit c).
Definition not_char (c : string) : ascii -> bool := fun x => negb (is_char c x).

(** The text of each group that took part in the match. *)
Abbreviation captures := (gmap nat text).

(** The alternatives in the order in which the matcher tries them; the first
    one that the rest of the match, [k], accepts is taken. *)
Section Match.
Context {A : Type}.

Fixpoint match_plus (p : ascii -> bool) (s : text) (k : text -> option A) : option A :=
  match s with
  | c :: s' =>
      if p c then
        match match_plus p s' k with
        | Some a => Some a
        | None => k s'
        end
      else None
  | [] => None
  end.

Fixpoint match_at (r : regex) (s : text) (caps : captures)
  (k : text -> captures -> option A) : option A :=
  match r with
  | RClass p =>
      match s with
      | c :: s' => if p c then k s' caps else None
      | [] => None
      end
  | RPlus p => match_plus p s (fun s' => k s' caps)
  | RSeq r1 r2 => match_at r1 s caps (fun s' caps => match_at r2 s' caps k)
  | ROpt r =>
      match match_at r s caps k with
      | Some a => Some a
      | None => k s caps
      end
  | RGroup n r =>
      match_at r s caps
        (fun s' caps => k s' (<[n := take (length s - length s') s]> caps))
  end.
End Match.

(** A match at the start of [s]: what is left of [s], and the groups. *)
Definition match_prefix (r : regex) (s : text) : option (text * captures) :=
  match_at r s ∅ (fun s' caps => Some (s', caps)).

Definition regex_match (r : regex) (s : text) : option captures :=
  match_at r s ∅ (fun s' caps => match s' with [] => Some caps | _ => None end).

Fixpoint regex_search (r : regex) (s : text) : option (text * captures) :=
  match match_prefix r s with
  | Some m => Some m
  | None =>
      match s with
      | [] => None
      | _ :: s' => regex_search r s'
      end
  end.

(** [std::sregex_iterator], for an expression that does not match the empty
    string: each search starts where the last match ended. *)
Fixpoint regex_matches (fuel : nat) (r : regex) (s : text) : list captures :=
  match fuel with
  | O => []
  | S fuel =>
      match regex_search r s with
      | Some (s', caps) => caps :: regex_matches fuel r s'
      | None => []
      end
  end.

(** [sm.str(n)]. *)
Definition group (n : nat) (caps : captures) : text := default [] (caps !! n).

(** Closes a decidable goal by computing it. *)
Ltac by_decision := apply (bool_decide_unpack _); vm_compute; exact I.
