(* ===== verification/GnmiCtl.v ===== *)
(** * gnmi-ctl ([src/clients/gnmi-ctl/])

    A command-line client of the gNMI server of infrap4d. Its argument
    ["device:<type>,name=<name>,<key:value>,..."] is cut up in place by
    [gnmi_ctl_utils.c], assembled into paths in arrays of 128 characters, and
    the paths are taken apart again into gNMI messages. This file is the
    work of the commands on the argument, from the channel on; [GnmiStart] is
    the whole program. *)

From stdpp Require Import gmap.
From Stdlib Require Import Ascii.
From S2P Require Import Prelude Session CText.

(** ** gnmi_ctl_utils.c *)

Section Utils.
#[local] Open Scope nat_scope.

(** [", \t\r\n"]. *)
Definition item_delims : text := [","; " "; "009"; "013"; "010"]%char.
Definition key_delims : text := [":"; "="; "("]%char ++ item_delims.

(** [level] is positive while the [do] loop is running. *)
Fixpoint parse_value_at (level : nat) (s delimiters : text) : nat :=
  match s with
  | [] => 0
  | c :: s =>
      if (level =? 0) && bool_decide (c ∈ delimiters) then 0
      else if decide (c = "("%char) then 1 + parse_value_at (level + 1) s delimiters
      else if (0 <? level) && bool_decide (c = ")"%char) then
        1 + parse_value_at (level - 1) s delimiters
      else 1 + parse_value_at level s delimiters
  end.

Definition parse_value (s delimiters : text) : nat := parse_value_at 0 s delimiters.

(** The value that begins at [*stringp], and the end of the function: the
    result, with [*keyp] and [*valuep]; then [*stringp]; then the memory. *)
Definition extract_value (m : mem) (key stringp : nat) (key_delim : ascii)
  (value_delims : text) : option (nat * nat) * nat * mem :=
  let value := stringp in
  let value_len := parse_value (c_str m value) value_delims in
  let value_delim := char_at m (value + value_len) in
  let '(value_len, value_delim) :=
    if decide (key_delim = "("%char /\ char_at m (value + value_len) = ")"%char /\
               char_at m (value + value_len + 1) = "-"%char /\
               char_at m (value + value_len + 2) = ">"%char)
    then
      let value_len := value_len + parse_value (c_str m (value + value_len)) item_delims in
      (value_len, char_at m (value + value_len))
    else (value_len, value_delim) in
  let m := <[value + value_len := NUL]> m in
  let stringp := stringp + value_len + (if decide (value_delim = NUL) then 0 else 1) in
  (Some (key, value), stringp, m).

Definition client_parse_key_value (m : mem) (stringp : nat)
  : option (nat * nat) * nat * mem :=
  let stringp := stringp + strspn (c_str m stringp) item_delims in
  if decide (char_at m stringp = NUL) then (None, stringp, m) else
  let key := stringp in
  let key_len := strcspn (c_str m key) key_delims in
  let key_delim := char_at m (key + key_len) in
  let m := <[key + key_len := NUL]> m in
  let stringp := stringp + key_len + (if decide (key_delim = NUL) then 0 else 1) in
  if decide (key_delim = ":"%char \/ key_delim = "="%char) then
    extract_value m key stringp key_delim item_delims
  else if decide (key_delim = "("%char) then
    extract_value m key stringp key_delim [")"%char]
  else (Some (key, key + key_len), stringp, m).

(** The array [dst] of [size] characters after the call. *)
Definition client_strzcpy (src : text) (size : nat) : mem :=
  let len := Nat.min (length src) (size - 1) in
  take len src ++ replicate (size - len) NUL.
End Utils.

(** ** gNMI messages ([src/stratum/proto/gnmi/gnmi.proto])

    The fields the clients set. *)

Record PathElem := MkPathElem { pe_name : text; pe_key : gmap text text }.
Abbreviation Path := (list PathElem).

Inductive TypedValue (float : Type) :=
| string_val (s : text)
| int_val (z : Z)
| uint_val (z : Z)
| bool_val (b : bool)
| float_val (f : float)
| proto_bytes (s : text)
| bytes_val (s : text).
Arguments string_val {_} s.
Arguments int_val {_} z.
Arguments uint_val {_} z.
Arguments bool_val {_} b.
Arguments float_val {_} f.
Arguments proto_bytes {_} s.
Arguments bytes_val {_} s.

Record Update (float : Type) :=
  MkUpdate { upd_path : Path; upd_val : option (TypedValue float) }.
Arguments MkUpdate {_} _ _.
Arguments upd_path {_} _.
Arguments upd_val {_} _.

Record SetRequest (float : Type) := MkSetRequest {
  set_delete : list Path;
  set_replace : list (Update float);
  set_update : list (Update float);
}.
Arguments MkSetRequest {_} _ _ _.
Arguments set_delete {_} _.
Arguments set_replace {_} _.
Arguments set_update {_} _.

Inductive DataType := ALL | CONFIG | STATE | OPERATIONAL.
Inductive Encoding := JSON | BYTES | PROTO | ASCII | JSON_IETF.

Record GetRequest := MkGetRequest {
  get_path : list Path;
  get_type : DataType;
  get_encoding : Encoding;
}.

Inductive SubscriptionMode := TARGET_DEFINED | ON_CHANGE | SAMPLE.
Inductive SubscriptionListMode := STREAM | ONCE | POLL.

Record Subscription := MkSubscription {
  sub_path : Path;
  sub_mode : SubscriptionMode;
  sub_sample_interval : Z;     (* uint64, nanoseconds *)
}.

(** The [subscribe] case. *)
Record SubscribeRequest := MkSubscribeRequest {
  sl_mode : SubscriptionListMode;
  sl_updates_only : bool;
  sl_subscription : list Subscription;
}.

(** [DataType_Parse]. *)
Definition DataType_Parse (name : text) : option DataType :=
  if decide (name = lit "ALL") then Some ALL
  else if decide (name = lit "CONFIG") then Some CONFIG
  else if decide (name = lit "STATE") then Some STATE
  else if decide (name = lit "OPERATIONAL") then Some OPERATIONAL
  else None.

(** The generated stub of the server; [DebugString] of its responses. A
    subscription delivers responses until its stream ends. *)
Class GnmiStub (float S : Type) := {
  Response : Type;
  DebugString : Response -> text;
  CapabilityRequest_DebugString : text;
  stub_Capabilities : S -> (grpc_Status * Response) * S;
  stub_Get : GetRequest -> S -> (grpc_Status * Response) * S;
  stub_Set : SetRequest float -> S -> (grpc_Status * Response) * S;
  stub_Subscribe_Write : SubscribeRequest -> S -> bool * S;
  stub_Subscribe_Reads : S -> list Response * S;
  stub_Subscribe_Finish : S -> grpc_Status * S;
}.

(** ** gnmi_ctl.cc *)

Record CtlFlags := MkCtlFlags {
  FLAGS_interval : Z;
  FLAGS_replace : bool;
  FLAGS_get_type : text;
  FLAGS_root_node : text;
  FLAGS_device_key : text;
  FLAGS_device_type_virtual_interface : text;
  FLAGS_name_key : text;
  FLAGS_subtree_config : text;
}.

Definition default_CtlFlags : CtlFlags :=
  MkCtlFlags 5000 false (lit "ALL") (lit "/interfaces/") (lit "device")
    (lit "virtual-interface") (lit "name") (lit "config").

Definition MAX_STR_LENGTH : nat := 128.

(** *** Paths *)

(** ["\\[([^=]+)=([^\\]]+)\\]"] *)
Definition elem_kv_regex : regex :=
  RSeq (RClass (is_char "[")) (RSeq (RGroup 1 (RPlus (not_char "=")))
    (RSeq (RClass (is_char "=")) (RSeq (RGroup 2 (RPlus (not_char "]")))
      (RClass (is_char "]"))))).

(** ["/([^/\\[]+)(\\[([^=]+=[^\\]]+)\\])?"] *)
Definition path_elem_regex : regex :=
  RSeq (RClass (is_char "/")) (RSeq (RGroup 1 (RPlus (not_char "/[")))
    (ROpt (RGroup 2
      (RSeq (RClass (is_char "["))
        (RSeq (RGroup 3 (RSeq (RPlus (not_char "="))
            (RSeq (RClass (is_char "=")) (RPlus (not_char "]")))))
          (RClass (is_char "]"))))))).

(** The groups are empty when the match fails. *)
Definition add_path_elem (elem_name elem_kv : text) (elem : PathElem) : PathElem :=
  let elem := MkPathElem elem_name (pe_key elem) in
  if decide (elem_kv = []) then elem else
  let sm := default ∅ (regex_match elem_kv_regex elem_kv) in
  MkPathElem (pe_name elem) (<[group 1 sm := group 2 sm]> (pe_key elem)).

Definition build_gnmi_path (path_str : text) (path : Path) : Path :=
  fold_left (fun path sm =>
      path ++ [add_path_elem (group 1 sm) (group 2 sm) (MkPathElem [] ∅)])
    (regex_matches (length path_str) path_elem_regex path_str) path.

(** *** Requests *)

(** What is printed comes with the request. *)
Definition build_gnmi_get_req (flags : CtlFlags) (path : text) : GetRequest * list text :=
  let p := build_gnmi_path path [] in
  match DataType_Parse (FLAGS_get_type flags) with
  | Some data_type => (MkGetRequest [p] data_type PROTO, [])
  | None =>
      (MkGetRequest [p] ALL PROTO,
       [lit "Invalid gNMI get data type: "; FLAGS_get_type flags;
        lit " , use ALL as data type."; ENDL])
  end.

(** [None] when [stoull] throws. *)
Definition build_gnmi_set_req {float} (flags : CtlFlags) (path val : text)
  : option (SetRequest float) :=
  let p := build_gnmi_path path [] in
  v ← (match strtol_end val with
       | _ :: _ => Some (string_val val)
       | [] => int_val ∘ s64 <$> stoull val
       end);
  let update := MkUpdate p (Some v) in
  Some (if FLAGS_replace flags then MkSetRequest [] [update] []
        else MkSetRequest [] [] [update]).

Definition build_gnmi_del_req {float} (path : text) : SetRequest float :=
  MkSetRequest [build_gnmi_path path []] [] [].

Definition build_gnmi_sub_onchange_req (path : text) : SubscribeRequest :=
  MkSubscribeRequest STREAM true [MkSubscription (build_gnmi_path path []) ON_CHANGE 0].

Definition build_gnmi_sub_sample_req (path : text) (interval : Z) : SubscribeRequest :=
  MkSubscribeRequest STREAM true [MkSubscription (build_gnmi_path path []) SAMPLE interval].

(** *** Computations

    The server, what is printed, and how a computation can end otherwise than
    by returning: a write past the end of an array, which is undefined
    behaviour, and an exception nothing catches. [out_of_fuel] is of the
    model's loops only. *)
Inductive fault := buffer_overflow | uncaught_exception | out_of_fuel.

Record Ctl (S : Type) := MkCtl { ctl_server : S; ctl_out : list text }.
Arguments MkCtl {_} _ _.
Arguments ctl_server {_} _.
Arguments ctl_out {_} _.

Definition G (S A : Type) : Type := Ctl S -> (fault + A) * Ctl S.

#[export] Instance G_ret {S} : MRet (G S) := fun A a w => (inr a, w).
#[export] Instance G_bind {S} : MBind (G S) := fun A B f m w =>
  match m w with
  | (inr a, w) => f a w
  | (inl e, w) => (inl e, w)
  end.

Definition stop {S A} (e : fault) : G S A := fun w => (inl e, w).
Definition print {S} (out : list text) : G S unit :=
  fun w => (inr (), MkCtl (ctl_server w) (ctl_out w ++ out)).
Definition on_stub {S A} (f : S -> A * S) : G S A :=
  fun w => let '(a, s) := f (ctl_server w) in (inr a, MkCtl s (ctl_out w)).
Definition in_array {S} (m : option mem) : G S mem :=
  match m with Some m => mret m | None => stop buffer_overflow end.

Section Commands.
Context {float W : Type} `{GnmiStub float W}.
Variable flags : CtlFlags.

(** [PRINT_MSG]. *)
Definition PRINT_MSG (msg prompt : text) : G W unit := print [prompt; ENDL; msg; ENDL].

(** [RETURN_IF_GRPC_ERROR]: the error code to return with, if any. *)
Definition CANCELLED : Z := 1.

Definition grpc_error (status : grpc_Status) : option Z :=
  if (error_code status =? 0) || (error_code status =? CANCELLED) then None
  else Some (error_code status).

(** [extract_interface_node]: its result, [*path], [node_path], [*vhost_dev]
    and the argument. -1, converted to [bool], is [true]. *)
Fixpoint extract_loop (fuel : nat) (m : mem) (path : nat) (node_path : mem)
  (vhost_dev : bool) (found_node : Z) : G W (bool * nat * mem * bool * mem) :=
  match fuel with
  | O => stop out_of_fuel
  | S fuel =>
      match client_parse_key_value m path with
      | (None, path, m) => mret (true, path, node_path, vhost_dev, m)
      | (Some (key, value), path, m) =>
          let with_name node_path vhost_dev found_node :=
            '(node_path, found_node) ←
              (if decide (c_str m key = FLAGS_name_key flags) then
                 node_path ← in_array (snprintf_at node_path (strlen node_path)
                   (length (c_str m value) + 9)
                   (lit "[name=" ++ c_str m value ++ lit "]/"));
                 mret (node_path, found_node + 1)
               else mret (node_path, found_node));
            if found_node =? 2 then mret (false, path, node_path, vhost_dev, m)
            else extract_loop fuel m path node_path vhost_dev found_node in
          if decide (c_str m key = FLAGS_device_key flags) then
            node_path ← in_array (snprintf_at node_path (strlen node_path)
              (length (FLAGS_device_type_virtual_interface flags) + 1)
              (FLAGS_device_type_virtual_interface flags));
            if decide (c_str m value <> lit "virtual-device" /\
                       c_str m value <> lit "physical-device") then
              mret (true, path, node_path, vhost_dev, m)
            else
              vhost_dev ←
                (if decide (c_str m value = lit "virtual-device") then
                   print [lit "setting vhost_dev = true."];; mret true
                 else mret vhost_dev);
              with_name node_path vhost_dev (found_node + 1)
          else with_name node_path vhost_dev found_node
      end
  end.

Definition extract_interface_node (m : mem) (path : nat) (node_path : mem)
  (vhost_dev : bool) : G W (bool * nat * mem * bool * mem) :=
  extract_loop (length m + 1) m path node_path vhost_dev 0.

(** [traverse_params]: [*path], [node_path], [config_value], [flag] and the
    argument. *)
Definition traverse_params (m : mem) (path : nat) (node_path config_value : mem)
  (flag : bool) : G W (nat * mem * mem * bool * mem) :=
  match client_parse_key_value m path with
  | (Some (key, value), path, m) =>
      let append_key :=
        in_array (snprintf_at node_path (strlen node_path)
          (length (FLAGS_subtree_config flags) + length (c_str m key) + 2)
          (FLAGS_subtree_config flags ++ lit "/" ++ c_str m key)) in
      if decide (char_at m value <> NUL) then
        node_path ← append_key;
        config_value ← in_array (strcpy_at config_value 0 (c_str m value));
        mret (path, node_path, config_value, flag, m)
      else if decide (char_at m key <> NUL) then
        node_path ← append_key;
        mret (path, node_path, config_value, flag, m)
      else mret (path, node_path, config_value, false, m)
  | (None, path, m) => mret (path, node_path, config_value, false, m)
  end.

(** [char a[MAX_STR_LENGTH] = {0}]. *)
Definition zero_array : mem := replicate MAX_STR_LENGTH NUL.

Definition get_command (m : mem) (path : nat) (buffer : mem) : G W Z :=
  path1 ← in_array (strcpy_at zero_array 0 (c_str buffer 0));
  '(path, path1, config_value, params, m) ← traverse_params m path path1 zero_array true;
  let '(req, out) := build_gnmi_get_req flags (c_str path1 0) in
  print out;;
  '(status, resp) ← on_stub (stub_Get req);
  match grpc_error status with
  | Some code => mret code
  | None => PRINT_MSG (DebugString resp) (lit "Get Response from Server");; mret 0
  end.

(** The [while (params)] loop; [None] when it ends. *)
Fixpoint set_loop (fuel : nat) (m : mem) (path : nat) (buffer : mem)
  (vhost_device : bool) : G W (option Z) :=
  match fuel with
  | O => stop out_of_fuel
  | S fuel =>
      path1 ← in_array (strcpy_at zero_array 0 (c_str buffer 0));
      '(path, path1, config_value, params, m) ←
        traverse_params m path path1 zero_array true;
      config_value ←
        (if decide ((c_str config_value 0 = lit "link" \/
                     c_str config_value 0 = lit "LINK") /\ vhost_device = true)
         then in_array (strcpy_at config_value 0 (lit "vhost"))
         else mret config_value);
      if (params : bool) then
        match build_gnmi_set_req flags (c_str path1 0) (c_str config_value 0) with
        | None => stop uncaught_exception
        | Some req =>
            '(status, _) ← on_stub (stub_Set req);
            match grpc_error status with
            | Some code => mret (Some code)
            | None => set_loop fuel m path buffer vhost_device
            end
        end
      else mret None
  end.

Definition set_command (m : mem) (path : nat) (buffer : mem) (vhost_device : bool) : G W Z :=
  r ← set_loop (length m + 1) m path buffer vhost_device;
  match r with
  | Some code => mret code
  | None => print [lit "Set request, successful...!!!"; ENDL];; mret 0
  end.

Definition del_command (path : text) : G W Z :=
  '(status, resp) ← on_stub (stub_Set (build_gnmi_del_req path));
  match grpc_error status with
  | Some code => mret code
  | None => PRINT_MSG (DebugString resp) (lit "RESPONSE");; mret 0
  end.

(** Both subscriptions, which differ in their request. *)
Definition subscribe_command (req : SubscribeRequest) : G W Z :=
  on_stub (stub_Subscribe_Write req);;
  responses ← on_stub stub_Subscribe_Reads;
  print (responses ≫= fun resp => [lit "RESPONSE"; ENDL; DebugString resp; ENDL]);;
  status ← on_stub stub_Subscribe_Finish;
  match grpc_error status with
  | Some code => mret code
  | None => mret 0
  end.

(** [Main] from the choice of the command on, with the error code of its
    status; [args] are [argv[2]] and what follows it. [ERR_INVALID_PARAM] is a
    code of the stratum library. *)
Definition Main (ERR_INVALID_PARAM : Z) (cmd : text) (args : list text) : G W Z :=
  if decide (cmd = lit "cap") then
    PRINT_MSG CapabilityRequest_DebugString (lit "REQUEST");;
    '(status, resp) ← on_stub stub_Capabilities;
    match grpc_error status with
    | Some code => mret code
    | None => PRINT_MSG (DebugString resp) (lit "RESPONSE");; mret 0
    end
  else
  match args with
  | [] => print [lit "Missing path for "; cmd; lit " request" ++ ENDL];; mret 0
  | arg :: _ =>
      let buffer := client_strzcpy (FLAGS_root_node flags) MAX_STR_LENGTH in
      '(invalid, path, buffer, vhost_device, m) ←
        extract_interface_node (arg ++ [NUL]) 0 buffer false;
      if (invalid : bool) then
        print [lit "Invalid device and name information" ++ ENDL];; mret 0
      else if decide (cmd = lit "get") then get_command m path buffer
      else if decide (cmd = lit "set") then set_command m path buffer vhost_device
      else if decide (cmd = lit "del") then del_command (c_str m path)
      else if decide (cmd = lit "sub-onchange") then
        subscribe_command (build_gnmi_sub_onchange_req (c_str m path))
      else if decide (cmd = lit "sub-sample") then
        subscribe_command (build_gnmi_sub_sample_req (c_str m path) (FLAGS_interval flags))
      else mret ERR_INVALID_PARAM
  end.
End Commands.
