(* ===== verification/GnmiParse.v ===== *)
(** * The argument of gnmi-ctl

    [client_parse_key_value] cuts its argument up in place. It is shown to
    compute [next_pair], a function on texts, and to take a printed list of
    pairs apart again. *)

From stdpp Require Import sets.
From Stdlib Require Import Ascii.
From S2P Require Import Prelude CText GnmiCtl.

#[local] Open Scope nat_scope.

(** ** The parser as a function on texts *)

(** The first key and value of [s] and what follows them. *)
Definition next_pair (s : text) : option (text * text * text) :=
  let s := drop (strspn s item_delims) s in
  if decide (s = []) then None else
  let n := strcspn s key_delims in
  let value_in rest delims := parse_value rest delims in
  match drop n s with
  | [] => Some (take n s, [], [])
  | d :: rest =>
      if decide (d = ":"%char \/ d = "="%char) then
        let v := parse_value rest item_delims in
        Some (take n s, take v rest, drop (v + 1) rest)
      else if decide (d = "("%char) then
        let v := parse_value rest [")"%char] in
        let v :=
          if decide (take 3 (drop v rest) = lit ")->") then
            v + parse_value (drop v rest) item_delims
          else v in
        Some (take n s, take v rest, drop (v + 1) rest)
      else Some (take n s, [], rest)
  end.

(** All the pairs of [s]. *)
Fixpoint pairs_of (fuel : nat) (s : text) : list (text * text) :=
  match fuel with
  | O => []
  | S fuel =>
      match next_pair s with
      | Some (k, v, rest) => (k, v) :: pairs_of fuel rest
      | None => []
      end
  end.

(** ** Lemmas on the scanning functions *)

Lemma strspn_le s a : strspn s a <= length s.
Proof. induction s; simpl; [done|]. case_decide; lia. Qed.

Lemma strcspn_le s a : strcspn s a <= length s.
Proof. induction s; simpl; [done|]. case_decide; lia. Qed.

Lemma parse_value_at_le l s d : parse_value_at l s d <= length s.
Proof.
  revert l. induction s as [|c s IH]; intros l; simpl; [done|].
  repeat case_match; try lia; by apply le_n_S.
Qed.

Lemma parse_value_le s d : parse_value s d <= length s.
Proof. apply parse_value_at_le. Qed.

Lemma take_strcspn s a : forall c, c ∈ take (strcspn s a) s -> c ∉ a.
Proof.
  induction s as [|x s IH]; intros c; simpl; [by rewrite elem_of_nil|].
  case_decide; simpl; [by rewrite elem_of_nil|].
  rewrite elem_of_cons. intros [->|Hc]; [done|by apply IH].
Qed.

Lemma strcspn_app s c rest a :
  Forall (fun x => x ∉ a) s -> c ∈ a -> strcspn (s ++ c :: rest) a = length s.
Proof.
  intros Hs Hc. induction Hs as [|x s Hx Hs IH]; simpl; [by rewrite decide_True|].
  rewrite decide_False by done. by f_equal.
Qed.

Lemma strcspn_all s a : Forall (fun x => x ∉ a) s -> strcspn s a = length s.
Proof.
  intros Hs. induction Hs as [|x s Hx Hs IH]; simpl; [done|].
  rewrite decide_False by done. by f_equal.
Qed.

Lemma strspn_zero x s a : x ∉ a -> strspn (x :: s) a = 0.
Proof. intros Hx. simpl. by rewrite decide_False. Qed.

(** ** C strings *)

Lemma c_string_app s m : NUL ∉ s -> c_string (s ++ NUL :: m) = s.
Proof.
  intros Hs. induction s as [|c s IH]; [done|]. simpl.
  rewrite not_elem_of_cons in Hs. destruct Hs as [Hc Hs].
  rewrite decide_False by done. f_equal. by apply IH.
Qed.

(** A block in which the C string [s] starts at [length pre]. *)
Lemma c_str_app pre s post : NUL ∉ s -> c_str (pre ++ s ++ NUL :: post) (length pre) = s.
Proof. intros Hs. unfold c_str. rewrite drop_app_length. by apply c_string_app. Qed.

Lemma c_str_mid pre s post n :
  NUL ∉ s -> n <= length s ->
  c_str (pre ++ s ++ NUL :: post) (length pre + n) = drop n s.
Proof.
  intros Hs Hn. unfold c_str. rewrite drop_app_ge by lia.
  replace (length pre + n - length pre) with n by lia.
  rewrite drop_app_le by done. apply c_string_app. intros Hin. apply Hs.
  rewrite <- (take_drop n s), elem_of_app. by right.
Qed.

Lemma c_str_first s post : NUL ∉ s -> c_str (s ++ NUL :: post) 0 = s.
Proof. apply (c_str_app [] s post). Qed.

Lemma c_str_none s : NUL ∉ c_str s 0.
Proof.
  unfold c_str. rewrite drop_0. induction s as [|c s IH]; simpl; [apply not_elem_of_nil|].
  case_decide; [apply not_elem_of_nil|]. rewrite not_elem_of_cons. by split.
Qed.

Lemma char_at_app pre s post i :
  i <= length s -> char_at (pre ++ s ++ NUL :: post) (length pre + i) = default NUL (s !! i).
Proof.
  intros Hi. unfold char_at. rewrite lookup_app_r by lia.
  replace (length pre + i - length pre) with i by lia. destruct (decide (i < length s)).
  - by rewrite lookup_app_l.
  - replace i with (length s) by lia. rewrite lookup_app_r, Nat.sub_diag by done.
    simpl. by rewrite (proj2 (lookup_ge_None s (length s))).
Qed.

Lemma NUL_drop n (s : text) : NUL ∉ s -> NUL ∉ drop n s.
Proof. rewrite <- (take_drop n s) at 1. rewrite elem_of_app. tauto. Qed.

Lemma NUL_take n (s : text) : NUL ∉ s -> NUL ∉ take n s.
Proof. rewrite <- (take_drop n s) at 1. rewrite elem_of_app. tauto. Qed.

(** Cutting the string at [n] and stepping over the delimiter: the part before
    [n] becomes a string of its own, and the pointer is at the rest. *)
Definition cut (s : text) (n : nat) : text :=
  take n s ++ (if decide (n < length s) then [NUL] else []).

Lemma cut_insert pre s post n :
  n <= length s ->
  <[length pre + n := NUL]> (pre ++ s ++ NUL :: post) =
  pre ++ cut s n ++ drop (n + 1) s ++ NUL :: post.
Proof.
  intros Hn. rewrite insert_app_r. f_equal. unfold cut. case_decide as Hlt.
  - destruct (lookup_lt_is_Some_2 s n Hlt) as [c Hc].
    rewrite insert_app_l by done. rewrite (insert_take_drop s n NUL) by done.
    rewrite <- !app_assoc. by rewrite Nat.add_1_r.
  - replace n with (length s) by lia. rewrite insert_app_r_alt by done.
    rewrite Nat.sub_diag, firstn_all, app_nil_r, skipn_all2 by lia. done.
Qed.

Lemma cut_pointer pre s post n :
  NUL ∉ s -> n <= length s ->
  length pre + n + (if decide (char_at (pre ++ s ++ NUL :: post) (length pre + n) = NUL)
                    then 0 else 1) =
  length (pre ++ cut s n).
Proof.
  intros Hs Hn. rewrite char_at_app by done. unfold cut.
  rewrite !length_app, length_take, Nat.min_l by done. case_decide as Hc; case_decide as Hlt.
  - exfalso. apply Hs. destruct (lookup_lt_is_Some_2 s n Hlt) as [c E]. rewrite E in Hc.
    simpl in Hc. subst c. by eapply list_elem_of_lookup_2.
  - simpl. lia.
  - simpl. lia.
  - exfalso. apply Hc. by rewrite (proj2 (lookup_ge_None s n)) by lia.
Qed.

Lemma length_cut s n : n <= length s -> length (cut s n) + length (drop (n + 1) s) = length s.
Proof.
  intros Hn. unfold cut. rewrite length_app, length_take, length_drop.
  case_decide; simpl; lia.
Qed.

Lemma cut_string s n rest post :
  NUL ∉ s -> n <= length s -> rest = drop (n + 1) s ->
  c_string (cut s n ++ rest ++ NUL :: post) = take n s.
Proof.
  intros Hs Hn ->. unfold cut. case_decide as Hlt; rewrite <- app_assoc; simpl.
  - apply c_string_app. by apply NUL_take.
  - rewrite skipn_all2 by lia. apply c_string_app. by apply NUL_take.
Qed.

(** ** The parser in memory *)

(** The test for [")->"] reads no further than the end of the string. *)
Lemma arrow_test pre s post v :
  NUL ∉ s -> v <= length s ->
  let m := pre ++ s ++ NUL :: post in
  (char_at m (length pre + v) = ")"%char /\ char_at m (length pre + v + 1) = "-"%char /\
   char_at m (length pre + v + 2) = ">"%char) <->
  take 3 (drop v s) = lit ")->".
Proof.
  intros Hs Hv m. subst m.
  assert (Hd : forall i, v + i <= length s ->
    char_at (pre ++ s ++ NUL :: post) (length pre + v + i) = default NUL (drop v s !! i)).
  { intros i Hi. rewrite <- Nat.add_assoc, char_at_app by done. by rewrite lookup_drop. }
  pose proof (length_drop s v) as Hlen.
  rewrite <- (Nat.add_0_r (length pre + v)) at 1. rewrite (Hd 0) by lia. destruct (drop v s) as [|a l] eqn:E; simpl in Hlen |- *.
  { split; [by intros [[=] _]|done]. }
  split.
  - intros (-> & H1 & H2). rewrite (Hd 1) in H1 by lia.
    destruct l as [|b l]; [done|]. simpl in H1, Hlen. subst b. rewrite (Hd 2) in H2 by lia.
    destruct l as [|c l]; [done|]. simpl in H2. by subst c.
  - destruct l as [|b [|c l]]; try done. simpl in Hlen. intros [= -> -> ->].
    rewrite (Hd 1), (Hd 2) by lia. done.
Qed.

Definition value_length (d : ascii) (rest : text) : nat :=
  if decide (d = "("%char) then
    let v := parse_value rest [")"%char] in
    if decide (take 3 (drop v rest) = lit ")->") then
      v + parse_value (drop v rest) item_delims
    else v
  else parse_value rest item_delims.

Lemma value_length_le d rest : value_length d rest <= length rest.
Proof.
  unfold value_length. pose proof (parse_value_le rest item_delims).
  pose proof (parse_value_le rest [")"%char]). case_decide; [|done]. cbv zeta.
  case_decide; [|done].
  pose proof (parse_value_le (drop (parse_value rest [")"%char]) rest) item_delims) as Hp.
  rewrite length_drop in Hp. lia.
Qed.

Lemma next_pair_eq s :
  next_pair s =
  let s := drop (strspn s item_delims) s in
  if decide (s = []) then None else
  let n := strcspn s key_delims in
  match drop n s with
  | [] => Some (take n s, [], [])
  | d :: rest =>
      if decide (d ∈ [":"; "="; "("]%char) then
        Some (take n s, take (value_length d rest) rest, drop (value_length d rest + 1) rest)
      else Some (take n s, [], rest)
  end.
Proof.
  unfold next_pair, value_length. cbv zeta. case_decide; [done|].
  destruct (drop _ (drop _ s)) as [|d rest]; [done|].
  destruct (decide (d = ":"%char)) as [->|H1]; [done|].
  destruct (decide (d = "="%char)) as [->|H2]; [done|].
  destruct (decide (d = "("%char)) as [->|H3]; [done|].
  rewrite !decide_False; [done|set_solver|tauto].
Qed.

(** The value is cut out of the memory. *)
Lemma extract_value_in_memory pre s post key d :
  NUL ∉ s ->
  extract_value (pre ++ s ++ NUL :: post) key (length pre) d
    (if decide (d = "("%char) then [")"%char] else item_delims) =
  let pre' := pre ++ cut s (value_length d s) in
  (Some (key, length pre), length pre',
   pre' ++ drop (value_length d s + 1) s ++ NUL :: post).
Proof.
  intros Hs. unfold extract_value. rewrite c_str_app by done.
  set (vl := parse_value s _). set (m := pre ++ s ++ NUL :: post).
  assert (E : (if decide (d = "("%char /\ char_at m (length pre + vl) = ")"%char /\
                char_at m (length pre + vl + 1) = "-"%char /\
                char_at m (length pre + vl + 2) = ">"%char)
     then let vl := vl + parse_value (c_str m (length pre + vl)) item_delims in
          (vl, char_at m (length pre + vl))
     else (vl, char_at m (length pre + vl))) =
    (value_length d s, char_at m (length pre + value_length d s))).
  { unfold value_length, vl. destruct (decide (d = "("%char)) as [->|Hd].
    - set (v := parse_value s [")"%char]).
      pose proof (arrow_test pre s post v Hs (parse_value_le _ _)) as Ha. cbv zeta in Ha.
      destruct (decide (take 3 (drop v s) = lit ")->")) as [Ht|Ht].
      + rewrite (decide_True (P := _ /\ _)) by (split; [done|by apply Ha]). unfold m.
        by rewrite c_str_mid by (done || apply parse_value_le).
      + by rewrite (decide_False (P := _ /\ _)) by (intros [_ Hn]; by apply Ht, Ha).
    - by rewrite (decide_False (P := _ /\ _)) by (by intros [? _]). }
  cbv zeta. cbv zeta in E. rewrite E. unfold m.
  rewrite cut_insert, cut_pointer by (done || apply value_length_le).
  by rewrite <- app_assoc.
Qed.

(** What follows a key [K] and its delimiter [d]. *)
Lemma value_in_memory pre K d rest post :
  NUL ∉ K -> NUL ∉ rest ->
  let m := (pre ++ K ++ [NUL]) ++ rest ++ NUL :: post in
  let p := length (pre ++ K ++ [NUL]) in
  let '(v, rest') :=
    if decide (d ∈ [":"; "="; "("]%char) then
      (take (value_length d rest) rest, drop (value_length d rest + 1) rest)
    else ([], rest) in
  exists value pre',
    let m' := pre' ++ rest' ++ NUL :: post in
    (if decide (d = ":"%char \/ d = "="%char) then
       extract_value m (length pre) p d item_delims
     else if decide (d = "("%char) then extract_value m (length pre) p d [")"%char]
     else (Some (length pre, length pre + length K), p, m)) =
    (Some (length pre, value), length pre', m') /\
    c_str m' (length pre) = K /\ c_str m' value = v /\
    length m' = length m /\ pre `prefix_of` pre'.
Proof.
  intros HK Hr m p.
  case_decide as Hd.
  - exists p, ((pre ++ K ++ [NUL]) ++ cut rest (value_length d rest)). cbv zeta.
    pose proof (extract_value_in_memory (pre ++ K ++ [NUL]) rest post (length pre) d Hr) as E.
    cbv zeta in E. fold p m in E. pose proof (length_cut rest _ (value_length_le d rest)).
    split_and!.
    + rewrite <- E. destruct (decide (d = "("%char)) as [->|Hne]; [done|].
      rewrite decide_True; [done|]. rewrite !elem_of_cons in Hd.
      destruct Hd as [?|[?|[?|Hd]]]; auto; [done|]. by apply elem_of_nil in Hd.
    + rewrite <- !app_assoc. by apply (c_str_app pre K).
    + unfold c_str. rewrite <- app_assoc. unfold p. rewrite drop_app_length.
      by apply cut_string; [|apply value_length_le|].
    + unfold m. rewrite !length_app. lia.
    + rewrite <- !app_assoc. by eexists.
  - exists (length pre + length K), (pre ++ K ++ [NUL]). cbv zeta.
    rewrite !elem_of_cons in Hd. rewrite !decide_False by tauto. split_and!; [done|..].
    + rewrite <- !app_assoc. by apply c_str_app.
    + rewrite <- !app_assoc. simpl. by rewrite c_str_mid, drop_all by done.
    + done.
    + by eexists.
Qed.

(** The delimiters before a key are left behind. *)
Lemma skip_delims pre s post :
  let n0 := strspn s item_delims in
  let pre1 := pre ++ take n0 s in
  pre ++ s ++ NUL :: post = pre1 ++ drop n0 s ++ NUL :: post /\
  length pre + n0 = length pre1 /\ pre `prefix_of` pre1 /\
  char_at (pre1 ++ drop n0 s ++ NUL :: post) (length pre1) = default NUL (head (drop n0 s)).
Proof.
  intros n0 pre1. pose proof (strspn_le s item_delims). split_and!.
  - unfold pre1. rewrite <- app_assoc. f_equal. by rewrite app_assoc, take_drop.
  - unfold pre1. rewrite length_app, length_take. lia.
  - by eexists.
  - rewrite <- (Nat.add_0_r (length pre1)). rewrite char_at_app by lia. by destruct (drop n0 s).
Qed.

(** The function on a memory that holds the string [s] at its pointer. *)
Lemma parse_in_memory pre s post :
  NUL ∉ s ->
  let m := pre ++ s ++ NUL :: post in
  match next_pair s with
  | None => exists p, client_parse_key_value m (length pre) = (None, p, m)
  | Some (k, v, rest) =>
      exists key value pre',
        let m' := pre' ++ rest ++ NUL :: post in
        client_parse_key_value m (length pre) = (Some (key, value), length pre', m') /\
        c_str m' key = k /\ c_str m' value = v /\
        length m' = length m /\ pre `prefix_of` pre'
  end.
Proof.
  intros Hs. cbv zeta. rewrite next_pair_eq. unfold client_parse_key_value. cbv zeta.
  rewrite c_str_app by done.
  destruct (skip_delims pre s post) as (Em & Hp1 & Hpre & Hhead).
  pose proof (NUL_drop (strspn s item_delims) s Hs) as Hs1.
  set (s1 := drop _ s) in *. set (pre1 := pre ++ take _ s) in *. rewrite Em, Hp1.
  clearbody pre1 s1. clear Em Hs Hp1 s.
  rewrite Hhead. destruct (decide (s1 = [])) as [->|Hne].
  { rewrite decide_True by done. by eexists. }
  rewrite decide_False. 2:{ destruct s1 as [|c s1]; [done|]. simpl. set_solver. }
  rewrite c_str_app by done. set (n := strcspn s1 key_delims).
  assert (Hn : n <= length s1) by apply strcspn_le.
  set (m1 := <[_ := NUL]> _). rewrite cut_pointer by done.
  assert (Em1 : m1 = (pre1 ++ cut s1 n) ++ drop (n + 1) s1 ++ NUL :: post)
    by (unfold m1; by rewrite cut_insert, app_assoc by done).
  clearbody m1. subst m1. rewrite char_at_app by done.
  pose proof (take_drop n s1) as Es. pose proof (length_take_le s1 n Hn) as Hk.
  assert (HK : NUL ∉ take n s1) by by apply NUL_take.
  destruct (drop n s1) as [|d rest] eqn:Ed.
  - rewrite app_nil_r in Es. rewrite Es in Hk, HK |- *.
    rewrite (proj2 (lookup_ge_None s1 n)), skipn_all2 by lia.
    rewrite !decide_False by (by (intros [[=]|[=]] || intros [=])).
    unfold cut. rewrite decide_False, Es, app_nil_r by lia.
    exists (length pre1), (length pre1 + n), (pre1 ++ s1). split; [done|].
    rewrite <- !app_assoc. simpl. split_and!; [by apply c_str_app| |done|by etrans; [|eexists]].
    by rewrite c_str_mid, skipn_all2 by (done || lia).
  - assert (Hlt : n < length s1).
    { apply (f_equal length) in Ed. rewrite length_drop in Ed. simpl in Ed. lia. }
    set (K := take n s1) in *. rewrite <- Hk in Hlt |- *. clearbody K n. subst s1.
    rewrite elem_of_app, elem_of_cons in Hs1.
    rewrite lookup_app_r, Nat.sub_diag by lia. cbn [lookup list_lookup default].
    assert (Ecut : cut (K ++ d :: rest) (length K) = K ++ [NUL]).
    { unfold cut. by rewrite take_app_length, decide_True by done. }
    assert (Edrop : drop (length K + 1) (K ++ d :: rest) = rest).
    { rewrite drop_app_ge by lia. by replace (length K + 1 - length K) with 1 by lia. }
    rewrite Ecut, Edrop. unfold id.
    pose proof (value_in_memory pre1 K d rest post HK ltac:(tauto)) as Hv. cbv zeta in Hv.
    case_decide; destruct Hv as (value & pre' & -> & Hkey & Hval & Hlen' & Hp');
      exists (length pre1), value, pre'; (split; [done|]); rewrite Hlen';
      (split; [done|]); (split; [done|]);
      (split; [rewrite !length_app; simpl; lia|by etrans]).
Qed.

Lemma next_pair_spec s k v rest :
  NUL ∉ s -> next_pair s = Some (k, v, rest) ->
  length rest < length s /\ NUL ∉ k /\ NUL ∉ v /\ NUL ∉ rest.
Proof.
  intros Hs. rewrite next_pair_eq. cbv zeta.
  assert (Hl : length (drop (strspn s item_delims) s) <= length s) by (rewrite length_drop; lia).
  assert (Hs1 : NUL ∉ drop (strspn s item_delims) s) by by apply NUL_drop.
  revert Hl Hs1. generalize (drop (strspn s item_delims) s). intros s1 Hl Hs1.
  case_decide as Hne; [done|]. set (n := strcspn s1 key_delims).
  pose proof (length_drop s1 n) as Hd. pose proof (NUL_drop n s1 Hs1) as HD.
  pose proof (NUL_take n s1 Hs1) as HK.
  destruct (drop n s1) as [|d r].
  { intros [= <- <- <-]. destruct s1; [done|]. simpl in Hl |- *. split_and!; [lia|done|set_solver..]. }
  rewrite not_elem_of_cons in HD. destruct HD as [_ HD]. simpl in Hd.
  case_decide; intros [= <- <- <-]; (split; [|split; [done|]]).
  - rewrite length_drop. lia.
  - split; [by apply NUL_take|by apply NUL_drop].
  - lia.
  - split; [set_solver|done].
Qed.

(** ** Lists of pairs *)

Definition pairs (s : text) : list (text * text) := pairs_of (length s) s.

Lemma pairs_of_fuel n1 n2 s :
  NUL ∉ s -> length s <= n1 -> length s <= n2 -> pairs_of n1 s = pairs_of n2 s.
Proof.
  revert n2 s. induction n1 as [|n1 IH]; intros n2 s Hs H1 H2.
  - destruct s; [|simpl in H1; lia]. by destruct n2.
  - destruct n2 as [|n2].
    { destruct s; [done|simpl in H2; lia]. }
    simpl. destruct (next_pair s) as [[[k v] rest]|] eqn:E; [|done].
    destruct (next_pair_spec s k v rest Hs E) as (Hl & _ & _ & Hr).
    f_equal. apply IH; [done|lia..].
Qed.

Lemma pairs_eq s :
  NUL ∉ s ->
  pairs s = match next_pair s with
            | Some (k, v, rest) => (k, v) :: pairs rest
            | None => []
            end.
Proof.
  intros Hs. unfold pairs. destruct s as [|c s]; [done|]. simpl length. cbn [pairs_of].
  destruct (next_pair (c :: s)) as [[[k v] rest]|] eqn:E; [|done].
  destruct (next_pair_spec _ k v rest Hs E) as (Hl & _ & _ & Hr). simpl in Hl.
  f_equal. apply pairs_of_fuel; [done|lia..].
Qed.

(** *** Printing *)

(** The parentheses of [s] are balanced, and only inside them are there
    spaces and commas. *)
Fixpoint closed_at (level : nat) (s : text) : bool :=
  match s with
  | [] => level =? 0
  | c :: s =>
      if (level =? 0) && bool_decide (c ∈ item_delims) then false
      else if decide (c = "("%char) then closed_at (level + 1) s
      else if (0 <? level) && bool_decide (c = ")"%char) then closed_at (level - 1) s
      else closed_at level s
  end.

Definition key_ok (k : text) : Prop := Forall (fun c => c ∉ NUL :: key_delims) k.
Definition value_ok (v : text) : Prop := closed_at 0 v = true /\ NUL ∉ v.

Definition item_ok (kv : text * text) : Prop := key_ok kv.1 /\ value_ok kv.2.

Definition print_item (kv : text * text) : text := kv.1 ++ ":"%char :: kv.2.

Fixpoint print_items (l : list (text * text)) : text :=
  match l with
  | [] => []
  | [kv] => print_item kv
  | kv :: l => print_item kv ++ ","%char :: print_items l
  end.

Lemma parse_value_closed level v rest :
  closed_at level v = true -> (rest = [] \/ head rest = Some ","%char) ->
  parse_value_at level (v ++ rest) item_delims = length v.
Proof.
  intros Hv Hr. revert level Hv. induction v as [|c v IH]; intros level Hv.
  - simpl in Hv. destruct Hr as [->|Hr]; [done|]. destruct rest as [|c rest]; [done|].
    simpl in Hr. injection Hr as ->. simpl. rewrite Hv. done.
  - simpl in Hv |- *. destruct ((level =? 0) && bool_decide (c ∈ item_delims)); [done|].
    case_decide; [by rewrite IH|]. destruct ((0 <? level) && _); by rewrite IH.
Qed.

Lemma key_ok_delims k : key_ok k -> Forall (fun c => c ∉ key_delims) k.
Proof. apply Forall_impl. intros c Hc. set_solver. Qed.

Lemma key_ok_NUL k : key_ok k -> NUL ∉ k.
Proof. intros Hk Hin. eapply list.Forall_forall in Hk; [|exact Hin]. set_solver. Qed.

Lemma next_pair_print kv rest :
  item_ok kv -> (rest = [] \/ head rest = Some ","%char) ->
  next_pair (print_item kv ++ rest) = Some (kv.1, kv.2, drop 1 rest).
Proof.
  destruct kv as [k v]. intros [Hk [Hv _]] Hr. simpl in Hk, Hv. rewrite next_pair_eq.
  unfold print_item. cbn [fst snd]. rewrite <- app_assoc. cbn [app].
  pose proof (key_ok_delims k Hk) as Hkd.
  assert (Hz : strspn (k ++ ":"%char :: v ++ rest) item_delims = 0).
  { destruct k as [|c k]; [done|]. apply list.Forall_cons in Hkd as [Hc _].
    apply strspn_zero. unfold key_delims in Hc. set_solver. }
  rewrite Hz. cbv zeta. rewrite drop_0, decide_False by by destruct k.
  rewrite strcspn_app by (done || unfold key_delims; set_solver).
  rewrite drop_app_length, take_app_length, decide_True by set_solver.
  assert (Hvl : value_length ":" (v ++ rest) = length v).
  { unfold value_length. rewrite decide_False by done. by apply parse_value_closed. }
  rewrite Hvl, take_app_length. by rewrite drop_app_add.
Qed.

Lemma print_item_NUL kv : item_ok kv -> NUL ∉ print_item kv.
Proof.
  intros [Hk [_ Hv]]. unfold print_item. rewrite elem_of_app, elem_of_cons.
  intros [Hin|[Hin|Hin]]; [by apply key_ok_NUL in Hk|done|done].
Qed.

Lemma print_items_NUL l : Forall item_ok l -> NUL ∉ print_items l.
Proof.
  intros Hl. induction Hl as [|kv l Hkv Hl IH]; simpl; [apply not_elem_of_nil|].
  pose proof (print_item_NUL kv Hkv). destruct l as [|kv' l]; [done|].
  rewrite elem_of_app, elem_of_cons. by intros [?|[?|?]].
Qed.

Lemma next_pair_items kv l :
  item_ok kv ->
  next_pair (print_items (kv :: l)) = Some (kv.1, kv.2, print_items l).
Proof.
  intros Hkv. destruct l as [|kv' l].
  - simpl. rewrite <- (app_nil_r (print_item kv)). rewrite next_pair_print by auto. done.
  - change (print_items (kv :: kv' :: l)) with
      (print_item kv ++ ","%char :: print_items (kv' :: l)).
    rewrite next_pair_print by auto. done.
Qed.

Lemma pairs_print_items l : Forall item_ok l -> pairs (print_items l) = l.
Proof.
  intros Hl. induction Hl as [|kv l Hkv Hl IH]; [done|].
  rewrite pairs_eq by (apply print_items_NUL; by constructor).
  rewrite next_pair_items, IH by done. by destruct kv.
Qed.

(** ** Properties *)

(** client_parse_key_value_refines: on a memory that holds a string at the
    pointer, the function finds the pair the string begins with, as two strings
    in the same memory, and leaves the pointer, further on, at what follows the
    pair; memory outside the string is not written to. When there is no pair it
    writes nothing. *)
Theorem client_parse_key_value_refines pre s post :
  NUL ∉ s ->
  let m := pre ++ s ++ NUL :: post in
  match next_pair s with
  | None => exists p, client_parse_key_value m (length pre) = (None, p, m)
  | Some (k, v, rest) =>
      exists key value cut_off,
        let m' := pre ++ cut_off ++ rest ++ NUL :: post in
        client_parse_key_value m (length pre) =
          (Some (key, value), length (pre ++ cut_off), m') /\
        c_str m' key = k /\ c_str m' value = v /\ c_str m' (length (pre ++ cut_off)) = rest /\
        length m' = length m /\ length rest < length s
  end.
Proof.
  intros Hs. cbv zeta. pose proof (parse_in_memory pre s post Hs) as Hp. cbv zeta in Hp.
  destruct (next_pair s) as [[[k v] rest]|] eqn:E; [|done].
  destruct Hp as (key & value & pre' & Hp & Hk & Hv & Hl & [cut_off ->]).
  destruct (next_pair_spec s k v rest Hs E) as (Hr & _ & _ & Hrest).
  exists key, value, cut_off. rewrite <- app_assoc in Hp, Hk, Hv, Hl.
  split_and!; try done. rewrite app_assoc. by apply c_str_app.
Qed.

(** items_roundtrip: a list of pairs written ["key:value,key:value,..."] is
    taken apart into the same pairs, when no key has a delimiter in it and the
    values have spaces and commas in balanced parentheses only. *)
Theorem items_roundtrip l : Forall item_ok l -> pairs (print_items l) = l.
Proof. apply pairs_print_items. Qed.

(** ** Witnesses *)

Lemma client_parse_key_value_refines_witness :
  exists key value cut_off,
    client_parse_key_value (lit "get " ++ lit ", port:(a,b)c,x" ++ [NUL]) 4 =
      (Some (key, value), length (lit "get " ++ cut_off),
       lit "get " ++ cut_off ++ lit "x" ++ [NUL]) /\
    c_str (lit "get " ++ cut_off ++ lit "x" ++ [NUL]) value = lit "(a,b)c".
Proof.
  destruct (client_parse_key_value_refines (lit "get ") (lit ", port:(a,b)c,x") []
    ltac:(by_decision)) as (key & value & cut_off & E & _ & V & _).
  exists key, value, cut_off. split; [exact E|exact V].
Defined.

Lemma items_roundtrip_witness :
  pairs (lit "device-type:LINK,queues:1,port:(a,b)") =
  [(lit "device-type", lit "LINK"); (lit "queues", lit "1"); (lit "port", lit "(a,b)")].
Proof.
  apply (items_roundtrip [(lit "device-type", lit "LINK"); (lit "queues", lit "1");
    (lit "port", lit "(a,b)")]).
  repeat constructor; by_decision.
Defined.
