(* ===== verification/GnmiPath.v ===== *)
(** * Paths of gnmi-ctl

    [build_gnmi_path] takes a path apart with regular expressions; it is shown
    to invert the printing of a list of elements. *)

From stdpp Require Import gmap.
From Stdlib Require Import Ascii.
From S2P Require Import Prelude CText GnmiCtl.

(** ** Printing *)

(** The name of an element and its key and value, if it has them. *)
Abbreviation element := (text * option (text * text))%type.

Definition print_kv (kv : text * text) : text :=
  lit "[" ++ kv.1 ++ lit "=" ++ kv.2 ++ lit "]".

Definition print_element (e : element) : text :=
  lit "/" ++ e.1 ++ (match e.2 with Some kv => print_kv kv | None => [] end).

Definition print_path (es : list element) : text := es ≫= print_element.

(** One or more characters other than those of [c]. *)
Definition run_of (c : string) (s : text) : Prop :=
  s <> [] /\ Forall (fun x => x ∉ lit c) s.

Definition element_ok (e : element) : Prop :=
  run_of "/[" e.1 /\
  match e.2 with Some (k, v) => run_of "=" k /\ run_of "]" v | None => True end.

Definition PathElem_of (e : element) : PathElem :=
  MkPathElem e.1 (match e.2 with Some (k, v) => {[ k := v ]} | None => ∅ end).

(** ** Matching *)

Lemma not_char_true c x : x ∉ lit c -> not_char c x = true.
Proof. intros Hx. unfold not_char, is_char. by rewrite bool_decide_eq_false_2. Qed.

(** The longest run is tried first. *)
Lemma match_plus_longest {A} p x rest (k : text -> option A) a :
  x <> [] -> Forall (fun c => p c = true) x -> k rest = Some a ->
  (rest = [] \/ exists c r, rest = c :: r /\ p c = false) ->
  match_plus p (x ++ rest) k = Some a.
Proof.
  intros Hne Hx Hk Hrest. induction x as [|c x IH]; [done|].
  apply list.Forall_cons in Hx as [Hc Hx]. simpl. rewrite Hc.
  destruct x as [|c' x].
  - simpl. destruct Hrest as [->|(d & r & -> & Hd)]; [done|]. simpl. by rewrite Hd.
  - by rewrite IH.
Qed.

Lemma match_run {A} c x rest (k : text -> option A) a :
  run_of c x -> k rest = Some a ->
  (rest = [] \/ exists d r, rest = d :: r /\ d ∈ lit c) ->
  match_plus (not_char c) (x ++ rest) k = Some a.
Proof.
  intros [Hne Hx] Hk Hrest. apply match_plus_longest; [done| |done|].
  - eapply Forall_impl; [|exact Hx]. intros d. apply not_char_true.
  - destruct Hrest as [?|(d & r & -> & Hd)]; [by left|right]. exists d, r. split; [done|].
    unfold not_char, is_char. by rewrite bool_decide_eq_true_2.
Qed.

Lemma take_prefix (x rest : text) : take (length (x ++ rest) - length rest) (x ++ rest) = x.
Proof.
  rewrite length_app. replace (length x + length rest - length rest)%nat with (length x) by lia.
  apply take_app_length.
Qed.

Lemma take_to l (x rest : text) : l = x ++ rest -> take (length l - length rest) l = x.
Proof. intros ->. apply take_prefix. Qed.

Lemma match_opt {A} (x y : option A) a :
  x = Some a -> match x with Some a => Some a | None => y end = Some a.
Proof. by intros ->. Qed.

(** Computes the test of a literal character. *)
Ltac char_step :=
  match goal with
  | |- context [is_char ?c ?x] =>
      let b := eval vm_compute in (is_char c x) in change (is_char c x) with b; cbv iota
  end.

(** Takes the run of characters the rest of the text begins with. *)
Ltac run_step :=
  eapply match_run; [eassumption| |
    first [by left|right; eexists _, _; split; [reflexivity|by repeat constructor]]];
  cbv beta; try rewrite take_prefix.

Lemma print_kv_eq kv : print_kv kv = "["%char :: kv.1 ++ "="%char :: kv.2 ++ ["]"%char].
Proof. done. Qed.

(** What [regex_match] finds in a key with its value. *)
Lemma match_elem_kv kv :
  run_of "=" kv.1 -> run_of "]" kv.2 ->
  regex_match elem_kv_regex (print_kv kv) = Some (<[2%nat := kv.2]> (<[1%nat := kv.1]> ∅)).
Proof.
  intros Hk Hv. rewrite print_kv_eq. unfold regex_match, elem_kv_regex. cbn [match_at].
  char_step. run_step. char_step. run_step. by char_step.
Qed.

(** The groups of an element at the start of a text. *)
Definition element_captures (e : element) : captures :=
  match e.2 with
  | Some kv => <[2%nat := print_kv kv]> (<[3%nat := kv.1 ++ lit "=" ++ kv.2]>
                 (<[1%nat := e.1]> ∅))
  | None => <[1%nat := e.1]> ∅
  end.

Lemma match_element e rest :
  element_ok e -> (rest = [] \/ exists r, rest = "/"%char :: r) ->
  match_prefix path_elem_regex (print_element e ++ rest) = Some (rest, element_captures e).
Proof.
  intros [Hn Hkv] Hrest. unfold match_prefix, path_elem_regex, print_element, element_captures.
  change (lit "/" ++ ?x) with ("/"%char :: x).
  destruct e as [name [[k v]|]]; simpl in Hn, Hkv; cbn [fst snd].
  - destruct Hkv as [Hk Hv]. rewrite print_kv_eq. cbn [fst snd match_at app].
    repeat (rewrite <- app_assoc; cbn [app]). char_step. run_step. char_step.
    apply match_opt. run_step. char_step. run_step. char_step.
    rewrite !(take_to ("["%char :: _) ("["%char :: k ++ "="%char :: v ++ ["]"%char]))
      by (cbn [app]; by repeat (rewrite <- app_assoc; cbn [app])).
    by rewrite (take_to _ (k ++ "="%char :: v)) by (by rewrite <- app_assoc).
  - rewrite app_nil_r. cbn [match_at app]. char_step.
    eapply match_run; [done| |].
    2:{ destruct Hrest as [->|[r ->]]; [by left|]. right. eexists _, _.
        split; [reflexivity|by repeat constructor]. }
    cbv beta. rewrite take_prefix. by destruct Hrest as [->|[r ->]].
Qed.

(** ** Whole paths *)

Lemma print_path_head es : print_path es = [] \/ exists r, print_path es = "/"%char :: r.
Proof. destruct es as [|e es]; [by left|right]. by eexists. Qed.

Lemma matches_path es fuel :
  Forall element_ok es -> (length es <= fuel)%nat ->
  regex_matches fuel path_elem_regex (print_path es) = element_captures <$> es.
Proof.
  intros Hes. revert fuel. induction Hes as [|e es He Hes IH]; intros fuel Hf.
  - by destruct fuel.
  - destruct fuel as [|fuel]; [simpl in Hf; lia|]. cbn [regex_matches].
    change (print_path (e :: es)) with (print_element e ++ print_path es).
    assert (Hm : regex_search path_elem_regex (print_element e ++ print_path es) =
      Some (print_path es, element_captures e)).
    { pose proof (match_element e (print_path es) He (print_path_head es)) as Hm.
      unfold print_element in *. simpl in Hm |- *. by rewrite Hm. }
    rewrite Hm. cbn [fmap list_fmap]. f_equal. apply IH. simpl in Hf. lia.
Qed.

Lemma length_print_path es : (length es <= length (print_path es))%nat.
Proof.
  induction es as [|e es IH]; [done|]. cbn [print_path mbind list_bind length].
  rewrite length_app. unfold print_element at 1. simpl. unfold print_path in IH. lia.
Qed.

(** An element is rebuilt from its groups. *)
Lemma add_path_elem_captures e :
  element_ok e ->
  add_path_elem (group 1 (element_captures e)) (group 2 (element_captures e))
    (MkPathElem [] ∅) = PathElem_of e.
Proof.
  destruct e as [name [[k v]|]]; intros [Hn Hkv]; cbn [fst snd] in Hn, Hkv; [|done].
  destruct Hkv as [Hk Hv].
  assert (E : group 2 (element_captures (name, Some (k, v))) = print_kv (k, v)) by done.
  rewrite E. unfold add_path_elem.
  rewrite match_elem_kv by done. cbn [fst snd default]. done.
Qed.

Lemma fold_elements l (p : Path) :
  fold_left (fun path sm =>
      path ++ [add_path_elem (group 1 sm) (group 2 sm) (MkPathElem [] ∅)]) l p =
  p ++ ((fun sm => add_path_elem (group 1 sm) (group 2 sm) (MkPathElem [] ∅)) <$> l).
Proof.
  revert p. induction l as [|sm l IH]; intros p; simpl; [by rewrite app_nil_r|].
  by rewrite IH, <- app_assoc.
Qed.

Lemma build_print_path es path :
  Forall element_ok es ->
  build_gnmi_path (print_path es) path = path ++ (PathElem_of <$> es).
Proof.
  intros Hes. unfold build_gnmi_path.
  rewrite matches_path, fold_elements by (done || apply length_print_path). f_equal.
  rewrite <- list_fmap_compose. apply Forall_fmap_ext_1.
  eapply Forall_impl; [|exact Hes]. apply add_path_elem_captures.
Qed.

(** ** Properties *)

(** C36 gnmi_path_roundtrip: a path written ["/name[key=value]/..."] is taken
    apart into its elements, each with its key, and they are added to those the
    message has, provided the characters that end a name, a key or a value are
    not in them, and none of them is empty. *)
Theorem gnmi_path_roundtrip es path :
  Forall element_ok es ->
  build_gnmi_path (print_path es) path = path ++ (PathElem_of <$> es).
Proof. apply build_print_path. Qed.

(** Text before the first slash is skipped. *)
Lemma match_prefix_not_slash c s :
  c <> "/"%char -> match_prefix path_elem_regex (c :: s) = None.
Proof.
  intros Hc. unfold match_prefix, path_elem_regex. cbn [match_at].
  unfold is_char. rewrite bool_decide_eq_false_2; [done|].
  intros Hin. apply elem_of_cons in Hin as [Hin|Hin%elem_of_nil]; done.
Qed.

Lemma regex_search_skip junk s :
  Forall (fun c => c <> "/"%char) junk ->
  regex_search path_elem_regex (junk ++ s) = regex_search path_elem_regex s.
Proof.
  intros Hj. induction Hj as [|c junk Hc Hj IH]; [done|].
  cbn [app regex_search]. by rewrite match_prefix_not_slash.
Qed.

Lemma build_junk_path junk es path :
  Forall (fun c => c <> "/"%char) junk -> Forall element_ok es ->
  build_gnmi_path (junk ++ print_path es) path = path ++ (PathElem_of <$> es).
Proof.
  intros Hj Hes. rewrite <- build_print_path by done. unfold build_gnmi_path. f_equal.
  rewrite matches_path by (done || apply length_print_path).
  pose proof (length_print_path es) as Hl. rewrite length_app. destruct es as [|e es].
  - assert (Hs : regex_search path_elem_regex (junk ++ []) = None)
      by (by rewrite regex_search_skip).
    change (print_path []) with (@nil ascii). destruct (length junk + _)%nat; [done|].
    cbn [regex_matches]. by rewrite Hs.
  - destruct (length junk + _)%nat as [|n] eqn:En; [cbn [length] in Hl; lia|].
    apply list.Forall_cons in Hes as [He Hes].
    change (print_path (e :: es)) with (print_element e ++ print_path es) in *.
    cbn [regex_matches]. rewrite regex_search_skip by done.
    assert (Hm : regex_search path_elem_regex (print_element e ++ print_path es) =
      Some (print_path es, element_captures e)).
    { pose proof (match_element e (print_path es) He (print_path_head es)) as Hm.
      unfold print_element in *. simpl in Hm |- *. by rewrite Hm. }
    rewrite Hm. cbn [fmap list_fmap]. f_equal. apply matches_path; [done|].
    rewrite length_app in Hl, En. pose proof (length_print_path es).
    assert (0 < length (print_element e))%nat by apply Nat.lt_0_succ. lia.
Qed.

Lemma gnmi_path_roundtrip_witness :
  build_gnmi_path (lit "/interfaces/interface[name=x/y]") [] =
  [MkPathElem (lit "interfaces") ∅; MkPathElem (lit "interface") {[ lit "name" := lit "x/y" ]}].
Proof.
  apply (gnmi_path_roundtrip [(lit "interfaces", None);
    (lit "interface", Some (lit "name", lit "x/y"))] []).
  repeat constructor; try discriminate; by_decision.
Defined.
