(* ===== verification/GnmiCommands.v ===== *)
(** * The commands of gnmi-ctl

    The code works on the argument, which it cuts up in place, and on arrays of
    128 characters. [Main_text] is what it computes in terms of texts and lists
    of pairs; [Main] is shown to refine it, and its properties are proved of
    [Main_text]. *)

From stdpp Require Import gmap.
From Stdlib Require Import Ascii.
From S2P Require Import Prelude Session CText GnmiCtl GnmiParse GnmiPath.

(** ** The specification *)

(** The texts of the command-line flags have no terminators in them. *)
Definition flags_ok (flags : CtlFlags) : Prop :=
  NUL ∉ FLAGS_root_node flags /\ NUL ∉ FLAGS_device_type_virtual_interface flags /\
  NUL ∉ FLAGS_subtree_config flags.

Section Spec.
Context {float W : Type} `{GnmiStub float W}.
Variable flags : CtlFlags.

(** Appending to a text that is kept in an array. *)
Definition append (s x : text) : G W text :=
  if decide (length s + length x < MAX_STR_LENGTH)%nat then mret (s ++ x)
  else stop buffer_overflow.

(** The result, the text after the two pairs, the path of the node and whether
    the device is a virtual one. *)
Fixpoint extract_text (fuel : nat) (s node : text) (vhost_dev : bool) (found_node : Z)
  : G W (bool * text * text * bool) :=
  match fuel with
  | O => stop out_of_fuel
  | S fuel =>
      match next_pair s with
      | None => mret (true, [], node, vhost_dev)
      | Some (key, value, rest) =>
          let with_name node vhost_dev found_node :=
            '(node, found_node) ←
              (if decide (key = FLAGS_name_key flags) then
                 node ← append node (lit "[name=" ++ value ++ lit "]/");
                 mret (node, found_node + 1)
               else mret (node, found_node));
            if found_node =? 2 then mret (false, rest, node, vhost_dev)
            else extract_text fuel rest node vhost_dev found_node in
          if decide (key = FLAGS_device_key flags) then
            node ← append node (FLAGS_device_type_virtual_interface flags);
            if decide (value <> lit "virtual-device" /\ value <> lit "physical-device") then
              mret (true, rest, node, vhost_dev)
            else
              vhost_dev ←
                (if decide (value = lit "virtual-device") then
                   print [lit "setting vhost_dev = true."];; mret true
                 else mret vhost_dev);
              with_name node vhost_dev (found_node + 1)
          else with_name node vhost_dev found_node
      end
  end.

Definition config_path (node key : text) : G W text :=
  append node (FLAGS_subtree_config flags ++ lit "/" ++ key).

(** The path of the first pair and its value; none when there is no pair or an
    empty one. *)
Definition first_config (node : text) (l : list (text * text))
  : G W (option (text * text)) :=
  match l with
  | (key, value) :: _ =>
      if decide (value <> []) then
        path ← config_path node key; value ← append [] value; mret (Some (path, value))
      else if decide (key <> []) then
        path ← config_path node key; mret (Some (path, []))
      else mret None
  | [] => mret None
  end.

Definition vhost_value (vhost_device : bool) (value : text) : text :=
  if decide ((value = lit "link" \/ value = lit "LINK") /\ vhost_device = true)
  then lit "vhost" else value.

Definition send_set (req : option (SetRequest float)) (k : G W (option Z)) : G W (option Z) :=
  match req with
  | None => stop uncaught_exception
  | Some req =>
      '(status, _) ← on_stub (stub_Set req);
      match grpc_error status with
      | Some code => mret (Some code)
      | None => k
      end
  end.

Fixpoint set_pairs (node : text) (vhost_device : bool) (l : list (text * text))
  : G W (option Z) :=
  c ← first_config node l;
  match c, l with
  | Some (path, value), _ :: l =>
      send_set (build_gnmi_set_req flags path (vhost_value vhost_device value))
        (set_pairs node vhost_device l)
  | _, _ => mret None
  end.

Definition set_text (node : text) (vhost_device : bool) (l : list (text * text)) : G W Z :=
  r ← set_pairs node vhost_device l;
  match r with
  | Some code => mret code
  | None => print [lit "Set request, successful...!!!"; ENDL];; mret 0
  end.

Definition get_text (node : text) (l : list (text * text)) : G W Z :=
  c ← first_config node l;
  let path := match c with Some (path, _) => path | None => node end in
  let '(req, out) := build_gnmi_get_req flags path in
  print out;;
  '(status, resp) ← on_stub (stub_Get req);
  match grpc_error status with
  | Some code => mret code
  | None => PRINT_MSG (DebugString resp) (lit "Get Response from Server");; mret 0
  end.

Definition Main_text (ERR_INVALID_PARAM : Z) (cmd : text) (args : list text) : G W Z :=
  if decide (cmd = lit "cap") then Main flags ERR_INVALID_PARAM cmd [] else
  match args with
  | [] => Main flags ERR_INVALID_PARAM cmd []
  | arg :: _ =>
      '(invalid, rest, node, vhost_device) ←
        extract_text (length arg + 1) arg (take (MAX_STR_LENGTH - 1) (FLAGS_root_node flags))
          false 0;
      if (invalid : bool) then
        print [lit "Invalid device and name information" ++ ENDL];; mret 0
      else if decide (cmd = lit "get") then get_text node (pairs rest)
      else if decide (cmd = lit "set") then set_text node vhost_device (pairs rest)
      else if decide (cmd = lit "del") then del_command rest
      else if decide (cmd = lit "sub-onchange") then
        subscribe_command (build_gnmi_sub_onchange_req rest)
      else if decide (cmd = lit "sub-sample") then
        subscribe_command (build_gnmi_sub_sample_req rest (FLAGS_interval flags))
      else mret ERR_INVALID_PARAM
  end.
End Spec.

(** ** Refinement *)

(** Two computations that end in the same way, in the same state, with related
    results. *)
Definition G_rel {W A B} (R : A -> B -> Prop) (m1 : G W A) (m2 : G W B) : Prop :=
  forall w,
    match m1 w, m2 w with
    | (inr a, w1), (inr b, w2) => R a b /\ w1 = w2
    | (inl e1, w1), (inl e2, w2) => e1 = e2 /\ w1 = w2
    | _, _ => False
    end.

Section Rel.
Context {W : Type}.

Lemma rel_ret {A B} (R : A -> B -> Prop) (a : A) (b : B) :
  R a b -> G_rel (W := W) R (mret a) (mret b).
Proof. by intros HR w. Qed.

Lemma rel_stop {A B} (R : A -> B -> Prop) e : G_rel (W := W) R (stop e) (stop e).
Proof. by intros w. Qed.

Lemma rel_bind {A B C D} (R : A -> B -> Prop) (Q : C -> D -> Prop)
  (m1 : G W A) (m2 : G W B) f1 f2 :
  G_rel R m1 m2 -> (forall a b, R a b -> G_rel Q (f1 a) (f2 b)) ->
  G_rel Q (m1 ≫= f1) (m2 ≫= f2).
Proof.
  intros Hm Hf w. unfold mbind, G_bind. specialize (Hm w).
  destruct (m1 w) as [[e1|a] w1], (m2 w) as [[e2|b] w2]; try done.
  destruct Hm as [HR <-]. by apply Hf.
Qed.

Lemma rel_refl {A} (m : G W A) : G_rel (=) m m.
Proof. intros w. by destruct (m w) as [[e|a] w']. Qed.

Lemma rel_eq {A} (m1 m2 : G W A) : G_rel (=) m1 m2 -> forall w, m1 w = m2 w.
Proof.
  intros Hm w. specialize (Hm w).
  destruct (m1 w) as [[e1|a] w1], (m2 w) as [[e2|b] w2]; try done; by destruct Hm as [-> ->].
Qed.

(** The same computation before both. *)
Lemma rel_same {A C D} (Q : C -> D -> Prop) (m : G W A) f1 f2 :
  (forall a, G_rel Q (f1 a) (f2 a)) -> G_rel Q (m ≫= f1) (m ≫= f2).
Proof. intros Hf. apply (rel_bind (=)); [apply rel_refl|]. by intros a ? <-. Qed.
End Rel.

(** ** Texts in arrays *)

Definition array_holds (a : mem) (s : text) : Prop :=
  length a = MAX_STR_LENGTH /\ c_str a 0 = s /\ (length s < MAX_STR_LENGTH)%nat.

Lemma c_string_inv m : NUL ∉ c_string m /\ (m = c_string m \/ exists t, m = c_string m ++ NUL :: t).
Proof.
  induction m as [|c m [IH1 IH2]]; simpl; [split; [apply not_elem_of_nil|by left]|].
  case_decide as Hc.
  - subst c. split; [apply not_elem_of_nil|]. right. by eexists.
  - split; [by rewrite not_elem_of_cons|].
    destruct IH2 as [E|[t E]]; [left|right; exists t]; simpl; by rewrite <- E.
Qed.

Lemma array_inv a s :
  array_holds a s -> NUL ∉ s /\ exists t, a = s ++ NUL :: t.
Proof.
  intros (Hl & Hs & Hlt). unfold c_str in Hs. rewrite drop_0 in Hs.
  destruct (c_string_inv a) as [HN [E|[t E]]]; rewrite Hs in HN, E.
  - subst a. lia.
  - split; [done|]. by exists t.
Qed.

Lemma strlen_array a s : array_holds a s -> strlen a = length s.
Proof. intros (_ & Hs & _). unfold strlen. by rewrite Hs. Qed.

Lemma char_at_nil m p : char_at m p = NUL <-> c_str m p = [].
Proof.
  unfold char_at, c_str. rewrite <- (Nat.add_0_r p) at 1. rewrite <- lookup_drop.
  destruct (drop p m) as [|c l]; simpl; [done|]. by case_decide.
Qed.

(** [strcpy] to the end of what an array holds. *)
Lemma strcpy_array a s x p :
  array_holds a s -> NUL ∉ x -> (p <= length s)%nat ->
  match strcpy_at a p x with
  | Some a' => (p + length x < MAX_STR_LENGTH)%nat /\ array_holds a' (take p s ++ x)
  | None => (MAX_STR_LENGTH <= p + length x)%nat
  end.
Proof.
  intros Ha Hx Hp. destruct (array_inv a s Ha) as [Hs [t ->]]. destruct Ha as (Hl & _ & Hlt).
  unfold strcpy_at. rewrite Hl. case_decide as Hd; [|lia]. split; [done|].
  rewrite take_app_le by done.
  assert (Htp : length (take p s) = p) by (apply length_take_le; lia).
  split; [|split].
  - rewrite !length_app. simpl. rewrite length_drop, Hl, Htp. lia.
  - rewrite app_assoc. apply c_str_first. rewrite elem_of_app. intros [Hin|Hin]; [|done].
    by apply NUL_take in Hin.
  - rewrite length_app, Htp. lia.
Qed.

Lemma snprintf_array a s x size :
  array_holds a s -> NUL ∉ x -> size = (length x + 1)%nat ->
  match snprintf_at a (strlen a) size x with
  | Some a' => (length s + length x < MAX_STR_LENGTH)%nat /\ array_holds a' (s ++ x)
  | None => (MAX_STR_LENGTH <= length s + length x)%nat
  end.
Proof.
  intros Ha Hx ->. unfold snprintf_at. rewrite take_ge by lia. rewrite (strlen_array a s Ha).
  pose proof (strcpy_array a s x (length s) Ha Hx ltac:(lia)) as Hc.
  by rewrite firstn_all in Hc.
Qed.

Lemma zero_array_holds : array_holds zero_array [].
Proof. by repeat split; vm_compute; lia. Qed.

Lemma strzcpy_array src :
  NUL ∉ src -> array_holds (client_strzcpy src MAX_STR_LENGTH) (take (MAX_STR_LENGTH - 1) src).
Proof.
  intros Hs. unfold client_strzcpy.
  assert (E : take (Nat.min (length src) (MAX_STR_LENGTH - 1)) src = take (MAX_STR_LENGTH - 1) src).
  { destruct (decide (length src <= MAX_STR_LENGTH - 1)%nat).
    - rewrite Nat.min_l by done. by rewrite firstn_all, take_ge by done.
    - by rewrite Nat.min_r by lia. }
  rewrite E. set (n := Nat.min _ _). set (t := take _ src).
  assert (Ht : length t = n) by (unfold t, n; rewrite length_take; lia).
  assert (Hn : (n < MAX_STR_LENGTH)%nat) by (unfold n, MAX_STR_LENGTH; lia).
  split; [rewrite length_app, length_replicate, Ht; lia|]. split; [|lia].
  destruct (MAX_STR_LENGTH - n)%nat as [|k] eqn:Ek; [lia|]. simpl.
  apply c_str_first. by apply NUL_take.
Qed.

(** A literal text has no terminator. *)
Ltac by_notin :=
  let Hin := fresh in
  intros Hin; vm_compute in Hin;
  repeat (apply elem_of_cons in Hin as [Hin|Hin]; [discriminate|]);
  by apply elem_of_nil in Hin.

Section RelArrays.
Context {W : Type}.

(** The array operations of the code are those on texts. *)
Lemma rel_snprintf a s x size :
  array_holds a s -> NUL ∉ x -> size = (length x + 1)%nat ->
  G_rel (W := W) array_holds (in_array (snprintf_at a (strlen a) size x)) (append s x).
Proof.
  intros Ha Hx Hsize. pose proof (snprintf_array a s x size Ha Hx Hsize) as Hs. unfold append.
  destruct (snprintf_at _ _ _ _) as [a'|].
  - destruct Hs as [Hlt Ha']. rewrite decide_True by done. by apply rel_ret.
  - rewrite decide_False by lia. apply rel_stop.
Qed.

Lemma rel_strcpy a s x :
  array_holds a s -> NUL ∉ x ->
  G_rel (W := W) array_holds (in_array (strcpy_at a 0 x)) (append [] x).
Proof.
  intros Ha Hx. pose proof (strcpy_array a s x 0 Ha Hx ltac:(lia)) as Hs. unfold append.
  destruct (strcpy_at _ _ _) as [a'|].
  - destruct Hs as [Hlt Ha']. rewrite decide_True by done. by apply rel_ret.
  - rewrite decide_False by (simpl; lia). apply rel_stop.
Qed.
End RelArrays.

(** ** The argument in memory *)

(** The string [s] is what is left of the argument. *)
Definition rest_of (m : mem) (p : nat) (s : text) : Prop :=
  exists pre, m = pre ++ s ++ [NUL] /\ p = length pre /\ NUL ∉ s.

Lemma rest_of_c_str m p s : rest_of m p s -> c_str m p = s.
Proof. intros (pre & -> & -> & Hs). by apply (c_str_app pre s []). Qed.

(** The parser, case by case. *)
Lemma parse_rest m p s :
  rest_of m p s ->
  match next_pair s with
  | None => exists p', client_parse_key_value m p = (None, p', m)
  | Some (k, v, rest) =>
      exists key value p' m',
        client_parse_key_value m p = (Some (key, value), p', m') /\
        c_str m' key = k /\ c_str m' value = v /\ rest_of m' p' rest /\
        length m' = length m /\ (length rest < length s)%nat /\ NUL ∉ k /\ NUL ∉ v
  end.
Proof.
  intros (pre & -> & -> & Hs). pose proof (parse_in_memory pre s [] Hs) as Hp. cbv zeta in Hp.
  destruct (next_pair s) as [[[k v] rest]|] eqn:E; [|done].
  destruct (next_pair_spec s k v rest Hs E) as (Hl & Hk & Hv & Hr).
  destruct Hp as (key & value & pre' & Hp & Ek & Ev & El & _).
  exists key, value, (length pre'), (pre' ++ rest ++ [NUL]). split_and!; try done.
  by exists pre'.
Qed.

Section Refinement.
Context {float W : Type} `{GnmiStub float W}.
Variable flags : CtlFlags.
Hypothesis Hflags : flags_ok flags.

(** The two loops to extract the node end in the same state. *)
Definition extract_rel (a : bool * nat * mem * bool * mem) (b : bool * text * text * bool)
  : Prop :=
  let '(invalid, path, node_path, vhost, m) := a in
  let '(invalid', rest, node, vhost') := b in
  invalid = invalid' /\ vhost = vhost' /\
  (invalid = false -> rest_of m path rest /\ array_holds node_path node).

Lemma extract_loop_rel n1 n2 m p s node_path node vhost found :
  rest_of m p s -> array_holds node_path node ->
  (length s < n1)%nat -> (length s < n2)%nat ->
  G_rel (W := W) extract_rel (extract_loop flags n1 m p node_path vhost found)
    (extract_text flags n2 s node vhost found).
Proof.
  destruct Hflags as (_ & Hdev & _).
  revert n2 m p s node_path node vhost found.
  induction n1 as [|n1 IH]; intros [|n2] m p s np node vhost found Hr Ha H1 H2; try lia.
  cbn [extract_loop extract_text]. pose proof (parse_rest m p s Hr) as Hp.
  destruct (next_pair s) as [[[k v] rest]|].
  2:{ destruct Hp as [p' ->]. by apply rel_ret. }
  destruct Hp as (key & value & p' & m' & -> & -> & -> & Hr' & _ & Hl & Hk & Hv).
  assert (Hname : forall np node vhost found, array_holds np node -> G_rel (W := W) extract_rel
    ('(node_path, found_node) ←
       (if decide (k = FLAGS_name_key flags) then
          node_path ← in_array (snprintf_at np (strlen np) (length v + 9)
            (lit "[name=" ++ v ++ lit "]/"));
          mret (node_path, found + 1)
        else mret (np, found));
     if found_node =? 2 then mret (false, p', node_path, vhost, m')
     else extract_loop flags n1 m' p' node_path vhost found_node)
    ('(node, found_node) ←
       (if decide (k = FLAGS_name_key flags) then
          node ← append node (lit "[name=" ++ v ++ lit "]/"); mret (node, found + 1)
        else mret (node, found));
     if found_node =? 2 then mret (false, rest, node, vhost)
     else extract_text flags n2 rest node vhost found_node)).
  { clear np node vhost found Ha. intros np node vhost found Ha.
    apply (rel_bind (fun a b => array_holds a.1 b.1 /\ a.2 = b.2)).
    - case_decide; [|by apply rel_ret].
      apply (rel_bind array_holds); [|intros; by apply rel_ret].
      apply rel_snprintf; [done| |rewrite !length_app; simpl; lia].
      rewrite !elem_of_app. intros [Hin|[Hin|Hin]]; [|done|]; revert Hin; vm_compute; clear;
        intros Hin; repeat (apply elem_of_cons in Hin as [Hin|Hin]; [discriminate|]);
        by apply elem_of_nil in Hin.
    - intros [np' f1] [node' f2] [Ha' Hf]. simpl in Ha', Hf. subst f2.
      destruct (f1 =? 2); [by apply rel_ret|]. apply IH; [done..|lia|lia]. }
  destruct (decide (k = FLAGS_device_key flags)); [|by apply Hname].
  apply (rel_bind array_holds); [by apply rel_snprintf|].
  intros np' node' Ha'. destruct (decide (v <> _ /\ _)); [by apply rel_ret|].
  apply rel_same. intros vhost'. by apply Hname.
Qed.

(** What [traverse_params] leaves. *)
Definition config_rel (s node : text) (a : nat * mem * mem * bool * mem)
  (b : option (text * text)) : Prop :=
  let '(path, node_path, config_value, flag, m) := a in
  match b with
  | Some (p, v) =>
      flag = true /\ array_holds node_path p /\ array_holds config_value v /\
      exists rest kv, rest_of m path rest /\ (length rest < length s)%nat /\
        pairs s = kv :: pairs rest
  | None => flag = false /\ array_holds node_path node /\ config_value = zero_array
  end.

Lemma traverse_params_rel m p s node_path node :
  rest_of m p s -> array_holds node_path node ->
  G_rel (W := W) (config_rel s node) (traverse_params flags m p node_path zero_array true)
    (first_config flags node (pairs s)).
Proof.
  destruct Hflags as (_ & _ & Hcfg). intros Hr Ha. unfold traverse_params, first_config.
  pose proof (parse_rest m p s Hr) as Hp. assert (Hs : NUL ∉ s) by (by destruct Hr as (? & ? & ? & ?)).
  pose proof (pairs_eq s Hs) as Es. destruct (next_pair s) as [[[k v] rest]|].
  2:{ destruct Hp as [p' ->]. rewrite Es. by apply rel_ret. }
  destruct Hp as (key & value & p' & m' & -> & Ek & Ev & Hr' & _ & Hl & Hk & Hv).
  rewrite Ek, Ev. rewrite Es at 1.
  assert (Hkey : G_rel (W := W) array_holds
    (in_array (snprintf_at node_path (strlen node_path)
       (length (FLAGS_subtree_config flags) + length k + 2)
       (FLAGS_subtree_config flags ++ lit "/" ++ k))) (config_path flags node k)).
  { apply rel_snprintf; [done| |rewrite !length_app; simpl; lia].
    rewrite !elem_of_app. intros [Hin|[Hin|Hin]]; [done| |done].
    by apply elem_of_cons in Hin as [Hin|Hin%elem_of_nil]. }
  assert (Hc : forall np cv q w, array_holds np q -> array_holds cv w ->
    config_rel s node (p', np, cv, true, m') (Some (q, w))).
  { intros np cv q w Hnp Hcv. split_and!; [done..|]. by exists rest, (k, v). }
  assert (Dv : char_at m' value <> NUL <-> v <> []) by (by rewrite char_at_nil, Ev).
  assert (Dk : char_at m' key <> NUL <-> k <> []) by (by rewrite char_at_nil, Ek).
  destruct (decide (v <> [])) as [Hnv|Hnv].
  - rewrite decide_True by (by apply Dv). apply (rel_bind array_holds); [exact Hkey|].
    intros np q Hnp. apply (rel_bind array_holds); [by apply (rel_strcpy _ []); [apply zero_array_holds|]|].
    intros cv w Hcv. apply rel_ret. by apply Hc.
  - rewrite decide_False by (by rewrite Dv). destruct (decide (k <> [])) as [Hnk|Hnk].
    + rewrite decide_True by (by apply Dk). apply (rel_bind array_holds); [exact Hkey|].
      intros np q Hnp. apply rel_ret. apply Hc; [done|apply zero_array_holds].
    + rewrite decide_False by (by rewrite Dk). by apply rel_ret.
Qed.
(** Replacing the value by ["vhost"] in its array. *)
Lemma vhost_array cv v vhost :
  array_holds cv v ->
  exists cv', array_holds cv' (vhost_value vhost v) /\
    (if decide ((c_str cv 0 = lit "link" \/ c_str cv 0 = lit "LINK") /\ vhost = true)
     then in_array (strcpy_at cv 0 (lit "vhost")) else mret cv) = mret (M := G W) cv'.
Proof.
  intros Hcv. assert (Ev : c_str cv 0 = v) by (by destruct Hcv as (_ & ? & _)).
  rewrite Ev. unfold vhost_value. case_decide; [|by exists cv].
  assert (Hn : NUL ∉ lit "vhost") by by_notin.
  pose proof (strcpy_array cv v (lit "vhost") 0 Hcv Hn ltac:(lia)) as Hs.
  destruct (strcpy_at cv 0 (lit "vhost")) as [cv'|].
  - exists cv'. by destruct Hs.
  - exfalso. simpl in Hs. unfold MAX_STR_LENGTH in Hs. lia.
Qed.

Lemma copy_buffer buffer node :
  array_holds buffer node ->
  exists path1, strcpy_at zero_array 0 (c_str buffer 0) = Some path1 /\ array_holds path1 node.
Proof.
  intros Hb. destruct (array_inv _ _ Hb) as [Hn _]. destruct Hb as (_ & Hb & Hlt). rewrite Hb.
  pose proof (strcpy_array zero_array [] node 0 zero_array_holds Hn ltac:(lia)) as Hs.
  destruct (strcpy_at zero_array 0 node) as [path1|]; [|simpl in Hs; lia].
  exists path1. split; [done|]. by destruct Hs.
Qed.

Lemma set_loop_rel n m p s buffer node vhost :
  rest_of m p s -> array_holds buffer node -> (length s < n)%nat ->
  G_rel (=) (set_loop flags n m p buffer vhost) (set_pairs flags node vhost (pairs s)).
Proof.
  intros Hr Hb. revert m p s Hr. induction n as [|n IH]; intros m p s Hr Hn; [lia|].
  cbn [set_loop]. destruct (copy_buffer buffer node Hb) as (path1 & -> & Hp1).
  change (in_array (Some path1)) with (mret (M := G W) path1).
  change (mret path1 ≫= ?f) with (f path1). cbv beta.
  assert (Es : set_pairs flags node vhost (pairs s) =
    c ← first_config flags node (pairs s);
    match c, pairs s with
    | Some (path, value), _ :: l =>
        send_set (build_gnmi_set_req flags path (vhost_value vhost value))
          (set_pairs flags node vhost l)
    | _, _ => mret None
    end) by (by destruct (pairs s)).
  rewrite Es. apply (rel_bind (config_rel s node)); [by apply traverse_params_rel|].
  intros [[[[p' np] cv] flag] m'] c Hc. unfold config_rel in Hc.
  destruct c as [[path value]|].
  - destruct Hc as (-> & Hnp & Hcv & rest & kv & Hr' & Hl & El).
    destruct (vhost_array cv value vhost Hcv) as (cv' & Hcv' & ->).
    change (mret cv' ≫= ?f) with (f cv'). cbv beta.
    assert (E1 : c_str np 0 = path) by (by destruct Hnp as (_ & ? & _)).
    assert (E2 : c_str cv' 0 = vhost_value vhost value) by (by destruct Hcv' as (_ & ? & _)).
    rewrite E1, E2, El. unfold send_set. destruct (build_gnmi_set_req _ _ _) as [req|]; [|apply rel_stop].
    apply rel_same. intros [status resp]. destruct (grpc_error status); [by apply rel_ret|].
    apply IH; [done|lia].
  - destruct Hc as (-> & Hnp & ->).
    destruct (vhost_array zero_array [] vhost zero_array_holds) as (cv' & _ & ->).
    by apply rel_ret.
Qed.

Lemma set_command_rel m p s buffer node vhost :
  rest_of m p s -> array_holds buffer node ->
  G_rel (=) (set_command flags m p buffer vhost) (set_text flags node vhost (pairs s)).
Proof.
  intros Hr Hb. unfold set_command, set_text. apply (rel_bind (=)).
  - apply set_loop_rel; [done..|]. destruct Hr as (pre & -> & _ & _).
    rewrite !length_app. simpl. lia.
  - intros r ? <-. apply rel_refl.
Qed.

Lemma get_command_rel m p s buffer node :
  rest_of m p s -> array_holds buffer node ->
  G_rel (=) (get_command flags m p buffer) (get_text flags node (pairs s)).
Proof.
  intros Hr Hb. unfold get_command, get_text.
  destruct (copy_buffer buffer node Hb) as (path1 & -> & Hp1).
  change (in_array (Some path1)) with (mret (M := G W) path1).
  change (mret path1 ≫= ?f) with (f path1). cbv beta.
  apply (rel_bind (config_rel s node)); [by apply traverse_params_rel|].
  intros [[[[p' np] cv] flag] m'] c Hc. unfold config_rel in Hc.
  assert (E : c_str np 0 = match c with Some (path, _) => path | None => node end).
  { destruct c as [[path value]|]; [by destruct Hc as (_ & (_ & ? & _) & _)|].
    by destruct Hc as (_ & (_ & ? & _) & _). }
  rewrite E. apply rel_refl.
Qed.

Lemma Main_rel ERR cmd args :
  Forall (fun a => NUL ∉ a) args ->
  G_rel (=) (Main flags ERR cmd args) (Main_text flags ERR cmd args).
Proof.
  intros Hargs. unfold Main_text. destruct (decide (cmd = lit "cap")) as [->|Hc].
  { unfold Main. rewrite !decide_True by done. apply rel_refl. }
  unfold Main. rewrite decide_False by done.
  destruct args as [|arg args]; [rewrite decide_False by done; apply rel_refl|].
  apply list.Forall_cons in Hargs as [Harg _]. unfold extract_interface_node.
  apply (rel_bind extract_rel).
  { apply extract_loop_rel.
    - by exists [].
    - by apply strzcpy_array, Hflags.
    - rewrite length_app. simpl. lia.
    - lia. }
  intros [[[[inv p] buffer] vhost] m] [[[inv' rest] node] vhost'] (<- & <- & Hx).
  destruct inv; [apply rel_refl|]. destruct (Hx eq_refl) as [Hr Hb].
  repeat case_decide; first
    [ by apply get_command_rel | by apply set_command_rel
    | rewrite (rest_of_c_str m p rest Hr); apply rel_refl | apply rel_refl ].
Qed.
End Refinement.

(** ** Termination *)

Definition no_fuel {W A} (m : G W A) : Prop := forall w, (m w).1 <> inl out_of_fuel.

Section NoFuel.
Context {float W : Type} `{GnmiStub float W}.

Lemma no_fuel_ret {A} (a : A) : no_fuel (W := W) (mret a).
Proof. by intros w. Qed.

Lemma no_fuel_stop {A} e : e <> out_of_fuel -> no_fuel (W := W) (A := A) (stop e).
Proof. intros He w [= E]. by apply He. Qed.

Lemma no_fuel_bind {A B} (m : G W A) (f : A -> G W B) :
  no_fuel m -> (forall a, no_fuel (f a)) -> no_fuel (m ≫= f).
Proof.
  intros Hm Hf w. unfold mbind, G_bind. specialize (Hm w).
  destruct (m w) as [[e|a] w']; [simpl in *; congruence|apply Hf].
Qed.

Lemma no_fuel_print out : no_fuel (W := W) (print out).
Proof. by intros w. Qed.

Lemma no_fuel_stub {A} (f : W -> A * W) : no_fuel (on_stub f).
Proof. intros w. unfold on_stub. by destruct (f (ctl_server w)). Qed.

Lemma no_fuel_append s x : no_fuel (W := W) (append s x).
Proof. unfold append. case_decide; [apply no_fuel_ret|by apply no_fuel_stop]. Qed.
End NoFuel.

#[local] Hint Resolve no_fuel_ret no_fuel_stop no_fuel_bind no_fuel_print no_fuel_stub
  no_fuel_append : no_fuel.

(** Follows the structure of a computation. *)
Ltac no_fuel :=
  repeat first
    [ progress auto with no_fuel
    | apply no_fuel_bind
    | apply no_fuel_stop; discriminate
    | progress intros
    | match goal with
      | |- no_fuel (match ?x with _ => _ end) => destruct x
      | |- no_fuel (let '(_, _) := ?x in _) => destruct x
      end
    | progress cbv zeta ].

Section Terminates.
Context {float W : Type} `{GnmiStub float W}.
Variable flags : CtlFlags.

Lemma extract_text_no_fuel n s node vhost found :
  NUL ∉ s -> (length s < n)%nat ->
  no_fuel (W := W) (extract_text flags n s node vhost found).
Proof.
  revert s node vhost found. induction n as [|n IH]; intros s node vhost found Hs Hn; [lia|].
  cbn [extract_text]. destruct (next_pair s) as [[[k v] rest]|] eqn:E; [|apply no_fuel_ret].
  destruct (next_pair_spec s k v rest Hs E) as (Hl & _ & _ & Hr). cbv zeta.
  assert (Hrec : forall node vhost found, no_fuel (W := W) (extract_text flags n rest node vhost found))
    by (intros; apply IH; [done|lia]).
  no_fuel.
Qed.

Lemma set_pairs_no_fuel node vhost l : no_fuel (set_pairs flags node vhost l).
Proof.
  induction l as [|[k v] l IH]; cbn [set_pairs]; unfold first_config, config_path, send_set; no_fuel.
Qed.

Lemma Main_text_no_fuel ERR cmd args :
  Forall (fun a => NUL ∉ a) args -> no_fuel (Main_text flags ERR cmd args).
Proof.
  intros Hargs. unfold Main_text, Main. destruct (decide (cmd = lit "cap")).
  { unfold PRINT_MSG. no_fuel. }
  destruct args as [|arg args]; [no_fuel|].
  apply list.Forall_cons in Hargs as [Harg _].
  apply no_fuel_bind; [apply extract_text_no_fuel; [done|lia]|].
  intros [[[inv rest] node] vhost].
  pose proof (set_pairs_no_fuel node vhost (pairs rest)).
  unfold get_text, set_text, del_command, subscribe_command, PRINT_MSG, first_config, config_path.
  no_fuel.
Qed.
End Terminates.
