(* ===== verification/GnmiProps.v ===== *)
(** * What gnmi-ctl does

    The properties of the program, from its command line to the requests the
    server gets. *)

From stdpp Require Import gmap.
From Stdlib Require Import Ascii.
From S2P Require Import Prelude Session CText GnmiCtl GnmiParse GnmiPath GnmiCommands.

(** ** Values *)

(** A decimal numeral. *)
Definition digit (d : nat) : ascii := ascii_of_nat (48 + d).
Definition digits (ds : list nat) : text := digit <$> ds.
Definition dec_val (ds : list nat) : Z := fold_left (fun n d => 10 * n + Z.of_nat d) ds 0.

Lemma digit_cases (P : nat -> Prop) :
  P 0%nat -> P 1%nat -> P 2%nat -> P 3%nat -> P 4%nat -> P 5%nat -> P 6%nat -> P 7%nat ->
  P 8%nat -> P 9%nat -> forall d, (d < 10)%nat -> P d.
Proof. intros. do 10 (destruct d as [|d]; [done|]). lia. Qed.

Lemma digit_value_digit d : (d < 10)%nat -> digit_value (digit d) = Some (Z.of_nat d).
Proof. revert d. by apply digit_cases. Qed.

Lemma scan_digits_digits ds acc :
  Forall (fun d => d < 10)%nat ds ->
  scan_digits acc (digits ds) = (fold_left (fun n d => 10 * n + Z.of_nat d) ds acc, []).
Proof.
  intros Hds. revert acc. induction Hds as [|d ds Hd Hds IH]; intros acc; [done|].
  cbn [digits fmap list_fmap scan_digits fold_left]. rewrite digit_value_digit by done. apply IH.
Qed.

Lemma scan_int_digits ds :
  ds <> [] -> Forall (fun d => d < 10)%nat ds ->
  scan_int (digits ds) = Some (false, dec_val ds, []).
Proof.
  intros Hne Hds. destruct ds as [|d ds]; [done|].
  assert (Hd : (d < 10)%nat) by by apply list.Forall_cons in Hds as [? _].
  unfold scan_int. change (digits (d :: ds)) with (digit d :: digits ds).
  assert (Hh : digit d ∉ spaces /\ digit d <> "-"%char /\ digit d <> "+"%char).
  { clear Hds Hne. revert d Hd.
    apply (digit_cases (fun d => digit d ∉ spaces /\ digit d <> "-"%char /\ digit d <> "+"%char));
      apply (bool_decide_unpack _); vm_compute; exact I. }
  destruct Hh as (Hs & Hm & Hp). rewrite strspn_zero, drop_0 by done.
  rewrite !decide_False by done. rewrite digit_value_digit by done.
  change (digit d :: digits ds) with (digits (d :: ds)). by rewrite scan_digits_digits.
Qed.

(** The value of a configuration, [None] when [stoull] throws. *)
Definition typed_value {float} (v : text) : option (TypedValue float) :=
  match strtol_end v with
  | _ :: _ => Some (string_val v)
  | [] => int_val ∘ s64 <$> stoull v
  end.

Definition set_request {float} (flags : CtlFlags) (path : Path) (v : TypedValue float)
  : SetRequest float :=
  if FLAGS_replace flags then MkSetRequest [] [MkUpdate path (Some v)] []
  else MkSetRequest [] [] [MkUpdate path (Some v)].

Lemma build_set_req {float} flags path v :
  build_gnmi_set_req (float := float) flags path v =
  set_request flags (build_gnmi_path path []) <$> typed_value v.
Proof.
  unfold build_gnmi_set_req, typed_value. destruct (strtol_end v); [|done].
  by destruct (stoull v).
Qed.

(** ** The node *)

Definition device_type (virtual : bool) : text :=
  if virtual then lit "virtual-device" else lit "physical-device".

Definition device_item (virtual : bool) : text * text := (lit "device", device_type virtual).
Definition name_item (name : text) : text * text := (lit "name", name).

Definition node_of (name : text) : text :=
  lit "/interfaces/virtual-interface[name=" ++ name ++ lit "]/".

Definition name_ok (name : text) : Prop := run_of "]" name /\ value_ok name.

Definition said (virtual : bool) : list text :=
  if virtual then [lit "setting vhost_dev = true."] else [].

Section Commands.
Context {float W : Type} `{GnmiStub float W}.

Lemma print_nil {A} (m : G W A) w : (print [];; m) w = m w.
Proof. unfold print, mbind, G_bind. rewrite app_nil_r. by destruct w. Qed.

Lemma append_fits s x (w : Ctl W) :
  (length s + length x < MAX_STR_LENGTH)%nat -> append s x w = (inr (s ++ x), w).
Proof. intros Hl. unfold append. by rewrite decide_True. Qed.

Lemma append_overflows s x (w : Ctl W) :
  (MAX_STR_LENGTH <= length s + length x)%nat -> append s x w = (inl buffer_overflow, w).
Proof. intros Hl. unfold append. by rewrite decide_False by lia. Qed.

Lemma device_item_ok virtual : item_ok (device_item virtual).
Proof.
  split; [|split; [by destruct virtual|]].
  - apply (bool_decide_unpack _). vm_compute. exact I.
  - apply (bool_decide_unpack _). destruct virtual; vm_compute; exact I.
Qed.
Lemma name_item_ok name : value_ok name -> item_ok (name_item name).
Proof.
  intros Hv. split; [|done]. apply (bool_decide_unpack _). vm_compute. exact I.
Qed.

Lemma bind_run {A B} (m : G W A) (f : A -> G W B) w :
  (m ≫= f) w = match m w with (inr a, w') => f a w' | (inl e, w') => (inl e, w') end.
Proof. done. Qed.

Lemma extract_device virtual l n (w : Ctl W) :
  extract_text default_CtlFlags (S n) (print_items (device_item virtual :: l))
    (take (MAX_STR_LENGTH - 1) (FLAGS_root_node default_CtlFlags)) false 0 w =
  (print (said virtual);;
   extract_text default_CtlFlags n (print_items l) (lit "/interfaces/virtual-interface")
     virtual 1) w.
Proof.
  cbn [extract_text]. rewrite next_pair_items by apply device_item_ok. generalize (print_items l).
  intros rest. cbv zeta. cbn [fst snd device_item]. rewrite decide_True by done.
  rewrite bind_run, append_fits by (vm_compute; lia). destruct virtual.
  - by rewrite decide_False by (by intros [? _]).
  - rewrite decide_False by (by intros [_ ?]). rewrite print_nil. done.
Qed.

Lemma extract_name virtual name l n (w : Ctl W) :
  value_ok name ->
  extract_text default_CtlFlags (S n) (print_items (name_item name :: l))
    (lit "/interfaces/virtual-interface") virtual 1 w =
  if decide (37 + length name < MAX_STR_LENGTH)%nat then
    (inr (false, print_items l, node_of name, virtual), w)
  else (inl buffer_overflow, w).
Proof.
  intros Hn. cbn [extract_text]. rewrite next_pair_items by by apply name_item_ok.
  cbv zeta. cbn [fst snd name_item]. rewrite decide_False, decide_True by done.
  assert (Hl : (length (lit "/interfaces/virtual-interface") +
    length (lit "[name=" ++ name ++ lit "]/") = 37 + length name)%nat)
    by (rewrite !length_app; simpl; lia).
  rewrite !bind_run. case_decide.
  - rewrite append_fits by lia. done.
  - rewrite append_overflows by lia. done.
Qed.

(** The device and the name, first in the argument. *)
Lemma extract_node virtual name l n (w : Ctl W) :
  value_ok name -> (2 <= n)%nat ->
  extract_text default_CtlFlags n (print_items (device_item virtual :: name_item name :: l))
    (take (MAX_STR_LENGTH - 1) (FLAGS_root_node default_CtlFlags)) false 0 w =
  (print (said virtual);;
   if decide (37 + length name < MAX_STR_LENGTH)%nat then
     mret (false, print_items l, node_of name, virtual)
   else stop buffer_overflow) w.
Proof.
  intros Hn Hfuel. destruct n as [|[|n]]; try lia. rewrite extract_device, !bind_run.
  unfold print. rewrite extract_name by done. by case_decide.
Qed.
(** ** Configuration items *)

(** The path of a configuration item of an interface. *)
Definition config_elements (name key : text) : list element :=
  [(lit "interfaces", None); (lit "virtual-interface", Some (lit "name", name));
   (lit "config", None); (key, None)].

Definition config_ok (name : text) (kv : text * text) : Prop :=
  item_ok kv /\ run_of "/[" kv.1 /\ kv.2 <> [] /\
  (44 + length name + length kv.1 < MAX_STR_LENGTH)%nat /\
  (length kv.2 < MAX_STR_LENGTH)%nat.

Lemma config_elements_ok name key :
  run_of "]" name -> run_of "/[" key -> Forall element_ok (config_elements name key).
Proof.
  intros Hn Hk.
  assert (Hrun : forall c s, bool_decide (s <> [] /\ Forall (fun x => x ∉ lit c) s) = true -> run_of c s)
    by (intros c s Hb; by apply bool_decide_eq_true in Hb).
  repeat (apply list.Forall_cons; split); [..|apply list.Forall_nil; exact I];
    (split; [|try exact I]); cbn [fst snd]; try (apply Hrun; vm_compute; reflexivity); [|done].
  split; [apply Hrun; vm_compute; reflexivity|done].
Qed.

Lemma print_config_elements name key :
  node_of name ++ lit "config" ++ lit "/" ++ key = print_path (config_elements name key).
Proof.
  unfold node_of, config_elements, print_path, print_element.
  cbn [mbind list_bind fst snd]. rewrite print_kv_eq. cbn [fst snd].
  rewrite !app_nil_r, <- !app_assoc. cbn [lit app]. simpl. by rewrite <- !app_assoc.
Qed.

Lemma length_node_of name : length (node_of name) = (37 + length name)%nat.
Proof. unfold node_of. rewrite !length_app. simpl. lia. Qed.

Lemma config_path_run name key (w : Ctl W) :
  config_path default_CtlFlags (node_of name) key w =
  if decide (44 + length name + length key < MAX_STR_LENGTH)%nat then
    (inr (print_path (config_elements name key)), w)
  else (inl buffer_overflow, w).
Proof.
  unfold config_path. assert (Hl : (length (node_of name) +
      length (FLAGS_subtree_config default_CtlFlags ++ lit "/" ++ key) =
      44 + length name + length key)%nat)
    by (rewrite !length_app, length_node_of; simpl; lia).
  case_decide.
  - rewrite append_fits by lia. by rewrite <- print_config_elements.
  - by rewrite append_overflows by lia.
Qed.

Lemma first_config_run name kv l (w : Ctl W) :
  config_ok name kv ->
  first_config default_CtlFlags (node_of name) (kv :: l) w =
  (inr (Some (print_path (config_elements name kv.1), kv.2)), w).
Proof.
  destruct kv as [k v]. intros (_ & _ & Hv & Hk & Hl). cbn [fst snd] in *.
  unfold first_config. rewrite decide_True by done.
  rewrite bind_run, config_path_run, decide_True by done.
  by rewrite bind_run, append_fits by done.
Qed.

(** The requests, sent one after the other until one is refused. *)
Fixpoint send_all (reqs : list (SetRequest float)) : G W Z :=
  match reqs with
  | [] => print [lit "Set request, successful...!!!"; ENDL];; mret 0
  | req :: reqs =>
      '(status, _) ← on_stub (stub_Set req);
      match grpc_error status with
      | Some code => mret code
      | None => send_all reqs
      end
  end.

(** The request for the item [kv], with the value [v]. *)
Definition config_request (flags : CtlFlags) (name : text) (kv : text * text)
  (v : TypedValue float) : SetRequest float :=
  set_request flags (PathElem_of <$> config_elements name kv.1) v.

Lemma set_text_run name virtual items vals (w : Ctl W) :
  run_of "]" name -> Forall (config_ok name) items ->
  Forall2 (fun kv v => typed_value (vhost_value virtual kv.2) = Some v) items vals ->
  set_text default_CtlFlags (node_of name) virtual items w =
  send_all (zip_with (config_request default_CtlFlags name) items vals) w.
Proof.
  intros Hn Hok Hvals. revert w. unfold set_text.
  induction Hvals as [|kv v items vals Hv Hvals IH]; intros w; [done|].
  apply list.Forall_cons in Hok as [Hkv Hok]. cbn [set_pairs zip_with send_all].
  rewrite !bind_run, first_config_run by done.
  rewrite build_set_req, Hv. cbn [fmap option_fmap option_map send_set].
  destruct Hkv as (_ & Hk & _).
  rewrite build_print_path by (by apply config_elements_ok). cbn [app].
  unfold config_request at 1. rewrite !bind_run.
  destruct (on_stub _ w) as [[e|[status resp]] w']; [done|].
  destruct (grpc_error status); [done|]. exact (IH Hok w').
Qed.
End Commands.

(** ** Properties *)

Lemma default_flags_ok : flags_ok default_CtlFlags.
Proof. repeat split; by_notin. Qed.

Lemma node_items_NUL virtual name l :
  value_ok name -> Forall item_ok l ->
  Forall (fun a => NUL ∉ a) [print_items (device_item virtual :: name_item name :: l)].
Proof.
  intros Hn Hl. apply list.Forall_cons. split; [|by apply list.Forall_nil].
  apply print_items_NUL. apply list.Forall_cons. split; [apply device_item_ok|].
  apply list.Forall_cons. by split; [apply name_item_ok|].
Qed.

Section Properties.
Context {float W : Type} `{GnmiStub float W}.

(** C14 gnmi_ctl_refines: whatever its arguments, the program, which cuts up its
    argument in place and puts paths together in arrays, sends the same
    requests, prints the same and ends the same way, buffer overflows and
    exceptions included, as the specification on texts and lists of pairs. *)
Theorem gnmi_ctl_refines flags ERR cmd args (w : Ctl W) :
  flags_ok flags -> Forall (fun a => NUL ∉ a) args ->
  Main flags ERR cmd args w = Main_text flags ERR cmd args w.
Proof. intros Hf Ha. apply rel_eq. by apply Main_rel. Qed.

(** C38 gnmi_ctl_terminates: the loops of the program end: each turn takes
    something off the argument. *)
Theorem gnmi_ctl_terminates flags ERR cmd args (w : Ctl W) :
  flags_ok flags -> Forall (fun a => NUL ∉ a) args ->
  (Main flags ERR cmd args w).1 <> inl out_of_fuel.
Proof.
  intros Hf Ha. rewrite (rel_eq _ _ (Main_rel flags Hf ERR cmd args Ha)).
  by apply Main_text_no_fuel.
Qed.

(** Any command on an argument with the device and the name first. *)
Lemma Main_node ERR cmd virtual name l (w : Ctl W) :
  cmd <> lit "cap" -> value_ok name -> Forall item_ok l ->
  Main default_CtlFlags ERR cmd [print_items (device_item virtual :: name_item name :: l)] w =
  (print (said virtual);;
   if decide (37 + length name < MAX_STR_LENGTH)%nat then
     if decide (cmd = lit "get") then get_text default_CtlFlags (node_of name) (pairs (print_items l))
     else if decide (cmd = lit "set") then
       set_text default_CtlFlags (node_of name) virtual (pairs (print_items l))
     else if decide (cmd = lit "del") then del_command (print_items l)
     else if decide (cmd = lit "sub-onchange") then
       subscribe_command (build_gnmi_sub_onchange_req (print_items l))
     else if decide (cmd = lit "sub-sample") then
       subscribe_command (build_gnmi_sub_sample_req (print_items l)
         (FLAGS_interval default_CtlFlags))
     else mret ERR
   else stop buffer_overflow) w.
Proof.
  intros Hc Hn Hl.
  rewrite (rel_eq _ _ (Main_rel default_CtlFlags default_flags_ok ERR cmd _
    (node_items_NUL virtual name l Hn Hl))).
  unfold Main_text. rewrite decide_False by done. rewrite bind_run.
  rewrite extract_node, !bind_run; [|done|].
  - unfold print. case_decide; done.
  - pose proof (length_app (print_item (device_item virtual))
      (","%char :: print_items (name_item name :: l))) as E. simpl in E |- *. lia.
Qed.

(** C15 gnmi_set_spec: from the command line to the server. The argument
    ["device:<type>,name:<name>,<key:value>,..."] of a set command becomes one
    request per key, in order, for the path of the key below the interface and
    the value, as a number when it is one; the first one refused ends the
    command. A virtual device with the value [link] is sent [vhost]. *)
Theorem gnmi_set_spec ERR virtual name items vals (w : Ctl W) :
  name_ok name -> Forall (config_ok name) items ->
  Forall2 (fun kv v => typed_value (vhost_value virtual kv.2) = Some v) items vals ->
  (37 + length name < MAX_STR_LENGTH)%nat ->
  Main default_CtlFlags ERR (lit "set")
    [print_items (device_item virtual :: name_item name :: items)] w =
  (print (said virtual);;
   send_all (zip_with (config_request default_CtlFlags name) items vals)) w.
Proof.
  intros [Hn Hnv] Hok Hvals Hl.
  assert (Hi : Forall item_ok items) by (eapply Forall_impl; [|exact Hok]; by intros kv [? _]).
  rewrite Main_node by done. rewrite (decide_True (P := (_ < _)%nat)) by done.
  rewrite decide_False, decide_True by done. rewrite pairs_print_items by done.
  rewrite !bind_run. unfold print. by apply set_text_run.
Qed.

(** After the path has been put together, a get command returns. *)
Lemma get_request_returns req out (w : Ctl W) : exists z,
  ((print out;;
    '(status, resp) ← on_stub (stub_Get req);
    match grpc_error status with
    | Some code => mret code
    | None => PRINT_MSG (DebugString resp) (lit "Get Response from Server");; mret 0
    end) w : (fault + Z) * Ctl W).1 = inr z.
Proof.
  rewrite bind_run. unfold print at 1. rewrite bind_run. unfold on_stub.
  destruct (stub_Get req _) as [[status resp] s]. by destruct (grpc_error status); eexists.
Qed.

Lemma get_text_overflow node l (w : Ctl W) :
  (get_text default_CtlFlags node l w).1 = inl buffer_overflow <->
  (first_config default_CtlFlags node l w).1 = inl buffer_overflow.
Proof.
  unfold get_text. rewrite bind_run.
  destruct (first_config _ _ _ w) as [[e|c] w']; [by split; intros [= ->]|].
  destruct (build_gnmi_get_req _ _) as [req out].
  destruct (get_request_returns req out w') as [z ->]. by split.
Qed.

Lemma first_config_overflow name key value l (w : Ctl W) :
  key <> [] ->
  (first_config default_CtlFlags (node_of name) ((key, value) :: l) w).1 = inl buffer_overflow <->
  (84 <= length name + length key)%nat \/ (128 <= length value)%nat.
Proof.
  intros Hk. unfold first_config. destruct (decide (value <> [])) as [Hv|Hv].
  - rewrite bind_run, config_path_run. unfold MAX_STR_LENGTH. case_decide as Hp.
    + rewrite bind_run. unfold append, MAX_STR_LENGTH. simpl.
      case_decide; simpl; (split; [intros Hf|]); try done; lia.
    + split; [intros _; left; lia|done].
  - assert (E : length value = 0%nat) by (destruct value; [done|by destruct Hv]). rewrite E.
    rewrite decide_True by done. rewrite bind_run, config_path_run. unfold MAX_STR_LENGTH.
    case_decide as Hp; (split; [intros Hf|]); try done; lia.
Qed.

(** C37 gnmi_get_bounds: a get command with one key runs off the end of an array
    of 128 characters exactly when the name and the key have 84 characters or
    more between them, or the value after the key has 128. *)
Theorem gnmi_get_bounds ERR virtual name key value (w : Ctl W) :
  name_ok name -> item_ok (key, value) -> key <> [] ->
  (Main default_CtlFlags ERR (lit "get")
     [print_items [device_item virtual; name_item name; (key, value)]] w).1 =
    inl buffer_overflow <->
  (84 <= length name + length key)%nat \/ (128 <= length value)%nat.
Proof.
  intros [Hn Hnv] Hi Hk.
  rewrite Main_node by (done || by apply list.Forall_cons; split; [|apply list.Forall_nil]).
  rewrite pairs_print_items by (apply list.Forall_cons; split; [done|by apply list.Forall_nil]).
  rewrite bind_run. unfold print at 1. rewrite (decide_True (P := lit "get" = _)) by done.
  unfold MAX_STR_LENGTH at 1. case_decide as Hl; [|split; [intros _; left; lia|done]].
  by rewrite get_text_overflow, first_config_overflow.
Qed.

(** gnmi_del_ignores_node: the device and the name of a delete or subscribe
    command are checked and then dropped. The path of the request is built from
    what follows them; when nothing does, it is the empty path, that of the
    root. *)
Theorem gnmi_del_ignores_node ERR virtual name l (w : Ctl W) :
  name_ok name -> Forall item_ok l -> (37 + length name < MAX_STR_LENGTH)%nat ->
  let run cmd :=
    Main default_CtlFlags ERR cmd [print_items (device_item virtual :: name_item name :: l)] w in
  run (lit "del") = (print (said virtual);; del_command (print_items l)) w /\
  run (lit "sub-onchange") =
    (print (said virtual);;
     subscribe_command (build_gnmi_sub_onchange_req (print_items l))) w /\
  run (lit "sub-sample") =
    (print (said virtual);;
     subscribe_command (build_gnmi_sub_sample_req (print_items l) 5000)) w /\
  (l = [] -> build_gnmi_del_req (float := float) (print_items l) = MkSetRequest [[]] [] []).
Proof.
  intros [Hn Hnv] Hl Hlen run. subst run. cbv beta. rewrite !Main_node by done.
  rewrite !(decide_True (P := (_ < _)%nat)) by done.
  rewrite !decide_False by done. rewrite !(decide_True (P := @eq text _ _)) by done.
  split_and!; try done. by intros ->.
Qed.
End Properties.

(** gnmi_set_number: the value of a set command is sent as an integer when
    it is a numeral, and as text otherwise. The integer is signed: from 2^63 on
    it comes out negative. From 2^64 on, and when there is no value, [stoull]
    throws an exception nothing catches. *)
Theorem gnmi_set_number {float} flags path :
  (forall ds, ds <> [] -> Forall (fun d => d < 10)%nat ds ->
   let n := dec_val ds in
   build_gnmi_set_req (float := float) flags path (digits ds) =
   if n <? 2 ^ 64 then
     Some (set_request flags (build_gnmi_path path [])
       (int_val (if n <? 2 ^ 63 then n else n - 2 ^ 64)))
   else None) /\
  build_gnmi_set_req (float := float) flags path [] = None /\
  (forall v, v <> [] -> scan_int v = None ->
   build_gnmi_set_req (float := float) flags path v =
   Some (set_request flags (build_gnmi_path path []) (string_val v))).
Proof.
  split; [|split].
  - intros ds Hne Hds n. rewrite build_set_req. unfold typed_value, strtol_end, stoull.
    rewrite scan_int_digits by done. cbn [mbind option_bind]. fold n.
    assert (Hn : 0 <= n).
    { unfold n, dec_val. assert (Hf : forall ds acc, 0 <= acc ->
        0 <= fold_left (fun n d => 10 * n + Z.of_nat d) ds acc).
      { induction ds0 as [|d ds0 IH]; intros acc Hacc; [done|]. simpl fold_left. apply IH. lia. }
      by apply Hf. }
    change (2 ^ 64) with 18446744073709551616. change (2 ^ 63) with 9223372036854775808.
    destruct (Z.leb_spec n 18446744073709551615), (Z.ltb_spec n 18446744073709551616); try lia;
      [|done].
    cbn [fmap option_fmap option_map compose]. do 3 f_equal. unfold s64.
    destruct (Z.ltb_spec n 9223372036854775808).
    + rewrite Z.mod_small by lia. lia.
    + replace (n + 9223372036854775808) with
        (n - 9223372036854775808 + 1 * 18446744073709551616) by lia.
      rewrite Z.mod_add by lia. rewrite Z.mod_small by lia. lia.
  - done.
  - intros v Hv Hs. rewrite build_set_req. unfold typed_value, strtol_end. rewrite Hs.
    by destruct v.
Qed.

(** ** Witnesses *)

(** A server that accepts every request and keeps the updates. *)
#[local] Instance logging_stub : GnmiStub unit (list (SetRequest unit)) := {|
  Response := unit;
  DebugString _ := [];
  CapabilityRequest_DebugString := [];
  stub_Capabilities s := ((MkGrpcStatus 0 "", ()), s);
  stub_Get _ s := ((MkGrpcStatus 0 "", ()), s);
  stub_Set req s := ((MkGrpcStatus 0 "", ()), s ++ [req]);
  stub_Subscribe_Write _ s := (true, s);
  stub_Subscribe_Reads s := ([], s);
  stub_Subscribe_Finish s := (MkGrpcStatus 0 "", s);
|}.

Definition fresh : Ctl (list (SetRequest unit)) := MkCtl [] [].
Definition sample_name : text := lit "net_vhost0".
Definition sample_items : list (text * text) :=
  [(lit "device-type", lit "LINK"); (lit "queues", lit "1"); (lit "port", lit "(a,b) c")].
Definition link_items : list (text * text) := take 2 sample_items.

Lemma sample_name_ok : name_ok sample_name.
Proof. repeat split; try discriminate; by_decision. Qed.

Lemma link_items_ok : Forall (config_ok sample_name) link_items.
Proof.
  repeat (apply list.Forall_cons; split); [..|by apply list.Forall_nil];
    repeat split; try discriminate; try by_decision; vm_compute; lia.
Qed.

Lemma items_NUL l : NUL ∉ lit l -> Forall (fun a => NUL ∉ a) [lit l].
Proof. intros Hl. apply list.Forall_cons. split; [done|by apply list.Forall_nil]. Qed.

Lemma gnmi_ctl_refines_witness :
  (Main default_CtlFlags 5 (lit "set") [lit "name=x device=physical-device a"] fresh).1 =
  inl uncaught_exception.
Proof.
  rewrite (gnmi_ctl_refines default_CtlFlags 5 (lit "set")
    [lit "name=x device=physical-device a"] fresh default_flags_ok
    (items_NUL "name=x device=physical-device a" ltac:(by_decision))).
  vm_compute. reflexivity.
Defined.

Lemma gnmi_ctl_terminates_witness :
  (Main default_CtlFlags 5 (lit "set") [lit ",,(((,"] fresh).1 <> inl out_of_fuel.
Proof.
  apply (gnmi_ctl_terminates default_CtlFlags 5 (lit "set") [lit ",,(((,"] fresh default_flags_ok
    (items_NUL ",,(((," ltac:(by_decision))).
Defined.

Lemma gnmi_set_spec_witness :
  let r := Main default_CtlFlags 5 (lit "set")
    [lit "device:virtual-device,name:net_vhost0,device-type:LINK,queues:1"] fresh in
  r.1 = inr 0 /\ length (ctl_server r.2) = 2%nat.
Proof.
  intros r. subst r.
  change (lit "device:virtual-device,name:net_vhost0,device-type:LINK,queues:1") with
    (print_items (device_item true :: name_item sample_name :: link_items)).
  rewrite (gnmi_set_spec 5 true sample_name link_items [string_val (lit "vhost"); int_val 1] fresh
    sample_name_ok link_items_ok).
  - split; vm_compute; reflexivity.
  - repeat constructor.
  - vm_compute. lia.
Defined.

Lemma gnmi_get_bounds_witness :
  (Main default_CtlFlags 5 (lit "get")
     [print_items [device_item false; name_item sample_name;
        (replicate 74 "k"%char, [])]] fresh).1 = inl buffer_overflow.
Proof.
  apply (gnmi_get_bounds 5 false sample_name (replicate 74 "k"%char) [] fresh sample_name_ok).
  - repeat split; by_decision.
  - discriminate.
  - left. vm_compute. lia.
Defined.

Lemma gnmi_del_ignores_node_witness :
  Main default_CtlFlags 5 (lit "del")
    [print_items [device_item false; name_item sample_name]] fresh =
  del_command [] fresh.
Proof.
  destruct (gnmi_del_ignores_node 5 false sample_name [] fresh sample_name_ok) as [-> _].
  - by apply list.Forall_nil.
  - vm_compute. lia.
  - reflexivity.
Defined.

Lemma gnmi_set_number_witness :
  build_gnmi_set_req (float := unit) default_CtlFlags [] (digits (9 :: replicate 18 9)%nat) =
  Some (set_request default_CtlFlags [] (int_val (9999999999999999999 - 2 ^ 64))).
Proof.
  rewrite (proj1 (gnmi_set_number (float := unit) default_CtlFlags [])
    (9 :: replicate 18 9)%nat).
  - vm_compute. reflexivity.
  - discriminate.
  - by_decision.
Defined.
