(* ===== verification/SgnmiCli.v ===== *)
(** * sgnmi_cli ([src/clients/sgnmi_cli/])

    The other command-line client of the gNMI server: its path is given as it
    is sent, and the value to set by a flag for each type. This file is the
    work of the commands, from the channel on; [SgnmiStart] is the whole program.
    It reads paths with RE2, a
    library, whose interface is the class [RE2]. *)

From stdpp Require Import gmap.
From Stdlib Require Import Ascii.
From S2P Require Import Prelude Session CText GnmiCtl GnmiPath.

(** [RE2::Consume] at the start of a text, with what is left of it and its
    groups, and [RE2::FullMatch]. A group that takes no part is empty. *)
Class RE2 := {
  Consume : regex -> text -> option (text * captures);
  FullMatch : regex -> text -> option captures;
}.

(** The documented behaviour on ASCII texts: the match a backtracking engine
    would have found first. *)
Definition is_ascii (s : text) : Prop := Forall (fun c => (nat_of_ascii c < 128)%nat) s.

Class RE2Laws `{RE2} : Prop := {
  Consume_first r s : is_ascii s -> Consume r s = match_prefix r s;
  FullMatch_first r s : is_ascii s -> FullMatch r s = regex_match r s;
}.

(** The flags. *)
Record CliFlags := MkCliFlags {
  cli_bool_val : text;
  cli_int_val : text;
  cli_uint_val : text;
  cli_string_val : text;
  cli_float_val : text;
  cli_proto_bytes : text;
  cli_bytes_val_file : text;
  cli_replace : bool;
  cli_get_type : text;
  cli_interval : Z;
}.

(** Reading of floating-point numerals by the standard library ([None] when
    [std::stof] throws), of files by stratum, and the codes of its errors. *)
Class Stratum (float : Type) := {
  stof : text -> option float;
  ReadFileToString : text -> text;
  ERR_INVALID_PARAM : Z;
  RET_CHECK_FAILURE : Z;
  INTERNAL : Z;
}.

Definition StringToBool (str : text) : bool :=
  bool_decide (str = lit "y") || bool_decide (str = lit "true") ||
  bool_decide (str = lit "t") || bool_decide (str = lit "yes") ||
  bool_decide (str = lit "1").

Section Cli.
Context `{RE2}.

Definition AddPathElem (elem_name elem_kv : text) (elem : PathElem) : PathElem :=
  let elem := MkPathElem elem_name (pe_key elem) in
  if decide (elem_kv = []) then elem else
  let groups := default ∅ (FullMatch elem_kv_regex elem_kv) in
  let key := group 1 groups in
  let value := group 2 groups in
  MkPathElem (pe_name elem) (<[key := value]> (pe_key elem)).

(** The [while] loop; a match takes at least two characters of the input. *)
Fixpoint consume_path (fuel : nat) (input : text) (path : Path) : Path :=
  match fuel with
  | O => path
  | S fuel =>
      match Consume path_elem_regex input with
      | Some (input, groups) =>
          consume_path fuel input
            (path ++ [AddPathElem (group 1 groups) (group 2 groups) (MkPathElem [] ∅)])
      | None => path
      end
  end.

Definition BuildGnmiPath (path_str : text) (path : Path) : Path :=
  consume_path (length path_str) path_str path.

Section Requests.
Context {float : Type} `{Stratum float}.
Variable flags : CliFlags.

Definition BuildGnmiGetRequest (path : text) : GetRequest * list text :=
  let p := BuildGnmiPath path [] in
  match DataType_Parse (cli_get_type flags) with
  | Some data_type => (MkGetRequest [p] data_type PROTO, [])
  | None =>
      (MkGetRequest [p] ALL PROTO,
       [lit "Invalid gNMI get data type: "; cli_get_type flags;
        lit " , use ALL as data type."; ENDL])
  end.

(** The value by the first flag that is given; [None] when its conversion
    throws. *)
Definition flag_value : option (option (TypedValue float) * list text) :=
  if decide (cli_bool_val flags <> []) then
    Some (Some (bool_val (StringToBool (cli_bool_val flags))), [])
  else if decide (cli_int_val flags <> []) then
    v ← stoll (cli_int_val flags); Some (Some (int_val v), [])
  else if decide (cli_uint_val flags <> []) then
    v ← stoull (cli_uint_val flags); Some (Some (uint_val v), [])
  else if decide (cli_float_val flags <> []) then
    v ← stof (cli_float_val flags); Some (Some (float_val v), [])
  else if decide (cli_proto_bytes flags <> []) then
    Some (Some (proto_bytes (cli_proto_bytes flags)), [])
  else if decide (cli_string_val flags <> []) then
    Some (Some (string_val (cli_string_val flags)), [])
  else if decide (cli_bytes_val_file flags <> []) then
    Some (Some (bytes_val (ReadFileToString (cli_bytes_val_file flags))), [])
  else Some (None, [lit "No typed value set"; ENDL]).

Definition BuildGnmiSetRequest (path : text) : option (SetRequest float * list text) :=
  let p := BuildGnmiPath path [] in
  '(val, out) ← flag_value;
  let update := MkUpdate p val in
  Some (if cli_replace flags then MkSetRequest [] [update] []
        else MkSetRequest [] [] [update], out).

Definition BuildGnmiDeleteRequest (path : text) : SetRequest float :=
  MkSetRequest [BuildGnmiPath path []] [] [].

Definition BuildGnmiSubOnchangeRequest (path : text) : SubscribeRequest :=
  MkSubscribeRequest STREAM true [MkSubscription (BuildGnmiPath path []) ON_CHANGE 0].

Definition BuildGnmiSubSampleRequest (path : text) (interval : Z) : SubscribeRequest :=
  MkSubscribeRequest STREAM true [MkSubscription (BuildGnmiPath path []) SAMPLE interval].

(** ** The commands *)

Context {W : Type} `{GnmiStub float W}.
(** [DebugString] of the requests, printed before they are sent. *)
Context (get_text : GetRequest -> text) (set_text : SetRequest float -> text)
  (subscribe_text : SubscribeRequest -> text).

(** A call with one response. *)
Definition unary (call : W -> (grpc_Status * Response) * W) : G W Z :=
  '(status, resp) ← on_stub call;
  match grpc_error status with
  | Some code => mret code
  | None => PRINT_MSG (DebugString resp) (lit "RESPONSE");; mret 0
  end.

Definition subscribe (req : SubscribeRequest) : G W Z :=
  PRINT_MSG (subscribe_text req) (lit "REQUEST");;
  written ← on_stub (stub_Subscribe_Write req);
  if negb written then mret RET_CHECK_FAILURE else
  responses ← on_stub stub_Subscribe_Reads;
  print (responses ≫= fun resp => [lit "RESPONSE"; ENDL; DebugString resp; ENDL]);;
  status ← on_stub stub_Subscribe_Finish;
  match grpc_error status with
  | Some code => mret code
  | None => mret 0
  end.

(** [Main] from the choice of the command on. *)
Definition Main (cmd : text) (args : list text) : G W Z :=
  if decide (cmd = lit "cap") then
    PRINT_MSG CapabilityRequest_DebugString (lit "REQUEST");; unary stub_Capabilities
  else
  match args with
  | [] => mret ERR_INVALID_PARAM
  | path :: _ =>
      if decide (cmd = lit "get") then
        let '(req, out) := BuildGnmiGetRequest path in
        print out;; PRINT_MSG (get_text req) (lit "REQUEST");; unary (stub_Get req)
      else if decide (cmd = lit "set") then
        match BuildGnmiSetRequest path with
        | None => stop uncaught_exception
        | Some (req, out) =>
            print out;; PRINT_MSG (set_text req) (lit "REQUEST");; unary (stub_Set req)
        end
      else if decide (cmd = lit "del") then
        let req := BuildGnmiDeleteRequest path in
        PRINT_MSG (set_text req) (lit "REQUEST");; unary (stub_Set req)
      else if decide (cmd = lit "sub-onchange") then
        subscribe (BuildGnmiSubOnchangeRequest path)
      else if decide (cmd = lit "sub-sample") then
        subscribe (BuildGnmiSubSampleRequest path (cli_interval flags))
      else mret ERR_INVALID_PARAM
  end.

(** [main]: an exception is caught here, and the exit code is [INTERNAL]. *)
Definition main (cmd : text) (args : list text) : G W Z := fun w =>
  match Main cmd args w with
  | (inl uncaught_exception, w) => (inr INTERNAL, w)
  | r => r
  end.
End Requests.
End Cli.

(** ** Paths *)

Lemma is_ascii_app s1 s2 : is_ascii (s1 ++ s2) <-> is_ascii s1 /\ is_ascii s2.
Proof. apply list.Forall_app. Qed.

Section Paths.
Context `{RE2Laws}.

Lemma AddPathElem_captures e :
  element_ok e -> is_ascii (print_element e) ->
  AddPathElem (group 1 (element_captures e)) (group 2 (element_captures e))
    (MkPathElem [] ∅) = PathElem_of e.
Proof.
  intros He Ha. rewrite <- add_path_elem_captures by done.
  unfold AddPathElem, add_path_elem. case_decide as Hkv; [done|].
  rewrite FullMatch_first; [done|].
  destruct e as [name [kv|]]; [|by destruct Hkv].
  unfold print_element in Ha. rewrite !is_ascii_app in Ha. by destruct Ha as (_ & _ & Ha).
Qed.

Lemma consume_print_path es fuel path :
  Forall element_ok es -> is_ascii (print_path es) -> (length es <= fuel)%nat ->
  consume_path fuel (print_path es) path = path ++ (PathElem_of <$> es).
Proof.
  intros Hes. revert fuel path. induction Hes as [|e es He Hes IH]; intros fuel path Ha Hf.
  - rewrite app_nil_r. destruct fuel; [done|]. cbn [consume_path].
    by rewrite Consume_first by constructor.
  - destruct fuel as [|fuel]; [simpl in Hf; lia|].
    change (print_path (e :: es)) with (print_element e ++ print_path es) in *.
    cbn [consume_path]. rewrite Consume_first by done.
    rewrite match_element by (done || apply print_path_head).
    rewrite is_ascii_app in Ha. destruct Ha as [Ha Ha'].
    rewrite AddPathElem_captures, IH by (done || (simpl in Hf; lia)).
    cbn [fmap list_fmap]. by rewrite <- app_assoc.
Qed.

(** path_readers_agree: both clients take a path of ASCII characters apart
    into its elements. They differ on text before the first slash: gnmi-ctl
    skips it, sgnmi_cli takes the path for an empty one. *)
Theorem path_readers_agree junk es :
  Forall (fun c => c <> "/"%char) junk -> Forall element_ok es ->
  is_ascii (junk ++ print_path es) ->
  build_gnmi_path (junk ++ print_path es) [] = PathElem_of <$> es /\
  BuildGnmiPath (junk ++ print_path es) [] =
    match junk with [] => PathElem_of <$> es | _ :: _ => [] end.
Proof.
  intros Hj Hes Ha. split; [by rewrite build_junk_path|]. unfold BuildGnmiPath.
  destruct junk as [|c junk].
  - cbn [app] in *. by rewrite consume_print_path by (done || apply length_print_path).
  - cbn [app length consume_path]. rewrite Consume_first by done.
    apply list.Forall_cons in Hj as [Hc _]. by rewrite match_prefix_not_slash.
Qed.
End Paths.

(** ** Witness *)

#[local] Instance backtracking : RE2 :=
  {| Consume := match_prefix; FullMatch := regex_match |}.
#[local] Instance backtracking_laws : RE2Laws.
Proof. by constructor. Defined.

Lemma path_readers_agree_witness :
  let es := [(lit "interfaces", None); (lit "interface", Some (lit "name", lit "x/y"))] in
  build_gnmi_path (lit "gnmi:" ++ print_path es) [] = PathElem_of <$> es /\
  BuildGnmiPath (lit "gnmi:" ++ print_path es) [] = [].
Proof.
  intros es. apply (path_readers_agree (lit "gnmi:") es).
  - apply (bool_decide_unpack _). vm_compute. exact I.
  - repeat constructor; try discriminate; apply (bool_decide_unpack _); vm_compute; exact I.
  - apply (bool_decide_unpack _). vm_compute. exact I.
Defined.
