(* ===== verification/Signals.v ===== *)
(** * Blocking calls, interrupts, and the thread that cancels calls

    Both gNMI clients can block in a call to the server, and both start a thread
    that is to cancel the call on SIGINT: the handler writes the signal to a
    pipe, the thread reads it there and cancels the [ClientContext] that [ctx_]
    points to. Here a client is a program of calls ([iprog]), a tree with a node
    for the loop that reads a subscription; [GnmiStart] and [SgnmiStart] are the
    two programs. A step of the system ([gsys_step]) is a call of the main
    program or of the thread, the answer of the server to the call the main
    program is in, or a signal. *)

From stdpp Require Import gmap.
From Stdlib Require Import Ascii.
From S2P Require Import Prelude Session CText GnmiCtl.

(** ** Calls *)

(** The variables of type [ClientContext]: [ctx] of [Main], and [ctx] of the
    block of a command. *)
Inductive context := main_ctx | command_ctx.

#[export] Instance context_eq_dec : EqDecision context.
Proof. solve_decision. Defined.

Section Calls.
Context {float W : Type} `{GnmiStub float W}.

Inductive rpc :=
| rpc_Capabilities
| rpc_Get (req : GetRequest)
| rpc_Set (req : SetRequest float)
| rpc_Subscribe_Write (req : SubscribeRequest)
| rpc_Subscribe_Read
| rpc_Subscribe_Finish.

(** A read delivers a response, or nothing when the stream has ended. *)
Definition rpc_result (r : rpc) : Type :=
  match r with
  | rpc_Capabilities | rpc_Get _ | rpc_Set _ => grpc_Status * Response
  | rpc_Subscribe_Write _ => bool
  | rpc_Subscribe_Read => option Response
  | rpc_Subscribe_Finish => grpc_Status
  end.

Inductive gcall :=
| g_print (out : list text)
| g_context (ctx : context)                  (* the declaration of a context *)
| g_set_ctx_ (ctx : context)                 (* ctx_ = &ctx *)
| g_get_ctx_
| g_TryCancel (ctx : context)
| g_rpc (ctx : context) (r : rpc)
| g_CreatePipe                               (* CreatePipeForSignalHandling *)
| g_signal                                   (* installs HandleSignal *)
| g_pthread_create                           (* runs ContextCancelThreadFunc *)
| g_pthread_join
| g_write (value : Z)                        (* to the pipe *)
| g_read                                     (* from the pipe *)
| g_close_write
| g_close_read
| g_CreateInstance.                          (* of the CredentialsManager *)

(** The result of a call: the code of a status, whether it succeeded, or what
    [read] returns and stores. *)
Definition gresult (c : gcall) : Type :=
  match c with
  | g_get_ctx_ => option context
  | g_rpc _ r => rpc_result r
  | g_CreatePipe | g_CreateInstance => Z
  | g_signal | g_pthread_create | g_pthread_join => bool
  | g_read => Z * Z
  | _ => unit
  end.

Inductive iprog (A : Type) : Type :=
| IRet (a : A)
| ICall (c : gcall) (k : gresult c -> iprog A)
(** [body] until it yields [inr]. *)
| ILoop {B X : Set} (body : B -> iprog (B + X)) (b : B) (k : X -> iprog A).
End Calls.
Arguments rpc : clear implicits.
Arguments gcall : clear implicits.
Arguments iprog float W {_} A.
Arguments IRet {_ _ _ _} _.
Arguments ICall {_ _ _ _} _ _.
Arguments ILoop {_ _ _ _ _ _} _ _ _.

Section Programs.
Context {float W : Type} `{GnmiStub float W}.
Abbreviation prog := (iprog float W).

Fixpoint ibind {A B} (p : prog A) (f : A -> prog B) : prog B :=
  match p with
  | IRet a => f a
  | ICall c k => ICall c (fun r => ibind (k r) f)
  | ILoop body b k => ILoop body b (fun r => ibind (k r) f)
  end.

#[export] Instance iprog_ret : MRet prog := fun A a => IRet a.
#[export] Instance iprog_bind : MBind prog := fun A B f p => ibind p f.

Definition icall (c : gcall float) : prog (gresult c) := ICall c IRet.

(** A program that can end with a [fault], as a computation [G] can. *)
Definition GP (A : Type) : Type := prog (fault + A).

#[export] Instance GP_ret : MRet GP := fun A a => IRet (inr a).
#[export] Instance GP_bind : MBind GP := fun A B f p =>
  ibind p (fun r => match r with inl e => IRet (inl e) | inr a => f a end).

Definition gp_call (c : gcall float) : GP (gresult c) := ICall c (fun r => IRet (inr r)).
Definition gp_stop {A} (e : fault) : GP A := IRet (inl e).
Definition gp_print (out : list text) : GP unit := gp_call (g_print out).

(** A computation that does not use the server. *)
Definition lift {A} (g : G unit A) : GP A :=
  let '(r, w) := g (MkCtl () []) in ICall (g_print (ctl_out w)) (fun _ => IRet r).

(** [RETURN_IF_GRPC_ERROR] around a call with one response, which is printed. *)
Definition gp_unary (ctx : context) (r : rpc float)
  (result : gresult (g_rpc ctx r) -> grpc_Status * Response) (prompt : text) : GP Z :=
  a ← gp_call (g_rpc ctx r);
  let '(status, resp) := result a in
  match grpc_error status with
  | Some code => mret code
  | None => gp_print [prompt; ENDL; DebugString resp; ENDL];; mret 0
  end.

(** [while (stream_reader_writer->Read(&resp)) PRINT_MSG(resp, "RESPONSE")]. *)
Definition read_responses (ctx : context) : GP unit :=
  ILoop (fun _ : unit =>
      resp ← icall (g_rpc ctx rpc_Subscribe_Read);
      match resp with
      | Some resp =>
          icall (g_print [lit "RESPONSE"; ENDL; DebugString resp; ENDL]);; mret (inl ())
      | None => mret (inr ())
      end) ()
    (fun _ => IRet (inr ())).

(** *** The handler and the thread *)

Definition SIGINT : Z := 2.

(** It saves and restores [errno]. *)
Definition HandleSignal (signal : Z) : prog unit := icall (g_write signal).

Definition ContextCancelThreadFunc : prog unit :=
  '(ret, signal_value) ← icall g_read;
  if ret =? 0 then mret ()
  else if negb (ret =? 4) then mret ()
  else
    ctx_ ← icall g_get_ctx_;
    match ctx_ with
    | Some ctx => icall (g_TryCancel ctx)
    | None => mret ()
    end.
End Programs.

(** ** The system *)

(** A subscription read by read, as the stub delivers it; a call that is
    cancelled leaves its response as it was declared. *)
Class GnmiStream (float W : Type) `{GnmiStub float W} := {
  no_response : Response;
  stub_Subscribe_Read : W -> option Response * W;
}.

Section System.
Context {float W : Type} `{GnmiStream float W}.
Abbreviation prog := (iprog float W).

(** What the kernel and the libraries answer when the client starts. *)
Record start_env := MkStartEnv {
  env_pipe : Z;                  (* the code of CreatePipeForSignalHandling *)
  env_signal : bool;
  env_pthread_create : bool;
  env_pthread_join : bool;
  env_CreateInstance : Z;        (* the code of its status *)
}.

Record gworld := MkGWorld {
  gw_ctl : Ctl W;                  (* the server, and the output *)
  gw_main_cancelled : bool;
  gw_command_cancelled : bool;
  gw_ctx_ : option context;
  gw_pipe : list Z;                (* the signals in the pipe *)
  gw_write_open : bool;            (* its ends *)
  gw_read_open : bool;
  gw_handler : bool;               (* HandleSignal is installed *)
  gw_thread : option (prog unit);  (* the thread, once it was started *)
}.

Definition cancelled (ctx : context) (w : gworld) : bool :=
  match ctx with main_ctx => gw_main_cancelled w | command_ctx => gw_command_cancelled w end.

Definition set_ctl (ctl : Ctl W) (w : gworld) : gworld :=
  MkGWorld ctl (gw_main_cancelled w) (gw_command_cancelled w) (gw_ctx_ w) (gw_pipe w)
    (gw_write_open w) (gw_read_open w) (gw_handler w) (gw_thread w).
Definition set_cancelled (ctx : context) (b : bool) (w : gworld) : gworld :=
  MkGWorld (gw_ctl w)
    (match ctx with main_ctx => b | command_ctx => gw_main_cancelled w end)
    (match ctx with command_ctx => b | main_ctx => gw_command_cancelled w end)
    (gw_ctx_ w) (gw_pipe w) (gw_write_open w) (gw_read_open w) (gw_handler w) (gw_thread w).
Definition set_ctx_ (ctx : option context) (w : gworld) : gworld :=
  MkGWorld (gw_ctl w) (gw_main_cancelled w) (gw_command_cancelled w) ctx (gw_pipe w)
    (gw_write_open w) (gw_read_open w) (gw_handler w) (gw_thread w).
Definition set_pipe (pipe : list Z) (write_open read_open : bool) (w : gworld) : gworld :=
  MkGWorld (gw_ctl w) (gw_main_cancelled w) (gw_command_cancelled w) (gw_ctx_ w) pipe
    write_open read_open (gw_handler w) (gw_thread w).
Definition set_handler (b : bool) (w : gworld) : gworld :=
  MkGWorld (gw_ctl w) (gw_main_cancelled w) (gw_command_cancelled w) (gw_ctx_ w) (gw_pipe w)
    (gw_write_open w) (gw_read_open w) b (gw_thread w).
Definition set_thread (t : option (prog unit)) (w : gworld) : gworld :=
  MkGWorld (gw_ctl w) (gw_main_cancelled w) (gw_command_cancelled w) (gw_ctx_ w) (gw_pipe w)
    (gw_write_open w) (gw_read_open w) (gw_handler w) t.

(** The result of a call whose context is cancelled. *)
Definition cancelled_result (r : rpc float) : rpc_result r :=
  let status := MkGrpcStatus CANCELLED "CANCELLED" in
  match r with
  | rpc_Capabilities | rpc_Get _ | rpc_Set _ => (status, no_response)
  | rpc_Subscribe_Write _ => false
  | rpc_Subscribe_Read => None
  | rpc_Subscribe_Finish => status
  end.

(** The answer of the server. *)
Definition answer (r : rpc float) (s : W) : rpc_result r * W :=
  match r with
  | rpc_Capabilities => stub_Capabilities s
  | rpc_Get req => stub_Get req s
  | rpc_Set req => stub_Set req s
  | rpc_Subscribe_Write req => stub_Subscribe_Write req s
  | rpc_Subscribe_Read => stub_Subscribe_Read s
  | rpc_Subscribe_Finish => stub_Subscribe_Finish s
  end.

Definition thread_done (w : gworld) : bool :=
  match gw_thread w with Some (IRet _) => true | _ => false end.

(** A call by the main program or the thread; [None] when it blocks. A call to
    the server goes on by itself only when it is cancelled. A write to the pipe
    does not block (a pipe holds many thousands of signals). *)
Definition do_call (env : start_env) (c : gcall float) (w : gworld) : option (gresult c * gworld) :=
  match c with
  | g_print out => Some ((), set_ctl (MkCtl (ctl_server (gw_ctl w)) (ctl_out (gw_ctl w) ++ out)) w)
  | g_context ctx => Some ((), set_cancelled ctx false w)
  | g_set_ctx_ ctx => Some ((), set_ctx_ (Some ctx) w)
  | g_get_ctx_ => Some (gw_ctx_ w, w)
  | g_TryCancel ctx => Some ((), set_cancelled ctx true w)
  | g_rpc ctx r => if cancelled ctx w then Some (cancelled_result r, w) else None
  | g_CreatePipe =>
      Some (env_pipe env, if env_pipe env =? 0 then set_pipe [] true true w else w)
  | g_signal => Some (env_signal env, if env_signal env then set_handler true w else w)
  | g_pthread_create =>
      Some (env_pthread_create env,
            if env_pthread_create env then set_thread (Some ContextCancelThreadFunc) w else w)
  | g_pthread_join => if thread_done w then Some (env_pthread_join env, w) else None
  | g_write value =>
      Some ((), if gw_write_open w then
                  set_pipe (gw_pipe w ++ [value]) (gw_write_open w) (gw_read_open w) w
                else w)
  | g_read =>
      match gw_pipe w with
      | value :: pipe => Some ((4, value), set_pipe pipe (gw_write_open w) (gw_read_open w) w)
      | [] => if gw_write_open w then None else Some ((0, 0), w)
      end
  | g_close_write => Some ((), set_pipe (gw_pipe w) false (gw_read_open w) w)
  | g_close_read => Some ((), set_pipe (gw_pipe w) (gw_write_open w) false w)
  | g_CreateInstance => Some (env_CreateInstance env, w)
  end.

(** One turn of a loop, and what comes after. *)
Definition iunfold {A} {B X : Set} (body : B -> prog (B + X)) (b : B) (k : X -> prog A) : prog A :=
  r ← body b; match r with inl b => ILoop body b k | inr r => k r end.

(** A step of a program by itself. *)
Definition prog_step {A} (env : start_env) (p : prog A) (w : gworld) : prog A * gworld :=
  match p with
  | IRet _ => (p, w)
  | ICall c k => match do_call env c w with Some (r, w) => (k r, w) | None => (p, w) end
  | ILoop body b k => (iunfold body b k, w)
  end.

(** The server answers the call [p] is in. *)
Definition server_answer {A} (p : prog A) (s : W) : option (prog A * W) :=
  match p with
  | ICall c k =>
      match c return (gresult c -> prog A) -> option (prog A * W) with
      | g_rpc _ r => fun k => let '(a, s) := answer r s in Some (k a, s)
      | _ => fun _ => None
      end k
  | _ => None
  end.

(** A thread whose [read] fails. *)
Definition read_failure (t : prog unit) : option (prog unit) :=
  match t with
  | ICall c k =>
      match c return (gresult c -> prog unit) -> option (prog unit) with
      | g_read => fun k => Some (k (-1, 0))
      | _ => fun _ => None
      end k
  | _ => None
  end.

(** A signal handler runs to its end. *)
Fixpoint run_handler (env : start_env) (p : prog unit) (w : gworld) : gworld :=
  match p with
  | ICall c k => match do_call env c w with Some (r, w) => run_handler env (k r) w | None => w end
  | _ => w
  end.

Inductive gevent :=
| RunMain
| RunThread
| Answer            (* the server answers the call the main program is in *)
| Interrupt         (* SIGINT *)
| ReadFails.        (* the thread's [read] fails *)

(** The main program; [None] when SIGINT killed it. *)
Definition gsys (A : Type) : Type := option (prog A) * gworld.

Definition has_returned {A} (p : prog A) : bool :=
  match p with IRet _ => true | _ => false end.

(** Nothing happens any more when the process has ended. *)
Definition gsys_step {A} (env : start_env) (e : gevent) (st : gsys A) : gsys A :=
  match st with
  | (None, _) => st
  | (Some p, w) =>
      if has_returned p then st else
      match e with
      | RunMain => let '(p, w) := prog_step env p w in (Some p, w)
      | RunThread =>
          match gw_thread w with
          | Some t => let '(t, w) := prog_step env t w in (Some p, set_thread (Some t) w)
          | None => st
          end
      | Answer =>
          match server_answer p (ctl_server (gw_ctl w)) with
          | Some (p, s) => (Some p, set_ctl (MkCtl s (ctl_out (gw_ctl w))) w)
          | None => st
          end
      | Interrupt =>
          if gw_handler w then (Some p, run_handler env (HandleSignal SIGINT) w) else (None, w)
      | ReadFails =>
          match gw_thread w ≫= read_failure with
          | Some t => (Some p, set_thread (Some t) w)
          | None => st
          end
      end
  end.

Definition gsys_run {A} (env : start_env) (es : list gevent) (st : gsys A) : gsys A :=
  fold_left (fun st e => gsys_step env e st) es st.

Definition gsys_start {A} (p : prog A) (ctl : Ctl W) : gsys A :=
  (Some p, MkGWorld ctl false false None [] false false false None).
End System.
Arguments gworld float W {_}.
Arguments gsys float W {_} A.
