(* ===== verification/GnmiStart.v ===== *)
(** * gnmi-ctl as a program of calls ([src/clients/gnmi-ctl/gnmi_ctl.cc])

    [Main] from its first line on: flags, the pipe for signals, the handler, the
    thread, the channel, and then the commands, whose work on the argument is
    that of [GnmiCtl]. Every command declares a [ClientContext ctx] of its own
    ([command_ctx]), which hides the one [ctx_] points to ([main_ctx]). *)

From stdpp Require Import gmap.
From Stdlib Require Import Ascii.
From S2P Require Import Prelude Session CText GnmiCtl Signals.

(** ** [client_cert_options.cc] *)

(** The flags of stratum's credentials manager. *)
Record CertFlags := MkCertFlags {
  FLAGS_ca_cert_file : text;
  FLAGS_server_key_file : text;
  FLAGS_server_cert_file : text;
  FLAGS_client_key_file : text;
  FLAGS_client_cert_file : text;
}.

Definition DEFAULT_CERTS_DIR : text := lit "/usr/share/stratum/certs/".

(** It assigns every flag. *)
Definition set_client_cert_defaults (flags : CertFlags) : CertFlags :=
  MkCertFlags (DEFAULT_CERTS_DIR ++ lit "ca.crt") (DEFAULT_CERTS_DIR ++ lit "stratum.key")
    (DEFAULT_CERTS_DIR ++ lit "stratum.crt") (DEFAULT_CERTS_DIR ++ lit "client.key")
    (DEFAULT_CERTS_DIR ++ lit "client.crt").

(** ** [gnmi_ctl.cc] *)

(** All flags of the program; [FLAGS_grpc_addr] is only passed to
    [CreateChannel]. *)
Record AllFlags (C : Type) := MkAllFlags {
  all_cert : CertFlags;
  FLAGS_grpc_use_insecure_mode : bool;
  FLAGS_grpc_addr : text;
  all_client : C;
}.
Arguments MkAllFlags {_} _ _ _ _.
Arguments all_cert {_} _.
Arguments FLAGS_grpc_use_insecure_mode {_} _.
Arguments FLAGS_grpc_addr {_} _.
Arguments all_client {_} _.

Definition default_AllFlags : AllFlags CtlFlags :=
  MkAllFlags (MkCertFlags [] [] [] [] []) false (lit "localhost:9339") default_CtlFlags.

Definition kUsage : text :=
  lit "usage: gnmi-ctl [Options] {get,set,cap,sub-onchange,sub-sample} parameters" ++ ENDL ++
  ENDL ++
  lit "Basic gNMI CLI" ++ ENDL ++
  ENDL ++
  lit "positional arguments:" ++ ENDL ++
  lit "  {get,set,cap,sub-onchange,sub-sample}         gNMI command" ++ ENDL ++
  lit "  parameter                                     gNMI config parameters" ++ ENDL ++
  ENDL ++
  lit "parameters:" ++ ENDL ++
  lit "  " ++ ["034"%char] ++ lit "device:<type>,name=<name>,<key:value>" ++ ["034"%char] ++ ENDL ++
  ENDL ++
  lit "example:" ++ ENDL ++
  lit "   gnmi-ctl set " ++ ["034"%char] ++
    lit "device:<type>,name=<name>,<key:value>,<key:value>,..." ++ ["034"%char] ++ ENDL ++
  lit "   gnmi-ctl get " ++ ["034"%char] ++ lit "device:<type>,name=<name>,key" ++ ["034"%char] ++
    ENDL.

Section Program.
Context {float W : Type} `{GnmiStub float W}.
Abbreviation prog := (iprog float W).
Abbreviation GP A := (Signals.GP (float := float) (W := W) A).

Section Commands.
Variable flags : CtlFlags.

(** [if (cmd == "get")]: the request, and the command. *)
Definition get_turn {S} (m : mem) (path : nat) (buffer : mem) : G S (GetRequest * list text) :=
  path1 ← in_array (strcpy_at zero_array 0 (c_str buffer 0));
  '(path, path1, config_value, params, m) ← traverse_params flags m path path1 zero_array true;
  mret (build_gnmi_get_req flags (c_str path1 0)).

Definition get_prog (m : mem) (path : nat) (buffer : mem) : GP Z :=
  gp_call (g_context command_ctx);;
  '(req, out) ← lift (get_turn m path buffer);
  gp_print out;;
  gp_unary command_ctx (rpc_Get req) id (lit "Get Response from Server").

(** One turn of the [while (params)] loop up to [if (params)]: path and value,
    [None] when [params] is false. *)
Definition set_turn {S} (m : mem) (path : nat) (buffer : mem) (vhost_device : bool)
  : G S (option (text * text) * nat * mem) :=
  path1 ← in_array (strcpy_at zero_array 0 (c_str buffer 0));
  '(path, path1, config_value, params, m) ← traverse_params flags m path path1 zero_array true;
  config_value ←
    (if decide ((c_str config_value 0 = lit "link" \/
                 c_str config_value 0 = lit "LINK") /\ vhost_device = true)
     then in_array (strcpy_at config_value 0 (lit "vhost"))
     else mret config_value);
  mret (if (params : bool) then Some (c_str path1 0, c_str config_value 0) else None, path, m).

(** The loop. *)
Fixpoint set_prog (fuel : nat) (m : mem) (path : nat) (buffer : mem) (vhost_device : bool)
  : GP (option Z) :=
  match fuel with
  | O => gp_stop out_of_fuel
  | S fuel =>
      '(params, path, m) ← lift (set_turn m path buffer vhost_device);
      match params with
      | None => mret None
      | Some (path1, config_value) =>
          gp_call (g_context command_ctx);;
          match build_gnmi_set_req flags path1 config_value with
          | None => gp_stop uncaught_exception
          | Some req =>
              a ← gp_call (g_rpc command_ctx (rpc_Set req));
              let '(status, resp) := (a : grpc_Status * Response) in
              match grpc_error status with
              | Some code => mret (Some code)
              | None => set_prog fuel m path buffer vhost_device
              end
          end
      end
  end.

(** The two subscriptions. The result of [Write] is not looked at. *)
Definition subscribe_prog (req : SubscribeRequest) : GP Z :=
  gp_call (g_context command_ctx);;
  gp_call (g_rpc command_ctx (rpc_Subscribe_Write req));;
  read_responses command_ctx;;
  status ← gp_call (g_rpc command_ctx rpc_Subscribe_Finish);
  match grpc_error status with
  | Some code => mret code
  | None => mret 0
  end.

Variable ERR_INVALID_PARAM : Z.

(** From the choice of the command on. *)
Definition command_prog (cmd : text) (args : list text) : GP Z :=
  if decide (cmd = lit "cap") then
    gp_call (g_context command_ctx);;
    gp_print [lit "REQUEST"; ENDL; CapabilityRequest_DebugString; ENDL];;
    gp_unary command_ctx rpc_Capabilities id (lit "RESPONSE")
  else
  match args with
  | [] => gp_print [lit "Missing path for "; cmd; lit " request" ++ ENDL];; mret 0
  | arg :: _ =>
      let buffer := client_strzcpy (FLAGS_root_node flags) MAX_STR_LENGTH in
      '(invalid, path, buffer, vhost_device, m) ←
        lift (extract_interface_node flags (arg ++ [NUL]) 0 buffer false);
      if (invalid : bool) then
        gp_print [lit "Invalid device and name information" ++ ENDL];; mret 0
      else if decide (cmd = lit "get") then get_prog m path buffer
      else if decide (cmd = lit "set") then
        r ← set_prog (length m + 1) m path buffer vhost_device;
        match r with
        | Some code => mret code
        | None => gp_print [lit "Set request, successful...!!!"; ENDL];; mret 0
        end
      else if decide (cmd = lit "del") then
        gp_call (g_context command_ctx);;
        gp_unary command_ctx (rpc_Set (build_gnmi_del_req (c_str m path))) id (lit "RESPONSE")
      else if decide (cmd = lit "sub-onchange") then
        subscribe_prog (build_gnmi_sub_onchange_req (c_str m path))
      else if decide (cmd = lit "sub-sample") then
        subscribe_prog (build_gnmi_sub_sample_req (c_str m path) (FLAGS_interval flags))
      else mret ERR_INVALID_PARAM
  end.
End Commands.

(** The cleanup, which runs when [Main] is left after the thread was started. *)
Definition cleaner : prog unit :=
  let signal := SIGINT in
  icall (g_write signal);;
  joined ← icall g_pthread_join;
  icall g_close_write;;
  icall g_close_read;;
  icall (g_TryCancel main_ctx).

(** The channel: credentials are needed for a secure one. *)
Definition channel_prog (insecure : bool) (rest : GP Z) : GP Z :=
  if insecure then rest
  else
    code ← gp_call g_CreateInstance;
    if negb (code =? 0) then mret code else rest.

(** How [Main] is left: whether the cleanup runs, and the result. A fault ends
    the process: the exception is caught nowhere. *)
Definition leave (r : fault + Z) : bool * (fault + Z) :=
  match r with inl e => (false, inl e) | inr code => (true, inr code) end.

(** From the declaration of [ctx] on. *)
Definition context_prog (RET_CHECK_FAILURE : Z) (body : GP Z) : GP Z :=
  gp_call (g_context main_ctx);;
  gp_call (g_set_ctx_ main_ctx);;
  code ← gp_call g_CreatePipe;
  if negb (code =? 0) then mret code else
  ok ← gp_call g_signal;
  if negb (ok : bool) then mret RET_CHECK_FAILURE else
  ok ← gp_call g_pthread_create;
  if negb (ok : bool) then mret RET_CHECK_FAILURE else
  ibind body (fun r =>
    let '(clean, r) := leave r in
    if clean then ibind cleaner (fun _ => IRet r) else IRet r).

(** gflags and stratum's InitGoogle: the flags after the command line was read,
    and what is left of it. *)
Variable ParseCommandLineFlags : AllFlags CtlFlags * list text -> AllFlags CtlFlags * list text.
Variable InitGoogle : AllFlags CtlFlags * list text -> AllFlags CtlFlags * list text.

Definition Main_prog (ERR_INVALID_PARAM RET_CHECK_FAILURE : Z) (flags : AllFlags CtlFlags)
  (argv : list text) : GP Z :=
  let flags :=
    MkAllFlags (set_client_cert_defaults (all_cert flags)) (FLAGS_grpc_use_insecure_mode flags)
      (FLAGS_grpc_addr flags) (all_client flags) in
  let '(flags, argv) := InitGoogle (ParseCommandLineFlags (flags, argv)) in
  match argv with
  | argv0 :: cmd :: args =>
      context_prog RET_CHECK_FAILURE
        (channel_prog (FLAGS_grpc_use_insecure_mode flags)
          (command_prog (all_client flags) ERR_INVALID_PARAM cmd args))
  | _ => gp_print [kUsage; ENDL];; mret ERR_INVALID_PARAM
  end.
End Program.
