(* ===== verification/SgnmiStart.v ===== *)
(** * sgnmi_cli as a program of calls ([src/clients/sgnmi_cli/sgnmi_cli.cc])

    As [GnmiStart] for the other client. Its commands use the [ClientContext] of
    [Main], which [ctx_] points to. *)

From stdpp Require Import gmap.
From Stdlib Require Import Ascii.
From S2P Require Import Prelude Session CText GnmiCtl SgnmiCli Signals GnmiStart.

Definition kUsage : text :=
  lit "usage: sgnmi_cli [--help] [Options] COMMAND PATH" ++ ENDL ++
  ENDL ++
  lit "Secure gNMI CLI" ++ ENDL ++
  ENDL ++
  lit "positional arguments:" ++ ENDL ++
  lit "  COMMAND                  gNMI command" ++ ENDL ++
  lit "                           (get,set,cap,del,sub-onchange,sub-sample)" ++ ENDL ++
  lit "  PATH                     gNMI path" ++ ENDL ++
  ENDL ++
  lit "optional arguments:" ++ ENDL ++
  lit "  --helpshort              show help message and exit" ++ ENDL ++
  lit "  --help                   show help on all flags and exit" ++ ENDL ++
  lit "  --grpc_addr GRPC_ADDR    gNMI server address" ++ ENDL ++
  lit "  --ca_cert_file FILE      CA certificate" ++ ENDL ++
  lit "  --client_cert_file FILE  gRPC Client certificate" ++ ENDL ++
  lit "  --client_key_file FILE   gRPC Client key" ++ ENDL ++
  lit "  --grpc_use_insecure_mode Insecure mode (default: false)" ++ ENDL ++
  ENDL ++
  lit "[get request only]" ++ ENDL ++
  lit "  --get-type TYPE          Use specific data type for get request" ++ ENDL ++
  lit "                           (ALL,CONFIG,STATE,OPERATIONAL)" ++ ENDL ++
  ENDL ++
  lit "[set request only]" ++ ENDL ++
  lit "  --bool_val BOOL_VAL      Set boolean value" ++ ENDL ++
  lit "  --int_val INT_VAL        Set int value (64-bit)" ++ ENDL ++
  lit "  --uint_val UINT_VAL      Set uint value (64-bit)" ++ ENDL ++
  lit "  --string_val STRING_VAL  Set string value" ++ ENDL ++
  lit "  --float_val FLOAT_VAL    Set float value" ++ ENDL ++
  lit "  --proto_bytes PROTO_VAL  Set protobuf bytes value" ++ ENDL ++
  lit "  --bytes_val_file FILE    Send file as bytes value" ++ ENDL ++
  lit "  --replace                Replace instead of updating" ++ ENDL ++
  ENDL ++
  lit "[sample subscribe only]" ++ ENDL ++
  lit "  --interval INTERVAL      Sample subscribe poll interval in ms" ++ ENDL.

Section Program.
Context `{RE2} {float : Type} `{Stratum float} {W : Type} `{GnmiStub float W}.
Abbreviation prog := (iprog float W).
Abbreviation GP A := (Signals.GP (float := float) (W := W) A).

(** [DebugString] of the requests. *)
Context (get_text : GetRequest -> text) (set_text : SetRequest float -> text)
  (subscribe_text : SubscribeRequest -> text).

(** The same text as in gnmi_ctl.cc. *)
Definition HandleSignal (signal : Z) : prog unit := Signals.HandleSignal signal.
Definition ContextCancelThreadFunc : prog unit := Signals.ContextCancelThreadFunc.

Section Commands.
Variable flags : CliFlags.

(** [PRINT_MSG]. *)
Definition gp_PRINT_MSG (msg prompt : text) : GP unit := gp_print [prompt; ENDL; msg; ENDL].

(** The two subscriptions: without the write, the stream is given up. *)
Definition subscribe_prog (req : SubscribeRequest) : GP Z :=
  gp_PRINT_MSG (subscribe_text req) (lit "REQUEST");;
  written ← gp_call (g_rpc main_ctx (rpc_Subscribe_Write req));
  if negb (written : bool) then mret RET_CHECK_FAILURE else
  read_responses main_ctx;;
  status ← gp_call (g_rpc main_ctx rpc_Subscribe_Finish);
  match grpc_error status with
  | Some code => mret code
  | None => mret 0
  end.

(** From the choice of the command on. *)
Definition command_prog (cmd : text) (args : list text) : GP Z :=
  if decide (cmd = lit "cap") then
    gp_PRINT_MSG CapabilityRequest_DebugString (lit "REQUEST");;
    gp_unary main_ctx rpc_Capabilities id (lit "RESPONSE")
  else
  match args with
  | [] => mret ERR_INVALID_PARAM
  | path :: _ =>
      if decide (cmd = lit "get") then
        let '(req, out) := BuildGnmiGetRequest flags path in
        gp_print out;;
        gp_PRINT_MSG (get_text req) (lit "REQUEST");;
        gp_unary main_ctx (rpc_Get req) id (lit "RESPONSE")
      else if decide (cmd = lit "set") then
        match BuildGnmiSetRequest flags path with
        | None => gp_stop uncaught_exception
        | Some (req, out) =>
            gp_print out;;
            gp_PRINT_MSG (set_text req) (lit "REQUEST");;
            gp_unary main_ctx (rpc_Set req) id (lit "RESPONSE")
        end
      else if decide (cmd = lit "del") then
        let req := BuildGnmiDeleteRequest path in
        gp_PRINT_MSG (set_text req) (lit "REQUEST");;
        gp_unary main_ctx (rpc_Set req) id (lit "RESPONSE")
      else if decide (cmd = lit "sub-onchange") then
        subscribe_prog (BuildGnmiSubOnchangeRequest path)
      else if decide (cmd = lit "sub-sample") then
        subscribe_prog (BuildGnmiSubSampleRequest path (cli_interval flags))
      else mret ERR_INVALID_PARAM
  end.
End Commands.

(** The cleanup. *)
Definition cleaner : prog unit :=
  let signal := SIGINT in
  icall (g_write signal);;
  joined ← icall g_pthread_join;
  icall g_close_write;;
  icall g_close_read;;
  icall (g_TryCancel main_ctx).

Definition channel_prog (insecure : bool) (rest : GP Z) : GP Z :=
  if insecure then rest
  else
    code ← gp_call g_CreateInstance;
    if negb (code =? 0) then mret code else rest.

(** How [Main] is left: whether the cleanup runs, and the result. [main] catches
    the exception, which leaves [Main] through the cleanup. *)
Definition leave (r : fault + Z) : bool * (fault + Z) :=
  match r with
  | inl uncaught_exception => (true, inr INTERNAL)
  | inl e => (false, inl e)
  | inr code => (true, inr code)
  end.

(** From the declaration of [ctx] on. *)
Definition context_prog (body : GP Z) : GP Z :=
  gp_call (g_context main_ctx);;
  gp_call (g_set_ctx_ main_ctx);;
  code ← gp_call g_CreatePipe;
  if negb (code =? 0) then mret code else
  ok ← gp_call g_signal;
  if negb (ok : bool) then mret RET_CHECK_FAILURE else
  ok ← gp_call g_pthread_create;
  if negb (ok : bool) then mret RET_CHECK_FAILURE else
  ibind body (fun r =>
    let '(clean, r) := leave r in
    if clean then ibind cleaner (fun _ => IRet r) else IRet r).

(** InitGoogle parses the flags. *)
Variable InitGoogle : AllFlags CliFlags * list text -> AllFlags CliFlags * list text.

Definition Main_prog (flags : AllFlags CliFlags) (argv : list text) : GP Z :=
  let flags :=
    MkAllFlags (set_client_cert_defaults (all_cert flags)) (FLAGS_grpc_use_insecure_mode flags)
      (FLAGS_grpc_addr flags) (all_client flags) in
  let '(flags, argv) := InitGoogle (flags, argv) in
  match argv with
  | argv0 :: cmd :: args =>
      context_prog (channel_prog (FLAGS_grpc_use_insecure_mode flags)
        (command_prog (all_client flags) cmd args))
  | _ => gp_print [kUsage; ENDL];; mret ERR_INVALID_PARAM
  end.
End Program.
