(* ===== verification/SignalProps.v ===== *)
(** * The gNMI clients under interrupts: theorems

    First the system with any body between the start and the cleanup, by an
    invariant over the phases of [Main]; then the two clients. *)

From stdpp Require Import gmap.
From Stdlib Require Import Ascii FunctionalExtensionality.
From S2P Require Import Prelude Session CText GnmiCtl SgnmiCli Signals GnmiStart SgnmiStart.

(** ** Programs *)

Section Programs.
Context {float W : Type} `{GnmiStub float W}.
Abbreviation prog := (iprog float W).

Lemma ibind_assoc {A B C : Type} (p : prog A) (f : A -> prog B) (g : B -> prog C) :
  ibind (ibind p f) g = ibind p (fun a => ibind (f a) g).
Proof.
  revert B C f g. induction p as [A a|A c k IH|A D X body IHb b k IH]; intros B C f g; [done|..];
    cbn [ibind]; f_equal; apply functional_extensionality; intros r; apply IH.
Qed.

Lemma iunfold_bind {A B : Type} {D X : Set} (body : D -> prog (D + X)) b k (f : A -> prog B) :
  iunfold body b (fun x => ibind (k x) f) = ibind (iunfold body b k) f.
Proof.
  unfold iunfold, mbind, iprog_bind. rewrite ibind_assoc. f_equal.
  apply functional_extensionality. by intros [b'|x].
Qed.

(** Every call of the program is in [P]. *)
Fixpoint every (P : gcall float -> Prop) {A : Type} (p : prog A) : Prop :=
  match p with
  | IRet _ => True
  | ICall c k => P c /\ forall r, every P (k r)
  | ILoop body b k => (forall b, every P (body b)) /\ forall x, every P (k x)
  end.

Lemma every_bind P {A B : Type} (p : prog A) (f : A -> prog B) :
  every P p -> (forall a, every P (f a)) -> every P (ibind p f).
Proof.
  revert B f. induction p as [A a|A c k IH|A D X body IHb b k IH]; intros B f; cbn [every ibind]; [done|..].
  - intros [Hc Hk] Hf. split; [done|]. intros r. by apply IH.
  - intros [Hb Hk] Hf. split; [done|]. intros x. by apply IH.
Qed.
End Programs.

(** ** Cancelled calls end loops *)

Section Exits.
Context {float W : Type} `{GnmiStream float W}.
Abbreviation prog := (iprog float W).

(** A program whose calls to the server are cancelled returns a value in [P]. *)
Fixpoint yields {A : Type} (P : A -> Prop) (p : prog A) : Prop :=
  match p with
  | IRet a => P a
  | ICall c k =>
      match c return (gresult c -> prog A) -> Prop with
      | g_rpc _ r => fun k => yields P (k (cancelled_result r))
      | _ => fun k => forall r, yields P (k r)
      end k
  | ILoop _ _ _ => False
  end.

(** A turn of a loop whose calls are cancelled leaves the loop. *)
Definition exits {B X : Type} (p : prog (B + X)) : Prop := yields (fun r => exists x, r = inr x) p.

Fixpoint loops_exit {A : Type} (p : prog A) : Prop :=
  match p with
  | IRet _ => True
  | ICall c k => forall r, loops_exit (k r)
  | ILoop body b k =>
      (forall b, loops_exit (body b) /\ exits (body b)) /\ forall x, loops_exit (k x)
  end.

Lemma loops_exit_bind {A B : Type} (p : prog A) (f : A -> prog B) :
  loops_exit p -> (forall a, loops_exit (f a)) -> loops_exit (ibind p f).
Proof.
  revert B f. induction p as [A a|A c k IH|A D X body IHb b k IH]; intros B f;
    cbn [loops_exit ibind]; [done|..].
  - intros Hk Hf r. by apply IH.
  - intros [Hb Hk] Hf. split; [done|]. intros x. by apply IH.
Qed.
End Exits.

(** ** The phases of [Main] *)

Section Phases.
Context {float W : Type} `{GnmiStream float W}.
Abbreviation prog := (iprog float W).
Abbreviation GP A := (Signals.GP (float := float) (W := W) A).
Abbreviation world := (gworld float W).

Variable env : start_env.
Variable RET_CHECK_FAILURE : Z.
Variable leave : fault + Z -> bool * (fault + Z).
Hypothesis leave_fault : forall r r', leave r = (false, r') -> exists e, r' = inl e.
(** The context of the calls of the commands. *)
Variable command : context.
Variable body : GP Z.

(** The program from each call on. *)
Definition leaving (r : fault + Z) : GP Z :=
  let '(clean, r) := leave r in
  if clean then ibind GnmiStart.cleaner (fun _ => IRet r) else IRet r.
Definition create_prog : GP Z :=
  ok ← gp_call g_pthread_create;
  if negb (ok : bool) then mret RET_CHECK_FAILURE else ibind body leaving.
Definition signal_prog : GP Z :=
  ok ← gp_call g_signal; if negb (ok : bool) then mret RET_CHECK_FAILURE else create_prog.
Definition pipe_prog : GP Z :=
  code ← gp_call g_CreatePipe; if negb (code =? 0) then mret code else signal_prog.
Definition set_ctx_prog : GP Z := gp_call (g_set_ctx_ main_ctx);; pipe_prog.
Definition start_prog : GP Z := gp_call (g_context main_ctx);; set_ctx_prog.

Definition cancel_prog (r : fault + Z) : GP Z := ICall (g_TryCancel main_ctx) (fun _ => IRet r).
Definition close_read_prog r : GP Z := ICall g_close_read (fun _ => cancel_prog r).
Definition close_write_prog r : GP Z := ICall g_close_write (fun _ => close_read_prog r).
Definition join_prog r : GP Z := ICall g_pthread_join (fun _ => close_write_prog r).
Definition write_prog r : GP Z := ICall (g_write SIGINT) (fun _ => join_prog r).

Lemma leaving_eq r :
  leaving r = let '(clean, r) := leave r in if clean then write_prog r else IRet r.
Proof. done. Qed.

Inductive phase :=
| Ph_context | Ph_set_ctx_ | Ph_pipe | Ph_signal | Ph_create
| Ph_body (p : GP Z)
| Ph_write (r : fault + Z) | Ph_join (r : fault + Z) | Ph_close_write (r : fault + Z)
| Ph_close_read (r : fault + Z) | Ph_cancel (r : fault + Z)
| Ph_end (r : fault + Z).

Definition phase_prog (ph : phase) : GP Z :=
  match ph with
  | Ph_context => start_prog
  | Ph_set_ctx_ => set_ctx_prog
  | Ph_pipe => pipe_prog
  | Ph_signal => signal_prog
  | Ph_create => create_prog
  | Ph_body p => ibind p leaving
  | Ph_write r => write_prog r
  | Ph_join r => join_prog r
  | Ph_close_write r => close_write_prog r
  | Ph_close_read r => close_read_prog r
  | Ph_cancel r => cancel_prog r
  | Ph_end r => IRet r
  end.

(** The calls of a body. *)
Definition body_call (c : gcall float) : Prop :=
  match c with
  | g_print _ | g_CreateInstance => True
  | g_context ctx => ctx = command_ctx
  | g_rpc ctx _ => ctx = command
  | _ => False
  end.

Definition body_ok {A : Type} (p : prog A) : Prop := every body_call p /\ loops_exit p.

(** Where the thread is. *)
Inductive thread_point := TP_read | TP_load | TP_cancel | TP_done.

Definition thread_prog (tp : thread_point) : prog unit :=
  match tp with
  | TP_read => ContextCancelThreadFunc
  | TP_load =>
      ctx_ ← icall g_get_ctx_;
      match ctx_ with Some ctx => icall (g_TryCancel ctx) | None => mret () end
  | TP_cancel => icall (g_TryCancel main_ctx)
  | TP_done => IRet ()
  end.

(** Before the thread runs. *)
Record starting (ctx_ : option context) (opened handler : bool) (w : world) : Prop := {
  st_main : gw_main_cancelled w = false;
  st_command : gw_command_cancelled w = false;
  st_ctx_ : gw_ctx_ w = ctx_;
  st_write : gw_write_open w = opened;
  st_read : gw_read_open w = opened;
  st_handler : gw_handler w = handler;
  st_thread : gw_thread w = None;
}.

(** While it runs: [intr] says that a signal may have come, [failed] that its
    [read] may have failed. *)
Record running (intr failed : bool) (tp : thread_point) (w : world) : Prop := {
  rn_command : gw_command_cancelled w = false;
  rn_ctx_ : gw_ctx_ w = Some main_ctx;
  rn_write : gw_write_open w = true;
  rn_read : gw_read_open w = true;
  rn_handler : gw_handler w = true;
  rn_thread : gw_thread w = Some (thread_prog tp);
  rn_done : failed = false -> tp = TP_done -> gw_main_cancelled w = true;
  rn_quiet : intr = false ->
    gw_pipe w = [] /\ gw_main_cancelled w = false /\ (tp = TP_read \/ tp = TP_done);
}.

(** When it has been joined. *)
Record closing (write_open read_open : bool) (w : world) : Prop := {
  cl_thread : gw_thread w = Some (IRet ());
  cl_write : gw_write_open w = write_open;
  cl_read : gw_read_open w = read_open;
  cl_handler : gw_handler w = true;
}.

Definition phase_inv (intr failed : bool) (ph : phase) (w : world) : Prop :=
  match ph with
  | Ph_context | Ph_set_ctx_ => starting None false false w /\ gw_pipe w = []
  | Ph_pipe => starting (Some main_ctx) false false w /\ gw_pipe w = []
  | Ph_signal => starting (Some main_ctx) true false w /\ gw_pipe w = []
  | Ph_create => starting (Some main_ctx) true true w /\ (intr = false -> gw_pipe w = [])
  | Ph_body p => body_ok p /\ exists tp, running intr failed tp w
  | Ph_write r => exists tp, running intr failed tp w
  | Ph_join r => exists tp, running true failed tp w /\ (gw_pipe w <> [] \/ tp <> TP_read)
  | Ph_close_write r => closing true true w
  | Ph_close_read r => closing false true w
  | Ph_cancel r => closing false false w
  | Ph_end r => gw_thread w = None \/ (exists e, r = inl e) \/ closing false false w
  end.

Definition sys_inv (intr failed : bool) (st : gsys float W (fault + Z)) : Prop :=
  match st.1 with
  | None => True
  | Some p => exists ph, p = phase_prog ph /\ phase_inv intr failed ph st.2
  end.

(** A body that has returned is in the next phase. *)
Lemma phase_cases intr failed ph w :
  phase_inv intr failed ph w ->
  exists ph', phase_prog ph' = phase_prog ph /\ phase_inv intr failed ph' w /\
    match ph' with Ph_body (IRet _) => False | _ => True end.
Proof.
  intros Hinv. destruct ph as [| | | | |[r|c k|B X lb b k]| | | | | |]; try (by eexists).
  cbn [phase_prog ibind]. rewrite leaving_eq. destruct (leave r) as [clean r'] eqn:Hl.
  destruct Hinv as [_ [tp Hr]]. destruct clean.
  - exists (Ph_write r'). split; [done|]. split; [by exists tp|done].
  - exists (Ph_end r'). split; [done|]. split; [|done]. right; left. by eapply leave_fault.
Qed.

(** *** Steps *)

Lemma running_step intr failed intr' failed' tp w :
  running intr failed tp w -> (intr' = false -> intr = false) -> (failed' = false -> failed = false) ->
  running intr' failed' tp w.
Proof. intros []; split; auto. Qed.

Lemma phase_inv_mono intr failed intr' failed' ph w :
  phase_inv intr failed ph w -> (intr' = false -> intr = false) ->
  (failed' = false -> failed = false) -> phase_inv intr' failed' ph w.
Proof.
  intros Hinv Hi Hf. destruct ph; simpl in *; try done.
  - destruct Hinv as [Hs Hp]. split; auto.
  - destruct Hinv as [Hb [tp Hr]]. split; [done|]. exists tp. by eapply running_step.
  - destruct Hinv as [tp Hr]. exists tp. by eapply running_step.
  - destruct Hinv as (tp & Hr & Hp). exists tp. split; [|done]. by eapply running_step.
Qed.

(** The thread. It never writes, and gets on unless it waits. *)
Definition thread_next (tp : thread_point) : thread_point :=
  match tp with TP_read => TP_load | TP_load => TP_cancel | TP_cancel | TP_done => TP_done end.

Lemma thread_step intr failed tp w :
  running intr failed tp w ->
  exists tp', let '(t, w') := prog_step env (thread_prog tp) w in
    running intr failed tp' (set_thread (Some t) w') /\
    gw_ctl w' = gw_ctl w /\ (tp = TP_done -> w' = w) /\
    (tp <> TP_read -> gw_pipe w' = gw_pipe w) /\
    (tp' = thread_next tp \/ (tp = TP_read /\ gw_pipe w = [] /\ tp' = TP_read)).
Proof.
  intros [Hc Hx Hw Hr Hh Ht Hd Hq].
  destruct tp; cbn [thread_prog].
  - unfold ContextCancelThreadFunc; cbn. destruct (gw_pipe w) as [|v pipe] eqn:Hp; cbn.
    + rewrite Hw. exists TP_read. split; [by constructor; simpl; rewrite ?Hp|]. repeat split; auto.
    + exists TP_load. split; [constructor; simpl; try done|].
      * intros Hi. by destruct (Hq Hi).
      * repeat split; auto; done.
  - exists TP_cancel. cbn. rewrite Hx. split; [constructor; simpl; try done|].
    + intros Hi. by destruct (Hq Hi) as (? & ? & [?|?]).
    + repeat split; auto; done.
  - exists TP_done. cbn. split; [constructor; simpl; try done|].
    + intros Hi. by destruct (Hq Hi) as (? & ? & [?|?]).
    + repeat split; auto; done.
  - exists TP_done. cbn. split; [constructor; simpl; auto|]. repeat split; auto.
Qed.

Lemma step_bind {A B : Type} (p : prog A) (f : A -> prog B) w :
  match p with IRet _ => False | _ => True end ->
  prog_step env (ibind p f) w = (ibind (prog_step env p w).1 f, (prog_step env p w).2).
Proof.
  intros Hp. destruct p as [a|c k|D X lb b k]; [done|..]; cbn [ibind prog_step].
  - by destruct (do_call env c w) as [[r w']|].
  - by rewrite iunfold_bind.
Qed.

Lemma body_ok_call {A : Type} c (k : _ -> prog A) : body_ok (ICall c k) -> body_call c /\ forall r, body_ok (k r).
Proof. intros [[Hc Hk] Hl]. split; [done|]. intros r. by split. Qed.

Lemma body_ok_loop {A : Type} {B X : Set} (lb : B -> prog (B + X)) b (k : X -> prog A) :
  body_ok (ILoop lb b k) -> body_ok (iunfold lb b k).
Proof.
  intros [[Hb Hk] [Hlb Hlk]]. split.
  - apply every_bind; [apply Hb|]. by intros [b'|x].
  - apply loops_exit_bind; [apply Hlb|]. by intros [b'|x].
Qed.

Lemma body_do_call intr failed tp c w :
  body_call c -> running intr failed tp w ->
  match do_call env c w with
  | Some (r, w') => running intr failed tp w' /\ gw_main_cancelled w' = gw_main_cancelled w
  | None => True
  end.
Proof.
  intros Hc Hr. destruct c; try done; cbn.
  - split; [|done]. by destruct Hr; constructor.
  - cbn in Hc. subst ctx. split; [|done]. by destruct Hr; constructor.
  - by destruct (cancelled ctx w).
Qed.

Lemma body_step {A : Type} intr failed tp (p : prog A) w :
  body_ok p -> running intr failed tp w ->
  body_ok (prog_step env p w).1 /\ running intr failed tp (prog_step env p w).2 /\
  gw_main_cancelled (prog_step env p w).2 = gw_main_cancelled w.
Proof.
  intros Hp Hr. destruct p as [a|c k|D X lb b k]; [done|..]; cbn [prog_step].
  - destruct (body_ok_call _ _ Hp) as [Hc Hk]. pose proof (body_do_call _ _ _ c w Hc Hr) as Hd.
    destruct (do_call env c w) as [[r w']|]; [|done]. destruct Hd. split; [apply Hk|done].
  - split; [by apply body_ok_loop|done].
Qed.

(** Programs put together are bodies. *)
Lemma body_ok_bind {A B : Type} (p : prog A) (f : A -> prog B) :
  body_ok p -> (forall a, body_ok (f a)) -> body_ok (ibind p f).
Proof.
  intros [Hp Hl] Hf. split; [apply every_bind|apply loops_exit_bind]; try done; intros a; apply Hf.
Qed.

Lemma body_ok_ret {A : Type} (a : A) : body_ok (IRet a).
Proof. done. Qed.

Lemma body_ok_gp {A : Type} c (k : _ -> GP A) :
  body_call c -> (forall r, body_ok (k r)) -> body_ok (gp_call c ≫= k).
Proof. intros Hc Hk. split; [split; [done|]|]; intros r; apply Hk. Qed.

Lemma body_ok_gp_bind {A B : Type} (p : GP A) (f : A -> GP B) :
  body_ok p -> (forall a, body_ok (f a)) -> body_ok (p ≫= f).
Proof. intros Hp Hf. apply body_ok_bind; [done|]. by intros [e|a]. Qed.

Lemma body_ok_lift {A : Type} (g : G unit A) : body_ok (lift g).
Proof. unfold lift. by destruct (g (MkCtl () [])). Qed.

Lemma body_ok_unary r result prompt : body_ok (gp_unary command r result prompt).
Proof.
  apply body_ok_gp; [done|]. intros a. destruct (result a) as [status resp].
  destruct (grpc_error status); [done|]. by apply body_ok_gp.
Qed.

Lemma body_ok_reads : body_ok (read_responses command).
Proof.
  split.
  - split; [|done]. intros []. split; [done|]. by intros [resp|].
  - split; [|done]. intros []. split; [by intros [resp|]|]. by exists ().
Qed.

Hypothesis body_is_ok : body_ok body.

Ltac next ph := exists ph; split; [reflexivity|].

Lemma main_step intr failed ph w :
  phase_inv intr failed ph w ->
  exists ph', (prog_step env (phase_prog ph) w).1 = phase_prog ph' /\
    phase_inv intr failed ph' (prog_step env (phase_prog ph) w).2.
Proof.
  intros Hinv. apply phase_cases in Hinv as (ph1 & <- & Hinv & Hnot).
  destruct ph1 as [| | | | |p|r|r|r|r|r|r].
  - next Ph_set_ctx_. destruct Hinv as [[] ?]. by repeat constructor.
  - next Ph_pipe. destruct Hinv as [[] ?]. by repeat constructor.
  - destruct Hinv as [Hs Hp]. cbn. destruct (env_pipe env =? 0); cbn.
    + next Ph_signal. destruct Hs. by repeat constructor.
    + next (Ph_end (inr (env_pipe env))). left. apply Hs.
  - destruct Hinv as [Hs Hp]. cbn. destruct (env_signal env); cbn.
    + next Ph_create. destruct Hs. by repeat constructor.
    + next (Ph_end (inr RET_CHECK_FAILURE)). left. apply Hs.
  - destruct Hinv as [Hs Hp]. cbn. destruct (env_pthread_create env); cbn.
    + next (Ph_body body). split; [done|]. exists TP_read. destruct Hs. constructor; simpl; auto; done.
    + next (Ph_end (inr RET_CHECK_FAILURE)). left. apply Hs.
  - destruct Hinv as [Hb [tp Hr]]. cbn [phase_prog]. rewrite step_bind by by destruct p.
    destruct (body_step _ _ _ _ _ Hb Hr) as (Hb' & Hr' & _).
    next (Ph_body (prog_step env p w).1). split; [done|by exists tp].
  - destruct Hinv as [tp Hr]. next (Ph_join r). exists tp. cbn. rewrite (rn_write _ _ _ _ Hr).
    split; [|left; by destruct (gw_pipe w)]. destruct Hr. by constructor.
  - destruct Hinv as (tp & Hr & Hp). cbn. unfold thread_done.
    destruct (gw_thread w) as [[u|? ?|? ? ? ? ?]|] eqn:Ht; [|by next (Ph_join r); exists tp..].
    next (Ph_close_write r). destruct u. by destruct Hr; constructor.
  - next (Ph_close_read r). by destruct Hinv; constructor.
  - next (Ph_cancel r). by destruct Hinv; constructor.
  - next (Ph_end r). right; right. by destruct Hinv; constructor.
  - by next (Ph_end r).
Qed.

(** A world that differs in what the phases do not look at. *)
Definition is_interrupt (e : gevent) : bool := match e with Interrupt => true | _ => false end.
Definition is_failure (e : gevent) : bool := match e with ReadFails => true | _ => false end.

Lemma set_thread_same t w : gw_thread w = t -> set_thread t w = w.
Proof. destruct w. by intros <-. Qed.

(** The thread in each phase. *)
Lemma thread_phase intr failed ph w t :
  phase_inv intr failed ph w -> gw_thread w = Some t ->
  match ph with Ph_end _ => False | _ => True end ->
  let '(t', w') := prog_step env t w in
  phase_inv intr failed ph (set_thread (Some t') w') /\ gw_ctl w' = gw_ctl w.
Proof.
  intros Hinv Ht Hend.
  assert (Hidle : forall u, t = IRet u -> set_thread (Some t) w = w)
    by (intros u ->; by apply set_thread_same).
  assert (Hst : forall c o h, starting c o h w -> False) by (intros c o h [_ _ _ _ _ _ Hn]; congruence).
  assert (Hcl : forall o r, closing o r w -> t = IRet ()) by (intros o r [Hc _ _ _]; congruence).
  assert (Hrun : forall i tp, running i failed tp w ->
    exists tp', running i failed tp' (set_thread (Some (prog_step env t w).1) (prog_step env t w).2) /\
      gw_ctl (prog_step env t w).2 = gw_ctl w /\
      (gw_pipe w <> [] \/ tp <> TP_read -> tp' <> TP_read)).
  { intros i tp Hr. assert (t = thread_prog tp) as -> by (pose proof (rn_thread _ _ _ _ Hr); congruence).
    destruct (thread_step i failed tp w Hr) as [tp' Hs].
    destruct (prog_step env (thread_prog tp) w) as [t' w']. destruct Hs as (Hr' & Hctl & _ & _ & Htp).
    exists tp'. split; [done|]. split; [done|]. intros Hne.
    destruct Htp as [->|(-> & Hp & ->)]; [by destruct tp|by destruct Hne]. }
  rewrite (surjective_pairing (prog_step env t w)).
  destruct ph as [| | | | |p|r|r|r|r|r|r]; simpl in Hinv.
  1-5: destruct Hinv as [Hs _]; by destruct (Hst _ _ _ Hs).
  - destruct Hinv as [Hb [tp Hr]]. destruct (Hrun _ _ Hr) as (tp' & Hr' & Hctl & _).
    split; [|done]. split; [done|by exists tp'].
  - destruct Hinv as [tp Hr]. destruct (Hrun _ _ Hr) as (tp' & Hr' & Hctl & _).
    split; [by exists tp'|done].
  - destruct Hinv as (tp & Hr & Hp). destruct (Hrun _ _ Hr) as (tp' & Hr' & Hctl & Htp).
    split; [|done]. exists tp'. split; [done|]. right. by apply Htp.
  - rewrite (Hcl _ _ Hinv) in *. cbn. by rewrite (Hidle ()).
  - rewrite (Hcl _ _ Hinv) in *. cbn. by rewrite (Hidle ()).
  - rewrite (Hcl _ _ Hinv) in *. cbn. by rewrite (Hidle ()).
  - done.
Qed.

Lemma run_handler_eq w :
  run_handler env (HandleSignal SIGINT) w =
  if gw_write_open w
  then set_pipe (gw_pipe w ++ [SIGINT]) (gw_write_open w) (gw_read_open w) w else w.
Proof. done. Qed.

Lemma interrupt_phase intr failed ph w :
  phase_inv intr failed ph w -> gw_handler w = true ->
  match ph with Ph_end _ => False | _ => True end ->
  phase_inv true failed ph (run_handler env (HandleSignal SIGINT) w) /\
  gw_ctl (run_handler env (HandleSignal SIGINT) w) = gw_ctl w.
Proof.
  intros Hinv Hh Hend. rewrite run_handler_eq. split; [|by destruct (gw_write_open w)].
  assert (Hst : forall c o, starting c o false w -> False) by (intros c o [_ _ _ _ _ Hn _]; congruence).
  destruct ph as [| | | | |p|r|r|r|r|r|r]; simpl in Hinv.
  1-4: destruct Hinv as [Hs _]; by destruct (Hst _ _ Hs).
  - destruct Hinv as [[Hm Hc Hx Hw Hr _ Ht] _]. rewrite Hw. by repeat constructor.
  - destruct Hinv as [Hb [tp Hr]]. split; [done|]. exists tp. rewrite (rn_write _ _ _ _ Hr).
    destruct Hr. by constructor.
  - destruct Hinv as [tp Hr]. exists tp. rewrite (rn_write _ _ _ _ Hr). destruct Hr. by constructor.
  - destruct Hinv as (tp & Hr & Hp). exists tp. rewrite (rn_write _ _ _ _ Hr).
    split; [by destruct Hr; constructor|]. left. simpl. by destruct (gw_pipe w).
  - destruct Hinv as [Ht Hw Hr _]. rewrite Hw. by constructor.
  - destruct Hinv as [Ht Hw Hr _]. rewrite Hw. by constructor.
  - destruct Hinv as [Ht Hw Hr _]. rewrite Hw. by constructor.
  - done.
Qed.

Lemma failure_phase intr failed ph w t :
  phase_inv intr failed ph w -> gw_thread w ≫= read_failure = Some t ->
  phase_inv intr true ph (set_thread (Some t) w).
Proof.
  intros Hinv Ht.
  assert (Hst : forall c o h, starting c o h w -> False)
    by (intros c o h [_ _ _ _ _ _ Hn]; by rewrite Hn in Ht).
  assert (Hcl : forall o r, closing o r w -> False) by (intros o r [Hc _ _ _]; by rewrite Hc in Ht).
  assert (Hrun : forall i tp, running i failed tp w ->
    running i true TP_done (set_thread (Some t) w)).
  { intros i tp [Hc Hx Hw Hr Hh Htp Hd Hq]. rewrite Htp in Ht. destruct tp; try discriminate Ht.
    injection Ht as <-. constructor; simpl; try done. intros Hi. destruct (Hq Hi) as (? & ? & _). auto. }
  destruct ph as [| | | | |p|r|r|r|r|r|r]; simpl in Hinv.
  1-5: destruct Hinv as [Hs _]; by destruct (Hst _ _ _ Hs).
  - destruct Hinv as [Hb [tp Hr]]. split; [done|]. eexists. by eapply Hrun.
  - destruct Hinv as [tp Hr]. eexists. by eapply Hrun.
  - destruct Hinv as (tp & Hr & Hp). exists TP_done. split; [by eapply Hrun|]. by right.
  - by destruct (Hcl _ _ Hinv).
  - by destruct (Hcl _ _ Hinv).
  - by destruct (Hcl _ _ Hinv).
  - destruct Hinv as [Hn|[He|Hc]]; [by rewrite Hn in Ht|by right; left|by destruct (Hcl _ _ Hc)].
Qed.

Lemma answer_phase intr failed ph w p s :
  phase_inv intr failed ph w ->
  server_answer (phase_prog ph) (ctl_server (gw_ctl w)) = Some (p, s) ->
  exists ph', p = phase_prog ph' /\
    phase_inv intr failed ph' (set_ctl (MkCtl s (ctl_out (gw_ctl w))) w).
Proof.
  intros Hinv Hp. apply phase_cases in Hinv as (ph1 & Hp1 & Hinv & Hnot). rewrite <- Hp1 in Hp.
  destruct ph1 as [| | | | |[x|c k|D X lb b k]|r|r|r|r|r|r]; try discriminate Hp; try done.
  destruct Hinv as [Hb [tp Hr]]. destruct (body_ok_call _ _ Hb) as [_ Hk].
  destruct c; try discriminate Hp. cbn in Hp. destruct (answer r _) as [a s'].
  injection Hp as <- <-. exists (Ph_body (k a)). split; [done|]. split; [apply Hk|].
  exists tp. by destruct Hr; constructor.
Qed.

Lemma sys_step intr failed e st :
  sys_inv intr failed st ->
  sys_inv (intr || is_interrupt e) (failed || is_failure e) (gsys_step env e st).
Proof.
  assert (Hmono : forall ph w, phase_inv intr failed ph w ->
    phase_inv (intr || is_interrupt e) (failed || is_failure e) ph w).
  { intros ph w Hi. eapply phase_inv_mono; [done|..]; by intros [? _]%orb_false_iff. }
  destruct st as [[p|] w]; [|done]. intros (ph & Hp & Hinv). simpl in Hp, Hinv.
  assert (Hst : sys_inv (intr || is_interrupt e) (failed || is_failure e) (Some p, w))
    by (exists ph; split; [done|by apply Hmono]).
  cbn [gsys_step]. destruct (has_returned p) eqn:Hret; [done|].
  assert (Hend : match ph with Ph_end _ => False | _ => True end) by (subst p; by destruct ph).
  destruct e.
  - destruct (main_step intr failed ph w Hinv) as (ph' & Hp' & Hinv'). rewrite <- Hp in Hp', Hinv'.
    destruct (prog_step env p w) as [p' w']. rewrite !orb_false_r. by exists ph'.
  - destruct (gw_thread w) as [t|] eqn:Ht; [|done].
    pose proof (thread_phase _ _ _ _ _ Hinv Ht Hend) as Hs. destruct (prog_step env t w) as [t' w'].
    rewrite !orb_false_r. exists ph. by destruct Hs.
  - destruct (server_answer p _) as [[p' s]|] eqn:Ha; [|done]. rewrite Hp in Ha.
    rewrite !orb_false_r. by eapply answer_phase.
  - destruct (gw_handler w) eqn:Hh; [|done]. rewrite orb_true_r, orb_false_r. exists ph.
    split; [done|]. by apply (interrupt_phase intr).
  - destruct (gw_thread w ≫= read_failure) as [t|] eqn:Ht; [|done].
    rewrite orb_false_r, orb_true_r. exists ph. split; [done|]. by eapply failure_phase.
Qed.

Lemma gsys_run_app {A} es1 es2 (st : gsys float W A) :
  gsys_run env (es1 ++ es2) st = gsys_run env es2 (gsys_run env es1 st).
Proof. apply fold_left_app. Qed.

Lemma sys_reachable es ctl :
  sys_inv (existsb is_interrupt es) (existsb is_failure es) (gsys_run env es (gsys_start start_prog ctl)).
Proof.
  induction es as [|e es IH] using rev_ind.
  - exists Ph_context. by repeat constructor.
  - rewrite gsys_run_app, !existsb_app. simpl. rewrite !orb_false_r. by apply sys_step.
Qed.

(** *** The end *)

(** When [Main] returns a code after the thread was started, the thread has
    ended and both ends of the pipe are closed. *)
Lemma cleaned_up es ctl code w :
  gsys_run env es (gsys_start start_prog ctl) = (Some (IRet (inr code)), w) ->
  gw_thread w = None \/
  gw_thread w = Some (IRet ()) /\ gw_write_open w = false /\ gw_read_open w = false.
Proof.
  intros Hrun. pose proof (sys_reachable es ctl) as Hs. rewrite Hrun in Hs.
  destruct Hs as (ph & Hp & Hinv). simpl in Hp, Hinv. apply phase_cases in Hinv as (ph1 & Hp1 & Hinv & Hnot). rewrite <- Hp1 in Hp.
  destruct ph1 as [| | | | |[x|c k|D X lb b k]|r|r|r|r|r|r]; try discriminate Hp; try done.
  injection Hp as <-. destruct Hinv as [Hn|[[e He]|[Ht Hw Hr _]]]; [by left|done|by right].
Qed.

(** *** Cancelling *)

Fixpoint main_steps {A : Type} (n : nat) (p : prog A) (w : world) : prog A * world :=
  match n with
  | O => (p, w)
  | S n => let '(p, w) := prog_step env p w in main_steps n p w
  end.

Lemma main_steps_add {A : Type} n m (p : prog A) w :
  main_steps (n + m) p w = let '(p, w) := main_steps n p w in main_steps m p w.
Proof.
  revert p w. induction n as [|n IH]; intros p w; [done|]. cbn [main_steps Nat.add].
  destruct (prog_step env p w). apply IH.
Qed.

Lemma main_runs {A : Type} n (p : prog A) w :
  gsys_run env (replicate n RunMain) (Some p, w) =
  (Some (main_steps n p w).1, (main_steps n p w).2).
Proof.
  revert p w. induction n as [|n IH]; intros p w; [done|].
  cbn [replicate gsys_run fold_left main_steps]. fold (@gsys_run float W _ _ A env).
  cbn [gsys_step]. destruct (has_returned p) eqn:Hp.
  - destruct p; [|done..]. cbn [prog_step]. apply IH.
  - destruct (prog_step env p w) as [p' w']. apply IH.
Qed.

(** A body whose context is cancelled ends without the server. *)
Lemma cancelled_body_ends {A B : Type} (p : prog A) (f : A -> prog B) (P : A -> Prop) failed w :
  command = main_ctx -> every body_call p -> loops_exit p -> yields P p \/ P = (fun _ => True) ->
  running true failed TP_done w -> gw_main_cancelled w = true ->
  exists n a w', main_steps n (ibind p f) w = (f a, w') /\ P a /\
    running true failed TP_done w' /\ gw_main_cancelled w' = true.
Proof.
  intros Hcmd. revert B f P w. induction p as [A a|A c k IH|A D X lb IHb b k IH];
    intros B f P w Hev Hl HP Hr Hm.
  - exists 0%nat, a, w. split; [done|]. split; [by destruct HP as [?| ->]|done].
  - destruct Hev as [Hc Hk]. pose proof (body_do_call _ _ _ c w Hc Hr) as Hd.
    destruct (do_call env c w) as [[r w']|] eqn:Hdo.
    2: { destruct c; try done. simpl in Hc, Hdo. rewrite Hc, Hcmd in Hdo. simpl in Hdo.
         by rewrite Hm in Hdo. }
    destruct Hd as [Hr' Hm']. assert (yields P (k r) \/ P = (fun _ => True)) as HP'.
    { destruct HP as [HP|HP]; [left|by right]. destruct c; try apply HP.
      simpl in Hc, Hdo. rewrite Hc, Hcmd in Hdo. simpl in Hdo. rewrite Hm in Hdo. by injection Hdo as <- _. }
    destruct (IH r B f P w' (Hk r) (Hl r) HP' Hr' ltac:(congruence)) as (n & a & w2 & Hs & ?).
    exists (S n), a, w2. split; [|done]. cbn [ibind main_steps prog_step]. by rewrite Hdo.
  - destruct Hev as [Hb Hk], Hl as [Hlb Hlk]. destruct HP as [[]| ->].
    destruct (IHb b B (fun r => match r with inl b => ILoop lb b (fun x => ibind (k x) f)
                                           | inr x => ibind (k x) f end)
      _ w (Hb b) (proj1 (Hlb b)) (or_introl (proj2 (Hlb b))) Hr Hm)
      as (n & r & w1 & Hs & [x ->] & Hr1 & Hm1).
    destruct (IH x B f (fun _ => True) w1 (Hk x) (Hlk x) (or_intror eq_refl) Hr1 Hm1)
      as (m & a & w2 & Hs2 & ?).
    exists (S (n + m)), a, w2. split; [|done]. cbn [ibind main_steps prog_step].
    rewrite main_steps_add. unfold iunfold, mbind, iprog_bind. by rewrite Hs.
Qed.

Lemma cleaner_ends failed r w :
  running true failed TP_done w ->
  exists n r' w', main_steps n (write_prog r) w = (IRet r', w').
Proof.
  intros Hr. exists 5%nat, r. cbn. unfold thread_done. rewrite (rn_write _ _ _ _ Hr). simpl.
  rewrite (rn_thread _ _ _ _ Hr). simpl. by eexists.
Qed.

(** The thread reads, loads and cancels. *)
Lemma thread_runs (p : prog (fault + Z)) failed tp w :
  has_returned p = false -> running true failed tp w -> gw_pipe w <> [] \/ tp <> TP_read ->
  exists w', gsys_run env (replicate 3 RunThread) (Some p, w) = (Some p, w') /\
    running true failed TP_done w'.
Proof.
  intros Hp Hr Hne.
  assert (Hstep : forall tp w, running true failed tp w -> gw_pipe w <> [] \/ tp <> TP_read ->
    exists w', gsys_step env RunThread (Some p, w) = (Some p, w') /\
      running true failed (thread_next tp) w' ).
  { clear tp w Hr Hne. intros tp w Hr Hne. cbn [gsys_step]. rewrite Hp, (rn_thread _ _ _ _ Hr).
    destruct (thread_step _ _ _ _ Hr) as [tp' Hs].
    destruct (prog_step env (thread_prog tp) w) as [t w']. destruct Hs as (Hr' & _ & _ & _ & Htp).
    eexists. split; [done|]. destruct Htp as [<-|(-> & Hpi & ->)]; [done|by destruct Hne]. }
  destruct (Hstep tp w Hr Hne) as (w1 & H1 & Hr1).
  destruct (Hstep _ w1 Hr1) as (w2 & H2 & Hr2); [right; by destruct tp|].
  destruct (Hstep _ w2 Hr2) as (w3 & H3 & Hr3); [right; by destruct tp|].
  exists w3. cbn [replicate gsys_run fold_left]. rewrite H1, H2, H3. split; [done|].
  replace TP_done with (thread_next (thread_next (thread_next tp))) by by destruct tp. done.
Qed.

(** The end of a phase once the thread has cancelled [main_ctx]. *)
Lemma phase_ends ph w :
  command = main_ctx -> phase_inv true false ph w ->
  match ph with
  | Ph_context | Ph_set_ctx_ | Ph_pipe | Ph_signal | Ph_create => False
  | Ph_body _ | Ph_write _ | Ph_join _ => running true false TP_done w
  | _ => True
  end ->
  exists n r w', main_steps n (phase_prog ph) w = (IRet r, w').
Proof.
  intros Hcmd Hinv Hph. destruct ph as [| | | | |p|r|r|r|r|r|r]; try done.
  - destruct Hinv as [[Hev Hl] _].
    destruct (cancelled_body_ends p leaving (fun _ => True) false w Hcmd Hev Hl (or_intror eq_refl) Hph
      (rn_done _ _ _ _ Hph eq_refl eq_refl)) as (n & a & w1 & Hs & _ & Hr1 & _).
    cbn [phase_prog]. rewrite leaving_eq in Hs. destruct (leave a) as [clean r']. destruct clean.
    + destruct (cleaner_ends false r' w1 Hr1) as (m & r2 & w2 & Hs2).
      exists (n + m)%nat, r2, w2. by rewrite main_steps_add, Hs.
    + by exists n, r', w1.
  - by eapply cleaner_ends.
  - exists 4%nat, r. cbn. unfold thread_done. rewrite (rn_thread _ _ _ _ Hph). simpl. by eexists.
  - exists 3%nat, r. by eexists.
  - exists 2%nat, r. by eexists.
  - exists 1%nat, r. by eexists.
  - exists 0%nat, r. by eexists.
Qed.

(** The phases in which the handler is installed and the program has not ended. *)
Definition interruptible (ph : phase) : Prop :=
  match ph with
  | Ph_context | Ph_set_ctx_ | Ph_pipe | Ph_signal | Ph_create | Ph_end _ => False
  | _ => True
  end.

Lemma thread_started_interruptible i f ph w t :
  phase_inv i f ph w -> gw_thread w = Some t -> has_returned (phase_prog ph) = false ->
  gw_handler w = true /\ interruptible ph.
Proof.
  intros Hinv Ht Hp. destruct ph as [| | | | |q|r|r|r|r|r|r]; simpl in Hinv; try (by destruct Hinv);
    try (destruct Hinv as [[_ _ _ _ _ _ Hn] _]; congruence); try done.
  - destruct Hinv as [_ [tp Hr]]. split; [apply Hr|done].
  - destruct Hinv as [tp Hr]. split; [apply Hr|done].
  - destruct Hinv as (tp & Hr & _). split; [apply Hr|done].
Qed.

(** With something in the pipe, three steps bring the thread to its end, if it
    has not been joined. *)
Lemma thread_three_steps (p : prog (fault + Z)) ph w :
  has_returned p = false -> interruptible ph -> phase_inv true false ph w ->
  (forall tp, running true false tp w -> gw_pipe w <> []) ->
  exists w2, gsys_run env (replicate 3 RunThread) (Some p, w) = (Some p, w2) /\
    phase_inv true false ph w2 /\ match ph with
      | Ph_context | Ph_set_ctx_ | Ph_pipe | Ph_signal | Ph_create => False
      | Ph_body _ | Ph_write _ | Ph_join _ => running true false TP_done w2 | _ => True end.
Proof.
  intros Hp Hph Hinv Hpipe.
  assert (Hclose : forall o r, closing o r w ->
    gsys_run env (replicate 3 RunThread) (Some p, w) = (Some p, w)).
  { intros o r [Hn _ _ _].
    assert (gsys_step env RunThread (Some p, w) = (Some p, w)) as Hs1.
    { cbn [gsys_step]. rewrite Hp, Hn. cbn [prog_step]. by rewrite (set_thread_same _ _ Hn). }
    unfold gsys_run. cbn [replicate fold_left]. by rewrite !Hs1. }
  assert (Hrun : forall tp, running true false tp w -> exists w2,
    gsys_run env (replicate 3 RunThread) (Some p, w) = (Some p, w2) /\ running true false TP_done w2).
  { intros tp Hr. destruct (thread_runs p false tp w Hp Hr) as (w2 & H2 & Hr2);
      [left; by eapply Hpipe|by exists w2]. }
  destruct ph as [| | | | |q|r|r|r|r|r|r]; try done; simpl in Hinv.
  - destruct Hinv as [Hb [tp Hr]]. destruct (Hrun tp Hr) as (w2 & H2 & Hr2).
    exists w2. split; [done|]. split; [|done]. split; [done|by exists TP_done].
  - destruct Hinv as [tp Hr]. destruct (Hrun tp Hr) as (w2 & H2 & Hr2).
    exists w2. split; [done|]. split; [by exists TP_done|done].
  - destruct Hinv as (tp & Hr & _). destruct (Hrun tp Hr) as (w2 & H2 & Hr2).
    exists w2. split; [done|]. split; [|done]. exists TP_done. split; [done|by right].
  - exists w. split; [by eapply Hclose|done].
  - exists w. split; [by eapply Hclose|done].
  - exists w. split; [by eapply Hclose|done].
Qed.

(** Whatever happened before, short of a failing [read]: one more SIGINT, three
    steps of the thread, and the main program alone ends the process. *)
Lemma interrupted_ends es ctl p w :
  command = main_ctx -> existsb is_failure es = false ->
  gsys_run env es (gsys_start start_prog ctl) = (Some p, w) -> is_Some (gw_thread w) ->
  exists n r w',
    gsys_run env (Interrupt :: replicate 3 RunThread ++ replicate n RunMain) (Some p, w) =
      (Some (IRet r), w').
Proof.
  intros Hcmd Hf Hrun [t Ht]. pose proof (sys_reachable es ctl) as Hs. rewrite Hrun, Hf in Hs.
  destruct (has_returned p) eqn:Hp.
  { destruct p as [r| |]; try done. exists 0%nat, r, w. done. }
  destruct Hs as (ph & Hpp & Hinv). simpl in Hpp, Hinv.
  destruct (thread_started_interruptible _ _ _ _ _ Hinv Ht) as [Hh Hph]; [by rewrite <- Hpp|].
  assert (Hend : match ph with Ph_end _ => False | _ => True end) by by destruct ph.
  destruct (interrupt_phase _ _ _ _ Hinv Hh Hend) as [Hinv' _].
  set (w1 := run_handler env (HandleSignal SIGINT) w) in *.
  assert (Hstep : gsys_step env Interrupt (Some p, w) = (Some p, w1))
    by (cbn [gsys_step]; by rewrite Hp, Hh).
  destruct (thread_three_steps p ph w1 Hp Hph Hinv') as (w2 & Hrun2 & Hinv2 & Hph2).
  { intros tp Hr. pose proof (rn_write _ _ _ _ Hr) as Hw. unfold w1 in *.
    rewrite run_handler_eq in *. destruct (gw_write_open w) eqn:Ho; [|congruence].
    simpl. by destruct (gw_pipe w). }
  destruct (phase_ends ph w2 Hcmd Hinv2 Hph2) as (n & r & w3 & Hs).
  exists n, r, w3. cbn [gsys_run fold_left]. rewrite Hstep.
  change (fold_left _ ?l ?st) with (gsys_run env l st). rewrite gsys_run_app, Hrun2, main_runs.
  rewrite <- Hpp in Hs. by rewrite Hs.
Qed.

(** *** Not cancelling *)

(** The main program waits for the server. *)
Definition waiting (p : GP Z) : bool :=
  match p with ICall (g_rpc _ _) _ => true | _ => false end.

Lemma waiting_step es ctl p w e :
  command = command_ctx -> gsys_run env es (gsys_start start_prog ctl) = (Some p, w) ->
  waiting p = true -> e <> Answer ->
  (gsys_step env e (Some p, w)).1 = Some p.
Proof.
  intros Hcmd Hrun Hw He. pose proof (sys_reachable es ctl) as Hs. rewrite Hrun in Hs.
  destruct Hs as (ph & Hp & Hinv). simpl in Hp, Hinv.
  apply phase_cases in Hinv as (ph1 & Hp1 & Hinv & Hnot). rewrite <- Hp1 in Hp.
  destruct ph1 as [| | | | |[x|c k|D X lb b k]|r|r|r|r|r|r]; subst p; try discriminate Hw; try done.
  destruct Hinv as [Hb [tp Hr]]. destruct (body_ok_call _ _ Hb) as [Hc _].
  cbn [phase_prog ibind] in *. destruct c; try discriminate Hw. simpl in Hc.
  cbn [gsys_step has_returned]. destruct e; try done.
  - cbn. rewrite Hc, Hcmd. simpl. by rewrite (rn_command _ _ _ _ Hr).
  - rewrite (rn_thread _ _ _ _ Hr). by destruct (prog_step env (thread_prog tp) w).
  - by rewrite (rn_handler _ _ _ _ Hr).
  - by destruct (gw_thread w ≫= read_failure).
Qed.

Lemma waiting_stays es ctl p w es' :
  command = command_ctx -> gsys_run env es (gsys_start start_prog ctl) = (Some p, w) ->
  waiting p = true -> Forall (fun e => e <> Answer) es' ->
  (gsys_run env (es ++ es') (gsys_start start_prog ctl)).1 = Some p.
Proof.
  intros Hcmd Hrun Hw Hes'. induction es' as [|e es' IH] using rev_ind.
  - by rewrite app_nil_r, Hrun.
  - apply list.Forall_app in Hes' as [Hes' He]. apply list.Forall_cons in He as [He _]. specialize (IH Hes').
    rewrite app_assoc, gsys_run_app.
    destruct (gsys_run env (es ++ es') (gsys_start start_prog ctl)) as [m w'] eqn:Hr.
    simpl in IH. subst m. by eapply (waiting_step (es ++ es')).
Qed.
End Phases.

(** ** Without interrupts

    What the main program does when every call returns: [serves p ctl a ctl']
    says that [p] on the server and output [ctl] returns [a] and leaves
    [ctl']. *)

Section Serving.
Context {float W : Type} `{GnmiStream float W}.
Abbreviation prog := (iprog float W).
Abbreviation GP A := (Signals.GP (float := float) (W := W) A).
Variable env : start_env.

Definition serve (c : gcall float) (ctl : Ctl W) : option (gresult c * Ctl W) :=
  match c with
  | g_print out => Some ((), MkCtl (ctl_server ctl) (ctl_out ctl ++ out))
  | g_rpc _ r => let '(a, s) := answer r (ctl_server ctl) in Some (a, MkCtl s (ctl_out ctl))
  | g_CreatePipe => Some (env_pipe env, ctl)
  | g_CreateInstance => Some (env_CreateInstance env, ctl)
  | g_signal => Some (env_signal env, ctl)
  | g_pthread_create => Some (env_pthread_create env, ctl)
  | g_pthread_join => Some (env_pthread_join env, ctl)
  | g_context _ | g_set_ctx_ _ | g_TryCancel _ | g_write _ | g_close_write | g_close_read =>
      Some ((), ctl)
  | g_get_ctx_ | g_read => None
  end.

Inductive iterates {B X : Type} (turn : B -> Ctl W -> B + X -> Ctl W -> Prop)
  : B -> Ctl W -> X -> Ctl W -> Prop :=
| iterates_done b ctl x ctl' : turn b ctl (inr x) ctl' -> iterates turn b ctl x ctl'
| iterates_next b b' ctl ctl1 x ctl' :
    turn b ctl (inl b') ctl1 -> iterates turn b' ctl1 x ctl' -> iterates turn b ctl x ctl'.

Fixpoint serves {A : Type} (p : prog A) (ctl : Ctl W) (a : A) (ctl' : Ctl W) : Prop :=
  match p with
  | IRet a' => a = a' /\ ctl' = ctl
  | ICall c k =>
      match serve c ctl with Some (r, ctl1) => serves (k r) ctl1 a ctl' | None => False end
  | ILoop body b k =>
      exists x ctl1, iterates (fun b ctl r ctl' => serves (body b) ctl r ctl') b ctl x ctl1 /\
        serves (k x) ctl1 a ctl'
  end.

Lemma serves_bind {A B : Type} (p : prog A) (f : A -> prog B) ctl a ctl1 b ctl' :
  serves p ctl a ctl1 -> serves (f a) ctl1 b ctl' -> serves (ibind p f) ctl b ctl'.
Proof.
  revert B f ctl a b. induction p as [A a'|A c k IH|A D X lb IHb d k IH];
    intros B f ctl a b; cbn [serves ibind].
  - by intros [-> ->].
  - destruct (serve c ctl) as [[r ctl2]|]; [|done]. apply IH.
  - intros (x & ctl2 & Hi & Hk) Hf. exists x, ctl2. split; [done|]. by eapply IH.
Qed.

Lemma serves_unfold {A : Type} {D X : Set} (lb : D -> prog (D + X)) d (k : X -> prog A) ctl a ctl' :
  serves (ILoop lb d k) ctl a ctl' -> serves (iunfold lb d k) ctl a ctl'.
Proof.
  intros (x & ctl1 & Hi & Hk). unfold iunfold, mbind, iprog_bind.
  destruct Hi as [d ctl x ctl1 Ht|d d' ctl ctl2 x ctl1 Ht Hi].
  - by eapply serves_bind.
  - eapply serves_bind; [done|]. by exists x, ctl1.
Qed.

(** [p] does what the computation [g] does. *)
Definition performs {A : Type} (p : GP A) (g : G W A) : Prop :=
  forall ctl, serves p ctl (g ctl).1 (g ctl).2.

Lemma performs_ret {A : Type} (a : A) : performs (mret a) (mret a).
Proof. by intros ctl. Qed.

Lemma performs_stop {A : Type} e : performs (A := A) (gp_stop e) (stop e).
Proof. by intros ctl. Qed.

Lemma performs_bind {A B : Type} (p : GP A) g (f : A -> GP B) h :
  performs p g -> (forall a, performs (f a) (h a)) -> performs (p ≫= f) (g ≫= h).
Proof.
  intros Hp Hf ctl. specialize (Hp ctl). eapply serves_bind; [exact Hp|].
  unfold mbind, G_bind. destruct (g ctl) as [[e|a] ctl1]; [done|]. apply Hf.
Qed.

Lemma performs_print out : performs (gp_print out) (print out).
Proof. by intros ctl. Qed.

Lemma performs_context ctx {A : Type} (p : GP A) g :
  performs p g -> performs (gp_call (g_context ctx) ≫= fun _ => p) g.
Proof. intros Hp ctl. apply Hp. Qed.

Lemma performs_rpc ctx r : performs (gp_call (g_rpc ctx r)) (on_stub (answer r)).
Proof.
  intros ctl. unfold gp_call, on_stub. cbn [serves serve]. by destruct (answer r (ctl_server ctl)).
Qed.

Lemma performs_eq {A : Type} (p : GP A) g g' :
  performs p g -> (forall ctl, g' ctl = g ctl) -> performs p g'.
Proof. intros Hp Heq ctl. rewrite Heq. apply Hp. Qed.

(** A computation that does not use the server does the same on any. *)
Definition uniform {A : Type} (g : forall S : Type, G S A) : Prop :=
  forall S (w : Ctl S), g S w =
    ((g unit (MkCtl () [])).1,
     MkCtl (ctl_server w) (ctl_out w ++ ctl_out (g unit (MkCtl () [])).2)).

Lemma performs_lift {A : Type} (g : forall S : Type, G S A) :
  uniform g -> performs (lift (g unit)) (g W).
Proof.
  intros Hg ctl. rewrite Hg. unfold lift. by destruct (g unit (MkCtl () [])).
Qed.

Lemma performs_unary ctx r (result : gresult (g_rpc ctx r) -> grpc_Status * Response) prompt
  (call : W -> (grpc_Status * Response) * W) :
  (forall s, call s = (result (answer r s).1, (answer r s).2)) ->
  performs (gp_unary ctx r result prompt)
    ('(status, resp) ← on_stub call;
     match grpc_error status with
     | Some code => mret code
     | None => PRINT_MSG (DebugString resp) prompt;; mret 0
     end).
Proof.
  intros Hcall.
  apply (performs_eq _ (a ← on_stub (answer r);
    let '(status, resp) := result a in
    match grpc_error status with
    | Some code => mret code
    | None => PRINT_MSG (DebugString resp) prompt;; mret 0
    end)).
  - unfold gp_unary. apply performs_bind; [apply performs_rpc|]. intros a.
    destruct (result a) as [status resp]. destruct (grpc_error status); [apply performs_ret|].
    apply performs_bind; [apply performs_print|]. intros _. apply performs_ret.
  - intros ctl. unfold mbind, G_bind, on_stub. rewrite Hcall. by destruct (answer r (ctl_server ctl)).
Qed.

(** The whole of [Main], once the command is [g]: what each failure of the start
    leads to. *)
Definition start_result (RET_CHECK_FAILURE : Z) (insecure : bool) (g : G W Z) : G W Z :=
  if negb (env_pipe env =? 0) then mret (env_pipe env)
  else if negb (env_signal env) then mret RET_CHECK_FAILURE
  else if negb (env_pthread_create env) then mret RET_CHECK_FAILURE
  else if negb insecure && negb (env_CreateInstance env =? 0) then mret (env_CreateInstance env)
  else g.

(** The results with which [Main] is left. *)
Definition left_with (leave : fault + Z -> bool * (fault + Z)) (g : G W Z) : G W Z :=
  fun ctl => ((leave (g ctl).1).2, (g ctl).2).

Lemma serves_start RET leave insecure (p : GP Z) g ctl :
  performs p g -> (forall code, (leave (inr code)).2 = inr code) ->
  serves (start_prog RET leave (channel_prog insecure p)) ctl
    (start_result RET insecure (left_with leave g) ctl).1
    (start_result RET insecure (left_with leave g) ctl).2.
Proof.
  intros Hp Hl. unfold start_result.
  assert (Hleave : forall r ctl', serves (leaving leave r) ctl' (leave r).2 ctl').
  { intros r ctl'. rewrite leaving_eq. by destruct (leave r) as [[] r']. }
  cbn. destruct (env_pipe env =? 0); [|done]. cbn. destruct (env_signal env); [|done].
  cbn. destruct (env_pthread_create env); [|done]. cbn.
  assert (Hbody : forall g', performs (channel_prog insecure p) g' ->
    serves (ibind (channel_prog insecure p) (leaving leave)) ctl ((leave (g' ctl).1).2) (g' ctl).2).
  { intros g' Hg. eapply serves_bind; [apply Hg|apply Hleave]. }
  destruct insecure; cbn [negb andb].
  - by apply (Hbody g).
  - destruct (env_CreateInstance env =? 0) eqn:Hc; cbn [negb].
    + apply (Hbody g). intros ctl'. cbn. by rewrite Hc.
    + pose proof (Hbody (mret (env_CreateInstance env))) as Hx. cbn [mret G_ret fst snd] in Hx.
      rewrite Hl in Hx. apply Hx. intros ctl'. cbn. by rewrite Hc.
Qed.

(** *** The system without interrupts *)

Section System.
Context (RET : Z) (leave : fault + Z -> bool * (fault + Z)) (command : context) (body : GP Z).
Hypothesis leave_fault : forall r r', leave r = (false, r') -> exists e, r' = inl e.
Hypothesis body_is_ok : body_ok command body.
Abbreviation start := (start_prog RET leave body).

Lemma do_call_serves failed ph w :
  phase_inv command false failed ph w ->
  match phase_prog RET leave body ph with
  | ICall c _ =>
      match do_call env c w with
      | Some (r, w') => serve c (gw_ctl w) = Some (r, gw_ctl w')
      | None => True
      end
  | _ => True
  end.
Proof.
  intros Hinv. apply (phase_cases RET _ leave_fault _ body) in Hinv as (ph1 & <- & Hinv & Hnot).
  destruct ph1 as [| | | | |[x|c k|D X lb b k]|r|r|r|r|r|r]; try done; cbn.
  - by destruct (env_pipe env =? 0).
  - by destruct (env_signal env).
  - by destruct (env_pthread_create env).
  - destruct Hinv as [Hb [tp Hr]]. destruct (body_ok_call _ _ _ Hb) as [Hc _].
    destruct c; try done. cbn. destruct (rn_quiet _ _ _ _ Hr eq_refl) as (_ & Hm & _).
    pose proof (rn_command _ _ _ _ Hr) as Hcc. destruct ctx; simpl; by rewrite ?Hm, ?Hcc.
  - by destruct (gw_write_open w).
  - by destruct (thread_done w).
Qed.

Lemma server_answer_serves (p p' : prog (fault + Z)) ctl a ctl' s :
  serves p ctl a ctl' -> server_answer p (ctl_server ctl) = Some (p', s) ->
  serves p' (MkCtl s (ctl_out ctl)) a ctl'.
Proof.
  intros Hs Ha. destruct p as [|c k|]; try done. destruct c; try done. simpl in Ha, Hs.
  destruct (answer r (ctl_server ctl)) as [x s1]. by injection Ha as <- <-.
Qed.

Lemma serves_step failed e p w a ctl' :
  sys_inv RET leave command body false failed (Some p, w) -> is_interrupt e = false ->
  serves p (gw_ctl w) a ctl' ->
  exists p' w', gsys_step env e (Some p, w) = (Some p', w') /\ serves p' (gw_ctl w') a ctl'.
Proof.
  intros (ph & Hp & Hinv) He Hs. simpl in Hp, Hinv. cbn [gsys_step].
  destruct (has_returned p) eqn:Hret; [by eauto|].
  assert (Hend : match ph with Ph_end _ => False | _ => True end) by (subst p; by destruct ph).
  destruct e; try done.
  - pose proof (do_call_serves _ _ _ Hinv) as Hd. rewrite <- Hp in Hd.
    destruct p as [r|c k|D X lb b k]; [done|..]; cbn [prog_step].
    + destruct (do_call env c w) as [[r w']|]; [|by eauto]. cbn [serves] in Hs. rewrite Hd in Hs.
      by eauto.
    + do 2 eexists. split; [done|]. by apply serves_unfold.
  - destruct (gw_thread w) as [t|] eqn:Ht; [|by eauto].
    pose proof (thread_phase env _ _ _ _ _ _ Hinv Ht Hend) as Ht'.
    destruct (prog_step env t w) as [t' w']. destruct Ht' as [_ Hctl].
    do 2 eexists. split; [done|]. simpl. by rewrite Hctl.
  - destruct (server_answer p _) as [[p' s]|] eqn:Ha; [|by eauto].
    do 2 eexists. split; [done|]. by eapply server_answer_serves.
  - destruct (gw_thread w ≫= read_failure) as [t|]; by eauto.
Qed.

Lemma uninterrupted_run es ctl a ctl' :
  existsb is_interrupt es = false -> serves start ctl a ctl' ->
  exists p w, gsys_run env es (gsys_start start ctl) = (Some p, w) /\ serves p (gw_ctl w) a ctl'.
Proof.
  induction es as [|e es IH] using rev_ind; intros Hes Hs.
  - by do 2 eexists.
  - rewrite existsb_app in Hes. apply orb_false_iff in Hes as [Hes He]. simpl in He.
    rewrite orb_false_r in He. destruct (IH Hes Hs) as (p & w & Hrun & Hp).
    pose proof (sys_reachable env RET leave leave_fault command body body_is_ok es ctl) as Hinv.
    rewrite Hrun, Hes in Hinv. rewrite gsys_run_app, Hrun.
    by apply (serves_step _ e _ _ _ _ Hinv).
Qed.

Lemma uninterrupted_result es ctl a ctl' r w :
  existsb is_interrupt es = false -> serves start ctl a ctl' ->
  gsys_run env es (gsys_start start ctl) = (Some (IRet r), w) -> r = a /\ gw_ctl w = ctl'.
Proof.
  intros Hes Hs Hrun. destruct (uninterrupted_run es ctl a ctl' Hes Hs) as (p & w' & Hrun' & Hp).
  rewrite Hrun in Hrun'. injection Hrun' as <- <-. by destruct Hp as [-> ->].
Qed.
End System.
End Serving.
