(* ===== verification/SignalClients.v ===== *)
(** * The gNMI clients under interrupts: the two programs

    What [SignalProps] shows of a [Main] in general, for gnmi-ctl and for
    sgnmi_cli: left alone they do what [GnmiCtl.Main] and [SgnmiCli.main] do,
    and clean up; SIGINT ends sgnmi_cli, and not gnmi-ctl. *)

From stdpp Require Import gmap.
From Stdlib Require Import Ascii.
From S2P Require Import Prelude Session CText GnmiCtl SgnmiCli Signals GnmiStart SgnmiStart SignalProps.

(** ** Computations that do not use the server *)

Section Uniform.
Context {A B : Type}.

Lemma uniform_ret (a : A) : uniform (fun S => mret a : G S A).
Proof. intros S w. cbn. rewrite app_nil_r. by destruct w. Qed.

Lemma uniform_stop e : uniform (fun S => stop e : G S A).
Proof. intros S w. cbn. rewrite app_nil_r. by destruct w. Qed.

Lemma uniform_print out : uniform (fun S => print out : G S unit).
Proof. by intros S w. Qed.

Lemma uniform_in_array m : uniform (fun S => in_array m : G S mem).
Proof. destruct m; intros S w; cbn; rewrite app_nil_r; by destruct w. Qed.

Lemma uniform_bind (g : forall S : Type, G S A) (f : forall S : Type, A -> G S B) :
  uniform g -> (forall a, uniform (fun S => f S a)) -> uniform (fun S => g S ≫= f S).
Proof.
  intros Hg Hf S w. unfold mbind, G_bind. rewrite Hg.
  destruct (g unit (MkCtl () [])) as [[e|a] w1]; cbn [fst snd]; [done|].
  rewrite Hf, (Hf a unit w1). cbn [fst snd]. destruct (f unit a (MkCtl () [])) as [r w2].
  cbn. by rewrite app_assoc.
Qed.
End Uniform.

Ltac uniform :=
  repeat first
    [ apply uniform_ret | apply uniform_stop | apply uniform_print | apply uniform_in_array
    | apply uniform_bind; [|intros ?]
    | match goal with |- uniform (fun S => match ?x with _ => _ end) => destruct x end
    | progress cbv zeta ].

Lemma uniform_extract_loop flags fuel m path node_path vhost_dev found_node :
  uniform (fun S => extract_loop (W := S) flags fuel m path node_path vhost_dev found_node).
Proof.
  revert m path node_path vhost_dev found_node.
  induction fuel as [|fuel IH]; intros; cbn [extract_loop]; uniform; apply IH.
Qed.

Lemma uniform_traverse_params flags m path node_path config_value flag :
  uniform (fun S => traverse_params (W := S) flags m path node_path config_value flag).
Proof. unfold traverse_params. uniform. Qed.

(** ** gnmi-ctl *)

(** Reads deliver what [stub_Subscribe_Reads] delivers, one by one. *)
Inductive reads {float W : Type} `{GnmiStream float W} : W -> list Response -> W -> Prop :=
| reads_end s s' : stub_Subscribe_Read s = (None, s') -> reads s [] s'
| reads_more s resp s1 l s' :
    stub_Subscribe_Read s = (Some resp, s1) -> reads s1 l s' -> reads s (resp :: l) s'.

Class GnmiStreamLaws (float W : Type) `{GnmiStream float W} : Prop := {
  stream_reads s : reads s (stub_Subscribe_Reads s).1 (stub_Subscribe_Reads s).2;
}.

Section Ctl.
Context {float W : Type} `{GnmiStreamLaws float W}.
Variable env : start_env.

Definition response_lines (l : list Response) : list text :=
  l ≫= fun resp => [lit "RESPONSE"; ENDL; DebugString resp; ENDL].

Lemma performs_reads ctx :
  performs env (read_responses ctx)
    (responses ← on_stub stub_Subscribe_Reads;
     print (responses ≫= fun resp => [lit "RESPONSE"; ENDL; DebugString resp; ENDL])).
Proof.
  intros [s out]. pose proof (stream_reads s) as Hr. unfold mbind, G_bind, on_stub. cbn [ctl_server ctl_out].
  destruct (stub_Subscribe_Reads s) as [l s']. cbn [fst snd] in *. unfold print. cbn [ctl_server ctl_out fst snd].
  unfold read_responses. cbn [serves]. exists (), (MkCtl s' (out ++ response_lines l)).
  split; [|done]. clear - Hr. revert out. induction Hr as [s s' Hs|s resp s1 l s' Hs Hr IH]; intros out.
  - apply iterates_done. cbn. rewrite Hs. cbn. by rewrite app_nil_r.
  - eapply iterates_next; [cbn; rewrite Hs; cbn; by split|].
    specialize (IH (out ++ [lit "RESPONSE"; ENDL; DebugString resp; ENDL])).
    rewrite <- app_assoc in IH. exact IH.
Qed.

(** The code of a call with one response, which is printed. *)
Definition unary_G (call : W -> (grpc_Status * Response) * W) (prompt : text) : G W Z :=
  '(status, resp) ← on_stub call;
  match grpc_error status with
  | Some code => mret code
  | None => PRINT_MSG (DebugString resp) prompt;; mret 0
  end.

Lemma performs_get flags m path buffer :
  performs env (get_prog flags m path buffer) (get_command flags m path buffer).
Proof.
  apply performs_context.
  apply (performs_eq env _ ('(req, out) ← get_turn flags m path buffer;
    print out;; unary_G (stub_Get req) (lit "Get Response from Server"))).
  - apply performs_bind.
    + apply (performs_lift env (fun S => get_turn flags m path buffer)).
      unfold get_turn. uniform. apply uniform_traverse_params.
    + intros [req out]. apply performs_bind; [apply performs_print|]. intros _.
      apply (performs_unary env command_ctx (rpc_Get req) id). intros s. apply surjective_pairing.
  - intros ctl. unfold get_command, get_turn, mbind, G_bind.
    destruct (in_array _ ctl) as [[e|path1] w1]; [done|].
    destruct (traverse_params _ _ _ _ _ _ w1) as [[e|[[[[p path2] cv] ps] m']] w2]; [done|].
    cbn. by destruct (build_gnmi_get_req flags (c_str path2 0)).
Qed.

(** What a turn of the loop does with the path and the value. *)
Definition set_send (flags : CtlFlags) (loop : mem -> nat -> G W (option Z))
  (x : option (text * text) * nat * mem) : G W (option Z) :=
  let '(params, path, m) := x in
  match params with
  | None => mret None
  | Some (path1, config_value) =>
      match build_gnmi_set_req flags path1 config_value with
      | None => stop uncaught_exception
      | Some req =>
          '(status, _) ← on_stub (stub_Set req);
          match grpc_error status with
          | Some code => mret (Some code)
          | None => loop m path
          end
      end
  end.

Lemma performs_set flags fuel m path buffer vhost :
  performs env (set_prog flags fuel m path buffer vhost) (set_loop flags fuel m path buffer vhost).
Proof.
  revert m path. induction fuel as [|fuel IH]; intros m path; [apply performs_stop|].
  cbn [set_prog set_loop].
  apply (performs_eq env _ (set_turn flags m path buffer vhost ≫=
    set_send flags (fun m path => set_loop flags fuel m path buffer vhost))).
  - apply performs_bind.
    + apply (performs_lift env (fun S => set_turn flags m path buffer vhost)).
      unfold set_turn. uniform; apply uniform_traverse_params.
    + intros [[[[path1 cv]|] path'] m']; [|apply performs_ret]. apply performs_context.
      cbn [set_send]. destruct (build_gnmi_set_req flags path1 cv) as [req|]; [|apply performs_stop].
      apply performs_bind; [apply (performs_rpc env command_ctx (rpc_Set req))|].
      intros [status resp]. destruct (grpc_error status); [apply performs_ret|apply IH].
  - intros ctl. unfold set_turn, mbind, G_bind.
    destruct (in_array _ ctl) as [[e|path1] w1]; [done|].
    destruct (traverse_params _ _ _ _ _ _ w1) as [[e|[[[[p path2] cv] ps] m']] w2]; [done|].
    match goal with |- context [(if ?c then ?t else ?f) w2] =>
      destruct ((if c then t else f) w2) as [[e|cv'] w3] end; [done|]. by destruct ps.
Qed.

Lemma performs_subscribe req :
  performs env (GnmiStart.subscribe_prog req) (subscribe_command req).
Proof.
  apply performs_context. unfold subscribe_command.
  apply performs_bind; [apply (performs_rpc env command_ctx (rpc_Subscribe_Write req))|]. intros _.
  apply (performs_eq env _ (
    (responses ← on_stub stub_Subscribe_Reads;
     print (responses ≫= fun resp => [lit "RESPONSE"; ENDL; DebugString resp; ENDL]));;
    status ← on_stub stub_Subscribe_Finish;
    match grpc_error status with Some code => mret code | None => mret 0 end)).
  - apply performs_bind; [apply performs_reads|]. intros _.
    apply performs_bind; [apply (performs_rpc env command_ctx rpc_Subscribe_Finish)|]. intros status.
    destruct (grpc_error status); apply performs_ret.
  - intros ctl. unfold mbind, G_bind. by destruct (on_stub stub_Subscribe_Reads ctl) as [[e|l] w].
Qed.

Lemma performs_command flags ERR cmd args :
  performs env (GnmiStart.command_prog flags ERR cmd args) (GnmiCtl.Main flags ERR cmd args).
Proof.
  unfold GnmiStart.command_prog, GnmiCtl.Main. case_decide.
  { apply performs_context, performs_bind; [apply performs_print|]. intros _.
    apply (performs_unary env command_ctx rpc_Capabilities id). intros s. apply surjective_pairing. }
  destruct args as [|arg args].
  { apply performs_bind; [apply performs_print|]. intros _. apply performs_ret. }
  cbv zeta. apply performs_bind.
  { apply (performs_lift env (fun S => extract_interface_node flags (arg ++ [NUL]) 0
      (client_strzcpy (FLAGS_root_node flags) MAX_STR_LENGTH) false)).
    apply uniform_extract_loop. }
  intros [[[[invalid path] buffer] vhost] m]. destruct invalid.
  { apply performs_bind; [apply performs_print|]. intros _. apply performs_ret. }
  case_decide; [apply performs_get|]. case_decide.
  { apply performs_bind; [apply performs_set|]. intros [code|]; [apply performs_ret|].
    apply performs_bind; [apply performs_print|]. intros _. apply performs_ret. }
  case_decide.
  { apply performs_context. apply (performs_unary env command_ctx (rpc_Set _) id).
    intros s. apply surjective_pairing. }
  case_decide; [apply performs_subscribe|]. case_decide; [apply performs_subscribe|].
  apply performs_ret.
Qed.

Lemma gnmi_body_ok flags ERR insecure cmd args :
  body_ok command_ctx (GnmiStart.channel_prog insecure
    (GnmiStart.command_prog (float := float) (W := W) flags ERR cmd args)).
Proof.
  assert (Hset : forall fuel m path buffer vhost,
    body_ok command_ctx (set_prog (float := float) (W := W) flags fuel m path buffer vhost)).
  { induction fuel as [|fuel IH]; intros m path buffer vhost; [done|].
    cbn [set_prog]. apply body_ok_gp_bind; [apply body_ok_lift|].
    intros [[[[path1 cv]|] path'] m']; [|done]. apply body_ok_gp; [done|]. intros _.
    destruct (build_gnmi_set_req flags path1 cv); [|done]. apply body_ok_gp; [done|].
    intros [status resp]. destruct (grpc_error status); [done|apply IH]. }
  assert (Hsub : forall req, body_ok command_ctx (GnmiStart.subscribe_prog (float := float) (W := W) req)).
  { intros req. apply body_ok_gp; [done|]. intros _. apply body_ok_gp; [done|]. intros _.
    apply body_ok_gp_bind; [apply body_ok_reads|]. intros _. apply body_ok_gp; [done|].
    intros status. by destruct (grpc_error status). }
  assert (Hcmd : body_ok command_ctx
    (GnmiStart.command_prog (float := float) (W := W) flags ERR cmd args)).
  { unfold GnmiStart.command_prog. case_decide.
    { apply body_ok_gp; [done|]. intros _. apply body_ok_gp; [done|]. intros _. apply body_ok_unary. }
    destruct args as [|arg args]; [by apply body_ok_gp|]. cbv zeta.
    apply body_ok_gp_bind; [apply body_ok_lift|]. intros [[[[invalid path] buffer] vhost] m].
    destruct invalid; [by apply body_ok_gp|]. case_decide.
    { apply body_ok_gp; [done|]. intros _. apply body_ok_gp_bind; [apply body_ok_lift|].
      intros [req out]. apply body_ok_gp; [done|]. intros _. apply body_ok_unary. }
    case_decide.
    { apply body_ok_gp_bind; [apply Hset|]. intros [code|]; [done|]. by apply body_ok_gp. }
    case_decide.
    { apply body_ok_gp; [done|]. intros _. apply body_ok_unary. }
    by repeat (case_decide; [apply Hsub|]). }
  destruct insecure; [done|]. apply body_ok_gp; [done|]. intros code. by destruct (code =? 0).
Qed.

Lemma gnmi_leave_fault r r' : GnmiStart.leave r = (false, r') -> exists e, r' = inl e.
Proof. destruct r as [e|code]; [|done]. intros [= <-]. by eexists. Qed.

(** *** The program *)

Section Program.
Variable ParseCommandLineFlags : AllFlags CtlFlags * list text -> AllFlags CtlFlags * list text.
Variable InitGoogle : AllFlags CtlFlags * list text -> AllFlags CtlFlags * list text.
Variables (ERR_INVALID_PARAM RET_CHECK_FAILURE : Z) (flags flags' : AllFlags CtlFlags).
Variables (argv args : list text) (argv0 cmd : text).
(** What is left of the command line names a command. *)
Hypothesis command_line :
  InitGoogle (ParseCommandLineFlags
    (MkAllFlags (set_client_cert_defaults (all_cert flags)) (FLAGS_grpc_use_insecure_mode flags)
       (FLAGS_grpc_addr flags) (all_client flags), argv)) = (flags', argv0 :: cmd :: args).

Definition gnmi_start (ctl : Ctl W) : gsys float W (fault + Z) :=
  gsys_start (GnmiStart.Main_prog ParseCommandLineFlags InitGoogle ERR_INVALID_PARAM
    RET_CHECK_FAILURE flags argv) ctl.

Lemma gnmi_start_eq ctl :
  gnmi_start ctl = gsys_start (start_prog RET_CHECK_FAILURE GnmiStart.leave
    (GnmiStart.channel_prog (FLAGS_grpc_use_insecure_mode flags')
      (GnmiStart.command_prog (all_client flags') ERR_INVALID_PARAM cmd args))) ctl.
Proof. unfold gnmi_start, GnmiStart.Main_prog. by rewrite command_line. Qed.

(** C22 gnmi_ctl_uninterrupted: without SIGINT, whatever the order in which the
    main program and the thread run, and even if the thread's read fails, when
    gnmi-ctl ends it has done to the server, printed and returned what
    [GnmiCtl.Main] says, or the error of the step of its start that failed. *)
Theorem gnmi_ctl_uninterrupted es ctl r w :
  existsb is_interrupt es = false ->
  gsys_run env es (gnmi_start ctl) = (Some (IRet r), w) ->
  (r, gw_ctl w) =
    start_result env RET_CHECK_FAILURE (FLAGS_grpc_use_insecure_mode flags')
      (GnmiCtl.Main (all_client flags') ERR_INVALID_PARAM cmd args) ctl.
Proof.
  rewrite gnmi_start_eq. intros Hes Hrun.
  pose proof (serves_start env RET_CHECK_FAILURE GnmiStart.leave (FLAGS_grpc_use_insecure_mode flags')
    _ _ ctl (performs_command (all_client flags') ERR_INVALID_PARAM cmd args) ltac:(done)) as Hs.
  destruct (uninterrupted_result env _ _ _ _ gnmi_leave_fault (gnmi_body_ok _ _ _ _ _)
    es ctl _ _ r w Hes Hs Hrun) as [-> ->].
  rewrite <- surjective_pairing. unfold start_result. repeat case_match; try done.
  unfold left_with. destruct (GnmiCtl.Main _ _ _ _ ctl) as [[e|code] ctl']; done.
Qed.

(** C20 gnmi_ctl_ignores_interrupts: once gnmi-ctl waits for the server, it waits
    until the server answers: no number of SIGINTs ends it or the call, in
    whichever order the thread and the main program run meanwhile. (The thread
    cancels the context of [Main]; every command declares its own.) *)
Theorem gnmi_ctl_ignores_interrupts es es' ctl p w :
  gsys_run env es (gnmi_start ctl) = (Some p, w) -> waiting p = true ->
  Forall (fun e => e <> Answer) es' ->
  (gsys_run env (es ++ es') (gnmi_start ctl)).1 = Some p.
Proof.
  rewrite gnmi_start_eq. by apply (waiting_stays env _ _ gnmi_leave_fault _ _ (gnmi_body_ok _ _ _ _ _)).
Qed.

(** gnmi_ctl_cleans_up: whatever happens, when gnmi-ctl returns a code its thread,
    if it was started, has ended, and both ends of the pipe are closed. *)
Theorem gnmi_ctl_cleans_up es ctl code w :
  gsys_run env es (gnmi_start ctl) = (Some (IRet (inr code)), w) ->
  gw_thread w = None \/
  gw_thread w = Some (IRet ()) /\ gw_write_open w = false /\ gw_read_open w = false.
Proof.
  rewrite gnmi_start_eq. by apply (cleaned_up env _ _ gnmi_leave_fault _ _ (gnmi_body_ok _ _ _ _ _)).
Qed.
End Program.
End Ctl.

(** ** sgnmi_cli *)

Section Cli.
Context `{RE2} {float : Type} `{Stratum float} {W : Type} `{GnmiStreamLaws float W}.
Context (get_text : GetRequest -> text) (set_text : SetRequest float -> text)
  (subscribe_text : SubscribeRequest -> text).
Variable env : start_env.

Lemma performs_cli_subscribe req :
  performs env (SgnmiStart.subscribe_prog subscribe_text req) (SgnmiCli.subscribe subscribe_text req).
Proof.
  apply performs_bind; [apply performs_print|]. intros _.
  apply performs_bind; [apply (performs_rpc env main_ctx (rpc_Subscribe_Write req))|].
  intros written. destruct written; [|apply performs_ret]. cbn [negb].
  apply (performs_eq env _ (
    (responses ← on_stub stub_Subscribe_Reads;
     print (responses ≫= fun resp => [lit "RESPONSE"; ENDL; DebugString resp; ENDL]));;
    status ← on_stub stub_Subscribe_Finish;
    match grpc_error status with Some code => mret code | None => mret 0 end)).
  - apply performs_bind; [apply performs_reads|]. intros _.
    apply performs_bind; [apply (performs_rpc env main_ctx rpc_Subscribe_Finish)|]. intros status.
    destruct (grpc_error status); apply performs_ret.
  - intros ctl. unfold mbind, G_bind. by destruct (on_stub stub_Subscribe_Reads ctl) as [[e|l] w].
Qed.

Lemma performs_cli_command flags cmd args :
  performs env (SgnmiStart.command_prog get_text set_text subscribe_text flags cmd args)
    (SgnmiCli.Main flags get_text set_text subscribe_text cmd args).
Proof.
  unfold SgnmiStart.command_prog, SgnmiCli.Main. case_decide.
  { apply performs_bind; [apply performs_print|]. intros _.
    apply (performs_unary env main_ctx rpc_Capabilities id). intros s. apply surjective_pairing. }
  destruct args as [|path args]; [apply performs_ret|]. case_decide.
  { destruct (BuildGnmiGetRequest flags path) as [req out].
    apply performs_bind; [apply performs_print|]. intros _.
    apply performs_bind; [apply performs_print|]. intros _.
    apply (performs_unary env main_ctx (rpc_Get req) id). intros s. apply surjective_pairing. }
  case_decide.
  { destruct (BuildGnmiSetRequest flags path) as [[req out]|]; [|apply performs_stop].
    apply performs_bind; [apply performs_print|]. intros _.
    apply performs_bind; [apply performs_print|]. intros _.
    apply (performs_unary env main_ctx (rpc_Set req) id). intros s. apply surjective_pairing. }
  case_decide.
  { apply performs_bind; [apply performs_print|]. intros _.
    apply (performs_unary env main_ctx (rpc_Set _) id). intros s. apply surjective_pairing. }
  case_decide; [apply performs_cli_subscribe|]. case_decide; [apply performs_cli_subscribe|].
  apply performs_ret.
Qed.

Lemma cli_body_ok flags insecure cmd args :
  body_ok main_ctx (SgnmiStart.channel_prog insecure
    (SgnmiStart.command_prog (W := W) get_text set_text subscribe_text flags cmd args)).
Proof.
  assert (Hsub : forall req, body_ok main_ctx (SgnmiStart.subscribe_prog (W := W) subscribe_text req)).
  { intros req. apply body_ok_gp; [done|]. intros _. apply body_ok_gp; [done|].
    intros written. destruct written; [|done]. cbn [negb].
    apply body_ok_gp_bind; [apply body_ok_reads|]. intros _. apply body_ok_gp; [done|].
    intros status. by destruct (grpc_error status). }
  assert (Hcmd : body_ok main_ctx
    (SgnmiStart.command_prog (W := W) get_text set_text subscribe_text flags cmd args)).
  { unfold SgnmiStart.command_prog. case_decide.
    { apply body_ok_gp; [done|]. intros _. apply body_ok_unary. }
    destruct args as [|path args]; [done|]. case_decide.
    { destruct (BuildGnmiGetRequest flags path) as [req out].
      apply body_ok_gp; [done|]. intros _. apply body_ok_gp; [done|]. intros _. apply body_ok_unary. }
    case_decide.
    { destruct (BuildGnmiSetRequest flags path) as [[req out]|]; [|done].
      apply body_ok_gp; [done|]. intros _. apply body_ok_gp; [done|]. intros _. apply body_ok_unary. }
    case_decide.
    { apply body_ok_gp; [done|]. intros _. apply body_ok_unary. }
    by repeat (case_decide; [apply Hsub|]). }
  destruct insecure; [done|]. apply body_ok_gp; [done|]. intros code. by destruct (code =? 0).
Qed.

Lemma cli_leave_fault r r' : SgnmiStart.leave r = (false, r') -> exists e, r' = inl e.
Proof. destruct r as [[]|code]; try done; intros [= <-]; by eexists. Qed.

(** *** The program *)

Section Program.
Variable InitGoogle : AllFlags CliFlags * list text -> AllFlags CliFlags * list text.
Variables (flags flags' : AllFlags CliFlags) (argv args : list text) (argv0 cmd : text).
Hypothesis command_line :
  InitGoogle
    (MkAllFlags (set_client_cert_defaults (all_cert flags)) (FLAGS_grpc_use_insecure_mode flags)
       (FLAGS_grpc_addr flags) (all_client flags), argv) = (flags', argv0 :: cmd :: args).

Definition sgnmi_start (ctl : Ctl W) : gsys float W (fault + Z) :=
  gsys_start (SgnmiStart.Main_prog get_text set_text subscribe_text InitGoogle flags argv) ctl.

Lemma sgnmi_start_eq ctl :
  sgnmi_start ctl = gsys_start (start_prog RET_CHECK_FAILURE SgnmiStart.leave
    (SgnmiStart.channel_prog (FLAGS_grpc_use_insecure_mode flags')
      (SgnmiStart.command_prog get_text set_text subscribe_text (all_client flags') cmd args))) ctl.
Proof. unfold sgnmi_start, SgnmiStart.Main_prog. by rewrite command_line. Qed.

(** sgnmi_uninterrupted: without SIGINT sgnmi_cli does what [SgnmiCli.main] says,
    or returns the error of the step of its start that failed. *)
Theorem sgnmi_uninterrupted es ctl r w :
  existsb is_interrupt es = false ->
  gsys_run env es (sgnmi_start ctl) = (Some (IRet r), w) ->
  (r, gw_ctl w) =
    start_result env RET_CHECK_FAILURE (FLAGS_grpc_use_insecure_mode flags')
      (SgnmiCli.main (all_client flags') get_text set_text subscribe_text cmd args) ctl.
Proof.
  rewrite sgnmi_start_eq. intros Hes Hrun.
  pose proof (serves_start env RET_CHECK_FAILURE SgnmiStart.leave (FLAGS_grpc_use_insecure_mode flags')
    _ _ ctl (performs_cli_command (all_client flags') cmd args) ltac:(done)) as Hs.
  destruct (uninterrupted_result env _ _ _ _ cli_leave_fault (cli_body_ok _ _ _ _)
    es ctl _ _ r w Hes Hs Hrun) as [-> ->].
  rewrite <- surjective_pairing. unfold start_result. repeat case_match; try done.
  unfold left_with, SgnmiCli.main. destruct (SgnmiCli.Main _ _ _ _ _ _ ctl) as [[[]|code] ctl']; done.
Qed.

(** C21 sgnmi_interrupt_ends: whatever sgnmi_cli is doing, once its thread runs,
    and provided the thread's read has not failed: after a SIGINT and three
    steps of the thread the main program ends by itself, though the server never
    answers again. *)
Theorem sgnmi_interrupt_ends es ctl p w :
  existsb is_failure es = false ->
  gsys_run env es (sgnmi_start ctl) = (Some p, w) -> is_Some (gw_thread w) ->
  exists n r w',
    gsys_run env (Interrupt :: replicate 3 RunThread ++ replicate n RunMain) (Some p, w) =
      (Some (IRet r), w').
Proof.
  rewrite sgnmi_start_eq. intros Hf.
  by apply (interrupted_ends env _ _ cli_leave_fault _ _ (cli_body_ok _ _ _ _)).
Qed.

(** sgnmi_cleans_up: as [gnmi_ctl_cleans_up]. *)
Theorem sgnmi_cleans_up es ctl code w :
  gsys_run env es (sgnmi_start ctl) = (Some (IRet (inr code)), w) ->
  gw_thread w = None \/
  gw_thread w = Some (IRet ()) /\ gw_write_open w = false /\ gw_read_open w = false.
Proof.
  rewrite sgnmi_start_eq. by apply (cleaned_up env _ _ cli_leave_fault _ _ (cli_body_ok _ _ _ _)).
Qed.
End Program.
End Cli.

(** ** Witnesses

    A server whose subscription delivers the responses in its state. *)

#[local] Instance sample_stub : GnmiStub unit (list text) := {|
  Response := text;
  DebugString := id;
  CapabilityRequest_DebugString := [];
  stub_Capabilities s := ((MkGrpcStatus 0 "", lit "capabilities"), s);
  stub_Get _ s := ((MkGrpcStatus 0 "", lit "value"), s);
  stub_Set _ s := ((MkGrpcStatus 0 "", []), s);
  stub_Subscribe_Write _ s := (true, s);
  stub_Subscribe_Reads s := (s, []);
  stub_Subscribe_Finish s := (MkGrpcStatus 0 "", s);
|}.

#[local] Instance sample_stream : GnmiStream unit (list text) := {|
  no_response := [] : text;
  stub_Subscribe_Read s := match s with [] => (None, []) | r :: s => (Some r, s) end;
|}.

#[local] Instance sample_stream_laws : GnmiStreamLaws unit (list text).
Proof.
  constructor. intros s. change (reads s s []). induction s as [|r s IH].
  - exact (@reads_end unit (list text) sample_stub sample_stream [] [] eq_refl).
  - exact (@reads_more unit (list text) sample_stub sample_stream (r :: s) r s s [] eq_refl IH).
Defined.

#[local] Instance sample_stratum : Stratum unit := {|
  stof _ := Some ();
  ReadFileToString _ := [];
  ERR_INVALID_PARAM := 1;
  RET_CHECK_FAILURE := 2;
  INTERNAL := 13;
|}.

Definition sample_env : start_env := MkStartEnv 0 true true true 0.
Definition sample_ctl : Ctl (list text) := MkCtl [lit "first"; lit "second"] [].

Definition ctl_argv (cmd : string) : list text :=
  [lit "gnmi-ctl"; lit cmd; lit "device:virtual-device,name:net1,speed:10"].

Definition ctl_start (cmd : string) : gsys unit (list text) (fault + Z) :=
  gnmi_start id id 1 2 default_AllFlags (ctl_argv cmd) sample_ctl.

Definition cli_flags : AllFlags CliFlags :=
  MkAllFlags (MkCertFlags [] [] [] [] []) true (lit "localhost:9339")
    (MkCliFlags [] [] [] [] [] [] [] false (lit "ALL") 5000).

Definition cli_argv : list text := [lit "sgnmi_cli"; lit "sub-onchange"; lit "/interfaces"].

Definition cli_start : gsys unit (list text) (fault + Z) :=
  sgnmi_start (H := backtracking) (fun _ => []) (fun _ => []) (fun _ => []) id cli_flags cli_argv
    sample_ctl.

(** The server answers as soon as it is asked. *)
Definition prompt_schedule (n : nat) : list gevent :=
  concat (replicate n [RunMain; Answer; RunThread]).

(** Up to the second read of a subscription, which the server leaves unanswered. *)
Definition blocked_schedule : list gevent :=
  replicate 20 RunMain ++ [Answer; RunMain; RunMain; Answer; RunMain; RunMain; RunMain].

Lemma gnmi_ctl_uninterrupted_witness :
  exists r w,
    gsys_run sample_env (prompt_schedule 40) (ctl_start "get") = (Some (IRet r), w) /\
    (r, gw_ctl w) =
      start_result sample_env 2 false
        (GnmiCtl.Main default_CtlFlags 1 (lit "get") [lit "device:virtual-device,name:net1,speed:10"])
        sample_ctl.
Proof.
  eexists _, _. split; [vm_compute; reflexivity|].
  apply (gnmi_ctl_uninterrupted sample_env id id 1 2 default_AllFlags
    (MkAllFlags (set_client_cert_defaults (all_cert default_AllFlags)) false
       (lit "localhost:9339") default_CtlFlags)
    (ctl_argv "get") _ (lit "gnmi-ctl") _ eq_refl (prompt_schedule 40)).
  - reflexivity.
  - vm_compute. reflexivity.
Defined.

(** The client is interrupted three times, and the thread and the main program
    run; the call is still there. *)
Definition three_interrupts : list gevent :=
  concat (replicate 3 [Interrupt; RunThread; RunThread; RunThread; RunMain]).

Lemma gnmi_ctl_ignores_interrupts_witness :
  exists p, waiting p = true /\
    (gsys_run sample_env (blocked_schedule ++ three_interrupts) (ctl_start "sub-onchange")).1 = Some p.
Proof.
  assert (match gsys_run sample_env blocked_schedule (ctl_start "sub-onchange") with
    | (Some p, _) => waiting p | _ => false end = true) as Hw by (vm_compute; reflexivity).
  destruct (gsys_run sample_env blocked_schedule (ctl_start "sub-onchange")) as [[p|] w] eqn:Hrun;
    [|discriminate Hw].
  exists p. split; [exact Hw|].
  apply (gnmi_ctl_ignores_interrupts sample_env id id 1 2 default_AllFlags
    (MkAllFlags (set_client_cert_defaults (all_cert default_AllFlags)) false
       (lit "localhost:9339") default_CtlFlags)
    (ctl_argv "sub-onchange") _ (lit "gnmi-ctl") _ eq_refl blocked_schedule three_interrupts _ p w
    Hrun Hw).
  repeat constructor; discriminate.
Defined.

Lemma gnmi_ctl_cleans_up_witness :
  exists w,
    gsys_run sample_env (prompt_schedule 40) (ctl_start "get") = (Some (IRet (inr 0)), w) /\
    (gw_thread w = None \/
     gw_thread w = Some (IRet ()) /\ gw_write_open w = false /\ gw_read_open w = false).
Proof.
  eexists _. split; [vm_compute; reflexivity|].
  apply (gnmi_ctl_cleans_up sample_env id id 1 2 default_AllFlags
    (MkAllFlags (set_client_cert_defaults (all_cert default_AllFlags)) false
       (lit "localhost:9339") default_CtlFlags)
    (ctl_argv "get") [lit "device:virtual-device,name:net1,speed:10"] (lit "gnmi-ctl") (lit "get")
    eq_refl (prompt_schedule 40) sample_ctl 0).
  vm_compute. reflexivity.
Defined.

Definition cli_flags' : AllFlags CliFlags :=
  MkAllFlags (set_client_cert_defaults (all_cert cli_flags)) true (lit "localhost:9339")
    (all_client cli_flags).

Lemma sgnmi_interrupt_ends_witness :
  exists p w n r w',
    gsys_run sample_env blocked_schedule cli_start = (Some p, w) /\ waiting p = true /\
    gsys_run sample_env (Interrupt :: replicate 3 RunThread ++ replicate n RunMain) (Some p, w) =
      (Some (IRet r), w').
Proof.
  assert (match gsys_run sample_env blocked_schedule cli_start with
    | (Some p, w) => waiting p && bool_decide (is_Some (gw_thread w)) | _ => false end = true) as Hw
    by (vm_compute; reflexivity).
  destruct (gsys_run sample_env blocked_schedule cli_start) as [[p|] w] eqn:Hrun; [|discriminate Hw].
  apply andb_true_iff in Hw as [Hw Ht]. apply bool_decide_eq_true in Ht.
  destruct (sgnmi_interrupt_ends (H := backtracking) (fun _ => []) (fun _ => []) (fun _ => [])
    sample_env id cli_flags cli_flags' cli_argv _ (lit "sgnmi_cli") _ eq_refl blocked_schedule
    sample_ctl p w eq_refl Hrun Ht) as (n & r & w' & Hend).
  exists p, w, n, r, w'. repeat split; assumption.
Defined.

Lemma sgnmi_uninterrupted_witness :
  exists r w,
    gsys_run sample_env (prompt_schedule 40) cli_start = (Some (IRet r), w) /\
    (r, gw_ctl w) =
      start_result sample_env 2 true
        (SgnmiCli.main (H := backtracking) (all_client cli_flags) (fun _ => []) (fun _ => [])
           (fun _ => []) (lit "sub-onchange") [lit "/interfaces"]) sample_ctl.
Proof.
  eexists _, _. split; [vm_compute; reflexivity|].
  apply (sgnmi_uninterrupted (H := backtracking) (fun _ => []) (fun _ => []) (fun _ => [])
    sample_env id cli_flags cli_flags' cli_argv _ (lit "sgnmi_cli") _ eq_refl (prompt_schedule 40)).
  - reflexivity.
  - vm_compute. reflexivity.
Defined.

Lemma sgnmi_cleans_up_witness :
  exists w,
    gsys_run sample_env (prompt_schedule 40) cli_start = (Some (IRet (inr 0)), w) /\
    (gw_thread w = None \/
     gw_thread w = Some (IRet ()) /\ gw_write_open w = false /\ gw_read_open w = false).
Proof.
  eexists _. split; [vm_compute; reflexivity|].
  apply (sgnmi_cleans_up (H := backtracking) (fun _ => []) (fun _ => []) (fun _ => [])
    sample_env id cli_flags cli_flags' cli_argv [lit "/interfaces"] (lit "sgnmi_cli")
    (lit "sub-onchange") eq_refl (prompt_schedule 40) sample_ctl 0).
  vm_compute. reflexivity.
Defined.

(** A subscription of sgnmi_cli that is interrupted ends with code 0. *)
Lemma sgnmi_interrupted_code :
  (gsys_run sample_env (blocked_schedule ++ Interrupt :: replicate 3 RunThread ++ replicate 20 RunMain)
    cli_start).1 = Some (IRet (inr 0)).
Proof. vm_compute. reflexivity. Qed.
