(* ===== verification/PerfSession.v ===== *)
(** * Sessions and encodings of the performance test
      ([clients/p4rt_perf_test/p4rt_perf_{util,tls_credentials,session}.{h,cc}])

    [p4rt_perf_test] has its own copies of the sidecar's utilities, without
    roles: they are written out here from its sources, and related to those of
    the sidecar by the lemmas below. The stub of the server is the one of
    [Session]. *)

From S2P Require Import Prelude P4Runtime OvsP4rt Session.
From S2P Require EncodeUtils P4InfoUtils.

(** ** [p4rt_perf_util.cc] *)

Fixpoint EncodeByteValue (arg_count : nat) (args : list Z) : bytes :=
  match arg_count with
  | O => []
  | S n =>
      match args with
      | arg :: args => w8 arg :: EncodeByteValue n args
      | [] => []
      end
  end.

Definition CanonicalizeIp (ipv4addr : Z) : bytes :=
  EncodeByteValue 4 [ipv4addr .& 255; (ipv4addr >>. 8) .& 255;
                     (ipv4addr >>. 16) .& 255; (ipv4addr >>. 24) .& 255].

Definition CanonicalizeIpv6 (ipv6addr : p4_ipaddr) : bytes :=
  EncodeByteValue 16
    [u6_addr8 ipv6addr 0; u6_addr8 ipv6addr 1; u6_addr8 ipv6addr 2; u6_addr8 ipv6addr 3;
     u6_addr8 ipv6addr 4; u6_addr8 ipv6addr 5; u6_addr8 ipv6addr 6; u6_addr8 ipv6addr 7;
     u6_addr8 ipv6addr 8; u6_addr8 ipv6addr 9; u6_addr8 ipv6addr 10; u6_addr8 ipv6addr 11;
     u6_addr8 ipv6addr 12; u6_addr8 ipv6addr 13; u6_addr8 ipv6addr 14; u6_addr8 ipv6addr 15].

Definition CanonicalizeMac (mac : bytes) : bytes :=
  EncodeByteValue 6
    [(mac !!! 0%nat) .& 255; (mac !!! 1%nat) .& 255; (mac !!! 2%nat) .& 255;
     (mac !!! 3%nat) .& 255; (mac !!! 4%nat) .& 255; (mac !!! 5%nat) .& 255].

(** The loops [for (const auto& table : p4info.tables())] and their like. *)
Fixpoint GetTableId_loop (tables : list TableInfo) (t_name : string) : Z :=
  match tables with
  | [] => -1
  | table :: tables =>
      let pre := tbl_preamble table in
      if decide (pre_name pre = t_name) then s32 (pre_id pre)
      else GetTableId_loop tables t_name
  end.

Definition GetTableId (p4info : P4Info) (t_name : string) : Z :=
  GetTableId_loop (p4_tables p4info) t_name.

Fixpoint GetActionId_loop (acts : list ActionInfo) (a_name : string) : Z :=
  match acts with
  | [] => -1
  | action :: acts =>
      let pre := act_preamble action in
      if decide (pre_name pre = a_name) then s32 (pre_id pre)
      else GetActionId_loop acts a_name
  end.

Definition GetActionId (p4info : P4Info) (a_name : string) : Z :=
  GetActionId_loop (p4_actions p4info) a_name.

Fixpoint find_param (param_name : string) (ps : list ActionParam) : option Z :=
  match ps with
  | [] => None
  | p :: ps =>
      if decide (ap_name p = param_name) then Some (s32 (ap_id p))
      else find_param param_name ps
  end.

Fixpoint GetParamId_loop (acts : list ActionInfo) (a_name param_name : string) : Z :=
  match acts with
  | [] => -1
  | action :: acts =>
      let pre := act_preamble action in
      if decide (pre_name pre <> a_name) then GetParamId_loop acts a_name param_name
      else match find_param param_name (act_params action) with
           | Some id => id
           | None => GetParamId_loop acts a_name param_name
           end
  end.

Definition GetParamId (p4info : P4Info) (a_name param_name : string) : Z :=
  GetParamId_loop (p4_actions p4info) a_name param_name.

Fixpoint find_match_field (mf_name' : string) (mfs : list MatchField) : option Z :=
  match mfs with
  | [] => None
  | mf :: mfs =>
      if decide (mf_name mf = mf_name') then Some (s32 (mf_id mf))
      else find_match_field mf_name' mfs
  end.

Fixpoint GetMatchFieldId_loop (tables : list TableInfo) (t_name mf_name : string) : Z :=
  match tables with
  | [] => -1
  | table :: tables =>
      let pre := tbl_preamble table in
      if decide (pre_name pre <> t_name) then GetMatchFieldId_loop tables t_name mf_name
      else match find_match_field mf_name (tbl_match_fields table) with
           | Some id => id
           | None => GetMatchFieldId_loop tables t_name mf_name
           end
  end.

Definition GetMatchFieldId (p4info : P4Info) (t_name mf_name : string) : Z :=
  GetMatchFieldId_loop (p4_tables p4info) t_name mf_name.

(** ** [p4rt_perf_tls_credentials.{h,cc}] *)

Definition ca_cert_file : string := "/usr/share/stratum/certs/ca.crt".
Definition client_key_file : string := "/usr/share/stratum/certs/client.key".
Definition client_cert_file : string := "/usr/share/stratum/certs/client.crt".

Definition IsRegularFile (env : Env) (filename : string) : bool := env_is_regular env filename.

(** The credentials, and what is printed. *)
Definition GenerateClientCredentials (env : Env) : ChannelCredentials * list string :=
  if IsRegularFile env ca_cert_file && IsRegularFile env client_cert_file &&
     IsRegularFile env client_key_file
  then (TlsCredentials ca_cert_file client_cert_file client_key_file, [])
  else (InsecureChannelCredentials, ["Using insecure client credentials!"]).

(** ** [p4rt_perf_session.{h,cc}] *)

Definition AbslStatusToGrpcStatus (status : Status) : grpc_Status :=
  MkGrpcStatus (status_code status) (status_message status).

Definition GrpcStatusToAbslStatus (status : grpc_Status) : Status :=
  absl_Status (error_code status) (error_message status).

Definition TimeBasedElectionId (now : Z) : Z := MakeUint128 now 0.

Record P4rtSession := MkP4rtSession {
  perf_device_id_ : Z;           (* uint32_t *)
  perf_election_id_ : Uint128;
}.

Definition DeviceId (s : P4rtSession) : Z := perf_device_id_ s.
Definition ElectionId (s : P4rtSession) : Uint128 := perf_election_id_ s.

Definition new_P4rtSession (device_id election_id : Z) : P4rtSession :=
  MkP4rtSession device_id (MkUint128 (Uint128High64 election_id) (Uint128Low64 election_id)).

Section PerfSession.
Context {S : Type} `{P4RuntimeStub S}.

Definition CreateP4RuntimeStub (address : string) (credentials : ChannelCredentials) (s : S) : S :=
  stub_StreamChannel credentials address s.

(** [P4rtSession::Create] on a stub whose stream is open. The request carries
    no role. *)
Definition Create (device_id election_id : Z) (s : S) : StatusOr P4rtSession * S :=
  let session := new_P4rtSession device_id election_id in
  let arbt_request :=
    MkArbitration device_id "" None (Some (perf_election_id_ session)) 0 in
  let '(written, s) := stub_StreamWrite arbt_request s in
  if negb written then
    let '(_, s) := stub_StreamFinish s in
    (StatusError (UnavailableError
       "Unable to initiate P4RT connection for Write request, closing stream channel"), s)
  else
  let '(response, s) := stub_StreamRead s in
  match response with
  | None =>
      let '(_, s) := stub_StreamFinish s in
      (StatusError (InternalError "No arbitration response received"), s)
  | Some kOtherUpdate => (StatusError (InternalError "No arbitration update received"), s)
  | Some (kArbitration arbitration) =>
      if negb (arb_device_id arbitration =? perf_device_id_ session) then
        (StatusError (InternalError "Received device id doesn't match"), s)
      else (StatusValue session, s)
  end.

(** The overload on an address; its [device_id] is a [uint32_t]. *)
Definition Create_address (env : Env) (address : string) (credentials : ChannelCredentials)
  (device_id election_id : Z) (s : S) : StatusOr P4rtSession * S :=
  let election_id := w128 (election_id + env_pthread_self env) in
  Create device_id election_id (CreateP4RuntimeStub address credentials s).

(** The status of the call is computed and dropped. *)
Definition GetForwardingPipelineConfig (session : P4rtSession) (s : S) : (Status * P4Info) * S :=
  let '((grpc_status, p4info), s) := stub_GetForwardingPipelineConfig (DeviceId session) s in
  let status := GrpcStatusToAbslStatus grpc_status in
  ((OkStatus, p4info), s).

Definition SendReadRequest (session : P4rtSession) (read_request : ReadRequest) (s : S)
  : StatusOr ReadResponse * S :=
  let '((partial_responses, reader_status), s) := stub_Read read_request s in
  let response := fold_left MergeFrom partial_responses default_ReadResponse in
  match GrpcStatusToAbslStatus reader_status with
  | ErrStatus e => (StatusError e, s)
  | OkStatus => (StatusValue response, s)
  end.

Definition SendWriteRequest (session : P4rtSession) (write_request : WriteRequest) (s : S)
  : Status * S :=
  let '(status, s) := stub_Write write_request s in
  (GrpcStatusToAbslStatus status, s).
End PerfSession.

(** Unlike those of the sidecar, these set neither the device nor the election
    id of the request: [SimpleL2DemoTest] does, once. *)
Definition add_update (type : UpdateType) (req : WriteRequest) : WriteRequest * entry_ptr :=
  (MkWriteRequest (wr_device_id req) (wr_election_id req)
     (wr_updates req ++ [MkUpdate type (ENTITY_TABLE_ENTRY default_TableEntry)]),
   length (wr_updates req)).

Definition SetupTableEntryToInsert (session : P4rtSession) (req : WriteRequest)
  : WriteRequest * entry_ptr := add_update UPDATE_INSERT req.

Definition SetupTableEntryToModify (session : P4rtSession) (req : WriteRequest)
  : WriteRequest * entry_ptr := add_update UPDATE_MODIFY req.

Definition SetupTableEntryToDelete (session : P4rtSession) (req : WriteRequest)
  : WriteRequest * entry_ptr := add_update UPDATE_DELETE req.

(** ** The copies agree with the originals *)

Lemma perf_util_agree :
  EncodeByteValue = EncodeUtils.EncodeByteValue /\
  CanonicalizeIp = EncodeUtils.CanonicalizeIp /\
  CanonicalizeIpv6 = EncodeUtils.CanonicalizeIpv6 /\
  CanonicalizeMac = EncodeUtils.CanonicalizeMac /\
  GetTableId = P4InfoUtils.GetTableId /\
  GetActionId = P4InfoUtils.GetActionId /\
  GetParamId = P4InfoUtils.GetParamId /\
  GetMatchFieldId = P4InfoUtils.GetMatchFieldId /\
  GenerateClientCredentials = Session.GenerateClientCredentials.
Proof. by repeat split. Qed.

Definition with_role (r : StatusOr P4rtSession) : StatusOr OvsP4rtSession :=
  match r with
  | StatusValue s => StatusValue (MkSession (perf_device_id_ s) (perf_election_id_ s) "")
  | StatusError e => StatusError e
  end.

(** perf_Create_agrees: a session of the performance test is a session of the
    sidecar without a role: on every server the two constructors make the same
    calls and have the same outcome, provided the role file is absent. *)
Theorem perf_Create_agrees {S : Type} `{P4RuntimeStub S} env d e (s : S) :
  env_role_config env = None ->
  Session.Create env d "" e s = (with_role (Create d e s).1, (Create d e s).2).
Proof.
  intros Hrole. unfold Session.Create, Create, new_OvsP4rtSession, new_P4rtSession.
  rewrite Hrole. simpl. by repeat (case_match; simplify_eq/=).
Qed.

Lemma perf_Create_agrees_witness :
  Session.Create (default_Env 5 7 None) 1 "" 9 tt =
    (StatusError (UnavailableError
       "Unable to initiate P4RT connection for Write request, closing stream channel"), tt).
Proof. rewrite (perf_Create_agrees (S := unit)); reflexivity. Defined.
