(* ===== verification/PerfTest.v ===== *)
(** * The performance test ([clients/p4rt_perf_test/p4rt_perf_{main,simple_l2_demo}.cc])

    [p4rt_perf_test -t threads -o operation -n entries -p profile] inserts or
    deletes [n] entries of the table [my_control.e_fwd] and times it. The
    entries are divided between threads, each of which opens a session of its
    own and sends its share as one request.

    A thread is a program of calls ([pprog]): a call is one function of
    [PerfSession] on the server, a look at the clock or a line of output.
    [perf_step] runs one call of one thread, so the interleaving of the threads
    is the list of events. *)

From Stdlib Require Import Ascii.
From stdpp Require Import pretty.
From S2P Require Import Prelude P4Runtime Session CText PerfSession.

(** ** [p4rt_perf_test.h] *)

Definition ADD : Z := 1.
Definition DEL : Z := 2.
Definition SIMPLE_L2_DEMO : Z := 1.
Definition SUCCESS : Z := 0.
Definition INVALID_ARG : Z := 1.
Definition INTERNAL_ERR : Z := 2.

(** [double], as far as the code computes with it. *)
Class Double (F : Type) := {
  f_zero : F;
  f_gt : F -> F -> bool;
  ToDoubleSeconds : Z -> F;      (* of a duration in nanoseconds *)
  f_quotient : Z -> F -> F;      (* [uint64_t / double] *)
  f_show : F -> string;
}.

Record ThreadInfo {F : Type} := MkThreadInfo {
  tid : Z;                (* uint32_t *)
  ti_core_id : Z;         (* uint32_t *)
  start : Z;              (* uint64_t *)
  num_entries : Z;        (* uint64_t *)
  ti_oper : Z;            (* uint32_t *)
  time_taken : F;
  ti_status : Z;          (* int *)
}.
Arguments ThreadInfo : clear implicits.
Arguments MkThreadInfo {_} _ _ _ _ _ _ _.

Record TestParams := MkTestParams {
  num_threads : Z;        (* uint32_t *)
  oper : Z;               (* uint32_t *)
  tot_num_entries : Z;    (* uint64_t *)
  profile : Z;            (* uint32_t *)
}.

Definition default_TestParams : TestParams := MkTestParams 1 0 1000000 SIMPLE_L2_DEMO.

Record SimpleL2DemoMacInfo := MkMacInfo { dst_mac : bytes; src_mac : bytes }.

(** ** [p4rt_perf_simple_l2_demo.cc] *)

Definition PrepareSimpleL2DemoTableEntry (table_entry : TableEntry)
  (mac_info : SimpleL2DemoMacInfo) (p4info : P4Info) (insert_entry : bool) : TableEntry :=
  let table_entry := set_table_id (GetTableId p4info "my_control.e_fwd") table_entry in
  let mac_addr := CanonicalizeMac (dst_mac mac_info) in
  let table_entry :=
    add_match_exact
      (GetMatchFieldId p4info "my_control.e_fwd" "hdrs.mac[vmeta.common.depth].da")
      mac_addr table_entry in
  let mac_addr := CanonicalizeMac (src_mac mac_info) in
  let table_entry :=
    add_match_exact
      (GetMatchFieldId p4info "my_control.e_fwd" "hdrs.mac[vmeta.common.depth].sa")
      mac_addr table_entry in
  if insert_entry then
    mutable_action (fun action =>
      let action := set_action_id (GetActionId p4info "my_control.send") action in
      add_param (GetParamId p4info "my_control.send" "port") (EncodeByteValue 1 [1]) action)
      table_entry
  else table_entry.

(** The six assignments [mac[i] = (src_int >> k) & 0xFF] to bytes; the last
    byte of [src_mac] is assigned without the mask. *)
Definition store_dst_mac (src_int : Z) : bytes :=
  [w8 ((src_int >>. 40) .& 255); w8 ((src_int >>. 32) .& 255);
   w8 ((src_int >>. 24) .& 255); w8 ((src_int >>. 16) .& 255);
   w8 ((src_int >>. 8) .& 255); w8 (src_int .& 255)].

Definition store_src_mac (src_int : Z) : bytes :=
  [w8 ((src_int >>. 40) .& 255); w8 ((src_int >>. 32) .& 255);
   w8 ((src_int >>. 24) .& 255); w8 ((src_int >>. 16) .& 255);
   w8 ((src_int >>. 8) .& 255); w8 src_int].

(** The loop [for (j = 0; j < t_data.num_entries; j++)], run [n] times from
    [count]; [None] is the return on an invalid operation. *)
Fixpoint fill_requests (session : P4rtSession) (p4info : P4Info) (op : Z)
  (n : nat) (count : Z) (write_request : WriteRequest) : option (WriteRequest * Z) :=
  match n with
  | O => Some (write_request, count)
  | S n =>
      '(write_request, table_entry) ←
        (if op =? ADD then Some (SetupTableEntryToInsert session write_request)
         else if op =? DEL then Some (SetupTableEntryToDelete session write_request)
         else None);
      let src_int := count in
      let src := store_src_mac src_int in
      let src_int := w64 (count + 1) in
      let mac_info := MkMacInfo (store_dst_mac src_int) src in
      let te :=
        PrepareSimpleL2DemoTableEntry (wr_deref write_request table_entry) mac_info p4info
          (op =? ADD) in
      fill_requests session p4info op n (w64 (count + 1))
        (wr_store write_request table_entry te)
  end.

(** ** Programs of a thread *)

Inductive perf_call :=
| call_Create (address : string) (credentials : ChannelCredentials) (device_id : Z)
| call_GetForwardingPipelineConfig (session : P4rtSession)
| call_SendWriteRequest (session : P4rtSession) (write_request : WriteRequest)
| call_Now
| call_print (line : string).

Definition perf_ret (c : perf_call) : Type :=
  match c with
  | call_Create _ _ _ => StatusOr P4rtSession
  | call_GetForwardingPipelineConfig _ => Status * P4Info
  | call_SendWriteRequest _ _ => Status
  | call_Now => Z
  | call_print _ => unit
  end.

Inductive pprog (A : Type) : Type :=
| PRet (a : A)
| PCall (c : perf_call) (k : perf_ret c -> pprog A).
Arguments PRet {_} _.
Arguments PCall {_} _ _.

Fixpoint pbind {A B} (p : pprog A) (f : A -> pprog B) : pprog B :=
  match p with
  | PRet a => f a
  | PCall c k => PCall c (fun r => pbind (k r) f)
  end.

#[export] Instance pprog_ret : MRet pprog := fun A a => PRet a.
#[export] Instance pprog_bind : MBind pprog := fun A B f p => pbind p f.

Definition pcall (c : perf_call) : pprog (perf_ret c) := PCall c PRet.

Fixpoint pprint_lines (l : list string) : pprog unit :=
  match l with
  | [] => mret tt
  | s :: l => (_ ← pcall (call_print s); pprint_lines l)
  end.

Section Thread.
Context {F : Type} `{Double F}.
Implicit Type t_data : ThreadInfo F.

Definition set_time_taken (x : F) t_data : ThreadInfo F :=
  MkThreadInfo (tid t_data) (ti_core_id t_data) (start t_data) (num_entries t_data)
    (ti_oper t_data) x (ti_status t_data).

Definition set_status (x : Z) t_data : ThreadInfo F :=
  MkThreadInfo (tid t_data) (ti_core_id t_data) (start t_data) (num_entries t_data)
    (ti_oper t_data) (time_taken t_data) x.

(** The status returned, and [t_data] (taken by reference) afterwards. The
    status of the write is dropped. *)
Definition SimpleL2DemoTest (session : P4rtSession) (p4info : P4Info) t_data
  : pprog (Z * ThreadInfo F) :=
  let count := w64 (start t_data + 1) in
  let write_request := MkWriteRequest (DeviceId session) (Some (ElectionId session)) [] in
  match fill_requests session p4info (ti_oper t_data) (Z.to_nat (num_entries t_data)) count
          write_request with
  | None =>
      _ ← pcall (call_print "Invalid operation");
      mret (INVALID_ARG, t_data)
  | Some (write_request, count) =>
      timestamp ← pcall call_Now;
      sts ← pcall (call_SendWriteRequest session write_request);
      end_timestamp ← pcall call_Now;
      let duration := end_timestamp - timestamp in
      let seconds := ToDoubleSeconds duration in
      let t_data := set_time_taken seconds t_data in
      _ ← pcall (call_print ("count: " +:+ pretty (w64 (count - 1))));
      mret (SUCCESS, t_data)
  end.

(** *** [p4rt_perf_main.cc] *)

(** [FLAGS_grpc_addr]; [FLAGS_device_id], a [uint64_t], is in [Env]. *)
Definition FLAGS_grpc_addr : string := "localhost:9559".

(** The thread works on [thread_data[tid]], which no other thread touches:
    here its value before and after. *)
Definition RunPerfTest (env : Env) (test_params : TestParams) t_data : pprog (ThreadInfo F) :=
  let t_data := set_status SUCCESS t_data in
  let '(credentials, out) := GenerateClientCredentials env in
  _ ← pprint_lines out;
  status_or_session ←
    pcall (call_Create FLAGS_grpc_addr credentials (w32 (FLAGS_device_id env)));
  match status_or_session with
  | StatusError e =>
      _ ← pcall (call_print ("Failure to create session. Error: " +:+ err_message e));
      mret (set_status INTERNAL_ERR t_data)
  | StatusValue session =>
      '(status, p4info) ← pcall (call_GetForwardingPipelineConfig session);
      if negb (ok status) then
        _ ← pcall (call_print ("Failure to get forwarding pipeline. Error: "
                               +:+ status_message status));
        mret (set_status INTERNAL_ERR t_data)
      else if profile test_params =? SIMPLE_L2_DEMO then
        '(status, t_data) ← SimpleL2DemoTest session p4info t_data;
        mret (set_status status t_data)
      else
        _ ← pcall (call_print "Unsupported profile");
        mret (set_status INVALID_ARG t_data)
  end.
End Thread.

(** ** The main program *)

Definition MAX_THREADS : Z := 8.
Definition CORE_BASE : Z := 20.

Definition profileToStr : list (Z * string) := [(SIMPLE_L2_DEMO, "simple_l2_demo")].

Definition PrintUsage (name : string) : list string :=
  ["Usage: " +:+ name +:+ " -t <value> -o <value> -n <value> -p <value>";
   "t: num of threads (optional, default: 1, max: 8)";
   "o: operation (ADD=1, DEL=2) (mandatory)";
   "n: num of entries (optional, default: 1000000, max: max of uint64)";
   "p: test profile (optional, default:SIMPLE_L2_DEMO(1))";
   "   Supported profiles:"] ++
  map (fun pair => "   " +:+ pretty pair.1 +:+ " : " +:+ pair.2) profileToStr.

(** The status, and what is printed. *)
Definition ValidateInput (p : TestParams) (name : string) : Z * list string :=
  if oper p =? 0 then (INVALID_ARG, "Operation not set" :: PrintUsage name)
  else if negb (oper p =? ADD) && negb (oper p =? DEL) then
    (INVALID_ARG, "Invalid Operation" :: PrintUsage name)
  else if num_threads p >? MAX_THREADS then
    (INVALID_ARG,
     ("Number of threads greater than max allowed: " +:+ pretty MAX_THREADS) :: PrintUsage name)
  else if bool_decide (profile p ∉ profileToStr.*1) then
    (INVALID_ARG, "Not a supported profile" :: PrintUsage name)
  else (SUCCESS, []).

(** *** The command line *)

(** [std::atoi]: [strtol], clamped to [long], converted to [int] (undefined by
    C for a value that is no [int]; this is what glibc does). *)
Definition strtol (s : text) : Z :=
  match scan_int s with
  | Some (negative, n, _) =>
      Z.max (-9223372036854775808)
        (Z.min 9223372036854775807 (if (negative : bool) then - n else n))
  | None => 0
  end.

Definition atoi (s : text) : Z := s32 (strtol s).

(** What the calls of [getopt(argc, argv, "t:o:n:p:")] return up to [-1]: an
    option with its argument, or ['?']. Arguments that are no options are
    skipped (glibc moves them to the end), ["--"] ends the options. *)
Inductive getopt_result := Opt (option : ascii) (optarg : text) | BadOption.

Definition opts_with_arg : text := lit "tonp".

Fixpoint getopt_all (args : list text) : list getopt_result :=
  match args with
  | [] => []
  | ("-" :: "-" :: [])%char :: _ => []
  | ("-" :: option :: optarg)%char :: args' =>
      if bool_decide (option ∈ opts_with_arg) then
        match optarg, args' with
        | _ :: _, _ => Opt option optarg :: getopt_all args'
        | [], optarg :: args'' => Opt option optarg :: getopt_all args''
        | [], [] => [BadOption]
        end
      else [BadOption]
  | _ :: args' => getopt_all args'
  end.

(** The [while] loop of [main]; [None] is the return in its default case. *)
Fixpoint parse_options (options : list getopt_result) (p : TestParams) : option TestParams :=
  match options with
  | [] => Some p
  | Opt option optarg :: options =>
      let n := atoi optarg in
      if decide (option = "t"%char) then
        parse_options options (MkTestParams (w32 n) (oper p) (tot_num_entries p) (profile p))
      else if decide (option = "o"%char) then
        parse_options options (MkTestParams (num_threads p) (w32 n) (tot_num_entries p) (profile p))
      else if decide (option = "n"%char) then
        parse_options options (MkTestParams (num_threads p) (oper p) (w64 n) (profile p))
      else if decide (option = "p"%char) then
        parse_options options (MkTestParams (num_threads p) (oper p) (tot_num_entries p) (w32 n))
      else None
  | BadOption :: _ => None
  end.

Section Main.
Context {F : Type} `{Double F}.

(** The globals [thread_data] and [core_id], zero at the start. *)
Definition default_thread_data : list (ThreadInfo F) :=
  replicate (Z.to_nat MAX_THREADS) (MkThreadInfo 0 0 0 0 0 f_zero 0).
Definition default_core_id : list Z := replicate (Z.to_nat MAX_THREADS) 0.

(** [array[index] = f(array[index])]; [None] past the end. *)
Definition update_at {A} (index : nat) (f : A -> A) (array : list A) : option (list A) :=
  if decide (index < length array)%nat then Some (alter f index array) else None.

(** The first loop of [PopulateThreadInfo], from [index], [n] times. *)
Fixpoint populate_loop (p : TestParams) (entries_per_thread : Z) (n index : nat)
  (thread_data : list (ThreadInfo F)) (core_id : list Z)
  : option (list (ThreadInfo F) * list Z) :=
  match n with
  | O => Some (thread_data, core_id)
  | S n =>
      let i := Z.of_nat index in
      core_id ← update_at index (fun _ => w32 (CORE_BASE + i)) core_id;
      thread_data ←
        update_at index (fun t =>
          MkThreadInfo i (core_id !!! index) (w64 (i * entries_per_thread)) entries_per_thread
            (oper p) (time_taken t) (ti_status t)) thread_data;
      populate_loop p entries_per_thread n (S index) thread_data core_id
  end.

Definition add_entries (rem_rules : Z) (t : ThreadInfo F) : ThreadInfo F :=
  MkThreadInfo (tid t) (ti_core_id t) (start t) (w64 (num_entries t + rem_rules))
    (ti_oper t) (time_taken t) (ti_status t).

Definition dump_line (core : Z) (t : ThreadInfo F) : string :=
  "Thread data - Core: " +:+ pretty core +:+ " start_index: " +:+ pretty (start t) +:+
  " num_entries: " +:+ pretty (num_entries t).

(** [None] is undefined behaviour: a division by zero, or a write past the end
    of an array. (The [uint16_t] loop index does not wrap on eight threads.) *)
Definition PopulateThreadInfo (p : TestParams) (thread_data : list (ThreadInfo F))
  (core_id : list Z) : option (list (ThreadInfo F) * list Z * list string) :=
  if num_threads p =? 0 then None else
  let entries_per_thread := tot_num_entries p / num_threads p in
  let rem_rules := tot_num_entries p mod num_threads p in
  let n := Z.to_nat (num_threads p) in
  '(thread_data, core_id) ← populate_loop p entries_per_thread n 0 thread_data core_id;
  thread_data ← update_at (n - 1) (add_entries rem_rules) thread_data;
  Some (thread_data, core_id, zip_with dump_line (take n core_id) (take n thread_data)).

(** [main] up to the start of the threads. *)
Inductive startup :=
| Exits (code : Z) (out : list string)
| Undefined (out : list string)
| Launches (p : TestParams) (thread_data : list (ThreadInfo F)) (core_id : list Z)
    (out : list string).

Definition main_start (name : string) (args : list text) : startup :=
  match parse_options (getopt_all args) default_TestParams with
  | None => Exits INVALID_ARG (PrintUsage name)
  | Some p =>
      let '(status, out) := ValidateInput p name in
      if negb (status =? SUCCESS) then Exits status out
      else
        let out :=
          ["Total num of entries: " +:+ pretty (tot_num_entries p);
           "Number of threads: " +:+ pretty (num_threads p);
           "Operation: " +:+ pretty (oper p);
           "Test Profile: " +:+ pretty (profile p)] in
        match PopulateThreadInfo p default_thread_data default_core_id with
        | None => Undefined out
        | Some (thread_data, core_id, dump) => Launches p thread_data core_id (out ++ dump)
        end
  end.

(** The loop that launches the threads prints a line for each whose affinity
    could not be set (here before the lines of the threads, among which they
    may come). *)
Definition affinity_lines (affinity_fails : nat -> bool) (n : nat) : list string :=
  omap (fun index => if affinity_fails index
                     then Some "setting affinity failed. Moving on" else None) (seq 0 n).

(** The exit loop: the status of the last thread that failed. *)
Fixpoint exit_status (index : nat) (thread_data : list (ThreadInfo F)) (status : Z)
  : Z * list string :=
  match thread_data with
  | [] => (status, [])
  | t :: thread_data =>
      if negb (ti_status t =? SUCCESS) then
        let '(st, out) := exit_status (S index) thread_data (ti_status t) in
        (st, ("Thread: " +:+ pretty (Z.of_nat index) +:+ " exited with error") :: out)
      else exit_status (S index) thread_data status
  end.

Definition max_time_taken (thread_data : list (ThreadInfo F)) : F :=
  fold_left (fun max_time t => if f_gt (time_taken t) max_time then time_taken t else max_time)
    thread_data f_zero.

(** [main] after the threads were joined: the exit status, and the output. *)
Definition main_finish (p : TestParams) (thread_data : list (ThreadInfo F)) : Z * list string :=
  let threads := take (Z.to_nat (num_threads p)) thread_data in
  let '(status, out) := exit_status 0 threads SUCCESS in
  let max_time := max_time_taken threads in
  (status,
   out ++ ["Num of entries added: " +:+ pretty (tot_num_entries p);
           "Time taken: " +:+ f_show max_time +:+ " seconds";
           "Number of entries per second: "
             +:+ f_show (f_quotient (tot_num_entries p) max_time)]).
End Main.
Arguments startup : clear implicits.

(** ** Threads at work *)

Section Pool.
Context {S : Type} `{P4RuntimeStub S} {F : Type} `{Double F}.

Record perf_world := MkPerfWorld {
  pw_server : S;
  pw_clock : Z;                 (* nanoseconds *)
  pw_out : list string;
}.

Definition perf_do (env : Env) (c : perf_call) (w : perf_world) : perf_ret c * perf_world :=
  let server s := MkPerfWorld s (pw_clock w) (pw_out w) in
  match c with
  | call_Create address credentials device_id =>
      let '(r, s) :=
        Create_address env address credentials device_id (TimeBasedElectionId (env_now env))
          (pw_server w) in
      (r, server s)
  | call_GetForwardingPipelineConfig session =>
      let '(r, s) := GetForwardingPipelineConfig session (pw_server w) in (r, server s)
  | call_SendWriteRequest session write_request =>
      let '(r, s) := SendWriteRequest session write_request (pw_server w) in (r, server s)
  | call_Now => (pw_clock w, w)
  | call_print line => (tt, MkPerfWorld (pw_server w) (pw_clock w) (pw_out w ++ [line]))
  end.

(** A thread and the environment it runs in. *)
Record perf_thread := MkPerfThread { pt_env : Env; pt_prog : pprog (ThreadInfo F) }.

Inductive perf_event :=
| Run (thread : nat)
| Elapse (ns : Z).

Definition thread_step (t : perf_thread) (w : perf_world) : perf_thread * perf_world :=
  match pt_prog t with
  | PRet _ => (t, w)
  | PCall c k => let '(r, w) := perf_do (pt_env t) c w in (MkPerfThread (pt_env t) (k r), w)
  end.

Definition perf_step (e : perf_event) (st : list perf_thread * perf_world)
  : list perf_thread * perf_world :=
  let '(ts, w) := st in
  match e with
  | Run i =>
      match ts !! i with
      | Some t => let '(t, w) := thread_step t w in (<[i := t]> ts, w)
      | None => (ts, w)
      end
  | Elapse ns => (ts, MkPerfWorld (pw_server w) (pw_clock w + ns) (pw_out w))
  end.

Definition perf_run (events : list perf_event) (st : list perf_thread * perf_world)
  : list perf_thread * perf_world := fold_left (fun st e => perf_step e st) events st.

(** What a thread left, when it is done. *)
Definition thread_result (t : perf_thread) : option (ThreadInfo F) :=
  match pt_prog t with PRet t_data => Some t_data | PCall _ _ => None end.

(** The threads [main] starts: [index] runs [RunPerfTest] on its element of
    [thread_data]. [env] differs in the thread's identity. *)
Definition launch (env : nat -> Env) (p : TestParams) (thread_data : list (ThreadInfo F))
  : list perf_thread :=
  imap (fun index t => MkPerfThread (env index) (RunPerfTest (env index) p t))
    (take (Z.to_nat (num_threads p)) thread_data).

(** The whole program: [None] while it runs (or when it crashed), else its exit
    status, its output and the server. *)
Definition perf_main (env : nat -> Env) (affinity_fails : nat -> bool) (name : string)
  (args : list text) (events : list perf_event) (s : S) : option (Z * list string * S) :=
  match main_start (F := F) name args with
  | Exits code out => Some (code, out, s)
  | Undefined _ => None
  | Launches p thread_data core_id out =>
      let out := out ++ affinity_lines affinity_fails (Z.to_nat (num_threads p)) in
      let '(ts, w) := perf_run events (launch env p thread_data, MkPerfWorld s 0 out) in
      thread_data ← mapM thread_result ts;
      let '(status, fin) := main_finish p thread_data in
      Some (status, pw_out w ++ fin, pw_server w)
  end.
End Pool.
Arguments perf_world : clear implicits.
Arguments perf_thread : clear implicits.
