(* ===== verification/PerfProps.v ===== *)
(** * The performance test: theorems

    Which entries the test sends, how they are divided between the threads, and
    what becomes of them on a server: run one thread after another, deleting
    undoes adding; run at once, a thread's share is applied whole or not at all,
    and the exit status does not tell. *)

From stdpp Require Import gmap pretty.
From Stdlib Require Import Ascii.
From S2P Require Import Prelude P4Runtime Session Switch Server CText PerfSession PerfTest.

(** ** The entries *)

(** The entry for the source address [c]; the destination is its successor. *)
Definition perf_entry (p4info : P4Info) (ins : bool) (c : Z) : TableEntry :=
  PrepareSimpleL2DemoTableEntry default_TableEntry
    (MkMacInfo (store_dst_mac (w64 (c + 1))) (store_src_mac c)) p4info ins.

Definition perf_entries (p4info : P4Info) (ins : bool) (first n : Z) : list TableEntry :=
  map (perf_entry p4info ins) (seqZ first n).

Definition perf_updates (ins : bool) (tes : list TableEntry) : list Update :=
  map (fun te => MkUpdate (update_type ins) (ENTITY_TABLE_ENTRY te)) tes.

Lemma w8_shift x k : 0 <= k -> w8 ((x >>. k) .& 255) = x / 2 ^ k mod 256.
Proof.
  intros Hk. rewrite w8_land_255. unfold w8. by rewrite Z.shiftr_div_pow2.
Qed.

Lemma store_dst_mac_val x : be_val (CanonicalizeMac (store_dst_mac x)) = x mod 2 ^ 48.
Proof.
  unfold store_dst_mac. rewrite !w8_shift by lia. rewrite w8_land_255.
  change (2 ^ 48) with 281474976710656. change (2 ^ 40) with 1099511627776.
  change (2 ^ 32) with 4294967296. change (2 ^ 24) with 16777216.
  change (2 ^ 16) with 65536. change (2 ^ 8) with 256.
  unfold CanonicalizeMac, be_val; simpl. rewrite !w8_land_255. unfold w8. lia.
Qed.

Lemma store_src_dst x : store_src_mac x = store_dst_mac x.
Proof. unfold store_src_mac, store_dst_mac. by rewrite (w8_land_255 x). Qed.

(** Adding and deleting the entry for [c] name the same key, and different
    addresses different keys, whatever ids the pipeline has for the fields. *)
Lemma perf_entry_key p4info ins ins' c :
  te_key (perf_entry p4info ins c) = te_key (perf_entry p4info ins' c).
Proof. by destruct ins, ins'. Qed.

(** The id under which the destination address is matched. *)
Definition da_field (p4info : P4Info) : Z :=
  w32 (GetMatchFieldId p4info "my_control.e_fwd" "hdrs.mac[vmeta.common.depth].da").

Lemma perf_entry_da p4info ins c :
  match_map (te_match (perf_entry p4info ins c)) !! da_field p4info =
  Some (FM_EXACT (CanonicalizeMac (store_dst_mac (w64 (c + 1))))).
Proof.
  replace (te_match (perf_entry p4info ins c)) with (te_match (perf_entry p4info true c))
    by by destruct ins.
  unfold perf_entry, PrepareSimpleL2DemoTableEntry, da_field.
  cbn [te_match mutable_action add_match_exact set_table_id default_TableEntry app dst_mac].
  rewrite match_map_cons. apply lookup_insert_eq.
Qed.

Lemma perf_entry_key_inj p4info ins ins' c c' :
  te_key (perf_entry p4info ins c) = te_key (perf_entry p4info ins' c') ->
  (c + 1) mod 2 ^ 48 = (c' + 1) mod 2 ^ 48.
Proof.
  intros Hk. apply (te_key_match _ _ (da_field p4info)) in Hk.
  rewrite !perf_entry_da in Hk. apply Some_inj in Hk.
  assert (Hb := f_equal (fun m => be_val (match_value m)) Hk). cbn [match_value] in Hb.
  rewrite !store_dst_mac_val in Hb. unfold w64 in Hb.
  change (2 ^ 48) with 281474976710656 in *. lia.
Qed.

(** The entry denotes its addresses: 48 bits each, in network order. *)
Lemma perf_entry_values p4info ins c :
  0 <= c < 2 ^ 64 ->
  map be_val (te_match_values (perf_entry p4info ins c)) = [(c + 1) mod 2 ^ 48; c mod 2 ^ 48].
Proof.
  intros Hc.
  replace (te_match_values (perf_entry p4info ins c))
    with [CanonicalizeMac (store_dst_mac (w64 (c + 1))); CanonicalizeMac (store_src_mac c)]
    by by destruct ins.
  cbn [map]. rewrite store_src_dst, !store_dst_mac_val. unfold w64.
  change (2 ^ 48) with 281474976710656. f_equal. lia.
Qed.

(** ** The request of a thread *)

Lemma seqZ_S m n : 0 <= n -> seqZ m (n + 1) = m :: seqZ (m + 1) n.
Proof.
  intros. rewrite seqZ_cons by lia. unfold Z.succ. do 2 f_equal. lia.
Qed.

Lemma wr_store_last d e us ty te te' :
  wr_store (MkWriteRequest d e (us ++ [MkUpdate ty (ENTITY_TABLE_ENTRY te)])) (length us) te' =
  MkWriteRequest d e (us ++ [MkUpdate ty (ENTITY_TABLE_ENTRY te')]).
Proof.
  unfold wr_store; simpl. f_equal. induction us as [|u us IH]; [done|]. by f_equal/=.
Qed.

Lemma wr_deref_last d e us ty te :
  wr_deref (MkWriteRequest d e (us ++ [MkUpdate ty (ENTITY_TABLE_ENTRY te)])) (length us) = te.
Proof. unfold wr_deref; simpl. by rewrite list_lookup_middle by done. Qed.

(** The operation as a flag; [None] for an invalid one. *)
Definition oper_ins (op : Z) : option bool :=
  if op =? ADD then Some true else if op =? DEL then Some false else None.

Lemma fill_requests_spec session p4info op ins n count d e us :
  oper_ins op = Some ins -> 0 <= count -> count + Z.of_nat n < 2 ^ 64 ->
  fill_requests session p4info op n count (MkWriteRequest d e us) =
  Some (MkWriteRequest d e (us ++ perf_updates ins (perf_entries p4info ins count (Z.of_nat n))),
        count + Z.of_nat n).
Proof.
  change (2 ^ 64) with 18446744073709551616. intros Hop.
  revert count us. induction n as [|n IH]; intros count us H0 Hlt.
  { simpl. unfold perf_updates, perf_entries; simpl. by rewrite app_nil_r, Z.add_0_r. }
  cbn [fill_requests]. unfold oper_ins in Hop.
  assert (w64 (count + 1) = count + 1) as Hw by (unfold w64; lia).
  assert (forall b, perf_entry p4info b count = PrepareSimpleL2DemoTableEntry default_TableEntry
            (MkMacInfo (store_dst_mac (count + 1)) (store_src_mac count)) p4info b) as He
    by (intros; unfold perf_entry; by rewrite Hw).
  replace (Z.of_nat (S n)) with (Z.of_nat n + 1) in * by lia.
  unfold perf_entries. rewrite seqZ_S by lia.
  destruct (op =? ADD); [|destruct (op =? DEL); [|done]];
    injection Hop as <-; cbn [mbind option_bind];
    unfold SetupTableEntryToInsert, SetupTableEntryToDelete, add_update;
    cbn [wr_device_id wr_election_id wr_updates];
    rewrite wr_deref_last, wr_store_last, Hw, IH by lia;
    unfold perf_updates, perf_entries; cbn [map]; rewrite <- app_assoc;
    rewrite He; do 2 f_equal; lia.
Qed.

(** ** The division between threads *)

Section Shares.
Context {F : Type} `{Double F}.

(** Thread [i] of [n]: an equal share, the last with the remainder. *)
Definition share (p : TestParams) (i : Z) : ThreadInfo F :=
  let n := num_threads p in
  let each := tot_num_entries p / n in
  MkThreadInfo i (CORE_BASE + i) (i * each)
    (if i =? n - 1 then each + tot_num_entries p mod n else each) (oper p) f_zero 0.

Definition shares (p : TestParams) : list (ThreadInfo F) := map (share p) (seqZ 0 (num_threads p)).

Lemma PopulateThreadInfo_shares p :
  0 < num_threads p <= MAX_THREADS -> 0 <= tot_num_entries p < 2 ^ 64 ->
  exists td cores out,
    PopulateThreadInfo p default_thread_data default_core_id = Some (td, cores, out) /\
    take (Z.to_nat (num_threads p)) td = shares p /\
    take (Z.to_nat (num_threads p)) cores = map (Z.add CORE_BASE) (seqZ 0 (num_threads p)).
Proof.
  destruct p as [n o tot pr]; unfold MAX_THREADS; cbn [num_threads tot_num_entries].
  change (2 ^ 64) with 18446744073709551616. intros Hn Ht.
  assert (n = 1 \/ n = 2 \/ n = 3 \/ n = 4 \/ n = 5 \/ n = 6 \/ n = 7 \/ n = 8) as Hcases by lia.
  unfold PopulateThreadInfo, shares, share; cbn [num_threads tot_num_entries oper].
  repeat destruct Hcases as [->|Hcases]; try subst n;
    (do 3 eexists; split; [reflexivity|]; split; [|reflexivity]);
    lazy -[Z.div Z.modulo Z.mul Z.add Z.sub Z.eqb w64 w32]; unfold w64, w32;
    repeat f_equal; try reflexivity; try case_match; lia.
Qed.
End Shares.

(** The intervals [start, start + num_entries) of the threads, one after the
    other. *)
Lemma equal_shares e k :
  0 <= e -> 0 <= k ->
  concat (map (fun i => seqZ (i * e) e) (seqZ 0 k)) = seqZ 0 (k * e).
Proof.
  intros He. revert k. refine (natlike_ind _ _ _); [done|]. intros k Hk IH.
  unfold Z.succ. rewrite seqZ_app, map_app, concat_app, IH by lia.
  change (seqZ (0 + k) 1) with [0 + k]. cbn [map concat].
  rewrite app_nil_r, Z.add_0_l, (Z.mul_add_distr_r k 1 e), Z.mul_1_l.
  by rewrite seqZ_app by nia.
Qed.

Lemma shares_partition {F} `{Double F} p :
  0 < num_threads p -> 0 <= tot_num_entries p ->
  concat (map (fun t => seqZ (start t) (num_entries t)) (shares p)) = seqZ 0 (tot_num_entries p).
Proof.
  destruct p as [n o tot pr]; cbn [num_threads tot_num_entries]. intros Hn Ht.
  unfold shares; cbn [num_threads]. rewrite map_map.
  replace n with ((n - 1) + 1) at 1 by lia.
  rewrite seqZ_app, map_app, concat_app by lia.
  pose proof (Z.div_mod tot n). pose proof (Z.mod_pos_bound tot n).
  assert (0 <= tot / n) by (apply Z.div_pos; lia).
  transitivity (seqZ 0 ((n - 1) * (tot / n)) ++
                seqZ ((n - 1) * (tot / n)) (tot / n + tot mod n)).
  - f_equal.
    + rewrite <- equal_shares by lia. f_equal. apply map_ext_in. intros i Hi.
      apply list_elem_of_In, elem_of_seqZ in Hi. unfold share; cbn.
      by rewrite (proj2 (Z.eqb_neq i (n - 1))) by lia.
    + change (seqZ (0 + (n - 1)) 1) with [0 + (n - 1)]. cbn. rewrite app_nil_r.
      by rewrite Z.eqb_refl.
  - assert (tot = (n - 1) * (tot / n) + (tot / n + tot mod n)) as Heq by lia.
    transitivity (seqZ 0 ((n - 1) * (tot / n) + (tot / n + tot mod n))); [|by f_equal].
    by rewrite (seqZ_app _ ((n - 1) * (tot / n))) by nia.
Qed.

(** perf_partition: for one to eight threads, [PopulateThreadInfo] gives the
    threads consecutive intervals of entries that make up exactly the entries
    asked for, none empty-handed by more than the rounding (each has at least
    the rounded quotient); without threads it divides by zero. *)
Theorem perf_partition {F} `{Double F} p :
  0 <= num_threads p <= MAX_THREADS -> 0 <= tot_num_entries p < 2 ^ 64 ->
  match PopulateThreadInfo p default_thread_data default_core_id with
  | None => num_threads p = 0
  | Some (thread_data, core_id, out) =>
      let threads := take (Z.to_nat (num_threads p)) thread_data in
      Z.of_nat (length threads) = num_threads p /\
      concat (map (fun t => seqZ (start t) (num_entries t)) threads) =
        seqZ 0 (tot_num_entries p) /\
      Forall (fun t => ti_oper t = oper p /\
                tot_num_entries p / num_threads p <= num_entries t) threads
  end.
Proof.
  intros Hn Ht. destruct (Z.eq_dec (num_threads p) 0) as [H0|H0].
  { unfold PopulateThreadInfo. by rewrite H0. }
  destruct (PopulateThreadInfo_shares p) as (td & cores & out & -> & Htd & _); [lia|done|].
  cbv zeta. rewrite Htd. split; [|split].
  - unfold shares. rewrite length_map, length_seqZ. lia.
  - apply shares_partition; lia.
  - apply list.Forall_forall. intros t Hin. unfold shares in Hin.
    apply list_elem_of_In, in_map_iff in Hin as (i & <- & _). split; [done|].
    pose proof (Z.mod_pos_bound (tot_num_entries p) (num_threads p)).
    unfold share; cbn. case_match; lia.
Qed.

(** Numbers in place of [double], for the concrete runs. *)
#[export] Instance Double_Z : Double Z := {|
  f_zero := 0;
  f_gt := Z.gtb;
  ToDoubleSeconds d := d / 1000000000;
  f_quotient n d := n / d;
  f_show := pretty;
|}.

Lemma perf_partition_witness :
  match PopulateThreadInfo (MkTestParams 3 1 10 1) default_thread_data default_core_id with
  | Some (td, _, _) => map (fun t => (start t, num_entries t)) (take 3 td) = [(0, 3); (3, 3); (6, 4)]
  | None => False
  end /\
  PopulateThreadInfo (F := Z) (MkTestParams 0 1 10 1) default_thread_data default_core_id = None.
Proof.
  pose proof (perf_partition (F := Z) (MkTestParams 3 1 10 1)) as H3.
  assert (0 <= 3 <= MAX_THREADS) as Hn by (unfold MAX_THREADS; lia).
  assert (0 <= 10 < 2 ^ 64) as Ht by lia.
  specialize (H3 Hn Ht). split; [|reflexivity].
  destruct (PopulateThreadInfo _ _ _) as [[[td cores] out]|] eqn:Hp; [|discriminate].
  vm_compute in Hp. injection Hp as <- <- <-. reflexivity.
Defined.

(** ** What a thread does, whatever the server answers *)

(** At most [n] calls are left. *)
Fixpoint depth_le {A} (n : nat) (p : pprog A) : Prop :=
  match p, n with
  | PRet _, _ => True
  | PCall _ _, O => False
  | PCall c k, S n => forall r, depth_le n (k r)
  end.

(** Every end of [p] whose answers satisfy [P] satisfies [Q]. *)
Fixpoint ends {A} (P : forall c, perf_ret c -> Prop) (Q : A -> Prop) (p : pprog A) : Prop :=
  match p with
  | PRet a => Q a
  | PCall c k => forall r, P c r -> ends P Q (k r)
  end.

(** Every write that [p] sends, when the answers satisfy [P], satisfies [R], and
    there are at most [n] of them. *)
Fixpoint sends {A} (P : forall c, perf_ret c -> Prop) (R : WriteRequest -> Prop) (n : nat)
  (p : pprog A) : Prop :=
  match p with
  | PRet _ => True
  | PCall c k =>
      match c with
      | call_SendWriteRequest _ req => n <> O /\ R req
      | _ => True
      end /\
      forall r, P c r ->
        sends P R (match c with call_SendWriteRequest _ _ => Nat.pred n | _ => n end) (k r)
  end.

Section Programs.
Context {F : Type} `{Double F}.
Implicit Types (t : ThreadInfo F) (env : Env).

(** A thread as it is launched. *)
Definition ready_thread (p : TestParams) t : Prop :=
  ti_oper t = oper p /\ 0 <= start t /\ 0 <= num_entries t /\
  start t + num_entries t + 1 < 2 ^ 64.

Lemma SimpleL2DemoTest_eq session p4info t p ins :
  ready_thread p t -> oper_ins (oper p) = Some ins ->
  SimpleL2DemoTest session p4info t =
  (timestamp ← pcall call_Now;
   sts ← pcall (call_SendWriteRequest session
     (MkWriteRequest (DeviceId session) (Some (ElectionId session))
        (perf_updates ins (perf_entries p4info ins (start t + 1) (num_entries t)))));
   end_timestamp ← pcall call_Now;
   let t := set_time_taken (ToDoubleSeconds (end_timestamp - timestamp)) t in
   _ ← pcall (call_print ("count: " +:+ pretty (start t + num_entries t)));
   mret (SUCCESS, t)).
Proof.
  intros (Ho & Hs & Hn & Hlt) Hop. unfold SimpleL2DemoTest.
  change (2 ^ 64) with 18446744073709551616 in Hlt.
  assert (w64 (start t + 1) = start t + 1) as -> by (unfold w64; lia).
  rewrite Ho, (fill_requests_spec _ _ _ ins) by
    (done || (change (2 ^ 64) with 18446744073709551616; lia)).
  rewrite Z2Nat.id by lia. cbn [app].
  assert (w64 (start t + 1 + num_entries t - 1) = start t + num_entries t) as ->
    by (unfold w64; lia).
  done.
Qed.

Lemma credentials_lines env : (length (GenerateClientCredentials env).2 <= 1)%nat.
Proof. unfold GenerateClientCredentials. case_match; simpl; lia. Qed.

(** The first lines of [RunPerfTest], the outcome of its first two calls, and
    the profile; [SimpleL2DemoTest] is left. *)
Ltac run_perf_test env :=
  unfold RunPerfTest; pose proof (credentials_lines env);
  destruct (GenerateClientCredentials env) as [cred [|line [|]]]; simpl in *; try lia;
  repeat match goal with
  | |- _ /\ _ => split
  | |- True => done
  | |- context [profile ?p =? SIMPLE_L2_DEMO] => destruct (profile p =? SIMPLE_L2_DEMO) eqn:?; simpl
  | |- forall _ : ?T, _ =>
      first [unify T (StatusOr P4rtSession); intros [session|er]
            |unify T (Status * P4Info)%type; intros [[|er] p4info]
            |intros ?]; simpl
  end; try done.

(** Seven calls at most: the line on the credentials, the session, the
    pipeline, the clock, the write, the clock, the count. *)
Lemma RunPerfTest_depth env p t : depth_le 7 (RunPerfTest env p t).
Proof.
  run_perf_test env.
  all: unfold SimpleL2DemoTest; destruct (fill_requests _ _ _ _ _ _) as [[req c]|]; simpl; done.
Qed.

Lemma set_status_ready p t x : ready_thread p t -> ready_thread p (set_status x t).
Proof. done. Qed.

(** The session and the pipeline can be had. *)
Definition session_answers (c : perf_call) : perf_ret c -> Prop :=
  match c with
  | call_Create _ _ _ => fun r => is_ok r = true
  | call_GetForwardingPipelineConfig _ => fun r => r.1 = OkStatus
  | _ => fun _ => True
  end.

(** The pipeline of the server is [i0]. *)
Definition pipeline_answers (i0 : P4Info) (c : perf_call) : perf_ret c -> Prop :=
  match c with
  | call_GetForwardingPipelineConfig _ => fun r => r.2 = i0
  | _ => fun _ => True
  end.

(** When a session can be had, a thread ends with SUCCESS: the answer to its
    write plays no part. *)
Lemma RunPerfTest_status env p t ins :
  ready_thread p t -> oper_ins (oper p) = Some ins -> profile p = SIMPLE_L2_DEMO ->
  ends session_answers (fun t' => ti_status t' = SUCCESS) (RunPerfTest env p t).
Proof.
  intros Hready Hop Hprofile.
  run_perf_test env; simplify_eq/=; try lia.
  all: rewrite (SimpleL2DemoTest_eq _ _ _ p ins) by done; simpl; done.
Qed.

(** A thread sends at most one write: the whole of its share. *)
Lemma RunPerfTest_sends env p t ins i0 :
  ready_thread p t -> oper_ins (oper p) = Some ins ->
  sends (pipeline_answers i0)
    (fun req => wr_updates req =
       perf_updates ins (perf_entries i0 ins (start t + 1) (num_entries t)))
    1 (RunPerfTest env p t).
Proof.
  intros Hready Hop.
  run_perf_test env; simplify_eq/=.
  all: rewrite (SimpleL2DemoTest_eq _ _ _ p ins) by done; simpl; done.
Qed.
End Programs.

(** ** From the command line to the threads *)

Definition wf_params (p : TestParams) : Prop :=
  0 <= num_threads p /\ 0 <= tot_num_entries p < 2 ^ 64.

Lemma parse_options_wf options p p' :
  parse_options options p = Some p' -> wf_params p -> wf_params p'.
Proof.
  revert p. induction options as [|[o a|] options IH]; intros p Hp; [by simplify_eq/=| |done].
  cbn [parse_options] in Hp. intros [Hn Ht].
  repeat case_decide; try done; eapply IH; try eassumption;
    unfold wf_params, w32, w64 in *; change (2 ^ 64) with 18446744073709551616 in *; simpl; lia.
Qed.

(** What [ValidateInput] lets through. *)
Definition valid_params (p : TestParams) (ins : bool) : Prop :=
  oper_ins (oper p) = Some ins /\ num_threads p <= MAX_THREADS /\ profile p = SIMPLE_L2_DEMO.

Lemma known_profile x : bool_decide (x ∉ profileToStr.*1) = negb (x =? SIMPLE_L2_DEMO).
Proof.
  change (profileToStr.*1) with [SIMPLE_L2_DEMO].
  destruct (Z.eqb_spec x SIMPLE_L2_DEMO) as [->|Hne]; simpl.
  - done.
  - apply bool_decide_eq_true. by rewrite list_elem_of_singleton.
Qed.

Lemma ValidateInput_success p name :
  (ValidateInput p name).1 = SUCCESS <-> exists ins, valid_params p ins.
Proof.
  unfold ValidateInput, valid_params, oper_ins. rewrite known_profile.
  unfold ADD, DEL, SUCCESS, INVALID_ARG, MAX_THREADS, SIMPLE_L2_DEMO. split.
  - repeat case_match; simpl; intros; try done; try lia;
      eexists; repeat split; try reflexivity; lia.
  - intros (ins & Ho & Hn & Hp). rewrite Hp.
    repeat case_match; simpl in *; try done; lia.
Qed.

Section Launch.
Context {F : Type} `{Double F}.

Lemma main_start_launches name args p td cores out :
  main_start (F := F) name args = Launches p td cores out ->
  wf_params p /\ (exists ins, valid_params p ins) /\ 0 < num_threads p /\
  take (Z.to_nat (num_threads p)) td = shares p.
Proof.
  unfold main_start. destruct (parse_options _ _) as [p'|] eqn:Hparse; [|done].
  apply parse_options_wf in Hparse as [Hn Ht];
    [|by unfold wf_params, default_TestParams; simpl; change (2 ^ 64) with 18446744073709551616].
  destruct (ValidateInput p' name) as [st o] eqn:Hv. case_match; [done|].
  pose proof (proj1 (ValidateInput_success p' name)) as Hval. rewrite Hv in Hval.
  assert (st = SUCCESS) as -> by lia. specialize (Hval eq_refl).
  destruct Hval as (ins & Hval).
  destruct (Z.eq_dec (num_threads p') 0) as [Hz|Hz].
  { unfold PopulateThreadInfo. rewrite Hz. done. }
  destruct (PopulateThreadInfo_shares (F := F) p') as (td' & cores' & o' & -> & Htd & _);
    [destruct Hval as (_ & ? & _); lia|done|].
  intros [= <- <- <- <-]. split; [done|]. split; [by exists ins|]. split; [lia|done].
Qed.

(** The threads are launched on consecutive shares of the entries. *)
Lemma shares_ready (p : TestParams) (t : ThreadInfo F) :
  0 < num_threads p -> 0 <= tot_num_entries p < 2 ^ 64 - 1 -> t ∈ shares p -> ready_thread p t.
Proof.
  destruct p as [n o tot pr]; cbn [num_threads tot_num_entries]. intros Hn Ht Hin.
  unfold shares in Hin; cbn [num_threads] in Hin.
  apply list_elem_of_In, in_map_iff in Hin as (i & <- & Hi).
  apply list_elem_of_In, elem_of_seqZ in Hi. unfold ready_thread, share; cbn.
  pose proof (Z.div_mod tot n). pose proof (Z.mod_pos_bound tot n).
  assert (0 <= tot / n) by (apply Z.div_pos; lia).
  split; [done|]. case_match; nia.
Qed.
End Launch.

(** ** Threads in any order, on any server *)

(** How often thread [i] gets to run. *)
Fixpoint runs (i : nat) (events : list perf_event) : nat :=
  match events with
  | [] => 0
  | Run j :: events => if decide (i = j) then S (runs i events) else runs i events
  | Elapse _ :: events => runs i events
  end.

Section AnyServer.
Context {S : Type} `{P4RuntimeStub S} {F : Type} `{Double F}.
Implicit Types (t : ThreadInfo F) (pt : perf_thread F) (w : perf_world S).

Definition done_thread pt : Prop := is_Some (thread_result pt).

Lemma perf_run_depth events ts w :
  (forall i pt, ts !! i = Some pt -> depth_le (runs i events) (pt_prog pt)) ->
  Forall done_thread (perf_run events (ts, w)).1.
Proof.
  revert ts w. induction events as [|e events IH]; intros ts w Hd.
  - apply Forall_lookup. intros i pt Hi. apply Hd in Hi. unfold done_thread, thread_result.
    by destruct (pt_prog pt).
  - unfold perf_run; simpl. destruct e as [j|ns]; simpl; [|by apply IH].
    destruct (ts !! j) as [pj|] eqn:Hj.
    + destruct (thread_step pj w) as [pj' w'] eqn:Hstep. apply IH. intros i pt.
      destruct (decide (i = j)) as [->|Hne].
      * rewrite list_lookup_insert_eq by by eapply lookup_lt_Some. intros [= <-].
        apply Hd in Hj. cbn [runs] in Hj. rewrite decide_True in Hj by done.
        unfold thread_step in Hstep. destruct (pt_prog pj) as [a|c k] eqn:Hp.
        -- injection Hstep as <- <-. by rewrite Hp; destruct (runs j events).
        -- destruct (perf_do _ c w) as [r w'']. injection Hstep as <- <-. apply Hj.
      * rewrite list_lookup_insert_ne by done. intros Hi. apply Hd in Hi. cbn [runs] in Hi.
        by rewrite decide_False in Hi.
    + apply IH. intros i pt Hi. pose proof (Hd i pt Hi) as Hdi. cbn [runs] in Hdi.
      rewrite decide_False in Hdi; [done|]. intros ->. congruence.
Qed.

(** A property of all ends of a thread is kept while it runs. *)
Lemma perf_run_ends (P : forall c, perf_ret c -> Prop) (Q : ThreadInfo F -> Prop) events ts w :
  (forall env c w, P c (perf_do env c w).1) ->
  Forall (fun pt => ends P Q (pt_prog pt)) ts ->
  Forall (fun pt => ends P Q (pt_prog pt)) (perf_run events (ts, w)).1.
Proof.
  intros HP. revert ts w. induction events as [|e events IH]; intros ts w Hts; [done|].
  unfold perf_run; simpl. destruct e as [j|ns]; simpl; [|by apply IH].
  destruct (ts !! j) as [pj|] eqn:Hj; [|by apply IH].
  destruct (thread_step pj w) as [pj' w'] eqn:Hstep. apply IH, Forall_insert; [done|].
  rewrite Forall_lookup in Hts. specialize (Hts j pj Hj).
  unfold thread_step in Hstep. destruct (pt_prog pj) as [a|c k] eqn:Hp.
  - injection Hstep as <- <-. by rewrite Hp.
  - pose proof (HP (pt_env pj) c w) as Hr. destruct (perf_do _ c w) as [r w''].
    injection Hstep as <- <-. by apply Hts.
Qed.

Lemma perf_run_length events (ts : list (perf_thread F)) w :
  length (perf_run events (ts, w)).1 = length ts.
Proof.
  revert ts w. induction events as [|e events IH]; intros ts w; [done|].
  unfold perf_run; simpl. destruct e as [j|ns]; simpl; [|by apply IH].
  destruct (ts !! j); [|by apply IH]. destruct (thread_step _ w) as [pj' w'].
  unfold perf_run in IH. by rewrite IH, length_insert.
Qed.

Lemma results_done (ts : list (perf_thread F)) : Forall done_thread ts -> is_Some (mapM thread_result ts).
Proof. intros Hd. by apply mapM_is_Some. Qed.

Lemma launch_lookup env p td i pt :
  launch (F := F) env p td !! i = Some pt ->
  exists t, take (Z.to_nat (num_threads p)) td !! i = Some t /\
    pt = MkPerfThread (env i) (RunPerfTest (env i) p t).
Proof.
  unfold launch. rewrite list_lookup_imap. intros (t & Ht & ->)%fmap_Some. eauto.
Qed.

(** perf_terminates: once its threads are launched, the test ends: whatever the
    server does and in whichever order the threads run, the program has
    finished when every thread has run seven times. *)
Theorem perf_terminates env affinity_fails name args events (s : S) p td cores out :
  main_start (F := F) name args = Launches p td cores out ->
  (forall i, (i < Z.to_nat (num_threads p))%nat -> (7 <= runs i events)%nat) ->
  is_Some (perf_main (F := F) env affinity_fails name args events s).
Proof.
  intros Hstart Hruns. unfold perf_main. rewrite Hstart.
  set (w := MkPerfWorld s 0 _).
  pose proof (perf_run_depth events (launch env p td) w) as Hd.
  destruct (perf_run events _) as [ts w']; simpl in *.
  destruct (results_done ts) as [td' Htd]; [apply Hd|rewrite Htd; simpl; by case_match].
  intros i pt Hi. pose proof (lookup_lt_Some _ _ _ Hi) as Hlt.
  apply launch_lookup in Hi as (t & Ht & ->). cbn [pt_prog].
  apply lookup_lt_Some in Ht. rewrite length_take in Ht.
  assert (7 <= runs i events)%nat as H7 by (apply Hruns; lia).
  assert (forall A n m (q : pprog A), (n <= m)%nat -> depth_le n q -> depth_le m q) as Hmono.
  { clear. intros A n m q Hle. revert n m Hle. induction q as [a|c k IH]; [by destruct m|].
    intros [|n] [|m] Hle; simpl; try done; try lia. intros Hk r. eapply IH, Hk. lia. }
  eapply Hmono, RunPerfTest_depth. done.
Qed.

Lemma exit_status_success (ts : list (ThreadInfo F)) i :
  Forall (fun t => ti_status t = SUCCESS) ts -> exit_status i ts SUCCESS = (SUCCESS, []).
Proof.
  intros Hts. revert i. induction Hts as [|t ts Ht _ IH]; intros i; [done|].
  cbn [exit_status]. by rewrite Ht, IH.
Qed.

(** The session can be had: what the server does with writes is open. *)
Definition sessions_succeed : Prop :=
  forall env a cr d e (s : S), is_ok (Create_address env a cr d e s).1 = true.

(** perf_ignores_write_errors: when sessions can be had, the test exits with
    SUCCESS and reports that all the entries were added, whatever the server
    answered to the writes. *)
Theorem perf_ignores_write_errors env affinity_fails name args events (s s' : S) p td cores out
  code lines :
  sessions_succeed ->
  main_start (F := F) name args = Launches p td cores out ->
  tot_num_entries p < 2 ^ 64 - 1 ->
  perf_main (F := F) env affinity_fails name args events s = Some (code, lines, s') ->
  code = SUCCESS /\
  ("Num of entries added: " +:+ pretty (tot_num_entries p)) ∈ lines.
Proof.
  intros Hses Hstart Htot. unfold perf_main. rewrite Hstart.
  apply main_start_launches in Hstart as ((Hn & Ht) & (ins & Hval) & Hpos & Htd).
  set (w := MkPerfWorld s 0 _).
  pose proof (perf_run_ends session_answers
    (fun t => ti_status t = SUCCESS) events (launch env p td) w) as Hends.
  destruct (perf_run events _) as [ts w'] eqn:Hrun; simpl in Hends.
  destruct (mapM thread_result ts) as [td'|] eqn:Hmap; [|done]. simpl.
  assert (Forall (fun t => ti_status t = SUCCESS) td') as Hsuc.
  { apply mapM_Some_1 in Hmap.
    assert (Forall (fun pt => ends session_answers (fun t => ti_status t = SUCCESS) (pt_prog pt)) ts) as Hall.
    { apply Hends.
      - intros e c w0. destruct c; simpl; try done.
        + pose proof (Hses e address credentials device_id (TimeBasedElectionId (env_now e))
            (pw_server w0)). by destruct (Create_address _ _ _ _ _ _).
        + unfold GetForwardingPipelineConfig.
          by destruct (stub_GetForwardingPipelineConfig _ _) as [[??]?].
      - apply Forall_lookup. intros i pt (t & Ht' & ->)%launch_lookup.
        destruct Hval as (Hop & _ & Hprof). eapply RunPerfTest_status; try done.
        apply shares_ready; [done|lia|]. rewrite <- Htd. by eapply list_elem_of_lookup_2. }
    clear Hends Hrun. induction Hmap as [|pt t ts td' Hpt Hmap IH]; [constructor|].
    inversion Hall as [|? ? Hh Htl]; subst. constructor; [|by apply IH].
    unfold thread_result in Hpt. destruct (pt_prog pt); [|done].
    by injection Hpt as <-. }
  unfold main_finish. rewrite exit_status_success by by apply Forall_take.
  intros [= <- <- <-]. split; [done|]. set_solver +.
Qed.
End AnyServer.

(** ** What reaches the tables of a server *)

(** [T] with the entries [tes] put in. *)
Definition tables_with (tes : list TableEntry) (T : tables) : tables :=
  list_to_map ((fun te => (te_key te, te)) <$> tes) ∪ T.

Definition fresh_in (T : tables) (tes : list TableEntry) : Prop :=
  Forall (fun te => T !! te_key te = None) tes.

Lemma perf_writes_insert accepts tes T :
  Forall (fun te => accepts te = true) tes -> NoDup (te_key <$> tes) -> fresh_in T tes ->
  switch_writes accepts true tes T = (true, tables_with tes T).
Proof.
  unfold tables_with. revert T. induction tes as [|te tes IH]; intros T Hacc Hnd Hfresh.
  { simpl. by rewrite map_empty_union. }
  inversion Hacc as [|? ? Ha Hacc']; inversion Hfresh as [|? ? Hf Hfresh']; subst.
  cbn [fmap list_fmap] in Hnd. apply list.NoDup_cons in Hnd as [Hni Hnd].
  cbn [switch_writes]. unfold switch_write. rewrite Ha, bool_decide_true by done. cbn [andb].
  rewrite IH; [|done|done|].
  - f_equal. cbn [fmap list_fmap list_to_map foldr fst snd].
    rewrite <- insert_union_r, insert_union_l; [done|].
    apply not_elem_of_list_to_map_1. rewrite <- list_fmap_compose. exact Hni.
  - apply list.Forall_forall. intros te' Hin.
    rewrite list.Forall_forall in Hfresh'. rewrite lookup_insert_ne; [by apply Hfresh'|].
    intros Heq. apply Hni. rewrite Heq. by apply list_elem_of_fmap_2.
Qed.

(** Deleting by key what is there. *)
Lemma switch_writes_delete accepts tes tes' T :
  te_key <$> tes = te_key <$> tes' -> NoDup (te_key <$> tes) -> fresh_in T tes ->
  switch_writes accepts false tes' (tables_with tes T) = (true, T).
Proof.
  revert tes'. induction tes as [|te tes IH]; intros [|te' tes'] Hk Hnd Hfresh; try done.
  { unfold tables_with. simpl. by rewrite map_empty_union. }
  cbn [fmap list_fmap] in Hk.
  assert (te_key te' = te_key te) as Hk1 by congruence.
  assert (te_key <$> tes = te_key <$> tes') as Hk2 by congruence. clear Hk. inversion Hfresh as [|? ? Hf Hfresh']; subst.
  cbn [fmap list_fmap] in Hnd. apply list.NoDup_cons in Hnd as [Hni Hnd].
  cbn [switch_writes]. unfold switch_write. rewrite Hk1.
  assert (tables_with (te :: tes) T = <[te_key te := te]> (tables_with tes T)) as ->
    by by unfold tables_with; rewrite insert_union_l.
  rewrite bool_decide_true by (rewrite lookup_insert_eq; eauto).
  rewrite delete_insert_id; [by apply IH|].
  unfold tables_with. apply lookup_union_None. split; [|done].
  apply not_elem_of_list_to_map_1. by rewrite <- list_fmap_compose.
Qed.

(** The keys of at most 2^48 consecutive entries are distinct. *)
Lemma perf_entries_NoDup p4info ins first n :
  0 <= first -> n <= 2 ^ 48 -> NoDup (te_key <$> perf_entries p4info ins first n).
Proof.
  intros Hf Hn. unfold perf_entries. change (map ?f ?l) with (f <$> l).
  rewrite <- list_fmap_compose. apply NoDup_fmap_2_strong; [|apply NoDup_seqZ].
  intros c c' Hc%elem_of_seqZ Hc'%elem_of_seqZ Hk%perf_entry_key_inj.
  change (2 ^ 48) with 281474976710656 in *. lia.
Qed.

Lemma perf_entries_keys p4info ins ins' first n :
  te_key <$> perf_entries p4info ins first n = te_key <$> perf_entries p4info ins' first n.
Proof.
  unfold perf_entries. change (map ?f ?l) with (f <$> l). rewrite <- !list_fmap_compose.
  apply list_fmap_ext. intros i c _. apply perf_entry_key.
Qed.

Lemma perf_writes_app accepts ins tes tes' T :
  switch_writes accepts ins (tes ++ tes') T =
  let '(b, T') := switch_writes accepts ins tes T in
  if b then switch_writes accepts ins tes' T' else (false, T').
Proof.
  revert T. induction tes as [|te tes IH]; intros T; [done|]. simpl.
  destruct (switch_write accepts ins te T) as [[] T']; [apply IH|done].
Qed.

(** ** On the reference server *)

Section OnRefServer.
Context {p4info : P4Info} {accepts : TableEntry -> bool} {F : Type} `{Double F}.
Implicit Types (w : perf_world (RefServer p4info accepts)) (t : ThreadInfo F) (ins : bool).

Definition world_tables w : tables := rs_tables (pw_server w).

(** The share of a thread, as entries. *)
Definition share_entries ins t : list TableEntry :=
  perf_entries p4info ins (start t + 1) (num_entries t).

(** The shares of the threads [ids], applied in that order, each up to the first
    entry that the server refuses. *)
Definition apply_shares ins (ts : list (ThreadInfo F)) (ids : list nat) (T : tables) : tables :=
  fold_left (fun T i =>
    match ts !! i with
    | Some t => (switch_writes accepts ins (share_entries ins t) T).2
    | None => T
    end) ids T.

Lemma ref_updates_perf ins tes T :
  ref_updates (accepts := accepts) (perf_updates ins tes) T = switch_writes accepts ins tes T.
Proof.
  revert T. induction tes as [|te tes IH]; intros T; [done|]. cbn [perf_updates map ref_updates].
  unfold ref_update; cbn [u_entity u_type]. unfold update_type.
  destruct ins; cbn [switch_writes]; destruct (switch_write _ _ te T) as [[] T']; done || apply IH.
Qed.

Lemma sends_mono {A} P R n m (q : pprog A) : (n <= m)%nat -> sends P R n q -> sends P R m q.
Proof.
  revert n m. induction q as [a|c k IH]; intros n m Hle; [done|]. simpl. intros [Hc Hk]. split.
  - destruct c; try done. split; [|by apply Hc]. destruct Hc. lia.
  - intros r Hr. eapply IH, Hk, Hr. destruct c; lia.
Qed.

Lemma Create_tables env a cr d e (s : RefServer p4info accepts) :
  rs_tables (Create_address env a cr d e s).2 = rs_tables s.
Proof.
  unfold Create_address, CreateP4RuntimeStub, Create; simpl. unfold ref_stream_write; simpl.
  unfold ref_stream_read. by repeat (case_match; simplify_eq/=).
Qed.

Lemma perf_do_spec env c w :
  pipeline_answers p4info c (perf_do env c w).1 /\
  match c with
  | call_SendWriteRequest _ req =>
      world_tables (perf_do env c w).2 = world_tables w \/
      world_tables (perf_do env c w).2 =
        (ref_updates (accepts := accepts) (wr_updates req) (world_tables w)).2
  | _ => world_tables (perf_do env c w).2 = world_tables w
  end.
Proof.
  unfold world_tables. destruct c; simpl; try done.
  - pose proof (Create_tables env address credentials device_id
      (TimeBasedElectionId (env_now env)) (pw_server w)).
    by destruct (Create_address _ _ _ _ _ _).
  - split; [done|]. unfold SendWriteRequest; simpl. unfold ref_write.
    destruct (_ || _); simpl; [by left|]. destruct (ref_updates _ _) as [b T]. by right.
Qed.

Lemma elem_snoc {A} (i j : A) l : i ∈ l ++ [j] <-> i ∈ l \/ i = j.
Proof. by rewrite elem_of_app, list_elem_of_singleton. Qed.

(** The state of the pool: [ids] have been applied, and can send no more. *)
Definition pool_inv ins (ts0 : list (ThreadInfo F)) (T0 : tables) (ids : list nat)
  (ts : list (perf_thread F)) w : Prop :=
  NoDup ids /\ world_tables w = apply_shares ins ts0 ids T0 /\
  forall i pt, ts !! i = Some pt ->
    exists t, ts0 !! i = Some t /\
      sends (pipeline_answers p4info)
        (fun req => wr_updates req = perf_updates ins (share_entries ins t))
        (if decide (i ∈ ids) then 0 else 1) (pt_prog pt).

Lemma pool_inv_call ins ts0 T0 ids (ts : list (perf_thread F)) w j env c k :
  pool_inv ins ts0 T0 ids ts w -> ts !! j = Some (MkPerfThread env (PCall c k)) ->
  exists ids', pool_inv ins ts0 T0 ids'
    (<[j := MkPerfThread env (k (perf_do env c w).1)]> ts) (perf_do env c w).2.
Proof.
  intros (Hnd & HT & Hts) Hj. destruct (Hts j _ Hj) as (t & Ht & Hsend & Hk).
  destruct (perf_do_spec env c w) as [HP Hw]. specialize (Hk _ HP).
  assert (forall ids', ids ⊆ ids' ->
    sends (pipeline_answers p4info)
      (fun req => wr_updates req = perf_updates ins (share_entries ins t))
      (if decide (j ∈ ids') then 0 else 1) (k (perf_do env c w).1) ->
    NoDup ids' -> world_tables (perf_do env c w).2 = apply_shares ins ts0 ids' T0 ->
    (forall i, i ∈ ids' -> i ∈ ids \/ i = j) ->
    pool_inv ins ts0 T0 ids' (<[j := MkPerfThread env (k (perf_do env c w).1)]> ts)
      (perf_do env c w).2) as Hinv.
  { intros ids' Hsub Hs Hnd' HT' Hcase. split; [done|]. split; [done|]. intros i pt.
    destruct (decide (i = j)) as [->|Hne].
    - rewrite list_lookup_insert_eq by by eapply lookup_lt_Some. intros [= <-]. eauto.
    - rewrite list_lookup_insert_ne by done. intros Hi. destruct (Hts i pt Hi) as (t' & Ht' & Hs').
      exists t'. split; [done|]. destruct (decide (i ∈ ids)) as [Hin|Hin].
      + by rewrite decide_True by by apply Hsub.
      + rewrite decide_False; [done|]. intros Hin'. by destruct (Hcase i Hin'). }
  destruct c; try (exists ids; apply Hinv; [done|done|done|by rewrite Hw|by left]).
  destruct Hsend as [Hn Hreq]. assert (j ∉ ids) as Hni by (intros Hin; by rewrite decide_True in Hn).
  rewrite decide_False in Hk by done. destruct Hw as [Hw|Hw].
  - exists ids. apply Hinv; [done| |done|by rewrite Hw|by left].
    rewrite decide_False by done. eapply sends_mono, Hk. simpl. lia.
  - exists (ids ++ [j]). apply Hinv.
    + intros i Hi. apply elem_snoc. by left.
    + rewrite decide_True by (apply elem_snoc; by right). exact Hk.
    + apply list.NoDup_app. split; [done|]. split; [|apply NoDup_singleton].
      intros i Hi Hij. apply list_elem_of_singleton in Hij. by subst.
    + rewrite Hw, HT, Hreq, ref_updates_perf. unfold apply_shares.
      rewrite fold_left_app. cbn [fold_left]. by rewrite Ht.
    + intros i. apply elem_snoc.
Qed.

Lemma pool_inv_run ins ts0 T0 ids events (ts : list (perf_thread F)) w :
  pool_inv ins ts0 T0 ids ts w ->
  exists ids', pool_inv ins ts0 T0 ids' (perf_run events (ts, w)).1 (perf_run events (ts, w)).2.
Proof.
  revert ids ts w. induction events as [|e events IH]; intros ids ts w Hinv; [by exists ids|].
  unfold perf_run; simpl. destruct e as [j|ns]; simpl; [|by eapply IH].
  destruct (ts !! j) as [[env q]|] eqn:Hj; [|by eapply IH]. unfold thread_step; simpl.
  destruct q as [a|c k].
  - rewrite list_insert_id by done. by eapply IH.
  - destruct (pool_inv_call _ _ _ _ _ _ _ _ _ _ Hinv Hj) as [ids' Hinv'].
    destruct (perf_do env c w) as [r w']. by eapply IH.
Qed.
(** *** Any order *)

Lemma apply_shares_all ins (ts : list (ThreadInfo F)) ids T T' :
  switch_writes accepts ins (ids ≫= fun i => default [] (share_entries ins <$> ts !! i)) T =
    (true, T') ->
  apply_shares ins ts ids T = T'.
Proof.
  revert T. induction ids as [|i ids IH]; intros T; [by intros [= ->]|].
  cbn [mbind list_bind]. rewrite perf_writes_app. unfold apply_shares; cbn [fold_left].
  destruct (ts !! i) as [t|]; simpl.
  - destruct (switch_writes _ _ (share_entries ins t) T) as [[] T1]; [apply IH|done].
  - apply IH.
Qed.

Lemma share_entries_map ins t :
  share_entries ins t =
  (fun c => perf_entry p4info ins (c + 1)) <$> seqZ (start t) (num_entries t).
Proof.
  unfold share_entries, perf_entries. rewrite (Z.add_comm (start t)), <- fmap_add_seqZ.
  change (map ?f ?l) with (f <$> l). rewrite <- list_fmap_compose.
  apply list_fmap_ext. intros i c _. unfold compose. f_equal. lia.
Qed.

(** Distinct elements of a partition, taken in any order. *)
Lemma partition_NoDup {A} (l : list (list A)) ids :
  NoDup (concat l) -> NoDup ids -> NoDup (ids ≫= fun i => default [] (l !! i)).
Proof.
  intros Hl. assert (forall i j x y z, l !! i = Some x -> l !! j = Some y -> z ∈ x -> z ∈ y -> i = j)
    as Hdisj.
  { induction l as [|a l IH]; intros i j x y z; [done|]. simpl in Hl.
    apply list.NoDup_app in Hl as (Ha & Hal & Hl).
    assert (forall k v, l !! k = Some v -> z ∈ v -> z ∈ concat l) as Hconcat.
    { intros k v Hk Hz. apply list_elem_of_In, in_concat. exists v.
      split; apply list_elem_of_In; [by eapply list_elem_of_lookup_2|done]. }
    destruct i as [|i], j as [|j]; simpl; intros Hi Hj Hzx Hzy; simplify_eq; [done| | |].
    - destruct (Hal z Hzx). by eapply Hconcat.
    - destruct (Hal z Hzy). by eapply Hconcat.
    - f_equal. by eapply IH. }
  assert (forall i x, l !! i = Some x -> NoDup x) as Hnd.
  { clear Hdisj. induction l as [|a l IH]; intros i x; [done|]. simpl in Hl.
    apply list.NoDup_app in Hl as (Ha & _ & Hl). destruct i; simpl; [by intros [= <-]|]. by apply IH. }
  induction ids as [|i ids IH]; intros Hids; [constructor|].
  apply list.NoDup_cons in Hids as [Hni Hids]. cbn [mbind list_bind]. apply list.NoDup_app.
  split; [|split; [|by apply IH]].
  - destruct (l !! i) as [x|] eqn:Hi; [by eapply Hnd|constructor].
  - intros z Hz (j & Hzj & Hj)%list_elem_of_bind.
    destruct (l !! i) as [x|] eqn:Hi; [|by apply not_elem_of_nil in Hz].
    destruct (l !! j) as [y|] eqn:Hlj; [|by apply not_elem_of_nil in Hzj].
    apply Hni. by rewrite (Hdisj i j x y z).
Qed.

Lemma fmap_bind {A B C} (f : B -> C) (g : A -> list B) l :
  f <$> (l ≫= g) = l ≫= fun x => f <$> g x.
Proof. induction l as [|x l IH]; [done|]. by rewrite !bind_cons, fmap_app, IH. Qed.

(** The keys of the shares of distinct threads. *)
Lemma shares_NoDup ins (p : TestParams) ids :
  0 < num_threads p -> 0 <= tot_num_entries p <= 2 ^ 48 -> NoDup ids ->
  NoDup (te_key <$> (ids ≫= fun i => default [] (share_entries ins <$> shares (F := F) p !! i))).
Proof.
  intros Hn Ht Hids.
  set (iv := (fun t => seqZ (start t) (num_entries t)) <$> shares (F := F) p).
  assert (concat iv = seqZ 0 (tot_num_entries p)) as Hconcat by (apply shares_partition; lia).
  assert ((ids ≫= fun i => default [] (share_entries ins <$> shares (F := F) p !! i)) =
    (fun c => perf_entry p4info ins (c + 1)) <$> (ids ≫= fun i => default [] (iv !! i))) as ->.
  { rewrite fmap_bind. apply list_bind_ext; [|done]. intros i. unfold iv.
    rewrite list_lookup_fmap. destruct (shares p !! i); [|done]. simpl. apply share_entries_map. }
  rewrite <- list_fmap_compose. apply NoDup_fmap_2_strong.
  - intros c c' Hc Hc' Hk%perf_entry_key_inj.
    assert (forall z, z ∈ (ids ≫= fun i => default [] (iv !! i)) -> 0 <= z < tot_num_entries p)
      as Hrange.
    { intros z (i & Hz & _)%list_elem_of_bind. destruct (iv !! i) as [x|] eqn:Hi;
        [|by apply not_elem_of_nil in Hz].
      assert (z ∈ seqZ 0 (tot_num_entries p)) as Hin%elem_of_seqZ; [|lia].
      rewrite <- Hconcat. apply list_elem_of_In, in_concat. exists x.
      split; apply list_elem_of_In; [by eapply list_elem_of_lookup_2|done]. }
    apply Hrange in Hc, Hc'. change (2 ^ 48) with 281474976710656 in *. lia.
  - apply partition_NoDup; [|done]. rewrite Hconcat. apply NoDup_seqZ.
Qed.

(** The entries the program is asked for. *)
Definition all_entries ins (p : TestParams) : list TableEntry :=
  perf_entries p4info ins 1 (tot_num_entries p).

Lemma seq_lookup_bind {A B} (g : A -> list B) pre l :
  (seq (length pre) (length l) ≫= fun i => default [] (g <$> (pre ++ l) !! i)) = l ≫= g.
Proof.
  revert pre. induction l as [|x l IH]; intros pre; [done|].
  cbn [length seq]. rewrite !bind_cons, list_lookup_middle by done. simpl. f_equal.
  specialize (IH (pre ++ [x])). rewrite length_app, <- app_assoc, Nat.add_comm in IH. exact IH.
Qed.

Lemma shares_entries ins (p : TestParams) :
  0 < num_threads p -> 0 <= tot_num_entries p ->
  (shares (F := F) p ≫= share_entries ins) = all_entries ins p.
Proof.
  intros Hn Ht.
  transitivity ((fun c => perf_entry p4info ins (c + 1)) <$> seqZ 0 (tot_num_entries p)).
  - rewrite <- (shares_partition (F := F)) by done. generalize (shares (F := F) p). intros l.
    induction l as [|t l IH]; [done|]. cbn [map concat]. rewrite bind_cons, fmap_app, IH.
    by rewrite share_entries_map.
  - unfold all_entries, perf_entries. change (map ?f ?l) with (f <$> l).
    change 1 with (1 + 0) at 2. rewrite <- (fmap_add_seqZ 1), <- list_fmap_compose.
    apply list_fmap_ext. intros i c _. unfold compose. f_equal. lia.
Qed.

Lemma all_entries_shares ins (p : TestParams) :
  0 < num_threads p -> 0 <= tot_num_entries p ->
  (seq 0 (length (shares (F := F) p)) ≫= fun i =>
     default [] (share_entries ins <$> shares (F := F) p !! i)) = all_entries ins p.
Proof.
  intros Hn Ht. etransitivity; [apply (seq_lookup_bind _ [])|]. by apply shares_entries.
Qed.

(** C17 perf_shares_whole: whatever the order in which the threads run, on a
    server that accepts the pipeline's entries and has none of them yet, an
    insertion of at most 2^48 entries leaves the shares of some of the threads,
    each of them whole, and nothing else. (A thread whose session is outranked
    before it writes has its share refused: [perf_lost_entries].) *)
Theorem perf_shares_whole env affinity_fails name args events
  (s s' : RefServer p4info accepts) p td cores out code lines :
  main_start (F := F) name args = Launches p td cores out ->
  oper p = ADD -> tot_num_entries p <= 2 ^ 48 ->
  Forall (fun te => accepts te = true /\ rs_tables s !! te_key te = None)
    (all_entries true p) ->
  perf_main (F := F) env affinity_fails name args events s = Some (code, lines, s') ->
  exists ids,
    NoDup ids /\ Forall (fun i => i < length (shares (F := F) p))%nat ids /\
    rs_tables s' =
      tables_with (ids ≫= fun i => default [] (share_entries true <$> shares (F := F) p !! i))
        (rs_tables s).
Proof.
  intros Hstart Hadd Htot Hall. unfold perf_main. rewrite Hstart.
  apply main_start_launches in Hstart as ((Hn & Ht) & (ins & Hval) & Hpos & Htd).
  assert (ins = true) as -> by (destruct Hval as [Hop _]; rewrite Hadd in Hop; by injection Hop).
  set (w := MkPerfWorld s 0 _).
  assert (pool_inv true (shares p) (rs_tables s) [] (launch env p td) w) as Hinv.
  { split; [constructor|]. split; [done|]. intros i pt (t & Ht' & ->)%launch_lookup.
    rewrite Htd in Ht'. exists t. split; [done|].
    rewrite decide_False by apply not_elem_of_nil. eapply RunPerfTest_sends; [|apply Hval].
    apply shares_ready; [done| |by eapply list_elem_of_lookup_2].
    change (2 ^ 48) with 281474976710656 in Htot. lia. }
  apply (pool_inv_run _ _ _ _ events) in Hinv as (ids & Hnd & HT & Hts).
  destruct (perf_run events _) as [ts w'] eqn:Hrun; simpl in *.
  destruct (mapM thread_result ts) as [td'|]; [|done]. simpl.
  destruct (main_finish p td') as [st fin]. intros [= _ _ <-].
  set (known := filter (fun i => i < length (shares (F := F) p))%nat ids).
  assert (NoDup known) as Hndk by by apply list.NoDup_filter.
  exists known. split; [done|]. split.
  { apply list.Forall_forall. intros i Hi. by apply list_elem_of_filter in Hi as [Hi _]. }
  change (rs_tables (pw_server w')) with (world_tables w'). rewrite HT.
  apply apply_shares_all.
  assert ((ids ≫= fun i => default [] (share_entries true <$> shares p !! i)) =
          (known ≫= fun i => default [] (share_entries true <$> shares p !! i))) as ->.
  { unfold known. clear. induction ids as [|i ids IH]; [done|]. rewrite filter_cons.
    case_decide as Hi; rewrite !bind_cons, IH; [done|].
    by rewrite (proj2 (lookup_ge_None (shares p) i)) by lia. }
  assert (Forall (fun te => accepts te = true /\ rs_tables s !! te_key te = None)
    (known ≫= fun i => default [] (share_entries true <$> shares p !! i))) as Hknown.
  { rewrite list.Forall_forall in Hall |- *.
    intros te (i & Hte & Hi)%list_elem_of_bind. apply Hall.
    rewrite <- (all_entries_shares true p) by lia. apply list_elem_of_bind. exists i.
    split; [done|]. apply list_elem_of_In, in_seq.
    apply list_elem_of_filter in Hi as [Hi _]. lia. }
  apply perf_writes_insert; [|apply shares_NoDup; [done|lia|done]|];
    (eapply list.Forall_impl; [exact Hknown|by intros ? []]).
Qed.

(** *** One thread after the other *)

(** All the calls of a thread at once. *)
Fixpoint prun {A} env (q : pprog A) w : A * perf_world (RefServer p4info accepts) :=
  match q with
  | PRet a => (a, w)
  | PCall c k => let '(r, w) := perf_do env c w in prun env (k r) w
  end.

Lemma perf_run_app events events' (st : list (perf_thread F) * perf_world (RefServer p4info accepts)) :
  perf_run (events ++ events') st = perf_run events' (perf_run events st).
Proof. apply fold_left_app. Qed.

Lemma perf_run_thread k i env q (ts : list (perf_thread F)) w :
  depth_le k q -> ts !! i = Some (MkPerfThread env q) ->
  perf_run (replicate k (Run i)) (ts, w) =
  (<[i := MkPerfThread env (PRet (prun env q w).1)]> ts, (prun env q w).2).
Proof.
  revert q ts w. induction k as [|k IH]; intros q ts w Hd Hi.
  { destruct q; [|done]. by rewrite list_insert_id. }
  unfold perf_run. cbn [replicate fold_left]. cbn [perf_step]. rewrite Hi.
  unfold thread_step; cbn [pt_prog pt_env]. destruct q as [a|c k'].
  - rewrite list_insert_id by done. by apply (IH (PRet a)); [destruct k|].
  - cbn [prun]. destruct (perf_do env c w) as [r w']. simpl in Hd.
    etransitivity; [apply (IH (k' r))|].
    + apply Hd.
    + apply list_lookup_insert_eq. by eapply lookup_lt_Some.
    + by rewrite list_insert_insert_eq.
Qed.

(** The schedule that runs [n] threads in order, each to its end. *)
Definition one_by_one (first n : nat) : list perf_event :=
  concat (map (fun i => replicate 7 (Run i)) (seq first n)).

Lemma one_by_one_runs i first n :
  (first <= i < first + n)%nat -> (7 <= runs i (one_by_one first n))%nat.
Proof.
  assert (forall e1 e2, runs i (e1 ++ e2) = (runs i e1 + runs i e2)%nat) as Happ.
  { intros e1 e2. induction e1 as [|[j|ns] e1 IH]; simpl; try case_decide; lia. }
  revert first. induction n as [|n IH]; intros first Hi; [lia|].
  unfold one_by_one. cbn [seq map concat]. rewrite Happ.
  destruct (decide (i = first)) as [->|Hne].
  - simpl. rewrite !decide_True by done. lia.
  - fold (one_by_one (S first) n). specialize (IH (S first)). lia.
Qed.

Lemma prun_RunPerfTest env (p : TestParams) t w ins :
  ready_thread p t -> oper_ins (oper p) = Some ins -> profile p = SIMPLE_L2_DEMO ->
  w32 (FLAGS_device_id env) = 1 ->
  ti_status (prun env (RunPerfTest env p t) w).1 = SUCCESS /\
  world_tables (prun env (RunPerfTest env p t) w).2 =
    (switch_writes accepts ins (share_entries ins t) (world_tables w)).2.
Proof.
  intros Hready Hop Hprof Hdev. unfold RunPerfTest. pose proof (credentials_lines env).
  destruct (GenerateClientCredentials env) as [cred [|line [|]]]; simpl in *; try lia;
    rewrite Hdev; unfold Create_address, CreateP4RuntimeStub, Create; simpl;
    unfold ref_stream_write; simpl; unfold ref_stream_read; simpl;
    rewrite Hprof; simpl; rewrite (SimpleL2DemoTest_eq _ _ _ p ins) by done; simpl;
    unfold SendWriteRequest; simpl; unfold ref_write; simpl;
    rewrite bool_decide_true by done; simpl; rewrite ref_updates_perf;
    unfold world_tables, share_entries; by destruct (switch_writes _ _ _ _) as [b T].
Qed.

Lemma perf_run_sequential env (p : TestParams) ins (ts : list (ThreadInfo F)) done_ts w :
  oper_ins (oper p) = Some ins -> profile p = SIMPLE_L2_DEMO ->
  (forall i, w32 (FLAGS_device_id (env i)) = 1) -> Forall (ready_thread p) ts ->
  exists results w',
    perf_run (one_by_one (length done_ts) (length ts))
      (done_ts ++ imap (fun i t => MkPerfThread (env (length done_ts + i)%nat)
                          (RunPerfTest (env (length done_ts + i)%nat) p t)) ts, w) =
      (done_ts ++ imap (fun i t => MkPerfThread (env (length done_ts + i)%nat) (PRet t)) results, w') /\
    length results = length ts /\ Forall (fun t => ti_status t = SUCCESS) results /\
    world_tables w' =
      fold_left (fun T t => (switch_writes accepts ins (share_entries ins t) T).2) ts
        (world_tables w).
Proof.
  intros Hop Hprof Hdev Hts. revert done_ts w. induction Hts as [|t ts Ht Hts IH]; intros done_ts w.
  { by exists [], w. }
  cbn [length imap]. rewrite Nat.add_0_r. unfold one_by_one. cbn [seq map concat].
  rewrite perf_run_app, (perf_run_thread 7 (length done_ts) (env (length done_ts))
    (RunPerfTest (env (length done_ts)) p t)) by
    (apply RunPerfTest_depth || by rewrite list_lookup_middle).
  destruct (prun_RunPerfTest (env (length done_ts)) p t w ins Ht Hop Hprof (Hdev _)) as [Hs HT].
  destruct (prun _ _ w) as [t' w1]; simpl in Hs, HT.
  destruct (IH (done_ts ++ [MkPerfThread (env (length done_ts)) (PRet t')]) w1)
    as (results & w' & Hrun & Hlen & Hsuc & HT').
  exists (t' :: results), w'. rewrite length_app in Hrun; cbn [length] in Hrun.
  rewrite <- !app_assoc in Hrun. cbn [app] in Hrun. rewrite Nat.add_1_r in Hrun.
  split; [|split; [by f_equal/=|split; [by constructor|by rewrite HT', HT]]].
  rewrite insert_app_r_alt, Nat.sub_diag by lia. simpl.
  etransitivity; [|etransitivity; [exact Hrun|]].
  - unfold one_by_one. do 4 f_equal. apply imap_ext. intros i x _. unfold compose.
    by replace (length done_ts + S i)%nat with (S (length done_ts) + i)%nat by lia.
  - do 3 f_equal. rewrite Nat.add_0_r. do 2 f_equal.
    apply imap_ext. intros i x _. unfold compose.
    by replace (length done_ts + S i)%nat with (S (length done_ts) + i)%nat by lia.
Qed.

Lemma fold_shares ins (ts : list (ThreadInfo F)) T T' :
  switch_writes accepts ins (ts ≫= share_entries ins) T = (true, T') ->
  fold_left (fun T t => (switch_writes accepts ins (share_entries ins t) T).2) ts T = T'.
Proof.
  revert T. induction ts as [|t ts IH]; intros T; [by intros [= ->]|].
  rewrite bind_cons, perf_writes_app. cbn [fold_left].
  destruct (switch_writes _ _ (share_entries ins t) T) as [[] T1]; [apply IH|done].
Qed.

(** The whole program, its threads run one after the other: when the server
    takes all the entries, it exits with SUCCESS. *)
Lemma perf_main_sequential env affinity_fails name args (s : RefServer p4info accepts)
  p td cores out ins T' :
  main_start (F := F) name args = Launches p td cores out ->
  oper_ins (oper p) = Some ins -> tot_num_entries p <= 2 ^ 48 ->
  (forall i, w32 (FLAGS_device_id (env i)) = 1) ->
  switch_writes accepts ins (all_entries ins p) (rs_tables s) = (true, T') ->
  exists lines s',
    perf_main (F := F) env affinity_fails name args
      (one_by_one 0 (Z.to_nat (num_threads p))) s = Some (SUCCESS, lines, s') /\
    rs_tables s' = T'.
Proof.
  intros Hstart Hop Htot Hdev Hwrites. unfold perf_main. rewrite Hstart.
  apply main_start_launches in Hstart as ((Hn & Ht) & (ins' & Hval) & Hpos & Htd).
  set (w := MkPerfWorld s 0 _).
  assert (Forall (ready_thread p) (shares (F := F) p)) as Hready.
  { apply list.Forall_forall. intros t Hin. apply shares_ready; [done| |done].
    change (2 ^ 48) with 281474976710656 in Htot. lia. }
  destruct (perf_run_sequential env p ins (shares p) [] w Hop (proj2 (proj2 Hval)) Hdev Hready)
    as (results & w' & Hrun & Hlen & Hsuc & HT).
  assert (length (shares (F := F) p) = Z.to_nat (num_threads p)) as Hsl
    by (unfold shares; rewrite length_map, length_seqZ; lia).
  rewrite Hsl in Hrun. cbn [length app] in Hrun. unfold launch. rewrite Htd.
  simpl in Hrun. rewrite Hrun.
  assert (mapM thread_result (imap (fun i t => MkPerfThread (env i) (PRet t)) results) =
          Some results) as ->.
  { clear. generalize env. induction results as [|t l IH]; intros env'; [done|].
    cbn [imap mapM]. simpl. specialize (IH (env' ∘ S)). unfold compose in *. by rewrite IH. }
  simpl. unfold main_finish. rewrite exit_status_success by by apply Forall_take.
  do 2 eexists. split; [done|]. change (rs_tables _) with (world_tables w'). rewrite HT.
  apply fold_shares. rewrite shares_entries by lia. exact Hwrites.
Qed.

(** C16 perf_add_delete: run one thread after the other, an insertion test followed
    by a deletion test of as many entries leaves the tables as they were, with
    any numbers of threads; in between they hold the entries asked for; both
    exit with SUCCESS. *)
Theorem perf_add_delete env1 env2 affinity1 affinity2 name args1 args2
  (s : RefServer p4info accepts) p1 p2 td1 td2 cores1 cores2 out1 out2 :
  main_start (F := F) name args1 = Launches p1 td1 cores1 out1 ->
  main_start (F := F) name args2 = Launches p2 td2 cores2 out2 ->
  oper p1 = ADD -> oper p2 = DEL -> tot_num_entries p2 = tot_num_entries p1 ->
  tot_num_entries p1 <= 2 ^ 48 ->
  (forall i, w32 (FLAGS_device_id (env1 i)) = 1 /\ w32 (FLAGS_device_id (env2 i)) = 1) ->
  Forall (fun te => accepts te = true /\ rs_tables s !! te_key te = None)
    (all_entries true p1) ->
  exists lines1 s1 lines2 s2,
    perf_main (F := F) env1 affinity1 name args1
      (one_by_one 0 (Z.to_nat (num_threads p1))) s = Some (SUCCESS, lines1, s1) /\
    rs_tables s1 = tables_with (all_entries true p1) (rs_tables s) /\
    perf_main (F := F) env2 affinity2 name args2
      (one_by_one 0 (Z.to_nat (num_threads p2))) s1 = Some (SUCCESS, lines2, s2) /\
    rs_tables s2 = rs_tables s.
Proof.
  intros Hs1 Hs2 Hadd Hdel Heq Htot Hdev Hall.
  assert (NoDup (te_key <$> all_entries true p1)) as Hnd by (apply perf_entries_NoDup; lia).
  assert (fresh_in (rs_tables s) (all_entries true p1)) as Hfresh
    by (eapply list.Forall_impl; [exact Hall|by intros ? []]).
  destruct (perf_main_sequential env1 affinity1 name args1 s p1 td1 cores1 out1 true
    (tables_with (all_entries true p1) (rs_tables s))) as (l1 & s1 & Hm1 & HT1); try done.
  { by rewrite Hadd. }
  { intros i. apply Hdev. }
  { apply perf_writes_insert; [|done..].
    eapply list.Forall_impl; [exact Hall|by intros ? []]. }
  destruct (perf_main_sequential env2 affinity2 name args2 s1 p2 td2 cores2 out2 false
    (rs_tables s)) as (l2 & s2 & Hm2 & HT2); try done.
  { by rewrite Hdel. }
  { by rewrite Heq. }
  { intros i. apply Hdev. }
  { rewrite HT1. apply switch_writes_delete; [|done..].
    unfold all_entries. rewrite Heq. apply perf_entries_keys. }
  eauto 10.
Qed.
End OnRefServer.

(** ** Concrete runs *)

Definition perf_p4info : P4Info :=
  MkP4Info
    [MkTableInfo (MkPreamble 33554433 "my_control.e_fwd")
       [MkMatchField 1 "hdrs.mac[vmeta.common.depth].da" 48 MT_EXACT;
        MkMatchField 2 "hdrs.mac[vmeta.common.depth].sa" 48 MT_EXACT] [16777217]]
    [MkActionInfo (MkPreamble 16777217 "my_control.send") [MkActionParam 1 "port" 32]].

Definition perf_env (i : nat) : Env := default_Env 1700000000 (100 + Z.of_nat i) None.

Definition perf_args (threads op n : string) : list text :=
  [lit "-t"; lit threads; lit "-o"; lit op; lit "-n"; lit n].

Definition perf_server (T : tables) : RefServer perf_p4info (fun _ => true) :=
  MkRefServer T None None.

(** Both threads open their sessions before either writes. *)
Definition overlapping : list perf_event :=
  [Run 0; Run 0; Run 1; Run 1] ++ one_by_one 0 2.

(** The exit status, and which of the entries 1 to [n] are in the tables. *)
Definition outcome (n : Z) (r : option (Z * list string * RefServer perf_p4info (fun _ => true)))
  : option (Z * list bool) :=
  '(code, _, s) ← r;
  Some (code, map (fun c => bool_decide (is_Some (rs_tables s !! te_key (perf_entry perf_p4info true c))))
                (seqZ 1 n)).

Definition perf_example (threads op n : string) (events : list perf_event) (T : tables) :=
  perf_main (F := Z) perf_env (fun _ => false) "p4rt_perf_test" (perf_args threads op n) events
    (perf_server T).

(** perf_lost_entries: two threads whose sessions overlap: only the share of the
    second reaches the tables, the exit status is SUCCESS. *)
Lemma perf_lost_entries :
  outcome 3 (perf_example "2" "1" "3" overlapping ∅) = Some (SUCCESS, [false; true; true]) /\
  outcome 3 (perf_example "2" "1" "3" (one_by_one 0 2) ∅) = Some (SUCCESS, [true; true; true]).
Proof. split; vm_compute; reflexivity. Qed.

(** The number of entries is read as an [int]. *)
Lemma perf_entries_argument :
  (tot_num_entries <$> parse_options (getopt_all (perf_args "1" "1" "5000000000")) default_TestParams)
    = Some 705032704 /\
  (tot_num_entries <$> parse_options (getopt_all [lit "-n-1"]) default_TestParams)
    = Some 18446744073709551615.
Proof. split; vm_compute; reflexivity. Qed.

Definition launched {F} (st : startup F) : option TestParams :=
  match st with Launches p _ _ _ => Some p | _ => None end.

Lemma launched_inv {F} (st : startup F) p :
  launched st = Some p -> exists td cores out, st = Launches p td cores out.
Proof. destruct st; simpl; intros [= <-]; eauto. Qed.

(** The concrete entries are new. *)
Lemma all_new (tes : list TableEntry) :
  Forall (fun te => true = true /\ (∅ : tables) !! te_key te = None) tes.
Proof. apply list.Forall_forall. intros te _. split; [done|apply lookup_empty]. Qed.

Lemma perf_shares_whole_witness :
  exists ids, NoDup ids /\
    match perf_example "2" "1" "3" overlapping ∅ with
    | Some (_, _, s') =>
        rs_tables s' =
          tables_with (ids ≫= fun i => default [] (share_entries (p4info := perf_p4info) true <$>
                         shares (F := Z) (MkTestParams 2 1 3 1) !! i)) ∅
    | None => False
    end.
Proof.
  destruct (launched_inv (main_start (F := Z) "p4rt_perf_test" (perf_args "2" "1" "3")) (MkTestParams 2 1 3 1))
    as (td & cores & out & Hstart); [vm_compute; reflexivity|].
  destruct (perf_example "2" "1" "3" overlapping ∅) as [[[code lines] s']|] eqn:Hrun.
  - destruct (perf_shares_whole (F := Z) perf_env (fun _ => false) "p4rt_perf_test"
      (perf_args "2" "1" "3") overlapping (perf_server ∅) s' (MkTestParams 2 1 3 1) td cores out
      code lines Hstart eq_refl ltac:(vm_compute; discriminate) (all_new _) Hrun)
      as (ids & Hnd & _ & HT).
    exists ids. exact (conj Hnd HT).
  - assert (outcome 0 (perf_example "2" "1" "3" overlapping ∅) = Some (SUCCESS, [])) as Ho
      by (vm_compute; reflexivity).
    rewrite Hrun in Ho. discriminate.
Defined.

Lemma perf_add_delete_witness :
  exists lines1 s1 lines2 s2,
    perf_example "3" "1" "5" (one_by_one 0 3) ∅ = Some (SUCCESS, lines1, s1) /\
    perf_main (F := Z) perf_env (fun _ => false) "p4rt_perf_test" (perf_args "2" "2" "5")
      (one_by_one 0 2) s1 = Some (SUCCESS, lines2, s2) /\ rs_tables s2 = ∅.
Proof.
  destruct (launched_inv (main_start (F := Z) "p4rt_perf_test" (perf_args "3" "1" "5")) (MkTestParams 3 1 5 1))
    as (td1 & cores1 & out1 & Hs1); [vm_compute; reflexivity|].
  destruct (launched_inv (main_start (F := Z) "p4rt_perf_test" (perf_args "2" "2" "5")) (MkTestParams 2 2 5 1))
    as (td2 & cores2 & out2 & Hs2); [vm_compute; reflexivity|].
  destruct (perf_add_delete (F := Z) perf_env perf_env (fun _ => false) (fun _ => false)
    "p4rt_perf_test" (perf_args "3" "1" "5") (perf_args "2" "2" "5") (perf_server ∅)
    (MkTestParams 3 1 5 1) (MkTestParams 2 2 5 1) td1 td2 cores1 cores2 out1 out2
    Hs1 Hs2 eq_refl eq_refl eq_refl ltac:(vm_compute; discriminate)
    (fun i => conj eq_refl eq_refl) (all_new _))
    as (l1 & s1 & l2 & s2 & H1 & _ & H2 & H3).
  exists l1, s1, l2, s2. exact (conj H1 (conj H2 H3)).
Defined.

Lemma perf_terminates_witness :
  is_Some (perf_main (F := Z) perf_env (fun _ => true) "p4rt_perf_test" (perf_args "8" "2" "100")
             (one_by_one 0 8) tt).
Proof.
  destruct (launched_inv (main_start (F := Z) "p4rt_perf_test" (perf_args "8" "2" "100")) (MkTestParams 8 2 100 1))
    as (td & cores & out & Hs); [vm_compute; reflexivity|].
  refine (perf_terminates (S := unit) (F := Z) perf_env (fun _ => true) "p4rt_perf_test"
    (perf_args "8" "2" "100") (one_by_one 0 8) tt (MkTestParams 8 2 100 1) td cores out Hs _).
  intros i Hi. apply one_by_one_runs. simpl in *. lia.
Defined.

(** A server that arbitrates and refuses every write. *)
#[local] Instance write_refusing_stub : P4RuntimeStub Z := {|
  stub_StreamChannel _ _ s := s;
  stub_StreamWrite a s := (true, arb_device_id a);
  stub_StreamRead s := (Some (kArbitration (MkArbitration s "" None None 0)), s);
  stub_StreamFinish s := (MkGrpcStatus 0 "", s);
  stub_GetForwardingPipelineConfig _ s := ((MkGrpcStatus 9 "no pipeline", default_P4Info), s);
  stub_Read _ s := (([], MkGrpcStatus 7 ""), s);
  stub_Write _ s := (MkGrpcStatus 7 "permission denied", s);
|}.

Lemma perf_ignores_write_errors_witness :
  match perf_main (S := Z) (F := Z) perf_env (fun _ => false) "p4rt_perf_test"
          (perf_args "1" "1" "2") (one_by_one 0 1) 0 with
  | Some (code, lines, _) => code = SUCCESS /\ "Num of entries added: 2" ∈ lines
  | None => False
  end.
Proof.
  destruct (launched_inv (main_start (F := Z) "p4rt_perf_test" (perf_args "1" "1" "2")) (MkTestParams 1 1 2 1))
    as (td & cores & out & Hs); [vm_compute; reflexivity|].
  assert (sessions_succeed (S := Z)) as Hses.
  { intros env a cr d e s. unfold Create_address, Create; simpl. by rewrite Z.eqb_refl. }
  destruct (perf_main _ _ _ _ _ _) as [[[code lines] s']|] eqn:Hrun.
  - exact (perf_ignores_write_errors (F := Z) perf_env (fun _ => false) _ _ (one_by_one 0 1) 0 s' _
      td cores out code lines Hses Hs ltac:(vm_compute; reflexivity) Hrun).
  - assert ((fun r => r.1.1) <$> perf_main (S := Z) (F := Z) perf_env (fun _ => false)
      "p4rt_perf_test" (perf_args "1" "1" "2") (one_by_one 0 1) 0 = Some SUCCESS) as Ho
      by (vm_compute; reflexivity).
    rewrite Hrun in Ho. discriminate.
Defined.
