(* ===== verification/Daemon.v ===== *)
(** * Starting infrap4d as a daemon ([infrap4d/], [infrap4d/daemon/])

    [infrap4d] forks: the parent waits on a pipe until the child says that it is
    ready, and exits; the child goes on as the daemon. The code is a program of
    system calls ([cprog]), a tree with a node per call and a node [Loop] for
    the loops that retry. What a call does is the kernel's business: see
    [DaemonKernel]. The static variables of the three C files are the record
    [globals]; a [fork] copies them with the rest of the program. *)

From S2P Require Import Prelude.

(** ** System calls *)

Inductive syscall :=
| sys_read (fd size : Z)
| sys_write (fd : Z) (data : bytes)
| sys_pipe
| sys_fork
| sys_close (fd : Z)
| sys_waitpid (pid : Z)
| sys_exit (code : Z)
| sys_abort
| sys_setsid
| sys_open (device : string)
| sys_dup2 (oldfd newfd : Z)
| sys_raise (sig : Z)
| sys_free (ptr : Z)
| sys_printf (line : string)
(** A call through a function pointer, [f(aux)]. *)
| call_pointer (f aux : Z)
(** A function of another project. *)
| call_external (name : string).

(** What a call leaves: its value, [errno], and what it stores through its
    pointer argument ([pipe], [read], [waitpid]). *)
Record answer := MkAnswer { retval : Z; errno : Z; stored : list Z }.

Inductive cprog (A : Type) : Type :=
| CRet (a : A)
| CCall (c : syscall) (k : answer -> cprog A)
(** [body] until it yields [inr]. *)
| CLoop {B R : Set} (body : B -> cprog (B + R)) (b : B) (k : R -> cprog A).
Arguments CRet {_} _.
Arguments CCall {_} _ _.
Arguments CLoop {_ _ _} _ _ _.

Fixpoint cbind {A C} (p : cprog A) (f : A -> cprog C) : cprog C :=
  match p with
  | CRet a => f a
  | CCall c k => CCall c (fun r => cbind (k r) f)
  | CLoop body b k => CLoop body b (fun r => cbind (k r) f)
  end.

#[export] Instance cprog_ret : MRet cprog := fun A a => CRet a.
#[export] Instance cprog_bind : MBind cprog := fun A C f p => cbind p f.

Definition syscall_ (c : syscall) : cprog answer := CCall c CRet.

(** A call whose value is not used. *)
Definition syscall_u (c : syscall) : cprog unit := CCall c (fun _ => CRet tt).

(** ** Constants *)

Definition EOF : Z := -1.
Definition EINTR : Z := 4.
Definition EBADF : Z := 9.
Definition EPROTO : Z := 71.
Definition SIG_ATOMIC_MAX : Z := 2147483647.
Definition MAX_HOOKS : nat := 32.

(** [<sys/wait.h>]. *)
Definition WEXITSTATUS (status : Z) : Z := (status .& 65280) >>. 8.
Definition WIFEXITED (status : Z) : bool := (status .& 127) =? 0.

(** ** Static variables *)

Record infrap4d_hook := MkHook {
  hook_cb : Z;
  cancel_cb : option Z;        (* null or a function *)
  hook_aux : Z;
  run_at_exit : bool;
}.

Record globals := MkGlobals {
  (* daemon-unix.c *)
  infrap4d_detach : bool;
  infrap4d_detached : bool;
  infrap4d_pidfile : option Z;
  infrap4d_daemonize_fd : Z;
  (* daemon.c *)
  infrap4d_save_fds : list bool;
  null_fd : Z;
  (* fatal-signal.c *)
  infrap4d_hooks : list infrap4d_hook;
  infrap4d_n_hooks : nat;
  infrap4d_stored_sig_nr : Z;
}.

Definition initial_globals : globals :=
  MkGlobals true false None (-1) [false; false; false] 0
    (replicate MAX_HOOKS (MkHook 0 None 0 false)) 0 SIG_ATOMIC_MAX.

Definition set_detached (b : bool) (g : globals) : globals :=
  MkGlobals (infrap4d_detach g) b (infrap4d_pidfile g) (infrap4d_daemonize_fd g)
    (infrap4d_save_fds g) (null_fd g) (infrap4d_hooks g) (infrap4d_n_hooks g)
    (infrap4d_stored_sig_nr g).
Definition set_pidfile (p : option Z) (g : globals) : globals :=
  MkGlobals (infrap4d_detach g) (infrap4d_detached g) p (infrap4d_daemonize_fd g)
    (infrap4d_save_fds g) (null_fd g) (infrap4d_hooks g) (infrap4d_n_hooks g)
    (infrap4d_stored_sig_nr g).
Definition set_daemonize_fd (fd : Z) (g : globals) : globals :=
  MkGlobals (infrap4d_detach g) (infrap4d_detached g) (infrap4d_pidfile g) fd
    (infrap4d_save_fds g) (null_fd g) (infrap4d_hooks g) (infrap4d_n_hooks g)
    (infrap4d_stored_sig_nr g).
Definition set_save_fds (l : list bool) (g : globals) : globals :=
  MkGlobals (infrap4d_detach g) (infrap4d_detached g) (infrap4d_pidfile g)
    (infrap4d_daemonize_fd g) l (null_fd g) (infrap4d_hooks g) (infrap4d_n_hooks g)
    (infrap4d_stored_sig_nr g).
Definition set_null_fd (fd : Z) (g : globals) : globals :=
  MkGlobals (infrap4d_detach g) (infrap4d_detached g) (infrap4d_pidfile g)
    (infrap4d_daemonize_fd g) (infrap4d_save_fds g) fd (infrap4d_hooks g) (infrap4d_n_hooks g)
    (infrap4d_stored_sig_nr g).
Definition set_n_hooks (n : nat) (g : globals) : globals :=
  MkGlobals (infrap4d_detach g) (infrap4d_detached g) (infrap4d_pidfile g)
    (infrap4d_daemonize_fd g) (infrap4d_save_fds g) (null_fd g) (infrap4d_hooks g) n
    (infrap4d_stored_sig_nr g).

(** ** [fatal-signal.c] *)

(** The loop over the first [n] hooks. *)
Fixpoint cancel_hooks (hooks : list infrap4d_hook) (n : nat) : cprog unit :=
  match n, hooks with
  | S n, h :: hooks =>
      _ ← match cancel_cb h with
          | Some f => syscall_u (call_pointer f (hook_aux h))
          | None => mret tt
          end;
      cancel_hooks hooks n
  | _, _ => mret tt
  end.

Definition daemon_fatal_signal_fork (g : globals) : cprog globals :=
  _ ← cancel_hooks (infrap4d_hooks g) (infrap4d_n_hooks g);
  let g := set_n_hooks 0 g in
  if negb (infrap4d_stored_sig_nr g =? SIG_ATOMIC_MAX) then
    (_ ← syscall_u (sys_raise (infrap4d_stored_sig_nr g)); mret g)
  else mret g.

(** ** [daemon.c] *)

(** [None] is a failed assertion. *)
Definition daemon_save_fd (fd : Z) (g : globals) : option globals :=
  if (fd =? 0) || (fd =? 1) || (fd =? 2) then
    Some (set_save_fds (<[Z.to_nat fd := true]> (infrap4d_save_fds g)) g)
  else None.

Definition get_null_fd (g : globals) : cprog (Z * globals) :=
  if null_fd g =? 0 then
    a ← syscall_ (sys_open "/dev/null");
    let g := set_null_fd (retval a) g in
    let g := if null_fd g <? 0 then set_null_fd (- errno a) g else g in
    mret (null_fd g, g)
  else mret (null_fd g, g).

(** The loop [for (fd = 0; fd < 3; fd++)], over the flags of the descriptors
    from [fd] on. *)
Fixpoint replace_fds (null_fd : Z) (fd : Z) (save : list bool) : cprog unit :=
  match save with
  | [] => mret tt
  | saved :: save =>
      _ ← (if negb saved then syscall_u (sys_dup2 null_fd fd) else mret tt);
      replace_fds null_fd (fd + 1) save
  end.

Definition daemon_close_standard_fds (g : globals) : cprog globals :=
  '(null_fd, g) ← get_null_fd g;
  _ ← (if null_fd >=? 0 then replace_fds null_fd 0 (infrap4d_save_fds g) else mret tt);
  mret g.

(** ** [daemon-unix.c] *)

(** One turn of the loop of [read_fully], on [size], what was stored at [p_],
    and [*bytes_read]: the next turn, or the value returned. *)
Definition read_turn (fd : Z) (st : Z * bytes * Z) : cprog ((Z * bytes * Z) + (Z * bytes * Z)) :=
  let '(size, p, bytes_read) := st in
  if size >? 0 then
    a ← syscall_ (sys_read fd size);
    if retval a >? 0 then
      mret (inl (w64 (size - retval a), p ++ stored a, w64 (bytes_read + retval a)))
    else if retval a =? 0 then mret (inr (EOF, p, bytes_read))
    else if negb (errno a =? EINTR) then mret (inr (errno a, p, bytes_read))
    else mret (inl (size, p, bytes_read))
  else mret (inr (0, p, bytes_read)).

(** The value, what was stored at [p_], and [*bytes_read]. *)
Definition read_fully (fd size : Z) : cprog (Z * bytes * Z) :=
  CLoop (read_turn fd) (size, [], 0) mret.

(** The same for [write_fully], on [size], what is left at [p], and
    [*bytes_written]. *)
Definition write_turn (fd : Z) (st : Z * bytes * Z) : cprog ((Z * bytes * Z) + (Z * Z)) :=
  let '(size, p, bytes_written) := st in
  if size >? 0 then
    a ← syscall_ (sys_write fd (take (Z.to_nat size) p));
    if retval a >? 0 then
      mret (inl (w64 (size - retval a), drop (Z.to_nat (retval a)) p,
                 w64 (bytes_written + retval a)))
    else if retval a =? 0 then mret (inr (EPROTO, bytes_written))
    else if negb (errno a =? EINTR) then mret (inr (errno a, bytes_written))
    else mret (inl (size, p, bytes_written))
  else mret (inr (0, bytes_written)).

(** The value, and [*bytes_written]. *)
Definition write_fully (fd : Z) (p : bytes) (size : Z) : cprog (Z * Z) :=
  CLoop (write_turn fd) (size, p, 0) mret.

Definition fork_and_clean_up (g : globals) : cprog (Z * globals) :=
  a ← syscall_ sys_fork;
  let pid := retval a in
  if pid <? 0 then (_ ← syscall_u (sys_printf "fork failed"); mret (pid, g))
  else if pid >? 0 then (g ← daemon_fatal_signal_fork g; mret (pid, g))
  else mret (pid, g).

(** One turn of [do retval = waitpid(pid, &status, 0); while (retval == -1 &&
    errno == EINTR)], then the loop: [retval] and [status]. *)
Definition wait_turn (pid : Z) (_ : unit) : cprog (unit + (Z * Z)) :=
  a ← syscall_ (sys_waitpid pid);
  if (retval a =? -1) && (errno a =? EINTR) then mret (inl tt)
  else mret (inr (retval a, stored a !!! 0%nat)).

Definition wait_child (pid : Z) : cprog (Z * Z) := CLoop (wait_turn pid) tt mret.

(** The value, [*fdp] and [*child_pid]; [fdp] is [&infrap4d_daemonize_fd]. When
    [pipe] fails, [fds] holds what the stack held. [exit] and [abort] do not
    return. *)
Definition fork_and_wait_for_startup (g : globals) : cprog (Z * Z * globals) :=
  a ← syscall_ sys_pipe;
  let fds := stored a in
  _ ← (if negb (retval a =? 0) then syscall_u (sys_printf "failed to create pipe ")
       else mret tt);
  '(pid, g) ← fork_and_clean_up g;
  if pid >? 0 then
    _ ← syscall_u (sys_close (fds !!! 1%nat));
    '(err, _, _) ← read_fully (fds !!! 0%nat) 1;
    ret ←
      (if negb (err =? 0) then
         '(retval, status) ← wait_child pid;
         if retval =? pid then
           if WIFEXITED status && negb (WEXITSTATUS status =? 0) then
             (_ ← syscall_u (sys_exit (WEXITSTATUS status)); mret 0)
           else mret (-1)
         else (_ ← syscall_u sys_abort; mret 0)
       else mret 0);
    mret (ret, pid, set_daemonize_fd (fds !!! 0%nat) g)
  else if pid =? 0 then
    _ ← syscall_u (sys_close (fds !!! 0%nat));
    mret (0, pid, set_daemonize_fd (fds !!! 1%nat) g)
  else mret (0, pid, g).

Definition fork_notify_startup (fd : Z) : cprog unit :=
  if negb (fd =? -1) then
    '(error, _) ← write_fully fd [0] 1;
    (if negb (error =? 0) then syscall_u (sys_printf "pipe write failed ") else mret tt)
  else mret tt.

Definition daemonize_start (access_datapath : bool) (g : globals) : cprog globals :=
  let g := set_daemonize_fd (-1) g in
  if infrap4d_detach g then
    '(ret, pid, g) ← fork_and_wait_for_startup g;
    _ ← (if negb (ret =? 0)
         then syscall_u (sys_printf "could not detach from foreground session ") else mret tt);
    if pid >? 0 then (_ ← syscall_u (sys_exit 0); mret g)
    else (_ ← syscall_u sys_setsid; mret g)
  else mret g.

Definition daemonize_post_detach (g : globals) : cprog globals :=
  if infrap4d_detach g then daemon_close_standard_fds g else mret g.

Definition daemonize_complete (g : globals) : cprog globals :=
  g ← match infrap4d_pidfile g with
      | Some p => (_ ← syscall_u (sys_free p); mret (set_pidfile None g))
      | None => mret g
      end;
  if negb (infrap4d_detached g) then
    let g := set_detached true g in
    _ ← fork_notify_startup (infrap4d_daemonize_fd g);
    daemonize_post_detach g
  else mret g.

(** ** [infrap4d_main.cc] and [infrap4d_lite.cc]

    The value of [main]. The flags are the ones [ParseCommandLine] sets. *)
Definition infrap4d_main (FLAGS_detach FLAGS_disable_krnlmon : bool) (g : globals) : cprog Z :=
  _ ← syscall_u (call_external "gflags::SetUsageMessage");
  _ ← syscall_u (call_external "stratum::hal::tdi::ParseCommandLine");
  _ ← (if FLAGS_detach then (g ← daemonize_start false g; daemonize_complete g) else mret g);
  _ ← (if negb FLAGS_disable_krnlmon then
         (_ ← syscall_u (call_external "krnlmon_create_main_thread");
          syscall_u (call_external "krnlmon_create_shutdown_thread"))
       else mret tt);
  a ← syscall_ (call_external "stratum::hal::tdi::Main");
  let error_code := retval a in
  if negb (error_code =? 0) then mret error_code else mret 0.

Definition infrap4d_lite_main (FLAGS_detach : bool) (g : globals) : cprog Z :=
  _ ← syscall_u (call_external "stratum::hal::tdi::ParseCommandLine");
  _ ← (if FLAGS_detach then (g ← daemonize_start false g; daemonize_complete g) else mret g);
  a ← syscall_ (call_external "stratum::hal::tdi::Main");
  let error_code := retval a in
  if negb (error_code =? 0) then mret error_code else mret 0.
