(* ===== verification/DaemonKernel.v ===== *)
(** * The kernel under the daemon

    What the system calls of [Daemon] do: processes with their descriptors,
    pipes, exit statuses. The calls follow POSIX as far as the daemon can tell;
    the list of [choice]s says which process runs next and what the kernel and
    the outside world decide. [sys_run] executes it, so a reachable state is the
    state after some list. *)

From stdpp Require Import gmap.
From S2P Require Import Prelude Daemon.

Inductive file :=
| FPipeR (pipe : nat)
| FPipeW (pipe : nat)
| FNull
| FStream (n : Z).         (* the terminal, say *)

#[export] Instance file_eq_dec : EqDecision file.
Proof. solve_decision. Defined.

Record proc := MkProc {
  p_prog : cprog Z;
  p_fds : gmap Z file;
  p_leader : bool;           (* of a session *)
}.

Inductive pstate :=
| PRunning (p : proc)
| PDead (status : Z).        (* as [waitpid] reports it *)

Record kernel := MkKernel {
  k_procs : gmap Z pstate;
  k_pipes : list bytes;      (* what is in each pipe *)
  k_next_pid : Z;
  k_trace : list (Z * syscall);   (* the calls that returned, and [exit] *)
}.

(** Process statuses. *)
Definition exited (code : Z) : Z := w8 code * 256.
Definition signaled (sig : Z) : Z := sig.
Definition SIGABRT : Z := 6.
Definition SIGPIPE : Z := 13.

(** The lowest descriptor that is not in use. *)
Fixpoint lowest_fd (fuel : nat) (fd : Z) (fds : gmap Z file) : Z :=
  match fuel with
  | O => fd
  | S fuel => match fds !! fd with None => fd | Some _ => lowest_fd fuel (fd + 1) fds end
  end.

Definition new_fd (fds : gmap Z file) : Z := lowest_fd (S (size fds)) 0 fds.

(** Some process has the end [f] of a pipe open. *)
Definition holds (f : file) (s : pstate) : bool :=
  match s with
  | PRunning p => negb (bool_decide (map_Forall (fun _ f' => f' <> f) (p_fds p)))
  | PDead _ => false
  end.

Definition is_open (f : file) (k : kernel) : bool :=
  negb (bool_decide (map_Forall (fun _ s => holds f s = false) (k_procs k))).

(** What a call comes to. *)
Inductive outcome :=
| Returns (a : answer) (fds : gmap Z file) (leader : bool) (pipes : list bytes)
| Forks
| Dies (status : Z)
| Blocks.

Definition ret_ok (v : Z) : answer := MkAnswer v 0 [].
Definition ret_err (e : Z) : answer := MkAnswer (-1) e [].

(** The outcome of a call when nothing goes wrong in the kernel. *)
Definition sys_outcome (c : syscall) (p : proc) (k : kernel) : outcome :=
  let fds := p_fds p in
  let ld := p_leader p in
  let pipes := k_pipes k in
  match c with
  | sys_read fd size =>
      match fds !! fd with
      | Some (FPipeR n) =>
          match default [] (pipes !! n) with
          | [] => if is_open (FPipeW n) k then Blocks else Returns (ret_ok 0) fds ld pipes
          | data =>
              let got := take (Z.to_nat size) data in
              Returns (MkAnswer (Z.of_nat (length got)) 0 got) fds ld
                (<[n := drop (Z.to_nat size) data]> pipes)
          end
      | Some FNull => Returns (ret_ok 0) fds ld pipes
      | Some (FStream _) => Blocks
      | Some (FPipeW _) | None => Returns (ret_err EBADF) fds ld pipes
      end
  | sys_write fd data =>
      match fds !! fd with
      | Some (FPipeW n) =>
          if is_open (FPipeR n) k then
            Returns (ret_ok (Z.of_nat (length data))) fds ld
              (<[n := default [] (pipes !! n) ++ data]> pipes)
          else Dies (signaled SIGPIPE)
      | Some FNull | Some (FStream _) =>
          Returns (ret_ok (Z.of_nat (length data))) fds ld pipes
      | Some (FPipeR _) | None => Returns (ret_err EBADF) fds ld pipes
      end
  | sys_pipe =>
      let n := length pipes in
      let r := new_fd fds in
      let fds := <[r := FPipeR n]> fds in
      let w := new_fd fds in
      Returns (MkAnswer 0 0 [r; w]) (<[w := FPipeW n]> fds) ld (pipes ++ [[]])
  | sys_fork => Forks
  | sys_close fd =>
      match fds !! fd with
      | Some _ => Returns (ret_ok 0) (delete fd fds) ld pipes
      | None => Returns (ret_err EBADF) fds ld pipes
      end
  | sys_waitpid pid =>
      match k_procs k !! pid with
      | Some (PDead status) => Returns (MkAnswer pid 0 [status]) fds ld pipes
      | Some (PRunning _) => Blocks
      | None => Returns (ret_err 10) fds ld pipes
      end
  | sys_exit code => Dies (exited code)
  | sys_abort => Dies (signaled SIGABRT)
  | sys_setsid => Returns (ret_ok 1) fds true pipes
  | sys_open _ => let fd := new_fd fds in Returns (ret_ok fd) (<[fd := FNull]> fds) ld pipes
  | sys_dup2 oldfd newfd =>
      match fds !! oldfd with
      | Some f => Returns (ret_ok newfd) (<[newfd := f]> fds) ld pipes
      | None => Returns (ret_err EBADF) fds ld pipes
      end
  | sys_raise sig => Dies (signaled sig)
  | sys_free _ | sys_printf _ | call_pointer _ _ => Returns (ret_ok 0) fds ld pipes
  | call_external _ => Blocks
  end.

(** One turn of a loop, and what comes after. *)
Definition unfold_loop {A} {B R : Set} (body : B -> cprog (B + R)) (b : B) (cont : R -> cprog A)
  : cprog A :=
  r ← body b; match r with inl b => CLoop body b cont | inr r => cont r end.

(** A choice: a process runs; it is interrupted by a signal it handles, in a
    call that can be; its call fails; the external function it is in returns; it
    is killed. *)
Inductive choice :=
| Go (pid : Z)
| Interrupt (pid : Z)
| FailCall (pid : Z) (a : answer)
| ReturnExternal (pid value : Z)
| Kill (pid sig : Z).

Definition interruptible (c : syscall) : bool :=
  match c with sys_read _ _ | sys_write _ _ | sys_waitpid _ => true | _ => false end.

Definition set_proc (pid : Z) (s : pstate) (k : kernel) : kernel :=
  MkKernel (<[pid := s]> (k_procs k)) (k_pipes k) (k_next_pid k) (k_trace k).

(** The call [c] of [pid] returns [a], with what it did to the process. *)
Definition returns (pid : Z) (c : syscall) (prog : cprog Z) (fds : gmap Z file) (leader : bool)
  (pipes : list bytes) (k : kernel) : kernel :=
  MkKernel (<[pid := PRunning (MkProc prog fds leader)]> (k_procs k)) pipes (k_next_pid k)
    (k_trace k ++ [(pid, c)]).

Definition dies (pid : Z) (c : syscall) (status : Z) (k : kernel) : kernel :=
  MkKernel (<[pid := PDead status]> (k_procs k)) (k_pipes k) (k_next_pid k)
    (k_trace k ++ [(pid, c)]).

Definition perform (pid : Z) (c : syscall) (cont : answer -> cprog Z) (p : proc) (k : kernel)
  : kernel :=
  match sys_outcome c p k with
  | Returns a fds leader pipes => returns pid c (cont a) fds leader pipes k
  | Forks =>
      let child := k_next_pid k in
      let k := returns pid c (cont (ret_ok child)) (p_fds p) (p_leader p) (k_pipes k) k in
      MkKernel
        (<[child := PRunning (MkProc (cont (ret_ok 0)) (p_fds p) false)]> (k_procs k))
        (k_pipes k) (child + 1) (k_trace k)
  | Dies status => dies pid c status k
  | Blocks => k
  end.

(** One choice. A choice that does not apply changes nothing; returning from
    [main] is [exit]. *)
Definition sys_step (ch : choice) (k : kernel) : kernel :=
  let on_call pid (f : syscall -> (answer -> cprog Z) -> proc -> kernel) :=
    match k_procs k !! pid with
    | Some (PRunning p) => match p_prog p with CCall c cont => f c cont p | _ => k end
    | _ => k
    end in
  match ch with
  | Go pid =>
      match k_procs k !! pid with
      | Some (PRunning p) =>
          match p_prog p with
          | CRet code => dies pid (sys_exit code) (exited code) k
          | CCall c cont => perform pid c cont p k
          | CLoop body b cont =>
              set_proc pid
                (PRunning (MkProc (unfold_loop body b cont) (p_fds p) (p_leader p))) k
          end
      | _ => k
      end
  | Interrupt pid =>
      on_call pid (fun c cont p =>
        if interruptible c
        then set_proc pid (PRunning (MkProc (cont (ret_err EINTR)) (p_fds p) (p_leader p))) k
        else k)
  | FailCall pid a =>
      on_call pid (fun c cont p => returns pid c (cont a) (p_fds p) (p_leader p) (k_pipes k) k)
  | ReturnExternal pid value =>
      on_call pid (fun c cont p =>
        match c with
        | call_external _ => returns pid c (cont (ret_ok value)) (p_fds p) (p_leader p) (k_pipes k) k
        | _ => k
        end)
  | Kill pid sig =>
      match k_procs k !! pid with
      | Some (PRunning _) => set_proc pid (PDead (signaled sig)) k
      | _ => k
      end
  end.

Definition sys_run (cs : list choice) (k : kernel) : kernel :=
  fold_left (fun k ch => sys_step ch k) cs k.

(** The daemon is started by a shell, with the three standard streams. *)
Definition parent : Z := 100.
Definition child : Z := 101.

Definition start (prog : cprog Z) : kernel :=
  MkKernel
    {[parent := PRunning (MkProc prog {[0 := FStream 0; 1 := FStream 1; 2 := FStream 2]} false)]}
    [] child [].
