(* ===== verification/DaemonProps.v ===== *)
(** * The daemon: theorems

    First the functions on their own, over any answers of the kernel; then
    infrap4d started on the kernel of [DaemonKernel]: how its parent process
    ends, that it always can, and in which environment the daemon runs. *)

From stdpp Require Import gmap.
From S2P Require Import Prelude Daemon DaemonKernel.

(** ** Runs over any answers *)

Abbreviation calls := (list (syscall * answer)).

(** The iterations of a loop whose body runs as [step] says. *)
Inductive iterates {B R : Set} (step : B -> calls -> B + R -> Prop) : B -> calls -> R -> Prop :=
| iterates_done b l r : step b l (inr r) -> iterates step b l r
| iterates_next b b' l1 l2 r :
    step b l1 (inl b') -> iterates step b' l2 r -> iterates step b (l1 ++ l2) r.

(** [p] makes the calls of [l], gets the answers there, and returns [a]. *)
Fixpoint runs_to {A : Type} (p : cprog A) (l : calls) (a : A) : Prop :=
  match p with
  | CRet a' => l = [] /\ a = a'
  | CCall c k =>
      match l with
      | (c', ans) :: l => c' = c /\ runs_to (k ans) l a
      | [] => False
      end
  | CLoop body b k =>
      exists r l1 l2, l = l1 ++ l2 /\
        iterates (fun b l r => runs_to (body b) l r) b l1 r /\ runs_to (k r) l2 a
  end.

Lemma runs_bind {A B} (p : cprog A) (f : A -> cprog B) l b :
  runs_to (p ≫= f) l b <->
  exists a l1 l2, l = l1 ++ l2 /\ runs_to p l1 a /\ runs_to (f a) l2 b.
Proof.
  unfold mbind, cprog_bind. revert l. induction p as [A a|A c k IH|A B' R body IHb s k IH]; intros l; simpl.
  - split; [by exists a, [], l|]. by intros (a' & l1 & l2 & -> & [-> ->] & Hf).
  - destruct l as [|[c' ans] l]; simpl.
    + split; [done|]. intros (a & [|[] l1] & l2 & Hl & H1 & _); done.
    + rewrite IH. split.
      * intros (-> & a & l1 & l2 & -> & H1 & H2). by exists a, ((c, ans) :: l1), l2.
      * intros (a & [|[c1 ans1] l1] & l2 & Hl & H1 & H2); [done|].
        injection Hl as -> -> ->. destruct H1 as [-> H1]. split; [done|]. by exists a, l1, l2.
  - split.
    + intros (r & l1 & l2 & -> & Hi & Hk). apply IH in Hk as (a & l3 & l4 & -> & H1 & H2).
      exists a, (l1 ++ l3), l4. rewrite <- app_assoc. split; [done|]. split; [|done].
      by exists r, l1, l3.
    + intros (a & l1 & l2 & -> & (r & l3 & l4 & -> & Hi & Hk) & Hf).
      exists r, l3, (l4 ++ l2). rewrite <- app_assoc. split; [done|]. split; [done|].
      apply IH. by exists a, l4, l2.
Qed.

(** Case analysis on a run. *)
Ltac run_cases :=
  repeat match goal with
  | Hr : runs_to (_ ≫= _) _ _ |- _ =>
      let a := fresh "a" in let l1 := fresh "l1" in let l2 := fresh "l2" in
      let H1 := fresh "Hr" in let H2 := fresh "Hr" in
      apply runs_bind in Hr as (a & l1 & l2 & -> & H1 & H2)
  | Hr : runs_to (mret _) _ _ |- _ => destruct Hr as [-> ->]
  | Hr : runs_to (CRet _) _ _ |- _ => destruct Hr as [-> ->]
  | Hr : runs_to (syscall_ _) ?l _ |- _ =>
      destruct l as [|[? ?] ?]; simpl in Hr; [done|destruct Hr as [-> [-> ->]]]
  | Hr : runs_to (syscall_u _) ?l _ |- _ =>
      destruct l as [|[? ?] ?]; simpl in Hr; [done|destruct Hr as [-> [-> ->]]]
  | Hr : runs_to (let '(_, _) := ?x in _) _ _ |- _ => destruct x eqn:?
  | Hr : runs_to (if ?b then _ else _) _ _ |- _ => destruct b eqn:?
  end.

(** *** Reading and writing in full *)

(** What the kernel took of the data of the writes, and stored for the reads. *)
Definition written (l : calls) : bytes :=
  concat (map (fun ca => match ca.1 with
                         | sys_write _ d => take (Z.to_nat (retval ca.2)) d
                         | _ => [] end) l).

Definition received (l : calls) : bytes :=
  concat (map (fun ca => if retval ca.2 >? 0 then stored ca.2 else []) l).

(** What POSIX says of the answers: a write takes no more than it was given, a
    read stores as many bytes as it says and no more than asked for, a failure
    sets [errno]. *)
Definition posix_answer (fd : Z) (ca : syscall * answer) : Prop :=
  let '(c, a) := ca in
  (retval a < 0 -> errno a > 0) /\
  match c with
  | sys_write fd' d => fd' = fd /\ retval a <= Z.of_nat (length d)
  | sys_read fd' n =>
      fd' = fd /\ retval a <= n /\ (0 < retval a -> Z.of_nat (length (stored a)) = retval a)
  | _ => True
  end.

(** Each turn on its own. *)
Lemma write_turn_run fd size p n l r :
  runs_to (write_turn fd (size, p, n)) l r -> Forall (posix_answer fd) l ->
  0 <= size -> size = Z.of_nat (length p) -> 0 <= n -> n + size < 2 ^ 64 ->
  match r with
  | inl (size', p', n') =>
      size' = Z.of_nat (length p') /\ n' + size' = n + size /\ n <= n' /\ p = written l ++ p' /\
      n' - n = Z.of_nat (length (written l))
  | inr (v, n') => n' = n /\ written l = [] /\ (v = 0 <-> size = 0)
  end.
Proof.
  change (2 ^ 64) with 18446744073709551616. unfold write_turn. intros Hr Hl.
  intros. subst size. rewrite Nat2Z.id, firstn_all in Hr.
  run_cases; unfold written in *; simpl in *; rewrite ?app_nil_r; try lia.
  5: repeat split; lia.
  all: apply Forall_inv in Hl as (Herr & _ & Hle).
  - rewrite length_drop, length_take, take_drop. unfold w64. repeat split; try done; lia.
  - unfold EPROTO. replace (retval a0) with 0 by lia. repeat split; try done; lia.
  - rewrite (Z2Nat.nonpos (retval a0)) by lia. repeat split; try done; lia.
  - rewrite (Z2Nat.nonpos (retval a0)) by lia. repeat split; try done; simpl; lia.
Qed.

Lemma read_turn_run fd size p n l r :
  runs_to (read_turn fd (size, p, n)) l r -> Forall (posix_answer fd) l ->
  0 <= size -> 0 <= n -> n + size < 2 ^ 64 ->
  match r with
  | inl (size', p', n') =>
      0 <= size' /\ n' + size' = n + size /\ n <= n' /\ p' = p ++ received l /\
      n' - n = Z.of_nat (length (received l))
  | inr (v, p', n') => n' = n /\ p' = p /\ received l = [] /\ (v = 0 <-> size = 0)
  end.
Proof.
  change (2 ^ 64) with 18446744073709551616. unfold read_turn. intros Hr Hl. intros.
  run_cases; unfold received in *; simpl in *; rewrite ?app_nil_r; try lia.
  5: repeat split; lia.
  all: apply Forall_inv in Hl as (Herr & _ & Hle & Hst); try rewrite Heqb1; try rewrite Heqb0.
  all: unfold w64, EOF; rewrite ?app_nil_r; repeat split; try done; simpl; lia.
Qed.

Lemma write_turns_run fd st l r :
  iterates (fun b l r => runs_to (write_turn fd b) l r) st l r ->
  let '(size, p, n) := st in
  Forall (posix_answer fd) l -> size = Z.of_nat (length p) -> 0 <= n -> n + size < 2 ^ 64 ->
  let '(v, n') := r in
  written l = take (Z.to_nat (n' - n)) p /\ n <= n' <= n + size /\ (v = 0 <-> n' = n + size).
Proof.
  induction 1 as [[[size p] n] l [v n'] Hr|[[size p] n] [[size' p'] n'] l1 l2 [v nf] Hr Hi IH];
    intros Hl Hsize Hn Hlt.
  - pose proof (write_turn_run _ _ _ _ _ _ Hr Hl ltac:(lia) Hsize Hn Hlt) as (-> & -> & Hv).
    rewrite Z.sub_diag. repeat split; try done; lia.
  - apply Forall_app in Hl as [Hl1 Hl2].
    pose proof (write_turn_run _ _ _ _ _ _ Hr Hl1 ltac:(lia) Hsize Hn Hlt)
      as (Hs' & Hsum & Hle & Hp & Hlen).
    destruct (IH Hl2 Hs' ltac:(lia) ltac:(lia)) as (Hw & Hb & Hv).
    split; [|split; [lia|rewrite Hv; lia]].
    unfold written in *. rewrite map_app, concat_app. fold (written l1) in *.
    rewrite Hp, Hw. rewrite take_app_ge by (unfold written in *; lia). f_equal. f_equal.
    unfold written in *. lia.
Qed.

Lemma read_turns_run fd st l r :
  iterates (fun b l r => runs_to (read_turn fd b) l r) st l r ->
  let '(size, p, n) := st in
  Forall (posix_answer fd) l -> 0 <= size -> 0 <= n -> n + size < 2 ^ 64 ->
  let '(v, p', n') := r in
  p' = p ++ received l /\ n' - n = Z.of_nat (length (received l)) /\ n' <= n + size /\
  (v = 0 <-> n' = n + size).
Proof.
  induction 1 as [[[size p] n] l [[v p'] n'] Hr|[[size p] n] [[size' p'] n'] l1 l2 [[v pf] nf] Hr Hi IH];
    intros Hl Hsize Hn Hlt.
  - pose proof (read_turn_run _ _ _ _ _ _ Hr Hl Hsize Hn Hlt) as (-> & -> & Hrec & Hv).
    rewrite Hrec, app_nil_r. simpl. repeat split; try done; lia.
  - apply Forall_app in Hl as [Hl1 Hl2].
    pose proof (read_turn_run _ _ _ _ _ _ Hr Hl1 Hsize Hn Hlt) as (Hs' & Hsum & Hle & Hp & Hlen).
    destruct (IH Hl2 Hs' ltac:(lia) ltac:(lia)) as (Hw & Hb & Hle' & Hv).
    assert (received (l1 ++ l2) = received l1 ++ received l2) as ->
      by (unfold received; by rewrite map_app, concat_app).
    rewrite length_app, Hw, Hp, <- app_assoc. split; [done|]. split; [lia|]. split; [lia|].
    rewrite Hv. lia.
Qed.

(** C40 transfer_in_full: whatever parts the kernel transfers and however often it
    interrupts, when [write_fully] returns the bytes it counts have been
    written, in order, and it returns 0 exactly when that is all of them; when
    [read_fully] returns it has stored, in order, the bytes it counts, and it
    returns 0 exactly when they are as many as asked for. *)
Theorem transfer_in_full fd :
  (forall p size l v n,
     runs_to (write_fully fd p size) l (v, n) -> Forall (posix_answer fd) l ->
     size = Z.of_nat (length p) -> size < 2 ^ 64 ->
     written l = take (Z.to_nat n) p /\ 0 <= n <= size /\ (v = 0 <-> n = size)) /\
  (forall size l v p n,
     runs_to (read_fully fd size) l (v, p, n) -> Forall (posix_answer fd) l ->
     0 <= size < 2 ^ 64 ->
     p = received l /\ n = Z.of_nat (length p) /\ n <= size /\ (v = 0 <-> n = size)).
Proof.
  split.
  - intros p size l v n (r & l1 & l2 & -> & Hi & [-> <-]) Hl Hs Hlt. rewrite app_nil_r in *.
    destruct (write_turns_run _ _ _ _ Hi Hl Hs ltac:(lia) ltac:(lia)) as (Hw & Hb & Hv).
    rewrite Z.sub_0_r in Hw. repeat split; try done; try lia.
  - intros size l v p n (r & l1 & l2 & -> & Hi & [-> <-]) Hl Hs. rewrite app_nil_r in *.
    destruct (read_turns_run _ _ _ _ Hi Hl ltac:(lia) ltac:(lia) ltac:(lia)) as (Hp & Hn & Hb & Hv).
    simpl in Hp. subst p. repeat split; try done; lia.
Qed.

Lemma transfer_in_full_witness :
  written [(sys_write 4 [0; 7], MkAnswer (-1) EINTR []); (sys_write 4 [0; 7], MkAnswer 1 0 []);
           (sys_write 4 [7], MkAnswer 1 0 [])] = [0; 7].
Proof.
  edestruct (proj1 (transfer_in_full 4) [0; 7] 2
    [(sys_write 4 [0; 7], MkAnswer (-1) EINTR []); (sys_write 4 [0; 7], MkAnswer 1 0 []);
     (sys_write 4 [7], MkAnswer 1 0 [])] 0 2) as (Hw & _ & _).
  - exists (0, 2), [(sys_write 4 [0; 7], MkAnswer (-1) EINTR []);
      (sys_write 4 [0; 7], MkAnswer 1 0 []); (sys_write 4 [7], MkAnswer 1 0 [])], [].
    split; [reflexivity|]. split; [|split; reflexivity].
    apply (iterates_next _ _ (2, [0; 7], 0) [(sys_write 4 [0; 7], MkAnswer (-1) EINTR [])]);
      [repeat split|].
    apply (iterates_next _ _ (1, [7], 1) [(sys_write 4 [0; 7], MkAnswer 1 0 [])]); [repeat split|].
    apply (iterates_next _ _ (0, [], 2) [(sys_write 4 [7], MkAnswer 1 0 [])] []); [repeat split|].
    apply iterates_done. repeat split.
  - repeat constructor; simpl; unfold EINTR; lia.
  - reflexivity.
  - lia.
  - exact Hw.
Defined.

(** *** The standard descriptors *)

Lemma replace_fds_calls n fd save l u :
  runs_to (replace_fds n fd save) l u ->
  map fst l = concat (imap (fun i (s : bool) => if s then [] else [sys_dup2 n (fd + Z.of_nat i)]) save).
Proof.
  revert fd l u. induction save as [|b save IH]; intros fd l u Hr; [by destruct Hr as [-> _]|].
  cbn [replace_fds] in Hr. apply runs_bind in Hr as (v & l1 & l2 & -> & H1 & H2).
  apply IH in H2. rewrite map_app, H2. cbn [imap concat]. f_equal.
  - destruct b; simpl in H1; [by destruct H1 as [-> _]|].
    destruct l1 as [|[c a] l1]; [done|]. destruct H1 as [-> [-> _]]. simpl. by rewrite Z.add_0_r.
  - f_equal. apply imap_ext. intros i s _. simpl. destruct s; [done|]. do 2 f_equal. lia.
Qed.

Lemma get_null_fd_calls g l n g' :
  runs_to (get_null_fd g) l (n, g') ->
  n = null_fd g' /\ infrap4d_save_fds g' = infrap4d_save_fds g /\
  map fst l = (if null_fd g =? 0 then [sys_open "/dev/null"] else []) /\
  (null_fd g <> 0 -> g' = g).
Proof.
  unfold get_null_fd. intros Hr. destruct (null_fd g =? 0) eqn:Hz.
  - apply runs_bind in Hr as (a & l1 & l2 & -> & H1 & H2). cbv zeta in H2.
    destruct l1 as [|[c a'] l1]; [done|]. destruct H1 as [-> [-> ->]].
    destruct H2 as [-> Heq]. injection Heq as -> ->. split; [done|].
    split; [by case_match|]. split; [done|]. lia.
  - destruct Hr as [-> Heq]. injection Heq as -> ->. done.
Qed.

(** close_standard_fds: [daemon_close_standard_fds] opens /dev/null at most
    once, then replaces exactly those of the three standard descriptors that
    were not saved, in order; when /dev/null could not be opened it leaves them
    all, and does not try again later. *)
Theorem close_standard_fds g l g' :
  runs_to (daemon_close_standard_fds g) l g' ->
  map fst l =
    (if null_fd g =? 0 then [sys_open "/dev/null"] else []) ++
    (if null_fd g' >=? 0 then
       concat (imap (fun i (s : bool) => if s then [] else [sys_dup2 (null_fd g') (Z.of_nat i)])
         (infrap4d_save_fds g))
     else []) /\
  (null_fd g' < 0 -> forall l2 g2, runs_to (daemon_close_standard_fds g') l2 g2 -> l2 = []).
Proof.
  intros Hr. unfold daemon_close_standard_fds in Hr.
  apply runs_bind in Hr as ([n g1] & l1 & l2 & -> & H1 & H2).
  apply get_null_fd_calls in H1 as (-> & Hsave & Hl & Hg).
  apply runs_bind in H2 as (u & l3 & l4 & -> & H3 & [-> ->]). rewrite app_nil_r. split.
  - rewrite map_app, Hl. f_equal. rewrite <- Hsave. destruct (null_fd g1 >=? 0).
    + apply replace_fds_calls in H3. rewrite H3. f_equal.
    + by destruct H3 as [-> _].
  - intros Hneg l2 g2 Hr. unfold daemon_close_standard_fds in Hr.
    apply runs_bind in Hr as ([n g3] & l5 & l6 & -> & H5 & H6).
    apply get_null_fd_calls in H5 as (-> & _ & Hl5 & Hg3).
    assert ((null_fd g1 =? 0) = false) as Hz by lia. rewrite Hz in Hl5.
    specialize (Hg3 ltac:(lia)). subst g3. assert ((null_fd g1 >=? 0) = false) as Hge by lia.
    rewrite Hge in H6. apply runs_bind in H6 as (u' & l7 & l8 & -> & [-> _] & [-> _]).
    rewrite app_nil_r. by apply map_eq_nil in Hl5.
Qed.

(** The daemon keeps its standard output. *)
Lemma close_standard_fds_witness :
  map fst [(sys_open "/dev/null", MkAnswer 3 0 []); (sys_dup2 3 0, MkAnswer 0 0 []);
           (sys_dup2 3 2, MkAnswer 2 0 [])] =
  [sys_open "/dev/null"; sys_dup2 3 0; sys_dup2 3 2].
Proof.
  destruct (close_standard_fds (set_save_fds [false; true; false] initial_globals)
    [(sys_open "/dev/null", MkAnswer 3 0 []); (sys_dup2 3 0, MkAnswer 0 0 []);
     (sys_dup2 3 2, MkAnswer 2 0 [])]
    (set_null_fd 3 (set_save_fds [false; true; false] initial_globals))) as [Hm _].
  - repeat split.
  - exact Hm.
Defined.

(** *** Completing twice *)

Lemma daemonize_complete_done g :
  infrap4d_detached g = true -> infrap4d_pidfile g = None -> daemonize_complete g = CRet g.
Proof. intros Hd Hp. unfold daemonize_complete. rewrite Hp. simpl. by rewrite Hd. Qed.

Lemma daemonize_complete_sets g l g' :
  runs_to (daemonize_complete g) l g' -> infrap4d_detached g' = true /\ infrap4d_pidfile g' = None.
Proof.
  intros Hr. unfold daemonize_complete in Hr.
  apply runs_bind in Hr as (g1 & l1 & l2 & -> & H1 & H2).
  assert (infrap4d_pidfile g1 = None) as Hp.
  { destruct (infrap4d_pidfile g) eqn:Hpid.
    - apply runs_bind in H1 as (u & l3 & l4 & -> & _ & [-> ->]). done.
    - by destruct H1 as [-> ->]. }
  destruct (infrap4d_detached g1) eqn:Hd; simpl in H2; [by destruct H2 as [-> ->]|].
  apply runs_bind in H2 as (u & l3 & l4 & -> & _ & H2). unfold daemonize_post_detach in H2.
  destruct (infrap4d_detach _); [|by destruct H2 as [-> ->]].
  unfold daemon_close_standard_fds in H2.
  apply runs_bind in H2 as ([n g2] & l5 & l6 & -> & H5 & H6).
  apply runs_bind in H6 as (u' & l7 & l8 & -> & _ & [-> ->]).
  unfold get_null_fd in H5. destruct (null_fd _ =? 0).
  - apply runs_bind in H5 as (a & l9 & l10 & -> & _ & [-> Heq]). injection Heq as -> ->.
    match goal with |- context [if ?b then _ else _] => destruct b end; done.
  - destruct H5 as [-> Heq]. by injection Heq as -> ->.
Qed.

(** daemonize_complete_once: "calling this function more than once has no
    additional effect": whatever happened in the first call, a second one makes
    no call and changes nothing. *)
Theorem daemonize_complete_once g l g' :
  runs_to (daemonize_complete g) l g' ->
  forall l2 g2, runs_to (daemonize_complete g') l2 g2 <-> l2 = [] /\ g2 = g'.
Proof.
  intros [Hd Hp]%daemonize_complete_sets l2 g2. by rewrite daemonize_complete_done.
Qed.

Lemma daemonize_complete_once_witness :
  runs_to (daemonize_complete
             (set_detached true (set_null_fd (-13) (set_pidfile None initial_globals)))) []
    (set_detached true (set_null_fd (-13) initial_globals)).
Proof.
  apply (daemonize_complete_once (set_pidfile (Some 7) initial_globals)
    [(sys_free 7, MkAnswer 0 0 []); (sys_open "/dev/null", MkAnswer (-1) 13 [])]
    (set_detached true (set_null_fd (-13) initial_globals))); [|split; reflexivity].
  repeat split.
Defined.

(** ** infrap4d on the kernel

    The points at which the two processes can be: what is left of a process is
    the program after the answers it got (the unfolding of a loop counts as
    one). *)

Fixpoint after {A} (p : cprog A) (l : list answer) : cprog A :=
  match l with
  | [] => p
  | a :: l =>
      after (match p with
             | CRet x => CRet x
             | CCall _ k => k a
             | CLoop body b k => unfold_loop body b k
             end) l
  end.

Inductive parent_point :=
| PStart (n : nat)     (* the calls up to the fork *)
| PClose | PReadLoop | PRead | PGot | PExit | PEof | PWait | PWaited (sig : Z) | PFailed.

Inductive child_point :=
| CClose | CSetsid | CWriteLoop | CWrite | CWritten | COpen | CDup (n : nat).

Definition ok0 : answer := ret_ok 0.

Definition parent_answers (pt : parent_point) : list answer :=
  let to_fork := [ok0; ok0; MkAnswer 0 0 [3; 4]] in
  match pt with
  | PStart n => take n to_fork
  | PClose => to_fork ++ [ret_ok child]
  | PReadLoop => to_fork ++ [ret_ok child; ok0]
  | PRead => to_fork ++ [ret_ok child; ok0; ok0]
  | PGot => to_fork ++ [ret_ok child; ok0; ok0; MkAnswer 1 0 [0]]
  | PExit => to_fork ++ [ret_ok child; ok0; ok0; MkAnswer 1 0 [0]; ok0]
  | PEof => to_fork ++ [ret_ok child; ok0; ok0; ok0]
  | PWait => to_fork ++ [ret_ok child; ok0; ok0; ok0; ok0]
  | PWaited sig => to_fork ++ [ret_ok child; ok0; ok0; ok0; ok0; MkAnswer child 0 [sig]]
  | PFailed => to_fork ++ [ret_ok child; ok0; ok0; ok0; ok0; MkAnswer child 0 [9]; ok0]
  end.

Definition child_answers (pt : child_point) : list answer :=
  let forked := [ok0; ok0; MkAnswer 0 0 [3; 4]; ok0] in
  match pt with
  | CClose => forked
  | CSetsid => forked ++ [ok0]
  | CWriteLoop => forked ++ [ok0; ok0]
  | CWrite => forked ++ [ok0; ok0; ok0]
  | CWritten => forked ++ [ok0; ok0; ok0; ret_ok 1]
  | COpen => forked ++ [ok0; ok0; ok0; ret_ok 1; ok0]
  | CDup n => forked ++ [ok0; ok0; ok0; ret_ok 1; ok0; ret_ok 3] ++ replicate n ok0
  end.

Abbreviation fd_table := (gmap Z file).

Definition streams : fd_table := {[0 := FStream 0; 1 := FStream 1; 2 := FStream 2]}.
Definition both_ends : fd_table := <[4 := FPipeW 0]> (<[3 := FPipeR 0]> streams).

Definition parent_fds (pt : parent_point) : fd_table :=
  match pt with
  | PStart n => if decide (n < 3)%nat then streams else both_ends
  | PClose => both_ends
  | _ => <[3 := FPipeR 0]> streams
  end.

(** The descriptors of the daemon. *)
Definition daemon_fds : fd_table :=
  {[0 := FNull; 1 := FNull; 2 := FNull; 3 := FNull; 4 := FPipeW 0]}.

Definition child_fds (pt : child_point) : fd_table :=
  match pt with
  | CClose => both_ends
  | CDup n =>
      list_to_map ((fun i => (Z.of_nat i, FNull)) <$> seq 0 n) ∪
      <[3 := FNull]> (<[4 := FPipeW 0]> streams)
  | _ => <[4 := FPipeW 0]> streams
  end.

(** Only functions of other projects are left to call. *)
Fixpoint only_external {A} (p : cprog A) : Prop :=
  match p with
  | CRet _ => True
  | CCall (call_external _) k => forall a, only_external (k a)
  | _ => False
  end.

Section OnKernel.
Context (FLAGS_disable_krnlmon : bool).

Definition daemon_prog : cprog Z := infrap4d_main true FLAGS_disable_krnlmon initial_globals.
Definition parent_prog (pt : parent_point) : cprog Z := after daemon_prog (parent_answers pt).
Definition child_prog (pt : child_point) : cprog Z := after daemon_prog (child_answers pt).

Definition notify : syscall := sys_write 4 [0].
Definition complaint : syscall := sys_printf "could not detach from foreground session ".

Definition next_call (p : cprog Z) : option syscall :=
  match p with CCall c _ => Some c | _ => None end.

(** The programs at the points: what they call next, and where they go. *)
Lemma points_calls :
  map (fun pt => next_call (parent_prog pt))
    [PStart 0; PStart 1; PStart 2; PStart 3; PClose; PReadLoop; PRead; PGot; PExit; PEof; PWait; PFailed] =
    [Some (call_external "gflags::SetUsageMessage");
     Some (call_external "stratum::hal::tdi::ParseCommandLine");
     Some sys_pipe; Some sys_fork; Some (sys_close 4); None; Some (sys_read 3 1); None;
     Some (sys_exit 0); None; Some (sys_waitpid child); Some (sys_exit 0)] /\
  map (fun pt => next_call (child_prog pt))
    [CClose; CSetsid; CWriteLoop; CWrite; CWritten; COpen; CDup 0; CDup 1; CDup 2] =
    [Some (sys_close 3); Some sys_setsid; None; Some notify; None; Some (sys_open "/dev/null");
     Some (sys_dup2 3 0); Some (sys_dup2 3 1); Some (sys_dup2 3 2)].
Proof. split; reflexivity. Qed.

Lemma daemon_rest : only_external (child_prog (CDup 3)).
Proof.
  unfold child_prog, daemon_prog. destruct FLAGS_disable_krnlmon; simpl; intros; by case_match.
Qed.

Definition valid_signal (sig : Z) : Prop := 1 <= sig <= 64.

Lemma signaled_not_exited sig :
  valid_signal sig -> WIFEXITED (signaled sig) && negb (WEXITSTATUS (signaled sig) =? 0) = false.
Proof.
  unfold valid_signal, WIFEXITED, signaled. intros Hs.
  replace (sig .& 127) with (sig mod 128) by (symmetry; apply (Z.land_ones sig 7); lia).
  rewrite (proj2 (Z.eqb_neq _ _)); [done|]. lia.
Qed.

Lemma waited_prog sig :
  valid_signal sig ->
  exists k, parent_prog (PWaited sig) = CCall complaint k /\ forall a, k a = parent_prog PFailed.
Proof.
  intros Hs. unfold parent_prog. cbn -[WIFEXITED WEXITSTATUS].
  change sig with (signaled sig). rewrite (signaled_not_exited sig Hs). by eexists.
Qed.

(** [p] is a loop whose next turn leads to [q]. *)
Definition turns_to (p q : cprog Z) : Prop :=
  exists (B R : Set) (body : B -> cprog (B + R)) b k, p = CLoop body b k /\ unfold_loop body b k = q.

Lemma turns_intro {B R : Set} (body : B -> cprog (B + R)) b k :
  turns_to (CLoop body b k) (unfold_loop body b k).
Proof. by exists B, R, body, b, k. Qed.

(** The programs at the points, one after the other. *)
Lemma parent_start n :
  (n < 2)%nat -> exists c, parent_prog (PStart n) =
    CCall (call_external c) (fun _ => parent_prog (PStart (S n))).
Proof. intros Hn. destruct n as [|[|n]]; [by eexists..|lia]. Qed.

Lemma parent_pipe :
  exists k, parent_prog (PStart 2) = CCall sys_pipe k /\
    k (MkAnswer 0 0 [3; 4]) = parent_prog (PStart 3).
Proof. by eexists. Qed.

Lemma parent_fork :
  exists k, parent_prog (PStart 3) = CCall sys_fork k /\
    k (ret_ok child) = parent_prog PClose /\ k (ret_ok 0) = child_prog CClose.
Proof. by eexists. Qed.

Lemma parent_close : parent_prog PClose = CCall (sys_close 4) (fun _ => parent_prog PReadLoop).
Proof. done. Qed.

Lemma parent_read_loop : turns_to (parent_prog PReadLoop) (parent_prog PRead).
Proof. apply turns_intro. Qed.

Lemma parent_read :
  exists k, parent_prog PRead = CCall (sys_read 3 1) k /\
    k (ret_err EINTR) = parent_prog PReadLoop /\ k (MkAnswer 1 0 [0]) = parent_prog PGot /\
    k (ret_ok 0) = parent_prog PEof.
Proof. by eexists. Qed.

Lemma parent_got_turn : turns_to (parent_prog PGot) (parent_prog PExit).
Proof. apply turns_intro. Qed.

Lemma parent_exit : exists k, parent_prog PExit = CCall (sys_exit 0) k.
Proof. by eexists. Qed.

Lemma parent_eof_turn : turns_to (parent_prog PEof) (parent_prog PWait).
Proof. apply turns_intro. Qed.

Lemma parent_wait :
  exists k, parent_prog PWait = CCall (sys_waitpid child) k /\
    k (ret_err EINTR) = parent_prog PEof /\
    forall sig, k (MkAnswer child 0 [sig]) = parent_prog (PWaited sig).
Proof. by eexists. Qed.

Lemma parent_failed_exit : exists k, parent_prog PFailed = CCall (sys_exit 0) k.
Proof. by eexists. Qed.

Lemma child_close : child_prog CClose = CCall (sys_close 3) (fun _ => child_prog CSetsid).
Proof. done. Qed.

Lemma child_setsid : child_prog CSetsid = CCall sys_setsid (fun _ => child_prog CWriteLoop).
Proof. done. Qed.

Lemma child_write_loop : turns_to (child_prog CWriteLoop) (child_prog CWrite).
Proof. apply turns_intro. Qed.

Lemma child_write :
  exists k, child_prog CWrite = CCall notify k /\
    k (ret_err EINTR) = child_prog CWriteLoop /\ k (ret_ok 1) = child_prog CWritten.
Proof. by eexists. Qed.

Lemma child_written_turn : turns_to (child_prog CWritten) (child_prog COpen).
Proof. apply turns_intro. Qed.

Lemma child_open :
  exists k, child_prog COpen = CCall (sys_open "/dev/null") k /\
    k (ret_ok 3) = child_prog (CDup 0).
Proof. by eexists. Qed.

Lemma child_dup n :
  (n < 3)%nat ->
  child_prog (CDup n) = CCall (sys_dup2 3 (Z.of_nat n)) (fun _ => child_prog (CDup (S n))).
Proof. intros Hn. destruct n as [|[|[|n]]]; [done..|lia]. Qed.

(** Up to its last [dup2] the child calls nothing of other projects. *)
Lemma child_not_external pt name :
  (forall n, pt = CDup n -> (n < 3)%nat) ->
  next_call (child_prog pt) <> Some (call_external name).
Proof.
  intros Hdup. destruct pt as [| | | | | |m];
    [rewrite child_close| rewrite child_setsid| | | | | rewrite (child_dup m (Hdup m eq_refl))];
    discriminate.
Qed.

(** *** The invariant *)

Definition child_leader (pt : child_point) : bool :=
  match pt with CClose | CSetsid => false | _ => true end.

(** The child has written to the pipe. *)
Definition child_notified (pt : child_point) : bool :=
  match pt with CWritten | COpen | CDup _ => true | _ => false end.

Definition parent_at (pt : parent_point) : pstate :=
  PRunning (MkProc (parent_prog pt) (parent_fds pt) false).

Definition child_at (pt : child_point) : pstate :=
  PRunning (MkProc (child_prog pt) (child_fds pt) (child_leader pt)).

(** How far the child is from notifying, and the parent from its end. *)
Definition child_rank (pt : child_point) : nat :=
  match pt with CClose => 4 | CSetsid => 3 | CWriteLoop => 2 | CWrite => 1 | _ => 0 end.

Definition parent_rank (pt : parent_point) : nat :=
  match pt with
  | PStart _ => 8 | PClose => 7 | PReadLoop => 6 | PRead => 5
  | PEof => 4 | PWait => 3 | PWaited _ | PGot => 2 | PExit | PFailed => 1
  end.

(** The child, whether it has notified its parent, and its rank. *)
Inductive child_ok : pstate -> bool -> nat -> Prop :=
| child_starts pt :
    (forall n, pt = CDup n -> (n < 3)%nat) ->
    child_ok (child_at pt) (child_notified pt) (child_rank pt)
| child_daemon q : only_external q -> child_ok (PRunning (MkProc q daemon_fds true)) true 0
| child_dead st n : (n = false -> valid_signal st) -> child_ok (PDead st) n 0.

(** The parent, beside the child in state [cs] that has notified it or not, what
    is in the pipe, and the calls made; and its rank. [killed] says that it may have been. *)
Inductive parent_ok (killed : bool) (cs : pstate) (tr : list (Z * syscall))
  : pstate -> bool -> bytes -> nat -> Prop :=
| parent_waits pt n :
    pt = PClose \/ pt = PReadLoop \/ pt = PRead ->
    parent_ok killed cs tr (parent_at pt) n (if n then [0] else []) (parent_rank pt)
| parent_got pt :
    pt = PGot \/ pt = PExit -> parent_ok killed cs tr (parent_at pt) true [] (parent_rank pt)
| parent_eof pt st :
    pt = PEof \/ pt = PWait \/ pt = PWaited st -> cs = PDead st -> valid_signal st ->
    parent_ok killed cs tr (parent_at pt) false [] (parent_rank pt)
| parent_complained st :
    cs = PDead st -> (parent, complaint) ∈ tr -> parent_ok killed cs tr (parent_at PFailed) false [] 1
| parent_done n buf :
    n = true \/ ((exists st, cs = PDead st /\ valid_signal st) /\ (parent, complaint) ∈ tr) ->
    parent_ok killed cs tr (PDead (exited 0)) n buf 0
| parent_killed sig n buf :
    killed = true -> parent_ok killed cs tr (PDead sig) n buf 0.

Record forked_inv (killed : bool) (k : kernel) (ps cs : pstate) (n : bool) (buf : bytes)
  (cr pr : nat) : Prop := {
  fi_parent : k_procs k !! parent = Some ps;
  fi_child : k_procs k !! child = Some cs;
  fi_others pid : pid <> parent -> pid <> child -> k_procs k !! pid = None;
  fi_pipes : k_pipes k = [buf];
  fi_child_ok : child_ok cs n cr;
  fi_parent_ok : parent_ok killed cs (k_trace k) ps n buf pr;
  fi_notified : n = true -> (child, notify) ∈ k_trace k;
}.

Inductive daemon_inv (killed : bool) (k : kernel) : Prop :=
| before_fork n :
    (n <= 3)%nat -> k_procs k = {[parent := parent_at (PStart n)]} ->
    k_pipes k = (if decide (n < 3)%nat then [] else [[]]) -> k_next_pid k = child ->
    daemon_inv killed k
| killed_before_fork sig :
    killed = true -> k_procs k = {[parent := PDead sig]} -> daemon_inv killed k
| after_fork ps cs n buf cr pr : forked_inv killed k ps cs n buf cr pr -> daemon_inv killed k.

(** No system call fails: a process runs, is interrupted, returns from an
    external function, or is killed by a signal. What happens when a call fails
    is shown below ([daemon_fork_fails], [daemon_pipe_fails],
    [daemon_open_fails], [daemon_notify_fails]). *)
Definition no_failing_call (ch : choice) : Prop :=
  match ch with
  | FailCall _ _ => False
  | Kill _ sig => valid_signal sig
  | _ => True
  end.

Definition kills_parent (ch : choice) : bool :=
  match ch with Kill pid _ => pid =? parent | _ => false end.

(** *** Open ends *)

Lemma is_open_true f k pid p fd :
  k_procs k !! pid = Some (PRunning p) -> p_fds p !! fd = Some f -> is_open f k = true.
Proof.
  intros Hp Hf. unfold is_open. apply negb_true_iff, bool_decide_eq_false. intros Hall.
  specialize (Hall pid _ Hp). simpl in Hall.
  apply negb_false_iff, bool_decide_eq_true in Hall. by apply (Hall fd f Hf).
Qed.

Lemma is_open_false f k pid p fd :
  is_open f k = false -> k_procs k !! pid = Some (PRunning p) -> p_fds p !! fd <> Some f.
Proof. intros Ho Hp Hf. by rewrite (is_open_true f k pid p fd) in Ho. Qed.

(** Nobody writes to the pipe any more when the child is dead and the parent
    has closed its end. *)
Lemma writer_gone killed k pt st n buf cr pr :
  forked_inv killed k (parent_at pt) (PDead st) n buf cr pr -> pt <> PClose -> (forall i, pt <> PStart i) ->
  is_open (FPipeW 0) k = false.
Proof.
  intros [Hps Hcs Hoth _ _ _ _] Hpt Hstart. unfold is_open.
  apply negb_false_iff, bool_decide_eq_true. intros pid s Hs.
  destruct (decide (pid = parent)) as [->|H1]; [|destruct (decide (pid = child)) as [->|H2]].
  - rewrite Hps in Hs. injection Hs as <-. simpl. apply negb_false_iff.
    by destruct pt; try (by vm_compute); try (destruct (Hstart n0)).
  - rewrite Hcs in Hs. by injection Hs as <-.
  - by rewrite Hoth in Hs.
Qed.

(** *** Preservation *)

Lemma parent_ok_more killed cs tr tr' ps n buf pr :
  tr ⊆ tr' -> parent_ok killed cs tr ps n buf pr -> parent_ok killed cs tr' ps n buf pr.
Proof.
  intros Htr Hok. destruct Hok as [| | | |n buf Hn|];
    [by constructor|by constructor|by eapply parent_eof|by eapply parent_complained; eauto| |
     by apply parent_killed].
  apply parent_done. destruct Hn as [->|[Hd Hc]]; [by left|]. right. split; [done|by apply Htr].
Qed.

(** While the child runs, the parent's part does not depend on it. *)
Lemma parent_ok_child killed p cs' tr ps n buf pr :
  parent_ok killed (PRunning p) tr ps n buf pr -> parent_ok killed cs' tr ps n buf pr.
Proof.
  intros Hok. inversion Hok as [| | | |? ? Hn|]; subst; try discriminate;
    [by constructor|by constructor| |by apply parent_killed].
  apply parent_done. destruct Hn as [->|[(st & Heq & _) _]]; [by left|done].
Qed.

Lemma parent_ok_notify killed p tr ps buf pr :
  parent_ok killed (PRunning p) tr ps false buf pr ->
  parent_ok killed (PRunning p) tr ps true (buf ++ [0]) pr.
Proof.
  intros Hok. inversion Hok as [| | | |? ? Hn|]; subst; try discriminate;
    [by apply (parent_waits _ _ _ _ true)| |by apply parent_killed].
  by destruct Hn as [?|[(st & Heq & _) _]].
Qed.

Lemma forked_parent killed k k' ps ps' cs n buf buf' tr cr pr pr' :
  forked_inv killed k ps cs n buf cr pr ->
  k_procs k' = <[parent := ps']> (k_procs k) -> k_pipes k' = [buf'] -> k_trace k' = k_trace k ++ tr ->
  parent_ok killed cs (k_trace k') ps' n buf' pr' -> forked_inv killed k' ps' cs n buf' cr pr'.
Proof.
  intros [Hps Hcs Hoth Hpi Hcok Hpok Hn] Hprocs Hpipes Htr Hok.
  constructor; rewrite ?Hprocs; try done.
  - by rewrite lookup_insert_eq.
  - by rewrite lookup_insert_ne.
  - intros pid H1 H2. rewrite lookup_insert_ne by done. by apply Hoth.
  - intros Hnt. rewrite Htr. apply elem_of_app. left. by apply Hn.
Qed.

Lemma forked_child killed k k' ps cs cs' n n' buf buf' tr cr cr' pr :
  forked_inv killed k ps cs n buf cr pr ->
  k_procs k' = <[child := cs']> (k_procs k) -> k_pipes k' = [buf'] -> k_trace k' = k_trace k ++ tr ->
  child_ok cs' n' cr' -> parent_ok killed cs' (k_trace k) ps n' buf' pr ->
  (n' = true -> n = true \/ (child, notify) ∈ tr) -> forked_inv killed k' ps cs' n' buf' cr' pr.
Proof.
  intros [Hps Hcs Hoth Hpi Hcok Hpok Hn] Hprocs Hpipes Htr Hcok' Hok Hn'.
  constructor; rewrite ?Hprocs; try done.
  - by rewrite lookup_insert_ne.
  - by rewrite lookup_insert_eq.
  - intros pid H1 H2. rewrite lookup_insert_ne by done. by apply Hoth.
  - rewrite Htr. eapply parent_ok_more, Hok. intros x Hx. apply elem_of_app. by left.
  - intros Hnt. rewrite Htr. apply elem_of_app. destruct (Hn' Hnt) as [H1|H1]; [left|by right].
    by apply Hn.
Qed.

(** What the kernel does with a process in a given position. *)
Lemma go_call pid k p c cont :
  k_procs k !! pid = Some (PRunning p) -> p_prog p = CCall c cont ->
  sys_step (Go pid) k = perform pid c cont p k.
Proof. intros Hp Hc. unfold sys_step. by rewrite Hp, Hc. Qed.

Lemma go_turn pid k p q :
  k_procs k !! pid = Some (PRunning p) -> turns_to (p_prog p) q ->
  sys_step (Go pid) k = set_proc pid (PRunning (MkProc q (p_fds p) (p_leader p))) k.
Proof.
  intros Hp (B & R & body & b & cont & Hl & <-). unfold sys_step. by rewrite Hp, Hl.
Qed.

Lemma go_dead pid k st : k_procs k !! pid = Some (PDead st) -> sys_step (Go pid) k = k.
Proof. intros Hp. unfold sys_step. by rewrite Hp. Qed.

(** The child, or the parent, runs, and comes nearer its goal: the parent if it
    need not wait for the child any more. *)
Definition child_advances (killed : bool) (k : kernel) (ps : pstate) (cr pr : nat) : Prop :=
  exists cs' n' buf' cr',
    forked_inv killed (sys_step (Go child) k) ps cs' n' buf' cr' pr /\ (cr' <= pred cr)%nat.

Definition parent_advances (killed : bool) (k : kernel) (cs : pstate) (n : bool) (cr pr : nat)
  : Prop :=
  exists ps' buf' pr',
    forked_inv killed (sys_step (Go parent) k) ps' cs n buf' cr pr' /\
    (n = true \/ (exists st, cs = PDead st) -> (pr' <= pred pr)%nat).

(** A step of the child that calls nothing of the pipe. *)
Lemma child_moves killed k ps pt pt' n buf c cont fds' leader' a cr pr :
  forked_inv killed k ps (child_at pt) n buf cr pr -> cr = child_rank pt -> n = child_notified pt ->
  child_prog pt = CCall c cont -> cont a = child_prog pt' ->
  sys_outcome c (MkProc (child_prog pt) (child_fds pt) (child_leader pt)) k =
    Returns a fds' leader' (k_pipes k) ->
  child_notified pt' = child_notified pt ->
  (forall n, pt' = CDup n -> (n < 3)%nat) ->
  fds' = child_fds pt' -> leader' = child_leader pt' ->
  (child_rank pt' <= pred (child_rank pt))%nat ->
  child_advances killed k ps cr pr.
Proof.
  intros Hi -> Hn Hc Hk Ho Hn' Hdup -> -> Hr. pose proof Hi as [Hps Hcs Hoth Hpi Hcok Hpok Hnt].
  unfold child_advances. rewrite (go_call child k _ c cont Hcs) by done. unfold perform. rewrite Ho.
  unfold returns. exists (child_at pt'), (child_notified pt'), buf, (child_rank pt'). split; [|done].
  eapply (forked_child killed k _ ps _ (child_at pt') n _ buf buf [(child, c)] _ _ _ Hi).
  - by rewrite Hk.
  - simpl. by rewrite Hpi.
  - done.
  - by apply child_starts.
  - rewrite Hn', <- Hn. by eapply parent_ok_child.
  - rewrite Hn', <- Hn. by left.
Qed.

Lemma child_turn killed k ps pt pt' n buf cr pr :
  forked_inv killed k ps (child_at pt) n buf cr pr -> cr = child_rank pt -> n = child_notified pt ->
  turns_to (child_prog pt) (child_prog pt') -> child_notified pt' = child_notified pt ->
  child_fds pt' = child_fds pt -> child_leader pt' = child_leader pt ->
  (forall n, pt' = CDup n -> (n < 3)%nat) -> (child_rank pt' <= pred (child_rank pt))%nat ->
  child_advances killed k ps cr pr.
Proof.
  intros Hi -> Hn Ht Hn' Hfds Hld Hdup Hr. pose proof Hi as [Hps Hcs Hoth Hpi Hcok Hpok Hnt].
  unfold child_advances. rewrite (go_turn child k _ _ Hcs Ht). simpl. rewrite <- Hfds, <- Hld.
  exists (child_at pt'), n, buf, (child_rank pt'). split; [|done].
  eapply (forked_child killed k _ ps _ (child_at pt') n n buf buf [] _ _ _ Hi).
  - done.
  - done.
  - by rewrite app_nil_r.
  - rewrite Hn, <- Hn'. by apply child_starts.
  - by eapply parent_ok_child.
  - by left.
Qed.

Lemma notify_outcome k :
  sys_outcome notify (MkProc (child_prog CWrite) (child_fds CWrite) (child_leader CWrite)) k =
  if is_open (FPipeR 0) k then
    Returns (ret_ok 1) (child_fds CWrite) true
      (<[0%nat := default [] (k_pipes k !! 0%nat) ++ [0]]> (k_pipes k))
  else Dies (signaled SIGPIPE).
Proof. done. Qed.

(** The write to the pipe; SIGPIPE when the parent is gone. *)
Lemma child_notify_go killed k ps buf pr :
  forked_inv killed k ps (child_at CWrite) false buf (child_rank CWrite) pr ->
  child_advances killed k ps (child_rank CWrite) pr.
Proof.
  intros Hi. pose proof Hi as [Hps Hcs Hoth Hpi Hcok Hpok Hnt].
  destruct child_write as (cont & Hc & _ & Hret).
  unfold child_advances. rewrite (go_call child k _ notify cont Hcs Hc). unfold perform.
  rewrite notify_outcome. destruct (is_open (FPipeR 0) k).
  - exists (child_at CWritten), true, (buf ++ [0]), 0%nat. split; [|simpl; lia].
    eapply (forked_child killed k _ ps _ _ false true buf _ [(child, notify)] _ _ _ Hi); try done.
    + unfold returns. by rewrite Hret.
    + simpl. by rewrite Hpi.
    + by apply (child_starts CWritten).
    + eapply parent_ok_child. by apply parent_ok_notify.
    + intros _. right. by apply list_elem_of_singleton.
  - exists (PDead (signaled SIGPIPE)), false, buf, 0%nat. split; [|simpl; lia].
    eapply (forked_child killed k _ ps _ _ false false buf buf [(child, notify)] _ _ _ Hi); try done.
    + apply child_dead. intros _. unfold valid_signal, signaled, SIGPIPE. lia.
    + by eapply parent_ok_child.
Qed.

(** A [dup2]; the last makes it the daemon. *)
Lemma child_dup_go killed k ps m buf pr :
  (m < 3)%nat -> forked_inv killed k ps (child_at (CDup m)) true buf (child_rank (CDup m)) pr ->
  child_advances killed k ps (child_rank (CDup m)) pr.
Proof.
  intros Hdup Hi. pose proof Hi as [Hps Hcs Hoth Hpi Hcok Hpok Hnt].
  destruct (decide (m = 2)%nat) as [->|Hm].
  - pose proof (child_dup 2 ltac:(lia)) as Hc.
    unfold child_advances. rewrite (go_call child k _ _ _ Hcs Hc). unfold perform.
    exists (PRunning (MkProc (child_prog (CDup 3)) daemon_fds true)), true, buf, 0%nat.
    split; [|simpl; lia].
    eapply (forked_child killed k _ ps _ _ true true buf buf [(child, sys_dup2 3 2)] _ _ _ Hi);
      try done.
    + apply child_daemon, daemon_rest.
    + by eapply parent_ok_child.
    + by left.
  - eapply (child_moves _ _ _ (CDup m) (CDup (S m)));
      [exact Hi|done|done|by apply child_dup|done|destruct m as [|[|m]]; [reflexivity..|lia]|done
      |intros i [= <-]; lia|destruct m as [|[|m]]; [by vm_compute..|lia]|done|done].
Qed.

(** The daemon. *)
Lemma child_daemon_go killed k ps q buf pr :
  only_external q ->
  forked_inv killed k ps (PRunning (MkProc q daemon_fds true)) true buf 0 pr ->
  child_advances killed k ps 0 pr.
Proof.
  intros Hq Hi. pose proof Hi as [Hps Hcs Hoth Hpi Hcok Hpok Hnt].
  destruct q as [code|c cont|]; [| |done].
  - unfold child_advances, sys_step. rewrite Hcs. simpl.
    exists (PDead (exited code)), true, buf, 0%nat. split; [|done].
    eapply (forked_child killed k _ ps _ _ true true buf buf [(child, sys_exit code)] _ _ _ Hi);
      try done.
    + by apply child_dead.
    + by eapply parent_ok_child.
    + by left.
  - destruct c; try done. unfold child_advances. rewrite (go_call child k _ _ _ Hcs) by done. simpl.
    by do 4 eexists.
Qed.

Lemma child_go killed k ps cs n buf cr pr :
  forked_inv killed k ps cs n buf cr pr -> child_advances killed k ps cr pr.
Proof.
  intros Hi. pose proof Hi as [Hps Hcs Hoth Hpi Hcok Hpok Hnt].
  inversion Hcok as [pt Hdup|q Hq|st n' Hst]; subst.
  - destruct pt as [| | | | | |m].
    + eapply (child_moves _ _ _ CClose CSetsid); try done; simpl; lia.
    + eapply (child_moves _ _ _ CSetsid CWriteLoop); try done; simpl; lia.
    + eapply (child_turn _ _ _ CWriteLoop CWrite); try done; first [apply child_write_loop|simpl; lia].
    + by eapply child_notify_go.
    + eapply (child_turn _ _ _ CWritten COpen); try done; apply child_written_turn.
    + destruct child_open as (cont & Hc & Hret).
      eapply (child_moves _ _ _ COpen (CDup 0));
        [exact Hi|done|done|exact Hc|exact Hret|reflexivity|done|intros m [= <-]; lia|by vm_compute
        |done|done].
    + eapply child_dup_go; [by apply Hdup|exact Hi].
  - by eapply child_daemon_go.
  - unfold child_advances. rewrite (go_dead child k st Hcs). by do 4 eexists.
Qed.

(** A turn of one of the parent's loops. *)
Lemma parent_turn killed k cs pt pt' n buf cr pr :
  forked_inv killed k (parent_at pt) cs n buf cr pr -> turns_to (parent_prog pt) (parent_prog pt') ->
  parent_fds pt' = parent_fds pt ->
  parent_ok killed cs (k_trace k) (parent_at pt') n buf (parent_rank pt') ->
  (parent_rank pt' <= pred pr)%nat -> parent_advances killed k cs n cr pr.
Proof.
  intros Hi Ht Hfds Hok Hr. pose proof Hi as [Hps Hcs Hoth Hpi Hcok Hpok Hnt].
  unfold parent_advances. rewrite (go_turn parent k _ _ Hps Ht). simpl. rewrite <- Hfds.
  exists (parent_at pt'), buf, (parent_rank pt'). split; [|done].
  eapply (forked_parent killed k _ _ (parent_at pt') cs n buf buf [] _ _ _ Hi); try done.
  by rewrite app_nil_r.
Qed.

Lemma parent_moves killed k cs pt s' n buf buf' c cont a fds' pipes' cr pr pr' :
  forked_inv killed k (parent_at pt) cs n buf cr pr ->
  parent_prog pt = CCall c cont ->
  sys_outcome c (MkProc (parent_prog pt) (parent_fds pt) false) k = Returns a fds' false pipes' ->
  s' = PRunning (MkProc (cont a) fds' false) -> pipes' = [buf'] ->
  (forall tr, k_trace k ++ [(parent, c)] = tr -> parent_ok killed cs tr s' n buf' pr') ->
  (pr' <= pred pr)%nat -> parent_advances killed k cs n cr pr.
Proof.
  intros Hi Hc Ho -> -> Hok Hr. pose proof Hi as [Hps Hcs Hoth Hpi Hcok Hpok Hnt].
  unfold parent_advances. rewrite (go_call parent k _ c cont Hps Hc). unfold perform. rewrite Ho.
  unfold returns. do 3 eexists. split; [|intros _; exact Hr].
  eapply (forked_parent killed k _ _ _ cs n buf buf' [(parent, c)] _ _ _ Hi); try done.
  by apply Hok.
Qed.

Lemma parent_exits killed k cs pt n buf cont cr pr :
  forked_inv killed k (parent_at pt) cs n buf cr pr -> parent_prog pt = CCall (sys_exit 0) cont ->
  n = true \/ ((exists st, cs = PDead st /\ valid_signal st) /\ (parent, complaint) ∈ k_trace k) ->
  parent_advances killed k cs n cr pr.
Proof.
  intros Hi Hc Hn. pose proof Hi as [Hps Hcs Hoth Hpi Hcok Hpok Hnt].
  unfold parent_advances. rewrite (go_call parent k _ _ cont Hps Hc). unfold perform; simpl.
  exists (PDead (exited 0)), buf, 0%nat. split; [|intros _; lia]. unfold dies.
  eapply (forked_parent killed k _ _ _ cs n buf buf [(parent, sys_exit 0)] _ _ _ Hi); try done.
  apply parent_done. destruct Hn as [->|[Hd Hcomp]]; [by left|]. right. split; [done|].
  apply elem_of_app. by left.
Qed.

Lemma parent_read_outcome k :
  sys_outcome (sys_read 3 1) (MkProc (parent_prog PRead) (parent_fds PRead) false) k =
  match default [] (k_pipes k !! 0%nat) with
  | [] => if is_open (FPipeW 0) k then Blocks
          else Returns (ret_ok 0) (parent_fds PRead) false (k_pipes k)
  | data => Returns (MkAnswer (Z.of_nat (length (take 1 data))) 0 (take 1 data))
              (parent_fds PRead) false (<[0%nat := drop 1 data]> (k_pipes k))
  end.
Proof. done. Qed.

(** The read: the byte of the child, the end of the pipe, or neither yet. *)
Lemma parent_read_go killed k cs n cr :
  forked_inv killed k (parent_at PRead) cs n (if n then [0] else []) cr (parent_rank PRead) ->
  parent_advances killed k cs n cr (parent_rank PRead).
Proof.
  intros Hi. pose proof Hi as [Hps Hcs Hoth Hpi Hcok Hpok Hnt].
  destruct parent_read as (cont & Hc & _ & Hgot & Heof). pose proof (parent_read_outcome k) as Ho.
  rewrite Hpi in Ho. cbn [lookup list_lookup default from_option] in Ho. destruct n.
  { eapply (parent_moves _ _ _ PRead (parent_at PGot));
      [exact Hi|exact Hc|exact Ho| |reflexivity| |].
    - unfold parent_at. by rewrite <- Hgot.
    - intros tr _. apply parent_got. auto.
    - simpl. lia. }
  destruct (is_open (FPipeW 0) k) eqn:Hw.
  - unfold parent_advances.
    rewrite (go_call parent k _ _ cont Hps Hc). unfold perform. cbn [p_prog p_fds p_leader].
    rewrite Ho. exists (parent_at PRead), [], 5%nat. split; [exact Hi|].
    intros [?|[st ->]]; [done|]. by rewrite (writer_gone _ _ _ _ _ _ _ _ Hi) in Hw.
  - eapply (parent_moves _ _ _ PRead (parent_at PEof));
      [exact Hi|exact Hc|exact Ho| |reflexivity| |].
    { unfold parent_at. by rewrite <- Heof. }
    2: { instantiate (1 := 4%nat). simpl. lia. }
    intros tr _. inversion Hcok as [pt Hdup|q Hq|st n' Hst]; subst.
    + exfalso. eapply (is_open_false _ _ child _ 4 Hw Hcs). simpl.
      by destruct pt; try discriminate; vm_compute.
    + eapply (parent_eof _ _ _ PEof); [by left|done|by apply Hst].
Qed.

(** After the end of the pipe: the child is waited for, and it is dead. *)
Lemma parent_eof_go killed k pt st cr :
  pt = PEof \/ pt = PWait \/ pt = PWaited st -> valid_signal st ->
  forked_inv killed k (parent_at pt) (PDead st) false [] cr (parent_rank pt) ->
  parent_advances killed k (PDead st) false cr (parent_rank pt).
Proof.
  intros Hpt Hsig Hi. pose proof Hi as [Hps Hcs Hoth Hpi Hcok Hpok Hnt].
  destruct Hpt as [->|[->| ->]].
  - eapply parent_turn; [exact Hi|apply parent_eof_turn|done| |simpl; lia].
    eapply (parent_eof _ _ _ PWait); eauto.
  - destruct parent_wait as (cont & Hc & _ & Hret).
    eapply (parent_moves _ _ _ PWait (parent_at (PWaited st)) _ _ []); [exact Hi|exact Hc
      | | |exact Hpi| |].
    + simpl. rewrite Hcs. reflexivity.
    + by rewrite Hret.
    + intros tr _. eapply (parent_eof _ _ _ (PWaited st)); eauto.
    + simpl. lia.
  - destruct (waited_prog st Hsig) as (cont & Hc & Hret).
    eapply (parent_moves _ _ _ (PWaited st) (parent_at PFailed) _ _ []); [exact Hi|exact Hc
      |reflexivity|by rewrite Hret|exact Hpi| |].
    + intros tr <-. eapply parent_complained; [done|]. apply elem_of_app. right.
      by apply list_elem_of_singleton.
    + simpl. lia.
Qed.

Lemma parent_go killed k ps cs n buf cr pr :
  forked_inv killed k ps cs n buf cr pr -> parent_advances killed k cs n cr pr.
Proof.
  intros Hi. pose proof Hi as [Hps Hcs Hoth Hpi Hcok Hpok Hnt].
  inversion Hpok as [pt n' Hpt|pt Hpt|pt st Hpt Hdead Hsig|st Hdead Hcomp|n' buf' Hn|sig n' buf' Hk];
    subst.
  - destruct Hpt as [->|[->| ->]]; [| |by apply parent_read_go].
    + eapply (parent_moves _ _ _ PClose (parent_at PReadLoop)); [exact Hi|apply parent_close
        |reflexivity|reflexivity|exact Hpi| |].
      * intros tr _. apply parent_waits. auto.
      * simpl. lia.
    + eapply parent_turn; [exact Hi|apply parent_read_loop|done| |simpl; lia].
      apply parent_waits. auto.
  - destruct Hpt as [->| ->].
    + eapply parent_turn; [exact Hi|apply parent_got_turn|done| |simpl; lia]. apply parent_got. auto.
    + destruct parent_exit as [cont Hc]. eapply (parent_exits _ _ _ PExit); [exact Hi|exact Hc|by left].
  - by apply parent_eof_go.
  - destruct parent_failed_exit as [cont Hc].
    eapply (parent_exits _ _ _ PFailed); [exact Hi|exact Hc|]. right. split; [|done].
    inversion Hcok as [| |st' n' Hst]; subst. exists st. split; [done|]. by apply Hst.
  - unfold parent_advances. rewrite (go_dead parent k _ Hps). by do 3 eexists.
  - unfold parent_advances. rewrite (go_dead parent k _ Hps). by do 3 eexists.
Qed.

Lemma daemon_inv_more killed b k : daemon_inv killed k -> daemon_inv (killed || b) k.
Proof.
  intros [n|sig ->|ps cs n buf cr pr [Hps Hcs Hoth Hpi Hcok Hpok Hn]];
    [by eapply before_fork|by eapply killed_before_fork|].
  eapply (after_fork _ _ ps cs n buf cr pr). constructor; try done.
  destruct Hpok as [| | | | |sig n buf Hk]; [by constructor|by constructor|by eapply parent_eof
    |by eapply parent_complained|by apply parent_done|]. apply parent_killed. by rewrite Hk.
Qed.

(** The process a choice is about. *)
Definition choice_pid (ch : choice) : Z :=
  match ch with
  | Go pid | Interrupt pid | FailCall pid _ | ReturnExternal pid _ | Kill pid _ => pid
  end.

Lemma step_nobody ch k : k_procs k !! choice_pid ch = None -> sys_step ch k = k.
Proof. intros Hp. unfold sys_step. destruct ch; simpl in Hp; by rewrite Hp. Qed.

Lemma step_dead ch k st : k_procs k !! choice_pid ch = Some (PDead st) -> sys_step ch k = k.
Proof. intros Hp. unfold sys_step. destruct ch; simpl in Hp; by rewrite Hp. Qed.

(** A choice other than [Go] and [Kill] on a process that is about to make a
    call it does not concern. *)
Lemma step_call ch k p c cont :
  k_procs k !! choice_pid ch = Some (PRunning p) -> p_prog p = CCall c cont ->
  no_failing_call ch ->
  sys_step ch k =
  match ch with
  | Go pid => perform pid c cont p k
  | Interrupt pid =>
      if interruptible c
      then set_proc pid (PRunning (MkProc (cont (ret_err EINTR)) (p_fds p) (p_leader p))) k else k
  | FailCall _ _ => k
  | ReturnExternal pid v =>
      match c with
      | call_external _ => returns pid c (cont (ret_ok v)) (p_fds p) (p_leader p) (k_pipes k) k
      | _ => k
      end
  | Kill pid sig => set_proc pid (PDead (signaled sig)) k
  end.
Proof. intros Hp Hc Hch. unfold sys_step. destruct ch; simpl in Hp; by rewrite ?Hp, ?Hc. Qed.

Lemma step_loop ch k p q :
  k_procs k !! choice_pid ch = Some (PRunning p) -> turns_to (p_prog p) q ->
  sys_step ch k =
  match ch with
  | Go pid => set_proc pid (PRunning (MkProc q (p_fds p) (p_leader p))) k
  | Kill pid sig => set_proc pid (PDead (signaled sig)) k
  | _ => k
  end.
Proof.
  intros Hp (B & R & body & b & cont & Hl & <-). unfold sys_step.
  destruct ch; simpl in Hp; by rewrite Hp, ?Hl.
Qed.

(** Killing. *)
Lemma parent_killed_inv killed k ps cs n buf cr pr sig :
  forked_inv killed k ps cs n buf cr pr -> valid_signal sig ->
  daemon_inv (killed || true) (sys_step (Kill parent sig) k).
Proof.
  intros Hi Hsig. pose proof Hi as [Hps Hcs Hoth Hpi Hcok Hpok Hnt]. rewrite orb_true_r.
  assert (daemon_inv true k) as Hk.
  { rewrite <- (orb_true_r killed). apply daemon_inv_more. by eapply after_fork. }
  unfold sys_step. rewrite Hps. destruct ps as [p|st]; [|done].
  apply (after_fork _ _ (PDead (signaled sig)) cs n buf cr 0). constructor; simpl; try done.
  - by rewrite lookup_insert_eq.
  - by rewrite lookup_insert_ne.
  - intros pid H1 H2. rewrite lookup_insert_ne by done. by apply Hoth.
  - by apply parent_killed.
Qed.

Lemma child_killed_inv killed k ps cs n buf cr pr sig :
  forked_inv killed k ps cs n buf cr pr -> valid_signal sig ->
  daemon_inv killed (sys_step (Kill child sig) k).
Proof.
  intros Hi Hsig. pose proof Hi as [Hps Hcs Hoth Hpi Hcok Hpok Hnt].
  unfold sys_step. rewrite Hcs. destruct cs as [p|st]; [|by eapply after_fork].
  eapply after_fork, (forked_child killed k _ ps _ (PDead (signaled sig)) n n buf buf [] _ _ _ Hi); try done.
  - simpl. by rewrite app_nil_r.
  - by apply child_dead.
  - by eapply parent_ok_child.
  - by left.
Qed.

(** Interruptions and the return of external functions. *)
Lemma child_other killed k ps cs n buf cr pr ch :
  forked_inv killed k ps cs n buf cr pr -> no_failing_call ch -> choice_pid ch = child ->
  match ch with Interrupt _ | ReturnExternal _ _ => True | _ => False end ->
  daemon_inv killed (sys_step ch k).
Proof.
  intros Hi Hch Hpid Hkind. pose proof Hi as [Hps Hcs Hoth Hpi Hcok Hpok Hnt].
  assert (daemon_inv killed k) as Hk by by eapply after_fork.
  inversion Hcok as [pt Hdup|q Hq|st n' Hst]; subst.
  - destruct pt as [| | | | | |m].
    + rewrite (step_call ch k _ _ _ ltac:(rewrite Hpid; exact Hcs) child_close Hch). by destruct ch.
    + rewrite (step_call ch k _ _ _ ltac:(rewrite Hpid; exact Hcs) child_setsid Hch). by destruct ch.
    + rewrite (step_loop ch k _ _ ltac:(rewrite Hpid; exact Hcs) child_write_loop). by destruct ch.
    + destruct child_write as (cont & Hc & Hintr & _).
      rewrite (step_call ch k _ _ _ ltac:(rewrite Hpid; exact Hcs) Hc Hch). destruct ch; try done.
      simpl in Hpid. subst pid. simpl. rewrite Hintr.
      eapply after_fork, (forked_child killed k _ ps _ (child_at CWriteLoop) false false buf buf [] _ _ _ Hi); try done.
      * simpl. by rewrite app_nil_r.
      * by apply (child_starts CWriteLoop).
      * by eapply parent_ok_child.
    + rewrite (step_loop ch k _ _ ltac:(rewrite Hpid; exact Hcs) child_written_turn). by destruct ch.
    + destruct child_open as (cont & Hc & _).
      rewrite (step_call ch k _ _ _ ltac:(rewrite Hpid; exact Hcs) Hc Hch). by destruct ch.
    + rewrite (step_call ch k _ _ _ ltac:(rewrite Hpid; exact Hcs) (child_dup m (Hdup m eq_refl)) Hch).
      by destruct ch.
  - destruct q as [code|c cont|]; [| |done].
    + unfold sys_step. destruct ch; simpl in Hpid; subst; try done; by rewrite Hcs.
    + rewrite (step_call ch k _ c cont ltac:(rewrite Hpid; exact Hcs) eq_refl Hch).
      destruct c; try done. destruct ch; try done. simpl in Hpid. subst pid. unfold returns.
      eapply after_fork, (forked_child killed k _ ps _
        (PRunning (MkProc (cont (ret_ok value)) daemon_fds true)) true true buf buf [_] _ _ _ Hi); try done.
      * apply child_daemon, Hq.
      * by eapply parent_ok_child.
      * by left.
  - by rewrite (step_dead ch k st) by by rewrite Hpid.
Qed.

Lemma parent_other killed k ps cs n buf cr pr ch :
  forked_inv killed k ps cs n buf cr pr -> no_failing_call ch -> choice_pid ch = parent ->
  match ch with Interrupt _ | ReturnExternal _ _ => True | _ => False end ->
  daemon_inv killed (sys_step ch k).
Proof.
  intros Hi Hch Hpid Hkind. pose proof Hi as [Hps Hcs Hoth Hpi Hcok Hpok Hnt].
  assert (daemon_inv killed k) as Hk by by eapply after_fork.
  inversion Hpok as [pt n' Hpt|pt Hpt|pt st Hpt Hdead Hsig|st Hdead Hcomp|n' buf' Hn|sig n' buf' Hkd];
    subst; try (by rewrite (step_dead ch k _ ltac:(rewrite Hpid; exact Hps))).
  - destruct Hpt as [->|[->| ->]].
    + rewrite (step_call ch k _ _ _ ltac:(rewrite Hpid; exact Hps) parent_close Hch). by destruct ch.
    + rewrite (step_loop ch k _ _ ltac:(rewrite Hpid; exact Hps) parent_read_loop). by destruct ch.
    + destruct parent_read as (cont & Hc & Hintr & _).
      rewrite (step_call ch k _ _ _ ltac:(rewrite Hpid; exact Hps) Hc Hch). destruct ch; try done.
      simpl in Hpid. subst pid. simpl. rewrite Hintr.
      eapply after_fork, (forked_parent killed k _ _ (parent_at PReadLoop) cs n _ _ [] _ _ _ Hi); try done.
      * simpl. by rewrite app_nil_r.
      * apply parent_waits. auto.
  - destruct Hpt as [->| ->].
    + rewrite (step_loop ch k _ _ ltac:(rewrite Hpid; exact Hps) parent_got_turn). by destruct ch.
    + destruct parent_exit as [cont Hc].
      rewrite (step_call ch k _ _ _ ltac:(rewrite Hpid; exact Hps) Hc Hch). by destruct ch.
  - destruct Hpt as [->|[->| ->]].
    + rewrite (step_loop ch k _ _ ltac:(rewrite Hpid; exact Hps) parent_eof_turn). by destruct ch.
    + destruct parent_wait as (cont & Hc & Hintr & _).
      rewrite (step_call ch k _ _ _ ltac:(rewrite Hpid; exact Hps) Hc Hch). destruct ch; try done.
      simpl in Hpid. subst pid. simpl. rewrite Hintr.
      eapply after_fork, (forked_parent killed k _ _ (parent_at PEof) _ _ _ _ [] _ _ _ Hi); try done.
      * simpl. by rewrite app_nil_r.
      * eapply (parent_eof _ _ _ PEof); eauto.
    + destruct (waited_prog st Hsig) as (cont & Hc & _).
      rewrite (step_call ch k _ _ _ ltac:(rewrite Hpid; exact Hps) Hc Hch). by destruct ch.
  - destruct parent_failed_exit as [cont Hc].
    rewrite (step_call ch k _ _ _ ltac:(rewrite Hpid; exact Hps) Hc Hch). by destruct ch.
Qed.

Lemma forked_step killed k ps cs n buf cr pr ch :
  forked_inv killed k ps cs n buf cr pr -> no_failing_call ch ->
  daemon_inv (killed || kills_parent ch) (sys_step ch k).
Proof.
  intros Hi Hch. pose proof Hi as [Hps Hcs Hoth Hpi Hcok Hpok Hnt].
  destruct (decide (choice_pid ch = parent)) as [Hp|Hp];
    [|destruct (decide (choice_pid ch = child)) as [Hc|Hc]].
  - destruct ch; simpl in Hp; subst; try done.
    + apply daemon_inv_more. destruct (parent_go _ _ _ _ _ _ _ _ Hi) as (? & ? & ? & Hf & _).
      by eapply after_fork.
    + apply daemon_inv_more. by eapply (parent_other _ _ _ _ _ _ _ _ (Interrupt parent)).
    + apply daemon_inv_more. by eapply (parent_other _ _ _ _ _ _ _ _ (ReturnExternal parent value)).
    + by eapply parent_killed_inv.
  - destruct ch; simpl in Hc; subst; try done; try (apply daemon_inv_more).
    + destruct (child_go _ _ _ _ _ _ _ _ Hi) as (? & ? & ? & ? & Hf & _). by eapply after_fork.
    + by eapply (child_other _ _ _ _ _ _ _ _ (Interrupt child)).
    + by eapply (child_other _ _ _ _ _ _ _ _ (ReturnExternal child value)).
    + by eapply child_killed_inv.
  - rewrite step_nobody by by apply Hoth. apply daemon_inv_more. by eapply after_fork.
Qed.

Lemma start_step killed k n ch :
  (n <= 3)%nat -> k_procs k = {[parent := parent_at (PStart n)]} ->
  k_pipes k = (if decide (n < 3)%nat then [] else [[]]) -> k_next_pid k = child ->
  no_failing_call ch -> daemon_inv (killed || kills_parent ch) (sys_step ch k).
Proof.
  intros Hn Hprocs Hpipes Hnext Hch.
  assert (daemon_inv (killed || kills_parent ch) k) as Hk by by eapply before_fork.
  destruct (decide (choice_pid ch = parent)) as [Hp|Hp].
  2: { rewrite step_nobody; [done|]. rewrite Hprocs. by apply lookup_singleton_ne. }
  assert (k_procs k !! choice_pid ch = Some (parent_at (PStart n))) as Hps
    by (rewrite Hprocs, Hp; apply lookup_singleton_eq).
  assert (exists c cont, parent_prog (PStart n) = CCall c cont /\ interruptible c = false)
    as (c & cont & Hc & Hint).
  { destruct n as [|[|[|[|n]]]]; [by do 2 eexists..|lia]. }
  pose proof (step_call ch k _ _ _ Hps Hc Hch) as Hstep.
  destruct ch; simpl in Hp; subst; try done.
  - rewrite Hstep. destruct (decide (n < 2)%nat) as [Hlt|Hge].
    { destruct (parent_start n Hlt) as [name Hc']. rewrite Hc' in Hc. injection Hc as <- <-. done. }
    destruct (decide (n = 2)%nat) as [->|Hne].
    + destruct parent_pipe as (cont' & Hc' & Hret). rewrite Hc' in Hc. injection Hc as <- <-.
      simpl in Hpipes. unfold perform, sys_outcome. rewrite Hpipes.
      apply (before_fork _ _ 3); try done. cbn [k_procs returns]. rewrite Hprocs.
      rewrite insert_singleton_eq. unfold parent_at. rewrite <- Hret. done.
    + assert (n = 3)%nat as -> by lia. simpl in Hpipes.
      destruct parent_fork as (cont' & Hc' & Hpar & Hchi). rewrite Hc' in Hc. injection Hc as <- <-.
      unfold perform; cbn [sys_outcome]. rewrite Hnext, Hpar, Hchi.
      apply (after_fork _ _ (parent_at PClose) (child_at CClose) false [] 4 7).
      constructor; cbn [k_procs k_pipes k_trace returns]; try done.
      * by rewrite lookup_insert_ne, lookup_insert_eq by done.
      * by rewrite lookup_insert_eq.
      * intros pid H1 H2. by rewrite Hprocs, !lookup_insert_ne, lookup_singleton_ne by done.
      * by apply (child_starts CClose).
      * apply (parent_waits _ _ _ PClose false). auto.
  - by rewrite Hstep, Hint.
  - rewrite Hstep. destruct c; try done.
    destruct (decide (n < 2)%nat) as [Hlt|Hge].
    + destruct (parent_start n Hlt) as [name' Hc']. rewrite Hc' in Hc. injection Hc as <- <-.
      simpl in Hpipes. apply (before_fork _ _ (S n)); [lia| | |done].
      * cbn [k_procs returns]. rewrite Hprocs, insert_singleton_eq. f_equal. unfold parent_at. f_equal.
        destruct n as [|[|n]]; [done..|lia].
      * cbn [k_pipes returns]. rewrite Hpipes. by rewrite !decide_True by lia.
    + destruct n as [|[|[|[|n]]]]; try lia; discriminate Hc.
  - rewrite Hstep. simpl. rewrite orb_true_r. eapply (killed_before_fork _ _ sig); [done|].
    cbn [k_procs set_proc]. by rewrite Hprocs, insert_singleton_eq.
Qed.

Lemma daemon_step killed k ch :
  daemon_inv killed k -> no_failing_call ch -> daemon_inv (killed || kills_parent ch) (sys_step ch k).
Proof.
  intros [n Hn Hprocs Hpipes Hnext|sig Hkilled Hprocs|ps cs n buf cr pr Hi] Hch.
  - by eapply start_step.
  - assert (sys_step ch k = k) as ->.
    { destruct (decide (choice_pid ch = parent)) as [Hp|Hp].
      - apply (step_dead ch k sig). rewrite Hprocs, Hp. apply lookup_singleton_eq.
      - apply step_nobody. rewrite Hprocs. by apply lookup_singleton_ne. }
    apply daemon_inv_more. by eapply killed_before_fork.
  - by eapply forked_step.
Qed.

Lemma daemon_reachable cs :
  Forall no_failing_call cs -> daemon_inv (existsb kills_parent cs) (sys_run cs (start daemon_prog)).
Proof.
  induction cs as [|ch cs IH] using rev_ind; intros Hcs.
  - apply (before_fork _ _ 0); [lia|reflexivity..].
  - apply Forall_app in Hcs as [Hcs Hch%Forall_inv]. unfold sys_run. rewrite fold_left_app, existsb_app.
    simpl. rewrite orb_false_r. by apply daemon_step; [apply IH|].
Qed.

(** ** Properties *)

(** C39 daemon_parent_exits: when no system call fails (processes may be
    interrupted, and the child killed, at any moment) and the parent process of
    infrap4d is not killed, it can only exit with status 0: because the child
    wrote to the pipe, or, although the child was killed before it did, after a
    complaint. (The daemon writes before it calls the server: a server that does
    not start is not reported.) With a failing call it can be otherwise: see
    [daemon_fork_fails], [daemon_pipe_fails] and [daemon_notify_fails]. *)
Theorem daemon_parent_exits cs st :
  Forall no_failing_call cs -> existsb kills_parent cs = false ->
  let k := sys_run cs (start daemon_prog) in
  k_procs k !! parent = Some (PDead st) ->
  st = exited 0 /\
  ((child, notify) ∈ k_trace k \/
   (exists sig, k_procs k !! child = Some (PDead (signaled sig)) /\ valid_signal sig) /\
   (parent, complaint) ∈ k_trace k).
Proof.
  intros Hcs Hkill k Hdead. pose proof (daemon_reachable cs Hcs) as Hinv. fold k in Hinv.
  rewrite Hkill in Hinv.
  destruct Hinv as [n Hn Hp|sig Hk|ps cst n buf cr pr [Hps Hcst _ _ _ Hpok Hnt]]; [| done|].
  - by rewrite Hp, lookup_singleton_eq in Hdead.
  - rewrite Hps in Hdead. injection Hdead as ->.
    inversion Hpok as [| | | |n' buf' Hn|]; subst; [|done]. split; [done|].
    destruct Hn as [->|[(sig & -> & Hsig) Hc]]; [left; by apply Hnt|right].
    split; [|done]. by exists sig.
Qed.

Lemma child_ok_bound cs n cr : child_ok cs n cr -> (cr <= 4)%nat.
Proof. intros [pt Hdup|q Hq|st n' Hst]; [destruct pt|..]; cbn [child_rank]; lia. Qed.

Lemma child_ok_end cs n cr :
  child_ok cs n cr -> cr = 0%nat -> n = true \/ exists st, cs = PDead st.
Proof.
  intros [pt Hdup|q Hq|st n' Hst] Hcr; [|by left|by right; exists st].
  left. by destruct pt.
Qed.

Lemma parent_ok_bound killed cs tr ps n buf pr :
  parent_ok killed cs tr ps n buf pr -> (pr <= 7)%nat.
Proof.
  intros [pt n' Hpt|pt Hpt|pt st Hpt _ _|st _ _|n' buf' _|sig n' buf' _]; [..|lia|lia|lia].
  - destruct Hpt as [->|[->| ->]]; cbn [parent_rank]; lia.
  - destruct Hpt as [->| ->]; cbn [parent_rank]; lia.
  - destruct Hpt as [->|[->| ->]]; cbn [parent_rank]; lia.
Qed.

Lemma parent_ok_end killed cs tr ps n buf pr :
  parent_ok killed cs tr ps n buf pr -> pr = 0%nat -> exists st, ps = PDead st.
Proof.
  intros [pt n' _|pt _|pt st _ _ _|st _ _|n' buf' _|sig n' buf' _] Hpr;
    [by destruct pt..|done|by exists (exited 0)|by exists sig].
Qed.

Lemma sys_run_app cs1 cs2 k : sys_run (cs1 ++ cs2) k = sys_run cs2 (sys_run cs1 k).
Proof. apply fold_left_app. Qed.

Lemma child_runs killed k ps cs n buf cr pr m :
  forked_inv killed k ps cs n buf cr pr ->
  exists cs' n' buf' cr',
    forked_inv killed (sys_run (replicate m (Go child)) k) ps cs' n' buf' cr' pr /\
    (cr' <= cr - m)%nat.
Proof.
  revert k cs n buf cr. induction m as [|m IH]; intros k cs n buf cr Hi.
  - exists cs, n, buf, cr. split; [done|lia].
  - destruct (child_go _ _ _ _ _ _ _ _ Hi) as (cs1 & n1 & buf1 & cr1 & Hi1 & Hle).
    destruct (IH _ _ _ _ _ Hi1) as (cs2 & n2 & buf2 & cr2 & Hi2 & Hle2).
    exists cs2, n2, buf2, cr2. split; [exact Hi2|lia].
Qed.

Lemma parent_runs killed k ps cs n buf cr pr m :
  forked_inv killed k ps cs n buf cr pr -> n = true \/ (exists st, cs = PDead st) ->
  exists ps' buf' pr',
    forked_inv killed (sys_run (replicate m (Go parent)) k) ps' cs n buf' cr pr' /\
    (pr' <= pr - m)%nat.
Proof.
  intros Hi Hready. revert k ps buf pr Hi. induction m as [|m IH]; intros k ps buf pr Hi.
  - exists ps, buf, pr. split; [done|lia].
  - destruct (parent_go _ _ _ _ _ _ _ _ Hi) as (ps1 & buf1 & pr1 & Hi1 & Hle).
    specialize (Hle Hready). destruct (IH _ _ _ _ Hi1) as (ps2 & buf2 & pr2 & Hi2 & Hle2).
    exists ps2, buf2, pr2. split; [exact Hi2|lia].
Qed.

(** C18 daemon_parent_ends: from every state that infrap4d can reach after its
    fork without a failing system call, however the processes ran, were
    interrupted or killed, four steps of the child and seven of the parent end
    the parent: it waits neither for the server nor, since it closed its own end
    of the pipe, for a child that died. *)
Theorem daemon_parent_ends cs :
  Forall no_failing_call cs ->
  let k := sys_run cs (start daemon_prog) in
  is_Some (k_procs k !! child) ->
  exists st,
    k_procs (sys_run (replicate 4 (Go child) ++ replicate 7 (Go parent)) k) !! parent =
      Some (PDead st).
Proof.
  intros Hcs k Hchild. pose proof (daemon_reachable cs Hcs) as Hinv. fold k in Hinv.
  destruct Hinv as [n Hn Hp|sig Hk Hp|ps cst n buf cr pr Hi].
  - rewrite Hp, lookup_singleton_ne in Hchild by done. by destruct Hchild.
  - rewrite Hp, lookup_singleton_ne in Hchild by done. by destruct Hchild.
  - pose proof (child_ok_bound _ _ _ (fi_child_ok _ _ _ _ _ _ _ _ Hi)) as Hcr.
    pose proof (parent_ok_bound _ _ _ _ _ _ _ (fi_parent_ok _ _ _ _ _ _ _ _ Hi)) as Hpr.
    destruct (child_runs _ _ _ _ _ _ _ _ 4 Hi) as (cs1 & n1 & buf1 & cr1 & Hi1 & Hle1).
    assert (n1 = true \/ exists st, cs1 = PDead st) as Hready
      by (eapply child_ok_end; [exact (fi_child_ok _ _ _ _ _ _ _ _ Hi1)|lia]).
    destruct (parent_runs _ _ _ _ _ _ _ _ 7 Hi1 Hready) as (ps2 & buf2 & pr2 & Hi2 & Hle2).
    destruct (parent_ok_end _ _ _ _ _ _ _ (fi_parent_ok _ _ _ _ _ _ _ _ Hi2) ltac:(lia)) as [st ->].
    exists st. rewrite sys_run_app. exact (fi_parent _ _ _ _ _ _ _ _ Hi2).
Qed.

(** C19 daemon_environment: in every state reached without a failing system
    call (processes may be interrupted or killed at any moment) in which the
    child is about to call another project (krnlmon, the server), it leads a
    session, its standard descriptors are /dev/null, and it has notified its
    parent. It still has the pipe open. The code calls the server after a
    failing call too, in another environment: see [daemon_open_fails] and
    [daemon_notify_fails]. *)
Theorem daemon_environment cs p name cont :
  Forall no_failing_call cs ->
  let k := sys_run cs (start daemon_prog) in
  k_procs k !! child = Some (PRunning p) -> p_prog p = CCall (call_external name) cont ->
  p_leader p = true /\
  p_fds p = {[0 := FNull; 1 := FNull; 2 := FNull; 3 := FNull; 4 := FPipeW 0]} /\
  (child, notify) ∈ k_trace k.
Proof.
  intros Hcs k Hchild Hcall. pose proof (daemon_reachable cs Hcs) as Hinv. fold k in Hinv.
  destruct Hinv as [n Hn Hp|sig Hk Hp|ps cst n buf cr pr [_ Hcst _ _ Hcok _ Hnt]].
  - by rewrite Hp, lookup_singleton_ne in Hchild.
  - by rewrite Hp, lookup_singleton_ne in Hchild.
  - rewrite Hcst in Hchild. injection Hchild as ->. inversion Hcok as [pt Hdup Heq|q Hq|]; subst.
    + destruct (child_not_external pt name Hdup). cbn [p_prog] in Hcall. by rewrite Hcall.
    + split; [done|]. split; [done|]. by apply Hnt.
Qed.
End OnKernel.

(** *** Schedules *)

(** Up to the fork. *)
Definition to_fork : list choice :=
  [ReturnExternal parent 0; ReturnExternal parent 0; Go parent; Go parent].

(** The parent waits, is interrupted while it reads, and the child notifies it. *)
Definition notified_schedule : list choice :=
  to_fork ++ [Go parent; Go parent; Interrupt parent] ++ replicate 4 (Go child) ++
  replicate 4 (Go parent).

(** The child is killed before it can notify the parent. *)
Definition killed_schedule : list choice :=
  to_fork ++ [Go parent; Go child; Kill child 9; Go parent; Go parent; Go parent; Interrupt parent;
    Go parent; Go parent; Go parent; Go parent].

(** The daemon reaches the server. *)
Definition server_schedule : list choice := notified_schedule ++ replicate 5 (Go child).

Ltac schedule := repeat (constructor; [first [exact I|by unfold no_failing_call, valid_signal; lia]|]);
  constructor.

Lemma daemon_parent_exits_witness :
  let k := sys_run killed_schedule (start (daemon_prog true)) in
  exited 0 = exited 0 /\
  ((child, notify) ∈ k_trace k \/
   (exists sig, k_procs k !! child = Some (PDead (signaled sig)) /\ valid_signal sig) /\
   (parent, complaint) ∈ k_trace k).
Proof.
  apply (daemon_parent_exits true killed_schedule (exited 0)).
  - schedule.
  - reflexivity.
  - vm_compute; reflexivity.
Defined.

Lemma daemon_parent_ends_witness :
  exists st,
    k_procs (sys_run (replicate 4 (Go child) ++ replicate 7 (Go parent))
      (sys_run (to_fork ++ [Go child; Kill child 9]) (start (daemon_prog false)))) !! parent =
      Some (PDead st).
Proof.
  apply (daemon_parent_ends false (to_fork ++ [Go child; Kill child 9])).
  - schedule.
  - vm_compute. eexists; reflexivity.
Defined.

Lemma daemon_environment_witness :
  exists p, k_procs (sys_run server_schedule (start (daemon_prog true))) !! child = Some (PRunning p) /\
    p_leader p = true /\
    p_fds p = {[0 := FNull; 1 := FNull; 2 := FNull; 3 := FNull; 4 := FPipeW 0]} /\
    (child, notify) ∈ k_trace (sys_run server_schedule (start (daemon_prog true))).
Proof.
  eexists. split; [|eapply (daemon_environment true server_schedule)].
  - vm_compute; reflexivity.
  - schedule.
  - vm_compute; reflexivity.
  - reflexivity.
Defined.

(** The complaint of the parent is followed by a successful exit. *)
Lemma daemon_killed_child :
  let k := sys_run killed_schedule (start (daemon_prog true)) in
  drop 8 (k_trace k) = [(parent, complaint); (parent, sys_exit 0)] /\
  k_procs k !! parent = Some (PDead (exited 0)) /\
  k_procs k !! child = Some (PDead 9).
Proof. vm_compute. split; [reflexivity|]. split; reflexivity. Qed.

(** When it cannot fork, infrap4d does not exit: the process that was started
    becomes the daemon, notifies nobody, and keeps both ends of the pipe. *)
Lemma daemon_fork_fails :
  let k := sys_run ([ReturnExternal parent 0; ReturnExternal parent 0; Go parent;
      FailCall parent (ret_err 11)] ++ replicate 9 (Go parent)) (start (daemon_prog true)) in
  map snd (drop 3 (k_trace k)) =
    [sys_fork; sys_printf "fork failed"; sys_setsid; sys_open "/dev/null"; sys_dup2 5 0;
     sys_dup2 5 1; sys_dup2 5 2] /\
  exists p cont, k_procs k !! parent = Some (PRunning p) /\
    p_prog p = CCall (call_external "stratum::hal::tdi::Main") cont.
Proof. vm_compute. split; [reflexivity|]. do 2 eexists. split; reflexivity. Qed.

(** Without its pipe it goes on with whatever the descriptors of [fds] were: the
    child cannot notify the parent, which waits for the server and exits with
    its code. *)
Lemma daemon_pipe_fails :
  let k := sys_run ([ReturnExternal parent 0; ReturnExternal parent 0;
      FailCall parent (MkAnswer (-1) 24 [5; 6]); Go parent; Go parent] ++
      replicate 11 (Go child) ++ [ReturnExternal child 1; Go child] ++ replicate 9 (Go parent))
      (start (daemon_prog true)) in
  drop 14 (k_trace k) =
    [(child, sys_exit 1); (parent, sys_close 6); (parent, sys_read 5 1);
     (parent, sys_waitpid child); (parent, sys_exit 1)] /\
  k_procs k !! parent = Some (PDead (exited 1)).
Proof. vm_compute. split; reflexivity. Qed.

(** When the child cannot write to the pipe, it calls the server all the same,
    and its parent has the exit code of the server. *)
Lemma daemon_notify_fails :
  let k := sys_run (to_fork ++ replicate 3 (Go child) ++ [FailCall child (ret_err 32)] ++
      replicate 8 (Go child) ++ [ReturnExternal child 1; Go child] ++ replicate 9 (Go parent))
      (start (daemon_prog true)) in
  map snd (drop 6 (k_trace k)) =
    [notify; sys_printf "pipe write failed "; sys_open "/dev/null"; sys_dup2 3 0; sys_dup2 3 1;
     sys_dup2 3 2; call_external "stratum::hal::tdi::Main"; sys_exit 1; sys_close 4; sys_read 3 1;
     sys_waitpid child; sys_exit 1] /\
  k_procs k !! parent = Some (PDead (exited 1)).
Proof. vm_compute. split; reflexivity. Qed.

(** When the child cannot open /dev/null, it calls the server with the
    descriptors it was started with. *)
Lemma daemon_open_fails :
  let k := sys_run (to_fork ++ replicate 5 (Go child) ++ [FailCall child (ret_err 24)] ++
      replicate 7 (Go child)) (start (daemon_prog true)) in
  exists p cont, k_procs k !! child = Some (PRunning p) /\
    p_prog p = CCall (call_external "stratum::hal::tdi::Main") cont /\
    p_fds p = {[0 := FStream 0; 1 := FStream 1; 2 := FStream 2; 4 := FPipeW 0]}.
Proof. vm_compute. do 2 eexists. split; [reflexivity|]. split; reflexivity. Qed.
